(* ===== verification/_CoqProject ===== *)
-Q . S2P
Prelude.v
GoString.v
AsciiText.v
FilePath.v
GoTime.v
GoTimeParse.v
GoError.v
Effects.v
OsFs.v
Table.v
Schema.v
Json.v
JsonIndent.v
Redaction.v
Agent.v
Metrics.v
GoFloat.v
Dto.v
DtoJson.v
TaskRepo.v
AgentServices.v
AgentClient.v
AgentClientProps.v
Dashboard.v
TaskPayload.v
BackupApi.v
BackupRepo.v
Crypto.v
Base64.v
Aes.v
Encryption.v
JsonText.v
SettingRepo.v
SettingService.v
SettingProps.v
BackupService.v
BackupNames.v
BackupSystem.v
BackupArtifact.v
BackupVerify.v
BackupVerdict.v
BackupRetention.v
BackupExamples.v
TaskService.v
TaskSystem.v
TaskWorker.v
TaskLiveness.v
TaskMetrics.v
TaskProps.v
TaskExamples.v
AuditRepo.v
Csv.v
AuditService.v
AuditProps.v
AuditExamples.v
Paging.v
FileService.v
LoginLimiter.v
RedisLimiter.v
UserRepo.v
AuthService.v
AuthSystem.v
AuthProps.v
AuthExamples.v
GoDuration.v
Config.v
ConfigProps.v
Startup.v
StartupProps.v
StartupExamples.v
Http.v
Observed.v
Access.v
AccessExamples.v
Panel.v
Handlers.v
HandlerProps.v
Server.v
HandlerExamples.v
