(* ===== verification/Prelude.v ===== *)
(** * SnowPanel backend: a verification library

    SnowPanel is a server panel: a Go backend ([src/backend]) that authenticates
    users, forwards requests to an agent on the host over gRPC, and runs long
    operations as durable tasks in PostgreSQL.  This library models the
    backend's own logic and proves what makes it correct.

    ** The parts and their files

    - Foundations.  [GoString], [AsciiText]: strings as bytes read as UTF-8, and the
      parts of [strings], [strconv] and [unicode] the backend uses.  [GoTime],
      [GoTimeParse]: calendar, durations and the layouts that are parsed.
      [GoError]: the dynamic error types and [internal/apperror].  [Json],
      [JsonIndent]: [encoding/json].  [Csv]: [encoding/csv].  [FilePath], [OsFs]:
      [path/filepath] and the file system behind [os].  [Crypto]: SHA-256, hex and
      base64, and the classes [Bcrypt] and (in [AuthService]) [JWT] for the packages
      outside the standard library.  [Table]: SQL over lists of rows.  [Schema],
      [Dto], [DtoJson]: the structs of [internal/model] and [internal/dto], the
      latter with their JSON.
    - [Effects]: a Go function that reads the clock, the database or the agent is
      a program, a tree of operations.  [run] executes one program alone;
      [psteps] interleaves the operations of several goroutines, one statement
      being atomic; [all_ops], [results] and [wp] are the ways to reason about
      them; [embed] runs a program of one component inside another.
    - Tasks.  [TaskRepo] is [repository/task_repository.go]: every statement over
      the tables with the constraints of the migrations.  [TaskPayload] and
      [TaskService] are [service/task_service.go], every method and goroutine as
      a program over the operations [task_op] (statements, agent calls, backup
      calls, the clock, [go], channels, contexts).  [TaskSystem] gives the world
      they run in; [BackupApi] is the interface of the backup service as a class
      that a task needs.  [TaskWorker], [TaskLiveness], [TaskMetrics], [TaskProps]
      and [TaskExamples] hold the properties and concrete executions.
    - Backups.  [BackupRepo] is [repository/backup_repository.go], [BackupService]
      [service/backup_service.go], every method over statements, the file system
      and the clock; [BackupSystem] executes them with faults and gives the
      instance of [BackupApi]; [BackupNames], [BackupArtifact], [BackupVerify],
      [BackupVerdict], [BackupRetention] and [BackupExamples] hold the properties.
    - Authentication.  [UserRepo] is [repository/user_repository.go]; [AuthService]
      is [service/auth_service.go], every method a program; [AuthSystem] executes
      them, with database faults; [AuthProps] and [AuthExamples] hold the
      properties, the instances of the classes and the concrete executions.
    - Login throttling.  [LoginLimiter] is [security/login_attempt_limiter.go]
      with [AuthHandler.Login]'s use of it; the Go interface [LoginAttemptGuard] is
      a class with the memory limiter and, in [RedisLimiter], the limiter of
      [security/login_attempt_limiter_redis.go] as instances.  The Redis server is
      a class with the documented laws of its commands.
    - Files.  [FileService] is [service/file_service.go], with the loops that move
      a file in chunks.
    - Agent requests.  [Agent] is the interface of [grpcclient]; [AgentServices]
      forwards Docker, systemd and cron requests and maps the agent's errors.
    - The agent's client.  [AgentClient] is [grpcclient/agent_client.go] and
      [requestctx]: every method of the interface of [Agent] over a connection,
      with the messages of the protocol; [AgentClientProps] relates it to the
      interface the services are written against.  [Dashboard] is
      [service/dashboard_service.go].
    - Settings.  [Base64], [Aes]: [encoding/base64], [crypto/aes] and GCM,
      executable.  [Encryption] is [security/encryption.go]; [SettingRepo],
      [SettingService] and [SettingProps] are the table of settings, its service
      over the encryptor and their properties; [JsonText] says that what is
      printed as JSON fits a text column.
    - Metrics.  [Metrics] is [metrics/metrics.go], with the floating point numbers
      of the gauges; [GoFloat] prints them as [encoding/json] does.
    - Configuration and start.  [GoDuration] is [time.ParseDuration], [Config]
      [config/config.go] over the class [Viper], [ConfigProps] what an accepted
      configuration gives to the components; [Startup] is [cmd/server/main.go]
      with the connection to the database and the choice of the limiter;
      [StartupProps], [StartupExamples].
    - Redaction.  [Redaction] is [security/redaction.go].
    - Audit.  [AuditRepo] is [repository/audit_repository.go], [AuditService]
      [service/audit_service.go] with its exports; [AuditProps], [AuditExamples].
    - Lists.  [Paging] is about the pages of [ListTasks], [backupService.List] and
      [auditService.List] over their repositories.
    - The server.  [Http] has the requests and responses, the table of routes and
      the middleware of [internal/api] and [internal/middleware]; [Access] and
      [AccessExamples] what they let through; [Observed] the middleware around
      them that recovers from panics, counts and logs.  [Panel] puts all components into
      one world, [Handlers] is [api/handler], the handler of every route as a
      program over the services, [HandlerProps] and [HandlerExamples] what the
      handlers record; [Server] is the whole chain of [NewRouter] around them.

    ** What the theorems show

    - Task table: in every interleaving of requests, workers and heartbeats the
      rows stay well formed ([interleaving_db_ok]); a claim takes the oldest
      claimable task and is exclusive while its lease is respected
      ([ClaimNextTask_spec], [lease_exclusive], [lock_fencing]); a worker never
      exceeds its slots ([worker_slots]), and what is due is executed: while
      nothing fails and nobody stops it, the worker and its tasks can go on until
      nothing claimable is left ([due_tasks_executed]).  What its series count is
      covered by claims ([completions_within_claims]); creation is idempotent per key
      ([create_idempotent]); an undisturbed execution refines an abstract
      specification ([runClaimedTask_refines]).  [stale_last_attempt_stuck],
      [late_worker_resurrects], [cancel_can_be_lost],
      [refused_completion_counted] and [repeated_backup_orphaned] are executions
      in which the code does not do what it means to.
    - Lists: walking through the pages gives every row once, newest first
      ([pages_cover_listings]), where rows have different times, pages at most
      100 items and the offset fits an [int]; [ties_repeat],
      [capped_page_size] and [wrapped_page] show what happens elsewhere.
    - Sessions: each new session of a user ends the older ones, for ever
      ([session_superseded]); what a token must show to be accepted, how tokens
      read back, what each login and password change answers and stores; the
      default rights and the rights read for a user; [one_session_limits] shows
      where the promise ends.
    - Access: no handler runs for a caller whom the policy of its route does not
      admit ([access_control]), and each decision is the one the session and the
      rights call for ([gate_decides]).  What is done is recorded, once in the
      audit and once in the access log, under one request identifier, and counted
      ([requests_observed]); entries are redacted ([Record_spec]); exports,
      queries and the clean-up of the audit ([Export_spec], [audit_day_filter],
      [audit_cleanup_spec]).
    - The agent: a call of the client sends one request with the deadline, the
      request id and the token it is due, closes its connection, counts it, and
      every error is one the services know ([agent_call]); over a faithful
      connection a service cannot tell the client from the agent
      ([client_transparent]).
    - Settings: what is written is read, encrypted or not, under its key and no
      other ([settings_roundtrip]); exactly the texts that open to an envelope of
      the current version are decrypted, those of [Encrypt] among them
      ([Decrypt_spec]).
    - Configuration: what is accepted is what the components run with
      ([Load_as_written]); the process starts its server and its worker only with
      an accepted configuration and the key of what is stored encrypted, and
      closes what it has opened ([main_starts_checked]).
    - Throttling: at most [maxFailures] guesses per window, exact locks, and the
      fallback of the Redis limiter ([logins_throttled], [lockout],
      [redis_lockout], [outage_is_memory]); the handler of the server is the one
      these are about ([Login_refines]).
    - Backups: a backup that is created verifies ([create_then_verify]); what a
      verification accepts ([VerifyArtifact_verdict], [VerifyArtifact_sound]); no
      fault harms another row or file ([CreateArtifact_fault_safe],
      [CleanupRetention_safe]); rows keep their form in every interleaving
      ([backups_stay_wf]).
    - Files: a download is the requested slice, an upload writes the stream, and
      both end.  Redaction: nothing below a sensitive key can be read off the
      result.

    ** Conventions

    Integers are [Z]; where Go's width matters the wrap-around is written out
    ([swrap], [wrap]).  Times and durations are nanoseconds.  A database
    statement can fail before or after its effect ([fault]); the environment of a
    world gives faults, clock readings and answers by the number of operations
    done so far, and theorems hold for every environment unless they say
    otherwise.  Loops that need not end ([download_loop], [upload_loop]) take
    fuel; the theorems give the fuel that is enough (one more than the bytes or
    chunks that can be moved).  The worker's endless loop is cut into one program
    per iteration that asks for the next one, so it needs none.

    A transfer of the file handlers takes the fuel as the field [dp_Chunks], and
    a transfer it does not see the end of answers [transferring].

    ** Not modelled

    - The wire of gRPC and the generated code of the protocol (the client is
      written over its messages), the logger, tracing spans, the registration of
      the series with Prometheus and its handler ([dp_Metrics]), what gin answers
      to a body it cannot encode ([dp_Unrendered]), the rows of [model/schema.go]
      that no code reads, the frontend and the agent itself.
    - The services record their metrics as operations; [Metrics] says what the
      operations do to the series.
    - The values of the environment are the class [Viper]: which keys are set,
      and how it casts a text to a type.  What [crypto/rand] gives is an answer of
      the environment.
    - What gin makes of a path is the class [Gin], with the law that a route that
      is found is in the table and has the method; what it makes of a body or a
      query is the class [Binding].  PostgreSQL's INET and JSONB are the class
      [Postgres].  Headers of a response are kept for downloads and exports, but
      for the sniffed content type.
    - [json] numbers keep their literal where Go goes through [float64];
      [strconv.Quote] takes every rune above U+00FF for printable.
    - Permissions, owners, [fsync] and errors of [Close] of the file system; the
      size of the chunks in which [bufio] passes an export on is left to the
      environment.
    - A backup method inside the task system is one atomic step; alone
      ([BackupSystem]) its operations interleave. *)

From Stdlib Require Import ZArith Lia.
From stdpp Require Export base tactics list strings option pretty sorting.

#[global] Open Scope Z_scope.

(** ** Tactics shared by the development *)

(** Case analysis on the scrutinee of the first [match] or [if] of the goal
    whose scrutinee holds no [match] itself. *)
Ltac case_goal :=
  match goal with
  | |- context [match ?x with _ => _ end] =>
      lazymatch x with
      | context [match _ with _ => _ end] => fail
      | _ => destruct x eqn:?
      end
  end.

(** The same in a hypothesis. *)
Ltac case_hyp H :=
  match type of H with
  | context [match ?x with _ => _ end] =>
      lazymatch x with
      | context [match _ with _ => _ end] => fail
      | _ => destruct x eqn:?
      end
  end.

(** Boolean tests of the code turned into propositions. *)
Ltac breflect :=
  repeat match goal with
  | H : (_ && _)%bool = true |- _ => apply andb_prop in H as [? ?]
  | H : (_ || _)%bool = false |- _ => apply orb_false_elim in H as [? ?]
  | H : negb _ = true |- _ => apply negb_true_iff in H
  | H : negb _ = false |- _ => apply negb_false_iff in H
  | H : (_ =? _) = true |- _ => apply Z.eqb_eq in H
  | H : (_ =? _) = false |- _ => apply Z.eqb_neq in H
  | H : (_ <? _) = true |- _ => apply Z.ltb_lt in H
  | H : (_ <? _) = false |- _ => apply Z.ltb_ge in H
  | H : (_ <=? _) = true |- _ => apply Z.leb_le in H
  | H : (_ <=? _) = false |- _ => apply Z.leb_gt in H
  | H : (_ =? _)%string = true |- _ => apply String.eqb_eq in H
  | H : (_ =? _)%string = false |- _ => apply String.eqb_neq in H
  end.

(** ** Machine integers *)

Definition wrap (w z : Z) : Z := z mod 2 ^ w.

(** Two's complement wrap-around of Go's signed integers. *)
Definition swrap (w z : Z) : Z :=
  let u := z mod 2 ^ w in if u <? 2 ^ (w - 1) then u else u - 2 ^ w.

Definition int64_min : Z := - 2 ^ 63.
Definition int64_max : Z := 2 ^ 63 - 1.
Definition uint64_max : Z := 2 ^ 64 - 1.

(** [in_int64 z] : [z] is a value of Go's [int64]. *)
Definition in_int64 (z : Z) : bool := (int64_min <=? z) && (z <=? int64_max).

Lemma swrap_small w z : 0 < w -> - 2 ^ (w - 1) <= z < 2 ^ (w - 1) -> swrap w z = z.
Proof.
  intros Hw Hz. unfold swrap.
  assert (E : 2 ^ w = 2 * 2 ^ (w - 1)).
  { rewrite <- Z.pow_succ_r by lia. f_equal; lia. }
  destruct (decide (0 <= z)) as [Hp|Hn].
  - rewrite Z.mod_small by lia. destruct (Z.ltb_spec z (2 ^ (w - 1))); lia.
  - replace (z mod 2 ^ w) with (z + 2 ^ w).
    + destruct (Z.ltb_spec (z + 2 ^ w) (2 ^ (w - 1))); lia.
    + symmetry. rewrite <- (Z.mod_add z 1) by lia. rewrite Z.mul_1_l.
      apply Z.mod_small. lia.
Qed.

(** ** Durations and times

    A [time.Duration] and a [time.Time] (as nanoseconds since the Unix epoch)
    are integers. *)
Definition Nanosecond : Z := 1.
Definition Millisecond : Z := 1000000.
Definition Second : Z := 1000000000.
Definition Minute : Z := 60 * Second.
Definition Hour : Z := 60 * Minute.

(** The zero value of [time.Time]: 1 January of the year 1. *)
Definition zero_time : Z := -62135596800 * Second.

(** ** Generic list lemmas *)

(** [drop_while p l] : [l] without its longest prefix of elements where [p] holds. *)
Fixpoint drop_while {A} (p : A -> bool) (l : list A) : list A :=
  match l with
  | [] => []
  | x :: l' => if p x then drop_while p l' else l
  end.

Definition drop_while_end {A} (p : A -> bool) (l : list A) : list A :=
  reverse (drop_while p (reverse l)).

Lemma drop_while_suffix {A} (p : A -> bool) l : exists k, l = k ++ drop_while p l.
Proof.
  induction l as [|x l [k IH]]; simpl; [by exists []|].
  destruct (p x); [exists (x :: k); simpl; congruence | by exists []].
Qed.

Lemma drop_while_end_prefix {A} (p : A -> bool) l : exists k, l = drop_while_end p l ++ k.
Proof.
  unfold drop_while_end. destruct (drop_while_suffix p (reverse l)) as [k Hk].
  exists (reverse k). rewrite <- reverse_app, <- Hk. by rewrite reverse_involutive.
Qed.

Lemma drop_while_head {A} (p : A -> bool) l x k : drop_while p l = x :: k -> p x = false.
Proof.
  induction l as [|y l IH]; simpl; [done|]. destruct (p y) eqn:E; [done|]. by intros [= -> ->].
Qed.

Lemma drop_while_id {A} (p : A -> bool) l :
  (forall x k, l = x :: k -> p x = false) -> drop_while p l = l.
Proof. destruct l as [|x l]; simpl; [done|]. intros H. by rewrite (H x l eq_refl). Qed.

Lemma drop_while_idem {A} (p : A -> bool) l : drop_while p (drop_while p l) = drop_while p l.
Proof. apply drop_while_id. intros x k E. by eapply drop_while_head. Qed.

Lemma drop_while_end_idem {A} (p : A -> bool) l :
  drop_while_end p (drop_while_end p l) = drop_while_end p l.
Proof. unfold drop_while_end. by rewrite reverse_involutive, drop_while_idem. Qed.

(** Trimming the end keeps a head that is not trimmed. *)
Lemma drop_while_end_head {A} (p : A -> bool) l :
  drop_while p l = l -> drop_while p (drop_while_end p l) = drop_while_end p l.
Proof.
  intros Hl. apply drop_while_id. intros x k E.
  destruct (drop_while_end_prefix p l) as [k' Hk']. rewrite E in Hk'.
  rewrite Hk' in Hl. simpl in Hl. destruct (p x) eqn:Ep; [|done].
  exfalso. destruct (drop_while_suffix p (k ++ k')) as [q Hq].
  apply (f_equal length) in Hl. apply (f_equal length) in Hq.
  rewrite ?length_app in Hq. simpl in *. rewrite ?length_app in Hl. lia.
Qed.

Lemma forallb_Forall {A} (p : A -> bool) l : forallb p l = true <-> Forall (fun x => p x = true) l.
Proof.
  induction l as [|x l IH]; simpl; [by split|].
  rewrite andb_true_iff, IH. split; [intros [? ?]; by constructor | by inversion 1].
Qed.

(** ** The hint database of the development *)
Create HintDb snow discriminated.
#[export] Hint Resolve drop_while_idem drop_while_end_idem : snow.
#[export] Hint Constants Transparent : snow.
