(* ===== verification/GoString.v ===== *)
(** * Go strings

    Go strings are byte sequences read as UTF-8: [string] holds the bytes, and
    [segs] cuts it into the runes that [for _, ch := range s] visits (an
    invalid byte is the rune U+FFFD of width one).  On top of it, the functions
    of the packages [strings], [unicode], [strconv] that the backend calls.
    [ToLower] knows the Latin-1, Greek and Cyrillic letters and the two letters
    whose lower case is ASCII (U+0130, U+212A), which is all that comparing
    with an ASCII literal depends on; other letters are left unchanged. *)

From Stdlib Require Import ZArith Lia Ascii DecimalString DecimalZ.
From S2P Require Import Prelude.

Definition byte (a : ascii) : Z := Z.of_N (N_of_ascii a).
Definition chr (z : Z) : ascii := ascii_of_N (Z.to_N z).

(** ** UTF-8 *)

Definition RuneError : Z := 65533.

Definition is_cont (lo hi : Z) (a : ascii) : bool := (lo <=? byte a) && (byte a <=? hi).

(** The bits of a continuation byte. *)
Definition low6 (a : ascii) : Z := Z.land (byte a) 63.

(** [DecodeRuneInString]: the first rune and its width in bytes. *)
Definition decode_rune (s : string) : Z * nat :=
  match s with
  | EmptyString => (RuneError, O)
  | String a s1 =>
    let b0 := byte a in
    if b0 <? 128 then (b0, 1%nat)
    else if b0 <? 194 then (RuneError, 1%nat)
    else if b0 <? 224 then
      match s1 with
      | String b _ =>
        if is_cont 128 191 b then (Z.land b0 31 * 64 + low6 b, 2%nat) else (RuneError, 1%nat)
      | _ => (RuneError, 1%nat)
      end
    else if b0 <? 240 then
      match s1 with
      | String b (String c _) =>
        let lo := if b0 =? 224 then 160 else 128 in
        let hi := if b0 =? 237 then 159 else 191 in
        if is_cont lo hi b && is_cont 128 191 c
        then (Z.land b0 15 * 4096 + low6 b * 64 + low6 c, 3%nat) else (RuneError, 1%nat)
      | _ => (RuneError, 1%nat)
      end
    else if b0 <? 245 then
      match s1 with
      | String b (String c (String d _)) =>
        let lo := if b0 =? 240 then 144 else 128 in
        let hi := if b0 =? 244 then 143 else 191 in
        if is_cont lo hi b && is_cont 128 191 c && is_cont 128 191 d
        then (Z.land b0 7 * 262144 + low6 b * 4096 + low6 c * 64 + low6 d, 4%nat)
        else (RuneError, 1%nat)
      | _ => (RuneError, 1%nat)
      end
    else (RuneError, 1%nat)
  end.

(** [utf8.AppendRune]: surrogates and runes out of range give U+FFFD. *)
Definition encode_rune (r : Z) : string :=
  let r := if (r <? 0) || (1114111 <? r) || ((55296 <=? r) && (r <=? 57343)) then RuneError else r in
  if r <? 128 then String (chr r) ""
  else if r <? 2048 then String (chr (192 + r / 64)) (String (chr (128 + r mod 64)) "")
  else if r <? 65536 then
    String (chr (224 + r / 4096))
      (String (chr (128 + r / 64 mod 64)) (String (chr (128 + r mod 64)) ""))
  else
    String (chr (240 + r / 262144)) (String (chr (128 + r / 4096 mod 64))
      (String (chr (128 + r / 64 mod 64)) (String (chr (128 + r mod 64)) ""))).

(** The first [n] bytes. *)
Fixpoint take_bytes (n : nat) (s : string) : string :=
  match n, s with
  | S k, String a s' => String a (take_bytes k s')
  | _, _ => ""
  end.

(** All but the first [n] bytes. *)
Fixpoint skip_bytes (n : nat) (s : string) : string :=
  match n, s with
  | S k, String _ s' => skip_bytes k s'
  | _, _ => s
  end.

(** The runes of [s], each with its bytes; [skip] bytes at the front belong to
    a rune already listed. *)
Fixpoint segs_from (skip : nat) (s : string) : list (Z * string) :=
  match s with
  | EmptyString => []
  | String _ s' =>
    match skip with
    | S k => segs_from k s'
    | O => let '(r, w) := decode_rune s in (r, take_bytes w s) :: segs_from (w - 1) s'
    end
  end.

Definition segs (s : string) : list (Z * string) := segs_from 0 s.

(** The runes a [range] loop visits. *)
Definition runes (s : string) : list Z := (segs s).*1.

Fixpoint concat_str (l : list string) : string :=
  match l with
  | [] => ""
  | x :: l' => (x +:+ concat_str l')%string
  end.

Definition unsegs (l : list (Z * string)) : string := concat_str l.*2.

(** ** [unicode] and [strings] *)

(** [unicode.IsSpace]. *)
Definition IsSpace (r : Z) : bool :=
  ((9 <=? r) && (r <=? 13)) || (r =? 32) || (r =? 133) || (r =? 160) || (r =? 5760)
  || ((8192 <=? r) && (r <=? 8202)) || (r =? 8232) || (r =? 8233) || (r =? 8239)
  || (r =? 8287) || (r =? 12288).

(** [unicode.IsControl]: category Cc. *)
Definition IsControl (r : Z) : bool :=
  ((0 <=? r) && (r <=? 31)) || ((127 <=? r) && (r <=? 159)).

Definition lower_rune (r : Z) : Z :=
  if (65 <=? r) && (r <=? 90) then r + 32
  else if (192 <=? r) && (r <=? 222) && negb (r =? 215) then r + 32
  else if r =? 304 then 105
  else if (913 <=? r) && (r <=? 939) && negb (r =? 930) then r + 32
  else if (1040 <=? r) && (r <=? 1071) then r + 32
  else if (1024 <=? r) && (r <=? 1039) then r + 80
  else if r =? 8490 then 107
  else if r =? 8491 then 229
  else r.

(** The representative of the orbit of a rune under [unicode.SimpleFold]. *)
Definition fold_rune (r : Z) : Z :=
  if r =? 304 then 304 else if r =? 383 then 115 else lower_rune r.

Definition space_seg (x : Z * string) : bool := IsSpace x.1.

(** [strings.TrimSpace]. *)
Definition TrimSpace (s : string) : string :=
  unsegs (drop_while_end space_seg (drop_while space_seg (segs s))).

(** [strings.ToLower]: [strings.Map unicode.ToLower], which replaces an invalid
    byte by U+FFFD unless the whole string is ASCII. *)
Definition ToLower (s : string) : string :=
  concat_str (map (fun r => encode_rune (lower_rune r)) (runes s)).

(** [strings.EqualFold]. *)
Definition EqualFold (s t : string) : bool :=
  bool_decide (map fold_rune (runes s) = map fold_rune (runes t)).

(** [strings.ContainsFunc]. *)
Definition ContainsFunc (f : Z -> bool) (s : string) : bool := existsb f (runes s).

(** [strings.HasPrefix] and [strings.TrimPrefix]. *)
Definition HasPrefix (s p : string) : bool := String.prefix p s.
Definition TrimPrefix (s p : string) : string :=
  if HasPrefix s p then skip_bytes (String.length p) s else s.

(** [strings.Contains]. *)
Fixpoint Contains (s p : string) : bool :=
  String.prefix p s || match s with EmptyString => false | String _ s' => Contains s' p end.

(** [strings.Join]. *)
Fixpoint Join (l : list string) (sep : string) : string :=
  match l with
  | [] => ""
  | [x] => x
  | x :: l' => (x +:+ sep +:+ Join l' sep)%string
  end.

(** [strings.Trim s "c"] for a one-byte ASCII cutset. *)
Definition Trim1 (c : ascii) (s : string) : string :=
  let is_c := fun a : ascii => Ascii.eqb a c in
  String.string_of_list_ascii (drop_while_end is_c (drop_while is_c (String.list_ascii_of_string s))).

(** The length in bytes. *)
Definition len (s : string) : Z := Z.of_nat (String.length s).

(** [%d] and [strconv.FormatInt]. *)
Definition fmt_d (z : Z) : string := NilZero.string_of_int (Z.to_int z).

Definition fmt_bool (b : bool) : string := if b then "true" else "false".

(** Byte-wise lexicographic order, the order of Go's [<] on strings. *)
Fixpoint str_le (s t : string) : bool :=
  match s, t with
  | EmptyString, _ => true
  | String _ _, EmptyString => false
  | String a s', String b t' =>
    if byte a <? byte b then true else if byte b <? byte a then false else str_le s' t'
  end.

(** ** Cutting a string into runes and joining it back *)

Lemma decode_width s : s <> "" -> (1 <= (decode_rune s).2 <= String.length s)%nat.
Proof.
  destruct s as [|a s]; [done|]. intros _. unfold decode_rune.
  destruct s as [|b [|c [|d s]]]; repeat (case_goal; simpl); simpl; lia.
Qed.

Lemma app_cons_str a s t : (String a s +:+ t)%string = String a (s +:+ t).
Proof. done. Qed.

Lemma app_nil_str t : ("" +:+ t)%string = t.
Proof. done. Qed.

Lemma app_nil_r_str s : (s +:+ "")%string = s.
Proof. induction s as [|a s IH]; [done|]. rewrite app_cons_str. by rewrite IH. Qed.

Lemma app_assoc_str s t u : ((s +:+ t) +:+ u)%string = (s +:+ (t +:+ u))%string.
Proof. induction s as [|a s IH]; [done|]. rewrite !app_cons_str. by rewrite IH. Qed.

Lemma length_app_str s t : String.length (s +:+ t) = (String.length s + String.length t)%nat.
Proof. induction s as [|a s IH]; [done|]. rewrite app_cons_str. simpl. by rewrite IH. Qed.

Lemma take_skip_bytes n s : (take_bytes n s +:+ skip_bytes n s)%string = s.
Proof.
  revert s. induction n as [|n IH]; intros [|a s]; simpl; rewrite ?app_cons_str; try done.
  f_equal. apply IH.
Qed.

Lemma length_take_bytes n s : (n <= String.length s)%nat -> String.length (take_bytes n s) = n.
Proof. revert s. induction n as [|n IH]; intros [|a s]; simpl; try done; try lia. intros. f_equal. apply IH. lia. Qed.

Lemma skip_bytes_app s t : skip_bytes (String.length s) (s +:+ t) = t.
Proof. induction s as [|a s IH]; [by destruct t | exact IH]. Qed.

Lemma take_bytes_app s t : take_bytes (String.length s) (s +:+ t) = s.
Proof. induction s as [|a s IH]; [by destruct t|]. rewrite app_cons_str. simpl. by rewrite IH. Qed.

Lemma segs_from_skip k s : segs_from k s = segs (skip_bytes k s).
Proof.
  unfold segs. revert s. induction k as [|k IH]; intros s; [by destruct s|].
  destruct s as [|a s]; simpl; [done|]. apply IH.
Qed.

(** One iteration of a [range] loop. *)
Lemma segs_unfold s : s <> "" ->
  segs s = ((decode_rune s).1, take_bytes (decode_rune s).2 s) :: segs (skip_bytes (decode_rune s).2 s).
Proof.
  intros Hs. pose proof (decode_width s Hs) as Hw.
  destruct s as [|a s]; [done|]. unfold segs at 1. cbn [segs_from].
  destruct (decode_rune (String a s)) as [r w] eqn:E. cbn [fst snd] in *. rewrite segs_from_skip.
  destruct w as [|w]; [lia|]. cbn [skip_bytes Nat.sub]. by rewrite Nat.sub_0_r.
Qed.

Lemma length_skip_bytes n s : String.length (skip_bytes n s) = (String.length s - n)%nat.
Proof. revert s. induction n as [|n IH]; intros [|a s]; simpl; try done; apply IH. Qed.

(** Induction over the runes of a string. *)
Lemma segs_ind (P : string -> Prop) :
  P "" -> (forall s, s <> "" -> P (skip_bytes (decode_rune s).2 s) -> P s) -> forall s, P s.
Proof.
  intros H0 HS s. remember (String.length s) as n eqn:En. revert s En.
  induction n as [n IH] using (well_founded_induction lt_wf). intros s ->.
  destruct (decide (s = "")) as [->|Hs]; [done|]. apply HS; [done|].
  eapply IH; [|done]. rewrite length_skip_bytes. pose proof (decode_width s Hs). lia.
Qed.

Lemma unsegs_cons x l : unsegs (x :: l) = (x.2 +:+ unsegs l)%string.
Proof. done. Qed.

(** No byte is lost. *)
Lemma unsegs_segs s : unsegs (segs s) = s.
Proof.
  induction s as [|s Hs IH] using segs_ind; [done|].
  rewrite segs_unfold, unsegs_cons, IH by done. apply take_skip_bytes.
Qed.

(** Looking further ahead does not change a rune that is complete. *)
Lemma decode_rune_app s t : s <> "" -> ((decode_rune (s +:+ t)).2 <= String.length s)%nat ->
  decode_rune s = decode_rune (s +:+ t).
Proof.
  destruct s as [|a s]; [done|]. intros _.
  destruct s as [|b [|c [|d s]]]; rewrite ?app_cons_str, ?app_nil_str; cbn [decode_rune String.length].
  all: intros Hw; repeat (case_hyp Hw; cbn [snd] in Hw; try lia); done.
Qed.

(** A list of runes is cut correctly when joining and cutting gives it back. *)
Definition wf_segs (l : list (Z * string)) : Prop := segs (unsegs l) = l.

Lemma wf_segs_segs s : wf_segs (segs s).
Proof. unfold wf_segs. by rewrite unsegs_segs. Qed.

Lemma wf_segs_tail x l : wf_segs (x :: l) -> wf_segs l.
Proof.
  unfold wf_segs. rewrite unsegs_cons. set (s := (x.2 +:+ unsegs l)%string). intros H.
  assert (Hs : s <> "") by (intros E; rewrite E in H; done).
  rewrite segs_unfold in H by done. injection H as Hx Hl.
  pose proof (decode_width s Hs).
  assert (Hw : (decode_rune s).2 = String.length x.2)
    by (rewrite <- Hx; simpl; symmetry; apply length_take_bytes; lia).
  rewrite Hw in Hl. unfold s in Hl. by rewrite skip_bytes_app in Hl.
Qed.

Lemma wf_segs_suffix k l : wf_segs (k ++ l) -> wf_segs l.
Proof. induction k as [|x k IH]; [done|]. intros H. by apply IH, (wf_segs_tail x). Qed.

Lemma unsegs_app l k : unsegs (l ++ k) = (unsegs l +:+ unsegs k)%string.
Proof.
  induction l as [|x l IH]; [done|]. cbn [app]. by rewrite !unsegs_cons, IH, app_assoc_str.
Qed.

Lemma wf_segs_prefix l k : wf_segs (l ++ k) -> wf_segs l.
Proof.
  induction l as [|x l IH]; [done|]. intros H. cbn [app] in H.
  pose proof (IH (wf_segs_tail _ _ H)) as Hl. unfold wf_segs in *.
  rewrite unsegs_cons, unsegs_app in H. rewrite unsegs_cons.
  set (s := (x.2 +:+ unsegs l)%string) in *.
  assert (Es : (x.2 +:+ (unsegs l +:+ unsegs k) = s +:+ unsegs k)%string)
    by (unfold s; by rewrite app_assoc_str).
  rewrite Es in H. assert (Hne : (s +:+ unsegs k)%string <> "") by (intros E; rewrite E in H; done).
  rewrite segs_unfold in H by done. injection H as Hx Htl.
  pose proof (decode_width _ Hne) as Hw.
  assert (Hlen : String.length x.2 = (decode_rune (s +:+ unsegs k)).2)
    by (rewrite <- Hx; simpl; apply length_take_bytes; lia).
  assert (Hs : s <> "").
  { intros E. apply (f_equal String.length) in E. unfold s in E. rewrite length_app_str in E. simpl in E. lia. }
  assert (Hd : decode_rune s = decode_rune (s +:+ unsegs k)).
  { apply decode_rune_app; [done|]. rewrite <- Hlen. unfold s. rewrite length_app_str. lia. }
  rewrite segs_unfold, Hd, <- Hlen by done. unfold s at 2 3.
  rewrite skip_bytes_app, take_bytes_app, Hl. f_equal.
  destruct x as [r b]. injection Hx as -> _. done.
Qed.

(** ** Encoding and decoding runes *)

(** A Unicode scalar value: what a valid UTF-8 sequence encodes. *)
Definition scalar (r : Z) : bool :=
  (0 <=? r) && (r <=? 1114111) && negb ((55296 <=? r) && (r <=? 57343)).

Lemma byte_chr z : 0 <= z < 256 -> byte (chr z) = z.
Proof.
  intros H. unfold byte, chr. rewrite N_ascii_embedding; [|lia]. lia.
Qed.

Lemma chr_byte a : chr (byte a) = a.
Proof. unfold byte, chr. rewrite N2Z.id. apply ascii_N_embedding. Qed.

Lemma land_mod z k : 0 <= k -> Z.land z (2 ^ k - 1) = z mod 2 ^ k.
Proof. intros. rewrite <- Z.land_ones by done. f_equal. rewrite Z.ones_equiv. lia. Qed.

Lemma low6_mod a : low6 a = byte a mod 64.
Proof. unfold low6. change 63 with (2 ^ 6 - 1). by rewrite land_mod by lia. Qed.

(** Decides the comparisons of the goal by arithmetic. *)
Ltac zdecide :=
  repeat match goal with
  | |- context [?a <? ?b] =>
      first [ replace (a <? b) with true by (symmetry; apply Z.ltb_lt; Z.div_mod_to_equations; lia)
            | replace (a <? b) with false by (symmetry; apply Z.ltb_ge; Z.div_mod_to_equations; lia) ]
  | |- context [?a <=? ?b] =>
      first [ replace (a <=? b) with true by (symmetry; apply Z.leb_le; Z.div_mod_to_equations; lia)
            | replace (a <=? b) with false by (symmetry; apply Z.leb_gt; Z.div_mod_to_equations; lia) ]
  end.

Ltac land_mods :=
  change 31 with (2 ^ 5 - 1); change 15 with (2 ^ 4 - 1); change 7 with (2 ^ 3 - 1);
  rewrite ?land_mod by lia;
  change (2 ^ 5) with 32; change (2 ^ 4) with 16; change (2 ^ 3) with 8.

(** Decoding reads back an encoded scalar value, whatever follows. *)
Lemma decode_encode r t : scalar r = true ->
  decode_rune (encode_rune r +:+ t) = (r, String.length (encode_rune r)).
Proof.
  unfold scalar. intros H. breflect. apply andb_false_iff in H0. rewrite !Z.leb_gt in H0.
  unfold encode_rune.
  replace ((r <? 0) || (1114111 <? r) || ((55296 <=? r) && (r <=? 57343))) with false
    by (symmetry; rewrite !orb_false_iff, andb_false_iff, !Z.ltb_ge, !Z.leb_gt; lia).
  destruct (Z.ltb_spec r 128); [|destruct (Z.ltb_spec r 2048); [|destruct (Z.ltb_spec r 65536)]];
    rewrite ?app_cons_str, ?app_nil_str; cbn [decode_rune String.length];
    unfold is_cont; rewrite ?low6_mod, ?byte_chr by (Z.div_mod_to_equations; lia).
  - by zdecide.
  - zdecide. cbn [andb]. f_equal. land_mods. Z.div_mod_to_equations; lia.
  - zdecide.
    destruct (Z.eqb_spec (224 + r / 4096) 224), (Z.eqb_spec (224 + r / 4096) 237);
      zdecide; cbn [andb]; f_equal; land_mods; Z.div_mod_to_equations; lia.
  - zdecide.
    destruct (Z.eqb_spec (240 + r / 262144) 240), (Z.eqb_spec (240 + r / 262144) 244);
      zdecide; cbn [andb]; f_equal; land_mods; Z.div_mod_to_equations; lia.
Qed.

(** The string whose runes are [l]. *)
Definition encode_runes (l : list Z) : string := concat_str (map encode_rune l).

Lemma encode_runes_cons r l : encode_runes (r :: l) = (encode_rune r +:+ encode_runes l)%string.
Proof. done. Qed.

Lemma encode_runes_app l k : encode_runes (l ++ k) = (encode_runes l +:+ encode_runes k)%string.
Proof.
  induction l as [|r l IH]; [done|]. cbn [app]. by rewrite !encode_runes_cons, IH, app_assoc_str.
Qed.

Lemma encode_rune_nonempty r t : (encode_rune r +:+ t)%string <> "".
Proof. unfold encode_rune. repeat case_goal; rewrite ?app_cons_str; done. Qed.

Lemma runes_encode l : Forall (fun r => scalar r = true) l -> runes (encode_runes l) = l.
Proof.
  induction 1 as [|r l Hr _ IH]; [done|]. rewrite encode_runes_cons. unfold runes in *.
  rewrite segs_unfold by apply encode_rune_nonempty. rewrite decode_encode by done.
  rewrite fmap_cons. cbn [fst snd]. by rewrite skip_bytes_app, IH.
Qed.

(** A rune and its bytes that are not an invalid byte. *)
Definition valid_seg (x : Z * string) : bool := bool_decide (x.2 = encode_rune x.1) && scalar x.1.

(** [utf8.ValidString]. *)
Definition ValidString (s : string) : bool := forallb valid_seg (segs s).

Lemma ValidString_runes s :
  ValidString s = true -> encode_runes (runes s) = s /\ Forall (fun r => scalar r = true) (runes s).
Proof.
  unfold ValidString. intros H. rewrite <- (unsegs_segs s) at 2. unfold runes.
  induction (segs s) as [|x l IH]; [by split; [|constructor]|]. simpl in H. breflect.
  destruct (IH H0) as [H1 H2]. unfold valid_seg in H. breflect. apply bool_decide_eq_true in H.
  rewrite fmap_cons. split; [|by constructor]. rewrite encode_runes_cons, unsegs_cons. by rewrite H1, <- H.
Qed.

Lemma ValidString_encode l : Forall (fun r => scalar r = true) l -> ValidString (encode_runes l) = true.
Proof.
  induction 1 as [|r l Hr _ IH]; [done|]. rewrite encode_runes_cons. unfold ValidString in *.
  rewrite segs_unfold by apply encode_rune_nonempty. rewrite decode_encode by done.
  cbn [fst snd forallb]. rewrite take_bytes_app, skip_bytes_app, IH, andb_true_r.
  unfold valid_seg. cbn [fst snd]. rewrite Hr, andb_true_r. by apply bool_decide_eq_true.
Qed.

(** ** Lemmas on [TrimSpace] *)

Definition trim_segs (l : list (Z * string)) : list (Z * string) :=
  drop_while_end space_seg (drop_while space_seg l).

Lemma segs_TrimSpace s : segs (TrimSpace s) = trim_segs (segs s).
Proof.
  unfold TrimSpace. change (wf_segs (trim_segs (segs s))). unfold trim_segs.
  destruct (drop_while_suffix space_seg (segs s)) as [k Hk].
  destruct (drop_while_end_prefix space_seg (drop_while space_seg (segs s))) as [q Hq].
  eapply wf_segs_prefix. rewrite <- Hq. eapply wf_segs_suffix. rewrite <- Hk. apply wf_segs_segs.
Qed.

Lemma trim_segs_idem l : trim_segs (trim_segs l) = trim_segs l.
Proof.
  unfold trim_segs. rewrite drop_while_end_head; auto with snow.
Qed.

Lemma TrimSpace_idem s : TrimSpace (TrimSpace s) = TrimSpace s.
Proof.
  unfold TrimSpace at 1. change (unsegs (trim_segs (segs (TrimSpace s))) = TrimSpace s).
  by rewrite segs_TrimSpace, trim_segs_idem.
Qed.

(** The runes of a trimmed string are runes of the string. *)
Lemma runes_TrimSpace_Forall (P : Z -> Prop) s : Forall P (runes s) -> Forall P (runes (TrimSpace s)).
Proof.
  unfold runes. rewrite segs_TrimSpace. unfold trim_segs. intros H.
  destruct (drop_while_suffix space_seg (segs s)) as [k Hk].
  destruct (drop_while_end_prefix space_seg (drop_while space_seg (segs s))) as [q Hq].
  rewrite Hk in H. rewrite fmap_app in H. apply Forall_app in H as [_ H].
  rewrite Hq in H. rewrite fmap_app in H. by apply Forall_app in H as [H _].
Qed.

Lemma ValidString_TrimSpace s : ValidString s = true -> ValidString (TrimSpace s) = true.
Proof.
  unfold ValidString. rewrite segs_TrimSpace, !forallb_Forall. unfold trim_segs. intros H.
  destruct (drop_while_suffix space_seg (segs s)) as [k Hk].
  destruct (drop_while_end_prefix space_seg (drop_while space_seg (segs s))) as [q Hq].
  rewrite Hk in H. apply Forall_app in H as [_ H]. rewrite Hq in H. by apply Forall_app in H as [H _].
Qed.

(** ** The order of strings *)

Lemma byte_inj a b : byte a = byte b -> a = b.
Proof.
  unfold byte. intros H. apply N2Z.inj in H.
  by rewrite <- (ascii_N_embedding a), <- (ascii_N_embedding b), H.
Qed.

Lemma byte_range a : 0 <= byte a < 256.
Proof. unfold byte. pose proof (N_ascii_bounded a). lia. Qed.

Lemma str_le_refl s : str_le s s = true.
Proof. induction s as [|a s IH]; simpl; [done|]. by rewrite Z.ltb_irrefl. Qed.

Lemma str_le_total s t : str_le s t = true \/ str_le t s = true.
Proof.
  revert t. induction s as [|a s IH]; intros [|b t]; simpl; auto.
  destruct (Z.ltb_spec (byte a) (byte b)), (Z.ltb_spec (byte b) (byte a)); auto.
Qed.

Lemma str_le_antisym s t : str_le s t = true -> str_le t s = true -> s = t.
Proof.
  revert t. induction s as [|a s IH]; intros [|b t]; simpl; try done.
  destruct (Z.ltb_spec (byte a) (byte b)), (Z.ltb_spec (byte b) (byte a)); try done; try lia.
  intros H1 H2. rewrite (byte_inj a b) by lia. f_equal. by apply IH.
Qed.

Lemma str_le_trans s t u : str_le s t = true -> str_le t u = true -> str_le s u = true.
Proof.
  revert t u. induction s as [|a s IH]; intros [|b t] [|c u]; simpl; try done.
  destruct (Z.ltb_spec (byte a) (byte b)), (Z.ltb_spec (byte b) (byte a)),
    (Z.ltb_spec (byte b) (byte c)), (Z.ltb_spec (byte c) (byte b)),
    (Z.ltb_spec (byte a) (byte c)), (Z.ltb_spec (byte c) (byte a)); try done; try lia.
  apply IH.
Qed.

Definition str_leP (s t : string) : Prop := str_le s t = true.

#[global] Instance str_leP_dec : RelDecision str_leP.
Proof. intros s t. unfold str_leP. apply _. Defined.

#[global] Instance str_leP_trans : Transitive str_leP.
Proof. intros s t u. apply str_le_trans. Qed.

#[global] Instance str_leP_total : Total str_leP.
Proof. intros s t. apply str_le_total. Qed.

#[global] Instance str_leP_antisym : AntiSymm (=) str_leP.
Proof. intros s t. apply str_le_antisym. Qed.

(** [slices.Sort] on strings. *)
Definition SortStrings (l : list string) : list string := merge_sort str_leP l.

Lemma SortStrings_Permutation l : SortStrings l ≡ₚ l.
Proof. apply merge_sort_Permutation. Qed.

(** Sorting forgets the order, and only the order. *)
Lemma SortStrings_eq l k : SortStrings l = SortStrings k <-> l ≡ₚ k.
Proof.
  split; intros H.
  - by rewrite <- (SortStrings_Permutation l), <- (SortStrings_Permutation k), H.
  - apply (Sorted_unique str_leP); try apply _; try apply Sorted_merge_sort; try apply _.
    by rewrite !SortStrings_Permutation.
Qed.

Create Rewrite HintDb snow_str.
#[export] Hint Rewrite segs_TrimSpace TrimSpace_idem : snow_str.
