(* ===== verification/AsciiText.v ===== *)
(** * ASCII texts

    On a text of ASCII characters the functions of [strings] work byte by byte. *)

From Stdlib Require Import ZArith Lia Ascii.
From S2P Require Import Prelude GoString.

Definition chars (s : string) : list ascii := String.list_ascii_of_string s.

Lemma chars_app s t : chars (s +:+ t)%string = chars s ++ chars t.
Proof. unfold chars. induction s as [|a s IH]; [done|]. rewrite app_cons_str. cbn. by rewrite IH. Qed.

Lemma chars_inj s t : chars s = chars t -> s = t.
Proof. intros E. rewrite <- (String.string_of_list_ascii_of_string s), <- (String.string_of_list_ascii_of_string t). by f_equal. Qed.

Lemma length_chars s : length (chars s) = String.length s.
Proof. unfold chars. induction s as [|a s IH]; [done|]. cbn. by rewrite IH. Qed.

Definition ascii_text (s : string) : Prop := Forall (fun a => byte a < 128) (chars s).

(** A rune below 128 is one byte. *)
Lemma decode_small s : s <> "" -> (decode_rune s).1 < 128 ->
  exists a t, s = String a t /\ decode_rune s = (byte a, 1%nat) /\ byte a < 128.
Proof.
  intros Hs H. destruct s as [|a s]; [done|]. exists a, s. split; [done|]. revert H. cbn [decode_rune].
  pose proof (byte_range a) as Ha. destruct (Z.ltb_spec (byte a) 128); [done|].
  change 31 with (2 ^ 5 - 1). change 15 with (2 ^ 4 - 1). change 7 with (2 ^ 3 - 1). rewrite !land_mod by lia.
  change (2 ^ 5) with 32. change (2 ^ 4) with 16. change (2 ^ 3) with 8.
  destruct (Z.ltb_spec (byte a) 194); [done|].
  assert (Hlow : forall b, low6 b = byte b mod 64) by apply low6_mod.
  destruct (Z.ltb_spec (byte a) 224).
  { destruct s as [|b s]; [done|]. destruct (is_cont _ _ b); [|done]. cbn [fst]. rewrite Hlow.
    intros Hr; exfalso; Z.to_euclidean_division_equations; lia. }
  destruct (Z.ltb_spec (byte a) 240).
  { destruct s as [|b [|c s]]; try done. cbv zeta. destruct (_ && _) eqn:E; [|done]. cbn [fst]. rewrite !Hlow.
    unfold is_cont in E. revert E. destruct (Z.eqb_spec (byte a) 224), (Z.eqb_spec (byte a) 237);
      intros E; breflect; intros Hr; exfalso; Z.to_euclidean_division_equations; lia. }
  destruct (Z.ltb_spec (byte a) 245); [|done].
  destruct s as [|b [|c [|d s]]]; try done. cbv zeta. destruct (_ && _) eqn:E; [|done]. cbn [fst]. rewrite !Hlow.
  unfold is_cont in E. revert E. destruct (Z.eqb_spec (byte a) 240), (Z.eqb_spec (byte a) 244);
    intros E; breflect; intros Hr; exfalso; Z.to_euclidean_division_equations; lia.
Qed.

Definition ascii_seg (a : ascii) : Z * string := (byte a, String a "").

Lemma segs_ascii s : ascii_text s -> segs s = map ascii_seg (chars s).
Proof.
  unfold ascii_text, chars. induction s as [|a s IH]; [done|]. cbn [String.list_ascii_of_string map].
  intros H. inversion H as [|? ? Ha Hs]; subst. unfold segs. cbn [segs_from decode_rune].
  rewrite (proj2 (Z.ltb_lt _ _) Ha). cbn [take_bytes Nat.sub]. by rewrite <- IH.
Qed.

Lemma small_runes_ascii s : Forall (fun r => r < 128) (runes s) -> ascii_text s.
Proof.
  unfold runes. induction s as [|s Hs IH] using segs_ind; [by constructor|].
  rewrite segs_unfold by done. cbn [fmap list_fmap]. intros H. inversion H as [|? ? Hr Ht]; subst.
  cbn [fst] in Hr. destruct (decode_small s Hs Hr) as (a & t & -> & E & Ha). rewrite E in *.
  cbn [snd skip_bytes] in *. constructor; [done|]. by apply IH.
Qed.

Lemma runes_ascii s : ascii_text s -> runes s = map byte (chars s).
Proof. intros H. unfold runes. rewrite segs_ascii by done. induction (chars s) as [|a l IH]; [done|]. cbn. by f_equal. Qed.

Lemma runes_small_iff (P : Z -> Prop) s : (forall r, P r -> r < 128) ->
  Forall P (runes s) <-> Forall (fun a => P (byte a)) (chars s).
Proof.
  intros HP. split; intros H.
  - assert (Ha : ascii_text s) by (apply small_runes_ascii; eapply Forall_impl; eauto).
    rewrite runes_ascii in H by done. rewrite Forall_map in H; exact H.
  - rewrite runes_ascii.
    + apply Forall_map. exact H.
    + eapply Forall_impl; [exact H|]. intros a. apply HP.
Qed.

(** Visible characters that are not upper case: no function of case or white
    space changes them. *)
Definition stable_char (r : Z) : Prop := 33 <= r < 127 /\ (r < 65 \/ 90 < r).

Definition stable (s : string) : Prop := Forall (fun a => stable_char (byte a)) (chars s).

Lemma stable_ascii s : stable s -> ascii_text s.
Proof. intros H. eapply Forall_impl; [exact H|]. unfold stable_char. intros a. cbv beta. lia. Qed.

Lemma stable_app s t : stable s -> stable t -> stable (s +:+ t)%string.
Proof. unfold stable. rewrite chars_app. apply Forall_app_2. Qed.

Lemma drop_while_none {A} (p : A -> bool) l : Forall (fun x => p x = false) l -> drop_while p l = l.
Proof. destruct 1 as [|x l Hx]; [done|]. cbn. by rewrite Hx. Qed.

Lemma TrimSpace_stable s : stable s -> TrimSpace s = s.
Proof.
  intros H. unfold TrimSpace.
  assert (Hs : Forall (fun x => space_seg x = false) (segs s)).
  { rewrite segs_ascii by (by apply stable_ascii). apply Forall_map. eapply Forall_impl; [exact H|].
    unfold stable_char, space_seg, IsSpace. intros a Ha. cbn [ascii_seg fst] in *.
    rewrite !orb_false_iff, !andb_false_iff, !Z.eqb_neq, !Z.leb_gt. lia. }
  unfold drop_while_end. rewrite (drop_while_none space_seg (segs s)) by done.
  rewrite drop_while_none by (by apply Forall_reverse). rewrite reverse_involutive. apply unsegs_segs.
Qed.

Lemma encode_chars l : Forall (fun a => byte a < 128) l ->
  concat_str (map (fun a => encode_rune (byte a)) l) = String.string_of_list_ascii l.
Proof.
  induction 1 as [|a l Ha _ IH]; [done|]. cbn [map concat_str]. rewrite IH. unfold encode_rune.
  pose proof (byte_range a). replace (_ || _ || _) with false.
  - rewrite (proj2 (Z.ltb_lt _ _) Ha), chr_byte. done.
  - symmetry. rewrite !orb_false_iff, andb_false_iff, !Z.ltb_ge, !Z.leb_gt. lia.
Qed.

Lemma ToLower_stable s : stable s -> ToLower s = s.
Proof.
  intros H. unfold ToLower. pose proof (stable_ascii s H) as Ha. rewrite runes_ascii by done. rewrite map_map.
  rewrite (map_ext_in _ (fun a => encode_rune (byte a))).
  - rewrite encode_chars by done. apply String.string_of_list_ascii_of_string.
  - intros a Hin. apply list_elem_of_In in Hin. unfold stable in H; rewrite Forall_forall in H. specialize (H a Hin).
    unfold stable_char in H. f_equal. unfold lower_rune.
    replace ((65 <=? byte a) && (byte a <=? 90)) with false
      by (symmetry; rewrite andb_false_iff, !Z.leb_gt; lia).
    repeat case_goal; breflect; lia.
Qed.

(** An ASCII character never belongs to the rune before it. *)
Lemma decode_before_ascii s a t : byte a < 128 -> s <> "" -> decode_rune (s +:+ String a t) = decode_rune s.
Proof.
  intros Ha Hs. assert (Hc : forall lo hi, 128 <= lo -> is_cont lo hi a = false).
  { intros lo hi Hl. unfold is_cont. apply andb_false_iff. left. apply Z.leb_gt. lia. }
  destruct s as [|b s]; [done|]. rewrite app_cons_str. cbn [decode_rune].
  destruct (byte b <? 128); [done|]. destruct (byte b <? 194); [done|].
  destruct (byte b <? 224).
  { destruct s as [|c s]; [|done]. change ("" +:+ String a t)%string with (String a t). cbn iota. by rewrite Hc by lia. }
  destruct (byte b <? 240).
  { destruct s as [|c [|d s]]; [| |done].
    - change ("" +:+ String a t)%string with (String a t). destruct t as [|a' t]; [done|]. cbv zeta; cbn iota.
      by rewrite Hc by (case_goal; lia).
    - rewrite app_cons_str. change ("" +:+ String a t)%string with (String a t). cbv zeta; cbn iota.
      rewrite (Hc 128 191) by lia. by rewrite andb_false_r. }
  destruct (byte b <? 245); [|done].
  destruct s as [|c [|d [|e s]]]; [| | |done].
  - change ("" +:+ String a t)%string with (String a t). destruct t as [|a' [|a2 t]]; [done|done|]. cbv zeta; cbn iota.
    by rewrite Hc by (case_goal; lia).
  - rewrite app_cons_str. change ("" +:+ String a t)%string with (String a t). destruct t as [|a' t]; [done|]. cbv zeta; cbn iota.
    rewrite (Hc 128 191) by lia. by rewrite andb_false_r.
  - rewrite !app_cons_str. change ("" +:+ String a t)%string with (String a t). cbv zeta; cbn iota.
    rewrite (Hc 128 191) by lia. by rewrite andb_false_r.
Qed.

Lemma skip_bytes_app_lt n s t : (n <= String.length s)%nat -> skip_bytes n (s +:+ t) = (skip_bytes n s +:+ t)%string.
Proof.
  revert s. induction n as [|n IH]; intros s Hn; [done|]. destruct s as [|a s]; [cbn in Hn; lia|].
  rewrite app_cons_str. cbn [skip_bytes]. apply IH. cbn in Hn. lia.
Qed.

Lemma take_bytes_app_lt n s t : (n <= String.length s)%nat -> take_bytes n (s +:+ t) = take_bytes n s.
Proof.
  revert s. induction n as [|n IH]; intros s Hn; [by destruct s|]. destruct s as [|a s]; [cbn in Hn; lia|].
  rewrite app_cons_str. cbn [take_bytes]. rewrite IH; [done|]. cbn in Hn. lia.
Qed.

Lemma segs_app_ascii s a t : byte a < 128 -> segs (s +:+ String a t) = segs s ++ segs (String a t).
Proof.
  intros Ha. induction s as [|s Hs IH] using segs_ind; [done|].
  pose proof (decode_width s Hs) as Hw.
  rewrite segs_unfold by (by destruct s). rewrite decode_before_ascii by done.
  rewrite (segs_unfold s) by done. rewrite skip_bytes_app_lt, take_bytes_app_lt by lia. by rewrite IH.
Qed.

(** A text that begins and ends with a visible character is trimmed. *)
Lemma TrimSpace_ends a s t b : stable_char (byte a) -> stable_char (byte b) ->
  String a s = (t +:+ String b "")%string -> TrimSpace (String a s) = String a s.
Proof.
  intros Ha Hb E.
  assert (Hns : forall c, stable_char (byte c) -> space_seg (byte c, String c "") = false).
  { unfold stable_char, space_seg, IsSpace. intros c Hc. cbn [fst].
    rewrite !orb_false_iff, !andb_false_iff, !Z.eqb_neq, !Z.leb_gt. lia. }
  assert (Hseg : forall c, stable_char (byte c) -> segs (String c "") = [(byte c, String c "")]).
  { intros c Hc. rewrite segs_ascii; [done|]. constructor; [|constructor]. unfold stable_char in Hc. lia. }
  assert (H1 : drop_while space_seg (segs (String a s)) = segs (String a s)).
  { unfold segs. cbn [segs_from decode_rune]. rewrite (proj2 (Z.ltb_lt (byte a) 128)) by (unfold stable_char in Ha; lia).
    cbn [drop_while take_bytes]. by rewrite Hns. }
  unfold TrimSpace. rewrite H1. rewrite E, segs_app_ascii by (unfold stable_char in Hb; lia).
  rewrite Hseg by done. unfold drop_while_end. rewrite reverse_app.
  change (reverse [(byte b, String b "")]) with [(byte b, String b "")]. cbn [app drop_while].
  rewrite Hns by done. change ((byte b, String b "") :: reverse (segs t)) with (reverse [(byte b, String b "")] ++ reverse (segs t)).
  rewrite <- reverse_app, reverse_involutive. rewrite <- Hseg, <- segs_app_ascii by (done || unfold stable_char in Hb; lia).
  apply unsegs_segs.
Qed.

Lemma ascii_ValidString s : ascii_text s -> ValidString s = true.
Proof.
  intros H. unfold ValidString. rewrite segs_ascii by done. apply forallb_Forall. apply Forall_map.
  eapply Forall_impl; [exact H|]. intros a Ha. cbv beta in *. pose proof (byte_range a).
  unfold valid_seg, ascii_seg. cbn [fst snd]. apply andb_true_intro. split.
  - apply bool_decide_eq_true. unfold encode_rune. replace (_ || _ || _) with false.
    + by rewrite (proj2 (Z.ltb_lt _ _) Ha), chr_byte.
    + symmetry. rewrite !orb_false_iff, andb_false_iff, !Z.ltb_ge, !Z.leb_gt. lia.
  - unfold scalar. by zdecide.
Qed.
