(* ===== verification/FilePath.v ===== *)
(** * Paths

    The part of [path/filepath] on Unix the backup service uses.  A path is
    handled through its elements, the texts between the slashes. *)

From Stdlib Require Import ZArith Lia Ascii.
From S2P Require Import Prelude GoString.

Definition slash : ascii := "/".
Definition sep_string : string := "/".

(** The elements of a path, empty ones included. *)
Fixpoint elements (s : string) : list string :=
  match s with
  | EmptyString => [""]
  | String a s' =>
    if Ascii.eqb a slash then "" :: elements s'
    else match elements s' with
         | e :: l => String a e :: l
         | [] => [String a ""]
         end
  end.

Definition IsAbs (path : string) : bool := HasPrefix path sep_string.

(** The lexical processing of [filepath.Clean]; the result so far is [out], the
    last element first. *)
Fixpoint clean_from (rooted : bool) (out : list string) (l : list string) : list string :=
  match l with
  | [] => reverse out
  | e :: l' =>
    if (e =? "")%string || (e =? ".")%string then clean_from rooted out l'
    else if (e =? "..")%string then
      match out with
      | o :: out' =>
        if (o =? "..")%string then clean_from rooted (e :: out) l' else clean_from rooted out' l'
      | [] => if rooted then clean_from rooted [] l' else clean_from rooted [e] l'
      end
    else clean_from rooted (e :: out) l'
  end.

(** The elements of the cleaned path. *)
Definition clean_elements (path : string) : list string := clean_from (IsAbs path) [] (elements path).

(** The absolute path with the given elements. *)
Definition abs_path (l : list string) : string := (sep_string +:+ Join l sep_string)%string.

Definition Clean (path : string) : string :=
  if IsAbs path then abs_path (clean_elements path)
  else match clean_elements path with [] => "." | l => Join l sep_string end.

(** [filepath.Join(a, b)]. *)
Definition Join2 (a b : string) : string :=
  if (a =? "")%string then if (b =? "")%string then "" else Clean b
  else Clean (a +:+ sep_string +:+ b).

(** [filepath.Rel], [None] for its error. *)
Fixpoint rel_elements (base targ : list string) : option (list string) :=
  match base, targ with
  | b :: base', t :: targ' =>
    if (b =? t)%string then rel_elements base' targ'
    else if (b =? "..")%string then None
    else Some (replicate (length base) ".." ++ targ)
  | b :: _, [] => if (b =? "..")%string then None else Some (replicate (length base) "..")
  | [], _ => Some targ
  end.

Definition Rel (basepath targpath : string) : option string :=
  if (Clean targpath =? Clean basepath)%string then Some "."
  else if negb (Bool.eqb (IsAbs basepath) (IsAbs targpath)) then None
  else l ← rel_elements (clean_elements basepath) (clean_elements targpath); Some (Join l sep_string).

(** The last element of a path and the path before it. *)
Definition last_element (path : string) : string := List.last (elements path) "".

(** [filepath.Dir]. *)
Definition Dir (path : string) : string :=
  Clean (take_bytes (String.length path - String.length (last_element path)) path).

(** The text from the last dot, empty without one. *)
Fixpoint last_dot (s : string) : string :=
  match s with
  | EmptyString => ""
  | String a s' =>
    let r := last_dot s' in
    if (r =? "")%string then if Ascii.eqb a "." then s else "" else r
  end.

(** [filepath.Ext]. *)
Definition Ext (path : string) : string := last_dot (last_element path).

Example clean_dots : Clean "/a/./b//../c/" = "/a/c". Proof. reflexivity. Qed.
Example clean_root : Clean "/../.." = "/". Proof. reflexivity. Qed.
Example clean_up : Clean "a/../../b" = "../b". Proof. reflexivity. Qed.
Example clean_none : Clean "" = ".". Proof. reflexivity. Qed.
Example join_up : Join2 "/var" "../x" = "/x". Proof. reflexivity. Qed.
Example rel_down : Rel "/a/b" "/a/b/c/d" = Some "c/d". Proof. reflexivity. Qed.
Example rel_up : Rel "/a/b" "/a/bc" = Some "../bc". Proof. reflexivity. Qed.
Example rel_mixed : Rel "a" "/a" = None. Proof. reflexivity. Qed.
Example rel_relative : Rel "." "a/b" = Some "a/b". Proof. reflexivity. Qed.
Example dir_file : Dir "/a/b/c.json" = "/a/b". Proof. reflexivity. Qed.
Example ext_json : Ext "/a.b/c.tar.json" = ".json". Proof. reflexivity. Qed.
Example ext_none : Ext "/a.b/c" = "". Proof. reflexivity. Qed.

(** ** Elements and texts *)

(** A name of a file: not empty, no dots alone, no slash. *)
Definition no_slash (s : string) : bool := forallb (fun a => negb (Ascii.eqb a slash)) (String.list_ascii_of_string s).

Definition file_name (s : string) : bool :=
  negb ((s =? "") || (s =? ".") || (s =? ".."))%string && no_slash s.

Definition clean_abs (l : list string) : Prop := Forall (fun e => file_name e = true) l.

Lemma elements_nonempty s : elements s <> [].
Proof. destruct s as [|a s]; simpl; [done|]. destruct (Ascii.eqb a slash); [done|]. by destruct (elements s). Qed.

Lemma elements_no_slash s : no_slash s = true -> elements s = [s].
Proof.
  unfold no_slash. induction s as [|a s IH]; simpl; [done|]. intros H. breflect.
  rewrite H. by rewrite IH.
Qed.

(** Cutting at a slash. *)
Lemma elements_app s t : elements (s +:+ String slash t) = elements s ++ elements t.
Proof.
  induction s as [|a s IH]; [done|]. rewrite app_cons_str. cbn [elements]. rewrite IH.
  destruct (Ascii.eqb a slash); [done|]. destruct (elements s) as [|e l] eqn:E; [|done].
  by apply elements_nonempty in E.
Qed.

Lemma file_name_spec s : file_name s = true ->
  (s =? "")%string = false /\ (s =? ".")%string = false /\ (s =? "..")%string = false /\ no_slash s = true.
Proof.
  intros H. apply andb_prop in H as [H Hs]. apply negb_true_iff, orb_false_elim in H as [H H3].
  apply orb_false_elim in H as [H1 H2]. auto.
Qed.

Lemma elements_Join l : l <> [] -> clean_abs l -> elements (Join l sep_string) = l.
Proof.
  intros Hn H. induction H as [|e l He Hl IH]; [done|].
  apply file_name_spec in He as (_ & _ & _ & He). destruct l as [|e' l]; [by apply elements_no_slash|].
  change (Join (e :: e' :: l) sep_string) with (e +:+ String slash (Join (e' :: l) sep_string))%string.
  rewrite elements_app, (elements_no_slash e He), IH by done. done.
Qed.

Lemma clean_from_names rooted l : clean_abs l -> forall out k,
  clean_from rooted out (l ++ k) = clean_from rooted (reverse l ++ out) k.
Proof.
  induction 1 as [|e l He Hl IH]; [done|]. intros out k. cbn [app clean_from].
  apply file_name_spec in He as (-> & -> & -> & _). cbn [orb].
  rewrite IH. by rewrite reverse_cons, <- app_assoc.
Qed.

Lemma IsAbs_abs_path l : IsAbs (abs_path l) = true.
Proof. unfold IsAbs, HasPrefix, abs_path. cbn. by destruct (Join l sep_string). Qed.

Lemma elements_abs_path l : elements (abs_path l) = "" :: elements (Join l sep_string).
Proof. done. Qed.

Lemma clean_elements_abs l : clean_abs l -> clean_elements (abs_path l) = l.
Proof.
  intros H. unfold clean_elements. rewrite IsAbs_abs_path, elements_abs_path. cbn [clean_from].
  change (("" =? "")%string) with true. cbn [orb]. destruct l as [|e l]; [done|].
  rewrite elements_Join by done. rewrite <- (app_nil_r (e :: l)) at 1.
  rewrite clean_from_names by done. cbn [clean_from]. by rewrite app_nil_r, reverse_involutive.
Qed.

Lemma Clean_abs l : clean_abs l -> Clean (abs_path l) = abs_path l.
Proof. intros H. unfold Clean. by rewrite IsAbs_abs_path, clean_elements_abs. Qed.

(** Everything [Clean] makes of an absolute path is a list of file names. *)
Lemma clean_from_abs l : Forall (fun e => no_slash e = true) l -> forall out,
  clean_abs out -> clean_abs (clean_from true out l).
Proof.
  induction 1 as [|e l He Hl IH]; intros out Ho; cbn [clean_from]; cbv beta in *.
  - unfold clean_abs. apply Forall_reverse. exact Ho.
  - destruct (e =? "")%string eqn:E1; cbn [orb]; [by apply IH|].
    destruct (e =? ".")%string eqn:E2; [by apply IH|].
    destruct (e =? "..")%string eqn:E3.
    + destruct out as [|o out]; [by apply IH|]. inversion Ho as [|? ? Hn Ho']; subst.
      apply file_name_spec in Hn as (_ & _ & E & _). rewrite E. by apply IH.
    + apply IH. constructor; [|done]. unfold file_name. by rewrite E1, E2, E3, He.
Qed.

Lemma elements_slashless s : Forall (fun e => no_slash e = true) (elements s).
Proof.
  induction s as [|a s IH]; simpl; [by repeat constructor|].
  destruct (Ascii.eqb a slash) eqn:E; [by constructor|].
  destruct (elements s) as [|e l]; [repeat constructor; unfold no_slash; simpl; by rewrite E|].
  inversion IH; subst. constructor; [|done]. unfold no_slash in *. simpl. by rewrite E.
Qed.

Lemma clean_elements_clean path : IsAbs path = true -> clean_abs (clean_elements path).
Proof. intros H. unfold clean_elements. rewrite H. apply clean_from_abs; [apply elements_slashless | constructor]. Qed.

Lemma abs_path_inj l k : clean_abs l -> clean_abs k -> abs_path l = abs_path k -> l = k.
Proof. intros Hl Hk E. rewrite <- (clean_elements_abs l), <- (clean_elements_abs k) by done. by rewrite E. Qed.

Lemma Join2_abs l f : clean_abs l -> file_name f = true -> Join2 (abs_path l) f = abs_path (l ++ [f]).
Proof.
  intros Hl Hf. unfold Join2. unfold abs_path at 1. cbn [String.append].
  change (("/" +:+ Join l sep_string =? "")%string) with false.
  assert (E : clean_elements (abs_path l +:+ sep_string +:+ f)%string = l ++ [f]).
  { unfold clean_elements. replace (IsAbs (abs_path l +:+ sep_string +:+ f)%string) with true
      by (unfold IsAbs, HasPrefix, abs_path; cbn; by destruct (Join l sep_string)).
    change (sep_string +:+ f)%string with (String slash f).
    rewrite elements_app, elements_abs_path. cbn [app clean_from].
    change (("" =? "")%string) with true. cbn [orb].
    apply file_name_spec in Hf as Hf'. destruct Hf' as (F1 & F2 & F3 & F4).
    rewrite (elements_no_slash f F4).
    assert (Hf1 : clean_abs [f]) by (by constructor).
    destruct l as [|e l].
    - cbn [Join elements app clean_from]. change (("" =? "")%string) with true. cbn [orb].
      by rewrite F1, F2, F3.
    - rewrite elements_Join by done. rewrite clean_from_names by done. cbn [clean_from].
      rewrite F1, F2, F3. cbn [orb clean_from]. by rewrite app_nil_r, reverse_cons, reverse_involutive. }
  unfold Clean. rewrite E.
  replace (IsAbs (abs_path l +:+ sep_string +:+ f)%string) with true
    by (unfold IsAbs, HasPrefix, abs_path; cbn; by destruct (Join l sep_string)). done.
Qed.

(** The way from a directory to something below it. *)
Lemma rel_elements_app l k : rel_elements l (l ++ k) = Some k.
Proof. induction l as [|e l IH]; [by destruct k|]. cbn. by rewrite String.eqb_refl. Qed.

(** The test of a relative path with which the services keep inside a directory. *)
Definition rel_inside (rel : string) : bool :=
  negb (rel =? "..")%string && negb (HasPrefix rel (".." +:+ sep_string)%string) && negb (IsAbs rel).

Lemma HasPrefix_app s p : HasPrefix s p = true -> exists t, s = (p +:+ t)%string.
Proof.
  unfold HasPrefix. revert s. induction p as [|a p IH]; intros s H; [by exists s|].
  destruct s as [|b s]; [done|]. cbn in H. destruct (ascii_dec a b) as [->|]; [|done].
  destruct (IH s H) as (t & ->). by exists t.
Qed.

Lemma rel_elements_prefix l k : clean_abs l ->
  (exists m, k = l ++ m /\ rel_elements l k = Some m)
  \/ (exists r, rel_elements l k = Some (".." :: r)) /\ ~ exists m, k = l ++ m.
Proof.
  intros H. revert k. induction H as [|b l Hb Hl IH]; intros k; [left; exists k; by destruct k|].
  apply file_name_spec in Hb as (_ & _ & Eb & _). destruct k as [|t k]; cbn [rel_elements]; rewrite ?Eb.
  - right. split; [eexists; reflexivity|]. by intros (m & ?).
  - destruct (b =? t)%string eqn:E.
    + apply String.eqb_eq in E as ->. destruct (IH k) as [(m & -> & Hm)|[Hr Hn]]; [left; eauto|right].
      split; [done|]. intros (m & Hm). injection Hm as Hm. eauto.
    + right. split; [eexists; reflexivity|]. intros (m & Hm). injection Hm as -> Hm.
      by rewrite String.eqb_refl in E.
Qed.

Lemma rel_inside_names m : clean_abs m -> rel_inside (Join m sep_string) = true.
Proof.
  intros H. destruct m as [|e m]; [done|].
  assert (Hel : elements (Join (e :: m) sep_string) = e :: m) by (by apply elements_Join).
  inversion H as [|? ? He Hm]; subst. apply file_name_spec in He as (E1 & E2 & E3 & E4).
  revert Hel. generalize (Join (e :: m) sep_string). intros s Hel.
  unfold rel_inside. rewrite !andb_true_iff, !negb_true_iff. split; [split|]; apply not_true_is_false; intros C.
  - apply String.eqb_eq in C as ->. cbn in Hel. by injection Hel as <- _.
  - apply HasPrefix_app in C as (t & ->). cbn in Hel. by injection Hel as <- _.
  - apply HasPrefix_app in C as (t & ->). cbn in Hel. by injection Hel as <- _.
Qed.

Lemma rel_inside_up r : rel_inside (Join (".." :: r) sep_string) = false.
Proof.
  destruct r as [|e r]; [done|]. unfold rel_inside.
  change (Join (".." :: e :: r) sep_string) with ("../" +:+ Join (e :: r) sep_string)%string.
  generalize (Join (e :: r) sep_string). intros s. unfold HasPrefix.
  replace (String.prefix (".." +:+ sep_string) ("../" +:+ s))%string with true by (by destruct s).
  by rewrite andb_false_r.
Qed.

(** On absolute clean paths the test says that the target is below the base. *)
Lemma rel_inside_iff l k : clean_abs l -> clean_abs k ->
  match Rel (abs_path l) (abs_path k) with Some rel => rel_inside rel | None => false end = true
  <-> exists m, k = l ++ m.
Proof.
  intros Hl Hk. unfold Rel. rewrite !Clean_abs, !IsAbs_abs_path, !clean_elements_abs by done. cbn [negb Bool.eqb].
  destruct (abs_path k =? abs_path l)%string eqn:E.
  - apply String.eqb_eq, abs_path_inj in E as ->; [|done|done]. split; [|done]. exists []. by rewrite app_nil_r.
  - destruct (rel_elements_prefix l k Hl) as [(m & -> & ->)|[(r & ->) Hn]]; cbn [mbind option_bind].
    + split; [eauto|]. intros _. apply rel_inside_names. by apply Forall_app in Hk as [_ Hk].
    + by rewrite rel_inside_up.
Qed.
