(* ===== verification/GoTime.v ===== *)
(** * Times

    The part of package [time] the backend uses beyond arithmetic: the calendar
    date of an instant in UTC and the RFC 3339 layout.  The location of every
    time is taken to be UTC. *)

From Stdlib Require Import ZArith.
From S2P Require Import Prelude GoString.

(** Year, month and day of a number of days since the Unix epoch. *)
Definition civil_from_days (days : Z) : Z * Z * Z :=
  let z := days + 719468 in
  let era := z / 146097 in
  let doe := z mod 146097 in
  let yoe := (doe - doe / 1460 + doe / 36524 - doe / 146096) / 365 in
  let doy := doe - (365 * yoe + yoe / 4 - yoe / 100) in
  let mp := (5 * doy + 2) / 153 in
  let d := doy - (153 * mp + 2) / 5 + 1 in
  let m := if mp <? 10 then mp + 3 else mp - 9 in
  (yoe + era * 400 + (if m <=? 2 then 1 else 0), m, d).

Definition digit_str (d : Z) : string := String (chr (48 + d)) "".

Definition pad2 (n : Z) : string := (digit_str (n / 10 mod 10) +:+ digit_str (n mod 10))%string.

Definition pad4 (n : Z) : string := (pad2 (n / 100) +:+ pad2 (n mod 100))%string.

(** [t.Unix()]. *)
Definition Unix (t : Z) : Z := t / Second.

(** [t.Format(time.RFC3339)] of a time in UTC, for a year of four digits. *)
Definition FormatRFC3339 (t : Z) : string :=
  let s := Unix t in
  let '(y, m, d) := civil_from_days (s / 86400) in
  let r := s mod 86400 in
  (pad4 y +:+ "-" +:+ pad2 m +:+ "-" +:+ pad2 d +:+ "T" +:+
   pad2 (r / 3600) +:+ ":" +:+ pad2 (r / 60 mod 60) +:+ ":" +:+ pad2 (r mod 60) +:+ "Z")%string.

(** [t.AddDate(0, 0, n)] of a time in UTC. *)
Definition AddDays (n t : Z) : Z := t + n * 24 * Hour.

(** [d.Round(m)] of a non-negative duration: half a unit rounds up. *)
Definition Round (d m : Z) : Z := let r := d mod m in if r + r <? m then d - r else d + m - r.

(** [d.Milliseconds()]. *)
Definition Milliseconds (d : Z) : Z := Z.quot d Millisecond.

(** [d.String()] of a whole number of seconds, at least one. *)
Definition DurationString (d : Z) : string :=
  let s := d / Second in
  let sec := (fmt_d (s mod 60) +:+ "s")%string in
  if s <? 60 then sec
  else
    let m := s / 60 in
    let min := (fmt_d (m mod 60) +:+ "m" +:+ sec)%string in
    if m <? 60 then min else (fmt_d (m / 60) +:+ "h" +:+ min)%string.

Example duration_15m : DurationString (15 * Minute) = "15m0s". Proof. reflexivity. Qed.
Example duration_26h : DurationString (26 * Hour + 61 * Second) = "26h1m1s". Proof. reflexivity. Qed.

Example format_epoch : FormatRFC3339 0 = "1970-01-01T00:00:00Z". Proof. reflexivity. Qed.
Example format_leap : FormatRFC3339 (1709210096 * Second) = "2024-02-29T12:34:56Z".
Proof. reflexivity. Qed.
Example format_zero : FormatRFC3339 zero_time = "0001-01-01T00:00:00Z". Proof. reflexivity. Qed.
