(* ===== verification/GoTimeParse.v ===== *)
(** * Parsing times

    [time.Parse] for the two layouts the backend reads, [time.RFC3339] and
    [2006-01-02], with the leniencies of the package: a single digit for the
    hour, fractional seconds after a point or a comma, offsets up to 24 hours
    and 60 minutes. *)

From Stdlib Require Import ZArith Lia Ascii.
From S2P Require Import Prelude GoString GoTime.

(** ** Dates *)

Definition is_leap (y : Z) : bool := (y mod 4 =? 0) && (negb (y mod 100 =? 0) || (y mod 400 =? 0)).

(** [daysIn]. *)
Definition days_in (m y : Z) : Z :=
  if m =? 2 then if is_leap y then 29 else 28
  else if (m =? 4) || (m =? 6) || (m =? 9) || (m =? 11) then 30 else 31.

(** Days from the Unix epoch to a date. *)
Definition days_from_civil (y m d : Z) : Z :=
  let y := if m <=? 2 then y - 1 else y in
  let era := y / 400 in
  let yoe := y mod 400 in
  let doy := (153 * (if 2 <? m then m - 3 else m + 9) + 2) / 5 + d - 1 in
  era * 146097 + (yoe * 365 + yoe / 4 - yoe / 100 + doy) - 719468.

Definition valid_date (y m d : Z) : bool := (1 <=? m) && (m <=? 12) && (1 <=? d) && (d <=? days_in m y).

(** ** Scanning *)

Definition digit_of (a : ascii) : option Z :=
  let c := byte a in if (48 <=? c) && (c <=? 57) then Some (c - 48) else None.

(** [n] digits. *)
Fixpoint take_digits (n : nat) (acc : Z) (s : string) : option (Z * string) :=
  match n with
  | O => Some (acc, s)
  | S n =>
    match s with
    | String a s => match digit_of a with Some d => take_digits n (acc * 10 + d) s | None => None end
    | EmptyString => None
    end
  end.

(** [getnum]: two digits, or one where [fixed] is false. *)
Definition getnum (fixed : bool) (s : string) : option (Z * string) :=
  match take_digits 2 0 s with
  | Some r => Some r
  | None => if fixed then None else take_digits 1 0 s
  end.

Definition skip_char (c : ascii) (s : string) : option string :=
  match s with String a s => if Ascii.eqb a c then Some s else None | EmptyString => None end.

Definition in_range (lo hi : Z) (r : option (Z * string)) : option (Z * string) :=
  match r with Some (v, s) => if (lo <=? v) && (v <=? hi) then Some (v, s) else None | None => None end.

#[local] Notation "'let?' x := p 'in' q" := (match p with Some x => q | None => None end)
  (at level 10, x pattern, p at level 100, q at level 200).

(** The date at the head of both layouts. *)
Definition scan_date (s : string) : option (Z * Z * Z * string) :=
  let? (y, s) := take_digits 4 0 s in
  let? s := skip_char "-" s in
  let? (m, s) := in_range 1 12 (getnum true s) in
  let? s := skip_char "-" s in
  let? (d, s) := getnum true s in
  Some (y, m, d, s).

(** All the digits there are. *)
Fixpoint digits (s : string) : list Z * string :=
  match s with
  | EmptyString => ([], "")
  | String a rest => match digit_of a with Some d => let '(l, r) := digits rest in (d :: l, r) | None => ([], s) end
  end.

(** [parseNanoseconds]: at most nine digits count. *)
Definition nanoseconds (l : list Z) : Z :=
  let l := take 9 l in
  fold_left (fun acc d => acc * 10 + d) l 0 * 10 ^ (9 - Z.of_nat (length l)).

Definition scan_fraction (s : string) : Z * string :=
  match s with
  | String a rest =>
    if Ascii.eqb a "." || Ascii.eqb a "," then
      match digits rest with ([], _) => (0, s) | (l, r) => (nanoseconds l, r) end
    else (0, s)
  | EmptyString => (0, s)
  end.

(** The zone, as an offset in seconds. *)
Definition scan_zone (s : string) : option (Z * string) :=
  match s with
  | String a rest =>
    if Ascii.eqb a "Z" then Some (0, rest)
    else
      let? (hr, rest) := in_range 0 24 (getnum true rest) in
      let? rest := skip_char ":" rest in
      let? (mm, rest) := in_range 0 60 (getnum true rest) in
      if Ascii.eqb a "+" then Some ((hr * 60 + mm) * 60, rest)
      else if Ascii.eqb a "-" then Some (- ((hr * 60 + mm) * 60), rest) else None
  | EmptyString => None
  end.

Definition Day : Z := 24 * Hour.

(** [time.Parse("2006-01-02", s)]. *)
Definition ParseDate (s : string) : option Z :=
  let? (y, m, d, s) := scan_date s in
  if (s =? "")%string && valid_date y m d then Some (days_from_civil y m d * Day) else None.

(** [time.Parse(time.RFC3339, s)]. *)
Definition ParseRFC3339 (s : string) : option Z :=
  let? (y, m, d, s) := scan_date s in
  let? s := skip_char "T" s in
  let? (hh, s) := in_range 0 23 (getnum false s) in
  let? s := skip_char ":" s in
  let? (mi, s) := in_range 0 59 (getnum true s) in
  let? s := skip_char ":" s in
  let? (ss, s) := in_range 0 59 (getnum true s) in
  let '(ns, s) := scan_fraction s in
  let? (offset, s) := scan_zone s in
  if (s =? "")%string && valid_date y m d
  then Some ((days_from_civil y m d * 86400 + hh * 3600 + mi * 60 + ss - offset) * Second + ns) else None.

Example parse_z : ParseRFC3339 "2024-02-29T12:34:56Z" = Some (1709210096 * Second). Proof. reflexivity. Qed.
Example parse_zone : ParseRFC3339 "2024-02-29T14:34:56.5+02:00" = Some (1709210096 * Second + 500 * Millisecond).
Proof. reflexivity. Qed.
Example parse_short_hour : ParseRFC3339 "2024-02-29T2:34:56Z" = ParseRFC3339 "2024-02-29T02:34:56Z". Proof. reflexivity. Qed.
Example parse_no_leap : ParseDate "2023-02-29" = None. Proof. reflexivity. Qed.
Example parse_date : ParseDate "1970-01-02" = Some Day. Proof. reflexivity. Qed.

(** ** The two directions of the calendar *)

(** The day of the era, the year of the era and the day of its year (from March). *)
Definition year_of_era (doe : Z) : Z := (doe - doe / 1460 + doe / 36524 - doe / 146096) / 365.

Lemma year_of_era_range doe : 0 <= doe < 146097 -> 0 <= year_of_era doe <= 399.
Proof. intros H. unfold year_of_era. Z.to_euclidean_division_equations. lia. Qed.

Lemma day_of_year_range doe : 0 <= doe < 146097 -> let yoe := year_of_era doe in
  0 <= doe - (365 * yoe + yoe / 4 - yoe / 100) <= 365.
Proof. intros H. cbv zeta. unfold year_of_era. Z.to_euclidean_division_equations. lia. Qed.

Lemma civil_days z : let '(y, m, d) := civil_from_days z in days_from_civil y m d = z.
Proof.
  unfold civil_from_days. cbv zeta. set (era := (z + 719468) / 146097). set (doe := (z + 719468) mod 146097).
  assert (Hz : z = era * 146097 + doe - 719468) by (subst era doe; pose proof (Z.div_mod (z + 719468) 146097); lia).
  assert (Hdoe : 0 <= doe < 146097) by (apply Z.mod_pos_bound; lia).
  pose proof (year_of_era_range doe Hdoe) as Hy. pose proof (day_of_year_range doe Hdoe) as Hd. cbv zeta in Hd.
  fold (year_of_era doe). set (yoe := year_of_era doe) in *. set (doy := doe - _) in *.
  assert (Hmp : 0 <= (5 * doy + 2) / 153 <= 11) by (Z.to_euclidean_division_equations; lia).
  set (mp := (5 * doy + 2) / 153) in *. rewrite Hz. clear Hz. clearbody era mp. unfold days_from_civil. cbv zeta.
  assert (E : forall _ : Z, (yoe + era * 400) / 400 = era /\ (yoe + era * 400) mod 400 = yoe).
  { intros _. split; [rewrite Z.div_add, Z.div_small; lia|rewrite Z.mod_add, Z.mod_small; lia]. }
  destruct (E 0) as [E1 E2]. clear E.
  destruct (Z.ltb_spec mp 10).
  - replace (mp + 3 <=? 2) with false by lia. replace (2 <? mp + 3) with true by lia.
    replace (yoe + era * 400 + 0) with (yoe + era * 400) by lia. rewrite E1, E2. replace (mp + 3 - 3) with mp by lia. subst doy. lia.
  - replace (mp - 9 <=? 2) with true by lia. replace (2 <? mp - 9) with false by lia.
    replace (yoe + era * 400 + 1 - 1) with (yoe + era * 400) by lia. rewrite E1, E2.
    replace (mp - 9 + 9) with mp by lia. subst doy. lia.
Qed.
