(* ===== verification/GoError.v ===== *)
(** * Errors

    The dynamic types that a Go [error] of the backend can have, and the
    package [internal/apperror]: [errors.New]/[fmt.Errorf] values, a
    [fmt.Errorf] with [%w], the application error [apperror.Error] (which has
    no [Unwrap]), the agent error [grpcclient.AgentError] (whose [Unwrap] is
    its cause) and the task service's [nonRetryableTaskError]. *)

From Stdlib Require Import ZArith.
From S2P Require Import Prelude GoString.

(** An [error] value that is not [nil]. *)
#[warnings="-register-all"]
Inductive goerr :=
| ErrNew (msg : string)
| ErrWrapW (msg : string) (inner : goerr)
| ErrApp (Code HTTPStatus : Z) (Message : string) (Err : option goerr)
| ErrAgent (Code : Z) (Message Detail : string) (GRPCCode : Z) (Cause : option goerr)
| ErrNonRetryable (err : goerr)
| ErrEOF.

(** The result of a Go function that returns [(A, error)]. *)
Inductive res (A : Type) :=
| Ok (x : A)
| Err (e : goerr).
Arguments Ok {A} x.
Arguments Err {A} e.

Definition is_ok {A} (r : res A) : bool := match r with Ok _ => true | Err _ => false end.

(** [if err != nil { return f(err) }]. *)
Definition map_err {A} (f : goerr -> goerr) (r : res A) : res A :=
  match r with Ok x => Ok x | Err e => Err (f e) end.

Definition res_bind {A B} (r : res A) (f : A -> res B) : res B :=
  match r with Ok x => f x | Err e => Err e end.

Definition res_map {A B} (f : A -> B) (r : res A) : res B :=
  match r with Ok x => Ok (f x) | Err e => Err e end.

(** [AgentError.Error] on a non-nil receiver. *)
Definition agent_error_text (Message Detail : string) (cause : option string) : string :=
  let message := TrimSpace Message in
  let message := if (message =? "")%string then "core agent request failed" else message in
  let detail := TrimSpace Detail in
  if (detail =? "")%string then
    match cause with
    | Some c => (message +:+ ": " +:+ c)%string
    | None => message
    end
  else (message +:+ ": " +:+ detail)%string.

(** The method [Error() string] of each type. *)
Fixpoint Error (e : goerr) : string :=
  match e with
  | ErrNew msg => msg
  | ErrWrapW msg inner => (msg +:+ ": " +:+ Error inner)%string
  | ErrApp _ _ message None => message
  | ErrApp _ _ message (Some inner) => (message +:+ ": " +:+ Error inner)%string
  | ErrAgent _ message detail _ cause =>
      agent_error_text message detail (match cause with Some c => Some (Error c) | None => None end)
  | ErrNonRetryable inner => Error inner
  | ErrEOF => "EOF"
  end.

(** The method [Unwrap], where the type has one. *)
Definition Unwrap (e : goerr) : option goerr :=
  match e with
  | ErrWrapW _ inner => Some inner
  | ErrAgent _ _ _ _ cause => cause
  | ErrNonRetryable inner => Some inner
  | ErrNew _ | ErrApp _ _ _ _ | ErrEOF => None
  end.

(** The fields of an [*apperror.Error]. *)
Record AppError := { ae_Code : Z; ae_HTTPStatus : Z; ae_Message : string; ae_Err : option goerr }.

(** [apperror.As]: [errors.As] with an [*apperror.Error] target. *)
Fixpoint As (e : goerr) : option AppError :=
  match e with
  | ErrApp c s m i => Some {| ae_Code := c; ae_HTTPStatus := s; ae_Message := m; ae_Err := i |}
  | ErrWrapW _ inner => As inner
  | ErrAgent _ _ _ _ (Some cause) => As cause
  | ErrNonRetryable inner => As inner
  | ErrNew _ | ErrAgent _ _ _ _ None | ErrEOF => None
  end.

(** [errors.As] with a [nonRetryableTaskError] target: found or not. *)
Fixpoint AsNonRetryable (e : goerr) : bool :=
  match e with
  | ErrNonRetryable _ => true
  | ErrWrapW _ inner => AsNonRetryable inner
  | ErrAgent _ _ _ _ (Some cause) => AsNonRetryable cause
  | ErrNew _ | ErrApp _ _ _ _ | ErrAgent _ _ _ _ None | ErrEOF => false
  end.

(** The fields of a [*grpcclient.AgentError]. *)
Record AgentError :=
  { ag_Code : Z; ag_Message : string; ag_Detail : string; ag_GRPCCode : Z; ag_Cause : option goerr }.

(** [errors.As] with an [*AgentError] target. *)
Fixpoint AsAgent (e : goerr) : option AgentError :=
  match e with
  | ErrAgent c m d g i =>
      Some {| ag_Code := c; ag_Message := m; ag_Detail := d; ag_GRPCCode := g; ag_Cause := i |}
  | ErrWrapW _ inner => AsAgent inner
  | ErrNonRetryable inner => AsAgent inner
  | ErrNew _ | ErrApp _ _ _ _ | ErrEOF => None
  end.

(** [AgentError.IsTransport]. *)
Definition IsTransport (e : AgentError) : bool :=
  match ag_Cause e with Some _ => true | None => false end.

(** ** Package [apperror] *)

Definition New (code status : Z) (message : string) : goerr := ErrApp code status message None.

Definition Wrap (code status : Z) (message : string) (err : goerr) : goerr :=
  ErrApp code status message (Some err).

Definition ErrBadRequest := New 2000 400 "bad request".
Definition ErrInvalidCredential := New 2001 401 "invalid username or password".
Definition ErrUnauthorized := New 2002 401 "unauthorized".
Definition ErrUserNotFound := New 2003 404 "user not found".
Definition ErrInternal := New 1000 500 "internal server error".
Definition ErrTokenGenerate := New 2004 500 "failed to generate token".
Definition ErrTokenParse := New 2005 401 "invalid token".
Definition ErrBootstrapAdminFail := New 2006 500 "failed to bootstrap default admin".
Definition ErrPermissionDenied := New 2007 403 "permission denied".
Definition ErrTaskNotFound := New 2008 404 "task not found".
Definition ErrPasswordChangeNeed := New 2009 403 "password change required".
Definition ErrSessionExpired := New 2010 401 "session expired".
Definition ErrUserDisabled := New 2011 403 "user is disabled".
Definition ErrLoginRateLimited := New 2012 429 "too many login attempts, try later".
Definition ErrSystemSettingNotFound := New 2013 404 "system setting not found".
Definition ErrBackupNotFound := New 2014 404 "backup not found".
Definition ErrAgentUnavailable := New 3001 503 "core agent unavailable".

(** [apperror.Wrap(e.Code, e.HTTPStatus, e.Message, err)] for a sentinel [e],
    the idiom of every service. *)
Definition wrap_as (sentinel err : goerr) : goerr :=
  match As sentinel with
  | Some a => Wrap (ae_Code a) (ae_HTTPStatus a) (ae_Message a) err
  | None => err
  end.

Definition internal (err : goerr) : goerr := wrap_as ErrInternal err.
Definition bad_request (err : goerr) : goerr := wrap_as ErrBadRequest err.

(** The HTTP status a handler answers with ([response.FromError]). *)
Definition http_status (e : goerr) : Z :=
  match As e with Some a => ae_HTTPStatus a | None => 500 end.

Definition app_code (e : goerr) : Z :=
  match As e with Some a => ae_Code a | None => 1000 end.

(** The message of an application error. *)
Definition app_message (e : goerr) : string :=
  match As e with Some a => ae_Message a | None => "" end.

Lemma app_code_wrap_as c s m e : app_code (wrap_as (New c s m) e) = c.
Proof. done. Qed.

Lemma http_status_wrap_as c s m e : http_status (wrap_as (New c s m) e) = s.
Proof. done. Qed.
