(* ===== verification/Effects.v ===== *)
(** * Effectful programs

    A Go function that reads the clock, queries the database or calls the
    agent is a program: a tree of operations, each waiting for its answer.
    [run] executes a program alone against a handler of the operations;
    [pstep] interleaves the operations of several goroutines, one operation
    being atomic. *)

From Stdlib Require Import ZArith.
From S2P Require Import Prelude GoError.

(** A statement can fail before it has an effect, or after (a lost answer). *)
Inductive fault := NoFault | FailBefore (e : goerr) | FailAfter (e : goerr).

Section Programs.
Context {op : Type} {ans : op -> Type}.

Inductive prog (A : Type) :=
| Ret (x : A)
| Do (o : op) (k : ans o -> prog A).
Arguments Ret {A} x.
Arguments Do {A} o k.

Fixpoint bind {A B} (p : prog A) (f : A -> prog B) : prog B :=
  match p with
  | Ret x => f x
  | Do o k => Do o (fun a => bind (k a) f)
  end.

(** One operation. *)
Definition call (o : op) : prog (ans o) := Do o Ret.

(** [if err != nil { return zero, err }]. *)
Definition bind_ok {A B} (p : prog (res A)) (f : A -> prog (res B)) : prog (res B) :=
  bind p (fun r => match r with Ok x => f x | Err e => Ret (Err e) end).

Definition or_else {A} (p : prog (res A)) (f : goerr -> goerr) : prog (res A) :=
  bind p (fun r => Ret (map_err f r)).

(** Every operation the program can perform satisfies [P]. *)
Fixpoint all_ops (P : op -> Prop) {A} (p : prog A) : Prop :=
  match p with
  | Ret _ => True
  | Do o k => P o /\ forall a, all_ops P (k a)
  end.

Lemma all_ops_bind (P : op -> Prop) {A B} (p : prog A) (f : A -> prog B) :
  all_ops P p -> (forall x, all_ops P (f x)) -> all_ops P (bind p f).
Proof. induction p as [x|o k IH]; simpl; [auto|]. intros [Ho Hk] Hf. split; auto. Qed.

Lemma all_ops_call (P : op -> Prop) o : P o -> all_ops P (call o).
Proof. simpl. auto. Qed.

Lemma all_ops_mono (P Q : op -> Prop) {A} (p : prog A) :
  (forall o, P o -> Q o) -> all_ops P p -> all_ops Q p.
Proof. intros HPQ. induction p as [x|o k IH]; simpl; [auto|]. intros [Ho Hk]. split; auto. Qed.

(** Every answer the program can end with satisfies [Q]. *)
Fixpoint results {A} (Q : A -> Prop) (p : prog A) : Prop :=
  match p with
  | Ret x => Q x
  | Do o k => forall a, results Q (k a)
  end.

Lemma results_bind {A B} (Q : A -> Prop) (R : B -> Prop) (p : prog A) (f : A -> prog B) :
  results Q p -> (forall x, Q x -> results R (f x)) -> results R (bind p f).
Proof. induction p as [x|o k IH]; cbn [bind results]; auto. Qed.

Lemma results_any {A} (p : prog A) : results (fun _ => True) p.
Proof. induction p as [x|o k IH]; cbn [results]; auto. Qed.

(** ** A program running alone *)
Section Run.
Context {W : Type} (handle : forall o : op, W -> ans o * W).

Fixpoint run {A} (p : prog A) (w : W) : A * W :=
  match p with
  | Ret x => (x, w)
  | Do o k => let '(a, w') := handle o w in run (k a) w'
  end.

Lemma run_bind {A B} (p : prog A) (f : A -> prog B) w :
  run (bind p f) w = let '(x, w') := run p w in run (f x) w'.
Proof.
  revert w. induction p as [x|o k IH]; intros w; simpl; [done|].
  destruct (handle o w) as [a w']. apply IH.
Qed.

Lemma run_call o w : run (call o) w = handle o w.
Proof. unfold call. simpl. by destruct (handle o w). Qed.

Lemma results_run {A} (Q : A -> Prop) (p : prog A) w : results Q p -> Q (run p w).1.
Proof.
  revert w. induction p as [x|o k IH]; intros w; cbn [results run]; [done|]. intros H.
  destruct (handle o w) as [a w']. apply IH, H.
Qed.

(** What every operation preserves, a program preserves. *)
Lemma run_preserves (R : W -> W -> Prop) :
  (forall w, R w w) -> (forall w1 w2 w3, R w1 w2 -> R w2 w3 -> R w1 w3) ->
  (forall o w, R w (handle o w).2) ->
  forall A (p : prog A) w, R w (run p w).2.
Proof.
  intros Hrefl Htrans Hop A p. induction p as [x|o k IH]; intros w; simpl; [done|].
  pose proof (Hop o w) as Ho. destruct (handle o w) as [a w']. eapply Htrans; [done|]. apply IH.
Qed.

Lemma run_inv (I : W -> Prop) :
  (forall o w, I w -> I (handle o w).2) -> forall A (p : prog A) w, I w -> I (run p w).2.
Proof.
  intros Hop A p w. revert w. induction p as [x|o k IH]; intros w Hw; simpl; [done|].
  pose proof (Hop o w Hw) as Ho. destruct (handle o w) as [a w']. by apply IH.
Qed.

Lemma run_inv_ops (I : W -> Prop) (P : op -> Prop) :
  (forall o w, P o -> I w -> I (handle o w).2) ->
  forall A (p : prog A) w, all_ops P p -> I w -> I (run p w).2.
Proof.
  intros Hop A p. induction p as [x|o k IH]; intros w Hp Hw; simpl in *; [done|].
  destruct Hp as [Ho Hk]. pose proof (Hop o w Ho Hw) as H. destruct (handle o w) as [a w']. by apply IH.
Qed.

(** ** Interleavings

    A configuration is the list of goroutines still running and the shared
    world.  [spawn] tells which goroutine the world has just been asked to
    start (by a [go] statement), if any. *)
Context (spawn : W -> option (prog unit * W)).

Definition pool : Type := list (prog unit) * W.

Inductive pstep : pool -> pool -> Prop :=
| PStep ts i o k w :
    ts !! i = Some (Do o k) ->
    pstep (ts, w) (<[i := k (handle o w).1]> ts, (handle o w).2)
| PSpawn ts p w w' :
    spawn w = Some (p, w') -> pstep (ts, w) (ts ++ [p], w').

Inductive psteps : pool -> pool -> Prop :=
| PRefl c : psteps c c
| PTrans c1 c2 c3 : pstep c1 c2 -> psteps c2 c3 -> psteps c1 c3.

Lemma psteps_app c1 c2 c3 : psteps c1 c2 -> psteps c2 c3 -> psteps c1 c3.
Proof. induction 1; eauto using psteps. Qed.

(** Rule induction for interleavings: what each operation and each [go]
    preserves holds at every point of every interleaving. *)
Lemma psteps_inv (I : W -> Prop) :
  (forall o w, I w -> I (handle o w).2) ->
  (forall w p w', spawn w = Some (p, w') -> I w -> I w') ->
  forall c1 c2, psteps c1 c2 -> I c1.2 -> I c2.2.
Proof.
  intros Hop Hspawn c1 c2. induction 1 as [|c1 c2 c3 Hs _ IH]; [done|].
  intros Hi. apply IH. destruct Hs; simpl in *; eauto.
Qed.

(** The same for programs that perform only operations with [P]. *)
Lemma psteps_inv_ops (I : W -> Prop) (P : op -> Prop) :
  (forall o w, P o -> I w -> I (handle o w).2) ->
  (forall w p w', spawn w = Some (p, w') -> I w -> I w' /\ all_ops P p) ->
  forall c1 c2, psteps c1 c2 -> Forall (all_ops P) c1.1 -> I c1.2 -> I c2.2.
Proof.
  intros Hop Hspawn c1 c2. induction 1 as [|c1 c2 c3 Hs _ IH]; [done|].
  intros Hp Hi. destruct Hs as [ts i o k w Hl|ts p w w' Hsp]; simpl in *.
  - assert (Ho : all_ops P (Do o k)) by (rewrite Forall_forall in Hp; apply Hp; by eapply list_elem_of_lookup_2).
    destruct Ho as [Ho Hk]. apply IH; [apply Forall_insert; auto | auto].
  - destruct (Hspawn _ _ _ Hsp Hi) as [Hi' Hp']. apply IH; [|done]. by apply Forall_app_2; [|constructor].
Qed.

Lemma psteps_rel (R : W -> W -> Prop) :
  (forall w, R w w) -> (forall w1 w2 w3, R w1 w2 -> R w2 w3 -> R w1 w3) ->
  (forall o w, R w (handle o w).2) ->
  (forall w p w', spawn w = Some (p, w') -> R w w') ->
  forall c1 c2, psteps c1 c2 -> R c1.2 c2.2.
Proof.
  intros Hr Ht Hop Hspawn c1 c2. induction 1 as [|c1 c2 c3 Hs _ IH]; [done|].
  eapply Ht; [|done]. destruct Hs; simpl in *; eauto.
Qed.

(** A schedule: the goroutine to run next, or [None] to start the goroutine
    asked for. *)
Definition sched_step (s : option nat) (c : pool) : pool :=
  match s with
  | Some i =>
    match c.1 !! i with
    | Some (Do o k) => (<[i := k (handle o c.2).1]> c.1, (handle o c.2).2)
    | _ => c
    end
  | None => match spawn c.2 with Some (p, w') => (c.1 ++ [p], w') | None => c end
  end.

Fixpoint run_sched (l : list (option nat)) (c : pool) : pool :=
  match l with
  | [] => c
  | s :: l' => run_sched l' (sched_step s c)
  end.

Lemma run_sched_psteps l c : psteps c (run_sched l c).
Proof.
  revert c. induction l as [|s l IH]; intros c; simpl; [constructor|].
  destruct c as [ts w]. unfold sched_step at 1. destruct s as [i|]; simpl.
  - destruct (ts !! i) as [[x|o k]|] eqn:E; try apply IH.
    eapply PTrans; [by apply PStep | apply IH].
  - destruct (spawn w) as [[p w']|] eqn:E; [|apply IH].
    eapply PTrans; [by apply PSpawn | apply IH].
Qed.

(** A goroutine running alone is one of the interleavings. *)
Lemma run_psteps ts i (p : prog unit) w :
  ts !! i = Some p -> psteps (ts, w) (<[i := Ret tt]> ts, (run p w).2).
Proof.
  revert ts w. induction p as [[]|o k IH]; intros ts w Hi; simpl.
  - rewrite list_insert_id by done. constructor.
  - eapply PTrans; [by apply PStep|]. destruct (handle o w) as [a w'] eqn:E. simpl.
    assert (Hlt : (i < length ts)%nat) by (eapply lookup_lt_Some; eauto).
    replace (<[i:=Ret tt]> ts) with (<[i:=Ret tt]> (<[i:=k a]> ts))
      by apply list_insert_insert_eq.
    apply IH. by apply list_lookup_insert_eq.
Qed.
End Run.
End Programs.

Arguments prog {op} ans A.
Arguments Ret {op ans A} x.
Arguments Do {op ans A} o k.

Declare Scope prog_scope.
Delimit Scope prog_scope with prog.
Notation "x <- p ;; q" := (bind p (fun x => q%prog))
  (at level 100, p at next level, right associativity) : prog_scope.
Notation "p ;;; q" := (bind p (fun _ => q%prog)) (at level 100, right associativity) : prog_scope.
Notation "x <-! p ;; q" := (bind_ok p (fun x => q%prog))
  (at level 100, p at next level, right associativity) : prog_scope.

(** ** Signatures inside a larger signature

    A component that calls another one through an interface is a program over
    any signature that contains the operations of that interface. *)
Class SubOp {op1} (ans1 : op1 -> Type) {op2} (ans2 : op2 -> Type) := {
  inj : op1 -> op2;
  proj : forall o, ans2 (inj o) -> ans1 o
}.

Definition trigger {op1 ans1 op2 ans2} `{SubOp op1 ans1 op2 ans2} (o : op1) : prog ans2 (ans1 o) :=
  Do (inj o) (fun a => Ret (proj o a)).

#[export] Instance SubOp_refl {op} (ans : op -> Type) : SubOp ans ans :=
  {| inj o := o; proj o a := a |}.

(** A whole program of the component inside the larger one. *)
Section Embed.
Context {op1 : Type} {ans1 : op1 -> Type} {op2 : Type} {ans2 : op2 -> Type} `{SubOp op1 ans1 op2 ans2}.

Fixpoint embed {A} (p : prog ans1 A) : prog ans2 A :=
  match p with
  | Ret x => Ret x
  | Do o k => Do (inj o) (fun a => embed (k (proj o a)))
  end.

(** It runs as it would alone on its part of the world. *)
Lemma run_embed {W1 W2} (handle1 : forall o : op1, W1 -> ans1 o * W1) (handle2 : forall o : op2, W2 -> ans2 o * W2)
  (view : W2 -> W1) :
  (forall o w, proj o (handle2 (inj o) w).1 = (handle1 o (view w)).1 /\ view (handle2 (inj o) w).2 = (handle1 o (view w)).2) ->
  forall A (p : prog ans1 A) w,
    (run handle2 (embed p) w).1 = (run handle1 p (view w)).1 /\ view (run handle2 (embed p) w).2 = (run handle1 p (view w)).2.
Proof.
  intros Hv A p. induction p as [x|o k IH]; intros w; cbn [embed run]; [done|].
  destruct (Hv o w) as [H1 H2]. destruct (handle2 (inj o) w) as [a w'], (handle1 o (view w)) as [a1 w1]. cbn [fst snd] in *.
  subst a1 w1. apply IH.
Qed.
End Embed.

(** ** Weakest preconditions of programs that run alone *)
Section WP.
Context {op : Type} {ans : op -> Type} {W : Type} (handle : forall o : op, W -> ans o * W).

Definition wp {A} (p : prog ans A) (Q : A -> W -> Prop) (w : W) : Prop :=
  let '(x, w') := run handle p w in Q x w'.

Lemma wp_bind {A B} (p : prog ans A) (f : A -> prog ans B) Q w :
  wp p (fun x w' => wp (f x) Q w') w -> wp (bind p f) Q w.
Proof. unfold wp. rewrite run_bind. by destruct (run handle p w). Qed.

Lemma wp_bind_ok {A B} (p : prog ans (res A)) (f : A -> prog ans (res B)) Q w :
  wp p (fun r w' => match r with Ok x => wp (f x) Q w' | Err e => Q (Err e) w' end) w ->
  wp (bind_ok p f) Q w.
Proof.
  intros Hp. apply wp_bind. unfold wp in *. destruct (run handle p w) as [[x|e] w'].
  - exact Hp.
  - exact Hp.
Qed.

Lemma wp_or_else {A} (p : prog ans (res A)) f Q w :
  wp p (fun r w' => Q (map_err f r) w') w -> wp (or_else p f) Q w.
Proof. intros Hp. apply wp_bind. unfold wp in *. by destruct (run handle p w) as [[x|e] w']. Qed.

Lemma wp_ret {A} (x : A) (Q : A -> W -> Prop) w : Q x w -> wp (Ret x) Q w.
Proof. done. Qed.

(** What a program keeps of the world, whatever it answers. *)
Lemma wp_inv {A} (I : W -> Prop) (P : op -> Prop) (p : prog ans A) w :
  (forall o w, P o -> I w -> I (handle o w).2) -> all_ops P p -> I w -> wp p (fun _ w' => I w') w.
Proof. intros Hop Hp Hw. unfold wp. pose proof (run_inv_ops handle I P Hop A p w Hp Hw). by destruct (run handle p w). Qed.

Lemma wp_mono {A} (p : prog ans A) (Q Q' : A -> W -> Prop) w :
  wp p Q w -> (forall x w', Q x w' -> Q' x w') -> wp p Q' w.
Proof. unfold wp. destruct (run handle p w). auto. Qed.
End WP.
