(* ===== verification/OsFs.v ===== *)
(** * The file system

    What the backup service uses of package [os] and [filepath.EvalSymlinks]:
    a Unix file system as a finite map from the places of files, directories
    and symbolic links (the names on the way from the root, no link among them)
    to their contents.  Owners and permissions are left out: an operation they
    forbid is one that fails. *)

From Stdlib Require Import ZArith Lia.
From stdpp Require Import gmap fin_maps.
From S2P Require Import Prelude GoString GoError Effects FilePath.

Inductive node :=
| NFile (content : string)
| NDir
| NLink (target : string).

Abbreviation filesystem := (gmap (list string) node).
Abbreviation place := (list string) (only parsing).

Definition node_at (fs : filesystem) (p : place) : option node :=
  match p with [] => Some NDir | _ => fs !! p end.

Definition is_dir (fs : filesystem) (p : place) : bool :=
  match node_at fs p with Some NDir => true | _ => false end.

(** Where a path leads: to a node, to a free name in a directory, nowhere. *)
Inductive walked :=
| WFound (p : place)
| WMissing (p : place)
| WError (e : goerr).

Definition ENOENT : goerr := ErrNew "no such file or directory".
Definition ENOTDIR : goerr := ErrNew "not a directory".
Definition ELOOP : goerr := ErrNew "too many levels of symbolic links".
Definition EEXIST : goerr := ErrNew "file exists".
Definition EISDIR : goerr := ErrNew "is a directory".
Definition ENOTEMPTY : goerr := ErrNew "directory not empty".

(** Follows the elements of a path from [dir] through at most [links] symbolic
    links; a link at the end is followed when [follow] is set. *)
Fixpoint walk (links : nat) (fs : filesystem) (follow : bool) : place -> list string -> walked :=
  fix go (dir : place) (l : list string) : walked :=
    match l with
    | [] => WFound dir
    | e :: rest =>
      if negb (is_dir fs dir) then WError ENOTDIR
      else if (e =? "")%string || (e =? ".")%string then go dir rest
      else if (e =? "..")%string then go (removelast dir) rest
      else match fs !! (dir ++ [e]) with
           | None => match rest with [] => WMissing (dir ++ [e]) | _ => WError ENOENT end
           | Some (NLink target) =>
             if follow || match rest with [] => false | _ => true end then
               match links with
               | O => WError ELOOP
               | S links =>
                 walk links fs follow (if IsAbs target then [] else dir) (elements target ++ rest)
               end
             else WFound (dir ++ [e])
           | Some _ => go (dir ++ [e]) rest
           end
    end.

(** The kernel follows 40 links, [EvalSymlinks] 255. *)
Definition kernel_links : nat := 40.
Definition eval_links : nat := 255.

Definition lookup_path (fs : filesystem) (cwd : place) (follow : bool) (path : string) : walked :=
  if (path =? "")%string then WError ENOENT
  else walk kernel_links fs follow (if IsAbs path then [] else cwd) (elements path).

(** [os.ReadFile], and [os.Open] with [io.Copy] to the end. *)
Definition ReadFile (path : string) (cwd : place) (fs : filesystem) : res string :=
  match lookup_path fs cwd true path with
  | WFound p =>
    match node_at fs p with
    | Some (NFile content) => Ok content
    | Some NDir => Err EISDIR
    | _ => Err ENOENT
    end
  | WMissing _ => Err ENOENT
  | WError e => Err e
  end.

(** [os.WriteFile]: creates or truncates. *)
Definition WriteFile (path content : string) (cwd : place) (fs : filesystem) : res unit * filesystem :=
  match lookup_path fs cwd true path with
  | WFound p =>
    match node_at fs p with
    | Some (NFile _) => (Ok tt, <[p := NFile content]> fs)
    | _ => (Err EISDIR, fs)
    end
  | WMissing p => (Ok tt, <[p := NFile content]> fs)
  | WError e => (Err e, fs)
  end.

(** [os.Rename] of a file or a link. *)
Definition Rename (oldpath newpath : string) (cwd : place) (fs : filesystem) : res unit * filesystem :=
  match lookup_path fs cwd false oldpath, lookup_path fs cwd false newpath with
  | WFound p, (WFound q | WMissing q) =>
    match node_at fs p, node_at fs q with
    | Some NDir, _ | _, Some NDir => (Err EISDIR, fs)
    | Some n, _ => (Ok tt, <[q := n]> (delete p fs))
    | None, _ => (Err ENOENT, fs)
    end
  | WError e, _ | _, WError e => (Err e, fs)
  | WMissing _, _ => (Err ENOENT, fs)
  end.

(** [os.Remove]. *)
Definition Remove (path : string) (cwd : place) (fs : filesystem) : res unit * filesystem :=
  match lookup_path fs cwd false path with
  | WFound p =>
    match fs !! p with
    | Some NDir =>
      if existsb (fun kv => bool_decide (removelast kv.1 = p)) (map_to_list fs) then (Err ENOTEMPTY, fs)
      else (Ok tt, delete p fs)
    | Some _ => (Ok tt, delete p fs)
    | None => (Err EEXIST, fs)
    end
  | WMissing _ => (Err ENOENT, fs)
  | WError e => (Err e, fs)
  end.

(** [os.MkdirAll], element by element; what was made stays when it fails. *)
Fixpoint mkdirs (dir : place) (l : list string) (fs : filesystem) : res unit * filesystem :=
  match l with
  | [] => (if is_dir fs dir then Ok tt else Err ENOTDIR, fs)
  | e :: rest =>
    if (e =? "")%string || (e =? ".")%string then mkdirs dir rest fs
    else if (e =? "..")%string then mkdirs (removelast dir) rest fs
    else match fs !! (dir ++ [e]) with
         | None => mkdirs (dir ++ [e]) rest (<[dir ++ [e] := NDir]> fs)
         | Some NDir => mkdirs (dir ++ [e]) rest fs
         | Some (NFile _) => (Err ENOTDIR, fs)
         | Some (NLink _) =>
           match walk kernel_links fs true dir [e] with
           | WFound p => if is_dir fs p then mkdirs p rest fs else (Err ENOTDIR, fs)
           | WMissing _ => (Err EEXIST, fs)
           | WError e => (Err e, fs)
           end
         end
  end.

Definition MkdirAll (path : string) (cwd : place) (fs : filesystem) : res unit * filesystem :=
  if (path =? "")%string then (Err ENOENT, fs)
  else mkdirs (if IsAbs path then [] else cwd) (elements path) fs.

(** [os.OpenFile] with [O_CREATE|O_EXCL|O_WRONLY]; the descriptor is the place. *)
Definition CreateExcl (path : string) (cwd : place) (fs : filesystem) : res place * filesystem :=
  match lookup_path fs cwd false path with
  | WFound _ => (Err EEXIST, fs)
  | WMissing p => (Ok p, <[p := NFile ""]> fs)
  | WError e => (Err e, fs)
  end.

(** [file.Write] on that descriptor. *)
Definition Append (fd : place) (data : string) (fs : filesystem) : res unit * filesystem :=
  match fs !! fd with
  | Some (NFile content) => (Ok tt, <[fd := NFile (content +:+ data)%string]> fs)
  | _ => (Ok tt, fs)
  end.

(** [filepath.EvalSymlinks] of an absolute path. *)
Definition EvalSymlinks (path : string) (fs : filesystem) : res string :=
  match walk eval_links fs true [] (elements path) with
  | WFound p => Ok (abs_path p)
  | WMissing _ => Err ENOENT
  | WError e => Err e
  end.

(** ** Operations *)

Inductive os_op :=
| OGetwd
| OEvalSymlinks (path : string)
| OMkdirAll (path : string)
| OWriteFile (path content : string)
| ORename (oldpath newpath : string)
| ORemove (path : string)
| OReadFile (path : string)
| OCreateExcl (path : string)
| OAppend (fd : place) (data : string).

Definition os_val (o : os_op) : Type :=
  match o with
  | OGetwd | OEvalSymlinks _ | OReadFile _ => string
  | OCreateExcl _ => place
  | OMkdirAll _ | OWriteFile _ _ | ORename _ _ | ORemove _ | OAppend _ _ => unit
  end.

Definition os_ans (o : os_op) : Type := res (os_val o).

Record os_state := { os_fs : filesystem; os_cwd : place }.

Definition with_fs (s : os_state) (fs : filesystem) : os_state := {| os_fs := fs; os_cwd := os_cwd s |}.

Definition on_fs {A} (s : os_state) (r : A * filesystem) : A * os_state := (r.1, with_fs s r.2).

Definition os_exec (o : os_op) (s : os_state) : os_ans o * os_state :=
  match o return os_ans o * os_state with
  | OGetwd => (Ok (abs_path (os_cwd s)), s)
  | OEvalSymlinks path => (EvalSymlinks path (os_fs s), s)
  | OMkdirAll path => on_fs s (MkdirAll path (os_cwd s) (os_fs s))
  | OWriteFile path content => on_fs s (WriteFile path content (os_cwd s) (os_fs s))
  | ORename oldpath newpath => on_fs s (Rename oldpath newpath (os_cwd s) (os_fs s))
  | ORemove path => on_fs s (Remove path (os_cwd s) (os_fs s))
  | OReadFile path => (ReadFile path (os_cwd s) (os_fs s), s)
  | OCreateExcl path => on_fs s (CreateExcl path (os_cwd s) (os_fs s))
  | OAppend fd data => on_fs s (Append fd data (os_fs s))
  end.

(** An operation that fails can fail before it does anything or after; a failed
    write has written its first [cut] bytes. *)
Definition cut_op (cut : nat) (o : os_op) : os_op :=
  match o with
  | OWriteFile path content => OWriteFile path (take_bytes cut content)
  | OAppend fd data => OAppend fd (take_bytes cut data)
  | _ => o
  end.

Definition os_faulty (f : fault) (cut : nat) (o : os_op) (s : os_state) : os_ans o * os_state :=
  match f with
  | NoFault => os_exec o s
  | FailBefore e => (Err e, s)
  | FailAfter e => (Err e, (os_exec (cut_op cut o) s).2)
  end.

(** ** Walking *)

Lemma walk_nil n fs b dir : walk n fs b dir [] = WFound dir.
Proof. by destruct n. Qed.

Lemma walk_cons n fs b dir e rest : walk n fs b dir (e :: rest) =
  if negb (is_dir fs dir) then WError ENOTDIR
  else if (e =? "")%string || (e =? ".")%string then walk n fs b dir rest
  else if (e =? "..")%string then walk n fs b (removelast dir) rest
  else match fs !! (dir ++ [e]) with
       | None => match rest with [] => WMissing (dir ++ [e]) | _ => WError ENOENT end
       | Some (NLink target) =>
         if b || match rest with [] => false | _ => true end then
           match n with
           | O => WError ELOOP
           | S n => walk n fs b (if IsAbs target then [] else dir) (elements target ++ rest)
           end
         else WFound (dir ++ [e])
       | Some _ => walk n fs b (dir ++ [e]) rest
       end.
Proof. by destruct n. Qed.

(** Induction over the links, then over the elements. *)
Lemma walk_ind (P : nat -> place -> list string -> Prop) :
  (forall n dir, P n dir []) ->
  (forall n dir e rest, (forall dir', P n dir' rest) ->
     (forall m dir' l, n = S m -> P m dir' l) -> P n dir (e :: rest)) ->
  forall n dir l, P n dir l.
Proof.
  intros H0 H1. induction n as [|n IHn]; intros dir l; revert dir; induction l as [|e l IHl]; intros dir; auto.
  - apply H1; [done|]. intros m ? ? [=].
  - apply H1; [done|]. intros m dir' l' [= <-]. apply IHn.
Qed.

(** A change that keeps the directories and the links keeps the ways to them. *)
Definition not_file (n : node) : Prop := match n with NFile _ => False | _ => True end.

Definition keeps_dirs (fs fs' : filesystem) : Prop :=
  forall k n, fs !! k = Some n -> not_file n -> fs' !! k = Some n.

Lemma is_dir_keeps fs fs' p : keeps_dirs fs fs' -> is_dir fs p = true -> is_dir fs' p = true.
Proof.
  intros H. unfold is_dir, node_at. destruct p as [|e p]; [done|].
  destruct (fs !! (e :: p)) as [[c| |t]|] eqn:E; try done. by rewrite (H _ _ E).
Qed.

Lemma walk_keeps fs fs' b : keeps_dirs fs fs' -> forall n dir l p,
  walk n fs b dir l = WFound p -> is_dir fs p = true -> walk n fs' b dir l = WFound p.
Proof.
  intros Hk. apply (walk_ind (fun n dir l => forall p, _ = WFound p -> is_dir fs p = true -> _ = WFound p)).
  - intros n dir p. by rewrite !walk_nil.
  - intros n dir e rest IH IHn p. rewrite !walk_cons.
    destruct (is_dir fs dir) eqn:Ed; [|done]. rewrite (is_dir_keeps _ _ _ Hk Ed). cbn [negb].
    destruct ((e =? "")%string || (e =? ".")%string); [apply IH|].
    destruct (e =? "..")%string; [apply IH|].
    destruct (fs !! (dir ++ [e])) as [[c| |t]|] eqn:E.
    + intros Hw Hp. exfalso. destruct rest as [|e' rest].
      * rewrite walk_nil in Hw. injection Hw as <-. revert Hp. unfold is_dir, node_at.
        destruct (dir ++ [e]) eqn:El; [by destruct dir|]. by rewrite E.
      * rewrite walk_cons in Hw. replace (is_dir fs (dir ++ [e])) with false in Hw; [done|].
        unfold is_dir, node_at. destruct (dir ++ [e]) eqn:El; [by destruct dir|]. by rewrite E.
    + rewrite (Hk _ _ E I). apply IH.
    + rewrite (Hk _ _ E I). destruct (b || _).
      * destruct n as [|n]; [done|]. by apply IHn.
      * intros [= <-] Hp. done.
    + by destruct rest.
Qed.

(** One more name at the end of the way to a directory. *)
Definition last_step (fs : filesystem) (p : place) : walked :=
  match fs !! p with Some _ => WFound p | None => WMissing p end.

Lemma walk_snoc fs f : file_name f = true -> forall n dir l p,
  walk n fs true dir l = WFound p -> is_dir fs p = true ->
  match fs !! (p ++ [f]) with Some (NLink _) => False | _ => True end ->
  forall b, walk n fs b dir (l ++ [f]) = last_step fs (p ++ [f]).
Proof.
  intros Hf. apply file_name_spec in Hf as (F1 & F2 & F3 & _).
  apply (walk_ind (fun n dir l => forall p, _ = WFound p -> _ -> _ -> forall b, _ = last_step fs (p ++ [f]))).
  - intros n dir p. rewrite walk_nil. intros [= <-] Hd Hl b. cbn [app].
    rewrite walk_cons, Hd, F1, F2, F3. cbn [negb orb]. unfold last_step.
    destruct (fs !! (dir ++ [f])) as [[c| |t]|]; rewrite ?walk_nil; done.
  - intros n dir e rest IH IHn p. cbn [app]. intros Hw Hd Hl b. rewrite walk_cons in Hw |- *.
    destruct (is_dir fs dir); [|done]. cbn [negb] in *.
    destruct ((e =? "")%string || (e =? ".")%string); [by apply IH|].
    destruct (e =? "..")%string; [by apply IH|].
    destruct (fs !! (dir ++ [e])) as [[c| |t]|]; try by apply IH.
    + cbn [orb] in Hw. destruct n as [|n]; [done|].
      replace (b || match rest ++ [f] with [] => false | _ => true end) with true
        by (destruct rest, b; done).
      rewrite app_assoc. by apply (IHn n).
    + by destruct rest.
Qed.

(** Ways end at clean places. *)
Lemma removelast_clean l : clean_abs l -> clean_abs (removelast l).
Proof.
  unfold clean_abs. intros H. destruct l as [|x l] using rev_ind; [done|].
  rewrite removelast_last. by apply Forall_app in H as [H _].
Qed.

Lemma walk_clean fs b : forall n dir l,
  clean_abs dir -> Forall (fun e => no_slash e = true) l ->
  match walk n fs b dir l with WFound p | WMissing p => clean_abs p | WError _ => True end.
Proof.
  apply (walk_ind (fun n dir l => clean_abs dir -> Forall (fun e => no_slash e = true) l ->
    match walk n fs b dir l with WFound p | WMissing p => clean_abs p | WError _ => True end)).
  - intros n dir Hd _. by rewrite walk_nil.
  - intros n dir e rest IH IHn Hd Hl. inversion Hl as [|? ? He Hl']; subst. rewrite walk_cons.
    destruct (negb (is_dir fs dir)); [done|].
    destruct (e =? "")%string eqn:E1; [by apply IH|]. destruct (e =? ".")%string eqn:E2; [by apply IH|].
    cbn [orb]. destruct (e =? "..")%string eqn:E3; [by apply IH; [apply removelast_clean|]|].
    assert (Hde : clean_abs (dir ++ [e])).
    { apply Forall_app_2; [done|]. repeat constructor. unfold file_name. by rewrite E1, E2, E3, He. }
    destruct (fs !! (dir ++ [e])) as [[c| |t]|]; try by apply IH.
    + destruct (b || _); [|done]. destruct n as [|n]; [done|]. apply (IHn n); [done| |].
      * destruct (IsAbs t); [constructor|done].
      * apply Forall_app_2; [apply elements_slashless|done].
    + by destruct rest.
Qed.

(** A way that is missing its last name ends in a directory. *)
Lemma walk_missing fs b : forall n dir l p,
  walk n fs b dir l = WMissing p -> exists q e, p = q ++ [e] /\ is_dir fs q = true /\ fs !! p = None.
Proof.
  apply (walk_ind (fun n dir l => forall p, _ = WMissing p -> _)).
  - intros n dir p. by rewrite walk_nil.
  - intros n dir e rest IH IHn p. rewrite walk_cons. destruct (is_dir fs dir) eqn:Ed; [|done]. cbn [negb].
    destruct ((e =? "")%string || (e =? ".")%string); [apply IH|].
    destruct (e =? "..")%string; [apply IH|].
    destruct (fs !! (dir ++ [e])) as [[c| |t]|] eqn:E; try apply IH.
    + destruct (b || _); [|done]. destruct n as [|n]; [done|]. by apply IHn.
    + destruct rest; [|done]. intros [= <-]. exists dir, e. done.
Qed.

(** [MkdirAll] of a path that leads to a directory changes nothing, and it only
    ever adds directories. *)
Lemma mkdirs_keeps l : forall dir fs, fs ⊆ (mkdirs dir l fs).2.
Proof.
  induction l as [|e l IH]; intros dir fs; cbn [mkdirs]; [done|].
  destruct ((e =? "")%string || (e =? ".")%string); [apply IH|].
  destruct (e =? "..")%string; [apply IH|].
  destruct (fs !! (dir ++ [e])) as [[c| |t]|] eqn:E; [done|apply IH| |].
  - destruct (walk kernel_links fs true dir [e]); try done. by destruct (is_dir fs p).
  - etrans; [|apply IH]. by apply insert_subseteq.
Qed.

Lemma mkdirs_new l : forall dir fs k n,
  (mkdirs dir l fs).2 !! k = Some n ->
  fs !! k = Some n \/ (fs !! k = None /\ n = NDir /\ exists q e, k = q ++ [e] /\ e ∈ l).
Proof.
  induction l as [|e l IH]; intros dir fs k n; cbn [mkdirs]; [auto|].
  assert (IH' : forall dir fs, (mkdirs dir l fs).2 !! k = Some n ->
    fs !! k = Some n \/ (fs !! k = None /\ n = NDir /\ exists q e', k = q ++ [e'] /\ e' ∈ e :: l)).
  { intros dir' fs' H. apply IH in H as [H|(H1 & H2 & q & e' & H3 & H4)]; [auto|right].
    split; [done|]. split; [done|]. exists q, e'. split; [done|]. by right. }
  destruct ((e =? "")%string || (e =? ".")%string); [apply IH'|].
  destruct (e =? "..")%string; [apply IH'|].
  destruct (fs !! (dir ++ [e])) as [[c| |t]|] eqn:E; [auto|apply IH'| |].
  - destruct (walk kernel_links fs true dir [e]); auto. destruct (is_dir fs p); [apply IH'|auto].
  - intros H. apply IH' in H as [H|(H1 & H2)].
    + destruct (decide (k = dir ++ [e])) as [->|Hne].
      * rewrite lookup_insert_eq in H. injection H as <-. right. split; [done|]. split; [done|].
        exists dir, e. split; [done|]. by left.
      * rewrite lookup_insert_ne in H by done. auto.
    + rewrite lookup_insert_None in H1. destruct H1. auto.
Qed.

(** More links do not change where a way ends. *)
Lemma walk_more fs b : forall n dir l m, (n <= m)%nat ->
  match walk n fs b dir l with WError _ => True | r => walk m fs b dir l = r end.
Proof.
  apply (walk_ind (fun n dir l => forall m, (n <= m)%nat ->
    match walk n fs b dir l with WError _ => True | r => walk m fs b dir l = r end)).
  - intros n dir m _. by rewrite !walk_nil.
  - intros n dir e rest IH IHn m Hm. rewrite !walk_cons.
    destruct (negb (is_dir fs dir)); [done|].
    destruct ((e =? "")%string || (e =? ".")%string); [by apply IH|].
    destruct (e =? "..")%string; [by apply IH|].
    destruct (fs !! (dir ++ [e])) as [[c| |t]|]; try by apply IH.
    + destruct (b || _); [|done]. destruct n as [|n]; [done|]. destruct m as [|m]; [lia|].
      apply (IHn n); [done|lia].
    + by destruct rest.
Qed.

(** The way to a name that is never a link goes through its directory. *)
Lemma walk_snoc_inv fs f : file_name f = true ->
  (forall q, match fs !! (q ++ [f]) with Some (NLink _) => False | _ => True end) ->
  forall n dir l b,
  match walk n fs b dir (l ++ [f]) with
  | WFound p | WMissing p => exists q, p = q ++ [f] /\ walk n fs true dir l = WFound q /\ is_dir fs q = true
  | WError _ => True
  end.
Proof.
  intros Hf Hnl. apply file_name_spec in Hf as (F1 & F2 & F3 & _).
  apply (walk_ind (fun n dir l => forall b,
    match walk n fs b dir (l ++ [f]) with
    | WFound p | WMissing p => exists q, p = q ++ [f] /\ walk n fs true dir l = WFound q /\ is_dir fs q = true
    | WError _ => True
    end)).
  - intros n dir b. cbn [app]. rewrite walk_cons, F1, F2, F3, walk_nil. cbn [orb].
    destruct (is_dir fs dir) eqn:Ed; [|done]. cbn [negb]. specialize (Hnl dir).
    destruct (fs !! (dir ++ [f])) as [[c| |t]|]; rewrite ?walk_nil; eauto. done.
  - intros n dir e rest IH IHn b. cbn [app]. rewrite !walk_cons.
    destruct (is_dir fs dir); [|done]. cbn [negb].
    destruct ((e =? "")%string || (e =? ".")%string); [apply IH|].
    destruct (e =? "..")%string; [apply IH|].
    destruct (fs !! (dir ++ [e])) as [[c| |t]|]; try apply IH.
    + replace (b || match rest ++ [f] with [] => false | _ => true end) with true by (destruct rest, b; done).
      cbn [orb]. destruct n as [|n]; [done|]. rewrite app_assoc. by apply (IHn n).
    + by destruct rest.
Qed.

(** A name that is missing is missing in the directory on the way to it. *)
Lemma walk_snoc_missing fs f : file_name f = true -> forall n dir l p,
  walk n fs false dir (l ++ [f]) = WMissing p ->
  exists q, p = q ++ [f] /\ walk n fs true dir l = WFound q /\ is_dir fs q = true.
Proof.
  intros Hf. apply file_name_spec in Hf as (F1 & F2 & F3 & _).
  apply (walk_ind (fun n dir l => forall p, walk n fs false dir (l ++ [f]) = WMissing p ->
    exists q, p = q ++ [f] /\ walk n fs true dir l = WFound q /\ is_dir fs q = true)).
  - intros n dir p. cbn [app]. rewrite walk_cons, F1, F2, F3, walk_nil. cbn [orb].
    destruct (is_dir fs dir) eqn:Ed; [|done]. cbn [negb].
    destruct (fs !! (dir ++ [f])) as [[c| |t]|]; rewrite ?walk_nil; try done. intros [= <-]. eauto.
  - intros n dir e rest IH IHn p. cbn [app]. rewrite !walk_cons.
    destruct (is_dir fs dir); [|done]. cbn [negb].
    destruct ((e =? "")%string || (e =? ".")%string); [apply IH|].
    destruct (e =? "..")%string; [apply IH|].
    destruct (fs !! (dir ++ [e])) as [[c| |t]|]; try apply IH.
    + replace (false || match rest ++ [f] with [] => false | _ => true end) with true by (by destruct rest).
      cbn [orb]. destruct n as [|n]; [done|]. rewrite app_assoc. by apply (IHn n).
    + by destruct rest.
Qed.

Lemma lookup_abs fs cwd b l : clean_abs l ->
  lookup_path fs cwd b (abs_path l) = walk kernel_links fs b [] l.
Proof.
  intros Hl. unfold lookup_path. rewrite IsAbs_abs_path, elements_abs_path.
  replace (abs_path l =? "")%string with false by done. rewrite walk_cons. cbn [is_dir node_at negb orb].
  change (("" =? "")%string) with true. cbn [orb]. destruct l as [|e l]; [|by rewrite elements_Join].
  cbn [Join elements]. rewrite walk_cons. cbn [is_dir node_at negb]. change (("" =? "")%string) with true. cbn [orb].
  by rewrite walk_nil.
Qed.

Lemma abs_path_suffix l f t : abs_path (l ++ [(f +:+ t)%string]) = (abs_path (l ++ [f]) +:+ t)%string.
Proof.
  unfold abs_path. rewrite app_assoc_str. f_equal. induction l as [|e l IH]; [done|].
  destruct l as [|e' l]; [cbn [app Join]; by rewrite !app_assoc_str|].
  change (Join ((e :: e' :: l) ++ [(f +:+ t)%string]) sep_string)
    with (e +:+ sep_string +:+ Join ((e' :: l) ++ [(f +:+ t)%string]) sep_string)%string.
  rewrite IH. change (Join ((e :: e' :: l) ++ [f]) sep_string)
    with (e +:+ sep_string +:+ Join ((e' :: l) ++ [f]) sep_string)%string.
  by rewrite !app_assoc_str.
Qed.

Lemma EvalSymlinks_abs fs l : clean_abs l ->
  EvalSymlinks (abs_path l) fs = match walk eval_links fs true [] l with
                                 | WFound p => Ok (abs_path p) | WMissing _ => Err ENOENT | WError e => Err e end.
Proof.
  intros Hl. unfold EvalSymlinks. rewrite elements_abs_path. rewrite walk_cons. cbn [is_dir node_at negb orb].
  change (("" =? "")%string) with true. cbn [orb]. destruct l as [|e l]; [|by rewrite elements_Join].
  cbn [Join elements]. rewrite walk_cons. cbn [is_dir node_at negb]. change (("" =? "")%string) with true. cbn [orb].
  by rewrite !walk_nil.
Qed.

Lemma is_dir_at fs p e : is_dir fs (p ++ [e]) = true -> fs !! (p ++ [e]) = Some NDir.
Proof. unfold is_dir, node_at. destruct (p ++ [e]) eqn:E; [by destruct p|]. by destruct (fs !! _) as [[| |]|]. Qed.

Lemma node_at_snoc fs p e : node_at fs (p ++ [e]) = fs !! (p ++ [e]).
Proof. unfold node_at. destruct (p ++ [e]) eqn:E; [by destruct p|done]. Qed.

(** Putting a file where there is none or a file keeps the directories. *)
Lemma insert_file_keeps fs p c : match fs !! p with Some n => ~ not_file n | None => True end ->
  keeps_dirs fs (<[p := NFile c]> fs).
Proof.
  intros Hp k n Hk Hn. destruct (decide (p = k)) as [->|Hne]; [by rewrite Hk in Hp|].
  by rewrite lookup_insert_ne.
Qed.

Lemma delete_file_keeps fs p : match fs !! p with Some n => ~ not_file n | None => True end ->
  keeps_dirs fs (delete p fs).
Proof.
  intros Hp k n Hk Hn. destruct (decide (p = k)) as [->|Hne]; [by rewrite Hk in Hp|].
  by rewrite lookup_delete_ne.
Qed.

Lemma keeps_dirs_trans fs1 fs2 fs3 : keeps_dirs fs1 fs2 -> keeps_dirs fs2 fs3 -> keeps_dirs fs1 fs3.
Proof. intros H1 H2 k n Hk Hn. apply H2; [|done]. by apply H1. Qed.

Lemma subseteq_keeps (fs fs' : filesystem) : fs ⊆ fs' -> keeps_dirs fs fs'.
Proof. intros H k n Hk _. by eapply lookup_weaken. Qed.
