(* ===== verification/Table.v ===== *)
(** * Tables

    A database table is the list of its rows in the order of insertion; the
    SQL statements of the repositories are built from the operations below.
    Where SQL leaves the order of equal sort keys open, [order_by] makes one
    choice. *)

From Stdlib Require Import ZArith Lia.
From S2P Require Import Prelude GoString.

(** What a [TIMESTAMPTZ] column keeps of a time. *)
Definition timestamptz (t : Z) : Z := t / 1000 * 1000.

Lemma timestamptz_le t : timestamptz t <= t.
Proof. unfold timestamptz. pose proof (Z.mul_div_le t 1000). lia. Qed.

Lemma timestamptz_lt t : t - 1000 < timestamptz t.
Proof. unfold timestamptz. pose proof (Z.mul_succ_div_gt t 1000). lia. Qed.

Lemma timestamptz_mono t u : t <= u -> timestamptz t <= timestamptz u.
Proof. intros H. unfold timestamptz. pose proof (Z.div_le_mono t u 1000). lia. Qed.

Lemma timestamptz_idem t : timestamptz (timestamptz t) = timestamptz t.
Proof. unfold timestamptz. by rewrite Z.div_mul. Qed.

(** What a [VARCHAR(n)] column takes. *)
Definition varchar (n : Z) (s : string) : bool := Z.of_nat (length (runes s)) <=? n.

(** What a TEXT column takes. *)
Definition text_ok (s : string) : bool :=
  ValidString s && negb (existsb (fun a => byte a =? 0) (String.list_ascii_of_string s)).

Section Table.
Context {A : Type}.
Implicit Types (p : A -> bool) (l : list A).

Definition select_where p l : list A := List.filter p l.
Definition first_where p l : option A := List.find p l.
Definition count_where p l : Z := Z.of_nat (length (select_where p l)).
Definition update_where p (f : A -> A) l : list A := map (fun r => if p r then f r else r) l.
Definition delete_where p l : list A := List.filter (fun r => negb (p r)) l.

Definition key_le (key : A -> Z) (a b : A) : Prop := key a <= key b.
#[global] Instance key_le_dec key : RelDecision (key_le key).
Proof. intros a b. unfold key_le. apply _. Defined.
#[global] Instance key_le_trans key : Transitive (key_le key).
Proof. intros a b c. unfold key_le. lia. Qed.
#[global] Instance key_le_total key : Total (key_le key).
Proof. intros a b. unfold key_le. lia. Qed.

(** [ORDER BY key ASC]; a descending order sorts by the opposite key. *)
Definition order_by (key : A -> Z) l : list A := merge_sort (key_le key) l.

(** [OFFSET off LIMIT n]; a negative offset or limit is no clause for GORM. *)
Definition page_of (off n : Z) l : list A :=
  let l' := if off <? 0 then l else drop (Z.to_nat off) l in
  if n <? 0 then l' else take (Z.to_nat n) l'.

(** [(page - 1) * size] in Go's [int]. *)
Definition page_offset (page size : Z) : Z := swrap 64 (swrap 64 (page - 1) * size).

Lemma page_offset_small page size : 1 <= page -> 0 <= size -> (page - 1) * size <= int64_max -> page - 1 <= int64_max ->
  page_offset page size = (page - 1) * size.
Proof.
  unfold int64_max. intros Hp Hs Hb Hq. unfold page_offset. rewrite (swrap_small 64 (page - 1)) by lia.
  apply swrap_small; nia.
Qed.

Lemma order_by_Permutation key l : order_by key l ≡ₚ l.
Proof. apply merge_sort_Permutation. Qed.

(** The first row of an ascending order has the least key. *)
Lemma order_by_head key l x k :
  order_by key l = x :: k -> x ∈ l /\ forall y, y ∈ l -> key x <= key y.
Proof.
  intros E. assert (Hp : l ≡ₚ x :: k) by (by rewrite <- E, order_by_Permutation).
  split; [rewrite Hp; constructor|].
  assert (Hs : StronglySorted (key_le key) (x :: k)).
  { rewrite <- E. apply StronglySorted_merge_sort; apply _. }
  inversion Hs as [|? ? _ HF]; subst. intros y. rewrite Hp, elem_of_cons. intros [->|Hy]; [lia|].
  rewrite Forall_forall in HF. by apply HF.
Qed.

Lemma order_by_nil key l : order_by key l = [] <-> l = [].
Proof.
  split; intros E; [|by subst].
  apply Permutation_nil. rewrite <- E. apply order_by_Permutation.
Qed.

Lemma elem_of_select p l x : x ∈ select_where p l <-> x ∈ l /\ p x = true.
Proof. unfold select_where. rewrite !list_elem_of_In, filter_In. done. Qed.

Lemma elem_of_update p f l x :
  x ∈ update_where p f l -> (x ∈ l /\ p x = false) \/ exists y, y ∈ l /\ p y = true /\ x = f y.
Proof.
  unfold update_where. rewrite list_elem_of_In, in_map_iff. intros (y & <- & Hy).
  apply list_elem_of_In in Hy. destruct (p y) eqn:E; eauto.
Qed.

Lemma elem_of_update_1 p f l x : x ∈ l -> p x = true -> f x ∈ update_where p f l.
Proof.
  intros Hx Hp. unfold update_where. apply list_elem_of_In, in_map_iff. exists x.
  rewrite Hp. split; [done|]. by apply list_elem_of_In.
Qed.

Lemma elem_of_update_0 p f l x : x ∈ l -> p x = false -> x ∈ update_where p f l.
Proof.
  intros Hx Hp. unfold update_where. apply list_elem_of_In, in_map_iff. exists x.
  rewrite Hp. split; [done|]. by apply list_elem_of_In.
Qed.

Lemma Forall_update (P : A -> Prop) p f l :
  Forall P l -> (forall x, p x = true -> P x -> P (f x)) -> Forall P (update_where p f l).
Proof.
  intros HP Hf. unfold update_where. rewrite Forall_forall in *. intros x Hx.
  apply elem_of_update in Hx as [[Hx _]|(y & Hy & Hp & ->)]; auto.
Qed.

Lemma Forall_delete (P : A -> Prop) p l : Forall P l -> Forall P (delete_where p l).
Proof.
  rewrite !Forall_forall. intros HP x Hx. apply HP. unfold delete_where in Hx.
  apply list_elem_of_In, filter_In in Hx as [Hx _]. by apply list_elem_of_In.
Qed.

Lemma first_where_Some p l x : first_where p l = Some x -> x ∈ l /\ p x = true.
Proof. intros H. apply find_some in H. by rewrite list_elem_of_In. Qed.

Lemma first_where_None p l : first_where p l = None <-> forall x, x ∈ l -> p x = false.
Proof.
  split; [intros H x Hx; apply list_elem_of_In in Hx; by eapply find_none|].
  induction l as [|y l IH]; simpl; [done|]. intros H. unfold first_where. simpl.
  rewrite (H y) by constructor. apply IH. intros x Hx. apply H. by constructor.
Qed.

(** Rows found by their key, where the update keeps the key. *)
Lemma first_where_update p q f l :
  (forall x, p (f x) = p x) -> first_where p (update_where q f l)
  = match first_where p l with Some x => Some (if q x then f x else x) | None => None end.
Proof.
  intros Hp. unfold first_where, update_where. induction l as [|x l IH]; simpl; [done|].
  destruct (q x) eqn:Eq; rewrite ?Hp; destruct (p x) eqn:Ep; try done; by rewrite Eq.
Qed.

Lemma first_where_app p l k :
  first_where p (l ++ k) = match first_where p l with Some x => Some x | None => first_where p k end.
Proof. unfold first_where. induction l as [|x l IH]; simpl; [done|]. by destruct (p x). Qed.

Lemma length_update p f l : length (update_where p f l) = length l.
Proof. apply length_map. Qed.

Lemma fmap_update {B} (g : A -> B) p f l :
  (forall x, g (f x) = g x) -> g <$> update_where p f l = g <$> l.
Proof.
  intros Hg. unfold update_where. induction l as [|x l IH]; [done|].
  rewrite map_cons, !fmap_cons, IH. destruct (p x); by rewrite ?Hg.
Qed.
End Table.

#[export] Hint Resolve Forall_delete : snow.
