(* ===== verification/Schema.v ===== *)
(** * Database rows

    The structs of [internal/model/schema.go] that the modelled components
    read and write, field by field: integers as [Z], times as nanoseconds since
    the Unix epoch, pointers as options.  The column assignments of GORM's
    [Updates] are values of an inductive type per table. *)

From Stdlib Require Import ZArith.
From S2P Require Import Prelude.

Record User := MkUser {
  u_ID : Z;
  u_Username : string;
  u_Email : string;
  u_PasswordHash : string;
  u_Status : Z;
  u_LastLoginAt : option Z;
  u_CreatedAt : Z;
  u_UpdatedAt : Z;
  u_DeletedAt : option Z
}.

Record Role := MkRole {
  role_ID : Z;
  role_Name : string;
  role_Slug : string;
  role_Description : string;
  role_CreatedAt : Z;
  role_UpdatedAt : Z
}.

Record Permission := MkPermission {
  perm_ID : Z;
  perm_Name : string;
  perm_Description : string;
  perm_CreatedAt : Z;
  perm_UpdatedAt : Z
}.

Record RolePermission := MkRolePermission {
  rp_RoleID : Z;
  rp_PermissionID : Z;
  rp_CreatedAt : Z
}.

Record UserRole := MkUserRole {
  ur_UserID : Z;
  ur_RoleID : Z;
  ur_CreatedAt : Z
}.

Record AuditLog := MkAuditLog {
  al_ID : Z;
  al_UserID : option Z;
  al_Username : string;
  al_IP : string;
  al_Module : string;
  al_Action : string;
  al_TargetType : string;
  al_TargetID : string;
  al_RequestSummary : string;
  al_Success : bool;
  al_ResultCode : string;
  al_ResultMessage : string;
  al_RequestID : string;
  al_TraceID : string;
  al_CreatedAt : Z
}.

Record SystemSetting := MkSystemSetting {
  ss_ID : Z;
  ss_Key : string;
  ss_Value : string;
  ss_ValueType : string;
  ss_IsEncrypted : bool;
  ss_Description : string;
  ss_UpdatedBy : option Z;
  ss_CreatedAt : Z;
  ss_UpdatedAt : Z
}.

Record Task := MkTask {
  t_ID : Z;
  t_Type : string;
  t_Status : string;
  t_Progress : Z;
  t_Payload : string;
  t_Result : string;
  t_ErrorMsg : string;
  t_TriggeredBy : option Z;
  t_HostID : option Z;
  t_LockedBy : option string;
  t_LockedUntil : option Z;
  t_Attempt : Z;
  t_MaxAttempts : Z;
  t_IdempotencyKey : option string;
  t_NextRunAt : option Z;
  t_StartedAt : option Z;
  t_FinishedAt : option Z;
  t_CreatedAt : Z;
  t_UpdatedAt : Z
}.

Record TaskLog := MkTaskLog {
  tl_ID : Z;
  tl_TaskID : Z;
  tl_Level : string;
  tl_Message : string;
  tl_Metadata : string;
  tl_CreatedAt : Z
}.

Record Backup := MkBackup {
  b_ID : Z;
  b_ResourceType : string;
  b_ResourceID : string;
  b_StorageType : string;
  b_FilePath : string;
  b_SizeBytes : Z;
  b_Checksum : string;
  b_Status : string;
  b_CreatedBy : option Z;
  b_CreatedAt : Z;
  b_UpdatedAt : Z
}.

(** An assignment to a column of [tasks]. *)
Inductive tcol :=
| tcol_ID (v : Z)
| tcol_Status (v : string)
| tcol_Progress (v : Z)
| tcol_Result (v : string)
| tcol_ErrorMsg (v : string)
| tcol_LockedBy (v : option string)
| tcol_LockedUntil (v : option Z)
| tcol_Attempt (v : Z)
| tcol_MaxAttempts (v : Z)
| tcol_NextRunAt (v : option Z)
| tcol_StartedAt (v : option Z)
| tcol_FinishedAt (v : option Z)
| tcol_CreatedAt (v : Z)
| tcol_UpdatedAt (v : Z).

Definition set_task (c : tcol) (r : Task) : Task :=
  let 'MkTask x0 x1 x2 x3 x4 x5 x6 x7 x8 x9 x10 x11 x12 x13 x14 x15 x16 x17 x18 := r in
  match c with
  | tcol_ID v => MkTask v x1 x2 x3 x4 x5 x6 x7 x8 x9 x10 x11 x12 x13 x14 x15 x16 x17 x18
  | tcol_Status v => MkTask x0 x1 v x3 x4 x5 x6 x7 x8 x9 x10 x11 x12 x13 x14 x15 x16 x17 x18
  | tcol_Progress v => MkTask x0 x1 x2 v x4 x5 x6 x7 x8 x9 x10 x11 x12 x13 x14 x15 x16 x17 x18
  | tcol_Result v => MkTask x0 x1 x2 x3 x4 v x6 x7 x8 x9 x10 x11 x12 x13 x14 x15 x16 x17 x18
  | tcol_ErrorMsg v => MkTask x0 x1 x2 x3 x4 x5 v x7 x8 x9 x10 x11 x12 x13 x14 x15 x16 x17 x18
  | tcol_LockedBy v => MkTask x0 x1 x2 x3 x4 x5 x6 x7 x8 v x10 x11 x12 x13 x14 x15 x16 x17 x18
  | tcol_LockedUntil v => MkTask x0 x1 x2 x3 x4 x5 x6 x7 x8 x9 v x11 x12 x13 x14 x15 x16 x17 x18
  | tcol_Attempt v => MkTask x0 x1 x2 x3 x4 x5 x6 x7 x8 x9 x10 v x12 x13 x14 x15 x16 x17 x18
  | tcol_MaxAttempts v => MkTask x0 x1 x2 x3 x4 x5 x6 x7 x8 x9 x10 x11 v x13 x14 x15 x16 x17 x18
  | tcol_NextRunAt v => MkTask x0 x1 x2 x3 x4 x5 x6 x7 x8 x9 x10 x11 x12 x13 v x15 x16 x17 x18
  | tcol_StartedAt v => MkTask x0 x1 x2 x3 x4 x5 x6 x7 x8 x9 x10 x11 x12 x13 x14 v x16 x17 x18
  | tcol_FinishedAt v => MkTask x0 x1 x2 x3 x4 x5 x6 x7 x8 x9 x10 x11 x12 x13 x14 x15 v x17 x18
  | tcol_CreatedAt v => MkTask x0 x1 x2 x3 x4 x5 x6 x7 x8 x9 x10 x11 x12 x13 x14 x15 x16 v x18
  | tcol_UpdatedAt v => MkTask x0 x1 x2 x3 x4 x5 x6 x7 x8 x9 x10 x11 x12 x13 x14 x15 x16 x17 v
  end.

(** [Updates(map[string]interface{}{...})]. *)
Definition assign_task (cs : list tcol) (t : Task) : Task := fold_left (fun r c => set_task c r) cs t.

(** An assignment to a column of [backups]. *)
Inductive bcol :=
| bcol_ID (v : Z)
| bcol_FilePath (v : string)
| bcol_SizeBytes (v : Z)
| bcol_Checksum (v : string)
| bcol_Status (v : string)
| bcol_CreatedAt (v : Z)
| bcol_UpdatedAt (v : Z).

Definition set_backup (c : bcol) (r : Backup) : Backup :=
  let 'MkBackup x0 x1 x2 x3 x4 x5 x6 x7 x8 x9 x10 := r in
  match c with
  | bcol_ID v => MkBackup v x1 x2 x3 x4 x5 x6 x7 x8 x9 x10
  | bcol_FilePath v => MkBackup x0 x1 x2 x3 v x5 x6 x7 x8 x9 x10
  | bcol_SizeBytes v => MkBackup x0 x1 x2 x3 x4 v x6 x7 x8 x9 x10
  | bcol_Checksum v => MkBackup x0 x1 x2 x3 x4 x5 v x7 x8 x9 x10
  | bcol_Status v => MkBackup x0 x1 x2 x3 x4 x5 x6 v x8 x9 x10
  | bcol_CreatedAt v => MkBackup x0 x1 x2 x3 x4 x5 x6 x7 x8 v x10
  | bcol_UpdatedAt v => MkBackup x0 x1 x2 x3 x4 x5 x6 x7 x8 x9 v
  end.

Definition assign_backup (cs : list bcol) (b : Backup) : Backup := fold_left (fun r c => set_backup c r) cs b.

(** An assignment to a column of [users]. *)
Inductive ucol :=
| ucol_ID (v : Z)
| ucol_PasswordHash (v : string)
| ucol_LastLoginAt (v : option Z)
| ucol_CreatedAt (v : Z)
| ucol_UpdatedAt (v : Z).

Definition set_user (c : ucol) (r : User) : User :=
  let 'MkUser x0 x1 x2 x3 x4 x5 x6 x7 x8 := r in
  match c with
  | ucol_ID v => MkUser v x1 x2 x3 x4 x5 x6 x7 x8
  | ucol_PasswordHash v => MkUser x0 x1 x2 v x4 x5 x6 x7 x8
  | ucol_LastLoginAt v => MkUser x0 x1 x2 x3 x4 v x6 x7 x8
  | ucol_CreatedAt v => MkUser x0 x1 x2 x3 x4 x5 v x7 x8
  | ucol_UpdatedAt v => MkUser x0 x1 x2 x3 x4 x5 x6 v x8
  end.

Definition assign_user (cs : list ucol) (u : User) : User := fold_left (fun r c => set_user c r) cs u.
