(* ===== verification/Json.v ===== *)
(** * JSON

    The part of [encoding/json] the backend uses: [Marshal] with its default
    HTML escaping, [Unmarshal] into an [interface{}] value, and the reading of
    object members.  Texts are handled rune by rune, so an invalid byte is
    U+FFFD as in Go.  A number keeps its literal (Go goes through [float64]
    when it reads a number into an [interface{}]). *)

From Stdlib Require Import ZArith Lia Ascii DecimalString DecimalZ.
From S2P Require Import Prelude GoString.

#[warnings="-register-all"]
Inductive json :=
| JNull
| JBool (b : bool)
| JNum (literal : string)
| JStr (s : string)
| JArr (l : list json)
| JObj (l : list (string * json)).

(** Induction through the lists. *)
Lemma json_nested_ind (P : json -> Prop) :
  P JNull -> (forall b, P (JBool b)) -> (forall n, P (JNum n)) -> (forall s, P (JStr s)) ->
  (forall l, Forall P l -> P (JArr l)) -> (forall l, Forall (fun kv => P kv.2) l -> P (JObj l)) ->
  forall j, P j.
Proof.
  intros H1 H2 H3 H4 H5 H6. fix IH 1.
  intros [|b|n|s|l|l]; [exact H1 | apply H2 | apply H3 | apply H4 | |].
  - apply H5. induction l as [|x l IHl]; constructor; [apply IH | exact IHl].
  - apply H6. induction l as [|[k x] l IHl]; constructor; [apply IH | exact IHl].
Qed.

(** A Go integer. *)
Definition JInt (z : Z) : json := JNum (fmt_d z).

(** ** Printing *)

(** The code points of an ASCII literal. *)
Definition lit (s : string) : list Z := map byte (String.list_ascii_of_string s).

Definition hex_digit (d : Z) : Z := if d <? 10 then 48 + d else 87 + d.

Definition escape_u (r : Z) : list Z :=
  [92; 117; hex_digit (r / 4096 mod 16); hex_digit (r / 256 mod 16); hex_digit (r / 16 mod 16);
   hex_digit (r mod 16)].

(** One rune of a string literal; [valid] is false for an invalid byte. *)
Definition escape_rune (r : Z) (valid : bool) : list Z :=
  if negb valid then escape_u RuneError
  else if r =? 34 then [92; 34]
  else if r =? 92 then [92; 92]
  else if r =? 8 then [92; 98]
  else if r =? 12 then [92; 102]
  else if r =? 10 then [92; 110]
  else if r =? 13 then [92; 114]
  else if r =? 9 then [92; 116]
  else if (r <? 32) || (r =? 60) || (r =? 62) || (r =? 38) || (r =? 8232) || (r =? 8233)
  then escape_u r
  else [r].

Definition print_string (s : string) : list Z :=
  34 :: concat (map (fun x => escape_rune x.1 (valid_seg x)) (segs s)) ++ [34].

Fixpoint sep_by (sep : Z) (l : list (list Z)) : list Z :=
  match l with
  | [] => []
  | [x] => x
  | x :: l' => x ++ sep :: sep_by sep l'
  end.

Fixpoint print_runes (j : json) : list Z :=
  match j with
  | JNull => lit "null"
  | JBool b => lit (fmt_bool b)
  | JNum n => lit n
  | JStr s => print_string s
  | JArr l => 91 :: sep_by 44 (map print_runes l) ++ [93]
  | JObj l => 123 :: sep_by 44 (map (fun kv => print_string kv.1 ++ 58 :: print_runes kv.2) l) ++ [125]
  end.

(** [string(json.Marshal(v))]. *)
Definition Marshal (j : json) : string := encode_runes (print_runes j).

(** ** Parsing *)

Definition is_ws (r : Z) : bool := (r =? 32) || (r =? 9) || (r =? 10) || (r =? 13).

Definition skip_ws : list Z -> list Z := drop_while is_ws.

Definition unhex (r : Z) : option Z :=
  if (48 <=? r) && (r <=? 57) then Some (r - 48)
  else if (97 <=? r) && (r <=? 102) then Some (r - 87)
  else if (65 <=? r) && (r <=? 70) then Some (r - 55)
  else None.

Definition unhex4 (a b c d : Z) : option Z :=
  match unhex a, unhex b, unhex c, unhex d with
  | Some a, Some b, Some c, Some d => Some (a * 4096 + b * 256 + c * 16 + d)
  | _, _, _, _ => None
  end.

(** The halves of a surrogate pair. *)
Definition is_high (u : Z) : bool := (55296 <=? u) && (u <=? 56319).
Definition is_low (u : Z) : bool := (56320 <=? u) && (u <=? 57343).
Definition pair_runes (h u : Z) : Z := (h - 55296) * 1024 + (u - 56320) + 65536.

(** A high surrogate still waiting for its low half reads as U+FFFD. *)
Definition flush (pending : option Z) : list Z := match pending with Some _ => [RuneError] | None => [] end.

Definition unescape (r : Z) : option Z :=
  if r =? 34 then Some 34 else if r =? 92 then Some 92 else if r =? 47 then Some 47
  else if r =? 98 then Some 8 else if r =? 102 then Some 12 else if r =? 110 then Some 10
  else if r =? 114 then Some 13 else if r =? 116 then Some 9 else None.

(** The body of a string literal: its runes and the text after the closing quote. *)
Fixpoint parse_body (pending : option Z) (l : list Z) : option (list Z * list Z) :=
  match l with
  | [] => None
  | r :: l1 =>
    if r =? 34 then Some (flush pending, l1)
    else if r =? 92 then
      match l1 with
      | [] => None
      | e :: l2 =>
        if e =? 117 then
          match l2 with
          | a :: b :: c :: d :: l3 =>
            match unhex4 a b c d, pending with
            | None, _ => None
            | Some u, Some h =>
              if is_low u then '(s, rest) ← parse_body None l3; Some (pair_runes h u :: s, rest)
              else if is_high u then
                '(s, rest) ← parse_body (Some u) l3; Some (RuneError :: s, rest)
              else '(s, rest) ← parse_body None l3; Some (RuneError :: u :: s, rest)
            | Some u, None =>
              if is_high u then parse_body (Some u) l3
              else
                '(s, rest) ← parse_body None l3;
                Some ((if is_low u then RuneError else u) :: s, rest)
            end
          | _ => None
          end
        else
          match unescape e with
          | Some u => '(s, rest) ← parse_body None l2; Some (flush pending ++ u :: s, rest)
          | None => None
          end
      end
    else if r <? 32 then None
    else '(s, rest) ← parse_body None l1; Some (flush pending ++ r :: s, rest)
  end.

Definition is_digit (r : Z) : bool := (48 <=? r) && (r <=? 57).

(** A rune that can occur in a number literal. *)
Definition is_num (r : Z) : bool :=
  is_digit r || (r =? 45) || (r =? 43) || (r =? 46) || (r =? 101) || (r =? 69).

Fixpoint span {A} (p : A -> bool) (l : list A) : list A * list A :=
  match l with
  | [] => ([], [])
  | x :: l' => if p x then let '(a, b) := span p l' in (x :: a, b) else ([], l)
  end.

(** The grammar of a number: [-? (0 | [1-9][0-9]* ) (. [0-9]+)? ([eE] [+-]? [0-9]+)?]. *)
Definition valid_exp (l : list Z) : bool :=
  match l with
  | [] => true
  | r :: l1 =>
    ((r =? 101) || (r =? 69)) &&
    let l2 := match l1 with s :: l2 => if (s =? 43) || (s =? 45) then l2 else l1 | [] => [] end in
    match l2 with [] => false | _ => forallb is_digit l2 end
  end.

Definition valid_frac (l : list Z) : bool :=
  match l with
  | r :: l1 =>
    if r =? 46 then
      let '(ds, rest) := span is_digit l1 in
      match ds with [] => false | _ => valid_exp rest end
    else valid_exp l
  | [] => true
  end.

Definition valid_number (l : list Z) : bool :=
  let l1 := match l with r :: l1 => if r =? 45 then l1 else l | [] => [] end in
  let '(ds, rest) := span is_digit l1 in
  match ds with
  | [] => false
  | d :: ds => match ds with [] => valid_frac rest | _ => negb (d =? 48) && valid_frac rest end
  end.

(** The rune [c] after white space. *)
Definition expect (c : Z) (l : list Z) : option (list Z) :=
  match skip_ws l with
  | r :: rest => if r =? c then Some rest else None
  | [] => None
  end.

Definition starts_with (p l : list Z) : bool := bool_decide (take (length p) l = p).

Fixpoint parse_value (n : nat) (l : list Z) : option (json * list Z) :=
  match n with
  | O => None
  | S n =>
    match skip_ws l with
    | [] => None
    | r :: l1 =>
      if r =? 34 then
        '(s, rest) ← parse_body None l1; Some (JStr (encode_runes s), rest)
      else if r =? 91 then
        match expect 93 l1 with
        | Some rest => Some (JArr [], rest)
        | None => '(js, rest) ← parse_elems n l1; Some (JArr js, rest)
        end
      else if r =? 123 then
        match expect 125 l1 with
        | Some rest => Some (JObj [], rest)
        | None => '(js, rest) ← parse_members n l1; Some (JObj js, rest)
        end
      else if starts_with (lit "null") (r :: l1) then Some (JNull, drop 4 (r :: l1))
      else if starts_with (lit "true") (r :: l1) then Some (JBool true, drop 4 (r :: l1))
      else if starts_with (lit "false") (r :: l1) then Some (JBool false, drop 5 (r :: l1))
      else
        let '(ds, rest) := span is_num (r :: l1) in
        if valid_number ds then Some (JNum (encode_runes ds), rest) else None
    end
  end
with parse_elems (n : nat) (l : list Z) : option (list json * list Z) :=
  match n with
  | O => None
  | S n =>
    '(j, l1) ← parse_value n l;
    match expect 44 l1 with
    | Some l2 => '(js, rest) ← parse_elems n l2; Some (j :: js, rest)
    | None => rest ← expect 93 l1; Some ([j], rest)
    end
  end
with parse_members (n : nat) (l : list Z) : option (list (string * json) * list Z) :=
  match n with
  | O => None
  | S n =>
    l1 ← expect 34 l;
    '(k, l2) ← parse_body None l1;
    l3 ← expect 58 l2;
    '(j, l4) ← parse_value n l3;
    match expect 44 l4 with
    | Some l5 => '(js, rest) ← parse_members n l5; Some ((encode_runes k, j) :: js, rest)
    | None => rest ← expect 125 l4; Some ([(encode_runes k, j)], rest)
    end
  end.

(** [json.Unmarshal] up to the syntax tree: the whole text is one value. *)
Definition Parse (s : string) : option json :=
  let l := runes s in
  '(j, rest) ← parse_value (S (length l)) l;
  match skip_ws rest with [] => Some j | _ => None end.

(** [strconv.ParseInt(literal, 10, 64)] of a number literal. *)
Definition ParseInt64 (literal : string) : option Z :=
  match NilZero.int_of_string literal with
  | Some i => let z := Z.of_int i in if in_int64 z then Some z else None
  | None => None
  end.

(** Setting a member of a Go map: maps are kept sorted by key, the order in
    which [Marshal] writes them. *)
Fixpoint map_set {A} (k : string) (v : A) (l : list (string * A)) : list (string * A) :=
  match l with
  | [] => [(k, v)]
  | (k', v') :: l' =>
    if (k =? k')%string then (k, v) :: l'
    else if str_le k k' then (k, v) :: l
    else (k', v') :: map_set k v l'
  end.

(** A Go [map[string]interface{}] built from its members in order. *)
Definition map_of {A} (l : list (string * A)) : list (string * A) :=
  fold_left (fun m kv => map_set kv.1 kv.2 m) l [].

(** A syntax tree read into an [interface{}]: objects become maps. *)
Fixpoint to_interface (j : json) : json :=
  match j with
  | JArr l => JArr (map to_interface l)
  | JObj l => JObj (map_of (map (fun kv => (kv.1, to_interface kv.2)) l))
  | _ => j
  end.

(** ** Reading back what was printed *)

(** The values [Marshal] prints for the backend: valid UTF-8 strings and integers. *)
#[warnings="-register-all"]
Inductive plain : json -> Prop :=
| plain_null : plain JNull
| plain_bool b : plain (JBool b)
| plain_int z : plain (JInt z)
| plain_str s : ValidString s = true -> plain (JStr s)
| plain_arr l : Forall plain l -> plain (JArr l)
| plain_obj l : Forall (fun kv => ValidString kv.1 = true /\ plain kv.2) l -> plain (JObj l).

Lemma unhex_digit d : 0 <= d < 16 -> unhex (hex_digit d) = Some d.
Proof.
  intros H. unfold hex_digit, unhex. destruct (Z.ltb_spec d 10).
  - zdecide. cbn [andb]. f_equal; lia.
  - zdecide. cbn [andb]. f_equal; lia.
Qed.

Lemma parse_escape_u r l : 0 <= r < 55296 ->
  parse_body None (escape_u r ++ l) = ('(s, rest) ← parse_body None l; Some (r :: s, rest)).
Proof.
  intros H. unfold escape_u. cbn [app parse_body].
  change (92 =? 34) with false. change (92 =? 92) with true. change (117 =? 117) with true.
  cbn iota. unfold unhex4.
  rewrite !unhex_digit by (apply Z.mod_pos_bound; lia). cbn iota.
  replace (_ + _) with r by (Z.div_mod_to_equations; lia).
  unfold is_high, is_low. zdecide. done.
Qed.

Lemma parse_escape_rune r l : scalar r = true ->
  parse_body None (escape_rune r true ++ l) = ('(s, rest) ← parse_body None l; Some (r :: s, rest)).
Proof.
  intros Hs. unfold scalar in Hs. breflect. unfold escape_rune. cbn [negb].
  repeat match goal with
  | |- context [if r =? ?k then _ else _] => destruct (Z.eqb_spec r k); [by subst|]
  end.
  destruct (((r <? 32) || (r =? 60) || (r =? 62) || (r =? 38) || (r =? 8232) || (r =? 8233))) eqn:E.
  - apply parse_escape_u. rewrite !orb_true_iff, !Z.eqb_eq, Z.ltb_lt in E. lia.
  - breflect. cbn [app parse_body].
    rewrite (proj2 (Z.eqb_neq r 34)), (proj2 (Z.eqb_neq r 92)) by done.
    rewrite (proj2 (Z.ltb_ge r 32)) by done. done.
Qed.

Lemma parse_print_body l rest : Forall (fun x => valid_seg x = true) l ->
  parse_body None (concat (map (fun x => escape_rune x.1 (valid_seg x)) l) ++ 34 :: rest)
  = Some (l.*1, rest).
Proof.
  induction 1 as [|x l Hx _ IH]; [done|]. cbn [map concat]. rewrite <- app_assoc, Hx.
  unfold valid_seg in Hx. breflect. rewrite parse_escape_rune by done. by rewrite IH.
Qed.

Lemma parse_print_string s rest : ValidString s = true ->
  exists l, print_string s ++ rest = 34 :: l /\ parse_body None l = Some (runes s, rest).
Proof.
  intros Hs. unfold print_string. eexists. cbn [app]. split; [done|]. rewrite <- app_assoc.
  apply parse_print_body. by apply forallb_Forall.
Qed.

(** Decimal literals. *)
Lemma lit_uint d : Forall (fun r => is_digit r = true) (lit (NilEmpty.string_of_uint d)).
Proof. induction d; simpl; constructor; done. Qed.

Lemma encode_lit_uint d : encode_runes (lit (NilEmpty.string_of_uint d)) = NilEmpty.string_of_uint d.
Proof. induction d; [done| | | | | | | | | |]; simpl; unfold lit in *; simpl; by rewrite encode_runes_cons, IHd. Qed.

Lemma pos_uint_head p : exists c d, lit (NilEmpty.string_of_uint (Pos.to_uint p)) = c :: d
  /\ 49 <= c <= 57 /\ Forall (fun r => is_digit r = true) d.
Proof.
  pose proof (DecimalPos.Unsigned.to_uint_nonnil p) as Hn.
  assert (Hu : Decimal.unorm (Pos.to_uint p) = Pos.to_uint p).
  { rewrite <- DecimalPos.Unsigned.to_of, DecimalPos.Unsigned.of_to. done. }
  pose proof (DecimalPos.Unsigned.to_uint_nonzero p) as Hz.
  destruct (Pos.to_uint p) as [|d|d|d|d|d|d|d|d|d|d] eqn:E; [done| |eexists _, _; split; [done|]; split; [split; vm_compute; discriminate | apply lit_uint]..].
  exfalso. unfold Decimal.unorm in Hu. cbn [Decimal.nzhead] in Hu.
  pose proof (DecimalFacts.nzhead_nonzero d) as Hd.
  destruct (Decimal.nzhead d) eqn:En; try congruence; try (by apply (Hd u)).
Qed.

Lemma span_app {A} (p : A -> bool) l k :
  Forall (fun x => p x = true) l -> match k with x :: _ => p x = false | [] => True end ->
  span p (l ++ k) = (l, k).
Proof.
  induction 1 as [|x l Hx _ IH]; intros Hk; simpl.
  - destruct k as [|x k]; simpl; [done|]. by rewrite Hk.
  - rewrite Hx. by rewrite IH.
Qed.

Lemma digit_num r : is_digit r = true -> is_num r = true.
Proof. unfold is_num. by intros ->. Qed.

Lemma valid_digits c d : 49 <= c <= 57 -> Forall (fun r => is_digit r = true) d ->
  valid_number (c :: d) = true /\ valid_number (45 :: c :: d) = true.
Proof.
  intros Hc Hd. assert (Hs : span is_digit (c :: d) = (c :: d, [])).
  { rewrite <- (app_nil_r (c :: d)) at 1. apply span_app; [|done]. constructor; [|done].
    unfold is_digit. by zdecide. }
  unfold valid_number. rewrite (proj2 (Z.eqb_neq c 45)) by lia.
  change (45 =? 45) with true. cbn iota. rewrite Hs.
  rewrite (proj2 (Z.eqb_neq c 48)) by lia. by destruct d.
Qed.

Lemma NilZero_pos p : NilZero.string_of_uint (Pos.to_uint p) = NilEmpty.string_of_uint (Pos.to_uint p).
Proof. pose proof (DecimalPos.Unsigned.to_uint_nonnil p). by destruct (Pos.to_uint p). Qed.

(** What is known of an integer literal. *)
Lemma fmt_d_literal z :
  encode_runes (lit (fmt_d z)) = fmt_d z /\ valid_number (lit (fmt_d z)) = true /\
  Forall (fun r => is_num r = true) (lit (fmt_d z)) /\
  exists r l, lit (fmt_d z) = r :: l /\ (is_digit r = true \/ r = 45).
Proof.
  assert (Hd : forall l, Forall (fun r => is_digit r = true) l -> Forall (fun r => is_num r = true) l).
  { intros l Hl. eapply Forall_impl; [exact Hl | apply digit_num]. }
  destruct z as [|p|p]; unfold fmt_d.
  { split; [done|]. split; [done|]. split; [by repeat constructor | by eauto]. }
  all: cbn [Z.to_int NilZero.string_of_int]; rewrite NilZero_pos.
  all: destruct (pos_uint_head p) as (c & d & E & Hc & Hf).
  all: pose proof (encode_lit_uint (Pos.to_uint p)) as He.
  all: destruct (valid_digits c d Hc Hf) as [Hv1 Hv2].
  all: assert (Hc' : is_digit c = true) by (unfold is_digit; by zdecide).
  - rewrite E in *. split; [done|]. split; [done|]. split; [apply Hd; by constructor | by eauto].
  - set (t := NilEmpty.string_of_uint (Pos.to_uint p)) in *.
    change (lit (String "-" t)) with (45 :: lit t). rewrite encode_runes_cons, He, E.
    split; [done|]. split; [done|]. split; [|by eauto].
    constructor; [done|]. apply Hd. by constructor.
Qed.

(** ** The round trip *)

(** The text after a value does not continue a number. *)
Definition value_end (l : list Z) : Prop := match l with r :: _ => is_num r = false | [] => True end.

Lemma plain_head j : plain j -> exists r l, print_runes j = r :: l /\
  is_ws r = false /\ r <> 93 /\ r <> 125.
Proof.
  intros H. destruct H as [|[]|z|s Hs|l Hl|l Hl]; cbn [print_runes]; unfold print_string;
    try (eexists _, _; split; [reflexivity|]; split; [done|]; split; done).
  change (print_runes (JInt z)) with (lit (fmt_d z)).
  destruct (fmt_d_literal z) as (_ & _ & _ & r & l & E & Hr). exists r, l. rewrite E.
  split; [done|]. unfold is_ws, is_digit in *. destruct Hr as [Hr| ->]; [|by split].
  breflect. zdecide. rewrite !(proj2 (Z.eqb_neq r _)) by lia. split; [done|]. lia.
Qed.

Lemma expect_hd c l : is_ws c = false -> expect c (c :: l) = Some l.
Proof. intros H. unfold expect, skip_ws. simpl. by rewrite H, Z.eqb_refl. Qed.

Lemma expect_ne c r l : is_ws r = false -> r <> c -> expect c (r :: l) = None.
Proof. intros H Hn. unfold expect, skip_ws. simpl. by rewrite H, (proj2 (Z.eqb_neq r c)). Qed.

Lemma starts_with_ne c p r l : c <> r -> starts_with (c :: p) (r :: l) = false.
Proof. intros H. unfold starts_with. apply bool_decide_eq_false_2. cbn. congruence. Qed.

Definition reads (j : json) : Prop := forall n rest,
  (length (print_runes j) <= n)%nat -> value_end rest ->
  parse_value (S n) (print_runes j ++ rest) = Some (j, rest).

Lemma reads_int z : reads (JInt z).
Proof.
  intros n rest _ Hend. destruct (fmt_d_literal z) as (He & Hv & Hf & r & l & E & Hr).
  cbn [print_runes]. change (print_runes (JInt z)) with (lit (fmt_d z)).
  cbn [parse_value]. pose proof (span_app is_num (lit (fmt_d z)) rest Hf) as Hs.
  assert (Hw : is_ws r = false /\ r <> 34 /\ r <> 91 /\ r <> 123 /\ r <> 110 /\ r <> 116 /\ r <> 102).
  { unfold is_ws, is_digit in *. destruct Hr as [Hr| ->]; [|by repeat split].
    breflect. rewrite !(proj2 (Z.eqb_neq r _)) by lia. repeat split; lia. }
  destruct Hw as (Hw & N1 & N2 & N3 & N4 & N5 & N6).
  rewrite E in *. unfold skip_ws. cbn [app drop_while]. rewrite Hw.
  rewrite !(proj2 (Z.eqb_neq r _)) by lia.
  change (lit "null") with [110; 117; 108; 108]. change (lit "true") with [116; 114; 117; 101].
  change (lit "false") with [102; 97; 108; 115; 101].
  rewrite !starts_with_ne by lia.
  cbn [app] in Hs. rewrite Hs by done. rewrite Hv. by rewrite He.
Qed.

Lemma sep_by_cons sep x y l : sep_by sep (x :: y :: l) = x ++ sep :: sep_by sep (y :: l).
Proof. done. Qed.

Lemma value_end_44 l : value_end (44 :: l). Proof. done. Qed.
Lemma value_end_93 l : value_end (93 :: l). Proof. done. Qed.
Lemma value_end_125 l : value_end (125 :: l). Proof. done. Qed.

Lemma reads_elems l : Forall reads l -> l <> [] -> forall n rest,
  (length (sep_by 44 (map print_runes l)) < n)%nat ->
  parse_elems (S n) (sep_by 44 (map print_runes l) ++ 93 :: rest) = Some (l, rest).
Proof.
  induction 1 as [|j l Hj Hl IH]; [done|]. intros _ n rest Hn. cbn [parse_elems].
  destruct n as [|n]; [lia|]. destruct l as [|j' l].
  - cbn [map sep_by] in *. rewrite Hj by (try apply value_end_93; lia). cbn [mbind option_bind].
    by rewrite expect_ne, expect_hd.
  - cbn [map] in *. rewrite sep_by_cons, length_app in Hn. cbn [length] in Hn.
    rewrite sep_by_cons, <- app_assoc, Hj by (try apply value_end_44; lia). cbn [mbind option_bind app].
    rewrite expect_hd by done. rewrite IH by (done || lia). done.
Qed.

Definition print_member (kv : string * json) : list Z := print_string kv.1 ++ 58 :: print_runes kv.2.

Lemma reads_members l : Forall (fun kv => ValidString kv.1 = true /\ reads kv.2) l -> l <> [] ->
  forall n rest,
  (length (sep_by 44 (map print_member l)) < n)%nat ->
  parse_members (S n)
    (sep_by 44 (map print_member l) ++ 125 :: rest)
  = Some (l, rest).
Proof.
  induction 1 as [|[k j] l [Hk Hj] Hl IH]; [done|]. intros _ n rest Hn.
  cbn [fst snd] in Hk, Hj. cbn [parse_members].
  destruct n as [|n]; [lia|]. destruct l as [|kv l].
  - cbn [map sep_by] in *. unfold print_member in *. cbn [fst snd] in *. rewrite length_app in Hn. cbn [length] in Hn.
    rewrite <- app_assoc. cbn [app].
    destruct (parse_print_string k (58 :: print_runes j ++ 125 :: rest) Hk) as (t & -> & Ht).
    rewrite expect_hd by done. cbn [mbind option_bind]. rewrite Ht. cbn [mbind option_bind].
    rewrite expect_hd by done. cbn [mbind option_bind].
    rewrite Hj by (try apply value_end_125; lia). cbn [mbind option_bind].
    rewrite expect_ne, expect_hd by done. cbn. by rewrite (proj1 (ValidString_runes k Hk)).
  - cbn [map] in Hn |- *. rewrite sep_by_cons in Hn |- *. rewrite length_app in Hn. cbn [length] in Hn.
    unfold print_member at 1 in Hn. rewrite length_app in Hn. cbn [fst snd length] in Hn.
    unfold print_member at 1. cbn [fst snd]. rewrite <- !app_assoc. cbn [app].
    match goal with |- context [print_string k ++ ?u] =>
      destruct (parse_print_string k u Hk) as (t & -> & Ht) end.
    rewrite expect_hd by done. cbn [mbind option_bind]. rewrite Ht. cbn [mbind option_bind].
    rewrite expect_hd by done. cbn [mbind option_bind].
    rewrite Hj by (try apply value_end_44; lia).
    cbn [mbind option_bind]. rewrite expect_hd by done.
    change (print_member kv :: map print_member l) with (map print_member (kv :: l)) in *.
    rewrite IH by (done || lia). cbn. by rewrite (proj1 (ValidString_runes k Hk)).
Qed.

Lemma plain_reads j : plain j -> reads j.
Proof.
  induction j as [|b|m|s|l IH|l IH] using json_nested_ind; intros Hp.
  - intros n rest _ _. done.
  - intros n rest _ _. by destruct b.
  - inversion Hp; subst. apply reads_int.
  - inversion Hp as [| | |s' Hs| |]; subst. intros n rest _ _. cbn [print_runes parse_value].
    destruct (parse_print_string s rest Hs) as (t & -> & Ht).
    cbn. rewrite Ht. cbn. by rewrite (proj1 (ValidString_runes s Hs)).
  - inversion Hp as [| | | |l' Hl|]; subst. intros n rest Hn _. cbn [print_runes] in *.
    cbn [length] in Hn. rewrite length_app in Hn. cbn [length] in Hn.
    cbn [app parse_value]. unfold skip_ws at 1. cbn [drop_while]. cbn iota.
    change (is_ws 91) with false. change (91 =? 34) with false. change (91 =? 91) with true. cbn iota.
    rewrite <- app_assoc. cbn [app]. destruct l as [|j l].
    { cbn [map sep_by app]. by rewrite expect_hd. }
    assert (Hr : Forall reads (j :: l)) by (rewrite Forall_forall in *; auto).
    inversion Hl as [|? ? Hj _]; subst. destruct (plain_head j Hj) as (r & t & E & Hw & N1 & N2).
    assert (Ex : expect 93 (sep_by 44 (map print_runes (j :: l)) ++ 93 :: rest) = None).
    { destruct l as [|j' l]; cbn [map]; [|rewrite sep_by_cons]; cbn [sep_by];
        rewrite E; cbn [app]; by apply expect_ne. }
    rewrite Ex. destruct n as [|n]; [lia|]. by rewrite reads_elems by (done || lia).
  - inversion Hp as [| | | | |l' Hl]; subst. intros n rest Hn _.
    change (print_runes (JObj l)) with (123 :: sep_by 44 (map print_member l) ++ [125]) in *.
    cbn [length] in Hn. rewrite length_app in Hn. cbn [length] in Hn.
    cbn [app parse_value]. unfold skip_ws at 1. cbn [drop_while]. cbn iota.
    change (is_ws 123) with false. change (123 =? 34) with false. change (123 =? 91) with false.
    change (123 =? 123) with true. cbn iota.
    rewrite <- app_assoc. cbn [app]. destruct l as [|[k j] l].
    { cbn [map sep_by app]. by rewrite expect_hd. }
    assert (Hr : Forall (fun kv => ValidString kv.1 = true /\ reads kv.2) ((k, j) :: l)).
    { rewrite Forall_forall in *. intros kv Hkv. destruct (Hl kv Hkv). auto. }
    assert (Ex : forall t, expect 125 (print_string k ++ t) = None) by (intros t; by apply expect_ne).
    assert (Ex' : expect 125 (sep_by 44 (map print_member
      ((k, j) :: l)) ++ 125 :: rest) = None).
    { destruct l as [|j' l]; cbn [map]; [|rewrite sep_by_cons]; cbn [sep_by];
        unfold print_member at 1; cbn [fst]; rewrite <- !app_assoc; apply Ex. }
    rewrite Ex'. destruct n as [|n]; [lia|]. by rewrite reads_members by (done || lia).
Qed.

(** The code points printed are Unicode scalar values. *)
Lemma lit_scalar s : Forall (fun r => 0 <= r < 256) (lit s).
Proof.
  unfold lit. induction (String.list_ascii_of_string s) as [|a l IH]; constructor; [|done].
  apply byte_range.
Qed.

Lemma small_scalar r : 0 <= r < 55296 -> scalar r = true.
Proof. intros H. unfold scalar. by zdecide. Qed.

Lemma Forall_small l : Forall (fun r => 0 <= r < 256) l -> Forall (fun r => scalar r = true) l.
Proof. intros H. eapply Forall_impl; [exact H|]. intros r Hr. cbv beta in *. apply small_scalar. lia. Qed.

Lemma escape_u_scalar r : Forall (fun r => scalar r = true) (escape_u r).
Proof.
  assert (Hh : forall d, 0 <= d < 16 -> scalar (hex_digit d) = true).
  { intros d Hd. apply small_scalar. unfold hex_digit. destruct (d <? 10); lia. }
  unfold escape_u. repeat constructor; apply Hh; apply Z.mod_pos_bound; lia.
Qed.

Lemma segs_scalar s : Forall (fun x => valid_seg x = true -> scalar x.1 = true) (segs s).
Proof. rewrite Forall_forall. intros x _. unfold valid_seg. intros H. by breflect. Qed.

Lemma print_string_scalar s : Forall (fun r => scalar r = true) (print_string s).
Proof.
  unfold print_string. constructor; [done|]. apply Forall_app. split; [|by repeat constructor].
  induction (segs_scalar s) as [|x l Hx _ IH]; [constructor|]. cbn [map concat].
  apply Forall_app. split; [|done]. unfold escape_rune.
  destruct (valid_seg x); cbn [negb]; [|apply escape_u_scalar].
  repeat case_goal; try apply escape_u_scalar; repeat constructor. by apply Hx.
Qed.

Lemma sep_by_Forall (P : Z -> Prop) sep l : P sep -> Forall (Forall P) l -> Forall P (sep_by sep l).
Proof.
  intros Hs. induction 1 as [|x l Hx Hl IH]; [constructor|]. destruct l as [|y l]; [done|].
  rewrite sep_by_cons. apply Forall_app. split; [done|]. by constructor.
Qed.

Lemma print_runes_scalar j : Forall (fun r => scalar r = true) (print_runes j).
Proof.
  induction j as [|b|m|s|l IH|l IH] using json_nested_ind; cbn [print_runes].
  - by repeat constructor.
  - destruct b; by repeat constructor.
  - apply Forall_small, lit_scalar.
  - apply print_string_scalar.
  - constructor; [done|]. apply Forall_app. split; [|by repeat constructor].
    apply sep_by_Forall; [done|]. by apply Forall_map.
  - constructor; [done|]. apply Forall_app. split; [|by repeat constructor].
    apply sep_by_Forall; [done|]. apply Forall_map. eapply Forall_impl; [exact IH|].
    intros kv Hkv. cbn beta. apply Forall_app. split; [apply print_string_scalar|]. by constructor.
Qed.

Lemma ParseInt64_fmt z : in_int64 z = true -> ParseInt64 (fmt_d z) = Some z.
Proof.
  intros Hz. unfold ParseInt64, fmt_d. rewrite NilZero.isi.
  - cbv zeta. by rewrite DecimalZ.of_to, Hz.
  - destruct z as [|p|p]; simpl; try done. pose proof (DecimalPos.Unsigned.to_uint_nonnil p). congruence.
  - destruct z as [|p|p]; simpl; try done. pose proof (DecimalPos.Unsigned.to_uint_nonnil p). congruence.
Qed.

(** Parsing is a left inverse of printing. *)
Lemma Parse_Marshal j : plain j -> Parse (Marshal j) = Some j.
Proof.
  intros Hp. unfold Parse, Marshal. rewrite runes_encode by apply print_runes_scalar.
  rewrite <- (app_nil_r (print_runes j)) at 2. by rewrite plain_reads.
Qed.

#[export] Hint Constructors plain : snow.
