(* ===== verification/JsonIndent.v ===== *)
(** * Indented JSON

    [json.MarshalIndent(v, "", "  ")] without its quotes: every element on a line
    of its own, and [Unmarshal] reads back what it wrote. *)

From Stdlib Require Import ZArith Lia.
From S2P Require Import Prelude GoString Json.

(** A new line at depth [d]. *)
Definition newline (d : nat) : list Z := 10 :: replicate (2 * d) 32.

Fixpoint indent_runes (d : nat) (j : json) : list Z :=
  match j with
  | JArr ((_ :: _) as l) =>
      91 :: sep_by 44 (map (fun x => newline (S d) ++ indent_runes (S d) x) l) ++ newline d ++ [93]
  | JObj ((_ :: _) as l) =>
      123 :: sep_by 44 (map (fun kv => newline (S d) ++ print_string kv.1 ++ 58 :: 32 :: indent_runes (S d) kv.2) l)
          ++ newline d ++ [125]
  | _ => print_runes j
  end.

Definition MarshalIndent (j : json) : string := encode_runes (indent_runes 0 j).

(** ** White space between the tokens *)

Definition spaces (ws : list Z) : Prop := Forall (fun r => is_ws r = true) ws.

Lemma newline_spaces d : spaces (newline d).
Proof. constructor; [done|]. induction (2 * d)%nat as [|n IH]; simpl; [constructor|]. by constructor. Qed.

Lemma skip_spaces ws l : spaces ws -> skip_ws (ws ++ l) = skip_ws l.
Proof. unfold skip_ws. induction 1 as [|r ws Hr _ IH]; [done|]. cbn. by rewrite Hr. Qed.

Lemma expect_spaces c ws l : spaces ws -> expect c (ws ++ l) = expect c l.
Proof. intros H. unfold expect. by rewrite skip_spaces. Qed.

Lemma parse_spaces n ws l : spaces ws -> parse_value n (ws ++ l) = parse_value n l.
Proof. intros H. destruct n as [|n]; [done|]. cbn [parse_value]. by rewrite skip_spaces. Qed.

Definition reads_at (d : nat) (j : json) : Prop := forall n rest,
  (length (indent_runes d j) <= n)%nat -> value_end rest ->
  parse_value (S n) (indent_runes d j ++ rest) = Some (j, rest).

Lemma value_end_spaces ws l : spaces ws -> value_end l -> value_end (ws ++ l).
Proof.
  intros Hws Hl. destruct Hws as [|r ws Hr]; [done|]. cbn. destruct (is_num r) eqn:E; [|done].
  exfalso. unfold is_ws, is_num, is_digit in *. rewrite !orb_true_iff, !andb_true_iff, !Z.eqb_eq, !Z.leb_le in *. lia.
Qed.

Definition element (d : nat) (x : json) : list Z := newline d ++ indent_runes d x.

Definition member (d : nat) (kv : string * json) : list Z :=
  newline d ++ print_string kv.1 ++ 58 :: 32 :: indent_runes d kv.2.

Lemma reads_at_elems d ws l : spaces ws -> Forall (reads_at d) l -> l <> [] -> forall n rest,
  (length (sep_by 44 (map (element d) l)) < n)%nat ->
  parse_elems (S n) (sep_by 44 (map (element d) l) ++ ws ++ 93 :: rest) = Some (l, rest).
Proof.
  intros Hws. induction 1 as [|j l Hj Hl IH]; [done|]. intros _ n rest Hn. cbn [parse_elems].
  destruct n as [|n]; [lia|]. destruct l as [|j' l].
  - cbn [map sep_by] in *. unfold element in *. rewrite length_app in Hn.
    rewrite <- app_assoc, parse_spaces by apply newline_spaces.
    rewrite Hj by (lia || by apply value_end_spaces).
    cbn [mbind option_bind]. rewrite !expect_spaces by done. by rewrite expect_ne, expect_hd.
  - cbn [map] in *. rewrite sep_by_cons, length_app in Hn. cbn [length] in Hn.
    unfold element in Hn at 1. rewrite length_app in Hn.
    rewrite sep_by_cons, <- app_assoc. unfold element at 1.
    rewrite <- app_assoc, parse_spaces by apply newline_spaces.
    rewrite Hj by (try apply value_end_44; lia). cbn [mbind option_bind app].
    rewrite expect_hd by done. rewrite IH by (done || lia). done.
Qed.

Lemma reads_at_members d ws l : spaces ws ->
  Forall (fun kv => ValidString kv.1 = true /\ reads_at d kv.2) l -> l <> [] -> forall n rest,
  (length (sep_by 44 (map (member d) l)) < n)%nat ->
  parse_members (S n) (sep_by 44 (map (member d) l) ++ ws ++ 125 :: rest) = Some (l, rest).
Proof.
  intros Hws. induction 1 as [|[k j] l [Hk Hj] Hl IH]; [done|]. intros _ n rest Hn.
  cbn [fst snd] in Hk, Hj. cbn [parse_members]. destruct n as [|n]; [lia|].
  assert (Hmem : forall u, value_end u -> (length (member d (k, j)) < S n)%nat ->
    exists t, expect 34 (member d (k, j) ++ u) = Some t /\
    exists t2 t3, parse_body None t = Some (t2, t3) /\ encode_runes t2 = k /\ exists t4,
    expect 58 t3 = Some t4 /\ parse_value (S n) t4 = Some (j, u)).
  { intros u Hu Hlen. unfold member in *. cbn [fst snd] in *. rewrite !length_app in Hlen. cbn [length] in Hlen.
    rewrite <- !app_assoc. cbn [app].
    destruct (parse_print_string k (58 :: 32 :: indent_runes d j ++ u) Hk) as (t & -> & Ht).
    exists t. split; [rewrite expect_spaces by apply newline_spaces; by apply expect_hd|].
    exists (runes k), (58 :: 32 :: indent_runes d j ++ u). split; [done|]. split; [apply (proj1 (ValidString_runes k Hk))|].
    eexists. split; [by apply expect_hd|].
    change (32 :: indent_runes d j ++ u) with ([32] ++ (indent_runes d j ++ u)).
    rewrite parse_spaces by (by repeat constructor). apply Hj; [lia|done]. }
  destruct l as [|kv l].
  - cbn [map sep_by] in *.
    destruct (Hmem (ws ++ 125 :: rest)) as (t & -> & t2 & t3 & Hb & Hk2 & t4 & He & Hv);
      [by apply value_end_spaces|lia|].
    cbn [mbind option_bind]. rewrite Hb. cbn [mbind option_bind]. rewrite He. cbn [mbind option_bind].
    rewrite Hv. cbn [mbind option_bind]. rewrite !expect_spaces, expect_ne, expect_hd by done. cbn. by rewrite Hk2.
  - cbn [map] in *. rewrite sep_by_cons, length_app in Hn. cbn [length] in Hn.
    rewrite sep_by_cons, <- app_assoc. cbn [app].
    match goal with |- context [member d (k, j) ++ ?u] =>
      destruct (Hmem u) as (t & -> & t2 & t3 & Hb & Hk2 & t4 & He & Hv); [done|lia|] end.
    cbn [mbind option_bind]. rewrite Hb. cbn [mbind option_bind]. rewrite He. cbn [mbind option_bind].
    rewrite Hv. cbn [mbind option_bind]. rewrite expect_hd by done.
    change (member d kv :: map (member d) l) with (map (member d) (kv :: l)) in *.
    rewrite IH by (done || lia). cbn. by rewrite Hk2.
Qed.

(** A value that [indent_runes] prints as [print_runes] does. *)
Lemma reads_at_flat d j : plain j -> indent_runes d j = print_runes j -> reads_at d j.
Proof. intros Hp E n rest. rewrite E. by apply plain_reads. Qed.

Lemma open_head d l : Forall plain l -> l <> [] -> forall rest,
  expect 93 (sep_by 44 (map (element d) l) ++ rest) = None.
Proof.
  intros Hl Hn rest. destruct l as [|j l]; [done|]. inversion Hl as [|? ? Hj _]; subst.
  assert (Hhd : exists r t, indent_runes d j = r :: t /\ is_ws r = false /\ r <> 93).
  { destruct (plain_head j Hj) as (r & t & E & Hw & N & _).
    destruct j as [| | | |[|]|[|]]; try (exists r, t; done); by eexists _, _. }
  destruct Hhd as (r & t & E & Hw & N).
  destruct l as [|j' l]; cbn [map]; [|rewrite sep_by_cons]; cbn [sep_by]; unfold element at 1;
    rewrite <- !app_assoc, expect_spaces by apply newline_spaces; rewrite E; by apply expect_ne.
Qed.

Lemma plain_reads_at j : plain j -> forall d, reads_at d j.
Proof.
  induction j as [|b|m|s|l IH|l IH] using json_nested_ind; intros Hp d; try by apply reads_at_flat.
  - destruct l as [|j l]; [by apply reads_at_flat|]. inversion Hp as [| | | |l' Hl|]; subst.
    intros n rest Hn _.
    change (indent_runes d (JArr (j :: l))) with
      (91 :: sep_by 44 (map (element (S d)) (j :: l)) ++ newline d ++ [93]) in *.
    cbn [length] in Hn. rewrite !length_app in Hn. cbn [length] in Hn.
    cbn [app parse_value]. unfold skip_ws at 1. cbn [drop_while]. cbn iota.
    change (is_ws 91) with false. change (91 =? 34) with false. change (91 =? 91) with true. cbn iota.
    rewrite <- !app_assoc. rewrite open_head by done. destruct n as [|n]; [lia|]. cbn [app].
    rewrite reads_at_elems; [done|apply newline_spaces| |done|lia].
    rewrite Forall_forall in *. auto.
  - destruct l as [|kv l]; [by apply reads_at_flat|]. inversion Hp as [| | | | |l' Hl]; subst.
    intros n rest Hn _.
    change (indent_runes d (JObj (kv :: l))) with
      (123 :: sep_by 44 (map (member (S d)) (kv :: l)) ++ newline d ++ [125]) in *.
    cbn [length] in Hn. rewrite !length_app in Hn. cbn [length] in Hn.
    cbn [app parse_value]. unfold skip_ws at 1. cbn [drop_while]. cbn iota.
    change (is_ws 123) with false. change (123 =? 34) with false. change (123 =? 91) with false.
    change (123 =? 123) with true. cbn iota. rewrite <- !app_assoc. cbn [app].
    assert (Ex : forall u, expect 125 (sep_by 44 (map (member (S d)) (kv :: l)) ++ u) = None).
    { intros u. destruct l as [|kv' l]; cbn [map]; [|rewrite sep_by_cons]; cbn [sep_by]; unfold member at 1;
        rewrite <- !app_assoc, expect_spaces by apply newline_spaces; by apply expect_ne. }
    rewrite Ex. destruct n as [|n]; [lia|].
    rewrite reads_at_members; [done|apply newline_spaces| |done|lia].
    rewrite Forall_forall in *. intros x Hx. destruct (Hl x Hx). split; [done|]. by apply IH.
Qed.

Lemma newline_scalar d : Forall (fun r => scalar r = true) (newline d).
Proof. constructor; [done|]. induction (2 * d)%nat as [|n IH]; simpl; [constructor|]. by constructor. Qed.

Lemma indent_runes_scalar j : forall d, Forall (fun r => scalar r = true) (indent_runes d j).
Proof.
  induction j as [|b|m|s|l IH|l IH] using json_nested_ind; intros d; try apply print_runes_scalar.
  - destruct l as [|j l]; [apply print_runes_scalar|]. cbn [indent_runes]. constructor; [done|].
    apply Forall_app. split; [|apply Forall_app; split; [apply newline_scalar|by repeat constructor]].
    apply sep_by_Forall; [done|]. apply Forall_map. eapply Forall_impl; [exact IH|]. intros x Hx.
    cbn beta. apply Forall_app. split; [apply newline_scalar|apply Hx].
  - destruct l as [|j l]; [apply print_runes_scalar|]. cbn [indent_runes]. constructor; [done|].
    apply Forall_app. split; [|apply Forall_app; split; [apply newline_scalar|by repeat constructor]].
    apply sep_by_Forall; [done|]. apply Forall_map. eapply Forall_impl; [exact IH|]. intros x Hx.
    cbn beta. apply Forall_app. split; [apply newline_scalar|]. apply Forall_app. split; [apply print_string_scalar|].
    constructor; [done|]. constructor; [done|]. apply Hx.
Qed.

(** Parsing reads back an indented text, also with a new line at its end. *)
Lemma Parse_MarshalIndent j : plain j -> Parse (MarshalIndent j +:+ String (chr 10) "")%string = Some j.
Proof.
  intros Hp. unfold Parse, MarshalIndent.
  change (String (chr 10) "") with (encode_runes [10]). rewrite <- encode_runes_app, runes_encode.
  - assert (Hr : reads_at 0 j) by (by apply plain_reads_at).
    rewrite Hr; [done| |done]. rewrite length_app. lia.
  - apply Forall_app. split; [apply indent_runes_scalar|by repeat constructor].
Qed.
