(* ===== verification/Redaction.v ===== *)
(** * Redaction of secrets

    [internal/security/redaction.go]: what is removed from audit records and
    task logs before they are stored. *)

From Stdlib Require Import ZArith Lia Ascii.
From S2P Require Import Prelude GoString Json.

Definition RedactedValue : string := "[REDACTED]".

Definition sensitiveKeyParts : list string :=
  ["password"; "passwd"; "token"; "secret"; "key"; "credential"; "authorization"; "cookie"; "set-cookie"].

Definition IsSensitiveKey (key : string) : bool :=
  let normalized := ToLower (TrimSpace key) in
  if (normalized =? "")%string then false
  else existsb (fun part => Contains normalized part) sensitiveKeyParts.

(** A value read from JSON: the members of maps are visited in any order, each
    once, so the map is rewritten member by member. *)
Fixpoint redactValue (value : json) : json :=
  match value with
  | JObj l =>
      JObj (map (fun kv => (kv.1, if IsSensitiveKey kv.1 then JStr RedactedValue
                                  else redactValue kv.2)) l)
  | JArr l => JArr (map redactValue l)
  | _ => value
  end.

(** ** [sensitiveAssignmentPattern]

    The regular expression is matched rune by rune: a keyword between word
    boundaries, white space around [:] or [=], then a quoted string, or the
    longest run of other characters. *)

(** Case folding of the pattern's letters, U+017F and U+212A included. *)
Definition fold_ci (r : Z) : Z :=
  if (65 <=? r) && (r <=? 90) then r + 32 else if r =? 383 then 115 else if r =? 8490 then 107 else r.

Definition is_word (r : Z) : bool :=
  ((48 <=? r) && (r <=? 57)) || ((65 <=? r) && (r <=? 90)) || ((97 <=? r) && (r <=? 122)) || (r =? 95).

Definition is_word_opt (o : option (Z * string)) : bool :=
  match o with Some x => is_word x.1 | None => false end.

(** [\b] between two neighbours. *)
Definition boundary (before after : option (Z * string)) : bool :=
  xorb (is_word_opt before) (is_word_opt after).

(** The class [\s]. *)
Definition is_re_space (x : Z * string) : bool :=
  (x.1 =? 32) || (x.1 =? 9) || (x.1 =? 10) || (x.1 =? 12) || (x.1 =? 13).

Definition kw_matches (kw : string) (l : list (Z * string)) : bool :=
  let n := String.length kw in
  bool_decide (map (fun x => fold_ci x.1) (take n l) = lit kw)
  && boundary (last (take n l)) (head (drop n l)).

(** The quoted string after its opening quote [q]. *)
Fixpoint quoted (q : Z) (l : list (Z * string)) : option (list (Z * string)) :=
  match l with
  | [] => None
  | x :: l' => if x.1 =? q then Some l' else quoted q l'
  end.

Definition is_bare (x : Z * string) : bool :=
  negb (is_re_space x || (x.1 =? 44) || (x.1 =? 125)).

(** The text after the value. *)
Definition match_value (l : list (Z * string)) : option (list (Z * string)) :=
  let bare := match span is_bare l with ([], _) => None | (_, rest) => Some rest end in
  match l with
  | x :: l' =>
    if (x.1 =? 34) || (x.1 =? 39)
    then match quoted x.1 l' with Some rest => Some rest | None => bare end
    else bare
  | [] => None
  end.

(** A match at the head of [l]: the keyword's text and the text after the match. *)
Definition match_at (before : option (Z * string)) (l : list (Z * string))
  : option (list (Z * string) * list (Z * string)) :=
  if boundary before (head l) then
    match List.find (fun kw => kw_matches kw l) sensitiveKeyParts with
    | Some kw =>
      let n := String.length kw in
      match drop_while is_re_space (drop n l) with
      | x :: l1 =>
        if (x.1 =? 58) || (x.1 =? 61) then
          rest ← match_value (drop_while is_re_space l1); Some (take n l, rest)
        else None
      | [] => None
      end
    | None => None
    end
  else None.

(** [ReplaceAllString]; every step consumes a rune, so [n] runes need [n] steps. *)
Fixpoint replace_all (n : nat) (before : option (Z * string)) (l : list (Z * string)) : string :=
  match n, l with
  | S n, x :: l' =>
    match match_at before l with
    | Some (kw, rest) =>
        (unsegs kw +:+ ": " +:+ RedactedValue +:+
         replace_all n (last (take (length l - length rest) l)) rest)%string
    | None => (x.2 +:+ replace_all n (Some x) l')%string
    end
  | _, _ => ""
  end.

Definition RedactText (raw : string) : string :=
  if (raw =? "")%string then raw
  else replace_all (length (segs raw)) None (segs raw).

Definition RedactJSON (raw : string) : string :=
  let trimmed := TrimSpace raw in
  if (trimmed =? "")%string then raw
  else
    match Parse trimmed with
    | None => RedactText raw
    | Some value => Marshal (redactValue (to_interface value))
    end.

(** ** What redaction removes *)

(** Two values that differ only below sensitive keys. *)
#[warnings="-register-all"]
Inductive same_public : json -> json -> Prop :=
| sp_same j : same_public j j
| sp_arr l k : Forall2 same_public l k -> same_public (JArr l) (JArr k)
| sp_obj l k :
    Forall2 (fun a b => a.1 = b.1 /\ (IsSensitiveKey a.1 = false -> same_public a.2 b.2)) l k ->
    same_public (JObj l) (JObj k).

(** The redacted value does not depend on what is below a sensitive key. *)
Lemma redact_same_public j k : same_public j k -> redactValue j = redactValue k.
Proof.
  revert k. induction j as [|b|m|s|l IH|l IH] using json_nested_ind; intros k H;
    inversion H as [|l1 k1 Hf|l1 k1 Hf]; subst; try done; cbn [redactValue]; f_equal; clear H.
  - revert IH. induction Hf as [|x y l1 k1 Hxy _ IHf]; intros IH; [done|].
    inversion IH; subst. cbn [map]. f_equal; auto.
  - revert IH. induction Hf as [|x y l1 k1 [Hk Hxy] _ IHf]; intros IH; [done|].
    inversion IH; subst. cbn [map]. f_equal; [|auto]. rewrite Hk in *.
    destruct (IsSensitiveKey y.1); [done|]. f_equal; auto.
Qed.

(** Redaction leaves no value below a sensitive key but the mark. *)
#[warnings="-register-all"]
Inductive redacted : json -> Prop :=
| red_null : redacted JNull
| red_bool b : redacted (JBool b)
| red_num n : redacted (JNum n)
| red_str s : redacted (JStr s)
| red_arr l : Forall redacted l -> redacted (JArr l)
| red_obj l :
    Forall (fun kv => (IsSensitiveKey kv.1 = true -> kv.2 = JStr RedactedValue) /\
                      (IsSensitiveKey kv.1 = false -> redacted kv.2)) l ->
    redacted (JObj l).

Lemma redactValue_redacted j : redacted (redactValue j).
Proof.
  induction j as [|b|m|s|l IH|l IH] using json_nested_ind; cbn [redactValue]; constructor.
  - by apply Forall_map.
  - apply Forall_map. eapply Forall_impl; [exact IH|]. intros [k v] Hv. cbn [fst snd] in *.
    by destruct (IsSensitiveKey k).
Qed.

Lemma redactValue_id j : redacted j -> redactValue j = j.
Proof.
  induction j as [|b|m|s|l IH|l IH] using json_nested_ind; intros H; inversion H as [| | | |? Hl|? Hl];
    subst; cbn [redactValue]; try done; f_equal; clear H.
  - induction Hl as [|x l Hx _ IHl]; [done|]. inversion IH; subst. cbn [map]. f_equal; auto.
  - induction Hl as [|[k v] l [Hs Hx] _ IHl]; [done|]. inversion IH; subst. cbn [map fst snd] in *.
    f_equal; [|auto]. destruct (IsSensitiveKey k); f_equal; [by rewrite Hs | auto].
Qed.

Lemma same_public_redact j : same_public j (redactValue j).
Proof.
  induction j as [|b|m|s|l IH|l IH] using json_nested_ind; cbn [redactValue]; constructor.
  - by apply Forall2_fmap_r, Forall_Forall2_diag.
  - apply Forall2_fmap_r, Forall_Forall2_diag. eapply Forall_impl; [exact IH|].
    intros [k v] Hv. simpl in *. split; [done|]. intros E. by rewrite ?E.
Qed.

Lemma Parse_nil : Parse "" = None.
Proof. reflexivity. Qed.

Lemma RedactJSON_Parse raw v :
  Parse (TrimSpace raw) = Some v -> RedactJSON raw = Marshal (redactValue (to_interface v)).
Proof.
  intros Hp. unfold RedactJSON. cbv zeta. destruct (String.eqb_spec (TrimSpace raw) "") as [E|_].
  - rewrite E in Hp. by rewrite Parse_nil in Hp.
  - by rewrite Hp.
Qed.


(** A text in double quotes, for the examples. *)
Definition dq (s : string) : string := (String (Ascii.ascii_of_nat 34) s +:+ String (Ascii.ascii_of_nat 34) "")%string.

Definition secret_text : string :=
  ("{" +:+ dq "user" +:+ ":1," +:+ dq "API_Token" +:+ ":[" +:+ dq "hunter2" +:+ "]}")%string.


(** [RedactText] is weaker than its name: the value of an assignment goes,
    but the credential of a bearer header stays, because the pattern takes the
    scheme for the value; so does a token whose key is a longer word. *)
Theorem RedactText_leaks :
  RedactText "password = 'p w', ok" = "password: [REDACTED], ok"%string /\
  RedactText "Authorization: Bearer eyJhbGci" = "Authorization: [REDACTED] eyJhbGci"%string /\
  RedactText "access_token=eyJhbGci" = "access_token=eyJhbGci"%string.
Proof. split; [|split]; vm_compute; reflexivity. Qed.
