(* ===== verification/Agent.v ===== *)
(** * The agent interface

    [grpcclient.AgentClient]: the structs of [internal/grpcclient/agent_client.go]
    and one operation per method that the services call.  The agent itself is a
    program in another process; to the services its answers are an oracle, which
    [AgentClient.v] carries over a connection. *)

From Stdlib Require Import ZArith SpecFloat.
From S2P Require Import Prelude GoError Effects.

(** The values of [google.golang.org/grpc/codes] the code names. *)
Module codes.
Definition OK : Z := 0.
Definition Unknown : Z := 2.
Definition InvalidArgument : Z := 3.
Definition DeadlineExceeded : Z := 4.
Definition NotFound : Z := 5.
Definition PermissionDenied : Z := 7.
Definition Unimplemented : Z := 12.
Definition Internal : Z := 13.
Definition Unavailable : Z := 14.
Definition Unauthenticated : Z := 16.
End codes.

Module grpcclient.

Record SystemOverview := {
  so_Hostname : string;
  so_OS : string;
  so_Kernel : string;
  so_Uptime : string;
  so_CPUUsagePercent : spec_float;
  so_MemoryUsagePercent : spec_float;
  so_DiskUsagePercent : spec_float
}.

Record RealtimeResource := {
  rr_CPUUsagePercent : spec_float;
  rr_MemoryUsagePercent : spec_float;
  rr_DiskUsagePercent : spec_float;
  rr_LoadAverage1m : spec_float;
  rr_LoadAverage5m : spec_float;
  rr_LoadAverage15m : spec_float
}.

Record FileEntry := {
  fe_Name : string;
  fe_Path : string;
  fe_IsDir : bool;
  fe_Size : Z;
  fe_ModifiedAtUnix : Z
}.

Record ListFilesResult := {
  lf_CurrentPath : string;
  lf_Entries : list FileEntry
}.

Record ReadTextFileRequest := {
  rtq_Path : string;
  rtq_MaxBytes : Z;
  rtq_Encoding : string
}.

Record ReadTextFileResult := {
  rt_Path : string;
  rt_Content : string;
  rt_Size : Z;
  rt_Truncated : bool;
  rt_Encoding : string
}.

Record ReadFileChunkRequest := {
  rcq_Path : string;
  rcq_Offset : Z;
  rcq_Limit : Z
}.

Record ReadFileChunkResult := {
  rc_Path : string;
  rc_Offset : Z;
  rc_Chunk : string;
  rc_TotalSize : Z;
  rc_EOF : bool
}.

Record WriteTextFileRequest := {
  wtq_Path : string;
  wtq_Content : string;
  wtq_CreateIfNotExists : bool;
  wtq_Truncate : bool;
  wtq_Encoding : string
}.

Record WriteTextFileResult := {
  wt_Path : string;
  wt_WrittenBytes : Z
}.

Record WriteFileChunkRequest := {
  wcq_Path : string;
  wcq_Offset : Z;
  wcq_Chunk : string;
  wcq_CreateIfNotExists : bool;
  wcq_Truncate : bool
}.

Record WriteFileChunkResult := {
  wc_Path : string;
  wc_Offset : Z;
  wc_WrittenBytes : Z;
  wc_TotalSize : Z
}.

Record CreateDirectoryRequest := {
  cdq_Path : string;
  cdq_CreateParents : bool
}.

Record DeleteFileRequest := {
  dfq_Path : string;
  dfq_Recursive : bool
}.

Record RenameFileRequest := {
  rnq_SourcePath : string;
  rnq_TargetPath : string
}.

Record RenameFileResult := {
  rn_SourcePath : string;
  rn_TargetPath : string;
  rn_MovedBytes : Z
}.

Record ServiceInfo := {
  si_Name : string;
  si_DisplayName : string;
  si_Status : string
}.

Record ServiceActionResult := {
  sa_Name : string;
  sa_Status : string
}.

Record DockerContainerInfo := {
  dc_ID : string;
  dc_Name : string;
  dc_Image : string;
  dc_State : string;
  dc_Status : string
}.

Record DockerContainerActionResult := {
  da_ID : string;
  da_State : string
}.

Record DockerImageInfo := {
  di_ID : string;
  di_RepoTags : list string;
  di_Size : Z
}.

Record CronTask := {
  ct_ID : string;
  ct_Expression : string;
  ct_Command : string;
  ct_Enabled : bool
}.

Record CreateCronTaskRequest := {
  ccq_Expression : string;
  ccq_Command : string;
  ccq_Enabled : bool
}.

End grpcclient.

(** The methods of [AgentClient]; a struct with one field is that field. *)
Inductive agent_op :=
| AGetSystemOverview
| AGetRealtimeResource
| AListFiles (path : string)
| AReadTextFile (req : grpcclient.ReadTextFileRequest)
| AReadFileChunk (req : grpcclient.ReadFileChunkRequest)
| AWriteFileChunk (req : grpcclient.WriteFileChunkRequest)
| AWriteTextFile (req : grpcclient.WriteTextFileRequest)
| ACreateDirectory (req : grpcclient.CreateDirectoryRequest)
| ADeleteFile (req : grpcclient.DeleteFileRequest)
| ARenameFile (req : grpcclient.RenameFileRequest)
| AListServices (keyword : string)
| AStartService (name : string)
| AStopService (name : string)
| ARestartService (name : string)
| AListDockerContainers
| AStartDockerContainer (id : string)
| AStopDockerContainer (id : string)
| ARestartDockerContainer (id : string)
| AListDockerImages
| AListCronTasks
| ACreateCronTask (req : grpcclient.CreateCronTaskRequest)
| AUpdateCronTask (id : string) (req : grpcclient.CreateCronTaskRequest)
| ADeleteCronTask (id : string)
| ASetCronTaskEnabled (id : string) (enabled : bool).

Definition agent_val (o : agent_op) : Type :=
  match o with
  | AGetSystemOverview => grpcclient.SystemOverview
  | AGetRealtimeResource => grpcclient.RealtimeResource
  | AListFiles _ => grpcclient.ListFilesResult
  | AReadTextFile _ => grpcclient.ReadTextFileResult
  | AReadFileChunk _ => grpcclient.ReadFileChunkResult
  | AWriteFileChunk _ => grpcclient.WriteFileChunkResult
  | AWriteTextFile _ => grpcclient.WriteTextFileResult
  | ACreateDirectory _ => string
  | ADeleteFile _ => string
  | ARenameFile _ => grpcclient.RenameFileResult
  | AListServices _ => list grpcclient.ServiceInfo
  | AStartService _ => grpcclient.ServiceActionResult
  | AStopService _ => grpcclient.ServiceActionResult
  | ARestartService _ => grpcclient.ServiceActionResult
  | AListDockerContainers => list grpcclient.DockerContainerInfo
  | AStartDockerContainer _ => grpcclient.DockerContainerActionResult
  | AStopDockerContainer _ => grpcclient.DockerContainerActionResult
  | ARestartDockerContainer _ => grpcclient.DockerContainerActionResult
  | AListDockerImages => list grpcclient.DockerImageInfo
  | AListCronTasks => list grpcclient.CronTask
  | ACreateCronTask _ => grpcclient.CronTask
  | AUpdateCronTask _ _ => grpcclient.CronTask
  | ADeleteCronTask _ => string
  | ASetCronTaskEnabled _ _ => grpcclient.CronTask
  end.

Definition agent_ans (o : agent_op) : Type := res (agent_val o).

(** A client whose every call fails with [e]. *)
Definition failing_agent (e : goerr) (o : agent_op) : agent_ans o := Err e.
