(* ===== verification/Metrics.v ===== *)
(** * Metrics

    [internal/metrics/metrics.go]: the series of the backend.  A vector of
    Prometheus is the map from the label values to the series; a counter is a
    whole number, a gauge and an observation are floating point numbers, a
    histogram is the list of its observations.  The registration with the
    exporter is left out. *)

From Stdlib Require Import ZArith Lia SpecFloat.
From stdpp Require Import gmap strings.
From S2P Require Import Prelude GoString GoError.

(** ** Floating point numbers: [float64] *)

Definition float64_of_Z (z : Z) : spec_float := binary_normalize 53 1024 z 0 false.
Definition float_div (x y : spec_float) : spec_float := SFdiv 53 1024 x y.
Definition float_add (x y : spec_float) : spec_float := SFadd 53 1024 x y.

(** A literal with [n] decimal places. *)
Definition float_lit (digits : Z) (places : Z) : spec_float := float_div (float64_of_Z digits) (float64_of_Z (10 ^ places)).

(** [time.Duration.Seconds]. *)
Definition Seconds (d : Z) : spec_float :=
  let sec := Z.quot d 1000000000 in
  let nsec := Z.rem d 1000000000 in
  float_add (float64_of_Z sec) (float_div (float64_of_Z nsec) (float64_of_Z 1000000000)).

(** ** Vectors *)

Abbreviation CounterVec := (gmap (list string) Z).
Abbreviation HistogramVec := (gmap (list string) (list spec_float)).

Definition counter (labels : list string) (v : CounterVec) : Z := default 0 (v !! labels).
Definition observations (labels : list string) (v : HistogramVec) : list spec_float := default [] (v !! labels).

(** [WithLabelValues(labels...).Add(n)]. *)
Definition Add (n : Z) (labels : list string) (v : CounterVec) : CounterVec := <[labels := counter labels v + n]> v.
Definition Inc : list string -> CounterVec -> CounterVec := Add 1.

(** [WithLabelValues(labels...)] makes the series; [Observe] adds to it. *)
Definition with_series (labels : list string) (v : HistogramVec) : HistogramVec := <[labels := observations labels v]> v.
Definition Observe (x : spec_float) (labels : list string) (v : HistogramVec) : HistogramVec :=
  <[labels := observations labels v ++ [x]]> v.

(** The count of a bucket with an upper bound. *)
Definition bucket (bound : spec_float) (labels : list string) (v : HistogramVec) : Z :=
  Z.of_nat (length (List.filter (fun x => SFleb x bound) (observations labels v))).

(** ** [Set] *)

Record MetricsSet := MkSet {
  HTTPRequestsTotal : CounterVec;
  HTTPRequestDuration : HistogramVec;
  HTTPRequestsInFlight : Z;
  AgentRequestsTotal : CounterVec;
  AgentRequestDuration : HistogramVec;
  TaskQueueDepth : spec_float;
  TasksRunning : spec_float;
  TasksCompletedTotal : CounterVec;
  TaskDuration : HistogramVec;
  TaskWorkerClaims : CounterVec
}.

Definition taskDurationBuckets : list spec_float :=
  [float_lit 1 1; float_lit 5 1; float64_of_Z 1; float_lit 25 1; float64_of_Z 5; float64_of_Z 10; float64_of_Z 30;
   float64_of_Z 60; float64_of_Z 120; float64_of_Z 300].

Section Methods.

(** The fields one at a time. *)
Definition set_http total duration s :=
  MkSet total duration (HTTPRequestsInFlight s) (AgentRequestsTotal s) (AgentRequestDuration s) (TaskQueueDepth s)
    (TasksRunning s) (TasksCompletedTotal s) (TaskDuration s) (TaskWorkerClaims s).
Definition set_in_flight n s :=
  MkSet (HTTPRequestsTotal s) (HTTPRequestDuration s) n (AgentRequestsTotal s) (AgentRequestDuration s) (TaskQueueDepth s)
    (TasksRunning s) (TasksCompletedTotal s) (TaskDuration s) (TaskWorkerClaims s).
Definition set_agent total duration s :=
  MkSet (HTTPRequestsTotal s) (HTTPRequestDuration s) (HTTPRequestsInFlight s) total duration (TaskQueueDepth s)
    (TasksRunning s) (TasksCompletedTotal s) (TaskDuration s) (TaskWorkerClaims s).
Definition set_gauges depth running s :=
  MkSet (HTTPRequestsTotal s) (HTTPRequestDuration s) (HTTPRequestsInFlight s) (AgentRequestsTotal s) (AgentRequestDuration s)
    depth running (TasksCompletedTotal s) (TaskDuration s) (TaskWorkerClaims s).
Definition set_completed total duration s :=
  MkSet (HTTPRequestsTotal s) (HTTPRequestDuration s) (HTTPRequestsInFlight s) (AgentRequestsTotal s) (AgentRequestDuration s)
    (TaskQueueDepth s) (TasksRunning s) total duration (TaskWorkerClaims s).
Definition set_claims claims s :=
  MkSet (HTTPRequestsTotal s) (HTTPRequestDuration s) (HTTPRequestsInFlight s) (AgentRequestsTotal s) (AgentRequestDuration s)
    (TaskQueueDepth s) (TasksRunning s) (TasksCompletedTotal s) (TaskDuration s) claims.

(** A method on a nil set does nothing: [fmap] on the receiver. *)
Implicit Type s : option MetricsSet.

Definition ObserveHTTPRequest (method route : string) (statusCode duration : Z) s : option MetricsSet :=
  (fun m => set_http (Inc [method; route; fmt_d statusCode] (HTTPRequestsTotal m))
    (Observe (Seconds duration) [method; route] (HTTPRequestDuration m)) m) <$> s.

Definition or_unknown (label : string) : string := if (label =? "")%string then "unknown" else label.

Definition ObserveAgentRequest (rpc : string) (transport : bool) (err : option goerr) (duration : Z) s : option MetricsSet :=
  let rpc := or_unknown rpc in
  let outcome := match err with Some _ => "error" | None => "success" end in
  let transportLabel := if transport then "true" else "false" in
  (fun m => set_agent (Inc [rpc; outcome; transportLabel] (AgentRequestsTotal m))
    (Observe (Seconds duration) [rpc; outcome; transportLabel] (AgentRequestDuration m)) m) <$> s.

Definition SetTaskQueueDepth (depth : Z) s : option MetricsSet :=
  (fun m => set_gauges (float64_of_Z depth) (TasksRunning m) m) <$> s.

Definition SetTasksRunning (count : Z) s : option MetricsSet :=
  (fun m => set_gauges (TaskQueueDepth m) (float64_of_Z count) m) <$> s.

Definition ObserveTaskCompleted (taskType status : string) (duration : Z) s : option MetricsSet :=
  let labels := [or_unknown taskType; or_unknown status] in
  (fun m => set_completed (Inc labels (TasksCompletedTotal m)) (Observe (Seconds duration) labels (TaskDuration m)) m) <$> s.

Definition ObserveTaskWorkerClaim (outcome : string) s : option MetricsSet :=
  (fun m => set_claims (Inc [or_unknown outcome] (TaskWorkerClaims m)) m) <$> s.

End Methods.

Definition initTaskMetricSeries (s : MetricsSet) : MetricsSet :=
  let pairs := taskType ← ["docker_restart"; "service_restart"]; status ← ["success"; "failed"; "canceled"]; mret [taskType; status] in
  set_claims (foldl (fun v outcome => Add 0 [outcome] v) (TaskWorkerClaims s) ["success"; "empty"; "error"])
    (set_completed (foldl (fun v labels => Add 0 labels v) (TasksCompletedTotal s) pairs)
      (foldl (fun v labels => with_series labels v) (TaskDuration s) pairs) s).

Definition New : MetricsSet :=
  initTaskMetricSeries (MkSet ∅ ∅ 0 ∅ ∅ (float64_of_Z 0) (float64_of_Z 0) ∅ ∅ ∅).

(** ** What a method changes *)

(** The sum of the counters of a vector. *)
Definition total (v : CounterVec) : Z := map_fold (fun _ n acc => n + acc) 0 v.

Lemma total_fresh labels n v : v !! labels = None -> total (<[labels := n]> v) = n + total v.
Proof. intros E. unfold total. apply (map_fold_insert_L (fun _ n acc => n + acc)); [intros; lia|done]. Qed.

Lemma total_insert labels n v : total (<[labels := n]> v) = total v - counter labels v + n.
Proof.
  unfold counter. destruct (v !! labels) as [m|] eqn:E; cbn [default]; [|rewrite total_fresh by done; lia].
  assert (Hv : total v = m + total (delete labels v)).
  { rewrite <- (insert_delete_id v labels m E) at 1. apply total_fresh, lookup_delete_eq. }
  rewrite <- insert_delete_eq, total_fresh by apply lookup_delete_eq. simpl. lia.
Qed.

Lemma total_Inc labels v : total (Inc labels v) = total v + 1.
Proof. unfold Inc, Add. rewrite total_insert. lia. Qed.

Lemma counter_Inc labels labels' v : counter labels' (Inc labels v) = counter labels' v + (if decide (labels = labels') then 1 else 0).
Proof.
  unfold Inc, Add, counter at 1. destruct (decide _) as [<-|Hne]; [by rewrite lookup_insert_eq|].
  rewrite lookup_insert_ne by done. unfold counter. lia.
Qed.

Lemma observations_Observe x labels labels' v :
  observations labels' (Observe x labels v) = observations labels' v ++ (if decide (labels = labels') then [x] else []).
Proof.
  unfold Observe, observations at 1. destruct (decide _) as [<-|Hne]; [by rewrite lookup_insert_eq|].
  rewrite lookup_insert_ne by done. by rewrite app_nil_r.
Qed.

Example New_series : map_to_list (TaskWorkerClaims New) ≡ₚ [(["success"], 0); (["empty"], 0); (["error"], 0)] /\
  size (TasksCompletedTotal New) = 6%nat /\ total (TasksCompletedTotal New) = 0.
Proof. split; [|by vm_compute]. apply (bool_decide_unpack _). by vm_compute. Qed.

(** A tenth of a second is in the first bucket, a nanosecond more is not. *)
Example first_bucket :
  let v := Observe (Seconds 100000001) ["t"] (Observe (Seconds 100000000) ["t"] ∅) in
  map (fun bound => bucket bound ["t"] v) taskDurationBuckets = [1; 2; 2; 2; 2; 2; 2; 2; 2; 2].
Proof. by vm_compute. Qed.
