(* ===== verification/GoFloat.v ===== *)
(** * Floating point numbers as text

    [strconv.FormatFloat] of a [float64] with the fewest digits that read back,
    in the formats ['f'] and ['e'], and the number [encoding/json] writes.  The
    reading is the decimal number rounded once, to the nearest even. *)

From Stdlib Require Import ZArith Lia SpecFloat Ascii.
From S2P Require Import Prelude GoString Metrics.

(** [strconv.ParseFloat] of [d * 10 ^ e]: the quotient of two integers is rounded
    once, whatever their size. *)
Definition decimal_float (d e : Z) : spec_float :=
  if 0 <=? e then float64_of_Z (d * 10 ^ e)
  else match d, 10 ^ (- e) with
       | Z.pos n, Z.pos p => SFdiv 53 1024 (S754_finite false n 0) (S754_finite false p 0)
       | _, _ => S754_zero false
       end.

(** [m * 2 ^ e] as a fraction. *)
Definition fraction (m : positive) (e : Z) : Z * Z := if 0 <=? e then (Z.pos m * 2 ^ e, 1) else (Z.pos m, 2 ^ (- e)).

(** Is [num / den] below [10 ^ k]? *)
Definition below_ten (num den k : Z) : bool := if 0 <=? k then num <? den * 10 ^ k else num * 10 ^ (- k) <? den.

(** The [k] with [10 ^ (k - 1) <= num / den < 10 ^ k], from the binary logarithm. *)
Definition decimal_point (num den : Z) : Z :=
  let g := (Z.log2 num - Z.log2 den) * 30103 / 100000 in
  if below_ten num den g then g else if below_ten num den (g + 1) then g + 1 else g + 2.

(** The decimal of [n] digits that reads back as [x]: the nearer one of the two
    around it, when both do. *)
Definition with_digits (x : spec_float) (num den dp n : Z) : option (Z * Z) :=
  let e := dp - n in
  let scaled := if 0 <=? e then num else num * 10 ^ (- e) in
  let unit := if 0 <=? e then den * 10 ^ e else den in
  let d := scaled / unit in
  let r := scaled mod unit in
  let reads d := SFeqb (decimal_float d e) x in
  match reads d, reads (d + 1) with
  | true, true => Some (if (2 * r <? unit) || ((2 * r =? unit) && Z.even d) then d else d + 1, e)
  | true, false => Some (d, e)
  | false, true => Some (d + 1, e)
  | false, false => None
  end.

(** The fewest digits; seventeen always read back. *)
Fixpoint shortest_from (fuel : nat) (x : spec_float) (num den dp n : Z) : option (Z * Z) :=
  match fuel with
  | O => None
  | S fuel =>
    match with_digits x num den dp n with
    | Some de => Some de
    | None => shortest_from fuel x num den dp (n + 1)
    end
  end.

(** All digits of the number. *)
Definition exact (m : positive) (e : Z) : Z * Z := if 0 <=? e then (Z.pos m * 2 ^ e, 0) else (Z.pos m * 5 ^ (- e), e).

Definition shortest (m : positive) (e : Z) : Z * Z :=
  let '(num, den) := fraction m e in
  default (exact m e) (shortest_from 17 (S754_finite false m e) num den (decimal_point num den) 1).

(** The digits without the zeros at their end, and the place of the point. *)
Fixpoint drop_zeros (digits : list ascii) : list ascii :=
  match digits with "0"%char :: digits => drop_zeros digits | _ => digits end.

Definition decimal_digits (d e : Z) : list ascii * Z :=
  let digits := String.list_ascii_of_string (fmt_d d) in
  (rev (drop_zeros (rev digits)), Z.of_nat (length digits) + e).

Definition text (l : list ascii) : string := String.string_of_list_ascii l.
Definition zeros (n : Z) : list ascii := repeat "0"%char (Z.to_nat n).

(** [%f] of digits with the point after the first [dp] of them. *)
Definition fmtF (digits : list ascii) (dp : Z) : string :=
  let whole := if 0 <? dp then firstn (Z.to_nat dp) digits ++ zeros (dp - Z.of_nat (length digits)) else ["0"%char] in
  let fraction := if 0 <? dp then skipn (Z.to_nat dp) digits else zeros (- dp) ++ digits in
  text (whole ++ match fraction with [] => [] | _ => "."%char :: fraction end).

(** [%e]: two digits of exponent at least, of which [encoding/json] cleans up
    [e-09] to [e-9]. *)
Definition fmtE (digits : list ascii) (dp : Z) : string :=
  let e := dp - 1 in
  let mantissa := match digits with d :: rest => d :: match rest with [] => [] | _ => "."%char :: rest end | [] => [] end in
  (text mantissa +:+ (if (e <? 0)%Z then "e-" else if (e <? 10)%Z then "e+0" else "e+") +:+ fmt_d (Z.abs e))%string.

(** [floatEncoder]; infinities and not-a-number have no JSON. *)
Definition json_float (x : spec_float) : option string :=
  let sign s := if s : bool then "-" else "" in
  match x with
  | S754_zero s => Some (sign s +:+ "0")%string
  | S754_finite s m e =>
    let '(d, e10) := shortest m e in
    let '(digits, dp) := decimal_digits d e10 in
    let abs := S754_finite false m e in
    let scientific := SFltb abs (decimal_float 1 (-6)) || SFleb (decimal_float 1 21) abs in
    Some (sign s +:+ (if scientific then fmtE digits dp else fmtF digits dp))%string
  | S754_infinity _ | S754_nan => None
  end.

(** What is chosen reads back. *)
Lemma with_digits_reads x num den dp n d e : with_digits x num den dp n = Some (d, e) -> SFeqb (decimal_float d e) x = true.
Proof.
  unfold with_digits. cbv zeta. destruct (SFeqb (decimal_float _ _) x) eqn:E1, (SFeqb (decimal_float (_ + 1) _) x) eqn:E2; [|by intros [= <- <-]..|done].
  destruct (_ || _); by intros [= <- <-].
Qed.

Lemma shortest_from_reads fuel x num den dp n d e : shortest_from fuel x num den dp n = Some (d, e) -> SFeqb (decimal_float d e) x = true.
Proof.
  revert n. induction fuel as [|fuel IH]; intros n; cbn [shortest_from]; [done|].
  destruct (with_digits _ _ _ _ _) as [[d' e']|] eqn:E; [|apply IH]. intros [= <- <-]. by eapply with_digits_reads.
Qed.

(** The numbers that have no JSON. *)
Lemma json_float_None x : json_float x = None <-> match x with S754_infinity _ | S754_nan => True | _ => False end.
Proof. destruct x as [|[]| |s m e]; cbn [json_float]; [done..|]. destruct (shortest m e), (decimal_digits _ _). done. Qed.

(** ** Examples *)

Definition json_lit (digits places : Z) : option string := json_float (float_lit digits places).

Example json_float_percent : (json_lit 375 1, json_lit 1 1, json_lit 100 0, json_lit 333 3, json_float (float_div (float64_of_Z 1) (float64_of_Z 3)))
  = (Some "37.5", Some "0.1", Some "100", Some "0.333", Some "0.3333333333333333").
Proof. vm_compute. reflexivity. Qed.

Example json_float_range : (json_float (decimal_float 1 21), json_float (decimal_float 1 20), json_float (decimal_float 125 (-9)),
    json_float (decimal_float 1 (-6)), json_float (decimal_float 3 (-12)))
  = (Some "1e+21", Some "100000000000000000000", Some "1.25e-7", Some "0.000001", Some "3e-12").
Proof. vm_compute. reflexivity. Qed.

(** The greatest and the smallest number, the smallest normal one, a power of
    two whose neighbours lie at different distances, and signs. *)
Example json_float_ends : (json_float (S754_finite false 9007199254740991 971), json_float (S754_finite false 1 (-1074)),
    json_float (S754_finite false 4503599627370496 (-1074)), json_float (S754_finite false 4503599627370496 (-52 + 60)),
    json_float (S754_zero true), json_float (SFopp (float_lit 25 1)), json_float S754_nan)
  = (Some "1.7976931348623157e+308", Some "5e-324", Some "2.2250738585072014e-308", Some "1152921504606847000",
     Some "-0", Some "-2.5", None).
Proof. vm_compute. reflexivity. Qed.
