(* ===== verification/Dto.v ===== *)
(** * Requests and results

    The structs of [internal/dto] that the modelled services take and return.
    Times are already formatted in these structs, so their fields are strings. *)

From Stdlib Require Import ZArith SpecFloat.
From S2P Require Import Prelude.

Module dto.

Record UserProfile := {
  up_ID : Z;
  up_Username : string;
  up_Email : string;
  up_Status : Z;
  up_Roles : list string;
  up_Permissions : list string;
  up_MustChangePassword : bool
}.

Record LoginRequest := {
  lr_Username : string;
  lr_Password : string
}.

Record ChangePasswordRequest := {
  cp_CurrentPassword : string;
  cp_NewPassword : string
}.

Record LoginResponse := {
  lres_AccessToken : string;
  lres_RefreshToken : string;
  lres_TokenType : string;
  lres_ExpiresIn : Z;
  lres_RefreshExpiresIn : Z;
  lres_User : UserProfile
}.

Record CreateBackupMetadataRequest := {
  bm_ResourceType : string;
  bm_ResourceID : string;
  bm_StorageType : string;
  bm_FilePath : string
}.

Record CreateBackupTaskRequest := {
  bt_ResourceType : string;
  bt_ResourceID : string;
  bt_StorageType : string;
  bt_FilePath : string;
  bt_IdempotencyKey : string
}.

Record VerifyBackupRequest := {
  vb_SizeBytes : Z;
  vb_Checksum : string;
  vb_FilePath : string
}.

Record CreateBackupVerifyTaskRequest := {
  vt_SizeBytes : Z;
  vt_Checksum : string;
  vt_FilePath : string;
  vt_IdempotencyKey : string
}.

Record BackupRetentionCleanupRequest := {
  brq_DryRun : bool;
  brq_RetentionDays : Z;
  brq_ArchiveBeforeDelete : bool
}.

Record BackupRetentionCleanupResult := {
  br_DryRun : bool;
  br_RetentionDays : Z;
  br_Cutoff : string;
  br_MatchedRows : Z;
  br_DeletedRows : Z;
  br_ArchiveBeforeDelete : bool;
  br_ArchivePath : string
}.

Record ListBackupsQuery := {
  lbq_Page : Z;
  lbq_Size : Z;
  lbq_Status : string;
  lbq_ResourceType : string;
  lbq_ResourceID : string
}.

Record BackupSummary := {
  bs_ID : Z;
  bs_ResourceType : string;
  bs_ResourceID : string;
  bs_StorageType : string;
  bs_FilePath : string;
  bs_SizeBytes : Z;
  bs_Checksum : string;
  bs_Status : string;
  bs_CreatedBy : option Z;
  bs_CreatedAt : string;
  bs_UpdatedAt : string
}.

Record ListBackupsResult := {
  lb_Page : Z;
  lb_Size : Z;
  lb_Total : Z;
  lb_Items : list BackupSummary
}.

Record CreateDockerRestartTaskRequest := {
  drt_ContainerID : string;
  drt_IdempotencyKey : string
}.

Record CreateServiceRestartTaskRequest := {
  srt_ServiceName : string;
  srt_IdempotencyKey : string
}.

Record CreateTaskResult := {
  ctr_ID : Z;
  ctr_Type : string;
  ctr_Status : string
}.

Record CreateBackupTaskResult := {
  btr_Backup : BackupSummary;
  btr_Task : CreateTaskResult
}.

Record ListTasksQuery := {
  ltq_Page : Z;
  ltq_Size : Z;
  ltq_Status : string;
  ltq_Type : string
}.

Record TaskLog := {
  tlog_ID : Z;
  tlog_Level : string;
  tlog_Message : string;
  tlog_Metadata : string;
  tlog_CreatedAt : string
}.

Record TaskSummary := {
  ts_ID : Z;
  ts_Type : string;
  ts_Status : string;
  ts_Progress : Z;
  ts_Error : string;
  ts_TriggeredBy : option Z;
  ts_CreatedAt : string;
  ts_UpdatedAt : string
}.

Record ListTasksResult := {
  ltr_Page : Z;
  ltr_Size : Z;
  ltr_Total : Z;
  ltr_Items : list TaskSummary
}.

Record TaskDetail := {
  td_Summary : TaskSummary;
  td_Logs : list TaskLog
}.

Record CronTask := {
  cron_ID : string;
  cron_Expression : string;
  cron_Command : string;
  cron_Enabled : bool
}.

Record DockerContainerInfo := {
  dci_ID : string;
  dci_Name : string;
  dci_Image : string;
  dci_State : string;
  dci_Status : string
}.

Record DockerContainerActionResult := {
  dca_ID : string;
  dca_State : string
}.

Record DockerImageInfo := {
  dii_ID : string;
  dii_RepoTags : list string;
  dii_Size : Z
}.

Record ServiceInfo := {
  svi_Name : string;
  svi_DisplayName : string;
  svi_Status : string
}.

Record ServiceActionResult := {
  sva_Name : string;
  sva_Status : string
}.

Record FileEntry := {
  fent_Name : string;
  fent_Path : string;
  fent_IsDir : bool;
  fent_Size : Z;
  fent_ModifiedAt : Z
}.

Record ListFilesResult := {
  lfr_CurrentPath : string;
  lfr_Entries : list FileEntry
}.

Record ReadTextFileRequest := {
  rtfq_Path : string;
  rtfq_MaxBytes : Z;
  rtfq_Encoding : string
}.

Record ReadTextFileResult := {
  rtf_Path : string;
  rtf_Content : string;
  rtf_Size : Z;
  rtf_Truncated : bool;
  rtf_Encoding : string
}.

Record WriteTextFileRequest := {
  wtfq_Path : string;
  wtfq_Content : string;
  wtfq_CreateIfNotExists : bool;
  wtfq_Truncate : bool;
  wtfq_Encoding : string
}.

Record WriteTextFileResult := {
  wtf_Path : string;
  wtf_WrittenBytes : Z
}.

Record CreateDirectoryRequest := {
  mkq_Path : string;
  mkq_CreateParents : bool
}.

Record DeleteFileRequest := {
  delq_Path : string;
  delq_Recursive : bool
}.

Record RenameFileRequest := {
  renq_SourcePath : string;
  renq_TargetPath : string
}.

Record RenameFileResult := {
  ren_SourcePath : string;
  ren_TargetPath : string;
  ren_WrittenBytes : Z
}.

Record DownloadFileQuery := {
  dlq_Path : string;
  dlq_Offset : Z;
  dlq_Limit : Z
}.

Record DownloadFileResult := {
  dl_Path : string;
  dl_StartOffset : Z;
  dl_EndOffset : Z;
  dl_TotalSize : Z;
  dl_DownloadedBytes : Z
}.

Record UploadFileRequest := {
  uplq_Path : string;
  uplq_Offset : Z
}.

Record UploadFileResult := {
  upl_Path : string;
  upl_UploadedBytes : Z;
  upl_TotalSize : Z
}.

(** ** Audit *)

Record ListAuditLogsQuery := {
  alq_Page : Z;
  alq_Size : Z;
  alq_StartTime : string;
  alq_EndTime : string;
  alq_UserID : Z;
  alq_Username : string;
  alq_Module : string;
  alq_Action : string;
  alq_TargetType : string;
  alq_TargetID : string;
  alq_Success : option bool;
  alq_ResultCode : string;
  alq_RequestID : string;
  alq_TraceID : string
}.

Record AuditLog := {
  dal_ID : Z;
  dal_UserID : option Z;
  dal_Username : string;
  dal_IP : string;
  dal_Module : string;
  dal_Action : string;
  dal_TargetType : string;
  dal_TargetID : string;
  dal_RequestSummary : string;
  dal_Success : bool;
  dal_ResultCode : string;
  dal_ResultMessage : string;
  dal_RequestID : string;
  dal_TraceID : string;
  dal_CreatedAt : string
}.

Record ListAuditLogsResult := {
  alr_Page : Z;
  alr_Size : Z;
  alr_Total : Z;
  alr_Items : list AuditLog
}.

Record RecordAuditInput := {
  ra_UserID : option Z;
  ra_Username : string;
  ra_IP : string;
  ra_Module : string;
  ra_Action : string;
  ra_TargetType : string;
  ra_TargetID : string;
  ra_RequestSummary : string;
  ra_Success : bool;
  ra_ResultCode : string;
  ra_ResultMessage : string;
  ra_RequestID : string;
  ra_TraceID : string
}.

Record AuditRetentionCleanupRequest := {
  arq_DryRun : bool;
  arq_RetentionDays : Z;
  arq_ArchiveBeforeDelete : bool
}.

Record AuditRetentionCleanupResult := {
  arr_DryRun : bool;
  arr_RetentionDays : Z;
  arr_Cutoff : string;
  arr_MatchedRows : Z;
  arr_DeletedRows : Z;
  arr_ArchiveBeforeDelete : bool
}.

Record DashboardSummary := {
  ds_Hostname : string;
  ds_SystemVersion : string;
  ds_KernelVersion : string;
  ds_CPUUsage : spec_float;
  ds_MemoryUsage : spec_float;
  ds_DiskUsage : spec_float;
  ds_Uptime : string
}.

Record UpsertSystemSettingInput := {
  us_Key : string;
  us_Value : string;
  us_ValueType : string;
  us_IsEncrypted : bool;
  us_Description : string;
  us_UpdatedBy : option Z
}.

Record SystemSetting := {
  st_ID : Z;
  st_Key : string;
  st_Value : string;
  st_ValueType : string;
  st_IsEncrypted : bool;
  st_Description : string;
  st_UpdatedBy : option Z;
  st_CreatedAt : string;
  st_UpdatedAt : string
}.

End dto.
