(* ===== verification/DtoJson.v ===== *)
(** * The results as JSON

    What [response.OK] writes for the structs of [internal/dto]: the members in
    the order of the fields, named by their tags.  An empty slice that comes
    from protobuf is nil and prints as null. *)

From Stdlib Require Import ZArith.
From S2P Require Import Prelude GoString Json Metrics GoFloat Dto.

Definition JOption (o : option Z) : json := match o with Some z => JInt z | None => JNull end.
Definition JStrings (l : list string) : json := JArr (map JStr l).
Definition JNilStrings (l : list string) : json := match l with [] => JNull | _ => JStrings l end.

(** [omitempty] of a string. *)
Definition omitempty (name value : string) : list (string * json) :=
  if (value =? "")%string then [] else [(name, JStr value)].

Definition UserProfile_json (x : dto.UserProfile) : json :=
  JObj [("id", JInt (dto.up_ID x)); ("username", JStr (dto.up_Username x)); ("email", JStr (dto.up_Email x));
        ("status", JInt (dto.up_Status x)); ("roles", JStrings (dto.up_Roles x));
        ("permissions", JStrings (dto.up_Permissions x)); ("must_change_password", JBool (dto.up_MustChangePassword x))].

Definition LoginResponse_json (x : dto.LoginResponse) : json :=
  JObj [("access_token", JStr (dto.lres_AccessToken x)); ("refresh_token", JStr (dto.lres_RefreshToken x));
        ("token_type", JStr (dto.lres_TokenType x)); ("expires_in", JInt (dto.lres_ExpiresIn x));
        ("refresh_expires_in", JInt (dto.lres_RefreshExpiresIn x)); ("user", UserProfile_json (dto.lres_User x))].

Definition BackupSummary_json (x : dto.BackupSummary) : json :=
  JObj [("id", JInt (dto.bs_ID x)); ("resource_type", JStr (dto.bs_ResourceType x)); ("resource_id", JStr (dto.bs_ResourceID x));
        ("storage_type", JStr (dto.bs_StorageType x)); ("file_path", JStr (dto.bs_FilePath x));
        ("size_bytes", JInt (dto.bs_SizeBytes x)); ("checksum", JStr (dto.bs_Checksum x)); ("status", JStr (dto.bs_Status x));
        ("created_by", JOption (dto.bs_CreatedBy x)); ("created_at", JStr (dto.bs_CreatedAt x));
        ("updated_at", JStr (dto.bs_UpdatedAt x))].

Definition ListBackupsResult_json (x : dto.ListBackupsResult) : json :=
  JObj [("page", JInt (dto.lb_Page x)); ("size", JInt (dto.lb_Size x)); ("total", JInt (dto.lb_Total x));
        ("items", JArr (map BackupSummary_json (dto.lb_Items x)))].

(** Refused when a measurement has no JSON. *)
Definition DashboardSummary_json (x : dto.DashboardSummary) : option json :=
  cpu ← json_float (dto.ds_CPUUsage x); memory ← json_float (dto.ds_MemoryUsage x); disk ← json_float (dto.ds_DiskUsage x);
  Some (JObj [("hostname", JStr (dto.ds_Hostname x)); ("system_version", JStr (dto.ds_SystemVersion x));
              ("kernel_version", JStr (dto.ds_KernelVersion x)); ("cpu_usage", JNum cpu); ("memory_usage", JNum memory);
              ("disk_usage", JNum disk); ("uptime", JStr (dto.ds_Uptime x))]).

Definition CreateTaskResult_json (x : dto.CreateTaskResult) : json :=
  JObj [("id", JInt (dto.ctr_ID x)); ("type", JStr (dto.ctr_Type x)); ("status", JStr (dto.ctr_Status x))].

Definition CreateBackupTaskResult_json (x : dto.CreateBackupTaskResult) : json :=
  JObj [("backup", BackupSummary_json (dto.btr_Backup x)); ("task", CreateTaskResult_json (dto.btr_Task x))].

Definition CreateBackupVerifyTaskResult_json (task : dto.CreateTaskResult) : json :=
  JObj [("task", CreateTaskResult_json task)].

Definition BackupRetentionCleanupResult_json (x : dto.BackupRetentionCleanupResult) : json :=
  JObj ([("dry_run", JBool (dto.br_DryRun x)); ("retention_days", JInt (dto.br_RetentionDays x));
         ("cutoff", JStr (dto.br_Cutoff x)); ("matched_rows", JInt (dto.br_MatchedRows x));
         ("deleted_rows", JInt (dto.br_DeletedRows x)); ("archive_before_delete", JBool (dto.br_ArchiveBeforeDelete x))]
        ++ omitempty "archive_path" (dto.br_ArchivePath x)).

Definition TaskSummary_json (x : dto.TaskSummary) : json :=
  JObj [("id", JInt (dto.ts_ID x)); ("type", JStr (dto.ts_Type x)); ("status", JStr (dto.ts_Status x));
        ("progress", JInt (dto.ts_Progress x)); ("error_message", JStr (dto.ts_Error x));
        ("triggered_by", JOption (dto.ts_TriggeredBy x)); ("created_at", JStr (dto.ts_CreatedAt x));
        ("updated_at", JStr (dto.ts_UpdatedAt x))].

Definition TaskLog_json (x : dto.TaskLog) : json :=
  JObj [("id", JInt (dto.tlog_ID x)); ("level", JStr (dto.tlog_Level x)); ("message", JStr (dto.tlog_Message x));
        ("metadata", JStr (dto.tlog_Metadata x)); ("created_at", JStr (dto.tlog_CreatedAt x))].

Definition ListTasksResult_json (x : dto.ListTasksResult) : json :=
  JObj [("page", JInt (dto.ltr_Page x)); ("size", JInt (dto.ltr_Size x)); ("total", JInt (dto.ltr_Total x));
        ("items", JArr (map TaskSummary_json (dto.ltr_Items x)))].

Definition TaskDetail_json (x : dto.TaskDetail) : json :=
  JObj [("summary", TaskSummary_json (dto.td_Summary x)); ("logs", JArr (map TaskLog_json (dto.td_Logs x)))].

Definition CronTask_json (x : dto.CronTask) : json :=
  JObj [("id", JStr (dto.cron_ID x)); ("expression", JStr (dto.cron_Expression x)); ("command", JStr (dto.cron_Command x));
        ("enabled", JBool (dto.cron_Enabled x))].

(** The results with one field. *)
Definition ListCronTasksResult_json (l : list dto.CronTask) : json := JObj [("tasks", JArr (map CronTask_json l))].
Definition CreateCronTaskResult_json (task : dto.CronTask) : json := JObj [("task", CronTask_json task)].
Definition UpdateCronTaskResult_json (task : dto.CronTask) : json := JObj [("task", CronTask_json task)].
Definition ToggleCronTaskResult_json (task : dto.CronTask) : json := JObj [("task", CronTask_json task)].
Definition DeleteCronTaskResult_json (id : string) : json := JObj [("id", JStr id)].

Definition DockerContainerInfo_json (x : dto.DockerContainerInfo) : json :=
  JObj [("id", JStr (dto.dci_ID x)); ("name", JStr (dto.dci_Name x)); ("image", JStr (dto.dci_Image x));
        ("state", JStr (dto.dci_State x)); ("status", JStr (dto.dci_Status x))].

Definition ListDockerContainersResult_json (l : list dto.DockerContainerInfo) : json :=
  JObj [("containers", JArr (map DockerContainerInfo_json l))].

Definition DockerContainerActionResult_json (x : dto.DockerContainerActionResult) : json :=
  JObj [("id", JStr (dto.dca_ID x)); ("state", JStr (dto.dca_State x))].

Definition DockerImageInfo_json (x : dto.DockerImageInfo) : json :=
  JObj [("id", JStr (dto.dii_ID x)); ("repo_tags", JNilStrings (dto.dii_RepoTags x)); ("size", JInt (dto.dii_Size x))].

Definition ListDockerImagesResult_json (l : list dto.DockerImageInfo) : json :=
  JObj [("images", JArr (map DockerImageInfo_json l))].

Definition FileEntry_json (x : dto.FileEntry) : json :=
  JObj [("name", JStr (dto.fent_Name x)); ("path", JStr (dto.fent_Path x)); ("is_dir", JBool (dto.fent_IsDir x));
        ("size", JInt (dto.fent_Size x)); ("modified_at_unix", JInt (dto.fent_ModifiedAt x))].

Definition ListFilesResult_json (x : dto.ListFilesResult) : json :=
  JObj [("current_path", JStr (dto.lfr_CurrentPath x)); ("entries", JArr (map FileEntry_json (dto.lfr_Entries x)))].

Definition ReadTextFileResult_json (x : dto.ReadTextFileResult) : json :=
  JObj [("path", JStr (dto.rtf_Path x)); ("content", JStr (dto.rtf_Content x)); ("size", JInt (dto.rtf_Size x));
        ("truncated", JBool (dto.rtf_Truncated x)); ("encoding", JStr (dto.rtf_Encoding x))].

Definition WriteTextFileResult_json (x : dto.WriteTextFileResult) : json :=
  JObj [("path", JStr (dto.wtf_Path x)); ("written_bytes", JInt (dto.wtf_WrittenBytes x))].

Definition CreateDirectoryResult_json (path : string) : json := JObj [("path", JStr path)].
Definition DeleteFileResult_json (path : string) : json := JObj [("path", JStr path)].

Definition RenameFileResult_json (x : dto.RenameFileResult) : json :=
  JObj [("source_path", JStr (dto.ren_SourcePath x)); ("target_path", JStr (dto.ren_TargetPath x));
        ("written_bytes", JInt (dto.ren_WrittenBytes x))].

Definition UploadFileResult_json (x : dto.UploadFileResult) : json :=
  JObj [("path", JStr (dto.upl_Path x)); ("uploaded_bytes", JInt (dto.upl_UploadedBytes x));
        ("total_size", JInt (dto.upl_TotalSize x))].

Definition ServiceInfo_json (x : dto.ServiceInfo) : json :=
  JObj [("name", JStr (dto.svi_Name x)); ("display_name", JStr (dto.svi_DisplayName x)); ("status", JStr (dto.svi_Status x))].

Definition ListServicesResult_json (l : list dto.ServiceInfo) : json := JObj [("services", JArr (map ServiceInfo_json l))].

Definition ServiceActionResult_json (x : dto.ServiceActionResult) : json :=
  JObj [("name", JStr (dto.sva_Name x)); ("status", JStr (dto.sva_Status x))].

Definition AuditLog_json (item : dto.AuditLog) : json :=
  JObj [("id", JInt (dto.dal_ID item)); ("user_id", JOption (dto.dal_UserID item));
        ("username", JStr (dto.dal_Username item)); ("ip", JStr (dto.dal_IP item)); ("module", JStr (dto.dal_Module item));
        ("action", JStr (dto.dal_Action item)); ("target_type", JStr (dto.dal_TargetType item));
        ("target_id", JStr (dto.dal_TargetID item)); ("request_summary", JStr (dto.dal_RequestSummary item));
        ("success", JBool (dto.dal_Success item)); ("result_code", JStr (dto.dal_ResultCode item));
        ("result_message", JStr (dto.dal_ResultMessage item)); ("request_id", JStr (dto.dal_RequestID item));
        ("trace_id", JStr (dto.dal_TraceID item)); ("created_at", JStr (dto.dal_CreatedAt item))].

Definition ListAuditLogsResult_json (x : dto.ListAuditLogsResult) : json :=
  JObj [("page", JInt (dto.alr_Page x)); ("size", JInt (dto.alr_Size x)); ("total", JInt (dto.alr_Total x));
        ("items", JArr (map AuditLog_json (dto.alr_Items x)))].

Definition AuditRetentionCleanupResult_json (x : dto.AuditRetentionCleanupResult) : json :=
  JObj [("dry_run", JBool (dto.arr_DryRun x)); ("retention_days", JInt (dto.arr_RetentionDays x));
        ("cutoff", JStr (dto.arr_Cutoff x)); ("matched_rows", JInt (dto.arr_MatchedRows x));
        ("deleted_rows", JInt (dto.arr_DeletedRows x)); ("archive_before_delete", JBool (dto.arr_ArchiveBeforeDelete x))].
