(* ===== verification/TaskRepo.v ===== *)
(** * The task table

    [internal/repository/task_repository.go] over the tables [tasks] and
    [task_logs] of the migrations: every statement is one atomic operation on
    the rows.  The CHECK constraints on [status] and [progress], the primary
    key and the unique partial index on [idempotency_key] are enforced. *)

From Stdlib Require Import ZArith Lia.
From S2P Require Import Prelude GoString GoError Table Schema.

Record TaskListFilter := {
  tf_Page : Z;
  tf_Size : Z;
  tf_Status : string;
  tf_Type : string
}.

(** The two tables with their [BIGSERIAL] sequences. *)
Record TaskDB := {
  db_tasks : list Task;
  db_next_task : Z;
  db_logs : list TaskLog;
  db_next_log : Z
}.

Definition empty_TaskDB : TaskDB :=
  {| db_tasks := []; db_next_task := 1; db_logs := []; db_next_log := 1 |}.

Definition with_tasks (l : list Task) (db : TaskDB) : TaskDB :=
  {| db_tasks := l; db_next_task := db_next_task db; db_logs := db_logs db; db_next_log := db_next_log db |}.

Definition task_statuses : list string := ["pending"; "running"; "success"; "failed"; "canceled"].

(** The CHECK constraints of the table. *)
Definition status_ok (s : string) : bool := bool_decide (s ∈ task_statuses).
Definition progress_ok (p : Z) : bool := (0 <=? p) && (p <=? 100).

Definition ErrDuplicatedKey : goerr := ErrNew "duplicate key value violates unique constraint".
Definition ErrCheckConstraint : goerr := ErrNew "new row violates check constraint".

Definition has_id (id : Z) (t : Task) : bool := t_ID t =? id.
Definition has_key (k : string) (t : Task) : bool :=
  match t_IdempotencyKey t with Some k' => (k' =? k)%string | None => false end.

(** A row that collides with [t] on the primary key or the unique index. *)
Definition collides (t r : Task) : bool :=
  has_id (t_ID t) r || match t_IdempotencyKey t with Some k => has_key k r | None => false end.

Module repository.

Definition Create (now : Z) (task : Task) (db : TaskDB) : res Task * TaskDB :=
  let next := if t_ID task =? 0 then db_next_task db + 1 else db_next_task db in
  let task := if t_MaxAttempts task <=? 0 then assign_task [tcol_MaxAttempts 1] task else task in
  let task := assign_task
    ([tcol_ID (if t_ID task =? 0 then db_next_task db else t_ID task)] ++
     (if t_CreatedAt task =? zero_time then [tcol_CreatedAt now] else []) ++
     (if t_UpdatedAt task =? zero_time then [tcol_UpdatedAt now] else [])) task in
  let db := {| db_tasks := db_tasks db; db_next_task := next; db_logs := db_logs db;
               db_next_log := db_next_log db |} in
  if existsb (collides task) (db_tasks db) then (Err ErrDuplicatedKey, db)
  else if negb (status_ok (t_Status task) && progress_ok (t_Progress task))
  then (Err ErrCheckConstraint, db)
  else (Ok task, with_tasks (db_tasks db ++ [task]) db).

(** The WHERE clause of the claim. *)
Definition claimable (now : Z) (t : Task) : bool :=
  (t_Status t =? "pending")%string
  && match t_NextRunAt t with None => true | Some at_ => at_ <=? now end
  && (t_Attempt t <? t_MaxAttempts t).

(** The SET clause of the claim. *)
Definition claimed (now : Z) (workerID : string) (leaseDuration : Z) (t : Task) : Task :=
  assign_task [tcol_Status "running"; tcol_LockedBy (Some workerID);
               tcol_LockedUntil (Some (now + leaseDuration));
               tcol_Attempt (t_Attempt t + 1);
               tcol_StartedAt (match t_StartedAt t with Some s => Some s | None => Some now end);
               tcol_UpdatedAt now] t.

Definition ClaimNextTask (now : Z) (workerID : string) (leaseDuration : Z) (db : TaskDB)
  : res (option Task) * TaskDB :=
  match order_by t_CreatedAt (select_where (claimable now) (db_tasks db)) with
  | [] => (Ok None, db)
  | t :: _ =>
    let row := claimed now workerID leaseDuration t in
    let db' := with_tasks (update_where (has_id (t_ID t)) (claimed now workerID leaseDuration) (db_tasks db)) db in
    if t_ID row =? 0 then (Ok None, db') else (Ok (Some row), db')
  end.

(** [Model(&model.Task{}).Where(p).Updates(cs)]; GORM also sets [updated_at]. *)
Definition Updates (now : Z) (p : Task -> bool) (cs : list tcol) (db : TaskDB) : Z * TaskDB :=
  (count_where p (db_tasks db),
   with_tasks (update_where p (assign_task (cs ++ [tcol_UpdatedAt now])) (db_tasks db)) db).

(** [id = ? AND locked_by = ? AND status = 'running']. *)
Definition owned (taskID : Z) (workerID : string) (t : Task) : bool :=
  has_id taskID t
  && match t_LockedBy t with Some w => (w =? workerID)%string | None => false end
  && (t_Status t =? "running")%string.

(** The maps [updates] of the next five methods. *)
Definition heartbeat_updates (now leaseDuration : Z) : list tcol :=
  [tcol_LockedUntil (Some (now + leaseDuration))].

Definition complete_updates (now : Z) (result : string) : list tcol :=
  [tcol_Status "success"; tcol_Progress 100; tcol_Result result; tcol_ErrorMsg "";
   tcol_LockedBy None; tcol_LockedUntil None; tcol_FinishedAt (Some now)].

Definition fail_updates (now : Z) (errorMessage : string) (nextRunAt : option Z) : list tcol :=
  let status := match nextRunAt with Some _ => "pending" | None => "failed" end in
  let updates := [tcol_Status status; tcol_ErrorMsg errorMessage; tcol_LockedBy None;
                  tcol_LockedUntil None; tcol_NextRunAt nextRunAt] in
  if (status =? "failed")%string
  then updates ++ [tcol_Progress 100; tcol_FinishedAt (Some now)] else updates.

Definition release_updates (now : Z) : list tcol :=
  [tcol_Status "pending"; tcol_LockedBy None; tcol_LockedUntil None; tcol_NextRunAt (Some now)].

Definition status_updates (status : string) (progress : Z) (errorMessage : string) : list tcol :=
  [tcol_Status status; tcol_Progress progress; tcol_ErrorMsg errorMessage].

Definition HeartbeatTask (now taskID : Z) (workerID : string) (leaseDuration : Z) (db : TaskDB)
  : res unit * TaskDB :=
  (Ok tt, (Updates now (owned taskID workerID) (heartbeat_updates now leaseDuration) db).2).

Definition CompleteTask (now taskID : Z) (workerID result : string) (db : TaskDB) : res unit * TaskDB :=
  (Ok tt, (Updates now (owned taskID workerID) (complete_updates now result) db).2).

Definition FailTask (now taskID : Z) (workerID errorMessage : string) (nextRunAt : option Z) (db : TaskDB)
  : res unit * TaskDB :=
  (Ok tt, (Updates now (owned taskID workerID) (fail_updates now errorMessage nextRunAt) db).2).

(** [status = 'running' AND locked_until IS NOT NULL AND locked_until < ?]. *)
Definition stale (now : Z) (t : Task) : bool :=
  (t_Status t =? "running")%string
  && match t_LockedUntil t with Some u => u <? now | None => false end.

(** [clock] is the time of the update, [now] the argument. *)
Definition ReleaseStaleTasks (clock now : Z) (db : TaskDB) : res Z * TaskDB :=
  let '(n, db') := Updates clock (stale now) (release_updates now) db in
  (Ok n, db').

Definition UpdateStatus (now id : Z) (status : string) (progress : Z) (errorMessage : string) (db : TaskDB)
  : res unit * TaskDB :=
  if existsb (has_id id) (db_tasks db) && negb (status_ok status && progress_ok progress)
  then (Err ErrCheckConstraint, db)
  else (Ok tt, (Updates now (has_id id) (status_updates status progress errorMessage) db).2).

Definition CountByStatus (status : string) (db : TaskDB) : res Z :=
  Ok (count_where (fun t => (t_Status t =? status)%string) (db_tasks db)).

(** [First] orders by the primary key; both keys are unique. *)
Definition GetByID (id : Z) (db : TaskDB) : res (option Task) :=
  Ok (first_where (has_id id) (db_tasks db)).

Definition GetByIdempotencyKey (key : string) (db : TaskDB) : res (option Task) :=
  Ok (first_where (has_key key) (db_tasks db)).

Definition List (filter : TaskListFilter) (db : TaskDB) : res (list Task * Z) :=
  let page := if tf_Page filter <=? 0 then 1 else tf_Page filter in
  let size := if tf_Size filter <=? 0 then 20 else tf_Size filter in
  let size := if 100 <? size then 100 else size in
  let status := TrimSpace (tf_Status filter) in
  let taskType := TrimSpace (tf_Type filter) in
  let query := select_where (fun t =>
      ((status =? "")%string || (t_Status t =? status)%string) &&
      ((taskType =? "")%string || (t_Type t =? taskType)%string)) (db_tasks db) in
  let total := Z.of_nat (length query) in
  Ok (page_of (page_offset page size) size (order_by (fun t => - t_CreatedAt t) query), total).

Definition AppendLog (now : Z) (log : TaskLog) (db : TaskDB) : res unit * TaskDB :=
  let row := MkTaskLog (db_next_log db) (tl_TaskID log) (tl_Level log) (tl_Message log) (tl_Metadata log) now in
  let next := db_next_log db + 1 in
  if existsb (has_id (tl_TaskID log)) (db_tasks db)
  then (Ok tt, {| db_tasks := db_tasks db; db_next_task := db_next_task db;
                  db_logs := db_logs db ++ [row]; db_next_log := next |})
  else (Err (ErrNew "violates foreign key constraint"),
        {| db_tasks := db_tasks db; db_next_task := db_next_task db;
           db_logs := db_logs db; db_next_log := next |}).

Definition ListLogs (taskID limit : Z) (db : TaskDB) : res (list TaskLog) :=
  let limit := if (limit <=? 0) || (500 <? limit) then 200 else limit in
  Ok (page_of (-1) limit
        (order_by tl_CreatedAt (select_where (fun l => tl_TaskID l =? taskID) (db_logs db)))).

End repository.

(** ** The interface [TaskRepository] *)

Inductive repo_op :=
| RCreate (task : Task)
| RClaimNextTask (workerID : string) (leaseDuration : Z)
| RHeartbeatTask (taskID : Z) (workerID : string) (leaseDuration : Z)
| RCompleteTask (taskID : Z) (workerID result : string)
| RFailTask (taskID : Z) (workerID errorMessage : string) (nextRunAt : option Z)
| RReleaseStaleTasks (now : Z)
| RUpdateStatus (id : Z) (status : string) (progress : Z) (errorMessage : string)
| RCountByStatus (status : string)
| RGetByID (id : Z)
| RGetByIdempotencyKey (key : string)
| RList (filter : TaskListFilter)
| RAppendLog (log : TaskLog)
| RListLogs (taskID limit : Z).

Definition repo_val (o : repo_op) : Type :=
  match o with
  | RCreate _ => Task
  | RClaimNextTask _ _ | RGetByID _ | RGetByIdempotencyKey _ => option Task
  | RReleaseStaleTasks _ | RCountByStatus _ => Z
  | RList _ => list Task * Z
  | RListLogs _ _ => list TaskLog
  | RHeartbeatTask _ _ _ | RCompleteTask _ _ _ | RFailTask _ _ _ _ | RUpdateStatus _ _ _ _
  | RAppendLog _ => unit
  end.

Definition repo_ans (o : repo_op) : Type := res (repo_val o).

(** The repository at time [now]. *)
Definition repo_exec (now : Z) (o : repo_op) (db : TaskDB) : repo_ans o * TaskDB :=
  match o return repo_ans o * TaskDB with
  | RCreate t => repository.Create now t db
  | RClaimNextTask w l => repository.ClaimNextTask now w l db
  | RHeartbeatTask i w l => repository.HeartbeatTask now i w l db
  | RCompleteTask i w r => repository.CompleteTask now i w r db
  | RFailTask i w m n => repository.FailTask now i w m n db
  | RReleaseStaleTasks n => repository.ReleaseStaleTasks now n db
  | RUpdateStatus i s p m => repository.UpdateStatus now i s p m db
  | RCountByStatus s => (repository.CountByStatus s db, db)
  | RGetByID i => (repository.GetByID i db, db)
  | RGetByIdempotencyKey k => (repository.GetByIdempotencyKey k db, db)
  | RList f => (repository.List f db, db)
  | RAppendLog l => repository.AppendLog now l db
  | RListLogs i l => (repository.ListLogs i l db, db)
  end.

(** ** The invariant of the tables *)

Record task_ok (t : Task) : Prop := {
  ok_status : status_ok (t_Status t) = true;
  ok_progress : progress_ok (t_Progress t) = true;
  ok_attempt : 0 <= t_Attempt t <= t_MaxAttempts t;
  ok_max : 1 <= t_MaxAttempts t;
  ok_lock : t_LockedBy t = None <-> t_LockedUntil t = None
}.

Record db_ok (db : TaskDB) : Prop := {
  ok_rows : Forall task_ok (db_tasks db);
  ok_ids : NoDup (t_ID <$> db_tasks db);
  ok_seq : 1 <= db_next_task db /\ Forall (fun t => 0 < t_ID t < db_next_task db) (db_tasks db);
  ok_keys : NoDup (omap t_IdempotencyKey (db_tasks db))
}.

(** The rows the services insert: no primary key, no lock, no attempt yet. *)
Definition fresh_row (t : Task) : Prop :=
  t_ID t = 0 /\ t_Attempt t = 0 /\ t_LockedBy t = None /\ t_LockedUntil t = None.

Definition op_ok (o : repo_op) : Prop :=
  match o with RCreate t => fresh_row t | _ => True end.

(** A change of row that keeps both keys. *)
Definition keeps_keys (f : Task -> Task) : Prop :=
  forall t, t_ID (f t) = t_ID t /\ t_IdempotencyKey (f t) = t_IdempotencyKey t.

Definition no_id (c : tcol) : bool := match c with tcol_ID _ => false | _ => true end.

Lemma assign_keeps_keys cs : forallb no_id cs = true -> keeps_keys (assign_task cs).
Proof.
  intros H t. unfold assign_task. revert t H. induction cs as [|c cs IH]; intros t H; [done|].
  simpl in H. apply andb_prop in H as [Hc H]. cbn [fold_left].
  destruct (IH (set_task c t) H) as [-> ->]. destruct t, c; done.
Qed.

Lemma claimed_keeps_keys now w l : keeps_keys (repository.claimed now w l).
Proof. intros t. by apply assign_keeps_keys. Qed.

Lemma omap_update p f l :
  keeps_keys f -> omap t_IdempotencyKey (update_where p f l) = omap t_IdempotencyKey l.
Proof.
  intros Hf. unfold update_where. induction l as [|x l IH]; [done|]. cbn.
  replace (t_IdempotencyKey (if p x then f x else x)) with (t_IdempotencyKey x)
    by (destruct (p x); [by destruct (Hf x) as [_ ->] | done]).
  change (list_omap Task string t_IdempotencyKey) with (omap (M:=list) t_IdempotencyKey).
  by rewrite <- IH.
Qed.

(** An update that keeps the keys keeps the invariant, if it keeps [task_ok]. *)
Lemma update_db_ok p f db :
  keeps_keys f -> (forall t, p t = true -> task_ok t -> task_ok (f t)) ->
  db_ok db -> db_ok (with_tasks (update_where p f (db_tasks db)) db).
Proof.
  intros Hk Hf [Hr Hi [Hn Hs] Ho]. split; simpl.
  - by apply Forall_update.
  - rewrite fmap_update; [done|]. intros t. by destruct (Hk t).
  - split; [done|]. apply Forall_update; [done|]. intros t _. by destruct (Hk t) as [-> _].
  - by rewrite omap_update.
Qed.

Lemma existsb_false {A} (p : A -> bool) l x : existsb p l = false -> x ∈ l -> p x = false.
Proof.
  intros H Hx. destruct (p x) eqn:E; [|done]. apply list_elem_of_In in Hx.
  assert (existsb p l = true) by (apply existsb_exists; eauto). congruence.
Qed.

(** An insertion that collides with no row keeps the keys unique. *)
Lemma insert_db_ok t db :
  db_ok db -> task_ok t -> db_next_task db = t_ID t + 1 -> 0 < t_ID t ->
  existsb (collides t) (db_tasks db) = false ->
  Forall (fun r => t_ID r < t_ID t) (db_tasks db) ->
  db_ok (with_tasks (db_tasks db ++ [t]) db).
Proof.
  intros [Hr Hi [Hn Hs] Ho] Ht Hnext Hpos Hc Hlt. split; simpl.
  - by apply Forall_app_2; [|constructor].
  - rewrite fmap_app. apply NoDup_app. split; [done|]. split; [|apply NoDup_singleton].
    intros x Hx Hx'. apply list_elem_of_singleton in Hx' as ->.
    apply list_elem_of_fmap in Hx as (r & Hx & Hr').
    rewrite Forall_forall in Hlt. specialize (Hlt r Hr'). lia.
  - split; [lia|]. apply Forall_app_2; [done|]. constructor; [lia|done].
  - rewrite omap_app. apply NoDup_app. split; [done|]. cbn.
    destruct (t_IdempotencyKey t) as [k|] eqn:Ek; (split; [|auto using NoDup_singleton, NoDup_nil_2]).
    + intros x Hx Hx'. apply list_elem_of_singleton in Hx' as ->.
      apply list_elem_of_omap in Hx as (r & Hr' & Hkr).
      pose proof (existsb_false _ _ r Hc Hr') as Hf. unfold collides in Hf.
      rewrite Ek in Hf. apply orb_false_elim in Hf as [_ Hf]. unfold has_key in Hf.
      rewrite Hkr, String.eqb_refl in Hf. done.
    + intros x _ Hx. inversion Hx.
Qed.

Lemma claimed_ok now w l t : repository.claimable now t = true -> task_ok t -> task_ok (repository.claimed now w l t).
Proof.
  unfold repository.claimable. intros Hp [? ? ? ? ?]. breflect.
  destruct t; simpl in *. split; simpl; try done; lia.
Qed.

(** An unconditional assignment of status, progress and lock columns. *)
Definition col_ok (c : tcol) : Prop :=
  match c with
  | tcol_Status s => status_ok s = true
  | tcol_Progress p => progress_ok p = true
  | tcol_ID _ | tcol_LockedBy _ | tcol_LockedUntil _ | tcol_Attempt _ | tcol_MaxAttempts _ => False
  | _ => True
  end.

Lemma assign_ok cs t : Forall col_ok cs -> task_ok t -> task_ok (assign_task cs t).
Proof.
  intros H. revert t. unfold assign_task. induction H as [|c cs Hc _ IH]; intros t Ht; [done|].
  apply IH. destruct Ht, t, c; simpl in *; split; simpl; done.
Qed.

(** The same together with the release of the lock. *)
Lemma assign_unlock_ok cs1 cs2 t :
  Forall col_ok cs1 -> Forall col_ok cs2 -> task_ok t ->
  task_ok (assign_task (cs1 ++ tcol_LockedBy None :: tcol_LockedUntil None :: cs2) t).
Proof.
  intros H1 H2 Ht. unfold assign_task. rewrite fold_left_app. cbn [fold_left].
  apply (assign_ok cs2); [done|]. pose proof (assign_ok cs1 t H1 Ht) as H. unfold assign_task in H.
  destruct H, (fold_left _ cs1 t). simpl in *. split; simpl; done.
Qed.

#[local] Hint Constructors Forall : core.

Lemma Updates_ok now p cs db :
  forallb no_id cs = true -> (forall t, p t = true -> task_ok t -> task_ok (assign_task (cs ++ [tcol_UpdatedAt now]) t)) ->
  db_ok db -> db_ok (repository.Updates now p cs db).2.
Proof.
  intros Hc Hf Hd. apply update_db_ok; [|done|done]. apply assign_keeps_keys.
  rewrite forallb_app. by rewrite Hc.
Qed.

Lemma next_task_db_ok n db : db_next_task db <= n -> db_ok db ->
  db_ok {| db_tasks := db_tasks db; db_next_task := n; db_logs := db_logs db; db_next_log := db_next_log db |}.
Proof.
  intros Hn [Hr Hi [H1 Hs] Ho]. split; simpl; try done. split; [lia|].
  eapply Forall_impl; [exact Hs|]. simpl. lia.
Qed.

Lemma Create_ok now t db : fresh_row t -> db_ok db -> db_ok (repository.Create now t db).2.
Proof.
  intros (H0 & Ha & Hl & Hu) Hd. unfold repository.Create. rewrite H0. cbn [Z.eqb].
  cbv zeta. match goal with |- context [existsb (collides ?r) _] => set (row := r) end.
  pose proof (ok_seq _ Hd) as [Hseq Hrows].
  assert (Hid : t_ID row = db_next_task db) by
    (unfold row; destruct t; simpl in *; subst; simpl; by repeat case_match).
  assert (Hd' := next_task_db_ok (db_next_task db + 1) db ltac:(lia) Hd).
  cbn [db_tasks]. destruct (existsb (collides row) (db_tasks db)) eqn:Ec; [exact Hd'|].
  destruct (negb (status_ok (t_Status row) && progress_ok (t_Progress row))) eqn:En; [exact Hd'|]. breflect.
  refine (insert_db_ok row _ Hd' _ _ _ _ _); [|by rewrite Hid|by rewrite Hid; lia|exact Ec|].
  - split; try done; unfold row in *; destruct t; simpl in *; subst;
      repeat case_match; simpl in *; breflect; try done; lia.
  - eapply Forall_impl; [exact Hrows|]. simpl. lia.
Qed.

Lemma log_db_ok logs n db : db_ok db ->
  db_ok {| db_tasks := db_tasks db; db_next_task := db_next_task db; db_logs := logs; db_next_log := n |}.
Proof. by intros []; split. Qed.

(** Rows are determined by their id. *)
Lemma same_id db r t : db_ok db -> r ∈ db_tasks db -> t ∈ db_tasks db -> has_id (t_ID t) r = true -> r = t.
Proof.
  intros Hd Hr Ht He. apply Z.eqb_eq in He. pose proof (ok_ids _ Hd) as Hnd.
  apply list_elem_of_lookup in Hr as [i Hi]. apply list_elem_of_lookup in Ht as [j Hj].
  assert (i = j) as ->; [|congruence].
  eapply NoDup_lookup; [exact Hnd | rewrite list_lookup_fmap, Hi; simpl; by rewrite He |].
  by rewrite list_lookup_fmap, Hj.
Qed.

Lemma update_db_ok_in p f db :
  keeps_keys f -> (forall t, t ∈ db_tasks db -> p t = true -> task_ok t -> task_ok (f t)) ->
  db_ok db -> db_ok (with_tasks (update_where p f (db_tasks db)) db).
Proof.
  intros Hk Hf Hd. pose proof Hd as [Hr Hi [Hn Hs] Ho]. split; simpl.
  - rewrite Forall_forall in *. intros x Hx.
    apply elem_of_update in Hx as [[Hx _]|(y & Hy & Hp & ->)]; auto.
  - rewrite fmap_update; [done|]. intros t. by destruct (Hk t).
  - split; [done|]. apply Forall_update; [done|]. intros t _. by destruct (Hk t) as [-> _].
  - by rewrite omap_update.
Qed.

Ltac cols := solve [repeat constructor].

(** Every operation of the repository keeps the tables well formed. *)
Lemma repo_exec_ok now o db : op_ok o -> db_ok db -> db_ok (repo_exec now o db).2.
Proof.
  intros Ho Hd. destruct o; cbn [repo_exec snd]; try done.
  - by apply Create_ok.
  - unfold repository.ClaimNextTask. case_match eqn:E; [done|].
    apply order_by_head in E as [Hin _]. apply elem_of_select in Hin as [Hin Hc].
    assert (Hok : db_ok (with_tasks (update_where (has_id (t_ID t))
      (repository.claimed now workerID leaseDuration) (db_tasks db)) db)); [|by case_match].
    apply update_db_ok_in; [apply claimed_keeps_keys| |done]. intros r Hr Hi Hrok.
    apply claimed_ok; [|done]. by rewrite (same_id db r t).
  - apply Updates_ok; [done| |done]. intros t Hp Ht. unfold repository.owned in Hp. breflect.
    destruct (t_LockedBy t) eqn:El; [|done]. destruct Ht, t; simpl in *. split; simpl; try done. by rewrite El.
  - apply Updates_ok; [done| |done]. intros t _ Ht. apply (assign_unlock_ok [_;_;_;_] [_;_]); [cols..|done].
  - apply Updates_ok; [by destruct nextRunAt| |done]. intros t _ Ht. destruct nextRunAt.
    + apply (assign_unlock_ok [_;_] [_;_]); [cols..|done].
    + apply (assign_unlock_ok [_;_] [_;_;_;_]); [cols..|done].
  - apply (Updates_ok now _ [_;_;_;_]); [done| |done]. intros t _ Ht.
    apply (assign_unlock_ok [_] [_;_]); [cols..|done].
  - unfold repository.UpdateStatus. destruct (existsb _ _ && _) eqn:E; [done|].
    apply update_db_ok_in; [by apply assign_keeps_keys| |done]. intros t Hin Hp Ht.
    apply assign_ok; [|done]. apply andb_false_iff in E as [E|E].
    + pose proof (existsb_false _ _ t E Hin). congruence.
    + breflect. repeat constructor; done.
  - unfold repository.AppendLog. case_match; by apply log_db_ok.
Qed.

#[export] Hint Resolve repo_exec_ok : snow.

(** ** Histories of operations *)

(** Operations performed one after the other, each at its own time. *)
Fixpoint repo_run (l : list (Z * repo_op)) (db : TaskDB) : TaskDB :=
  match l with
  | [] => db
  | (now, o) :: l' => repo_run l' (repo_exec now o db).2
  end.

Lemma repo_run_ok l db : Forall (fun x => op_ok x.2) l -> db_ok db -> db_ok (repo_run l db).
Proof.
  revert db. induction l as [|[now o] l IH]; intros db Hl Hd; [done|].
  inversion Hl; subst. cbn [repo_run]. auto using repo_exec_ok.
Qed.

(** How one operation can change a row: which rows, and to what. *)
Definition row_update (now : Z) (o : repo_op) : (Task -> bool) * (Task -> Task) :=
  let set cs := assign_task (cs ++ [tcol_UpdatedAt now]) in
  match o with
  | RClaimNextTask w l => (repository.claimable now, repository.claimed now w l)
  | RHeartbeatTask i w l => (repository.owned i w, set (repository.heartbeat_updates now l))
  | RCompleteTask i w r => (repository.owned i w, set (repository.complete_updates now r))
  | RFailTask i w m n => (repository.owned i w, set (repository.fail_updates now m n))
  | RReleaseStaleTasks n => (repository.stale n, set (repository.release_updates n))
  | RUpdateStatus i s p m => (has_id i, set (repository.status_updates s p m))
  | _ => (fun _ => false, fun t => t)
  end.

Lemma row_update_keeps now o : keeps_keys (row_update now o).2.
Proof.
  destruct o; cbn [row_update snd]; try (by apply assign_keeps_keys); try done.
  - apply claimed_keeps_keys.
  - apply assign_keeps_keys. unfold repository.fail_updates. by destruct nextRunAt.
Qed.

(** Every row survives every operation, unchanged or updated. *)
Lemma repo_exec_row now o db t : db_ok db -> t ∈ db_tasks db ->
  t ∈ db_tasks (repo_exec now o db).2 \/
  ((row_update now o).1 t = true /\ (row_update now o).2 t ∈ db_tasks (repo_exec now o db).2).
Proof.
  intros Hd Ht.
  assert (Hu : forall p f, t ∈ update_where p f (db_tasks db) \/ (p t = true /\ f t ∈ update_where p f (db_tasks db))).
  { intros p f. destruct (p t) eqn:E; [right; split; [done|]; by apply elem_of_update_1
                                      | left; by apply elem_of_update_0]. }
  destruct o; cbn [repo_exec row_update fst snd]; try (by left); try apply Hu.
  - unfold repository.Create. left. repeat case_match; simpl; try done; apply elem_of_app; by left.
  - unfold repository.ClaimNextTask. destruct (order_by _ _) as [|r k] eqn:E; [by left|].
    apply order_by_head in E as [Hin _]. apply elem_of_select in Hin as [Hin Hc].
    assert (Hg := Hu (has_id (t_ID r)) (repository.claimed now workerID leaseDuration)).
    destruct Hg as [Hg|[Hi Hg]]; [left; by case_match|]. right.
    rewrite (same_id db t r) in * by done. split; [done|]. by case_match.
  - unfold repository.UpdateStatus. case_match; [by left|]. apply Hu.
  - unfold repository.AppendLog. case_match; by left.
Qed.

(** A fact about the row [id] that every safe operation keeps holds after any
    history of safe operations. *)
Lemma repo_run_row (P : Task -> Prop) (safe : Z -> repo_op -> Prop) id :
  (forall now o t, safe now o -> t_ID t = id -> P t -> (row_update now o).1 t = true ->
     P ((row_update now o).2 t)) ->
  forall l db, db_ok db -> Forall (fun x => op_ok x.2 /\ safe x.1 x.2) l ->
  (exists t, t ∈ db_tasks db /\ t_ID t = id /\ P t) ->
  exists t, t ∈ db_tasks (repo_run l db) /\ t_ID t = id /\ P t.
Proof.
  intros HP l. induction l as [|[now o] l IH]; intros db Hd Hl (t & Ht & Hi & Hp); [by exists t|].
  inversion Hl as [|? ? [Ho Hs]]; subst. cbn [repo_run]. apply IH; [by apply repo_exec_ok|done|].
  destruct (repo_exec_row now o db t Hd Ht) as [Hx|[Hx Hx']]; [by exists t|].
  exists ((row_update now o).2 t). split; [done|]. split; [apply row_update_keeps|]. by apply HP.
Qed.

(** What a successful claim returns. *)
Lemma claim_Some now w lease db t' :
  (repository.ClaimNextTask now w lease db).1 = Ok (Some t') ->
  exists t, t ∈ db_tasks db /\ repository.claimable now t = true /\ t' = repository.claimed now w lease t.
Proof.
  unfold repository.ClaimNextTask. destruct (order_by _ _) as [|t k] eqn:E; [done|].
  apply order_by_head in E as [Hin _]. apply elem_of_select in Hin as [Hin Hc].
  case_match; [done|]. intros [= <-]. by exists t.
Qed.

(** A row that is not claimable is not claimed. *)
Lemma claim_other now w lease db t t' :
  db_ok db -> t ∈ db_tasks db -> repository.claimable now t = false ->
  (repository.ClaimNextTask now w lease db).1 = Ok (Some t') -> t_ID t' <> t_ID t.
Proof.
  intros Hd Ht Hc Hcl He. apply claim_Some in Hcl as (r & Hr & Hcr & ->).
  destruct (claimed_keeps_keys now w lease r) as [Hk _]. rewrite Hk in He.
  rewrite (same_id db t r) in Hc; [congruence|done..|]. unfold has_id. lia.
Qed.

(** C6 [ClaimNextTask] hands out the oldest task that is pending, due and not
    out of attempts, locked to the worker until [now + leaseDuration] with one
    more attempt counted; no other row changes; it returns no task only when
    there is none to hand out. *)
Theorem ClaimNextTask_spec now workerID lease db (Hok : db_ok db) :
  let '(r, db') := repository.ClaimNextTask now workerID lease db in
  match r with
  | Ok None => db' = db /\ forall t, t ∈ db_tasks db -> repository.claimable now t = false
  | Ok (Some t') => exists t,
      t ∈ db_tasks db
      /\ (t_Status t = "pending" /\ (forall at_, t_NextRunAt t = Some at_ -> at_ <= now)
          /\ t_Attempt t < t_MaxAttempts t)
      /\ (forall r, r ∈ db_tasks db -> repository.claimable now r = true -> t_CreatedAt t <= t_CreatedAt r)
      /\ (t_ID t' = t_ID t /\ t_Status t' = "running" /\ t_LockedBy t' = Some workerID
          /\ t_LockedUntil t' = Some (now + lease) /\ t_Attempt t' = t_Attempt t + 1
          /\ t_Payload t' = t_Payload t /\ t_MaxAttempts t' = t_MaxAttempts t)
      /\ (forall i r, db_tasks db !! i = Some r ->
            db_tasks db' !! i = Some (if t_ID r =? t_ID t then t' else r))
  | Err _ => False
  end.
Proof.
  unfold repository.ClaimNextTask. destruct (order_by _ _) as [|t k] eqn:E.
  - apply order_by_nil in E. split; [done|]. intros t Ht. destruct (repository.claimable now t) eqn:Hc; [|done].
    assert (H : t ∈ select_where (repository.claimable now) (db_tasks db)) by (by apply elem_of_select).
    rewrite E in H. by inversion H.
  - apply order_by_head in E as [Hin Hmin]. apply elem_of_select in Hin as [Hin Hc].
    destruct (claimed_keeps_keys now workerID lease t) as [Hk _].
    pose proof (ok_seq _ Hok) as [_ Hs]. rewrite Forall_forall in Hs. specialize (Hs t Hin).
    rewrite Hk. destruct (Z.eqb_spec (t_ID t) 0); [lia|]. exists t. split; [done|]. split; [|split; [|split]].
    + unfold repository.claimable in Hc. breflect. split; [done|]. split; [|done].
      intros u Hu. destruct (t_NextRunAt t); simplify_eq. by breflect.
    + intros r Hr Hcr. apply Hmin. by apply elem_of_select.
    + by destruct t.
    + intros i r Hi. simpl. unfold update_where. rewrite list_lookup_fmap, Hi. simpl. f_equal.
      destruct (has_id (t_ID t) r) eqn:Ei; unfold has_id in Ei; rewrite Ei; [|done].
      rewrite (same_id db r t); [done..| |done|done]. by apply list_elem_of_lookup_2 in Hi.
Qed.

Lemma update_where_id {A} (p : A -> bool) f l : (forall x, x ∈ l -> p x = false) -> update_where p f l = l.
Proof.
  unfold update_where. intros H. induction l as [|x l IH]; [done|]. cbn.
  rewrite (H x) by constructor. f_equal. apply IH. intros y Hy. apply H. by constructor.
Qed.

Lemma with_tasks_id db : with_tasks (db_tasks db) db = db.
Proof. by destruct db. Qed.

Lemma Updates_id now p cs db : (forall t, t ∈ db_tasks db -> p t = false) -> (repository.Updates now p cs db).2 = db.
Proof. intros H. unfold repository.Updates. simpl. rewrite update_where_id by done. apply with_tasks_id. Qed.

(** C8 A worker that does not hold the lock of a running task changes nothing:
    its heartbeat, completion and failure leave both tables as they are. *)
Theorem lock_fencing now db id w lease result msg next
  (Hnot : forall t, t ∈ db_tasks db -> t_ID t = id -> t_LockedBy t <> Some w \/ t_Status t <> "running") :
  (repository.HeartbeatTask now id w lease db).2 = db
  /\ (repository.CompleteTask now id w result db).2 = db
  /\ (repository.FailTask now id w msg next db).2 = db.
Proof.
  assert (H : forall t, t ∈ db_tasks db -> repository.owned id w t = false).
  { intros t Ht. unfold repository.owned, has_id. destruct (Z.eqb_spec (t_ID t) id) as [Hi|]; [|done].
    destruct (Hnot t Ht Hi) as [Hn|Hn].
    - destruct (t_LockedBy t) as [w'|]; [|done]. destruct (String.eqb_spec w' w); [congruence|done].
    - destruct (String.eqb_spec (t_Status t) "running"); [done|]. by rewrite andb_false_r. }
  split; [|split]; by apply Updates_id.
Qed.

(** The operations that respect the lease of task [id] until [deadline]: stale
    tasks are released by a clock not past it, the owner's heartbeats extend
    it, the task is not put back for a retry or by hand. *)
Definition respects_lease (id deadline : Z) (now : Z) (o : repo_op) : Prop :=
  match o with
  | RReleaseStaleTasks n => n <= deadline
  | RHeartbeatTask i _ l => i = id -> deadline <= now + l
  | RFailTask i _ _ (Some _) => i <> id
  | RUpdateStatus i s _ _ => i = id -> s <> "pending"
  | _ => True
  end.

(** Neither pending nor about to be released. *)
Definition held_until (deadline : Z) (t : Task) : Prop :=
  t_Status t <> "pending" /\ forall u, t_LockedUntil t = Some u -> deadline <= u.

Lemma held_update id deadline now o t :
  respects_lease id deadline now o -> t_ID t = id -> held_until deadline t ->
  (row_update now o).1 t = true -> held_until deadline ((row_update now o).2 t).
Proof.
  intros Hs Hi [Hst Hu] Hp. destruct o; cbn [row_update fst snd] in *; try done.
  - unfold repository.claimable in Hp. breflect. done.
  - unfold repository.owned, has_id in Hp. breflect. specialize (Hs ltac:(congruence)). destruct t; simpl in *. split; [done|].
    by intros u [= <-].
  - by destruct t.
  - unfold repository.owned, has_id in Hp. breflect. destruct nextRunAt; [simpl in Hs; congruence|]. by destruct t.
  - unfold repository.stale in Hp. breflect. destruct (t_LockedUntil t) as [u|] eqn:El; [|done].
    breflect. specialize (Hu u eq_refl). simpl in Hs. lia.
  - unfold has_id in Hp. breflect. specialize (Hs ltac:(congruence)). by destruct t.
Qed.

Lemma claimed_held now w lease t : held_until (now + lease) (repository.claimed now w lease t).
Proof. destruct t. split; [done|]. simpl. intros u [= <-]. lia. Qed.

Lemma claim_row now w lease db t' : db_ok db ->
  (repository.ClaimNextTask now w lease db).1 = Ok (Some t') ->
  t' ∈ db_tasks (repository.ClaimNextTask now w lease db).2.
Proof.
  intros Hd. unfold repository.ClaimNextTask. destruct (order_by _ _) as [|t k] eqn:E; [done|].
  apply order_by_head in E as [Hin _]. apply elem_of_select in Hin as [Hin _].
  case_match; [done|]. intros [= <-]. simpl. apply elem_of_update_1; [done|]. unfold has_id. lia.
Qed.

(** C7 A lease is exclusive: after a worker claims a task at [now], no claim in
    any later history hands the same task out again, as long as nothing in the
    history releases locks by a clock past the lease or puts the task back. *)
Theorem lease_exclusive now w lease db t l
  (Hok : db_ok db)
  (Hclaim : (repository.ClaimNextTask now w lease db).1 = Ok (Some t))
  (Hops : Forall (fun x => op_ok x.2 /\ respects_lease (t_ID t) (now + lease) x.1 x.2) l) :
  forall now2 w2 lease2 t2,
    (repository.ClaimNextTask now2 w2 lease2
       (repo_run l (repository.ClaimNextTask now w lease db).2)).1 = Ok (Some t2) ->
    t_ID t2 <> t_ID t.
Proof.
  intros now2 w2 lease2 t2 H2.
  set (db1 := (repository.ClaimNextTask now w lease db).2) in *.
  assert (Hd1 : db_ok db1) by (apply (repo_exec_ok now (RClaimNextTask w lease)); done).
  destruct (repo_run_row (held_until (now + lease)) (respects_lease (t_ID t) (now + lease)) (t_ID t))
    with (l := l) (db := db1) as (r & Hr & Hi & Hst & _); try done.
  - intros n o x. apply held_update.
  - exists t. split; [by apply claim_row|]. split; [done|].
    apply claim_Some in Hclaim as (x & _ & _ & ->). apply claimed_held.
  - rewrite <- Hi. eapply claim_other; [|exact Hr| |exact H2].
    + apply repo_run_ok; [|done]. eapply Forall_impl; [exact Hops|]. by intros x [].
    + unfold repository.claimable. by destruct (String.eqb_spec (t_Status r) "pending").
Qed.

(** The operations of workers and clients other than a change of the status of
    task [id] by hand. *)
Definition not_by_hand (id : Z) (_ : Z) (o : repo_op) : Prop :=
  match o with RUpdateStatus i _ _ _ => i <> id | _ => True end.

(** A worker that dies during the last attempt of a task leaves it stuck:
    [ReleaseStaleTasks] puts the row back to pending with no attempt left, and
    from then on no history of repository operations, a change of its status by
    hand apart, ever makes it anything but pending. *)
Theorem stale_last_attempt_stuck clock now db t l
  (Hok : db_ok db) (Hin : t ∈ db_tasks db)
  (Hstale : repository.stale now t = true) (Hlast : t_Attempt t = t_MaxAttempts t)
  (Hops : Forall (fun x => op_ok x.2 /\ not_by_hand (t_ID t) x.1 x.2) l) :
  exists t', t' ∈ db_tasks (repo_run l (repository.ReleaseStaleTasks clock now db).2)
             /\ t_ID t' = t_ID t /\ t_Status t' = "pending".
Proof.
  destruct (repo_run_row (fun r => t_Status r = "pending" /\ t_MaxAttempts r <= t_Attempt r)
              (not_by_hand (t_ID t)) (t_ID t)) with (l := l)
    (db := (repository.ReleaseStaleTasks clock now db).2) as (r & Hr & Hi & Hst & _); try done.
  - intros n o r Hs Hi [Hst Ha] Hp. destruct o; cbn [row_update fst snd] in *; try done;
      unfold repository.claimable, repository.owned, repository.stale, has_id in Hp; breflect;
      try congruence; lia.
  - apply (repo_exec_ok clock (RReleaseStaleTasks now)); done.
  - eexists. split; [|split].
    + apply (elem_of_update_1 (repository.stale now)); [exact Hin|done].
    + by destruct t.
    + destruct t; simpl in *. split; [done|lia].
  - by exists r.
Qed.

(** A running row without a lock is in no worker's hands and is not stale either. *)
Lemma unlocked_running_stuck db t l
  (Hok : db_ok db) (Hin : t ∈ db_tasks db)
  (Hrun : t_Status t = "running") (Hl : t_LockedBy t = None)
  (Hops : Forall (fun x => op_ok x.2 /\ not_by_hand (t_ID t) x.1 x.2) l) :
  exists t', t' ∈ db_tasks (repo_run l db) /\ t_ID t' = t_ID t /\ t_Status t' = "running".
Proof.
  destruct (repo_run_row (fun r => t_Status r = "running" /\ t_LockedBy r = None /\ t_LockedUntil r = None)
              (not_by_hand (t_ID t)) (t_ID t)) with (l := l) (db := db) as (r & Hr & Hi & Hst & _); try done.
  - intros n o r Hs Hi (Hst & Hlb & Hlu) Hp. destruct o; cbn [row_update fst snd] in *; try done;
      unfold repository.claimable, repository.owned, repository.stale, has_id in Hp; breflect;
      rewrite ?Hlb, ?Hlu in *; try congruence; done.
  - exists t. split; [done|]. split; [done|]. split; [done|]. split; [done|].
    pose proof (ok_rows _ Hok) as Hf. rewrite Forall_forall in Hf. by apply (ok_lock _ (Hf t Hin)).
  - by exists r.
Qed.

(** ** Concrete histories *)

Lemma empty_ok : db_ok empty_TaskDB.
Proof. split; simpl; try constructor; try constructor; lia. Qed.

Definition sample_task (max : Z) : Task :=
  MkTask 0 "docker_restart" "pending" 0 "{}" "{}" "" None None None None 0 max None None None None
    zero_time zero_time.

(** Two tasks queued at times 10 and 20. *)
Definition sample_db : TaskDB :=
  repo_run [(10, RCreate (sample_task 1)); (20, RCreate (sample_task 3))] empty_TaskDB.

Lemma sample_db_ok : db_ok sample_db.
Proof. apply repo_run_ok; [repeat constructor | apply empty_ok]. Qed.

Lemma ClaimNextTask_spec_witness :
  exists t', (repository.ClaimNextTask 100 "w" 30 sample_db).1 = Ok (Some t') /\ t_ID t' = 1
             /\ t_LockedBy t' = Some "w".
Proof.
  pose proof (ClaimNextTask_spec 100 "w" 30 sample_db sample_db_ok) as H.
  destruct (repository.ClaimNextTask 100 "w" 30 sample_db) as [r db'] eqn:E.
  vm_compute in E. injection E as <- <-. destruct H as (t & _ & _ & _ & (_ & _ & Hl & _) & _).
  eexists. split; [reflexivity|]. split; [reflexivity|exact Hl].
Defined.

(** The first task claimed by [w] at time 100 for 30. *)
Definition sample_claimed : TaskDB := (repository.ClaimNextTask 100 "w" 30 sample_db).2.

Lemma sample_claimed_ok : db_ok sample_claimed.
Proof. apply (repo_exec_ok 100 (RClaimNextTask "w" 30)); [done | apply sample_db_ok]. Qed.

Lemma lock_fencing_witness :
  (repository.CompleteTask 110 1 "other" "{}" sample_claimed).2 = sample_claimed.
Proof.
  refine (proj1 (proj2 (lock_fencing 110 sample_claimed 1 "other" 30 "{}" "" None _))).
  intros t Ht _. left. vm_compute in Ht. apply elem_of_cons in Ht as [->|Ht]; [done|].
  by apply list_elem_of_singleton in Ht as ->.
Defined.

Lemma lease_exclusive_witness :
  exists t t2, (repository.ClaimNextTask 100 "w" 30 sample_db).1 = Ok (Some t)
    /\ (repository.ClaimNextTask 120 "v" 30
          (repo_run [(110, RHeartbeatTask 1 "w" 30); (115, RReleaseStaleTasks 115)] sample_claimed)).1
       = Ok (Some t2)
    /\ t_ID t2 <> t_ID t.
Proof.
  eexists _, _. split; [reflexivity|]. split; [reflexivity|].
  refine (lease_exclusive 100 "w" 30 sample_db _ [(110, RHeartbeatTask 1 "w" 30); (115, RReleaseStaleTasks 115)]
           sample_db_ok eq_refl _ 120 "v" 30 _ eq_refl).
  repeat constructor; simpl; lia.
Defined.

Lemma stale_last_attempt_stuck_witness :
  exists t t', t ∈ db_tasks sample_claimed /\ t_Attempt t = t_MaxAttempts t
    /\ t' ∈ db_tasks (repo_run [(300, RClaimNextTask "v" 30); (400, RClaimNextTask "v" 30)]
                        (repository.ReleaseStaleTasks 200 200 sample_claimed).2)
    /\ t_ID t' = t_ID t /\ t_Status t' = "pending".
Proof.
  assert (Hin : repository.claimed 100 "w" 30 (List.hd (sample_task 0) (db_tasks sample_db)) ∈ db_tasks sample_claimed)
    by (vm_compute; left).
  destruct (stale_last_attempt_stuck 200 200 sample_claimed _
              [(300, RClaimNextTask "v" 30); (400, RClaimNextTask "v" 30)] sample_claimed_ok Hin eq_refl eq_refl)
    as (t' & H1 & H2 & H3); [repeat constructor|].
  eexists _, t'. split; [exact Hin|]. split; [reflexivity|]. done.
Defined.
