(* ===== verification/AgentServices.v ===== *)
(** * Services that forward to the agent

    [internal/service/agent_error.go], [docker_service.go],
    [service_manager_service.go] and [cron_service.go]: programs over any
    signature that contains the agent's methods. *)

From Stdlib Require Import ZArith Lia.
From S2P Require Import Prelude GoString GoError Effects Agent Dto.

Open Scope prog_scope.

(** ** [agent_error.go] *)

Definition one_of (x : Z) (l : list Z) : bool := existsb (Z.eqb x) l.

(** [ErrAgentUnavailable.HTTPStatus] is 503. *)
Definition mapAgentHTTPStatus (err : AgentError) : Z :=
  if IsTransport err then
    if ag_GRPCCode err =? codes.InvalidArgument then 400
    else if ag_GRPCCode err =? codes.Unauthenticated then 401
    else if ag_GRPCCode err =? codes.PermissionDenied then 403
    else if ag_GRPCCode err =? codes.NotFound then 404
    else if one_of (ag_GRPCCode err) [codes.DeadlineExceeded; codes.Unavailable] then 503
    else if ag_GRPCCode err =? codes.Unimplemented then 502
    else http_status ErrAgentUnavailable
  else
    if one_of (ag_Code err) [4000; 4003; 4006; 5000; 6001; 7000] then 400
    else if ag_Code err =? 4004 then 413
    else if one_of (ag_Code err) [4001; 4007; 5002] then 403
    else if one_of (ag_Code err) [4002; 6002; 7001] then 404
    else if one_of (ag_Code err) [4005; 5001; 5003; 6003; 7002] then 502
    else if ag_Code err =? 6000 then 503
    else http_status ErrAgentUnavailable.

Definition mapAgentError (err : goerr) : goerr :=
  match AsAgent err with
  | Some agentErr =>
    let appCode := if 0 <? ag_Code agentErr then ag_Code agentErr else app_code ErrAgentUnavailable in
    let message := if (ag_Message agentErr =? "")%string then "core agent unavailable"
                   else ag_Message agentErr in
    Wrap appCode (mapAgentHTTPStatus agentErr) message err
  | None => wrap_as ErrAgentUnavailable err
  end.

(** Every failed call of the agent ends in an HTTP error status. *)
Lemma mapAgentHTTPStatus_range e : mapAgentHTTPStatus e ∈ [400; 401; 403; 404; 413; 502; 503].
Proof.
  unfold mapAgentHTTPStatus. repeat case_match; apply (bool_decide_unpack _); vm_compute; done.
Qed.

Lemma http_status_mapAgentError err : http_status (mapAgentError err) =
  match AsAgent err with Some a => mapAgentHTTPStatus a | None => 503 end.
Proof. unfold mapAgentError. by destruct (AsAgent err). Qed.

Section Services.
Context {op : Type} {ans : op -> Type} `{SubOp agent_op agent_ans op ans}.

(** A call of the agent, its error mapped. *)
Definition agent (o : agent_op) : prog ans (agent_ans o) := trigger o.

Definition mapped {A B} (f : A -> B) (p : prog ans (res A)) : prog ans (res B) :=
  r <- p ;; Ret (match r with Ok x => Ok (f x) | Err err => Err (mapAgentError err) end).

Definition docker_action (r : grpcclient.DockerContainerActionResult) : dto.DockerContainerActionResult :=
  {| dto.dca_ID := grpcclient.da_ID r; dto.dca_State := grpcclient.da_State r |}.

Definition service_action (r : grpcclient.ServiceActionResult) : dto.ServiceActionResult :=
  {| dto.sva_Name := grpcclient.sa_Name r; dto.sva_Status := grpcclient.sa_Status r |}.

(** ** [docker_service.go] *)

Definition ListContainers : prog ans (res (list dto.DockerContainerInfo)) :=
  mapped (map (fun item =>
      {| dto.dci_ID := grpcclient.dc_ID item; dto.dci_Name := grpcclient.dc_Name item;
         dto.dci_Image := grpcclient.dc_Image item; dto.dci_State := grpcclient.dc_State item;
         dto.dci_Status := grpcclient.dc_Status item |}))
    (agent AListDockerContainers).

Definition StartContainer (id : string) : prog ans (res dto.DockerContainerActionResult) :=
  mapped docker_action (agent (AStartDockerContainer id)).

Definition StopContainer (id : string) : prog ans (res dto.DockerContainerActionResult) :=
  mapped docker_action (agent (AStopDockerContainer id)).

Definition RestartContainer (id : string) : prog ans (res dto.DockerContainerActionResult) :=
  mapped docker_action (agent (ARestartDockerContainer id)).

Definition ListImages : prog ans (res (list dto.DockerImageInfo)) :=
  mapped (map (fun item =>
      {| dto.dii_ID := grpcclient.di_ID item; dto.dii_RepoTags := grpcclient.di_RepoTags item;
         dto.dii_Size := grpcclient.di_Size item |}))
    (agent AListDockerImages).

(** ** [service_manager_service.go] *)

Definition ListServices (Keyword : string) : prog ans (res (list dto.ServiceInfo)) :=
  mapped (map (fun item =>
      {| dto.svi_Name := grpcclient.si_Name item; dto.svi_DisplayName := grpcclient.si_DisplayName item;
         dto.svi_Status := grpcclient.si_Status item |}))
    (agent (AListServices Keyword)).

Definition StartService (name : string) : prog ans (res dto.ServiceActionResult) :=
  mapped service_action (agent (AStartService name)).

Definition StopService (name : string) : prog ans (res dto.ServiceActionResult) :=
  mapped service_action (agent (AStopService name)).

Definition RestartService (name : string) : prog ans (res dto.ServiceActionResult) :=
  mapped service_action (agent (ARestartService name)).

(** ** [cron_service.go] *)

Definition mapCronTask (task : grpcclient.CronTask) : dto.CronTask :=
  {| dto.cron_ID := grpcclient.ct_ID task; dto.cron_Expression := grpcclient.ct_Expression task;
     dto.cron_Command := grpcclient.ct_Command task; dto.cron_Enabled := grpcclient.ct_Enabled task |}.

Definition blockedTokens : list string := ["|"; "&"; ";"; ">"; "<"; "`"; "$"; "\"; "("; ")"].

(** The characters of a command template. *)
Definition command_rune (ch : Z) : bool :=
  ((97 <=? ch) && (ch <=? 122)) || ((65 <=? ch) && (ch <=? 90)) || ((48 <=? ch) && (ch <=? 57))
  || (ch =? 45) || (ch =? 95) || (ch =? 46) || (ch =? 47).

Definition cron_error (err : string) : goerr :=
  Wrap 2000 400 "invalid cron command template" (ErrNew err).

(** [None] when the command is accepted. *)
Definition validateCronCommand (command : string) : option goerr :=
  let normalized := TrimSpace command in
  if (normalized =? "")%string then Some (cron_error "command is empty")
  else
    match List.find (Contains normalized) blockedTokens with
    | Some token => Some (cron_error ("blocked shell token '" +:+ token +:+ "' in command"))
    | None =>
      match List.find (fun ch => negb (command_rune ch)) (runes normalized) with
      | Some ch => Some (cron_error ("unsupported character '" +:+ encode_rune ch +:+ "' in command"))
      | None => None
      end
    end.

Definition cron_ListTasks : prog ans (res (list dto.CronTask)) :=
  mapped (map mapCronTask) (agent AListCronTasks).

Definition cron_CreateTask (req : grpcclient.CreateCronTaskRequest) : prog ans (res dto.CronTask) :=
  match validateCronCommand (grpcclient.ccq_Command req) with
  | Some err => Ret (Err err)
  | None => mapped mapCronTask (agent (ACreateCronTask req))
  end.

Definition cron_UpdateTask (id : string) (req : grpcclient.CreateCronTaskRequest)
  : prog ans (res dto.CronTask) :=
  match validateCronCommand (grpcclient.ccq_Command req) with
  | Some err => Ret (Err err)
  | None => mapped mapCronTask (agent (AUpdateCronTask id req))
  end.

Definition cron_DeleteTask (id : string) : prog ans (res string) :=
  mapped (fun i => i) (agent (ADeleteCronTask id)).

Definition cron_SetEnabled (id : string) (enabled : bool) : prog ans (res dto.CronTask) :=
  mapped mapCronTask (agent (ASetCronTaskEnabled id enabled)).

End Services.

(** ** Properties of the cron guard *)

(** A rune below 128 is a byte of its own. *)
Lemma decode_ascii a s : (decode_rune (String a s)).1 < 128 -> (decode_rune (String a s)) = (byte a, 1%nat).
Proof.
  pose proof (byte_range a). cbn [decode_rune]. unfold is_cont, RuneError.
  destruct (byte a <? 128) eqn:E; [done|].
  repeat match goal with
  | |- context [match ?x with _ => _ end] =>
      lazymatch x with context [match _ with _ => _ end] => fail | _ => destruct x eqn:? end
  end; breflect; cbn [fst]; try lia; rewrite ?low6_mod; land_mods; Z.to_euclidean_division_equations; lia.
Qed.

Lemma ascii_runes s : Forall (fun r => r < 128) (runes s) -> runes s = map byte (String.list_ascii_of_string s).
Proof.
  induction s as [|s Hs IH] using segs_ind; [done|]. destruct s as [|a s]; [done|].
  unfold runes in *. rewrite segs_unfold by done. cbn [fmap list_fmap fst].
  rewrite Forall_cons. intros [Hr Hl]. pose proof (decode_ascii a s Hr) as E. rewrite E in IH, Hl |- *.
  cbn [String.list_ascii_of_string map]. f_equal. by apply IH.
Qed.

Lemma Contains_char s c : Contains s (String c "") = true -> byte c ∈ map byte (String.list_ascii_of_string s).
Proof.
  induction s as [|a s IH]; cbn [Contains String.list_ascii_of_string map String.prefix orb]; [done|].
  rewrite elem_of_cons. intros H. apply orb_prop in H as [H|H]; [left|right; auto].
  by destruct (Ascii.ascii_dec c a) as [->|].
Qed.

(** The blocked tokens are no command characters. *)
Lemma blocked_not_allowed t : t ∈ blockedTokens -> exists c, t = String c "" /\ command_rune (byte c) = false.
Proof.
  unfold blockedTokens. intros H. repeat (apply elem_of_cons in H as [->|H]; [eexists; split; reflexivity|]). by inversion H.
Qed.

(** The cron guard accepts a command exactly when, trimmed, it is not empty
    and every rune of it is a letter, a digit or one of [-], [_], [.], [/]; the
    list of blocked shell tokens rejects nothing more. *)
Theorem validateCronCommand_spec command :
  validateCronCommand command = None <->
  TrimSpace command <> "" /\ Forall (fun r => command_rune r = true) (runes (TrimSpace command)).
Proof.
  unfold validateCronCommand. set (n := TrimSpace command).
  destruct (String.eqb_spec n "") as [->|Hn]; [split; [done|intros [? _]; done]|]. split.
  - destruct (List.find (Contains n) blockedTokens); [done|].
    destruct (List.find _ (runes n)) as [ch|] eqn:E; [done|]. intros _. split; [done|].
    apply Forall_forall. intros r Hr. apply list_elem_of_In in Hr.
    pose proof (find_none _ _ E r Hr) as H. by apply negb_false_iff in H.
  - intros [_ Hall]. destruct (List.find (Contains n) blockedTokens) as [t|] eqn:E.
    + apply find_some in E as [Hin Hc]. apply list_elem_of_In in Hin.
      destruct (blocked_not_allowed t Hin) as (c & -> & Hf). apply Contains_char in Hc.
      rewrite <- ascii_runes in Hc.
      * rewrite Forall_forall in Hall. specialize (Hall _ Hc). congruence.
      * eapply Forall_impl; [exact Hall|]. intros r Hr. cbv beta in Hr. unfold command_rune in Hr. lia.
    + destruct (List.find _ (runes n)) as [ch|] eqn:E2; [|done].
      apply find_some in E2 as [Hin Hch]. apply list_elem_of_In in Hin.
      rewrite Forall_forall in Hall. specialize (Hall _ Hin). by rewrite Hall in Hch.
Qed.

(** The agent is asked to create or change a cron task only with an accepted
    command, and then with the request as it was given, once; any other request
    ends in a 400 error without a call. *)
Theorem cron_guard {W} (handle : forall o : agent_op, W -> agent_ans o * W) id req w :
  let accepted := validateCronCommand (grpcclient.ccq_Command req) in
  let reply (r : res grpcclient.CronTask * W) :=
    (match r.1 with Ok t => Ok (mapCronTask t) | Err e => Err (mapAgentError e) end, r.2) in
  match accepted with
  | None =>
    run handle (cron_CreateTask req) w = reply (handle (ACreateCronTask req) w)
    /\ run handle (cron_UpdateTask id req) w = reply (handle (AUpdateCronTask id req) w)
  | Some e => http_status e = 400
    /\ run handle (cron_CreateTask req) w = (Err e, w) /\ run handle (cron_UpdateTask id req) w = (Err e, w)
  end.
Proof.
  cbv zeta. unfold cron_CreateTask, cron_UpdateTask.
  destruct (validateCronCommand (grpcclient.ccq_Command req)) as [e|] eqn:E.
  - split; [|done]. unfold validateCronCommand in E. repeat case_hyp E; by simplify_eq.
  - split.
    + cbn. destruct (handle (ACreateCronTask req) w) as [[t|e] w']; done.
    + cbn. destruct (handle (AUpdateCronTask id req) w) as [[t|e] w']; done.
Qed.
