(* ===== verification/AgentClient.v ===== *)
(** * The agent's client

    [internal/grpcclient/agent_client.go] and [internal/requestctx]: every
    method of [Client] over a connection.  The messages are those of
    [proto/agent/v1/agent.proto] with the nil-safe getters of the generated
    code; dialling, calling and [status.FromError] are gRPC's. *)

From Stdlib Require Import ZArith Lia SpecFloat.
From stdpp Require Import gmap strings.
From S2P Require Import Prelude GoString GoError Effects Agent Metrics.

Open Scope prog_scope.

(** ** [requestctx] and [context] *)

(** What the client reads of a [context.Context]. *)
Record context := MkContext {
  ctx_requestID : option string;
  ctx_deadline : option Z;
  ctx_outgoing : list (string * string)   (* metadata.FromOutgoingContext *)
}.

Definition Background : context := MkContext None None [].

Definition WithRequestID (requestID : string) (ctx : context) : context :=
  let normalized := TrimSpace requestID in
  if (normalized =? "")%string then ctx else MkContext (Some normalized) (ctx_deadline ctx) (ctx_outgoing ctx).

(** [None] when the second result is false. *)
Definition RequestID (ctx : context) : option string :=
  match ctx_requestID ctx with
  | None => None
  | Some value => let id := TrimSpace value in if (id =? "")%string then None else Some id
  end.

Definition WithDeadline (at_ : Z) (ctx : context) : context :=
  MkContext (ctx_requestID ctx) (Some match ctx_deadline ctx with Some cur => Z.min cur at_ | None => at_ end) (ctx_outgoing ctx).

Definition AppendToOutgoingContext (key value : string) (ctx : context) : context :=
  MkContext (ctx_requestID ctx) (ctx_deadline ctx) (ctx_outgoing ctx ++ [(key, value)]).

(** ** Messages *)

Module agentv1.

Record Error := MkError { e_code : Z; e_message : string; e_detail : string }.

Record PathSafetyContext := { ps_requested_path : string; ps_allowed_roots : list string; ps_enforce_safe_root : bool;
  ps_follow_symlink : bool; ps_normalized_path : string }.

Record CPUInfo := { cpu_model : string; cpu_logical_cores : Z; cpu_usage_percent : spec_float }.
Record MemoryInfo := { mem_total_bytes : Z; mem_used_bytes : Z; mem_usage_percent : spec_float }.
Record DiskInfo := { disk_mount_point : string; disk_total_bytes : Z; disk_used_bytes : Z; disk_usage_percent : spec_float }.

Record SystemOverview := { ov_hostname : string; ov_os : string; ov_kernel : string; ov_uptime : string;
  ov_cpu : option CPUInfo; ov_memory : option MemoryInfo; ov_disks : list DiskInfo }.

Record RealtimeResource := { rs_cpu_usage_percent : spec_float; rs_memory_usage_percent : spec_float;
  rs_disk_usage_percent : spec_float; rs_load_average_1m : spec_float; rs_load_average_5m : spec_float;
  rs_load_average_15m : spec_float }.

Record FileEntry := { f_name : string; f_path : string; f_is_dir : bool; f_size : Z; f_modified_at_unix : Z }.
Record ListFilesRequest := { lfq_path : string; lfq_safety : option PathSafetyContext }.
Record ListFilesBody := { lf_current_path : string; lf_entries : list FileEntry }.
Record ReadTextFileRequest := { rtq_path : string; rtq_max_bytes : Z; rtq_encoding : string; rtq_safety : option PathSafetyContext }.
Record ReadTextFileBody := { rt_path : string; rt_content : string; rt_size : Z; rt_truncated : bool; rt_encoding : string }.
Record ReadFileChunkRequest := { rcq_path : string; rcq_offset : Z; rcq_limit : Z; rcq_safety : option PathSafetyContext }.
Record ReadFileChunkBody := { rc_path : string; rc_offset : Z; rc_chunk : string; rc_total_size : Z; rc_eof : bool }.
Record WriteFileChunkRequest := { wcq_path : string; wcq_offset : Z; wcq_chunk : string; wcq_create_if_not_exists : bool;
  wcq_truncate : bool; wcq_safety : option PathSafetyContext }.
Record WriteFileChunkBody := { wc_path : string; wc_offset : Z; wc_written_bytes : Z; wc_total_size : Z }.
Record WriteTextFileRequest := { wtq_path : string; wtq_content : string; wtq_create_if_not_exists : bool; wtq_truncate : bool;
  wtq_encoding : string; wtq_safety : option PathSafetyContext }.
Record WriteTextFileBody := { wt_path : string; wt_written_bytes : Z }.
Record CreateDirectoryRequest := { cdq_path : string; cdq_create_parents : bool; cdq_safety : option PathSafetyContext }.
Record DeleteFileRequest := { dfq_path : string; dfq_recursive : bool; dfq_safety : option PathSafetyContext }.
Record RenameFileRequest := { rnq_source_path : string; rnq_target_path : string; rnq_safety : option PathSafetyContext }.
Record RenameFileBody := { rn_source_path : string; rn_target_path : string; rn_moved_bytes : Z }.

Record ServiceInfo := { s_name : string; s_display_name : string; s_status : string }.
Record ServiceActionBody := { sa_name : string; sa_status : string }.

Record DockerContainerInfo := { c_id : string; c_name : string; c_image : string; c_state : string; c_status : string }.
Record DockerContainerActionBody := { ca_id : string; ca_state : string }.
Record DockerImageInfo := { i_id : string; i_repo_tags : list string; i_size : Z }.

Record CronTask := { t_id : string; t_expression : string; t_command : string; t_enabled : bool }.
Record CreateCronTaskRequest := { ccq_expression : string; ccq_command : string; ccq_enabled : bool }.
Record UpdateCronTaskRequest := { ucq_id : string; ucq_expression : string; ucq_command : string; ucq_enabled : bool }.
Record SetCronTaskEnabledRequest := { scq_id : string; scq_enabled : bool }.

End agentv1.

(** The procedures of the six services; a message with one field is that field. *)
Inductive rpc :=
| RCheck
| RGetSystemOverview
| RGetRealtimeResource
| RListFiles (req : agentv1.ListFilesRequest)
| RReadTextFile (req : agentv1.ReadTextFileRequest)
| RReadFileChunk (req : agentv1.ReadFileChunkRequest)
| RWriteFileChunk (req : agentv1.WriteFileChunkRequest)
| RWriteTextFile (req : agentv1.WriteTextFileRequest)
| RCreateDirectory (req : agentv1.CreateDirectoryRequest)
| RDeleteFile (req : agentv1.DeleteFileRequest)
| RRenameFile (req : agentv1.RenameFileRequest)
| RListServices (keyword : string)
| RStartService (name : string)
| RStopService (name : string)
| RRestartService (name : string)
| RListContainers
| RStartContainer (id : string)
| RStopContainer (id : string)
| RRestartContainer (id : string)
| RListImages
| RListCronTasks (owner : string)
| RCreateCronTask (req : agentv1.CreateCronTaskRequest)
| RUpdateCronTask (req : agentv1.UpdateCronTaskRequest)
| RDeleteCronTask (id : string)
| RSetCronTaskEnabled (req : agentv1.SetCronTaskEnabledRequest).

(** The fields of a response beside its [error]. *)
Definition rpc_body (r : rpc) : Type :=
  match r with
  | RCheck => string
  | RGetSystemOverview => option agentv1.SystemOverview
  | RGetRealtimeResource => option agentv1.RealtimeResource
  | RListFiles _ => agentv1.ListFilesBody
  | RReadTextFile _ => agentv1.ReadTextFileBody
  | RReadFileChunk _ => agentv1.ReadFileChunkBody
  | RWriteFileChunk _ => agentv1.WriteFileChunkBody
  | RWriteTextFile _ => agentv1.WriteTextFileBody
  | RCreateDirectory _ | RDeleteFile _ | RDeleteCronTask _ => string
  | RRenameFile _ => agentv1.RenameFileBody
  | RListServices _ => list agentv1.ServiceInfo
  | RStartService _ | RStopService _ | RRestartService _ => agentv1.ServiceActionBody
  | RListContainers => list agentv1.DockerContainerInfo
  | RStartContainer _ | RStopContainer _ | RRestartContainer _ => agentv1.DockerContainerActionBody
  | RListImages => list agentv1.DockerImageInfo
  | RListCronTasks _ => list agentv1.CronTask
  | RCreateCronTask _ | RUpdateCronTask _ | RSetCronTaskEnabled _ => option agentv1.CronTask
  end.

Record Response (r : rpc) := MkResponse { GetError : option agentv1.Error; GetBody : rpc_body r }.
Arguments MkResponse {r}.
Arguments GetError {r}.
Arguments GetBody {r}.

(** ** Errors *)

Definition agentUnavailableCode : Z := 3001.
Definition agentInvalidPayloadCode : Z := 3002.

Definition invalidPayloadError (detail : string) : goerr :=
  ErrAgent agentInvalidPayloadCode "invalid core agent response" detail codes.Internal None.

(** [None] when the call was answered. *)
Definition responseError (err : option agentv1.Error) : option goerr :=
  match err with
  | None => Some (invalidPayloadError "missing error envelope")
  | Some err =>
    if agentv1.e_code err =? 0 then None
    else
      let message := TrimSpace (agentv1.e_message err) in
      let message := if (message =? "")%string then "core agent request failed" else message in
      Some (ErrAgent (agentv1.e_code err) message (TrimSpace (agentv1.e_detail err)) codes.OK None)
  end.

(** [status.FromError] of [google.golang.org/grpc]: the code and the message of
    an error that has a status. *)
Class GrpcStatus := FromError : goerr -> option (Z * string).

Section Errors.
Context `{GrpcStatus}.

Definition transport_message (code : Z) : string :=
  if code =? codes.InvalidArgument then "invalid request to core agent"
  else if code =? codes.Unauthenticated then "core agent authentication failed"
  else if code =? codes.PermissionDenied then "core agent permission denied"
  else if code =? codes.Unimplemented then "core agent rpc is not implemented"
  else "core agent unavailable".

Definition transportError (err : goerr) : goerr :=
  match FromError err with
  | None => ErrAgent agentUnavailableCode "core agent unavailable" (Error err) codes.Unknown (Some err)
  | Some (code, message) => ErrAgent agentUnavailableCode (transport_message code) message code (Some err)
  end.

End Errors.

Definition as_goerr (e : AgentError) : goerr := ErrAgent (ag_Code e) (ag_Message e) (ag_Detail e) (ag_GRPCCode e) (ag_Cause e).

(** ** The client *)

Record ClientAuth := { Mode : string; SharedToken : string }.

Definition normalizeAuthConfig (authConfig : ClientAuth) : ClientAuth :=
  let mode := TrimSpace (ToLower (Mode authConfig)) in
  {| Mode := if (mode =? "")%string then "none" else mode; SharedToken := TrimSpace (SharedToken authConfig) |}.

Record Client := { target : string; timeout : Z; authConfig : ClientAuth }.

Definition NewWithAuth (target : string) (timeout : Z) (auth : ClientAuth) : Client :=
  {| target := target; timeout := timeout; authConfig := normalizeAuthConfig auth |}.

Definition New (target : string) (timeout : Z) : Client := NewWithAuth target timeout {| Mode := "none"; SharedToken := "" |}.

Definition requestIDMetadataKey : string := "x-request-id".
Definition agentTokenMetadataKey : string := "x-snowpanel-agent-token".

Definition withOutgoingRequestID (ctx : context) : context :=
  match RequestID ctx with
  | None => ctx
  | Some requestID => AppendToOutgoingContext requestIDMetadataKey requestID ctx
  end.

Definition withOutgoingAuth (c : Client) (ctx : context) : context :=
  if negb (Mode (authConfig c) =? "token")%string then ctx
  else AppendToOutgoingContext agentTokenMetadataKey (SharedToken (authConfig c)) ctx.

(** What the client does. *)
Inductive client_op :=
| ClientNow
| DialContext (ctx : context) (target : string)
| Call (ctx : context) (r : rpc)
| Close
| ObserveRequest (rpcName : string) (transport : bool) (err : option goerr) (duration : Z).

Definition client_ans (o : client_op) : Type :=
  match o with
  | ClientNow => Z
  | DialContext _ _ => res unit
  | Call _ r => res (Response r)
  | Close | ObserveRequest _ _ _ _ => unit
  end.

Abbreviation client A := (prog client_ans A).

Module grpc_client.

Section Methods.
Context `{GrpcStatus} (c : Client) (ctx : context).

(** [agentMetrics.ObserveAgentRequest(rpcName, ..., time.Since(startedAt))]. *)
Definition observe_since (startedAt : Z) (rpcName : string) (transport : bool) (err : option goerr) : client unit :=
  now <- (call ClientNow : client Z) ;; (call (ObserveRequest rpcName transport err (now - startedAt)) : client unit).

(** [invoke] from the dialling on. *)
Definition exchange (rpcName : string) (startedAt : Z) {A} (rpc_call : context -> client (res A)) (callCtx : context) : client (res A) :=
  conn <- (call (DialContext callCtx (target c)) : client (res unit)) ;;
  match conn with
  | Err err =>
    let transportErr := transportError err in
    observe_since startedAt rpcName true (Some transportErr) ;;;
    Ret (Err transportErr)
  | Ok _ =>
    r <- rpc_call callCtx ;;
    match r with
    | Err err =>
      match AsAgent err with
      | Some agentErr =>
        observe_since startedAt rpcName (IsTransport agentErr) (Some (as_goerr agentErr)) ;;;
        (call Close : client unit) ;;;
        Ret (Err (as_goerr agentErr))
      | None =>
        let transportErr := transportError err in
        observe_since startedAt rpcName true (Some transportErr) ;;;
        (call Close : client unit) ;;;
        Ret (Err transportErr)
      end
    | Ok result =>
      observe_since startedAt rpcName false None ;;;
      (call Close : client unit) ;;;
      Ret (Ok result)
    end
  end.

Definition invoke (rpcName : string) {A} (rpc_call : context -> client (res A)) : client (res A) :=
  startedAt <- (call ClientNow : client Z) ;;
  callCtx <- (if 0 <? timeout c then now <- (call ClientNow : client Z) ;; Ret (WithDeadline (now + timeout c) ctx) else Ret ctx) ;;
  let callCtx := withOutgoingAuth c (withOutgoingRequestID callCtx) in
  exchange rpcName startedAt rpc_call callCtx.

(** The body of every [call]: the procedure, its error, its result. *)
Definition unary (r : rpc) {A} (read : rpc_body r -> res A) (callCtx : context) : client (res A) :=
  resp <- (call (Call callCtx r) : client (res (Response r))) ;;
  Ret (res_bind resp (fun resp =>
    match responseError (GetError resp) with
    | Some err => Err err
    | None => read (GetBody resp)
    end)).

Definition CheckHealth : client (res string) :=
  invoke "health.check" (unary RCheck (fun status =>
    let result := TrimSpace status in
    Ok (if (result =? "")%string then "UNKNOWN" else result))).

(** [math.Max]. *)
Definition Max (x y : spec_float) : spec_float :=
  match x, y with
  | S754_infinity false, _ | _, S754_infinity false => S754_infinity false
  | S754_nan, _ | _, S754_nan => S754_nan
  | S754_zero true, S754_zero _ => y
  | S754_zero false, S754_zero _ => x
  | _, _ => if SFltb y x then x else y
  end.

Definition extractDiskUsagePercent (disks : list agentv1.DiskInfo) : spec_float :=
  match List.find (fun disk => agentv1.disk_mount_point disk =? "/")%string disks with
  | Some disk => agentv1.disk_usage_percent disk
  | None => foldl (fun maxUsage disk => Max maxUsage (agentv1.disk_usage_percent disk)) (S754_zero false) disks
  end.

Definition GetSystemOverview : client (res grpcclient.SystemOverview) :=
  invoke "system.get_overview" (unary RGetSystemOverview (fun overview =>
    match overview with
    | None => Err (invalidPayloadError "system overview payload is empty")
    | Some overview => Ok
      {| grpcclient.so_Hostname := agentv1.ov_hostname overview; grpcclient.so_OS := agentv1.ov_os overview;
         grpcclient.so_Kernel := agentv1.ov_kernel overview; grpcclient.so_Uptime := agentv1.ov_uptime overview;
         grpcclient.so_CPUUsagePercent := from_option agentv1.cpu_usage_percent (S754_zero false) (agentv1.ov_cpu overview);
         grpcclient.so_MemoryUsagePercent := from_option agentv1.mem_usage_percent (S754_zero false) (agentv1.ov_memory overview);
         grpcclient.so_DiskUsagePercent := extractDiskUsagePercent (agentv1.ov_disks overview) |}
    end)).

Definition GetRealtimeResource : client (res grpcclient.RealtimeResource) :=
  invoke "system.get_realtime_resource" (unary RGetRealtimeResource (fun resource =>
    match resource with
    | None => Err (invalidPayloadError "realtime resource payload is empty")
    | Some resource => Ok
      {| grpcclient.rr_CPUUsagePercent := agentv1.rs_cpu_usage_percent resource;
         grpcclient.rr_MemoryUsagePercent := agentv1.rs_memory_usage_percent resource;
         grpcclient.rr_DiskUsagePercent := agentv1.rs_disk_usage_percent resource;
         grpcclient.rr_LoadAverage1m := agentv1.rs_load_average_1m resource;
         grpcclient.rr_LoadAverage5m := agentv1.rs_load_average_5m resource;
         grpcclient.rr_LoadAverage15m := agentv1.rs_load_average_15m resource |}
    end)).


Definition ListFiles (path : string) : client (res grpcclient.ListFilesResult) :=
  invoke "file.list" (unary (RListFiles {| agentv1.lfq_path := path; agentv1.lfq_safety := None |}) (fun resp => Ok
    {| grpcclient.lf_CurrentPath := agentv1.lf_current_path resp;
       grpcclient.lf_Entries := map (fun entry =>
         {| grpcclient.fe_Name := agentv1.f_name entry; grpcclient.fe_Path := agentv1.f_path entry;
            grpcclient.fe_IsDir := agentv1.f_is_dir entry; grpcclient.fe_Size := agentv1.f_size entry;
            grpcclient.fe_ModifiedAtUnix := agentv1.f_modified_at_unix entry |}) (agentv1.lf_entries resp) |})).

Definition ReadTextFile (req : grpcclient.ReadTextFileRequest) : client (res grpcclient.ReadTextFileResult) :=
  invoke "file.read_text" (unary (RReadTextFile
      {| agentv1.rtq_path := grpcclient.rtq_Path req; agentv1.rtq_max_bytes := grpcclient.rtq_MaxBytes req;
         agentv1.rtq_encoding := grpcclient.rtq_Encoding req; agentv1.rtq_safety := None |}) (fun resp => Ok
    {| grpcclient.rt_Path := agentv1.rt_path resp; grpcclient.rt_Content := agentv1.rt_content resp;
       grpcclient.rt_Size := agentv1.rt_size resp; grpcclient.rt_Truncated := agentv1.rt_truncated resp;
       grpcclient.rt_Encoding := agentv1.rt_encoding resp |})).

Definition ReadFileChunk (req : grpcclient.ReadFileChunkRequest) : client (res grpcclient.ReadFileChunkResult) :=
  invoke "file.read_chunk" (unary (RReadFileChunk
      {| agentv1.rcq_path := grpcclient.rcq_Path req; agentv1.rcq_offset := grpcclient.rcq_Offset req;
         agentv1.rcq_limit := grpcclient.rcq_Limit req; agentv1.rcq_safety := None |}) (fun resp => Ok
    {| grpcclient.rc_Path := agentv1.rc_path resp; grpcclient.rc_Offset := agentv1.rc_offset resp;
       grpcclient.rc_Chunk := agentv1.rc_chunk resp; grpcclient.rc_TotalSize := agentv1.rc_total_size resp;
       grpcclient.rc_EOF := agentv1.rc_eof resp |})).

Definition WriteFileChunk (req : grpcclient.WriteFileChunkRequest) : client (res grpcclient.WriteFileChunkResult) :=
  invoke "file.write_chunk" (unary (RWriteFileChunk
      {| agentv1.wcq_path := grpcclient.wcq_Path req; agentv1.wcq_offset := grpcclient.wcq_Offset req;
         agentv1.wcq_chunk := grpcclient.wcq_Chunk req;
         agentv1.wcq_create_if_not_exists := grpcclient.wcq_CreateIfNotExists req;
         agentv1.wcq_truncate := grpcclient.wcq_Truncate req; agentv1.wcq_safety := None |}) (fun resp => Ok
    {| grpcclient.wc_Path := agentv1.wc_path resp; grpcclient.wc_Offset := agentv1.wc_offset resp;
       grpcclient.wc_WrittenBytes := agentv1.wc_written_bytes resp; grpcclient.wc_TotalSize := agentv1.wc_total_size resp |})).

Definition WriteTextFile (req : grpcclient.WriteTextFileRequest) : client (res grpcclient.WriteTextFileResult) :=
  invoke "file.write_text" (unary (RWriteTextFile
      {| agentv1.wtq_path := grpcclient.wtq_Path req; agentv1.wtq_content := grpcclient.wtq_Content req;
         agentv1.wtq_create_if_not_exists := grpcclient.wtq_CreateIfNotExists req;
         agentv1.wtq_truncate := grpcclient.wtq_Truncate req; agentv1.wtq_encoding := grpcclient.wtq_Encoding req;
         agentv1.wtq_safety := None |}) (fun resp => Ok
    {| grpcclient.wt_Path := agentv1.wt_path resp; grpcclient.wt_WrittenBytes := agentv1.wt_written_bytes resp |})).

Definition CreateDirectory (req : grpcclient.CreateDirectoryRequest) : client (res string) :=
  invoke "file.create_directory" (unary (RCreateDirectory
    {| agentv1.cdq_path := grpcclient.cdq_Path req; agentv1.cdq_create_parents := grpcclient.cdq_CreateParents req;
       agentv1.cdq_safety := None |}) Ok).

Definition DeleteFile (req : grpcclient.DeleteFileRequest) : client (res string) :=
  invoke "file.delete" (unary (RDeleteFile
    {| agentv1.dfq_path := grpcclient.dfq_Path req; agentv1.dfq_recursive := grpcclient.dfq_Recursive req;
       agentv1.dfq_safety := None |}) Ok).

Definition RenameFile (req : grpcclient.RenameFileRequest) : client (res grpcclient.RenameFileResult) :=
  invoke "file.rename" (unary (RRenameFile
      {| agentv1.rnq_source_path := grpcclient.rnq_SourcePath req; agentv1.rnq_target_path := grpcclient.rnq_TargetPath req;
         agentv1.rnq_safety := None |}) (fun resp => Ok
    {| grpcclient.rn_SourcePath := agentv1.rn_source_path resp; grpcclient.rn_TargetPath := agentv1.rn_target_path resp;
       grpcclient.rn_MovedBytes := agentv1.rn_moved_bytes resp |})).

Definition ListServices (keyword : string) : client (res (list grpcclient.ServiceInfo)) :=
  invoke "service.list" (unary (RListServices keyword) (fun services => Ok
    (map (fun item =>
      {| grpcclient.si_Name := agentv1.s_name item; grpcclient.si_DisplayName := agentv1.s_display_name item;
         grpcclient.si_Status := agentv1.s_status item |}) services))).

(** [runServiceAction] and [runDockerAction]: the three procedures of each
    answer alike. *)
Definition service_result (resp : agentv1.ServiceActionBody) : res grpcclient.ServiceActionResult :=
  Ok {| grpcclient.sa_Name := agentv1.sa_name resp; grpcclient.sa_Status := agentv1.sa_status resp |}.

Definition StartService (name : string) : client (res grpcclient.ServiceActionResult) :=
  invoke "service.start" (unary (RStartService name) service_result).
Definition StopService (name : string) : client (res grpcclient.ServiceActionResult) :=
  invoke "service.stop" (unary (RStopService name) service_result).
Definition RestartService (name : string) : client (res grpcclient.ServiceActionResult) :=
  invoke "service.restart" (unary (RRestartService name) service_result).

Definition ListDockerContainers : client (res (list grpcclient.DockerContainerInfo)) :=
  invoke "docker.list_containers" (unary RListContainers (fun containers => Ok
    (map (fun item =>
      {| grpcclient.dc_ID := agentv1.c_id item; grpcclient.dc_Name := agentv1.c_name item;
         grpcclient.dc_Image := agentv1.c_image item; grpcclient.dc_State := agentv1.c_state item;
         grpcclient.dc_Status := agentv1.c_status item |}) containers))).

Definition docker_result (resp : agentv1.DockerContainerActionBody) : res grpcclient.DockerContainerActionResult :=
  Ok {| grpcclient.da_ID := agentv1.ca_id resp; grpcclient.da_State := agentv1.ca_state resp |}.

Definition StartDockerContainer (id : string) : client (res grpcclient.DockerContainerActionResult) :=
  invoke "docker.start" (unary (RStartContainer id) docker_result).
Definition StopDockerContainer (id : string) : client (res grpcclient.DockerContainerActionResult) :=
  invoke "docker.stop" (unary (RStopContainer id) docker_result).
Definition RestartDockerContainer (id : string) : client (res grpcclient.DockerContainerActionResult) :=
  invoke "docker.restart" (unary (RRestartContainer id) docker_result).

Definition ListDockerImages : client (res (list grpcclient.DockerImageInfo)) :=
  invoke "docker.list_images" (unary RListImages (fun images => Ok
    (map (fun item =>
      {| grpcclient.di_ID := agentv1.i_id item; grpcclient.di_RepoTags := agentv1.i_repo_tags item;
         grpcclient.di_Size := agentv1.i_size item |}) images))).

Definition cron_task (task : agentv1.CronTask) : grpcclient.CronTask :=
  {| grpcclient.ct_ID := agentv1.t_id task; grpcclient.ct_Expression := agentv1.t_expression task;
     grpcclient.ct_Command := agentv1.t_command task; grpcclient.ct_Enabled := agentv1.t_enabled task |}.

Definition cronTaskFromProto (task : option agentv1.CronTask) : res grpcclient.CronTask :=
  match task with
  | None => Err (invalidPayloadError "missing cron task payload")
  | Some task => Ok (cron_task task)
  end.

Definition ListCronTasks : client (res (list grpcclient.CronTask)) :=
  invoke "cron.list" (unary (RListCronTasks "") (fun tasks => Ok (map cron_task tasks))).

Definition CreateCronTask (req : grpcclient.CreateCronTaskRequest) : client (res grpcclient.CronTask) :=
  invoke "cron.create" (unary (RCreateCronTask
    {| agentv1.ccq_expression := grpcclient.ccq_Expression req; agentv1.ccq_command := grpcclient.ccq_Command req;
       agentv1.ccq_enabled := grpcclient.ccq_Enabled req |}) cronTaskFromProto).

Definition UpdateCronTask (id : string) (req : grpcclient.CreateCronTaskRequest) : client (res grpcclient.CronTask) :=
  invoke "cron.update" (unary (RUpdateCronTask
    {| agentv1.ucq_id := id; agentv1.ucq_expression := grpcclient.ccq_Expression req;
       agentv1.ucq_command := grpcclient.ccq_Command req; agentv1.ucq_enabled := grpcclient.ccq_Enabled req |}) cronTaskFromProto).

Definition DeleteCronTask (id : string) : client (res string) :=
  invoke "cron.delete" (unary (RDeleteCronTask id) Ok).

Definition SetCronTaskEnabled (id : string) (enabled : bool) : client (res grpcclient.CronTask) :=
  invoke "cron.set_enabled" (unary (RSetCronTaskEnabled
    {| agentv1.scq_id := id; agentv1.scq_enabled := enabled |}) cronTaskFromProto).

(** The method of an operation of the interface. *)
Definition method (o : agent_op) : client (agent_ans o) :=
  match o return client (agent_ans o) with
  | AGetSystemOverview => GetSystemOverview
  | AGetRealtimeResource => GetRealtimeResource
  | AListFiles path => ListFiles path
  | AReadTextFile req => ReadTextFile req
  | AReadFileChunk req => ReadFileChunk req
  | AWriteFileChunk req => WriteFileChunk req
  | AWriteTextFile req => WriteTextFile req
  | ACreateDirectory req => CreateDirectory req
  | ADeleteFile req => DeleteFile req
  | ARenameFile req => RenameFile req
  | AListServices keyword => ListServices keyword
  | AStartService name => StartService name
  | AStopService name => StopService name
  | ARestartService name => RestartService name
  | AListDockerContainers => ListDockerContainers
  | AStartDockerContainer id => StartDockerContainer id
  | AStopDockerContainer id => StopDockerContainer id
  | ARestartDockerContainer id => RestartDockerContainer id
  | AListDockerImages => ListDockerImages
  | AListCronTasks => ListCronTasks
  | ACreateCronTask req => CreateCronTask req
  | AUpdateCronTask id req => UpdateCronTask id req
  | ADeleteCronTask id => DeleteCronTask id
  | ASetCronTaskEnabled id enabled => SetCronTaskEnabled id enabled
  end.

End Methods.

End grpc_client.
