(* ===== verification/AgentClientProps.v ===== *)
(** * The client over a connection

    What every method of the client does on the wire, and that an agent behind
    the connection is, for the services, the agent itself. *)

From Stdlib Require Import ZArith Lia SpecFloat.
From stdpp Require Import gmap strings.
From S2P Require Import Prelude GoString GoError Effects Agent Metrics AgentServices AgentClient.

(** ** Execution *)

(** The clock, the dialling and the answers of the agent, by the step. *)
Record ClientEnv := {
  ce_now : nat -> Z;
  ce_dial : nat -> res unit;
  ce_call : nat -> forall r, res (Response r)
}.

(** What reached the network. *)
Inductive sent :=
| Dialled (ctx : context) (target : string)
| Called (ctx : context) (r : rpc).

Record ClientWorld := MkClientWorld {
  clw_step : nat;
  clw_sent : list sent;
  clw_open : Z;
  clw_metrics : option MetricsSet
}.

Definition client_handle (env : ClientEnv) (o : client_op) (w : ClientWorld) : client_ans o * ClientWorld :=
  let n := clw_step w in
  match o return client_ans o * ClientWorld with
  | ClientNow => (ce_now env n, MkClientWorld (S n) (clw_sent w) (clw_open w) (clw_metrics w))
  | DialContext ctx target =>
    (ce_dial env n, MkClientWorld (S n) (clw_sent w ++ [Dialled ctx target])
                      (clw_open w + (if is_ok (ce_dial env n) then 1 else 0)) (clw_metrics w))
  | Call ctx r => (ce_call env n r, MkClientWorld (S n) (clw_sent w ++ [Called ctx r]) (clw_open w) (clw_metrics w))
  | Close => (tt, MkClientWorld (S n) (clw_sent w) (clw_open w - 1) (clw_metrics w))
  | ObserveRequest rpcName transport err duration =>
    (tt, MkClientWorld (S n) (clw_sent w) (clw_open w) (ObserveAgentRequest rpcName transport err duration (clw_metrics w)))
  end.

(** ** The agent's side of the wire *)

(** The operation a request asks for. *)
Definition served (r : rpc) : option agent_op :=
  match r with
  | RCheck => None
  | RGetSystemOverview => Some AGetSystemOverview
  | RGetRealtimeResource => Some AGetRealtimeResource
  | RListFiles req => Some (AListFiles (agentv1.lfq_path req))
  | RReadTextFile req => Some (AReadTextFile {| grpcclient.rtq_Path := agentv1.rtq_path req;
      grpcclient.rtq_MaxBytes := agentv1.rtq_max_bytes req; grpcclient.rtq_Encoding := agentv1.rtq_encoding req |})
  | RReadFileChunk req => Some (AReadFileChunk {| grpcclient.rcq_Path := agentv1.rcq_path req;
      grpcclient.rcq_Offset := agentv1.rcq_offset req; grpcclient.rcq_Limit := agentv1.rcq_limit req |})
  | RWriteFileChunk req => Some (AWriteFileChunk {| grpcclient.wcq_Path := agentv1.wcq_path req;
      grpcclient.wcq_Offset := agentv1.wcq_offset req; grpcclient.wcq_Chunk := agentv1.wcq_chunk req;
      grpcclient.wcq_CreateIfNotExists := agentv1.wcq_create_if_not_exists req; grpcclient.wcq_Truncate := agentv1.wcq_truncate req |})
  | RWriteTextFile req => Some (AWriteTextFile {| grpcclient.wtq_Path := agentv1.wtq_path req;
      grpcclient.wtq_Content := agentv1.wtq_content req; grpcclient.wtq_CreateIfNotExists := agentv1.wtq_create_if_not_exists req;
      grpcclient.wtq_Truncate := agentv1.wtq_truncate req; grpcclient.wtq_Encoding := agentv1.wtq_encoding req |})
  | RCreateDirectory req => Some (ACreateDirectory {| grpcclient.cdq_Path := agentv1.cdq_path req;
      grpcclient.cdq_CreateParents := agentv1.cdq_create_parents req |})
  | RDeleteFile req => Some (ADeleteFile {| grpcclient.dfq_Path := agentv1.dfq_path req;
      grpcclient.dfq_Recursive := agentv1.dfq_recursive req |})
  | RRenameFile req => Some (ARenameFile {| grpcclient.rnq_SourcePath := agentv1.rnq_source_path req;
      grpcclient.rnq_TargetPath := agentv1.rnq_target_path req |})
  | RListServices keyword => Some (AListServices keyword)
  | RStartService name => Some (AStartService name)
  | RStopService name => Some (AStopService name)
  | RRestartService name => Some (ARestartService name)
  | RListContainers => Some AListDockerContainers
  | RStartContainer id => Some (AStartDockerContainer id)
  | RStopContainer id => Some (AStopDockerContainer id)
  | RRestartContainer id => Some (ARestartDockerContainer id)
  | RListImages => Some AListDockerImages
  | RListCronTasks _ => Some AListCronTasks
  | RCreateCronTask req => Some (ACreateCronTask {| grpcclient.ccq_Expression := agentv1.ccq_expression req;
      grpcclient.ccq_Command := agentv1.ccq_command req; grpcclient.ccq_Enabled := agentv1.ccq_enabled req |})
  | RUpdateCronTask req => Some (AUpdateCronTask (agentv1.ucq_id req) {| grpcclient.ccq_Expression := agentv1.ucq_expression req;
      grpcclient.ccq_Command := agentv1.ucq_command req; grpcclient.ccq_Enabled := agentv1.ucq_enabled req |})
  | RDeleteCronTask id => Some (ADeleteCronTask id)
  | RSetCronTaskEnabled req => Some (ASetCronTaskEnabled (agentv1.scq_id req) (agentv1.scq_enabled req))
  end.

(** The messages of results. *)
Definition overview_message (x : grpcclient.SystemOverview) : agentv1.SystemOverview :=
  {| agentv1.ov_hostname := grpcclient.so_Hostname x; agentv1.ov_os := grpcclient.so_OS x;
     agentv1.ov_kernel := grpcclient.so_Kernel x; agentv1.ov_uptime := grpcclient.so_Uptime x;
     agentv1.ov_cpu := Some {| agentv1.cpu_model := ""; agentv1.cpu_logical_cores := 1;
       agentv1.cpu_usage_percent := grpcclient.so_CPUUsagePercent x |};
     agentv1.ov_memory := Some {| agentv1.mem_total_bytes := 0; agentv1.mem_used_bytes := 0;
       agentv1.mem_usage_percent := grpcclient.so_MemoryUsagePercent x |};
     agentv1.ov_disks := [{| agentv1.disk_mount_point := "/"; agentv1.disk_total_bytes := 0; agentv1.disk_used_bytes := 0;
       agentv1.disk_usage_percent := grpcclient.so_DiskUsagePercent x |}] |}.

Definition resource_message (x : grpcclient.RealtimeResource) : agentv1.RealtimeResource :=
  {| agentv1.rs_cpu_usage_percent := grpcclient.rr_CPUUsagePercent x;
     agentv1.rs_memory_usage_percent := grpcclient.rr_MemoryUsagePercent x;
     agentv1.rs_disk_usage_percent := grpcclient.rr_DiskUsagePercent x;
     agentv1.rs_load_average_1m := grpcclient.rr_LoadAverage1m x; agentv1.rs_load_average_5m := grpcclient.rr_LoadAverage5m x;
     agentv1.rs_load_average_15m := grpcclient.rr_LoadAverage15m x |}.

Definition files_message (x : grpcclient.ListFilesResult) : agentv1.ListFilesBody :=
  {| agentv1.lf_current_path := grpcclient.lf_CurrentPath x;
     agentv1.lf_entries := map (fun e => {| agentv1.f_name := grpcclient.fe_Name e; agentv1.f_path := grpcclient.fe_Path e;
       agentv1.f_is_dir := grpcclient.fe_IsDir e; agentv1.f_size := grpcclient.fe_Size e;
       agentv1.f_modified_at_unix := grpcclient.fe_ModifiedAtUnix e |}) (grpcclient.lf_Entries x) |}.

Definition text_message (x : grpcclient.ReadTextFileResult) : agentv1.ReadTextFileBody :=
  {| agentv1.rt_path := grpcclient.rt_Path x; agentv1.rt_content := grpcclient.rt_Content x; agentv1.rt_size := grpcclient.rt_Size x;
     agentv1.rt_truncated := grpcclient.rt_Truncated x; agentv1.rt_encoding := grpcclient.rt_Encoding x |}.

Definition chunk_message (x : grpcclient.ReadFileChunkResult) : agentv1.ReadFileChunkBody :=
  {| agentv1.rc_path := grpcclient.rc_Path x; agentv1.rc_offset := grpcclient.rc_Offset x; agentv1.rc_chunk := grpcclient.rc_Chunk x;
     agentv1.rc_total_size := grpcclient.rc_TotalSize x; agentv1.rc_eof := grpcclient.rc_EOF x |}.

Definition written_chunk_message (x : grpcclient.WriteFileChunkResult) : agentv1.WriteFileChunkBody :=
  {| agentv1.wc_path := grpcclient.wc_Path x; agentv1.wc_offset := grpcclient.wc_Offset x;
     agentv1.wc_written_bytes := grpcclient.wc_WrittenBytes x; agentv1.wc_total_size := grpcclient.wc_TotalSize x |}.

Definition written_text_message (x : grpcclient.WriteTextFileResult) : agentv1.WriteTextFileBody :=
  {| agentv1.wt_path := grpcclient.wt_Path x; agentv1.wt_written_bytes := grpcclient.wt_WrittenBytes x |}.

Definition renamed_message (x : grpcclient.RenameFileResult) : agentv1.RenameFileBody :=
  {| agentv1.rn_source_path := grpcclient.rn_SourcePath x; agentv1.rn_target_path := grpcclient.rn_TargetPath x;
     agentv1.rn_moved_bytes := grpcclient.rn_MovedBytes x |}.

Definition service_message (x : grpcclient.ServiceInfo) : agentv1.ServiceInfo :=
  {| agentv1.s_name := grpcclient.si_Name x; agentv1.s_display_name := grpcclient.si_DisplayName x;
     agentv1.s_status := grpcclient.si_Status x |}.

Definition service_action_message (x : grpcclient.ServiceActionResult) : agentv1.ServiceActionBody :=
  {| agentv1.sa_name := grpcclient.sa_Name x; agentv1.sa_status := grpcclient.sa_Status x |}.

Definition container_message (x : grpcclient.DockerContainerInfo) : agentv1.DockerContainerInfo :=
  {| agentv1.c_id := grpcclient.dc_ID x; agentv1.c_name := grpcclient.dc_Name x; agentv1.c_image := grpcclient.dc_Image x;
     agentv1.c_state := grpcclient.dc_State x; agentv1.c_status := grpcclient.dc_Status x |}.

Definition docker_action_message (x : grpcclient.DockerContainerActionResult) : agentv1.DockerContainerActionBody :=
  {| agentv1.ca_id := grpcclient.da_ID x; agentv1.ca_state := grpcclient.da_State x |}.

Definition image_message (x : grpcclient.DockerImageInfo) : agentv1.DockerImageInfo :=
  {| agentv1.i_id := grpcclient.di_ID x; agentv1.i_repo_tags := grpcclient.di_RepoTags x; agentv1.i_size := grpcclient.di_Size x |}.

Definition cron_message (x : grpcclient.CronTask) : agentv1.CronTask :=
  {| agentv1.t_id := grpcclient.ct_ID x; agentv1.t_expression := grpcclient.ct_Expression x;
     agentv1.t_command := grpcclient.ct_Command x; agentv1.t_enabled := grpcclient.ct_Enabled x |}.

(** The body that carries a result of the operation asked for. *)
Definition carry (r : rpc) : match served r with Some o => agent_val o -> rpc_body r | None => unit end :=
  match r return match served r with Some o => agent_val o -> rpc_body r | None => unit end with
  | RCheck => tt
  | RGetSystemOverview => fun x => Some (overview_message x)
  | RGetRealtimeResource => fun x => Some (resource_message x)
  | RListFiles _ => files_message
  | RReadTextFile _ => text_message
  | RReadFileChunk _ => chunk_message
  | RWriteFileChunk _ => written_chunk_message
  | RWriteTextFile _ => written_text_message
  | RCreateDirectory _ | RDeleteFile _ | RDeleteCronTask _ => fun x => x
  | RRenameFile _ => renamed_message
  | RListServices _ => map service_message
  | RStartService _ | RStopService _ | RRestartService _ => service_action_message
  | RListContainers => map container_message
  | RStartContainer _ | RStopContainer _ | RRestartContainer _ => docker_action_message
  | RListImages => map image_message
  | RListCronTasks _ => map cron_message
  | RCreateCronTask _ | RUpdateCronTask _ | RSetCronTaskEnabled _ => fun x => Some (cron_message x)
  end.

Definition answered : option agentv1.Error := Some (agentv1.MkError 0 "" "").

Definition wire_error (e : AgentError) : agentv1.Error := agentv1.MkError (ag_Code e) (ag_Message e) (ag_Detail e).

(** A server that asks [ag] for every request; beside an error the body is
    anything. *)
Definition serve (ag : forall o, agent_ans o) (junk : forall r, rpc_body r) (r : rpc) : Response r :=
  match served r as s return match s with Some o => agent_val o -> rpc_body r | None => unit end -> Response r with
  | None => fun _ => MkResponse answered (junk r)
  | Some o => fun carry =>
    match ag o with
    | Ok x => MkResponse answered (carry x)
    | Err e => MkResponse (wire_error <$> AsAgent e) (junk r)
    end
  end (carry r).

(** ** One call *)

#[local] Opaque ObserveAgentRequest.

Section Calls.
Context `{GrpcStatus} (env : ClientEnv).
#[local] Abbreviation handle := (client_handle env).

(** What the caller is told of the dialling and the answer, and whether it is
    counted as a failure of the transport. *)
Definition explained {r A} (dial : res unit) (answer : res (Response r)) (transport : bool) (result : res A) : Prop :=
  match dial with
  | Err err => transport = true /\ result = Err (transportError err)
  | Ok _ =>
    match answer with
    | Err err =>
      match AsAgent err with
      | Some agentErr => transport = IsTransport agentErr /\ result = Err (as_goerr agentErr)
      | None => transport = true /\ result = Err (transportError err)
      end
    | Ok resp =>
      transport = false /\
      match responseError (GetError resp) with
      | Some err => result = Err err
      | None => match result with Ok _ => True | Err err => exists detail, err = invalidPayloadError detail end
      end
    end
  end.

Definition error_of {A} (result : res A) : option goerr := match result with Ok _ => None | Err err => Some err end.

(** The context of the call. *)
Definition call_context (c : Client) (ctx callCtx : context) : Prop :=
  ctx_outgoing callCtx = ctx_outgoing ctx
    ++ match RequestID ctx with Some id => [(requestIDMetadataKey, id)] | None => [] end
    ++ (if (Mode (authConfig c) =? "token")%string then [(agentTokenMetadataKey, SharedToken (authConfig c))] else []) /\
  (ctx_deadline callCtx = ctx_deadline ctx /\ timeout c <= 0 \/
   exists now, 0 < timeout c /\
     ctx_deadline callCtx = Some (match ctx_deadline ctx with Some d => Z.min d (now + timeout c) | None => now + timeout c end)).

(** The trace and the metrics of a call. *)
Record called {r : rpc} {A} (c : Client) (ctx : context) (rpcName : string) (w : ClientWorld) (out : res A * ClientWorld)
    (callCtx : context) (n : nat) (transport : bool) (duration : Z) : Prop := {
  ca_context : call_context c ctx callCtx;
  ca_sent : clw_sent out.2 = clw_sent w ++ Dialled callCtx (target c) :: (if is_ok (ce_dial env n) then [Called callCtx r] else []);
  ca_open : clw_open out.2 = clw_open w;
  ca_metrics : clw_metrics out.2 = ObserveAgentRequest rpcName transport (error_of out.1) duration (clw_metrics w);
  ca_result : explained (ce_dial env n) (ce_call env (S n) r) transport out.1
}.
Arguments called r {A}.

Lemma responseError_agent e err : responseError e = Some err -> exists code m d g, err = ErrAgent code m d g None.
Proof. unfold responseError. destruct e as [e|]; [destruct (_ =? _)|]; intros [= <-]; eauto. Qed.

Definition payload_errors {r A} (read : rpc_body r -> res A) : Prop :=
  forall body err, read body = Err err -> exists detail, err = invalidPayloadError detail.

(** What a response means to the caller. *)
Definition received {r A} (read : rpc_body r -> res A) (resp : Response r) : res A :=
  match responseError (GetError resp) with Some err => Err err | None => read (GetBody resp) end.

Lemma deadline_context c ctx ctx' now : ctx_requestID ctx' = ctx_requestID ctx -> ctx_outgoing ctx' = ctx_outgoing ctx ->
  ctx_deadline ctx' = ctx_deadline ctx /\ timeout c <= 0 \/
  0 < timeout c /\ ctx_deadline ctx' = Some (match ctx_deadline ctx with Some d => Z.min d (now + timeout c) | None => now + timeout c end) ->
  call_context c ctx (withOutgoingAuth c (withOutgoingRequestID ctx')).
Proof.
  intros Hid Hout Hd. unfold call_context, withOutgoingAuth, withOutgoingRequestID.
  assert (RequestID ctx' = RequestID ctx) as -> by (unfold RequestID; by rewrite Hid).
  destruct (RequestID ctx), (_ =? "token")%string; cbn; rewrite Hout; rewrite <- ?app_assoc, ?app_nil_r;
    (split; [done|]); (destruct Hd as [?|?]; [by left|right; by exists now]).
Qed.

Lemma exchange_called c ctx callCtx name startedAt r {A} (read : rpc_body r -> res A) w : payload_errors read ->
  call_context c ctx callCtx ->
  let out := run handle (grpc_client.exchange c name startedAt (grpc_client.unary r read) callCtx) w in
  (exists transport duration, called r c ctx name w out callCtx (clw_step w) transport duration) /\
  (forall resp, ce_dial env (clw_step w) = Ok tt -> ce_call env (S (clw_step w)) r = Ok resp -> out.1 = received read resp).
Proof.
  intros Hread Hctx. cbv zeta. unfold grpc_client.exchange, grpc_client.unary, grpc_client.observe_since, call.
  cbn [bind run client_handle clw_step clw_sent clw_open clw_metrics].
  destruct (ce_dial env (clw_step w)) as [[]|err] eqn:Ed; cbn [is_ok bind run client_handle clw_step clw_sent clw_open clw_metrics fst snd].
  2: { split; [|done]. do 2 eexists. split; rewrite ?Ed; cbn; try done. lia. }
  assert (Hend : forall m k (result : res A) (transport : bool) err duration,
    m = (result, MkClientWorld k (clw_sent w ++ [Dialled callCtx (target c)] ++ [Called callCtx r])
           (clw_open w) (ObserveAgentRequest name transport err duration (clw_metrics w))) ->
    err = error_of result ->
    explained (Ok tt) (ce_call env (S (clw_step w)) r) transport result ->
    exists transport duration, called r c ctx name w m callCtx (clw_step w) transport duration).
  { intros m k result transport err duration -> -> Hex. exists transport, duration. split; rewrite ?Ed; done. }
  assert (Eo : clw_open w + 1 - 1 = clw_open w) by lia.
  destruct (ce_call env (S (clw_step w)) r) as [resp|err] eqn:Ec; cbn [res_bind].
  - destruct (responseError (GetError resp)) as [err|] eqn:Er.
    + destruct (responseError_agent _ _ Er) as (code & m & d & g & ->).
      cbn [AsAgent bind run client_handle clw_step clw_sent clw_open clw_metrics fst snd]. rewrite Eo, <- app_assoc. split.
      * eapply Hend; [reflexivity..|]. split; [done|]. by rewrite Er.
      * intros resp' _ [= <-]. unfold received. by rewrite Er.
    + destruct (read (GetBody resp)) as [x|err] eqn:Eb.
      * cbn [bind run client_handle clw_step clw_sent clw_open clw_metrics fst snd]. rewrite Eo, <- app_assoc. split.
        -- eapply Hend; [reflexivity..|]. split; [done|]. by rewrite Er.
        -- intros resp' _ [= <-]. unfold received. by rewrite Er, Eb.
      * destruct (Hread _ _ Eb) as [detail ->]. unfold invalidPayloadError.
        cbn [AsAgent bind run client_handle clw_step clw_sent clw_open clw_metrics fst snd]. rewrite Eo, <- app_assoc. split.
        -- eapply Hend; [reflexivity..|]. split; [done|]. rewrite Er. by exists detail.
        -- intros resp' _ [= <-]. unfold received. by rewrite Er, Eb.
  - destruct (AsAgent err) as [agentErr|] eqn:Ea;
      cbn [bind run client_handle clw_step clw_sent clw_open clw_metrics fst snd]; rewrite Eo, <- app_assoc; (split; [|done]);
      (eapply Hend; [reflexivity..|]); cbn; by rewrite Ea.
Qed.

Lemma called_from c ctx ctx' name startedAt r {A} (read : rpc_body r -> res A) m w now : payload_errors read ->
  ctx_requestID ctx' = ctx_requestID ctx -> ctx_outgoing ctx' = ctx_outgoing ctx ->
  ctx_deadline ctx' = ctx_deadline ctx /\ timeout c <= 0 \/
  0 < timeout c /\ ctx_deadline ctx' = Some (match ctx_deadline ctx with Some d => Z.min d (now + timeout c) | None => now + timeout c end) ->
  clw_sent m = clw_sent w -> clw_open m = clw_open w -> clw_metrics m = clw_metrics w ->
  let out := run handle (grpc_client.exchange c name startedAt (grpc_client.unary r read)
    (withOutgoingAuth c (withOutgoingRequestID ctx'))) m in
  exists callCtx n,
    (exists transport duration, called r c ctx name w out callCtx n transport duration) /\
    (forall resp, ce_dial env n = Ok tt -> ce_call env (S n) r = Ok resp -> out.1 = received read resp).
Proof.
  intros Hread Hid Hout Hd Es Eo Em. cbv zeta. pose proof (deadline_context c ctx ctx' now Hid Hout Hd) as Hcx.
  destruct (exchange_called c ctx _ name startedAt r read m Hread Hcx) as [(transport & duration & [H1 H2 H3 H4 H5]) Hok].
  rewrite Es in H2. rewrite Eo in H3. rewrite Em in H4.
  do 2 eexists. split; [exists transport, duration; by split|done].
Qed.

Lemma invoke_called c ctx name r {A} (read : rpc_body r -> res A) w : payload_errors read ->
  let out := run handle (grpc_client.invoke c ctx name (grpc_client.unary r read)) w in
  exists callCtx n,
    (exists transport duration, called r c ctx name w out callCtx n transport duration) /\
    (forall resp, ce_dial env n = Ok tt -> ce_call env (S n) r = Ok resp -> out.1 = received read resp).
Proof.
  intros Hread. cbv zeta. unfold grpc_client.invoke, call.
  destruct (Z.ltb_spec 0 (timeout c)) as [Ht|Ht]; cbn [bind run client_handle clw_step clw_sent clw_open clw_metrics];
    (match goal with |- context [run _ (grpc_client.exchange _ _ ?t _ (withOutgoingAuth _ (withOutgoingRequestID ?cx))) ?m] =>
      eapply (called_from c ctx cx name t r read m w (ce_now env (S (clw_step w)))) end); try done; [by right|by left].
Qed.


(** ** Every method *)

(** The label of a procedure in the metrics. *)
Definition rpc_name (r : rpc) : string :=
  match r with
  | RCheck => "health.check"
  | RGetSystemOverview => "system.get_overview"
  | RGetRealtimeResource => "system.get_realtime_resource"
  | RListFiles _ => "file.list"
  | RReadTextFile _ => "file.read_text"
  | RReadFileChunk _ => "file.read_chunk"
  | RWriteFileChunk _ => "file.write_chunk"
  | RWriteTextFile _ => "file.write_text"
  | RCreateDirectory _ => "file.create_directory"
  | RDeleteFile _ => "file.delete"
  | RRenameFile _ => "file.rename"
  | RListServices _ => "service.list"
  | RStartService _ => "service.start"
  | RStopService _ => "service.stop"
  | RRestartService _ => "service.restart"
  | RListContainers => "docker.list_containers"
  | RStartContainer _ => "docker.start"
  | RStopContainer _ => "docker.stop"
  | RRestartContainer _ => "docker.restart"
  | RListImages => "docker.list_images"
  | RListCronTasks _ => "cron.list"
  | RCreateCronTask _ => "cron.create"
  | RUpdateCronTask _ => "cron.update"
  | RDeleteCronTask _ => "cron.delete"
  | RSetCronTaskEnabled _ => "cron.set_enabled"
  end.

(** An error of the agent itself, as it is sent. *)
Definition agent_failure (err : goerr) : Prop := exists code message detail,
  err = ErrAgent code message detail codes.OK None /\ code <> 0 /\
  message <> "" /\ TrimSpace message = message /\ TrimSpace detail = detail.

Definition agent_fails_well (ag : forall o, agent_ans o) : Prop := forall o err, ag o = Err err -> agent_failure err.

Lemma wire_failure {r A} (read : rpc_body r -> res A) err body : agent_failure err ->
  received read (MkResponse (wire_error <$> AsAgent err) body) = Err err.
Proof.
  intros (code & message & detail & -> & Hc & Hm & Et & Ed). unfold received, responseError, wire_error.
  cbn [fmap option_fmap option_map GetError AsAgent ag_Code ag_Message ag_Detail agentv1.e_code agentv1.e_message agentv1.e_detail].
  apply Z.eqb_neq in Hc. rewrite Hc, Et, Ed. apply String.eqb_neq in Hm. by rewrite Hm.
Qed.

Lemma map_id_list {A} (f : A -> A) l : (forall x, f x = x) -> map f l = l.
Proof. intros Hf. induction l as [|x l IH]; cbn; [done|]. by rewrite Hf, IH. Qed.

(** The request of an operation. *)
Definition request_of (o : agent_op) : rpc :=
  match o with
  | AGetSystemOverview => RGetSystemOverview
  | AGetRealtimeResource => RGetRealtimeResource
  | AListFiles path => RListFiles (agentv1.Build_ListFilesRequest path None)
  | AReadTextFile req => RReadTextFile (agentv1.Build_ReadTextFileRequest (grpcclient.rtq_Path req) (grpcclient.rtq_MaxBytes req)
      (grpcclient.rtq_Encoding req) None)
  | AReadFileChunk req => RReadFileChunk (agentv1.Build_ReadFileChunkRequest (grpcclient.rcq_Path req) (grpcclient.rcq_Offset req)
      (grpcclient.rcq_Limit req) None)
  | AWriteFileChunk req => RWriteFileChunk (agentv1.Build_WriteFileChunkRequest (grpcclient.wcq_Path req) (grpcclient.wcq_Offset req)
      (grpcclient.wcq_Chunk req) (grpcclient.wcq_CreateIfNotExists req) (grpcclient.wcq_Truncate req) None)
  | AWriteTextFile req => RWriteTextFile (agentv1.Build_WriteTextFileRequest (grpcclient.wtq_Path req) (grpcclient.wtq_Content req)
      (grpcclient.wtq_CreateIfNotExists req) (grpcclient.wtq_Truncate req) (grpcclient.wtq_Encoding req) None)
  | ACreateDirectory req => RCreateDirectory (agentv1.Build_CreateDirectoryRequest (grpcclient.cdq_Path req)
      (grpcclient.cdq_CreateParents req) None)
  | ADeleteFile req => RDeleteFile (agentv1.Build_DeleteFileRequest (grpcclient.dfq_Path req) (grpcclient.dfq_Recursive req) None)
  | ARenameFile req => RRenameFile (agentv1.Build_RenameFileRequest (grpcclient.rnq_SourcePath req) (grpcclient.rnq_TargetPath req) None)
  | AListServices keyword => RListServices keyword
  | AStartService name => RStartService name
  | AStopService name => RStopService name
  | ARestartService name => RRestartService name
  | AListDockerContainers => RListContainers
  | AStartDockerContainer id => RStartContainer id
  | AStopDockerContainer id => RStopContainer id
  | ARestartDockerContainer id => RRestartContainer id
  | AListDockerImages => RListImages
  | AListCronTasks => RListCronTasks ""
  | ACreateCronTask req => RCreateCronTask (agentv1.Build_CreateCronTaskRequest (grpcclient.ccq_Expression req)
      (grpcclient.ccq_Command req) (grpcclient.ccq_Enabled req))
  | AUpdateCronTask id req => RUpdateCronTask (agentv1.Build_UpdateCronTaskRequest id (grpcclient.ccq_Expression req)
      (grpcclient.ccq_Command req) (grpcclient.ccq_Enabled req))
  | ADeleteCronTask id => RDeleteCronTask id
  | ASetCronTaskEnabled id enabled => RSetCronTaskEnabled (agentv1.Build_SetCronTaskEnabledRequest id enabled)
  end.

Lemma served_request_of o : served (request_of o) = Some o.
Proof. destruct o as [| | |[]|[]|[]|[]|[]|[]|[]| | | | | | | | | | |[]|? []| |]; reflexivity. Qed.

(** The operation of the request of an operation. *)
Ltac served_cbn := cbn [request_of served carry
    grpcclient.rtq_Path grpcclient.rtq_MaxBytes grpcclient.rtq_Encoding grpcclient.rcq_Path grpcclient.rcq_Offset
    grpcclient.rcq_Limit grpcclient.wcq_Path grpcclient.wcq_Offset grpcclient.wcq_Chunk
    grpcclient.wcq_CreateIfNotExists grpcclient.wcq_Truncate grpcclient.wtq_Path grpcclient.wtq_Content
    grpcclient.wtq_CreateIfNotExists grpcclient.wtq_Truncate grpcclient.wtq_Encoding grpcclient.cdq_Path
    grpcclient.cdq_CreateParents grpcclient.dfq_Path grpcclient.dfq_Recursive grpcclient.rnq_SourcePath
    grpcclient.rnq_TargetPath grpcclient.ccq_Expression grpcclient.ccq_Command grpcclient.ccq_Enabled
    agentv1.rtq_path agentv1.rtq_max_bytes agentv1.rtq_encoding agentv1.rcq_path agentv1.rcq_offset
    agentv1.rcq_limit agentv1.wcq_path agentv1.wcq_offset agentv1.wcq_chunk agentv1.wcq_create_if_not_exists
    agentv1.wcq_truncate agentv1.wtq_path agentv1.wtq_content agentv1.wtq_create_if_not_exists agentv1.wtq_truncate
    agentv1.wtq_encoding agentv1.cdq_path agentv1.cdq_create_parents agentv1.dfq_path agentv1.dfq_recursive
    agentv1.rnq_source_path agentv1.rnq_target_path agentv1.ccq_expression agentv1.ccq_command agentv1.ccq_enabled
    agentv1.ucq_id agentv1.ucq_expression agentv1.ucq_command agentv1.ucq_enabled agentv1.scq_id
    agentv1.scq_enabled agentv1.lfq_path].

(** The reading of the response of every method. *)
Lemma method_invoke o : exists read : rpc_body (request_of o) -> agent_ans o,
  payload_errors read /\
  (forall c ctx, grpc_client.method c ctx o = grpc_client.invoke c ctx (rpc_name (request_of o)) (grpc_client.unary (request_of o) read)) /\
  (forall ag junk, agent_fails_well ag -> received read (serve ag junk (request_of o)) = ag o).
Proof.
  destruct o as [| | |[]|[]|[]|[]|[]|[]|[]| | | | | | | | | | |[]|? []| |]; (eexists; split; [|split; [intros c ctx; reflexivity|]]).
  all: try (intros ag junk Hag; unfold serve; served_cbn;
    match goal with |- context [ag ?o] => destruct (ag o) as [x|err] eqn:E; [|by apply wire_failure, (Hag _ _ E)] end;
    unfold received; cbn; rewrite ?map_map; try rewrite map_id_list by (by intros []); by destruct x).
  all: try (by intros [?|] ?; cbn; intros [= <-]; eauto); try done.
Qed.

(** ** What is promised *)

(** A method, its request and what is known of the call. *)
Lemma method_called c ctx o w : let out := run handle (grpc_client.method c ctx o) w in
  exists callCtx n transport duration,
    called (request_of o) c ctx (rpc_name (request_of o)) w out callCtx n transport duration /\
    (forall ag junk, agent_fails_well ag -> ce_dial env n = Ok tt ->
       ce_call env (S n) (request_of o) = Ok (serve ag junk (request_of o)) -> out.1 = ag o).
Proof.
  cbv zeta. destruct (method_invoke o) as (read & Hread & Hmethod & Hserve). rewrite Hmethod.
  destruct (invoke_called c ctx (rpc_name (request_of o)) (request_of o) read w Hread) as (callCtx & n & (transport & duration & Hc) & Hok).
  exists callCtx, n, transport, duration. split; [exact Hc|]. intros ag junk Hag Hd Hr. etransitivity; [exact (Hok _ Hd Hr)|by apply Hserve].
Qed.

Lemma explained_error {r A} dial (answer : res (Response r)) transport (result : res A) err :
  explained dial answer transport result -> result = Err err ->
  exists a, AsAgent err = Some a /\ IsTransport a = transport.
Proof.
  intros Hex ->. unfold explained, transportError in Hex. destruct dial as [[]|e].
  - destruct answer as [resp|e].
    + destruct Hex as [-> Hex]. destruct (responseError (GetError resp)) as [e|] eqn:Er.
      * injection Hex as ->. destruct (responseError_agent _ _ Er) as (? & ? & ? & ? & ->). eauto.
      * destruct Hex as [detail ->]. eexists. by split.
    + destruct (AsAgent e) as [a|] eqn:Ea; destruct Hex as [-> [= ->]]; [destruct a; eauto|].
      destruct (FromError e) as [[]|]; eexists; by split.
  - destruct Hex as [-> [= ->]]. destruct (FromError e) as [[]|]; eexists; by split.
Qed.

(** C21 A call of the agent.  Every method dials the target once and, if that
    succeeds, sends one request, which asks for that operation with all its
    arguments; the context of both carries the request id of the caller and,
    with token authentication only, the shared token, beside what the caller
    had put there, and no deadline but the caller's and the timeout.  No
    connection stays open, one observation is recorded under the name of the
    procedure, as an error exactly when the caller gets one and as the
    transport's exactly when the error is; the error is the one of the dialling,
    the call, the response or its missing payload, it is always an agent error,
    and no service answers it with a status but these seven. *)
Theorem agent_call c ctx o w :
  let out := run handle (grpc_client.method c ctx o) w in
  exists callCtx n r transport duration,
    served r = Some o /\
    called r c ctx (rpc_name r) w out callCtx n transport duration /\
    match out.1 with
    | Ok _ => transport = false
    | Err err => exists a, AsAgent err = Some a /\ IsTransport a = transport /\
        http_status (mapAgentError err) ∈ [400; 401; 403; 404; 413; 502; 503]
    end.
Proof.
  cbv zeta. destruct (method_called c ctx o w) as (callCtx & n & transport & duration & Hc & _).
  exists callCtx, n, (request_of o), transport, duration. split; [apply served_request_of|]. split; [exact Hc|].
  pose proof (ca_result _ _ _ _ _ _ _ _ _ Hc) as Hex. destruct (run _ _ w).1 as [x|err] eqn:E.
  - unfold explained in Hex. destruct (ce_dial env n) as [[]|]; [|by destruct Hex].
    destruct (ce_call env (S n) _) as [resp|e]; [by destruct Hex|]. by destruct (AsAgent e), Hex.
  - destruct (explained_error _ _ _ _ _ Hex eq_refl) as (a & Ea & Et). exists a. split; [done|]. split; [done|].
    rewrite http_status_mapAgentError, Ea. apply mapAgentHTTPStatus_range.
Qed.

(** A program over the agent, each of its calls made by the client. *)
Fixpoint carried {A} (c : Client) (ctx : context) (p : prog agent_ans A) : client A :=
  match p with
  | Ret x => Ret x
  | Do o k => bind (grpc_client.method c ctx o) (fun a => carried c ctx (k a))
  end.

(** Its calls. *)
Fixpoint asked {A} (ag : forall o, agent_ans o) (p : prog agent_ans A) : list agent_op :=
  match p with Ret _ => [] | Do o k => o :: asked ag (k (ag o)) end.

(** The requests among what was sent, as operations. *)
Definition operations (l : list sent) : list agent_op :=
  omap (fun s => match s with Called _ r => served r | Dialled _ _ => None end) l.

Lemma operations_app l1 l2 : operations (l1 ++ l2) = operations l1 ++ operations l2.
Proof. apply omap_app. Qed.

End Calls.

#[local] Transparent ObserveAgentRequest.

(** C9 An agent behind a connection that works is the agent.  For every program
    that calls the agent - the services are such programs - the answers over the
    wire are those of the agent itself, whatever the bodies of the responses that
    carry an error hold: the program ends with the same result, the agent is asked
    the same operations in the same order, no connection is left open, and as many
    calls are counted. *)
Theorem client_transparent `{GrpcStatus} env ag junk c ctx {A} (p : prog agent_ans A) w :
  agent_fails_well ag -> (forall n, ce_dial env n = Ok tt) -> (forall n r, ce_call env n r = Ok (serve ag junk r)) ->
  let out := run (client_handle env) (carried c ctx p) w in
  out.1 = (run (fun o (_ : unit) => (ag o, tt)) p tt).1 /\
  operations (clw_sent out.2) = operations (clw_sent w) ++ asked ag p /\
  clw_open out.2 = clw_open w /\
  (total ∘ AgentRequestsTotal) <$> clw_metrics out.2
    = (fun m => total (AgentRequestsTotal m) + Z.of_nat (length (asked ag p))) <$> clw_metrics w.
Proof.
  intros Hag Hd Hr. cbv zeta. revert w. induction p as [x|o k IH]; intros w; cbn [carried asked run].
  { cbn. rewrite app_nil_r. repeat (split; [done|]). destruct (clw_metrics w); [|done]. cbn. f_equal. lia. }
  rewrite run_bind. destruct (method_called env c ctx o w) as (callCtx & n & transport & duration & [_ Hs Ho Hm _] & Hok).
  specialize (Hok ag junk Hag (Hd _) (Hr _ _)). destruct (run _ (grpc_client.method c ctx o) w) as [a w1].
  cbn [fst snd] in *. subst a. destruct (IH (ag o) w1) as (H1 & H2 & H3 & H4). rewrite H1, H2, H3, H4, Hs, Ho, Hm, Hd.
  rewrite operations_app. cbn [operations is_ok omap list_omap]. fold (operations []). rewrite served_request_of, <- app_assoc.
  repeat (split; [done|]). unfold ObserveAgentRequest. destruct (clw_metrics w) as [m|]; [|done].
  cbn [fmap option_fmap option_map compose]. f_equal. cbn [set_agent AgentRequestsTotal length]. rewrite total_Inc. lia.
Qed.

(** ** A container that is not there *)

Module Wire.

#[local] Instance grpc_errors : GrpcStatus := fun err => match err with ErrNew msg => Some (14, msg) | _ => None end.

(** Knows the container c1 only. *)
Definition agent_of (o : agent_op) : agent_ans o :=
  match o return agent_ans o with
  | ARestartDockerContainer id =>
    if (id =? "c1")%string then Ok {| grpcclient.da_ID := id; grpcclient.da_State := "running" |}
    else Err (ErrAgent 6002 "container not found" "no such container" codes.OK None)
  | AListDockerContainers => Ok
    [{| grpcclient.dc_ID := "c1"; grpcclient.dc_Name := "web"; grpcclient.dc_Image := "nginx"; grpcclient.dc_State := "exited";
        grpcclient.dc_Status := "Exited (0)" |}]
  | _ => Err (ErrAgent 4001 "denied" "" codes.OK None)
  end.

Definition junk (r : rpc) : rpc_body r :=
  match r with
  | RCheck | RCreateDirectory _ | RDeleteFile _ | RDeleteCronTask _ => ""
  | RGetSystemOverview | RGetRealtimeResource | RCreateCronTask _ | RUpdateCronTask _ | RSetCronTaskEnabled _ => None
  | RListFiles _ => {| agentv1.lf_current_path := ""; agentv1.lf_entries := [] |}
  | RReadTextFile _ => {| agentv1.rt_path := ""; agentv1.rt_content := ""; agentv1.rt_size := 0; agentv1.rt_truncated := false; agentv1.rt_encoding := "" |}
  | RReadFileChunk _ => {| agentv1.rc_path := ""; agentv1.rc_offset := 0; agentv1.rc_chunk := ""; agentv1.rc_total_size := 0; agentv1.rc_eof := true |}
  | RWriteFileChunk _ => {| agentv1.wc_path := ""; agentv1.wc_offset := 0; agentv1.wc_written_bytes := 0; agentv1.wc_total_size := 0 |}
  | RWriteTextFile _ => {| agentv1.wt_path := ""; agentv1.wt_written_bytes := 0 |}
  | RRenameFile _ => {| agentv1.rn_source_path := ""; agentv1.rn_target_path := ""; agentv1.rn_moved_bytes := 0 |}
  | RListServices _ | RListContainers | RListImages | RListCronTasks _ => []
  | RStartService _ | RStopService _ | RRestartService _ => {| agentv1.sa_name := ""; agentv1.sa_status := "" |}
  | RStartContainer _ | RStopContainer _ | RRestartContainer _ => {| agentv1.ca_id := ""; agentv1.ca_state := "" |}
  end.

Definition env : ClientEnv :=
  {| ce_now n := Z.of_nat n; ce_dial _ := Ok tt; ce_call _ r := Ok (serve agent_of junk r) |}.

Definition caller : context := WithRequestID " req-1 " Background.
Definition with_token : Client := NewWithAuth "agent:50051" 3000 {| Mode := " Token "; SharedToken := " s3cret " |}.
Definition world : ClientWorld := MkClientWorld 0 [] 0 (Some Metrics.New).

#[local] Instance agent_itself : SubOp agent_ans agent_ans := {| inj o := o; proj o a := a |}.

(** Restart the container of the request if it is there, then list. *)
Definition restart_and_list (id : string) : prog agent_ans (Z * nat) :=
  r <- AgentServices.RestartContainer id ;;
  l <- AgentServices.ListContainers ;;
  Ret (match r with Ok _ => 200 | Err err => http_status err end, match l with Ok l => length l | Err _ => 0%nat end).

Lemma agent_of_fails_well : agent_fails_well agent_of.
Proof.
  intros o err. destruct o; cbn [agent_of]; try destruct (id =? "c1")%string; intros [= <-].
  all: do 3 eexists; (split; [reflexivity|]); split; [discriminate|]; split; [discriminate|]; split; reflexivity.
Qed.

Lemma client_transparent_witness :
  let out := run (client_handle env) (carried with_token caller (restart_and_list "c1")) world in
  out.1 = (200, 1%nat) /\ operations (clw_sent out.2) = [ARestartDockerContainer "c1"; AListDockerContainers].
Proof.
  destruct (client_transparent env agent_of junk with_token caller (restart_and_list "c1") world agent_of_fails_well
    (fun _ => eq_refl) (fun _ _ => eq_refl)) as (H1 & H2 & _). split; [exact H1|exact H2].
Defined.

Example not_there : (run (client_handle env) (carried with_token caller (restart_and_list "c2")) world).1 = (404, 1%nat).
Proof. by vm_compute. Qed.

(** What the agent sees of the caller. *)
Example metadata : match clw_sent (run (client_handle env) (grpc_client.method with_token caller AListDockerContainers) world).2 with
  | [Dialled ctx target; Called ctx' r] => (ctx_outgoing ctx, ctx_deadline ctx, target) =
      ([("x-request-id", "req-1"); ("x-snowpanel-agent-token", "s3cret")], Some 3001, "agent:50051") /\ ctx = ctx' /\ r = RListContainers
  | _ => False
  end.
Proof. by vm_compute. Qed.

End Wire.
