(* ===== verification/Dashboard.v ===== *)
(** * The dashboard

    [internal/service/dashboard_service.go]: the two measurements of the agent
    in one summary. *)

From Stdlib Require Import ZArith Lia SpecFloat.
From S2P Require Import Prelude GoString GoError Effects Agent Dto AgentServices.

Open Scope prog_scope.

Section Service.
Context {op : Type} {ans : op -> Type} `{SubOp agent_op agent_ans op ans}.

(** [if usage == 0 { usage = other }] on floating point numbers. *)
Definition or_if_zero (usage other : spec_float) : spec_float := if SFeqb usage (S754_zero false) then other else usage.

Definition GetSummary : prog ans (res dto.DashboardSummary) :=
  overview <-! or_else (agent AGetSystemOverview : prog ans (res grpcclient.SystemOverview)) mapAgentError ;;
  realtime <-! or_else (agent AGetRealtimeResource : prog ans (res grpcclient.RealtimeResource)) mapAgentError ;;
  let cpuUsage := or_if_zero (grpcclient.rr_CPUUsagePercent realtime) (grpcclient.so_CPUUsagePercent overview) in
  let memoryUsage := or_if_zero (grpcclient.rr_MemoryUsagePercent realtime) (grpcclient.so_MemoryUsagePercent overview) in
  let diskUsage := or_if_zero (grpcclient.rr_DiskUsagePercent realtime) (grpcclient.so_DiskUsagePercent overview) in
  Ret (Ok {| dto.ds_Hostname := grpcclient.so_Hostname overview; dto.ds_SystemVersion := grpcclient.so_OS overview;
             dto.ds_KernelVersion := grpcclient.so_Kernel overview; dto.ds_CPUUsage := cpuUsage;
             dto.ds_MemoryUsage := memoryUsage; dto.ds_DiskUsage := diskUsage; dto.ds_Uptime := grpcclient.so_Uptime overview |}).

End Service.


Definition is_zero (x : spec_float) : bool := match x with S754_zero _ => true | _ => false end.

(** A zero is shown only where both measurements are zero, and a measurement in
    real time that is not zero is what is shown, not-a-number included. *)
Lemma or_if_zero_spec x y : or_if_zero x y = (if is_zero x then y else x) /\
  (is_zero (or_if_zero x y) = is_zero x && is_zero y).
Proof. by destruct x as [[]|[]| |[]], y as [[]|[]| |[]]. Qed.

(** The second call is made only after the first succeeded; a failure is the
    mapped error of the call that failed, and only a complete summary is given. *)
Lemma GetSummary_run {W} (handle : forall o : agent_op, W -> agent_ans o * W) w :
  let '(overview, w1) := handle AGetSystemOverview w in
  let '(realtime, w2) := handle AGetRealtimeResource w1 in
  run handle (@GetSummary _ agent_ans {| inj o := o; proj o a := a |}) w =
  match overview, realtime with
  | Err err, _ => (Err (mapAgentError err), w1)
  | Ok _, Err err => (Err (mapAgentError err), w2)
  | Ok overview, Ok realtime => (Ok
      {| dto.ds_Hostname := grpcclient.so_Hostname overview; dto.ds_SystemVersion := grpcclient.so_OS overview;
         dto.ds_KernelVersion := grpcclient.so_Kernel overview;
         dto.ds_CPUUsage := or_if_zero (grpcclient.rr_CPUUsagePercent realtime) (grpcclient.so_CPUUsagePercent overview);
         dto.ds_MemoryUsage := or_if_zero (grpcclient.rr_MemoryUsagePercent realtime) (grpcclient.so_MemoryUsagePercent overview);
         dto.ds_DiskUsage := or_if_zero (grpcclient.rr_DiskUsagePercent realtime) (grpcclient.so_DiskUsagePercent overview);
         dto.ds_Uptime := grpcclient.so_Uptime overview |}, w2)
  end.
Proof.
  unfold GetSummary, bind_ok, or_else, agent, trigger. cbn [bind run inj proj].
  destruct (handle AGetSystemOverview w) as [[overview|err] w1]; cbn [bind run map_err];
    destruct (handle AGetRealtimeResource w1) as [[realtime|err2] w2]; cbn [bind run map_err]; done.
Qed.
