(* ===== verification/TaskPayload.v ===== *)
(** * Task payloads and the pure parts of the task service

    The functions of [internal/service/task_service.go] that touch neither the
    database nor the clock: the JSON payload of a task, the idempotency key,
    the retry policy, the worker options. *)

From Stdlib Require Import ZArith Lia Ascii DecimalString DecimalZ.
From S2P Require Import Prelude GoString GoError Json Redaction.

Definition TaskStatusPending : string := "pending".
Definition TaskStatusRunning : string := "running".
Definition TaskStatusSuccess : string := "success".
Definition TaskStatusFailed : string := "failed".
Definition TaskStatusCanceled : string := "canceled".

Definition TaskTypeDockerRestart : string := "docker_restart".
Definition TaskTypeServiceRestart : string := "service_restart".
Definition TaskTypeBackupCreate : string := "backup_create".
Definition TaskTypeBackupVerify : string := "backup_verify".

Definition taskOperationDockerRestart : string := "docker.restart".
Definition taskOperationServiceRestart : string := "service.restart".
Definition taskOperationBackupCreate : string := "backup.create".
Definition taskOperationBackupVerify : string := "backup.verify".

Record taskPayload := MkPayload {
  Operation : string;
  ContainerID : string;
  ServiceName : string;
  BackupID : Z;
  ResourceType : string;
  ResourceID : string;
  StorageType : string;
  FilePath : string;
  SizeBytes : Z;
  Checksum : string
}.

Definition empty_payload : taskPayload := MkPayload "" "" "" 0 "" "" "" "" 0 "".

(** ** Writing *)

(** [omitempty]. *)
Definition omit_str (k v : string) : list (string * json) := if (v =? "")%string then [] else [(k, JStr v)].
Definition omit_int (k : string) (v : Z) : list (string * json) := if v =? 0 then [] else [(k, JInt v)].

(** [json.Marshal] of the struct, field by field. *)
Definition payload_json (p : taskPayload) : json :=
  JObj ([("operation", JStr (Operation p))] ++
        omit_str "container_id" (ContainerID p) ++
        omit_str "service_name" (ServiceName p) ++
        omit_int "backup_id" (BackupID p) ++
        omit_str "resource_type" (ResourceType p) ++
        omit_str "resource_id" (ResourceID p) ++
        omit_str "storage_type" (StorageType p) ++
        omit_str "file_path" (FilePath p) ++
        omit_int "size_bytes" (SizeBytes p) ++
        omit_str "checksum" (Checksum p)).

Definition marshalTaskPayload (payload : taskPayload) : string := Marshal (payload_json payload).

(** [json.Marshal] of a map never fails on the values the service puts there. *)
Definition marshalTaskMetadata (data : list (string * json)) : string :=
  RedactJSON (Marshal (JObj (map_of data))).

(** ** Reading

    [json.Unmarshal] into the struct: a member goes to the field whose name it
    equals under case folding, [null] changes nothing, a value of another type
    is an error that is reported after the other members were read. *)

Inductive field_val := FStr (s : string) | FInt (z : Z).

Definition set_field (name : string) (v : field_val) (p : taskPayload) : taskPayload :=
  let 'MkPayload op ci sn bi rt ri st fp sb cs := p in
  match v with
  | FStr s =>
    if (name =? "operation")%string then MkPayload s ci sn bi rt ri st fp sb cs
    else if (name =? "container_id")%string then MkPayload op s sn bi rt ri st fp sb cs
    else if (name =? "service_name")%string then MkPayload op ci s bi rt ri st fp sb cs
    else if (name =? "resource_type")%string then MkPayload op ci sn bi s ri st fp sb cs
    else if (name =? "resource_id")%string then MkPayload op ci sn bi rt s st fp sb cs
    else if (name =? "storage_type")%string then MkPayload op ci sn bi rt ri s fp sb cs
    else if (name =? "file_path")%string then MkPayload op ci sn bi rt ri st s sb cs
    else if (name =? "checksum")%string then MkPayload op ci sn bi rt ri st fp sb s
    else p
  | FInt z =>
    if (name =? "backup_id")%string then MkPayload op ci sn z rt ri st fp sb cs
    else if (name =? "size_bytes")%string then MkPayload op ci sn bi rt ri st fp z cs
    else p
  end.

Definition int_fields : list string := ["backup_id"; "size_bytes"].
Definition field_names : list string :=
  ["operation"; "container_id"; "service_name"; "backup_id"; "resource_type"; "resource_id";
   "storage_type"; "file_path"; "size_bytes"; "checksum"].

(** One member; the flag is set by a value of the wrong type. *)
Definition read_member (acc : taskPayload * bool) (kv : string * json) : taskPayload * bool :=
  let '(p, bad) := acc in
  match List.find (fun name => EqualFold name kv.1) field_names with
  | None => acc
  | Some name =>
    let is_int := existsb (String.eqb name) int_fields in
    match kv.2 with
    | JNull => acc
    | JStr s => if is_int then (p, true) else (set_field name (FStr s) p, bad)
    | JNum l =>
      if is_int then
        match ParseInt64 l with Some z => (set_field name (FInt z) p, bad) | None => (p, true) end
      else (p, true)
    | JBool _ | JArr _ | JObj _ => (p, true)
    end
  end.

Definition Unmarshal (raw : string) : res taskPayload :=
  match Parse raw with
  | None => Err (ErrNew "invalid character in JSON text")
  | Some JNull => Ok empty_payload
  | Some (JObj l) =>
    let '(p, bad) := fold_left read_member l (empty_payload, false) in
    if bad then Err (ErrNew "json: cannot unmarshal into Go struct field") else Ok p
  | Some _ => Err (ErrNew "json: cannot unmarshal into Go value of type service.taskPayload")
  end.

Definition blank (s : string) : bool := (TrimSpace s =? "")%string.

Definition manual_verification (size : Z) (checksum path : string) : bool :=
  (0 <? size) || negb (blank checksum) || negb (blank path).

Definition unmarshalTaskPayload (raw : string) : res taskPayload :=
  match Unmarshal raw with
  | Err err => Err (ErrWrapW "invalid task payload" err)
  | Ok payload =>
    if (Operation payload =? taskOperationDockerRestart)%string then
      if blank (ContainerID payload) then Err (ErrNew "container_id is required in task payload")
      else Ok payload
    else if (Operation payload =? taskOperationServiceRestart)%string then
      if blank (ServiceName payload) then Err (ErrNew "service_name is required in task payload")
      else Ok payload
    else if (Operation payload =? taskOperationBackupCreate)%string then
      if BackupID payload <=? 0 then Err (ErrNew "backup_id is required in task payload")
      else Ok payload
    else if (Operation payload =? taskOperationBackupVerify)%string then
      if BackupID payload <=? 0 then Err (ErrNew "backup_id is required in task payload")
      else if manual_verification (SizeBytes payload) (Checksum payload) (FilePath payload) then
        if SizeBytes payload <=? 0 then
          Err (ErrNew "size_bytes is required when overriding backup verification")
        else if blank (Checksum payload) then
          Err (ErrNew "checksum is required when overriding backup verification")
        else Ok payload
      else Ok payload
    else Err (ErrNew ("unsupported operation '" +:+ Operation payload +:+ "'"))
  end.

(** ** Idempotency keys *)

Definition normalizeTaskIdempotencyKey (raw : string) : res (option string) :=
  let key := TrimSpace raw in
  if (key =? "")%string then Ok None
  else if 128 <? len key then Err (ErrNew "idempotency_key must be at most 128 bytes")
  else if ContainsFunc IsControl key then Err (ErrNew "idempotency_key cannot contain control characters")
  else Ok (Some key).

(** ** The retry policy *)

Definition isRetryableTaskError (err : goerr) : bool :=
  match As err with
  | None => true
  | Some appErr =>
    let s := ae_HTTPStatus appErr in
    negb ((s =? 400) || (s =? 401) || (s =? 403) || (s =? 404) || (s =? 413))
  end.

Definition taskRetryBackoff (attempt : Z) : Z :=
  let attempt := if attempt <=? 0 then 1 else attempt in
  let attempt := if 6 <? attempt then 6 else attempt in
  let delay := swrap 64 (Z.shiftl Second (attempt - 1)) in
  if 30 * Second <? delay then 30 * Second else delay.

Definition nextTaskRetryAt (now attempt maxAttempts : Z) (retryable : bool) : option Z :=
  if negb retryable || (maxAttempts <=? 0) || (maxAttempts <=? attempt) then None
  else Some (now + taskRetryBackoff attempt).

Definition taskHeartbeatInterval (leaseDuration : Z) : Z :=
  if leaseDuration <=? 0 then 10 * Second
  else
    let interval := Z.quot leaseDuration 3 in
    if interval <=? 0 then leaseDuration
    else if interval <? 50 * Millisecond then 50 * Millisecond
    else interval.

(** ** Worker options *)

Record TaskWorkerOptions := {
  WorkerID : string;
  Concurrency : Z;
  LeaseDuration : Z;
  PollInterval : Z
}.

(** [hostname] is what [os.Hostname] returns ([""] on error) and [pid] what
    [os.Getpid] returns. *)
Definition normalizeTaskWorkerOptions (hostname : string) (pid : Z) (options : TaskWorkerOptions)
  : TaskWorkerOptions :=
  {| WorkerID :=
       (let id := TrimSpace (WorkerID options) in
        if (id =? "")%string then
          let hostname := TrimSpace hostname in
          let hostname := if (hostname =? "")%string then "snowpanel-backend" else hostname in
          hostname +:+ "-" +:+ fmt_d pid
        else id);
     Concurrency := if Concurrency options <=? 0 then 1 else Concurrency options;
     LeaseDuration := if LeaseDuration options <=? 0 then 30 * Second else LeaseDuration options;
     PollInterval := if PollInterval options <=? 0 then 2 * Second else PollInterval options |}.

(** ** The payload round trip *)

(** What a Go string field and an [int64] field hold. *)
Definition payload_wf (p : taskPayload) : Prop :=
  Forall (fun s => ValidString s = true)
    [Operation p; ContainerID p; ServiceName p; ResourceType p; ResourceID p; StorageType p; FilePath p; Checksum p]
  /\ in_int64 (BackupID p) = true /\ in_int64 (SizeBytes p) = true.

Lemma plain_omit_str k v : ValidString k = true -> ValidString v = true ->
  Forall (fun kv => ValidString kv.1 = true /\ plain kv.2) (omit_str k v).
Proof. intros. unfold omit_str. case_match; repeat constructor; done. Qed.

Lemma plain_omit_int k v : ValidString k = true ->
  Forall (fun kv => ValidString kv.1 = true /\ plain kv.2) (omit_int k v).
Proof. intros. unfold omit_int. case_match; repeat constructor; done. Qed.

Lemma plain_payload p : payload_wf p -> plain (payload_json p).
Proof.
  intros [Hs _]. rewrite !Forall_cons in Hs. destruct_and! Hs.
  constructor. constructor; [by repeat constructor|].
  repeat (apply Forall_app; split); try (by apply plain_omit_str); by apply plain_omit_int.
Qed.

(** Reading a member that was written sets its field; one that was omitted
    leaves the zero value there. *)
Ltac read_step :=
  first
    [ rewrite fold_left_app
    | match goal with
      | |- context [fold_left read_member (omit_str ?k ?v) (?q, ?b)] =>
          replace (fold_left read_member (omit_str k v) (q, b)) with (set_field k (FStr v) q, b)
            by (unfold omit_str; destruct (String.eqb_spec v ""); [subst|]; vm_compute; reflexivity)
      | H : in_int64 ?v = true |- context [fold_left read_member (omit_int ?k ?v) (?q, ?b)] =>
          replace (fold_left read_member (omit_int k v) (q, b)) with (set_field k (FInt v) q, b);
          [| unfold omit_int; destruct (Z.eqb_spec v 0); [subst; vm_compute; reflexivity|];
             cbn [fold_left read_member fst snd]; unfold JInt;
             replace (List.find (fun name => EqualFold name k) field_names) with (Some k) by (vm_compute; reflexivity);
             replace (existsb (String.eqb k) int_fields) with true by (vm_compute; reflexivity);
             rewrite (ParseInt64_fmt v H); reflexivity ]
      end ].

Lemma Unmarshal_marshal p : payload_wf p -> Unmarshal (marshalTaskPayload p) = Ok p.
Proof.
  intros Hp. unfold Unmarshal, marshalTaskPayload. rewrite Parse_Marshal by (by apply plain_payload).
  unfold payload_json. destruct Hp as (_ & Hb & Hz). destruct p as [op ci sn bi rt ri st fp sb cs].
  cbn [Operation ContainerID ServiceName BackupID ResourceType ResourceID StorageType FilePath SizeBytes Checksum] in *.
  rewrite fold_left_app.
  replace (fold_left read_member [("operation", JStr op)] (empty_payload, false))
    with (MkPayload op "" "" 0 "" "" "" "" 0 "", false) by (vm_compute; reflexivity).
  repeat (read_step; cbn [set_field String.eqb Ascii.eqb Bool.eqb]).
  reflexivity.
Qed.

(** The payloads an operation accepts. *)
Definition payload_accepted (p : taskPayload) : Prop :=
  (Operation p = taskOperationDockerRestart /\ TrimSpace (ContainerID p) <> "")
  \/ (Operation p = taskOperationServiceRestart /\ TrimSpace (ServiceName p) <> "")
  \/ (Operation p = taskOperationBackupCreate /\ 0 < BackupID p)
  \/ (Operation p = taskOperationBackupVerify /\ 0 < BackupID p /\
      ((SizeBytes p <= 0 /\ TrimSpace (Checksum p) = "" /\ TrimSpace (FilePath p) = "") \/
       (0 < SizeBytes p /\ TrimSpace (Checksum p) <> ""))).

Lemma blank_true s : blank s = true <-> TrimSpace s = "".
Proof. unfold blank. apply String.eqb_eq. Qed.

Lemma blank_false s : blank s = false <-> TrimSpace s <> "".
Proof. unfold blank. apply String.eqb_neq. Qed.

(** The checks after the text was read. *)
Lemma unmarshal_checks raw p : Unmarshal raw = Ok p ->
  (payload_accepted p /\ unmarshalTaskPayload raw = Ok p) \/
  (~ payload_accepted p /\ exists e, unmarshalTaskPayload raw = Err e).
Proof.
  intros E. unfold unmarshalTaskPayload, payload_accepted, manual_verification. rewrite E.
  destruct (String.eqb_spec (Operation p) taskOperationDockerRestart) as [->|H1].
  { destruct (blank (ContainerID p)) eqn:B; [apply blank_true in B; right|apply blank_false in B; left; auto].
    split; [|eauto]. by intros [[]|[[]|[[]|[]]]]. }
  destruct (String.eqb_spec (Operation p) taskOperationServiceRestart) as [->|H2].
  { destruct (blank (ServiceName p)) eqn:B; [apply blank_true in B; right|apply blank_false in B; left; auto].
    split; [|eauto]. by intros [[]|[[]|[[]|[]]]]. }
  destruct (String.eqb_spec (Operation p) taskOperationBackupCreate) as [->|H3].
  { destruct (Z.leb_spec (BackupID p) 0); [right|left; auto 10]. split; [|eauto].
    intros [[]|[[]|[[]|[]]]]; try done; lia. }
  destruct (String.eqb_spec (Operation p) taskOperationBackupVerify) as [->|H4].
  2: { right. split; [|eauto]. intros [[]|[[]|[[]|[]]]]; done. }
  destruct (Z.leb_spec (BackupID p) 0).
  { right. split; [|eauto]. intros [[]|[[]|[[]|[? []]]]]; try done; lia. }
  destruct (Z.ltb_spec 0 (SizeBytes p)); destruct (blank (Checksum p)) eqn:B1; destruct (blank (FilePath p)) eqn:B2;
    (apply blank_true in B1 || apply blank_false in B1); (apply blank_true in B2 || apply blank_false in B2);
    cbn [orb negb];
    destruct (Z.leb_spec (SizeBytes p) 0); try lia.
  all: first [ left; split; [right; right; right; split; [done|]; split; [done|]; first [by left | by right]|done]
             | right; split; [|eauto]; intros [[]|[[]|[[]|(? & ? & [(? & ? & ?)|[? ?]])]]]; try done; lia ].
Qed.

(** A task's payload is read back as it was written, for every payload the
    operation accepts; a payload that lacks what its operation needs, or names
    an unknown operation, is refused by the worker. *)
Theorem payload_roundtrip p (Hwf : payload_wf p) :
  (payload_accepted p -> unmarshalTaskPayload (marshalTaskPayload p) = Ok p)
  /\ (~ payload_accepted p -> exists e, unmarshalTaskPayload (marshalTaskPayload p) = Err e).
Proof.
  destruct (unmarshal_checks _ p (Unmarshal_marshal p Hwf)) as [[Ha E]|[Ha E]]; split; intros H; done.
Qed.

Lemma payload_roundtrip_witness :
  let p := MkPayload "docker.restart" "<web> 1" "" 0 "" "" "" "" 0 "" in
  unmarshalTaskPayload (marshalTaskPayload p) = Ok p.
Proof.
  intros p. refine (proj1 (payload_roundtrip p _) _).
  - split; [repeat constructor|done].
  - left. split; [done|]. vm_compute. done.
Defined.

(** An idempotency key that is accepted is the trimmed text, not empty, at
    most 128 bytes and free of control characters, and accepting it again gives
    the same key; a blank text is no key. *)
Theorem normalizeTaskIdempotencyKey_spec raw :
  match normalizeTaskIdempotencyKey raw with
  | Ok None => TrimSpace raw = ""
  | Ok (Some k) => k = TrimSpace raw /\ k <> "" /\ len k <= 128
      /\ Forall (fun r => IsControl r = false) (runes k) /\ normalizeTaskIdempotencyKey k = Ok (Some k)
  | Err _ => 128 < len (TrimSpace raw) \/ exists r, r ∈ runes (TrimSpace raw) /\ IsControl r = true
  end.
Proof.
  unfold normalizeTaskIdempotencyKey. destruct (String.eqb_spec (TrimSpace raw) "") as [|Hn]; [done|].
  destruct (Z.ltb_spec 128 (len (TrimSpace raw))) as [Hl|Hl]; [by left|].
  destruct (ContainsFunc IsControl (TrimSpace raw)) eqn:Hc.
  - right. unfold ContainsFunc in Hc. apply existsb_exists in Hc as (r & Hr & Hc). exists r.
    by rewrite list_elem_of_In.
  - split; [done|]. split; [done|]. split; [lia|]. rewrite TrimSpace_idem.
    destruct (String.eqb_spec (TrimSpace raw) ""); [done|].
    destruct (Z.ltb_spec 128 (len (TrimSpace raw))); [lia|]. rewrite Hc. split; [|done].
    apply Forall_forall. intros r Hr. destruct (IsControl r) eqn:E; [|done].
    assert (ContainsFunc IsControl (TrimSpace raw) = true); [|congruence].
    apply existsb_exists. exists r. by rewrite <- list_elem_of_In.
Qed.

(** ** The retry policy *)

Lemma backoff_values attempt :
  taskRetryBackoff attempt = Z.min (30 * Second) (2 ^ (Z.max 1 (Z.min 6 attempt) - 1) * Second).
Proof.
  unfold taskRetryBackoff. destruct (Z.leb_spec attempt 0).
  - replace (Z.max 1 (Z.min 6 attempt)) with 1 by lia. reflexivity.
  - destruct (Z.ltb_spec 6 attempt).
    + replace (Z.max 1 (Z.min 6 attempt)) with 6 by lia. reflexivity.
    + replace (Z.max 1 (Z.min 6 attempt)) with attempt by lia.
      assert (attempt = 1 \/ attempt = 2 \/ attempt = 3 \/ attempt = 4 \/ attempt = 5 \/ attempt = 6)
        as Hc by lia.
      destruct Hc as [->|[->|[->|[->|[->| ->]]]]]; reflexivity.
Qed.

(** A failed task is retried exactly when the error is retryable and an
    attempt is left; the delay doubles with each attempt from one second up to
    thirty, without overflow, and never shrinks. *)
Theorem retry_policy now attempt maxAttempts retryable :
  (nextTaskRetryAt now attempt maxAttempts retryable = None <->
     retryable = false \/ maxAttempts <= 0 \/ maxAttempts <= attempt)
  /\ (forall t, nextTaskRetryAt now attempt maxAttempts retryable = Some t ->
        t = now + Z.min (30 * Second) (2 ^ (Z.max 1 (Z.min 6 attempt) - 1) * Second)
        /\ now + Second <= t <= now + 30 * Second)
  /\ (forall later, attempt <= later -> taskRetryBackoff attempt <= taskRetryBackoff later).
Proof.
  assert (Hb : forall a, Second <= taskRetryBackoff a <= 30 * Second).
  { intros a. rewrite backoff_values.
    pose proof (Z.pow_le_mono_r 2 0 (Z.max 1 (Z.min 6 a) - 1) ltac:(lia) ltac:(lia)). unfold Second in *. lia. }
  split; [|split].
  - unfold nextTaskRetryAt. destruct retryable, (Z.leb_spec maxAttempts 0), (Z.leb_spec maxAttempts attempt);
      simpl; split; intros; try done; try lia; auto; destruct_or?; try done; lia.
  - intros t. unfold nextTaskRetryAt. case_match; [done|]. intros [= <-]. specialize (Hb attempt).
    rewrite <- backoff_values. split; [done|lia].
  - intros later Hle. rewrite !backoff_values.
    pose proof (Z.pow_le_mono_r 2 (Z.max 1 (Z.min 6 attempt) - 1) (Z.max 1 (Z.min 6 later) - 1)
                  ltac:(lia) ltac:(lia)). unfold Second. lia.
Qed.

(** After normalisation a worker has a name, at least one slot, a positive
    lease and a positive poll interval; its heartbeat interval is positive and
    leaves room for three heartbeats in every lease of at least 150 ms. *)
Theorem normalizeTaskWorkerOptions_spec hostname pid options :
  let o := normalizeTaskWorkerOptions hostname pid options in
  WorkerID o <> "" /\ 1 <= Concurrency o /\ 0 < LeaseDuration o /\ 0 < PollInterval o
  /\ 0 < taskHeartbeatInterval (LeaseDuration o)
  /\ (150 * Millisecond <= LeaseDuration o -> 3 * taskHeartbeatInterval (LeaseDuration o) <= LeaseDuration o).
Proof.
  intros o.
  assert (Hl : 0 < LeaseDuration o) by (unfold o; simpl; destruct (Z.leb_spec (LeaseDuration options) 0); [reflexivity|lia]).
  split; [|split; [|split; [exact Hl|split]]].
  - unfold o. simpl. destruct (String.eqb_spec (TrimSpace (WorkerID options)) ""); [|done].
    case_match; [done|]. intros E. apply (f_equal String.length) in E.
    rewrite !length_app_str in E. simpl in E. lia.
  - simpl. destruct (Z.leb_spec (Concurrency options) 0); lia.
  - simpl. destruct (Z.leb_spec (PollInterval options) 0); [reflexivity|lia].
  - unfold taskHeartbeatInterval. generalize dependent (LeaseDuration o). clear o. intros d Hd.
    destruct (Z.leb_spec d 0); [lia|].
    pose proof (Z.quot_rem' d 3). pose proof (Z.rem_bound_pos d 3 ltac:(lia) ltac:(lia)).
    unfold Millisecond in *. repeat case_match; breflect; lia.
Qed.
