(* ===== verification/BackupApi.v ===== *)
(** * The interface of the backup service

    The methods of the Go interface [BackupService]
    ([internal/service/backup_service.go]) as operations, and what the other
    services rely on, as a class of implementations over a state [W]. *)

From Stdlib Require Import ZArith.
From S2P Require Import Prelude GoError Dto.

Definition BackupStatusPending : string := "pending".
Definition BackupStatusRunning : string := "running".
Definition BackupStatusSuccess : string := "success".
Definition BackupStatusFailed : string := "failed".

Definition BackupStorageLocal : string := "local".

Definition BackupResourcePostgres : string := "postgres".
Definition BackupResourceAppMetadata : string := "app_metadata".
Definition BackupResourceObservability : string := "observability_config".
Definition BackupResourceCoreAgentTemplate : string := "core_agent_config".

Inductive backup_op :=
| BCreateMetadata (req : dto.CreateBackupMetadataRequest) (createdBy : option Z)
| BCreateArtifact (id : Z)
| BVerify (id : Z) (req : dto.VerifyBackupRequest)
| BVerifyArtifact (id : Z)
| BMarkStatus (id : Z) (status : string)
| BList (query : dto.ListBackupsQuery)
| BCleanupRetention (req : dto.BackupRetentionCleanupRequest).

Definition backup_ans (o : backup_op) : Type :=
  match o with
  | BCreateMetadata _ _ | BCreateArtifact _ | BVerify _ _ | BVerifyArtifact _ | BMarkStatus _ _ =>
      res dto.BackupSummary
  | BList _ => res dto.ListBackupsResult
  | BCleanupRetention _ => res dto.BackupRetentionCleanupResult
  end.

(** An implementation: what each method does to the state, an invariant it
    keeps, and the promise the task service needs for the payload of a backup
    task: a new backup has a positive id. *)
Class BackupImpl (W : Type) := {
  backup_exec : Z -> forall o : backup_op, W -> backup_ans o * W;
  backup_inv : W -> Prop;
  backup_exec_inv : forall now o w, backup_inv w -> backup_inv (backup_exec now o w).2;
  backup_new_id : forall now req by_ w b, backup_inv w ->
    (backup_exec now (BCreateMetadata req by_) w).1 = Ok b -> 0 < dto.bs_ID b
}.

(** No backup service: every method fails and there is no state. *)
Definition unconfigured (o : backup_op) : backup_ans o :=
  match o with
  | BCreateMetadata _ _ | BCreateArtifact _ | BVerify _ _ | BVerifyArtifact _ | BMarkStatus _ _
  | BList _ | BCleanupRetention _ => Err (ErrNew "backup service is not configured")
  end.

#[export] Instance no_backups : BackupImpl unit.
Proof.
  refine {| backup_exec _ o w := (unconfigured o, w); backup_inv _ := True |}; done.
Defined.
