(* ===== verification/BackupRepo.v ===== *)
(** * The backup table

    [internal/repository/backup_repository.go] over the table [backups] of the
    migrations, every statement one atomic operation on the rows, with the
    CHECK constraints on [status] and [size_bytes], the lengths of the VARCHAR
    columns and the primary key.  The foreign key of [created_by] is left to
    the faults. *)

From Stdlib Require Import ZArith Lia.
From S2P Require Import Prelude GoString GoError Table Schema.

Record BackupListFilter := {
  bf_Page : Z;
  bf_Size : Z;
  bf_Status : string;
  bf_ResourceType : string;
  bf_ResourceID : string
}.

(** The table with its [BIGSERIAL] sequence. *)
Record BackupDB := { bdb_rows : list Backup; bdb_next : Z }.

Definition empty_BackupDB : BackupDB := {| bdb_rows := []; bdb_next := 1 |}.

Definition with_rows (l : list Backup) (db : BackupDB) : BackupDB :=
  {| bdb_rows := l; bdb_next := bdb_next db |}.

Definition backup_statuses : list string := ["pending"; "running"; "success"; "failed"].

(** The constraints of the columns. *)
Definition backup_status_ok (v : string) : bool := bool_decide (v ∈ backup_statuses).
Definition size_ok (v : Z) : bool := 0 <=? v.

Definition row_checks (b : Backup) : bool :=
  varchar 32 (b_ResourceType b) && varchar 128 (b_ResourceID b) && varchar 32 (b_StorageType b)
  && size_ok (b_SizeBytes b) && varchar 128 (b_Checksum b)
  && varchar 16 (b_Status b) && backup_status_ok (b_Status b).

Definition ErrConstraint : goerr := ErrNew "constraint violation on table backups".

Definition has_bid (id : Z) (b : Backup) : bool := b_ID b =? id.

Module backup_repository.

Definition Create (now : Z) (backup : Backup) (db : BackupDB) : res Backup * BackupDB :=
  let fresh := b_ID backup =? 0 in
  let row := assign_backup
    ([bcol_ID (if fresh then bdb_next db else b_ID backup)] ++
     (if b_CreatedAt backup =? zero_time then [bcol_CreatedAt now] else []) ++
     (if b_UpdatedAt backup =? zero_time then [bcol_UpdatedAt now] else [])) backup in
  let db' := {| bdb_rows := bdb_rows db; bdb_next := if fresh then bdb_next db + 1 else bdb_next db |} in
  if existsb (has_bid (b_ID row)) (bdb_rows db) || negb (row_checks row) then (Err ErrConstraint, db')
  else (Ok row, with_rows (bdb_rows db ++ [row]) db').

(** [First] orders by the primary key, which is unique. *)
Definition GetByID (id : Z) (db : BackupDB) : res (option Backup) :=
  Ok (first_where (has_bid id) (bdb_rows db)).

Definition List (filter : BackupListFilter) (db : BackupDB) : res (list Backup * Z) :=
  let page := if bf_Page filter <=? 0 then 1 else bf_Page filter in
  let size := if bf_Size filter <=? 0 then 20 else bf_Size filter in
  let size := if 100 <? size then 100 else size in
  let status := TrimSpace (bf_Status filter) in
  let resourceType := TrimSpace (bf_ResourceType filter) in
  let resourceID := TrimSpace (bf_ResourceID filter) in
  let query := select_where (fun b =>
      ((status =? "")%string || (b_Status b =? status)%string) &&
      ((resourceType =? "")%string || (b_ResourceType b =? resourceType)%string) &&
      ((resourceID =? "")%string || (b_ResourceID b =? resourceID)%string)) (bdb_rows db) in
  Ok (page_of (page_offset page size) size (order_by (fun b => - b_CreatedAt b) query),
      Z.of_nat (length query)).

(** [Model(&model.Backup{}).Where("id = ?", id).Updates(cs)]: GORM also sets
    [updated_at]; the constraints are checked when there is such a row. *)
Definition Updates (now id : Z) (cs : list bcol) (db : BackupDB) : res unit * BackupDB :=
  let assign := assign_backup (cs ++ [bcol_UpdatedAt now]) in
  if existsb (fun b => has_bid id b && negb (row_checks (assign b))) (bdb_rows db) then (Err ErrConstraint, db)
  else (Ok tt, with_rows (update_where (has_bid id) assign (bdb_rows db)) db).

Definition verification_updates (status : string) (sizeBytes : Z) (checksum filePath : string) : list bcol :=
  [bcol_Status status; bcol_SizeBytes sizeBytes; bcol_Checksum checksum] ++
  (if (TrimSpace filePath =? "")%string then [] else [bcol_FilePath filePath]).

Definition UpdateVerification (now id : Z) (status : string) (sizeBytes : Z) (checksum filePath : string)
  (db : BackupDB) : res unit * BackupDB :=
  Updates now id (verification_updates status sizeBytes checksum filePath) db.

Definition UpdateStatus (now id : Z) (status : string) (db : BackupDB) : res unit * BackupDB :=
  Updates now id [bcol_Status status] db.

(** [created_at < ? AND status IN ('success', 'failed')]. *)
Definition deletable (cutoff : Z) (b : Backup) : bool :=
  (b_CreatedAt b <? cutoff) && ((b_Status b =? "success")%string || (b_Status b =? "failed")%string).

Definition CountDeletableBefore (cutoff : Z) (db : BackupDB) : res Z :=
  Ok (count_where (deletable cutoff) (bdb_rows db)).

(** [ORDER BY created_at ASC, id ASC]. *)
Definition older (a b : Backup) : Prop :=
  b_CreatedAt a < b_CreatedAt b \/ (b_CreatedAt a = b_CreatedAt b /\ b_ID a <= b_ID b).
#[global] Instance older_dec : RelDecision older.
Proof. intros a b. unfold older. apply _. Defined.

Definition ListDeletableBefore (cutoff : Z) (db : BackupDB) : res (list Backup) :=
  Ok (merge_sort older (select_where (deletable cutoff) (bdb_rows db))).

Definition DeleteDeletableBefore (cutoff : Z) (db : BackupDB) : res Z * BackupDB :=
  (Ok (count_where (deletable cutoff) (bdb_rows db)),
   with_rows (delete_where (deletable cutoff) (bdb_rows db)) db).

End backup_repository.

(** ** The interface [BackupRepository] *)

Inductive brepo_op :=
| BRCreate (backup : Backup)
| BRGetByID (id : Z)
| BRList (filter : BackupListFilter)
| BRUpdateVerification (id : Z) (status : string) (sizeBytes : Z) (checksum filePath : string)
| BRUpdateStatus (id : Z) (status : string)
| BRCountDeletableBefore (cutoff : Z)
| BRListDeletableBefore (cutoff : Z)
| BRDeleteDeletableBefore (cutoff : Z).

Definition brepo_val (o : brepo_op) : Type :=
  match o with
  | BRCreate _ => Backup
  | BRGetByID _ => option Backup
  | BRList _ => list Backup * Z
  | BRCountDeletableBefore _ | BRDeleteDeletableBefore _ => Z
  | BRListDeletableBefore _ => list Backup
  | BRUpdateVerification _ _ _ _ _ | BRUpdateStatus _ _ => unit
  end.

Definition brepo_ans (o : brepo_op) : Type := res (brepo_val o).

(** The repository at time [now]. *)
Definition brepo_exec (now : Z) (o : brepo_op) (db : BackupDB) : brepo_ans o * BackupDB :=
  match o return brepo_ans o * BackupDB with
  | BRCreate b => backup_repository.Create now b db
  | BRGetByID i => (backup_repository.GetByID i db, db)
  | BRList f => (backup_repository.List f db, db)
  | BRUpdateVerification i s n c p => backup_repository.UpdateVerification now i s n c p db
  | BRUpdateStatus i s => backup_repository.UpdateStatus now i s db
  | BRCountDeletableBefore t => (backup_repository.CountDeletableBefore t db, db)
  | BRListDeletableBefore t => (backup_repository.ListDeletableBefore t db, db)
  | BRDeleteDeletableBefore t => backup_repository.DeleteDeletableBefore t db
  end.

(** ** The invariant *)

Record bdb_ok (db : BackupDB) : Prop := {
  bok_rows : Forall (fun b => row_checks b = true) (bdb_rows db);
  bok_ids : NoDup (b_ID <$> bdb_rows db);
  bok_seq : 1 <= bdb_next db /\ Forall (fun b => 0 < b_ID b < bdb_next db) (bdb_rows db)
}.

(** Rows are inserted without a key. *)
Definition bop_ok (o : brepo_op) : Prop := match o with BRCreate b => b_ID b = 0 | _ => True end.

Definition keeps_bid (c : bcol) : bool := match c with bcol_ID _ => false | _ => true end.

Lemma assign_keeps_bid cs b : forallb keeps_bid cs = true -> b_ID (assign_backup cs b) = b_ID b.
Proof.
  unfold assign_backup. revert b. induction cs as [|c cs IH]; intros b H; [done|].
  simpl in H. apply andb_prop in H as [Hc H]. cbn [fold_left]. rewrite (IH _ H). by destruct b, c.
Qed.

Lemma verification_keeps_bid st n c p now :
  forallb keeps_bid (backup_repository.verification_updates st n c p ++ [bcol_UpdatedAt now]) = true.
Proof. unfold backup_repository.verification_updates. by destruct (TrimSpace p =? "")%string. Qed.

Lemma backup_Updates_ok now id cs db : forallb keeps_bid (cs ++ [bcol_UpdatedAt now]) = true ->
  bdb_ok db -> bdb_ok (backup_repository.Updates now id cs db).2.
Proof.
  intros Hcs [Hr Hi [Hn Hs]]. unfold backup_repository.Updates. cbv zeta.
  destruct (existsb _ _) eqn:E; [done|]. cbn [snd]. split; cbn [bdb_rows bdb_next with_rows].
  - rewrite Forall_forall in Hr |- *. intros x Hx. apply elem_of_update in Hx as [[Hx _]|(y & Hy & Hp & ->)]; auto.
    destruct (row_checks _) eqn:Ec; [done|]. exfalso. apply not_true_iff_false in E. apply E, existsb_exists.
    exists y. split; [by apply list_elem_of_In|]. by rewrite Hp, Ec.
  - rewrite fmap_update; [done|]. intros b. by apply assign_keeps_bid.
  - split; [done|]. apply Forall_update; [done|]. intros b _ Hb. by rewrite assign_keeps_bid.
Qed.

Lemma Create_backup_ok now b db : b_ID b = 0 -> bdb_ok db -> bdb_ok (backup_repository.Create now b db).2.
Proof.
  intros Hb [Hr Hi [Hn Hs]]. unfold backup_repository.Create. cbv zeta. rewrite Hb, Z.eqb_refl.
  set (row := assign_backup _ b).
  assert (Hid : b_ID row = bdb_next db).
  { subst row. unfold assign_backup. rewrite fold_left_app. cbn [fold_left app]. set (b' := set_backup _ b).
    assert (Hb' : b_ID b' = bdb_next db) by (by destruct b). revert Hb'. generalize b'. intros b2 <-.
    change (b_ID (assign_backup ((if b_CreatedAt b =? zero_time then [bcol_CreatedAt now] else []) ++
       (if b_UpdatedAt b =? zero_time then [bcol_UpdatedAt now] else [])) b2) = b_ID b2).
    apply assign_keeps_bid. by repeat case_goal. }
  destruct (existsb _ _ || _) eqn:E; cbn [snd].
  - split; cbn [bdb_rows bdb_next]; [done|done|]. split; [lia|]. eapply Forall_impl; [exact Hs|]. intros x ?. cbv beta in *. lia.
  - apply orb_false_elim in E as [_ E]. apply negb_false_iff in E.
    split; cbn [bdb_rows bdb_next with_rows].
    + by apply Forall_app_2; [|constructor].
    + rewrite fmap_app. apply NoDup_app. split; [done|]. split; [|apply NoDup_singleton].
      intros x Hx Hx'. apply list_elem_of_singleton in Hx' as ->.
      apply list_elem_of_fmap in Hx as (r & Hx & Hr'). rewrite Forall_forall in Hs. specialize (Hs r Hr'). cbv beta in Hs. rewrite <- Hx in Hs. change (b_ID (fold_left _ _ _)) with (b_ID row) in Hs. lia.
    + split; [lia|]. apply Forall_app_2.
      * eapply Forall_impl; [exact Hs|]. intros x ?. cbv beta in *. lia.
      * constructor; [lia|constructor].
Qed.

Lemma delete_backups_ok p db : bdb_ok db -> bdb_ok (with_rows (delete_where p (bdb_rows db)) db).
Proof.
  intros [Hr Hi [Hn Hs]]. split; cbn [bdb_rows bdb_next with_rows].
  - auto with snow.
  - unfold delete_where. induction (bdb_rows db) as [|x l IH]; [constructor|]. cbn [List.filter].
    inversion Hr; inversion Hs; subst. rewrite fmap_cons in Hi. apply NoDup_cons in Hi as [Hx Hi].
    destruct (negb (p x)); [|by apply IH]. rewrite fmap_cons. apply NoDup_cons. split; [|by apply IH].
    intros C. apply Hx. apply list_elem_of_fmap in C as (y & -> & Hy). apply list_elem_of_fmap. exists y.
    split; [done|]. apply list_elem_of_In, filter_In in Hy as [Hy _]. by apply list_elem_of_In.
  - split; [done|]. auto with snow.
Qed.

(** Every statement keeps the invariant. *)
Lemma brepo_exec_ok now o db : bop_ok o -> bdb_ok db -> bdb_ok (brepo_exec now o db).2.
Proof.
  destruct o; intros Ho Hdb; try done.
  - by apply Create_backup_ok.
  - apply backup_Updates_ok; [apply verification_keeps_bid | done].
  - by apply backup_Updates_ok.
  - by apply delete_backups_ok.
Qed.

#[export] Hint Resolve brepo_exec_ok : snow.

(** ** One row *)

Definition row_of (id : Z) (db : BackupDB) : option Backup := first_where (has_bid id) (bdb_rows db).

Lemma has_bid_eq id b : has_bid id b = true <-> b_ID b = id.
Proof. apply Z.eqb_eq. Qed.

Lemma row_of_id id db b : row_of id db = Some b -> b_ID b = id.
Proof. intros H. apply first_where_Some in H as [_ H]. by apply has_bid_eq. Qed.

Lemma row_of_checks id db b : bdb_ok db -> row_of id db = Some b -> row_checks b = true.
Proof. intros [Hr _ _] H. apply first_where_Some in H as [H _]. rewrite Forall_forall in Hr. by apply Hr. Qed.

(** An update changes at most its row, and that one if the constraints hold. *)
Lemma Updates_other now id cs db i : forallb keeps_bid (cs ++ [bcol_UpdatedAt now]) = true -> i <> id ->
  row_of i (backup_repository.Updates now id cs db).2 = row_of i db.
Proof.
  intros Hcs Hi. unfold backup_repository.Updates. cbv zeta. destruct (existsb _ _); [done|].
  cbn [snd]. unfold row_of. cbn [bdb_rows with_rows]. rewrite first_where_update.
  - destruct (first_where (has_bid i) (bdb_rows db)) as [x|] eqn:E; [|done].
    apply first_where_Some in E as [_ E]. apply has_bid_eq in E. destruct (has_bid id x) eqn:E2; [|done].
    apply has_bid_eq in E2. congruence.
  - intros x. unfold has_bid. by rewrite assign_keeps_bid.
Qed.

Lemma Updates_row now id cs db b : forallb keeps_bid (cs ++ [bcol_UpdatedAt now]) = true ->
  row_of id db = Some b ->
  row_of id (backup_repository.Updates now id cs db).2 =
    Some (if is_ok (backup_repository.Updates now id cs db).1
          then assign_backup (cs ++ [bcol_UpdatedAt now]) b else b).
Proof.
  intros Hcs Hb. unfold backup_repository.Updates. cbv zeta. destruct (existsb _ _); [done|].
  cbn [fst snd is_ok]. unfold row_of in *. cbn [bdb_rows with_rows]. rewrite first_where_update, Hb.
  - apply first_where_Some in Hb as [_ ->]. done.
  - intros x. unfold has_bid. by rewrite assign_keeps_bid.
Qed.

Lemma Updates_missing now id cs db : row_of id db = None -> forallb keeps_bid (cs ++ [bcol_UpdatedAt now]) = true ->
  row_of id (backup_repository.Updates now id cs db).2 = None.
Proof.
  intros Hb Hcs. unfold backup_repository.Updates. cbv zeta. destruct (existsb _ _); [done|].
  cbn [snd]. unfold row_of in *. cbn [bdb_rows with_rows]. rewrite first_where_update, Hb; [done|].
  intros x. unfold has_bid. by rewrite assign_keeps_bid.
Qed.

Lemma Updates_succeeds now id cs db b : bdb_ok db -> row_of id db = Some b ->
  row_checks (assign_backup (cs ++ [bcol_UpdatedAt now]) b) = true ->
  is_ok (backup_repository.Updates now id cs db).1 = true.
Proof.
  intros [_ Hi _] Hb Hc. unfold backup_repository.Updates. cbv zeta.
  destruct (existsb _ _) eqn:E; [|done]. exfalso. apply existsb_exists in E as (y & Hy & E).
  apply andb_prop in E as [Ey E]. apply first_where_Some in Hb as [Hb Hid].
  apply list_elem_of_In in Hy. apply has_bid_eq in Ey, Hid.
  assert (y = b); [|subst; by rewrite Hc in E].
  apply list_elem_of_lookup in Hy as (n & Hn). apply list_elem_of_lookup in Hb as (m & Hm).
  assert (n = m) as ->.
  { apply (NoDup_lookup (b_ID <$> bdb_rows db) n m id); [done| |]; rewrite list_lookup_fmap;
      [rewrite Hn | rewrite Hm]; cbn; congruence. }
  congruence.
Qed.
