(* ===== verification/Crypto.v ===== *)
(** * Cryptographic functions

    SHA-256 and the text encodings of the standard library, and the interfaces
    of the two packages outside it: bcrypt and JSON web tokens, each a class
    with the documented laws the authentication relies on. *)

From Stdlib Require Import ZArith Lia Ascii.
From S2P Require Import Prelude GoString.

(** ** SHA-256 on bytes as integers *)
Module sha256.

Definition add32 (a b : Z) : Z := wrap 32 (a + b).
Definition rotr (x n : Z) : Z := Z.lor (Z.shiftr x n) (wrap 32 (Z.shiftl x (32 - n))).
Definition Ch (x y z : Z) : Z := Z.lxor (Z.land x y) (Z.land (4294967295 - x) z).
Definition Maj (x y z : Z) : Z := Z.lxor (Z.lxor (Z.land x y) (Z.land x z)) (Z.land y z).
Definition Sigma0 (x : Z) : Z := Z.lxor (Z.lxor (rotr x 2) (rotr x 13)) (rotr x 22).
Definition Sigma1 (x : Z) : Z := Z.lxor (Z.lxor (rotr x 6) (rotr x 11)) (rotr x 25).
Definition sigma0 (x : Z) : Z := Z.lxor (Z.lxor (rotr x 7) (rotr x 18)) (Z.shiftr x 3).
Definition sigma1 (x : Z) : Z := Z.lxor (Z.lxor (rotr x 17) (rotr x 19)) (Z.shiftr x 10).

(** The standard defines its constants as the leading 32 bits of the fractional
    parts of roots of the first primes: cube roots for the rounds, square
    roots for the initial state.  They are computed that way. *)
Definition is_prime (n : nat) : bool :=
  forallb (fun d => negb (n mod d =? 0)%nat) (seq 2 (n - 2)).

Definition primes : list Z :=
  Eval vm_compute in map Z.of_nat (List.filter is_prime (seq 2 310)).

(** The greatest [r + s], [s] below [2 ^ bits], whose cube is at most [n]. *)
Fixpoint cube_root (bits : nat) (n r : Z) : Z :=
  match bits with
  | O => r
  | S bits =>
    let r' := r + 2 ^ Z.of_nat bits in
    cube_root bits n (if r' * r' * r' <=? n then r' else r)
  end.

Definition round_constants : list Z :=
  Eval vm_compute in map (fun p => wrap 32 (cube_root 40 (p * 2 ^ 96) 0)) primes.

Definition initial_state : list Z :=
  Eval vm_compute in map (fun p => wrap 32 (Z.sqrt (p * 2 ^ 64))) (take 8 primes).

(** [n] bytes of [z], the most significant first. *)
Fixpoint be_bytes (n : nat) (z : Z) : list Z :=
  match n with O => [] | S n => be_bytes n (z / 256) ++ [z mod 256] end.

Definition of_bytes (l : list Z) : Z := fold_left (fun acc b => acc * 256 + b) l 0.

(** The message with its padding. *)
Definition pad (msg : list Z) : list Z :=
  let n := Z.of_nat (length msg) in
  let zeros := (55 - n) mod 64 in
  msg ++ [128] ++ replicate (Z.to_nat zeros) 0 ++ be_bytes 8 (n * 8).

Fixpoint chunks {A} (fuel k : nat) (l : list A) : list (list A) :=
  match fuel, l with
  | S fuel, _ :: _ => take k l :: chunks fuel k (drop k l)
  | _, _ => []
  end.

(** The message schedule, the latest word first. *)
Fixpoint schedule (n : nat) (w : list Z) : list Z :=
  match n with
  | O => w
  | S n =>
    let x i := nth i w 0 in
    schedule n (add32 (add32 (sigma1 (x 1%nat)) (x 6%nat)) (add32 (sigma0 (x 14%nat)) (x 15%nat)) :: w)
  end.

Definition round (st : list Z) (kw : Z * Z) : list Z :=
  match st with
  | [a; b; c; d; e; f; g; h] =>
    let t1 := add32 (add32 h (Sigma1 e)) (add32 (Ch e f g) (add32 kw.1 kw.2)) in
    let t2 := add32 (Sigma0 a) (Maj a b c) in
    [add32 t1 t2; a; b; c; add32 d t1; e; f; g]
  | _ => st
  end.

Definition compress (st block : list Z) : list Z :=
  let words := map of_bytes (chunks 16 4 block) in
  let w := reverse (schedule 48 (reverse words)) in
  zip_with add32 st (fold_left round (zip round_constants w) st).

Definition Sum256 (msg : list Z) : list Z :=
  let p := pad msg in
  concat (map (be_bytes 4) (fold_left compress (chunks (length p) 64 p) initial_state)).

End sha256.

Definition bytes_of (s : string) : list Z := map byte (String.list_ascii_of_string s).

(** [hex.EncodeToString]. *)
Definition hex_char (d : Z) : ascii := chr (if d <? 10 then 48 + d else 87 + d).

Fixpoint hex_EncodeToString (l : list Z) : string :=
  match l with
  | [] => ""
  | b :: l' => String (hex_char (b / 16)) (String (hex_char (b mod 16)) (hex_EncodeToString l'))
  end.

(** [base64.RawURLEncoding.EncodeToString]. *)
Definition base64_char (d : Z) : ascii :=
  chr (if d <? 26 then 65 + d else if d <? 52 then 71 + d else if d <? 62 then d - 4
       else if d =? 62 then 45 else 95).

Fixpoint base64_RawURL (l : list Z) : string :=
  match l with
  | a :: b :: c :: l' =>
    let n := (a * 256 + b) * 256 + c in
    String (base64_char (n / 262144)) (String (base64_char (n / 4096 mod 64))
      (String (base64_char (n / 64 mod 64)) (String (base64_char (n mod 64)) (base64_RawURL l'))))
  | [a; b] =>
    let n := (a * 256 + b) * 4 in
    String (base64_char (n / 4096)) (String (base64_char (n / 64 mod 64)) (String (base64_char (n mod 64)) ""))
  | [a] => String (base64_char (a * 16 / 64)) (String (base64_char (a * 16 mod 64)) "")
  | [] => ""
  end.

Example sha256_abc : hex_EncodeToString (sha256.Sum256 (bytes_of "abc"))
  = "ba7816bf8f01cfea414140de5dae2223b00361a396177a9cb410ff61f20015ad"%string.
Proof. vm_compute. reflexivity. Qed.

Example sha256_two_blocks :
  hex_EncodeToString (sha256.Sum256 (bytes_of "abcdbcdecdefdefgefghfghighijhijkijkljklmklmnlmnomnopnopq"))
  = "248d6a61d20638b8e5c026930c3e6039a33ce45964ff2167f6ecedd419db06c1"%string.
Proof. vm_compute. reflexivity. Qed.

Example base64_text : base64_RawURL [251; 255; 254; 1; 2] = "-__-AQI"%string.
Proof. vm_compute. reflexivity. Qed.

(** ** Passwords

    [Generate] takes the random salt; it refuses what is longer than 72 bytes. *)
Class Bcrypt := {
  bcrypt_generate : Z -> string -> option string;
  bcrypt_compare : string -> string -> bool;
  bcrypt_generate_len salt pw h : bcrypt_generate salt pw = Some h -> len pw <= 72;
  bcrypt_compare_ok salt pw h : bcrypt_generate salt pw = Some h -> bcrypt_compare h pw = true;
}.

(** ** Texts of visible ASCII characters

    Such a text is valid UTF-8 and has nothing to trim. *)
Definition visible (a : ascii) : bool := (33 <=? byte a) && (byte a <=? 126).
Definition visible_text (s : string) : bool := forallb visible (String.list_ascii_of_string s).

Lemma visible_segs s : visible_text s = true ->
  segs s = map (fun a => (byte a, String a "")) (String.list_ascii_of_string s).
Proof.
  induction s as [|a s IH]; intros H; [done|]. unfold visible_text in H. simpl in H. breflect.
  unfold visible in H. breflect. rewrite segs_unfold by done. unfold decode_rune.
  destruct (Z.ltb_spec (byte a) 128); [|lia]. cbn [fst snd]. simpl. f_equal. apply IH. exact H0.
Qed.

Lemma visible_valid s : visible_text s = true -> ValidString s = true.
Proof.
  intros H. unfold ValidString. rewrite visible_segs by done. unfold visible_text in H.
  apply forallb_Forall. apply forallb_Forall in H. apply Forall_map. eapply Forall_impl; [exact H|].
  intros a Ha. unfold visible in Ha. breflect. unfold valid_seg. cbn [fst snd]. apply andb_true_intro. split.
  - apply bool_decide_eq_true. unfold encode_rune. pose proof (chr_byte a) as E.
    destruct (scalar (byte a)) eqn:Es; [|unfold scalar in Es; lia].
    repeat case_goal; breflect; try lia. by rewrite chr_byte.
  - unfold scalar. lia.
Qed.

Lemma visible_TrimSpace s : visible_text s = true -> TrimSpace s = s.
Proof.
  intros H. rewrite <- (unsegs_segs s) at 2. unfold TrimSpace. f_equal. rewrite visible_segs by done.
  set (l := map _ _).
  assert (Hl : Forall (fun x => space_seg x = false) l).
  { apply Forall_map. apply forallb_Forall in H. eapply Forall_impl; [exact H|]. intros a Ha. unfold visible in Ha.
    breflect. unfold space_seg, IsSpace. cbn [fst]. lia. }
  assert (Hid : forall k, Forall (fun x => space_seg x = false) k -> drop_while space_seg k = k).
  { intros k Hk. apply drop_while_id. intros x k' ->. by inversion Hk. }
  unfold drop_while_end. rewrite (Hid l Hl), Hid, reverse_involutive; [done|]. by apply Forall_reverse.
Qed.

Lemma visible_chr d : 33 <= d <= 126 -> visible (chr d) = true.
Proof. intros Hd. unfold visible. rewrite byte_chr by lia. lia. Qed.

Definition bytes (l : list Z) : Prop := Forall (fun b => 0 <= b < 256) l.

Lemma hex_visible l : bytes l -> visible_text (hex_EncodeToString l) = true.
Proof.
  induction 1 as [|b l Hb Hl IH]; [done|]. unfold visible_text in *. simpl. unfold hex_char.
  rewrite IH, andb_true_r. apply andb_true_intro; split; apply visible_chr;
    destruct (Z.ltb_spec (b / 16) 10), (Z.ltb_spec (b mod 16) 10); Z.to_euclidean_division_equations; lia.
Qed.

Lemma base64_char_visible d : 0 <= d < 64 -> visible (base64_char d) = true.
Proof. intros Hd. apply visible_chr. repeat case_goal; breflect; lia. Qed.

Lemma base64_visible n : forall l, (length l <= n)%nat -> bytes l -> visible_text (base64_RawURL l) = true.
Proof.
  unfold visible_text. induction n as [|n IH]; intros l Hn Hl; [by destruct l; simpl in *; [|lia]|].
  destruct l as [|a [|b [|c l]]]; [done|..]; repeat (apply Forall_cons in Hl as [? Hl]);
    cbn [base64_RawURL String.list_ascii_of_string forallb]; cbv zeta; rewrite ?andb_true_r;
    rewrite ?andb_true_iff; repeat match goal with |- _ /\ _ => split end; try apply base64_char_visible;
    try (Z.to_euclidean_division_equations; lia).
  apply IH; [simpl in Hn; lia|done].
Qed.

Lemma be_bytes_range n z : bytes (sha256.be_bytes n z).
Proof.
  revert z. induction n as [|n IH]; intros z; simpl; [constructor|]. apply Forall_app. split; [apply IH|].
  repeat constructor; Z.to_euclidean_division_equations; lia.
Qed.

Lemma Sum256_range msg : bytes (sha256.Sum256 msg).
Proof.
  unfold sha256.Sum256. cbv zeta. set (l := fold_left _ _ _). clearbody l. induction l as [|z l IH]; [constructor|].
  cbn [map concat]. apply Forall_app. split; [apply be_bytes_range|exact IH].
Qed.
