(* ===== verification/Base64.v ===== *)
(** * Package [encoding/base64]

    The four encodings of the package: the standard and the URL alphabet, with
    padding and without; and bytes as strings. *)

From Stdlib Require Import ZArith Lia Ascii.
From S2P Require Import Prelude GoString Crypto.

Record Encoding := { enc_URL : bool; enc_Padded : bool }.

Definition StdEncoding : Encoding := {| enc_URL := false; enc_Padded := true |}.
Definition RawStdEncoding : Encoding := {| enc_URL := false; enc_Padded := false |}.
Definition URLEncoding : Encoding := {| enc_URL := true; enc_Padded := true |}.
Definition RawURLEncoding : Encoding := {| enc_URL := true; enc_Padded := false |}.

Section Encoding.
Context (enc : Encoding).

Definition alphabet (d : Z) : Z :=
  if d <? 26 then 65 + d else if d <? 52 then 71 + d else if d <? 62 then d - 4
  else if d =? 62 then (if enc_URL enc then 45 else 43) else (if enc_URL enc then 95 else 47).

Definition padding (n : nat) : list Z := if enc_Padded enc then replicate n 61 else [].

(** Each group of three bytes gives four characters. *)
Fixpoint encode (l : list Z) : list Z :=
  match l with
  | a :: b :: c :: l' =>
    let n := (a * 256 + b) * 256 + c in
    alphabet (n / 262144) :: alphabet (n / 4096 mod 64) :: alphabet (n / 64 mod 64) :: alphabet (n mod 64) :: encode l'
  | [a; b] =>
    let n := (a * 256 + b) * 4 in
    alphabet (n / 4096) :: alphabet (n / 64 mod 64) :: alphabet (n mod 64) :: padding 1
  | [a] => alphabet (a * 16 / 64) :: alphabet (a * 16 mod 64) :: padding 2
  | [] => []
  end.

Definition digit (c : Z) : option Z :=
  if (65 <=? c) && (c <=? 90) then Some (c - 65)
  else if (97 <=? c) && (c <=? 122) then Some (c - 71)
  else if (48 <=? c) && (c <=? 57) then Some (c + 4)
  else if c =? (if enc_URL enc then 45 else 43) then Some 62
  else if c =? (if enc_URL enc then 95 else 47) then Some 63
  else None.

(** The groups of a text without line ends; padding ends the text.  Bits that
    do not fill a byte are dropped. *)
Fixpoint decode (l : list Z) : option (list Z) :=
  match l with
  | [] => Some []
  | a :: b :: c :: d :: l' =>
    match digit a, digit b with
    | Some a, Some b =>
      match digit c with
      | Some c' =>
        match digit d with
        | Some d' =>
          let n := ((a * 64 + b) * 64 + c') * 64 + d' in
          option_map (fun rest => n / 65536 :: n / 256 mod 256 :: n mod 256 :: rest) (decode l')
        | None =>
          if enc_Padded enc && (d =? 61) && match l' with [] => true | _ => false end
          then let n := (a * 64 + b) * 64 + c' in Some [n / 1024; n / 4 mod 256] else None
        end
      | None =>
        if enc_Padded enc && (c =? 61) && (d =? 61) && match l' with [] => true | _ => false end
        then Some [(a * 64 + b) / 16] else None
      end
    | _, _ => None
    end
  | [a; b; c] =>
    if enc_Padded enc then None
    else match digit a, digit b, digit c with
         | Some a, Some b, Some c => let n := (a * 64 + b) * 64 + c in Some [n / 1024; n / 4 mod 256]
         | _, _, _ => None
         end
  | [a; b] =>
    if enc_Padded enc then None
    else match digit a, digit b with Some a, Some b => Some [(a * 64 + b) / 16] | _, _ => None end
  | [_] => None
  end.

Definition is_newline (c : Z) : bool := (c =? 10) || (c =? 13).

Definition to_text (l : list Z) : string := String.string_of_list_ascii (map chr l).

Definition EncodeToString (l : list Z) : string := to_text (encode l).

(** [DecodeString] skips line ends wherever they are. *)
Definition DecodeString (s : string) : option (list Z) :=
  decode (List.filter (fun c => negb (is_newline c)) (bytes_of s)).

(** ** What is encoded decodes *)

Lemma digit_alphabet d : 0 <= d < 64 -> digit (alphabet d) = Some d.
Proof.
  intros Hd. enough (H : forall n : nat, (n < 64)%nat -> digit (alphabet (Z.of_nat n)) = Some (Z.of_nat n)).
  { specialize (H (Z.to_nat d)). rewrite Z2Nat.id in H by lia. apply H. lia. }
  unfold digit, alphabet. intros n Hn. destruct (enc_URL enc); do 64 (destruct n as [|n]; [reflexivity|]); lia.
Qed.

Lemma digit_pad : digit 61 = None.
Proof. unfold digit. by destruct (enc_URL enc). Qed.

Lemma regroup n : ((n / 262144 * 64 + n / 4096 mod 64) * 64 + n / 64 mod 64) * 64 + n mod 64 = n.
Proof. Z.to_euclidean_division_equations; lia. Qed.

Lemma regroup2 n : (n / 4096 * 64 + n / 64 mod 64) * 64 + n mod 64 = n.
Proof. Z.to_euclidean_division_equations; lia. Qed.

Lemma regroup1 n : n / 64 * 64 + n mod 64 = n.
Proof. Z.to_euclidean_division_equations; lia. Qed.

Ltac split_bytes := repeat f_equal; Z.to_euclidean_division_equations; lia.

Lemma decode_encode_bytes n : forall l, (length l <= n)%nat -> bytes l -> decode (encode l) = Some l.
Proof.
  induction n as [|n IH]; intros l Hn Hl; [by destruct l; simpl in *; [|lia]|].
  destruct l as [|a [|b [|c l]]]; [done|..]; repeat (apply Forall_cons in Hl as [? Hl]); cbn [encode]; cbv zeta; unfold padding.
  - destruct (enc_Padded enc) eqn:Ep; cbn [replicate decode]; rewrite !digit_alphabet, ?digit_pad, ?Ep
      by (Z.to_euclidean_division_equations; lia); cbn [negb Z.eqb Pos.eqb andb]; rewrite regroup1; split_bytes.
  - destruct (enc_Padded enc) eqn:Ep; cbn [replicate decode]; rewrite !digit_alphabet, ?digit_pad, ?Ep
      by (Z.to_euclidean_division_equations; lia); cbn [negb Z.eqb Pos.eqb andb]; cbv zeta; rewrite regroup2; split_bytes.
  - cbn [decode]. rewrite !digit_alphabet by (Z.to_euclidean_division_equations; lia). rewrite IH by (simpl in Hn; done || lia).
    cbv zeta. rewrite regroup. cbn [option_map]. split_bytes.
Qed.

Lemma alphabet_text d : 0 <= d < 64 -> 33 <= alphabet d <= 126 /\ alphabet d <> 61.
Proof. intros Hd. unfold alphabet. repeat case_goal; breflect; lia. Qed.

Lemma encode_text n : forall l, (length l <= n)%nat -> bytes l -> Forall (fun c => 33 <= c <= 126) (encode l).
Proof.
  induction n as [|n IH]; intros l Hn Hl; [destruct l; simpl in *; [constructor|lia]|].
  assert (Ha : forall d, 0 <= d < 64 -> 33 <= alphabet d <= 126) by (intros d Hd; by apply alphabet_text).
  destruct l as [|a [|b [|c l]]]; [constructor|..]; repeat (apply Forall_cons in Hl as [? Hl]); cbn [encode]; cbv zeta; unfold padding;
    try destruct (enc_Padded enc); repeat (apply Forall_cons; split); try constructor; try lia;
    try (apply Ha; Z.to_euclidean_division_equations; lia).
  all: apply IH; [simpl in Hn; lia|done].
Qed.

Lemma bytes_of_text l : Forall (fun c => 0 <= c < 256) l -> bytes_of (to_text l) = l.
Proof.
  intros Hl. unfold bytes_of, to_text. rewrite String.list_ascii_of_string_of_list_ascii, map_map.
  induction Hl as [|c l Hc Hl IH]; [done|]. cbn [map]. by rewrite byte_chr, IH.
Qed.

(** A text that is made here reads back. *)
Theorem DecodeString_Encode l : bytes l -> DecodeString (EncodeToString l) = Some l.
Proof.
  intros Hl. pose proof (encode_text (length l) l (le_n _) Hl) as Ht. unfold DecodeString, EncodeToString.
  rewrite bytes_of_text by (eapply Forall_impl; [exact Ht|]; cbn; lia).
  replace (List.filter _ _) with (encode l); [by apply (decode_encode_bytes (length l))|].
  clear Hl. induction Ht as [|c k Hc Hk IH]; [done|]. cbn [List.filter]. unfold is_newline.
  destruct (Z.eqb_spec c 10); [lia|]. destruct (Z.eqb_spec c 13); [lia|]. cbn [orb negb]. by f_equal.
Qed.

Lemma EncodeToString_visible l : bytes l -> visible_text (EncodeToString l) = true.
Proof.
  intros Hl. pose proof (encode_text (length l) l (le_n _) Hl) as Ht. unfold visible_text, EncodeToString, to_text.
  rewrite String.list_ascii_of_string_of_list_ascii. apply forallb_Forall, Forall_map.
  eapply Forall_impl; [exact Ht|]. intros c Hc. by apply visible_chr.
Qed.

End Encoding.

Lemma to_text_bytes_of s : to_text (bytes_of s) = s.
Proof.
  unfold to_text, bytes_of. rewrite map_map. rewrite <- (String.string_of_list_ascii_of_string s) at 2. f_equal.
  rewrite (map_ext _ id); [apply map_id|]. intros a. apply chr_byte.
Qed.

Lemma bytes_of_range s : bytes (bytes_of s).
Proof. apply Forall_map, Forall_true. intros a. apply byte_range. Qed.

(** The encoder of the tokens is one of these. *)
Lemma base64_RawURL_encoding n : forall l, (length l <= n)%nat -> base64_RawURL l = EncodeToString RawURLEncoding l.
Proof.
  induction n as [|n IH]; intros l Hn; [by destruct l; simpl in *; [|lia]|].
  destruct l as [|a [|b [|c l]]]; try reflexivity. cbn [base64_RawURL]. rewrite IH by (simpl in Hn; lia). reflexivity.
Qed.

(** ** Texts of the package's documentation *)

Example base64_std : EncodeToString StdEncoding (bytes_of "Hello, world!") = "SGVsbG8sIHdvcmxkIQ=="%string.
Proof. vm_compute. reflexivity. Qed.

Example base64_url : DecodeString RawURLEncoding "-__-AQI"%string = Some [251; 255; 254; 1; 2].
Proof. vm_compute. reflexivity. Qed.

Example base64_strictness :
  map (DecodeString StdEncoding) ["AA=="; "AA"; "AA="; "A=A="; "AA==A"; "AB=="; "-_-_"]%string =
    [Some [0]; None; None; None; None; Some [0]; None] /\
  map (DecodeString RawStdEncoding) ["AA"; "AA=="; "A"]%string = [Some [0]; None; None].
Proof. vm_compute. done. Qed.
