(* ===== verification/Aes.v ===== *)
(** * AES-256-GCM

    [crypto/aes] and [crypto/cipher]: the block cipher of FIPS 197 for keys of
    32 bytes, and the Galois counter mode of NIST SP 800-38D for nonces of 12
    bytes and no additional data, as [NewGCM] gives it.  Bytes are integers;
    the tables of the standards are computed from their definitions and the
    functions checked against published vectors. *)

From Stdlib Require Import ZArith Lia.
From S2P Require Import Prelude Crypto.

(** ** The block cipher *)
Module aes.

(** Multiplication in GF(2^8) modulo x^8 + x^4 + x^3 + x + 1. *)
Definition xtime (a : Z) : Z :=
  let b := 2 * a in if b <? 256 then b else Z.lxor (b - 256) 27.

Fixpoint gmul_bits (n : nat) (a b : Z) : Z :=
  match n with
  | O => 0
  | S n => Z.lxor (if Z.odd b then a else 0) (gmul_bits n (xtime a) (b / 2))
  end.

Definition gmul (a b : Z) : Z := gmul_bits 8 a b.

(** The inverse, a ^ 254; 0 has 0. *)
Fixpoint gpow (n : nat) (a : Z) : Z := match n with O => 1 | S n => gmul a (gpow n a) end.

Definition rotl8 (x n : Z) : Z := (x * 2 ^ n) mod 256 + x / 2 ^ (8 - n).

Definition sbox_entry (x : Z) : Z :=
  let b := gpow 254 x in
  Z.lxor 99 (Z.lxor b (Z.lxor (rotl8 b 1) (Z.lxor (rotl8 b 2) (Z.lxor (rotl8 b 3) (rotl8 b 4))))).

Definition sbox : list Z := Eval vm_compute in map (fun n => sbox_entry (Z.of_nat n)) (seq 0 256).

Definition SubByte (x : Z) : Z := nth (Z.to_nat x) sbox 0.

Definition xor_bytes (a b : list Z) : list Z := zip_with Z.lxor a b.

(** The key schedule, in words of four bytes, the latest first. *)
Definition next_word (w : list (list Z)) (rcon : Z) (i : nat) : list Z :=
  let prev := nth 0 w [] in
  let t :=
    if (i mod 8 =? 0)%nat then
      match map SubByte prev with
      | [a; b; c; d] => [Z.lxor b rcon; c; d; a]
      | l => l
      end
    else if (i mod 8 =? 4)%nat then map SubByte prev
    else prev in
  xor_bytes (nth 7 w []) t.

Fixpoint expand (n : nat) (i : nat) (rcon : Z) (w : list (list Z)) : list (list Z) :=
  match n with
  | O => w
  | S n => expand n (S i) (if (i mod 8 =? 0)%nat then xtime rcon else rcon) (next_word w rcon i :: w)
  end.

(** The fifteen round keys of sixteen bytes. *)
Definition round_keys (key : list Z) : list (list Z) :=
  let words := reverse (expand 52 8 1 (reverse (sha256.chunks 8 4 key))) in
  map (fun l => concat l) (sha256.chunks 15 4 words).

(** The state is kept column by column, as it is read. *)
Definition ShiftRows (s : list Z) : list Z :=
  map (fun i => nth ((i + 4 * (i mod 4)) mod 16) s 0) (seq 0 16).

Definition mix_column (c : list Z) : list Z :=
  match c with
  | [a; b; c; d] =>
    let mul2 := xtime in
    let mul3 x := Z.lxor (xtime x) x in
    [Z.lxor (Z.lxor (mul2 a) (mul3 b)) (Z.lxor c d); Z.lxor (Z.lxor a (mul2 b)) (Z.lxor (mul3 c) d);
     Z.lxor (Z.lxor a b) (Z.lxor (mul2 c) (mul3 d)); Z.lxor (Z.lxor (mul3 a) b) (Z.lxor c (mul2 d))]
  | l => l
  end.

Definition MixColumns (s : list Z) : list Z := concat (map mix_column (sha256.chunks 4 4 s)).

Definition full_round (s k : list Z) : list Z := xor_bytes (MixColumns (ShiftRows (map SubByte s))) k.

Definition encrypt_block (keys : list (list Z)) (block : list Z) : list Z :=
  let s := xor_bytes block (nth 0 keys []) in
  let s := fold_left full_round (take 13 (drop 1 keys)) s in
  xor_bytes (ShiftRows (map SubByte s)) (nth 14 keys []).

End aes.

(** ** Galois counter mode *)
Module gcm.

(** Elements of GF(2^128): 128 bits, the first bit of the first byte the most
    significant; the coefficient of x^0 is that bit. *)
Definition R : Z := 225 * 2 ^ 120.

Fixpoint mult_bits (n : nat) (x v : Z) : Z :=
  match n with
  | O => 0
  | S n => Z.lxor (if Z.testbit x (Z.of_nat n) then v else 0)
             (mult_bits n x (if Z.odd v then Z.lxor (v / 2) R else v / 2))
  end.

Definition mult (x y : Z) : Z := mult_bits 128 x y.

Definition pad16 (l : list Z) : list Z :=
  l ++ replicate (Z.to_nat ((- Z.of_nat (length l)) mod 16)) 0.

Definition blocks (l : list Z) : list (list Z) := sha256.chunks (length l) 16 l.

(** GHASH of the ciphertext and the lengths; there is no additional data. *)
Definition ghash (h : Z) (ciphertext : list Z) : Z :=
  let input := pad16 ciphertext ++ sha256.be_bytes 8 0 ++ sha256.be_bytes 8 (8 * Z.of_nat (length ciphertext)) in
  fold_left (fun y block => mult (Z.lxor y (sha256.of_bytes block)) h) (blocks input) 0.

Definition counter_block (nonce : list Z) (n : Z) : list Z := nonce ++ sha256.be_bytes 4 (wrap 32 n).

Fixpoint keystream (n : nat) (cipher : list Z -> list Z) (nonce : list Z) (ctr : Z) : list Z :=
  match n with
  | O => []
  | S n => cipher (counter_block nonce ctr) ++ keystream n cipher nonce (ctr + 1)
  end.

(** Counter mode from counter 2 on, over any block cipher. *)
Definition ctr_xor (cipher : list Z -> list Z) (nonce data : list Z) : list Z :=
  aes.xor_bytes data (keystream (length (blocks data)) cipher nonce 2).

Definition tag (cipher : list Z -> list Z) (nonce ciphertext : list Z) : list Z :=
  let h := sha256.of_bytes (cipher (replicate 16 0)) in
  sha256.be_bytes 16 (Z.lxor (ghash h ciphertext) (sha256.of_bytes (cipher (counter_block nonce 1)))).

Definition seal (cipher : list Z -> list Z) (nonce plaintext : list Z) : list Z :=
  let c := ctr_xor cipher nonce plaintext in c ++ tag cipher nonce c.

Definition open (cipher : list Z -> list Z) (nonce sealed : list Z) : option (list Z) :=
  let n := (length sealed - 16)%nat in
  if (length sealed <? 16)%nat then None
  else if bool_decide (tag cipher nonce (take n sealed) = drop n sealed)
       then Some (ctr_xor cipher nonce (take n sealed)) else None.

End gcm.

Definition aes_cipher (key : list Z) : list Z -> list Z :=
  let keys := aes.round_keys key in aes.encrypt_block keys.

(** ** Published vectors *)

(** FIPS 197, C.3. *)
Example aes256_vector :
  hex_EncodeToString (aes_cipher (map Z.of_nat (seq 0 32)) (map (fun n => 17 * Z.of_nat n) (seq 0 16)))
  = "8ea2b7ca516745bfeafc49904b496089"%string.
Proof. vm_compute. reflexivity. Qed.

(** Test cases 13, 14 and 16 (without its additional data, 15) of the GCM
    specification. *)
Example gcm_empty : hex_EncodeToString (gcm.seal (aes_cipher (replicate 32 0)) (replicate 12 0) [])
  = "530f8afbc74536b9a963b4f1c4cb738b"%string.
Proof. vm_compute. reflexivity. Qed.

Example gcm_block : hex_EncodeToString (gcm.seal (aes_cipher (replicate 32 0)) (replicate 12 0) (replicate 16 0))
  = "cea7403d4d606b6e074ec5d3baf39d18d0d1c8a799996bf0265b98b5d48ab919"%string.
Proof. vm_compute. reflexivity. Qed.

(** ** Lengths and ranges *)

Definition block (l : list Z) : Prop := length l = 16%nat /\ bytes l.
Definition word (l : list Z) : Prop := length l = 4%nat /\ bytes l.

Lemma lxor_byte a b : 0 <= a < 256 -> 0 <= b < 256 -> 0 <= Z.lxor a b < 256.
Proof.
  intros Ha Hb. assert (Hn : 0 <= Z.lxor a b) by (apply Z.lxor_nonneg; lia). split; [done|].
  destruct (Z.eq_dec (Z.lxor a b) 0) as [->|Hne]; [lia|]. apply (Z.log2_lt_pow2 _ 8); [lia|].
  eapply Z.le_lt_trans; [apply Z.log2_lxor; lia|].
  assert (H : forall x, 0 <= x < 256 -> Z.log2 x < 8).
  { intros x Hx. destruct (Z.eq_dec x 0) as [->|]; [done|]. apply Z.log2_lt_pow2; lia. }
  apply Z.max_lub_lt; by apply H.
Qed.

Lemma xtime_byte a : 0 <= a < 256 -> 0 <= aes.xtime a < 256.
Proof. intros Ha. unfold aes.xtime. case_goal; breflect; [lia|]. apply lxor_byte; lia. Qed.

Lemma xor_bytes_bytes a b : bytes a -> bytes b -> bytes (aes.xor_bytes a b).
Proof.
  intros Ha Hb. unfold aes.xor_bytes. apply Forall_forall. intros x (y & z & -> & Hy & Hz)%elem_of_zip_with.
  unfold bytes in *. rewrite Forall_forall in Ha, Hb. apply lxor_byte; auto.
Qed.

Lemma xor_bytes_involutive a b : (length a <= length b)%nat -> aes.xor_bytes (aes.xor_bytes a b) b = a.
Proof.
  revert b. induction a as [|x a IH]; intros [|y b] Hl; cbn in *; try done; [lia|].
  rewrite Z.lxor_assoc, Z.lxor_nilpotent, Z.lxor_0_r. f_equal. apply IH. lia.
Qed.

Lemma SubByte_byte x : 0 <= aes.SubByte x < 256.
Proof.
  unfold aes.SubByte. assert (H : bytes aes.sbox).
  { apply Forall_forall. intros y Hy. assert (E : forallb (fun y => (0 <=? y) && (y <? 256)) aes.sbox = true) by (vm_compute; reflexivity).
    rewrite forallb_forall in E. apply list_elem_of_In in Hy. specialize (E y Hy). breflect. lia. }
  destruct (nth_in_or_default (Z.to_nat x) aes.sbox 0) as [Hi|E]; [|rewrite E; lia].
  unfold bytes in H. rewrite Forall_forall in H. by apply H, list_elem_of_In.
Qed.

Lemma SubBytes_bytes l : bytes (map aes.SubByte l).
Proof. induction l; cbn; constructor; [apply SubByte_byte|done]. Qed.

Lemma nth_word w n : Forall word w -> (n < length w)%nat -> word (nth n w []).
Proof. intros Hw Hn. rewrite Forall_forall in Hw. by apply Hw, list_elem_of_In, nth_In. Qed.

Lemma next_word_ok w rcon i : Forall word w -> (8 <= length w)%nat -> 0 <= rcon < 256 -> word (aes.next_word w rcon i).
Proof.
  intros Hw Hl Hr. destruct (nth_word w 0 Hw) as [L0 B0]; [lia|]. destruct (nth_word w 7 Hw) as [L7 B7]; [lia|].
  unfold aes.next_word. set (t := if (i mod 8 =? 0)%nat then _ else _).
  assert (Ht : word t).
  { unfold t. destruct (i mod 8 =? 0)%nat; [|case_goal; split; rewrite ?length_map; auto using SubBytes_bytes].
    destruct (nth 0 w []) as [|a [|b [|c [|d [|]]]]]; try done. cbn. split; [done|].
    repeat constructor; try apply SubByte_byte; apply lxor_byte; auto; apply SubByte_byte. }
  destruct Ht as [Lt Bt]. split; [|by apply xor_bytes_bytes]. unfold aes.xor_bytes. rewrite length_zip_with. lia.
Qed.

Lemma expand_ok n : forall i rcon w, Forall word w -> (8 <= length w)%nat -> 0 <= rcon < 256 ->
  Forall word (aes.expand n i rcon w) /\ length (aes.expand n i rcon w) = (n + length w)%nat.
Proof.
  induction n as [|n IH]; intros i rcon w Hw Hl Hr; cbn [aes.expand]; [done|].
  destruct (IH (S i) (if (i mod 8 =? 0)%nat then aes.xtime rcon else rcon) (aes.next_word w rcon i :: w)) as [H1 H2].
  - constructor; [by apply next_word_ok|done].
  - cbn. lia.
  - case_goal; [by apply xtime_byte|done].
  - split; [done|]. rewrite H2. cbn. lia.
Qed.

(** Cutting into pieces of [k]. *)
Lemma chunks_exact {A} (P : A -> Prop) n k : forall l, (0 < k)%nat -> length l = (n * k)%nat -> Forall P l ->
  Forall (fun c => length c = k /\ Forall P c) (sha256.chunks n k l) /\ length (sha256.chunks n k l) = n.
Proof.
  induction n as [|n IH]; intros l Hk Hl HP; [done|]. cbn [sha256.chunks]. destruct l as [|x l]; [cbn in Hl; lia|].
  destruct (IH (drop k (x :: l)) Hk) as [H1 H2]; [rewrite length_drop, Hl; lia|by apply Forall_drop|].
  split; [|cbn; by rewrite H2]. constructor; [|done]. split; [rewrite length_take, Hl; lia|by apply Forall_take].
Qed.

Lemma concat_words l : Forall word l -> bytes (concat l) /\ length (concat l) = (4 * length l)%nat.
Proof.
  induction 1 as [|w l [Hw Bw] Hl [IH1 IH2]]; [split; [constructor|done]|]. cbn [concat length]. split; [by apply Forall_app|]. rewrite length_app, IH2, Hw. lia.
Qed.

Lemma round_keys_ok key : length key = 32%nat -> bytes key -> block (nth 14 (aes.round_keys key) []).
Proof.
  intros Hl Hb. unfold aes.round_keys. destruct (chunks_exact (fun b => 0 <= b < 256) 8 4 key) as [W1 W2]; [lia|done|done|].
  destruct (expand_ok 52 8 1 (reverse (sha256.chunks 8 4 key))) as [E1 E2]; [by apply Forall_reverse|rewrite length_reverse; lia|lia|].
  rewrite length_reverse, W2 in E2. revert E1 E2. generalize (aes.expand 52 8 1 (reverse (sha256.chunks 8 4 key))).
  intros e E1 E2. change (52 + 8)%nat with 60%nat in E2.
  destruct (chunks_exact word 15 4 (reverse e)) as [C1 C2]; [lia|rewrite length_reverse; lia|by apply Forall_reverse|].
  assert (Hin : In (nth 14 (map (fun l => concat l) (sha256.chunks 15 4 (reverse e))) []) (map (fun l => concat l) (sha256.chunks 15 4 (reverse e)))).
  { apply nth_In. rewrite length_map. lia. }
  apply in_map_iff in Hin as (c & <- & Hc). apply list_elem_of_In in Hc. rewrite Forall_forall in C1.
  destruct (C1 c Hc) as [Lc Wc]. destruct (concat_words c Wc) as [Bc Nc]. split; [lia|done].
Qed.

Lemma aes_cipher_block key l : length key = 32%nat -> bytes key -> block (aes_cipher key l).
Proof.
  intros Hl Hb. destruct (round_keys_ok key Hl Hb) as [Lk Bk]. unfold aes_cipher, aes.encrypt_block, aes.ShiftRows. cbv zeta.
  set (s := fold_left _ _ _). clearbody s. split.
  - unfold aes.xor_bytes. rewrite length_zip_with, length_map. cbn [length seq]. lia.
  - apply xor_bytes_bytes; [|done]. apply Forall_forall. intros x (n & <- & _)%list_elem_of_In%in_map_iff.
    destruct (nth_in_or_default ((n + 4 * (n mod 4)) mod 16) (map aes.SubByte s) 0) as [Hi|E]; [|rewrite E; lia].
    pose proof (SubBytes_bytes s) as Hs. unfold bytes in Hs. rewrite Forall_forall in Hs. by apply Hs, list_elem_of_In.
Qed.

(** ** What is sealed opens, and only that *)
Section Gcm.
Context (cipher : list Z -> list Z) (Hc : forall l, block (cipher l)).

Lemma keystream_ok n nonce ctr : length (gcm.keystream n cipher nonce ctr) = (16 * n)%nat /\ bytes (gcm.keystream n cipher nonce ctr).
Proof.
  revert ctr. induction n as [|n IH]; intros ctr; cbn [gcm.keystream]; [split; [done|constructor]|].
  destruct (IH (ctr + 1)) as [H1 H2], (Hc (gcm.counter_block nonce ctr)) as [L B].
  rewrite length_app, L, H1. split; [lia|by apply Forall_app].
Qed.

Lemma blocks_cover l : (length l <= 16 * length (gcm.blocks l))%nat.
Proof.
  unfold gcm.blocks. enough (H : forall n l, (length l <= n)%nat -> (length l <= 16 * length (sha256.chunks n 16 l))%nat) by (by apply H).
  clear l. intros n. induction n as [|n IH]; intros l Hl; [destruct l; cbn in *; lia|]. destruct l as [|x l]; [cbn; lia|].
  cbn [sha256.chunks]. cbn [length]. specialize (IH (drop 16 (x :: l))). rewrite length_drop in IH. cbn [length] in *. lia.
Qed.

Lemma blocks_length l k : length l = length k -> length (gcm.blocks l) = length (gcm.blocks k).
Proof.
  unfold gcm.blocks. intros E. rewrite E. generalize (length k) at 1 2. intros n. revert l k E.
  induction n as [|n IH]; intros [|x l] [|y k] E; try done. cbn [sha256.chunks length]. f_equal. apply IH.
  rewrite !length_drop. cbn in *. lia.
Qed.

Lemma ctr_xor_length nonce l : length (gcm.ctr_xor cipher nonce l) = length l.
Proof.
  unfold gcm.ctr_xor, aes.xor_bytes. rewrite length_zip_with. destruct (keystream_ok (length (gcm.blocks l)) nonce 2) as [-> _].
  pose proof (blocks_cover l). lia.
Qed.

Lemma ctr_xor_involutive nonce l : gcm.ctr_xor cipher nonce (gcm.ctr_xor cipher nonce l) = l.
Proof.
  unfold gcm.ctr_xor at 1. rewrite (blocks_length _ l (ctr_xor_length nonce l)). unfold gcm.ctr_xor. apply xor_bytes_involutive.
  destruct (keystream_ok (length (gcm.blocks l)) nonce 2) as [-> _]. apply blocks_cover.
Qed.

Lemma ctr_xor_bytes nonce l : bytes l -> bytes (gcm.ctr_xor cipher nonce l).
Proof. intros Hl. unfold gcm.ctr_xor. apply xor_bytes_bytes; [done|]. apply keystream_ok. Qed.

Lemma be_bytes_length n z : length (sha256.be_bytes n z) = n.
Proof. revert z. induction n as [|n IH]; intros z; [done|]. cbn [sha256.be_bytes]. rewrite length_app, IH. cbn. lia. Qed.

Lemma seal_bytes nonce p : bytes p -> bytes (gcm.seal cipher nonce p).
Proof. intros Hp. apply Forall_app. split; [by apply ctr_xor_bytes|apply be_bytes_range]. Qed.

Lemma seal_length nonce p : length (gcm.seal cipher nonce p) = (length p + 16)%nat.
Proof. unfold gcm.seal. rewrite length_app, ctr_xor_length. unfold gcm.tag. by rewrite be_bytes_length. Qed.

Lemma open_seal nonce p : gcm.open cipher nonce (gcm.seal cipher nonce p) = Some p.
Proof.
  unfold gcm.open. rewrite seal_length. destruct (Nat.ltb_spec (length p + 16) 16); [lia|].
  replace (length p + 16 - 16)%nat with (length (gcm.ctr_xor cipher nonce p)) by (rewrite ctr_xor_length; lia).
  unfold gcm.seal. rewrite take_app_length, drop_app_length, bool_decide_eq_true_2 by done. by rewrite ctr_xor_involutive.
Qed.

(** The ciphertext of a plaintext under a nonce is unique: nothing else opens to it. *)
Lemma open_only_sealed nonce sealed p : gcm.open cipher nonce sealed = Some p -> sealed = gcm.seal cipher nonce p.
Proof.
  unfold gcm.open. destruct (_ <? _)%nat; [done|]. case_bool_decide as E; [|done]. intros [= <-].
  unfold gcm.seal. rewrite ctr_xor_involutive, E. by rewrite take_drop.
Qed.

End Gcm.
