(* ===== verification/Encryption.v ===== *)
(** * Encryption of settings

    [internal/security/encryption.go]: keys, the envelope of a sealed value and
    the [Encryptor], over the executable AES-256-GCM of [Aes]. *)

From Stdlib Require Import ZArith Lia Ascii.
From S2P Require Import Prelude GoString GoError Effects Json Crypto Base64 Aes.

Open Scope prog_scope.

Definition EncryptionPayloadVersion : Z := 1.
Definition EncryptionAlgorithm : string := "AES-256-GCM".
Definition encryptionKeyBytes : Z := 32.
Definition encryptionNonceBytes : Z := 12.

(** ** The random source: [io.ReadFull(rand.Reader, buffer)] *)

Inductive rand_op := ReadRandom (n : Z).
Definition rand_ans (o : rand_op) : Type := match o with ReadRandom _ => res (list Z) end.
Definition ReadFull (n : Z) : prog rand_ans (res (list Z)) := Do (ReadRandom n) Ret.

(** ** Keys *)

Definition key_encodings : list Encoding := [StdEncoding; RawStdEncoding; URLEncoding; RawURLEncoding].

(** The first encoding under which the text is a key. *)
Fixpoint decode_key (encodings : list Encoding) (trimmed : string) : option (list Z) :=
  match encodings with
  | [] => None
  | encoding :: encodings =>
    match DecodeString encoding trimmed with
    | Some decoded => if Z.of_nat (length decoded) =? encryptionKeyBytes then Some decoded else decode_key encodings trimmed
    | None => decode_key encodings trimmed
    end
  end.

Definition DecodeEncryptionKey (raw : string) : res (list Z) :=
  let trimmed := TrimSpace raw in
  if (trimmed =? "")%string
  then Err (ErrNew "SNOWPANEL_ENCRYPTION_KEY cannot be empty when encryption is required")
  else
    match decode_key key_encodings trimmed with
    | Some key => Ok key
    | None =>
      if len trimmed =? encryptionKeyBytes then Ok (bytes_of trimmed)
      else Err (ErrNew "SNOWPANEL_ENCRYPTION_KEY must decode to 32 bytes for AES-256-GCM")
    end.

Definition GenerateEncryptionKey : prog rand_ans (res string) :=
  key <-! or_else (ReadFull encryptionKeyBytes) (ErrWrapW "generate encryption key") ;;
  Ret (Ok (EncodeToString RawStdEncoding key)).

(** ** The encryptor

    A pointer; the cipher and its mode are determined by the key.  [NewCipher]
    and [NewGCM] do not fail on a key of 32 bytes. *)
Record Encryptor := { keyID : string; aead_key : list Z }.

Definition Seal (e : Encryptor) (nonce plaintext : list Z) : list Z := gcm.seal (aes_cipher (aead_key e)) nonce plaintext.
Definition Open (e : Encryptor) (nonce ciphertext : list Z) : option (list Z) := gcm.open (aes_cipher (aead_key e)) nonce ciphertext.

Definition NewEncryptor (keyMaterial keyID : string) : res Encryptor :=
  match DecodeEncryptionKey keyMaterial with
  | Err err => Err err
  | Ok key => Ok {| keyID := TrimSpace keyID; aead_key := key |}
  end.

(** ** The envelope *)

Record EncryptedPayload := MkEncrypted {
  ep_Version : Z;
  ep_Algorithm : string;
  ep_KeyID : string;
  ep_Nonce : string;
  ep_Ciphertext : string
}.

Definition EncryptedPayload_json (p : EncryptedPayload) : json :=
  JObj ([("version", JInt (ep_Version p)); ("algorithm", JStr (ep_Algorithm p))]
        ++ (if (ep_KeyID p =? "")%string then [] else [("key_id", JStr (ep_KeyID p))])
        ++ [("nonce", JStr (ep_Nonce p)); ("ciphertext", JStr (ep_Ciphertext p))]).

Definition payload_names : list string := ["version"; "algorithm"; "key_id"; "nonce"; "ciphertext"].

Definition set_text (name s : string) (p : EncryptedPayload) : EncryptedPayload :=
  let 'MkEncrypted v a k n c := p in
  if (name =? "algorithm")%string then MkEncrypted v s k n c
  else if (name =? "key_id")%string then MkEncrypted v a s n c
  else if (name =? "nonce")%string then MkEncrypted v a k s c
  else MkEncrypted v a k n s.

Definition set_Version (z : Z) (p : EncryptedPayload) : EncryptedPayload :=
  let 'MkEncrypted _ a k n c := p in MkEncrypted z a k n c.

(** One member of the object; the flag is set by a value of the wrong type. *)
Definition read_payload_member (acc : EncryptedPayload * bool) (kv : string * json) : EncryptedPayload * bool :=
  let '(p, bad) := acc in
  match List.find (fun name => EqualFold name kv.1) payload_names with
  | None => acc
  | Some name =>
    match kv.2 with
    | JNull => acc
    | JStr s => if (name =? "version")%string then (p, true) else (set_text name s p, bad)
    | JNum l =>
      if (name =? "version")%string
      then match ParseInt64 l with Some z => (set_Version z p, bad) | None => (p, true) end
      else (p, true)
    | JBool _ | JArr _ | JObj _ => (p, true)
    end
  end.

Definition unmarshal_payload (raw : string) : option EncryptedPayload :=
  match Parse raw with
  | Some JNull => Some (MkEncrypted 0 "" "" "" "")
  | Some (JObj l) =>
    let '(p, bad) := fold_left read_payload_member l (MkEncrypted 0 "" "" "" "", false) in
    if bad then None else Some p
  | Some _ | None => None
  end.

(** ** The methods *)

Definition sealed_payload (e : Encryptor) (nonce : list Z) (plaintext : string) : EncryptedPayload :=
  MkEncrypted EncryptionPayloadVersion EncryptionAlgorithm (keyID e)
    (EncodeToString RawStdEncoding nonce) (EncodeToString RawStdEncoding (Seal e nonce (bytes_of plaintext))).

Definition Encrypt (e : option Encryptor) (plaintext : string) : prog rand_ans (res string) :=
  match e with
  | None => Ret (Err (ErrNew "encryptor is not initialized"))
  | Some e =>
    nonce <-! or_else (ReadFull encryptionNonceBytes) (ErrWrapW "generate encryption nonce") ;;
    Ret (Ok (Marshal (EncryptedPayload_json (sealed_payload e nonce plaintext))))
  end.

Definition Decrypt (e : option Encryptor) (rawPayload : string) : res string :=
  match e with
  | None => Err (ErrNew "encryptor is not initialized")
  | Some e =>
    match unmarshal_payload rawPayload with
    | None => Err (ErrNew "encrypted payload is invalid")
    | Some payload =>
      if negb (ep_Version payload =? EncryptionPayloadVersion)
      then Err (ErrNew "encrypted payload version is unsupported")
      else if negb (ep_Algorithm payload =? EncryptionAlgorithm)%string
      then Err (ErrNew "encrypted payload algorithm is unsupported")
      else
        match DecodeString RawStdEncoding (ep_Nonce payload) with
        | None => Err (ErrNew "encrypted payload nonce is invalid")
        | Some nonce =>
          if negb (Z.of_nat (length nonce) =? encryptionNonceBytes) then Err (ErrNew "encrypted payload nonce is invalid")
          else
            match DecodeString RawStdEncoding (ep_Ciphertext payload) with
            | None => Err (ErrNew "encrypted payload ciphertext is invalid")
            | Some ciphertext =>
              match Open e nonce ciphertext with
              | None => Err (ErrNew "encrypted payload authentication failed")
              | Some plaintext => Ok (to_text plaintext)
              end
            end
        end
    end
  end.

(** ** Keys read back *)

(** A key of the cipher. *)
Definition key_ok (key : list Z) : Prop := length key = 32%nat /\ bytes key.

Lemma digit_range enc c d : digit enc c = Some d -> 0 <= d < 64.
Proof. unfold digit. repeat case_goal; intros [= <-]; breflect; lia. Qed.

Lemma digit_agree enc1 enc2 c d1 d2 : digit enc1 c = Some d1 -> digit enc2 c = Some d2 -> d1 = d2.
Proof.
  unfold digit. destruct (enc_URL enc1), (enc_URL enc2); repeat case_goal; intros [= <-] [= <-]; breflect; try lia; done.
Qed.

Ltac decode_case :=
  repeat match goal with
  | |- context [match digit ?e ?c with _ => _ end] => destruct (digit e c) eqn:?
  | |- context [if ?b then _ else _] => destruct b eqn:?
  end; try discriminate.

Lemma decode_sound enc n : forall l k, (length l <= n)%nat -> decode enc l = Some k ->
  bytes k /\ (4 * length k <= 3 * length l)%nat.
Proof.
  induction n as [|n IH]; intros l k Hn Hd; [destruct l; simpl in *; [injection Hd as <-; split; [constructor|simpl; lia]|lia]|].
  destruct l as [|a [|b [|c [|d l]]]]; cbn [decode] in Hd.
  - injection Hd as <-. split; [constructor|simpl; lia].
  - done.
  - revert Hd. decode_case. intros [= <-]. pose proof (digit_range _ _ _ Heqo). pose proof (digit_range _ _ _ Heqo0).
    split; [repeat constructor; Z.to_euclidean_division_equations; lia|simpl; lia].
  - revert Hd. decode_case. intros [= <-]. cbv zeta. pose proof (digit_range _ _ _ Heqo). pose proof (digit_range _ _ _ Heqo0).
    pose proof (digit_range _ _ _ Heqo1). split; [repeat constructor; Z.to_euclidean_division_equations; lia|simpl; lia].
  - revert Hd. decode_case; cbv zeta;
      repeat match goal with H : digit _ _ = Some _ |- _ => apply digit_range in H end.
    + destruct (decode enc l) as [rest|] eqn:E; [|done]. intros [= <-]. destruct (IH l rest) as [H1 H2]; [simpl in Hn; lia|done|].
      split; [repeat constructor; try done; Z.to_euclidean_division_equations; lia|simpl in *; lia].
    + intros [= <-]. split; [repeat constructor; Z.to_euclidean_division_equations; lia|simpl; lia].
    + intros [= <-]. split; [repeat constructor; Z.to_euclidean_division_equations; lia|simpl; lia].
Qed.

(** Two encodings that both read a text read the same. *)
Lemma decode_agree enc1 enc2 n : forall l k1 k2, (length l <= n)%nat ->
  decode enc1 l = Some k1 -> decode enc2 l = Some k2 -> k1 = k2.
Proof.
  assert (Hpad : forall enc, digit enc 61 = None) by apply digit_pad.
  induction n as [|n IH]; intros l k1 k2 Hn; [destruct l; simpl in *; [by intros [= <-] [= <-]|lia]|].
  destruct l as [|a [|b [|c [|d l]]]]; cbn [decode]; [by intros [= <-] [= <-]|done|..].
  all: decode_case; breflect; subst; try (by rewrite ?Hpad in *; congruence).
  all: repeat match goal with
       | H1 : digit ?e1 ?c = Some ?x, H2 : digit ?e2 ?c = Some ?y |- _ =>
         lazymatch x with y => fail | _ => pose proof (digit_agree e1 e2 c x y H1 H2); subst; clear H2 end
       end.
  all: try (by intros [= <-] [= <-]).
  destruct (decode enc1 l) as [r1|] eqn:E1; [|done]. destruct (decode enc2 l) as [r2|] eqn:E2; [|done].
  intros [= <-] [= <-]. by rewrite (IH l r1 r2) by (done || simpl in Hn; lia).
Qed.

Lemma decode_key_Some encodings trimmed key : decode_key encodings trimmed = Some key ->
  key_ok key /\ exists enc, DecodeString enc trimmed = Some key.
Proof.
  induction encodings as [|enc encodings IH]; cbn [decode_key]; [done|].
  destruct (DecodeString enc trimmed) as [decoded|] eqn:E; [|exact IH].
  destruct (Z.eqb_spec (Z.of_nat (length decoded)) encryptionKeyBytes) as [El|_]; [|exact IH].
  intros [= <-]. split; [|by exists enc]. split; [unfold encryptionKeyBytes in El; lia|].
  unfold DecodeString in E. by eapply decode_sound.
Qed.

(** The other encodings read nothing else. *)
Lemma decode_key_found encodings enc trimmed key : enc ∈ encodings -> DecodeString enc trimmed = Some key -> length key = 32%nat ->
  decode_key encodings trimmed = Some key.
Proof.
  intros Hin Hd Hl. induction encodings as [|enc' encodings IH]; [by apply elem_of_nil in Hin|]. cbn [decode_key].
  assert (Hk : (Z.of_nat (length key) =? encryptionKeyBytes) = true) by (rewrite Hl; reflexivity).
  apply elem_of_cons in Hin as [<-|Hin]; [by rewrite Hd, Hk|]. specialize (IH Hin).
  destruct (DecodeString enc' trimmed) as [k'|] eqn:E; [|exact IH]. unfold DecodeString in *.
  by rewrite (decode_agree _ _ _ _ _ _ (le_n _) E Hd), Hk.
Qed.

Lemma length_filter_le {A} (p : A -> bool) l : (length (List.filter p l) <= length l)%nat.
Proof. induction l as [|x l IH]; cbn; [lia|]. destruct (p x); cbn; lia. Qed.

(** A text of fewer than 43 bytes is no encoding of a key. *)
Lemma decode_key_short encodings trimmed : len trimmed < 43 -> decode_key encodings trimmed = None.
Proof.
  intros Hl. destruct (decode_key encodings trimmed) as [key|] eqn:E; [|done]. apply decode_key_Some in E as [[Hk _] [enc Hd]].
  unfold DecodeString in Hd. apply (decode_sound _ _ _ _ (le_n _)) in Hd as [_ Hd].
  assert (length (bytes_of trimmed) = String.length trimmed).
  { unfold bytes_of. rewrite length_map. clear. induction trimmed; cbn; [done|by f_equal]. }
  pose proof (length_filter_le (fun c => negb (is_newline c)) (bytes_of trimmed)). unfold len in Hl. lia.
Qed.

Lemma len_bytes_of s : len s = Z.of_nat (length (bytes_of s)).
Proof. unfold len, bytes_of. rewrite length_map. f_equal. induction s; cbn; [done|by f_equal]. Qed.

Lemma DecodeEncryptionKey_ok raw key : DecodeEncryptionKey raw = Ok key -> key_ok key.
Proof.
  unfold DecodeEncryptionKey. destruct (_ =? "")%string; [done|].
  destruct (decode_key _ _) as [k|] eqn:E; [intros [= <-]; by apply decode_key_Some in E as [? _]|].
  destruct (Z.eqb_spec (len (TrimSpace raw)) encryptionKeyBytes) as [El|]; [|done]. intros [= <-].
  rewrite len_bytes_of in El. unfold encryptionKeyBytes in El. split; [lia|apply bytes_of_range].
Qed.

(** Every form of a key is understood: what is accepted is 32 bytes; the text
    of a key in any of the four encodings gives that key back, as does a text of
    32 bytes itself; a text that is neither is refused; and a generated key
    decodes. *)
Theorem DecodeEncryptionKey_spec :
  (forall raw key, DecodeEncryptionKey raw = Ok key -> key_ok key) /\
  (forall enc key, key_ok key -> DecodeEncryptionKey (EncodeToString enc key) = Ok key) /\
  (forall raw, len (TrimSpace raw) = 32 -> DecodeEncryptionKey raw = Ok (bytes_of (TrimSpace raw))) /\
  (forall raw, (forall enc key, DecodeString enc (TrimSpace raw) = Some key -> length key <> 32%nat) ->
     len (TrimSpace raw) <> 32 -> is_ok (DecodeEncryptionKey raw) = false).
Proof.
  split; [|split; [|split]].
  - apply DecodeEncryptionKey_ok.
  - intros enc key [Hl Hb]. unfold DecodeEncryptionKey. rewrite (visible_TrimSpace _ (EncodeToString_visible enc key Hb)).
    assert (Hne : EncodeToString enc key <> "").
    { intros E. pose proof (DecodeString_Encode enc key Hb) as Hd. rewrite E in Hd. injection Hd as <-. done. }
    apply String.eqb_neq in Hne. rewrite Hne. erewrite (decode_key_found _ enc); [done| |by apply DecodeString_Encode|done].
    unfold key_encodings. rewrite !elem_of_cons. destruct enc as [[] []]; auto.
  - intros raw El. unfold DecodeEncryptionKey. destruct (String.eqb_spec (TrimSpace raw) "") as [E|_].
    { by rewrite E in El. }
    by rewrite decode_key_short, El by lia.
  - intros raw Hno El. unfold DecodeEncryptionKey. destruct (_ =? "")%string; [done|].
    destruct (decode_key _ _) as [k|] eqn:E.
    + apply decode_key_Some in E as [[Hk _] [enc Hd]]. by apply Hno in Hd.
    + apply Z.eqb_neq in El. unfold encryptionKeyBytes. by rewrite El.
Qed.

(** ** Values read back *)

Definition sealed_text (e : Encryptor) (nonce : list Z) (plaintext : string) : string :=
  Marshal (EncryptedPayload_json (sealed_payload e nonce plaintext)).

Lemma Seal_bytes e nonce p : key_ok (aead_key e) -> bytes p -> bytes (Seal e nonce p).
Proof. intros [Hl Hb] Hp. apply seal_bytes; [intros l; by apply aes_cipher_block|done]. Qed.

Lemma Open_Seal e nonce p : key_ok (aead_key e) -> Open e nonce (Seal e nonce p) = Some p.
Proof. intros [Hl Hb]. apply open_seal. intros l. by apply aes_cipher_block. Qed.

Lemma Open_only e nonce c p : key_ok (aead_key e) -> bytes c -> Open e nonce c = Some p -> bytes p /\ c = Seal e nonce p.
Proof.
  intros [Hl Hb] Hc Ho. pose proof (fun l => aes_cipher_block (aead_key e) l Hl Hb) as Hblock.
  pose proof (open_only_sealed _ Hblock _ _ _ Ho) as E. split; [|done].
  unfold Open, gcm.open in Ho. destruct (_ <? _)%nat; [done|]. case_bool_decide; [|done]. injection Ho as <-.
  apply ctr_xor_bytes; [done|by apply Forall_take].
Qed.

Lemma plain_sealed p : forallb ValidString [ep_Algorithm p; ep_KeyID p; ep_Nonce p; ep_Ciphertext p] = true -> plain (EncryptedPayload_json p).
Proof.
  cbn [forallb]. rewrite !andb_true_iff. intros (Ha & Hk & Hn & Hc & _). constructor. apply Forall_app. split; [by repeat constructor|].
  apply Forall_app. split; [|by repeat constructor]. destruct (_ =? "")%string; by repeat constructor.
Qed.

Lemma unmarshal_sealed p : in_int64 (ep_Version p) = true ->
  forallb ValidString [ep_Algorithm p; ep_KeyID p; ep_Nonce p; ep_Ciphertext p] = true ->
  unmarshal_payload (Marshal (EncryptedPayload_json p)) = Some p.
Proof.
  intros Hv Hs. unfold unmarshal_payload. rewrite Parse_Marshal by (by apply plain_sealed).
  unfold EncryptedPayload_json. destruct p as [v a k n c]. cbn [ep_Version ep_Algorithm ep_KeyID ep_Nonce ep_Ciphertext] in *.
  assert (Hint : forall q, read_payload_member (q, false) ("version", JInt v) = (set_Version v q, false)).
  { intros q. unfold read_payload_member, JInt. cbn [snd fst].
    replace (List.find _ payload_names) with (Some "version") by (vm_compute; reflexivity).
    cbn [String.eqb Ascii.eqb Bool.eqb]. by rewrite ParseInt64_fmt. }
  rewrite !fold_left_app. cbn [fold_left]. rewrite Hint.
  destruct (String.eqb_spec k "") as [->|_]; vm_compute; reflexivity.
Qed.

Lemma unmarshal_sealed_text e nonce plaintext : ValidString (keyID e) = true -> key_ok (aead_key e) -> bytes nonce ->
  unmarshal_payload (sealed_text e nonce plaintext) = Some (sealed_payload e nonce plaintext).
Proof.
  intros Hid Hk Hn. apply unmarshal_sealed; [reflexivity|]. cbn [sealed_payload ep_Algorithm ep_KeyID ep_Nonce ep_Ciphertext forallb].
  change (ValidString EncryptionAlgorithm) with true. rewrite Hid.
  rewrite !visible_valid; [reflexivity|..]; apply EncodeToString_visible; [|done].
  apply Seal_bytes; [done|apply bytes_of_range].
Qed.

(** [raw] is an envelope of the text, for the key and any nonce. *)
Definition envelope_of (e : Encryptor) (plaintext raw : string) : Prop :=
  exists payload nonce, unmarshal_payload raw = Some payload /\ ep_Version payload = 1 /\ ep_Algorithm payload = "AES-256-GCM" /\
    DecodeString RawStdEncoding (ep_Nonce payload) = Some nonce /\ length nonce = 12%nat /\
    DecodeString RawStdEncoding (ep_Ciphertext payload) = Some (Seal e nonce (bytes_of plaintext)).

Lemma Decrypt_envelope e raw plaintext : key_ok (aead_key e) ->
  Decrypt (Some e) raw = Ok plaintext <-> envelope_of e plaintext raw.
Proof.
  intros Hk. unfold Decrypt, envelope_of. split.
  - destruct (unmarshal_payload raw) as [payload|]; [|done].
    destruct (Z.eqb_spec (ep_Version payload) EncryptionPayloadVersion) as [Ev|]; cbn [negb]; [|done].
    destruct (String.eqb_spec (ep_Algorithm payload) EncryptionAlgorithm) as [Ea|]; cbn [negb]; [|done].
    destruct (DecodeString RawStdEncoding (ep_Nonce payload)) as [nonce|] eqn:En; [|done].
    destruct (Z.eqb_spec (Z.of_nat (length nonce)) encryptionNonceBytes) as [El|]; cbn [negb]; [|done].
    destruct (DecodeString RawStdEncoding (ep_Ciphertext payload)) as [c|] eqn:Ec; [|done].
    destruct (Open e nonce c) as [p|] eqn:Eo; [|done]. intros [= <-].
    assert (Hc : bytes c) by (unfold DecodeString in Ec; by eapply decode_sound).
    apply Open_only in Eo as [Hp ->]; [|done..]. exists payload, nonce. unfold encryptionNonceBytes in El.
    rewrite bytes_of_text by done. repeat split; try done. lia.
  - intros (payload & nonce & -> & -> & -> & -> & Hl & ->). rewrite Hl.
    cbn [negb Z.eqb Z.of_nat Pos.of_succ_nat Pos.succ Pos.eqb]. change ("AES-256-GCM" =? EncryptionAlgorithm)%string with true.
    cbn [negb]. rewrite Open_Seal by done. by rewrite to_text_bytes_of.
Qed.

Lemma sealed_envelope e nonce plaintext : key_ok (aead_key e) -> ValidString (keyID e) = true -> length nonce = 12%nat -> bytes nonce ->
  envelope_of e plaintext (sealed_text e nonce plaintext).
Proof.
  intros Hk Hid Hl Hn. exists (sealed_payload e nonce plaintext), nonce. rewrite unmarshal_sealed_text by done.
  cbn [sealed_payload ep_Version ep_Algorithm ep_Nonce ep_Ciphertext].
  rewrite !DecodeString_Encode by (done || by apply Seal_bytes, bytes_of_range). done.
Qed.

(** C22 What is decrypted is what was encrypted: an envelope is accepted exactly
    when it is version 1 of the known algorithm, with a nonce of 12 bytes and
    with the one ciphertext that the result has under this key and nonce, so a
    changed ciphertext or nonce is refused or was itself sealed under the key;
    and the envelopes the encryptor makes, whatever the text and the nonce, are
    accepted. *)
Theorem Decrypt_spec e raw plaintext : key_ok (aead_key e) ->
  (Decrypt (Some e) raw = Ok plaintext <-> envelope_of e plaintext raw) /\
  (forall nonce, ValidString (keyID e) = true -> length nonce = 12%nat -> bytes nonce ->
   Decrypt (Some e) (sealed_text e nonce plaintext) = Ok plaintext).
Proof.
  intros Hk. split; [by apply Decrypt_envelope|]. intros nonce Hid Hl Hn. by apply Decrypt_envelope, sealed_envelope.
Qed.

(** ** A key and a value *)

Definition key0 : list Z := map Z.of_nat (seq 0 32).
Definition encryptor0 : Encryptor := {| keyID := "k1"; aead_key := key0 |}.

Lemma key0_ok : key_ok key0.
Proof. split; [reflexivity|]. apply Forall_map, Forall_forall. intros n (_ & Hn)%elem_of_seq. lia. Qed.

Lemma encryptor0_made : NewEncryptor (EncodeToString URLEncoding key0) " k1 " = Ok encryptor0.
Proof. vm_compute. reflexivity. Qed.

Definition nonce0 : list Z := replicate 12 7.

Lemma Decrypt_spec_witness :
  Decrypt (Some encryptor0) (sealed_text encryptor0 nonce0 "hunter2") = Ok "hunter2" /\
  Decrypt (Some {| keyID := "k1"; aead_key := replicate 32 1 |}) (sealed_text encryptor0 nonce0 "hunter2")
    = Err (ErrNew "encrypted payload authentication failed").
Proof.
  split; [|vm_compute; reflexivity].
  apply (Decrypt_spec encryptor0 (sealed_text encryptor0 nonce0 "hunter2") "hunter2" key0_ok);
    [reflexivity|reflexivity|repeat constructor; lia].
Defined.
