(* ===== verification/JsonText.v ===== *)
(** * JSON in text columns

    What [Marshal] prints is UTF-8 without NUL bytes, whatever the strings in
    the value are: a TEXT column takes it. *)

From Stdlib Require Import ZArith Lia Ascii DecimalString.
From S2P Require Import Prelude GoString Json Table.

Definition no_nul (s : string) : bool := negb (existsb (fun a => byte a =? 0) (String.list_ascii_of_string s)).

Lemma no_nul_app s t : no_nul (s +:+ t) = no_nul s && no_nul t.
Proof.
  unfold no_nul. rewrite <- negb_orb, <- existsb_app. do 2 f_equal. induction s as [|a s IH]; [reflexivity|].
  change (String.list_ascii_of_string (String a s +:+ t)) with (a :: String.list_ascii_of_string (s +:+ t)). by rewrite IH.
Qed.

Lemma no_nul_rune r : 0 < r -> no_nul (encode_rune r) = true.
Proof.
  assert (Hc : forall z, 0 < z < 256 -> (byte (chr z) =? 0) = false) by (intros z Hz; rewrite byte_chr by lia; lia).
  intros Hr. unfold encode_rune. set (r' := if (r <? 0) || (1114111 <? r) || ((55296 <=? r) && (r <=? 57343)) then RuneError else r).
  assert (Hr' : 0 < r' <= 1114111) by (unfold r', RuneError; case_goal; breflect; lia). clearbody r'.
  unfold no_nul. repeat case_goal; breflect; cbn [String.list_ascii_of_string existsb];
    rewrite !Hc by (Z.to_euclidean_division_equations; lia); reflexivity.
Qed.

Lemma no_nul_runes l : Forall (fun r => 0 < r) l -> no_nul (encode_runes l) = true.
Proof. induction 1 as [|r l Hr _ IH]; [done|]. by rewrite encode_runes_cons, no_nul_app, no_nul_rune, IH. Qed.

Definition positive (l : list Z) : Prop := Forall (fun r => 0 < r) l.

Lemma escape_u_positive r : positive (escape_u r).
Proof. unfold escape_u, hex_digit. repeat constructor; case_goal; breflect; Z.to_euclidean_division_equations; lia. Qed.

Lemma print_string_positive s : positive (print_string s).
Proof.
  unfold print_string. constructor; [lia|]. apply Forall_app. split; [|by repeat constructor].
  induction (segs s) as [|x l IH]; [constructor|]. cbn [map concat]. apply Forall_app. split; [|exact IH]. unfold escape_rune.
  destruct (valid_seg x); cbn [negb]; [|apply escape_u_positive].
  repeat case_goal; try apply escape_u_positive; repeat constructor. breflect. lia.
Qed.

Lemma fmt_d_positive z : positive (lit (fmt_d z)).
Proof.
  assert (Hu : forall d, positive (lit (NilEmpty.string_of_uint d))).
  { intros d. eapply Forall_impl; [apply lit_uint|]. intros r Hr. unfold is_digit in Hr. breflect. lia. }
  unfold fmt_d, NilZero.string_of_int, NilZero.string_of_uint. destruct (Z.to_int z) as [d|d].
  - destruct d; try apply Hu. by repeat constructor.
  - cbn [lit String.list_ascii_of_string map]. constructor; [done|]. destruct d; try apply Hu. by repeat constructor.
Qed.

Lemma print_runes_positive j : plain j -> positive (print_runes j).
Proof.
  induction j as [|b|m|s|l IH|l IH] using json_nested_ind; intros Hp; cbn [print_runes].
  - by repeat constructor.
  - destruct b; by repeat constructor.
  - inversion Hp; subst. apply fmt_d_positive.
  - apply print_string_positive.
  - inversion Hp as [| | | |l' Hl|]; subst. constructor; [done|]. apply Forall_app. split; [|by repeat constructor].
    apply sep_by_Forall; [done|]. apply Forall_map. rewrite Forall_forall in *. intros x Hx. by apply IH, Hl.
  - inversion Hp as [| | | | |l' Hl]; subst. constructor; [done|]. apply Forall_app. split; [|by repeat constructor].
    apply sep_by_Forall; [done|]. apply Forall_map. rewrite Forall_forall in *. intros kv Hkv. destruct (Hl kv Hkv) as [_ Hv].
    apply Forall_app. split; [apply print_string_positive|]. constructor; [done|]. by apply IH.
Qed.

Theorem Marshal_text j : plain j -> text_ok (Marshal j) = true.
Proof.
  intros Hp. unfold text_ok, Marshal. rewrite ValidString_encode by apply print_runes_scalar. cbn [andb].
  by apply no_nul_runes, print_runes_positive.
Qed.
