(* ===== verification/SettingRepo.v ===== *)
(** * The settings table

    [internal/repository/system_setting_repository.go] over the table
    [system_settings] of the migrations.  The foreign key of [updated_by] is
    left to the faults. *)

From Stdlib Require Import ZArith Lia.
From S2P Require Import Prelude GoString GoError Table Schema.

Record SettingDB := { sdb_rows : list SystemSetting; sdb_next : Z }.

Definition with_setting_rows (l : list SystemSetting) (db : SettingDB) : SettingDB :=
  {| sdb_rows := l; sdb_next := sdb_next db |}.

Definition ErrSettingRow : goerr := ErrNew "new row of system_settings is refused".

(** What the columns take. *)
Definition setting_ok (r : SystemSetting) : bool :=
  varchar 128 (ss_Key r) && varchar 32 (ss_ValueType r)
  && forallb text_ok [ss_Key r; ss_Value r; ss_ValueType r; ss_Description r].

Definition has_key (key : string) (r : SystemSetting) : bool := (ss_Key r =? key)%string.

Module setting_repository.

Definition GetByKey (key : string) (db : SettingDB) : res (option SystemSetting) := Ok (first_where (has_key key) (sdb_rows db)).

Definition HasEncryptedSettings (db : SettingDB) : res bool := Ok (0 <? count_where ss_IsEncrypted (sdb_rows db)).

(** The columns of [DoUpdates], from the row that was to be inserted. *)
Definition overwrite (setting r : SystemSetting) : SystemSetting :=
  MkSystemSetting (ss_ID r) (ss_Key r) (ss_Value setting) (ss_ValueType setting) (ss_IsEncrypted setting)
    (ss_Description setting) (ss_UpdatedBy setting) (ss_CreatedAt r) (timestamptz (ss_UpdatedAt setting)).

(** GORM fills in the time of creation when it is not set, and reads back the
    key of the row; the rest of the struct is as it was. *)
Definition Upsert (now : Z) (setting : SystemSetting) (db : SettingDB) : res SystemSetting * SettingDB :=
  let created := if ss_CreatedAt setting =? zero_time then now else ss_CreatedAt setting in
  let inserted id created := MkSystemSetting id (ss_Key setting) (ss_Value setting) (ss_ValueType setting)
    (ss_IsEncrypted setting) (ss_Description setting) (ss_UpdatedBy setting) created (ss_UpdatedAt setting) in
  let taken := {| sdb_rows := sdb_rows db; sdb_next := sdb_next db + 1 |} in
  if negb (setting_ok setting) then (Err ErrSettingRow, taken)
  else
    match first_where (has_key (ss_Key setting)) (sdb_rows db) with
    | Some r =>
      (Ok (inserted (ss_ID r) created),
       with_setting_rows (update_where (has_key (ss_Key setting)) (overwrite setting) (sdb_rows db)) taken)
    | None =>
      let stored := MkSystemSetting (sdb_next db) (ss_Key setting) (ss_Value setting) (ss_ValueType setting)
        (ss_IsEncrypted setting) (ss_Description setting) (ss_UpdatedBy setting) (timestamptz created)
        (timestamptz (ss_UpdatedAt setting)) in
      (Ok (inserted (sdb_next db) created), with_setting_rows (sdb_rows db ++ [stored]) taken)
    end.

End setting_repository.

(** ** The interface [SystemSettingRepository] *)

Inductive setting_repo_op :=
| SGetByKey (key : string)
| SHasEncrypted
| SUpsert (setting : SystemSetting).

Definition setting_repo_ans (o : setting_repo_op) : Type :=
  match o with
  | SGetByKey _ => res (option SystemSetting)
  | SHasEncrypted => res bool
  | SUpsert _ => res SystemSetting
  end.

Definition setting_repo_err (o : setting_repo_op) (e : goerr) : setting_repo_ans o :=
  match o return setting_repo_ans o with SGetByKey _ | SHasEncrypted | SUpsert _ => Err e end.

Definition setting_repo_exec (now : Z) (o : setting_repo_op) (db : SettingDB) : setting_repo_ans o * SettingDB :=
  match o return setting_repo_ans o * SettingDB with
  | SGetByKey key => (setting_repository.GetByKey key db, db)
  | SHasEncrypted => (setting_repository.HasEncryptedSettings db, db)
  | SUpsert setting => setting_repository.Upsert now setting db
  end.

(** ** The rows *)

(** Keys and identifiers are unique. *)
Record settings_ok (db : SettingDB) : Prop := {
  so_keys : NoDup (ss_Key <$> sdb_rows db);
  so_ids : NoDup (ss_ID <$> sdb_rows db);
  so_next : Forall (fun r => ss_ID r < sdb_next db) (sdb_rows db)
}.

Lemma has_key_eq key r : has_key key r = true <-> ss_Key r = key.
Proof. apply String.eqb_eq. Qed.

Lemma fmap_overwrite {B} (g : SystemSetting -> B) p setting l : (forall r, g (setting_repository.overwrite setting r) = g r) ->
  g <$> update_where p (setting_repository.overwrite setting) l = g <$> l.
Proof. intros Hg. apply fmap_update. intros r. by rewrite Hg. Qed.

Lemma Upsert_ok now setting db : settings_ok db -> settings_ok (setting_repository.Upsert now setting db).2.
Proof.
  intros [Hk Hi Hn]. unfold setting_repository.Upsert. cbv zeta.
  assert (Hn' : Forall (fun r => ss_ID r < sdb_next db + 1) (sdb_rows db)) by (eapply Forall_impl; [exact Hn|]; cbn; lia).
  destruct (setting_ok setting); cbn [negb snd]; [|by split].
  destruct (first_where _ _) as [r|] eqn:E; cbn [snd]; split; cbn [with_setting_rows sdb_rows sdb_next].
  - by rewrite fmap_overwrite.
  - by rewrite fmap_overwrite.
  - apply Forall_update; [done|]. intros x _ Hx. exact Hx.
  - rewrite fmap_app. apply NoDup_app. split; [done|]. split; [|apply NoDup_singleton]. intros k Hin ->%list_elem_of_singleton.
    apply list_elem_of_fmap_1 in Hin as (r & Er & Hr). rewrite first_where_None in E.
    specialize (E r Hr). by rewrite (proj2 (has_key_eq _ _)) in E.
  - rewrite fmap_app. apply NoDup_app. split; [done|]. split; [|apply NoDup_singleton]. intros k Hin ->%list_elem_of_singleton.
    apply list_elem_of_fmap_1 in Hin as (r & Er & Hr). rewrite Forall_forall in Hn. specialize (Hn r Hr). cbn in Er. lia.
  - apply Forall_app. split; [done|]. repeat constructor. cbn. lia.
Qed.

Lemma setting_repo_exec_ok now o db : settings_ok db -> settings_ok (setting_repo_exec now o db).2.
Proof. intros Hok. destruct o; [done|done|by apply Upsert_ok]. Qed.
