(* ===== verification/SettingService.v ===== *)
(** * System settings

    [internal/service/system_setting_service.go]: settings that are kept as
    they are or encrypted, over the settings table, the random source and the
    clock. *)

From Stdlib Require Import ZArith Lia.
From S2P Require Import Prelude GoString GoTime GoError Effects Table Schema Json Dto Crypto Base64 Aes Encryption SettingRepo.

Open Scope prog_scope.

Inductive setting_op :=
| SRepo (o : setting_repo_op)
| SRand (o : rand_op)
| SNow.

Definition setting_ans (o : setting_op) : Type :=
  match o with SRepo o => setting_repo_ans o | SRand o => rand_ans o | SNow => Z end.

#[export] Instance rand_in_settings : SubOp rand_ans setting_ans :=
  {| inj := SRand; proj o (a : setting_ans (SRand o)) := a |}.

Abbreviation setting A := (prog setting_ans A).

(** ** The service *)

Definition normalizeSettingValueType (raw : string) : string :=
  let normalized := TrimSpace (ToLower raw) in
  if (normalized =? "")%string then "string" else normalized.

Definition mapSystemSetting (r : SystemSetting) : dto.SystemSetting :=
  {| dto.st_ID := ss_ID r; dto.st_Key := ss_Key r; dto.st_Value := ss_Value r; dto.st_ValueType := ss_ValueType r;
     dto.st_IsEncrypted := ss_IsEncrypted r; dto.st_Description := ss_Description r; dto.st_UpdatedBy := ss_UpdatedBy r;
     dto.st_CreatedAt := FormatRFC3339 (ss_CreatedAt r); dto.st_UpdatedAt := FormatRFC3339 (ss_UpdatedAt r) |}.

Definition with_value (value : string) (r : SystemSetting) : SystemSetting :=
  MkSystemSetting (ss_ID r) (ss_Key r) value (ss_ValueType r) (ss_IsEncrypted r) (ss_Description r) (ss_UpdatedBy r)
    (ss_CreatedAt r) (ss_UpdatedAt r).

Definition no_encryption_key : goerr :=
  ErrNew "SNOWPANEL_ENCRYPTION_KEY cannot be empty when encrypted settings are used".

Section Service.
Context (encryptor : option Encryptor).

(** The value that goes into the row. *)
Definition stored_value (input : dto.UpsertSystemSettingInput) : setting (res string) :=
  if dto.us_IsEncrypted input then
    match encryptor with
    | None => Ret (Err (internal no_encryption_key))
    | Some _ => or_else (embed (Encrypt encryptor (dto.us_Value input))) internal
    end
  else Ret (Ok (dto.us_Value input)).

Definition Upsert (input : dto.UpsertSystemSettingInput) : setting (res dto.SystemSetting) :=
  let key := TrimSpace (dto.us_Key input) in
  if (key =? "")%string then Ret (Err (bad_request (ErrNew "setting key is required")))
  else
    value <-! stored_value input ;;
    now <- call SNow ;;
    let row := MkSystemSetting 0 key value (normalizeSettingValueType (dto.us_ValueType input)) (dto.us_IsEncrypted input)
      (TrimSpace (dto.us_Description input)) (dto.us_UpdatedBy input) zero_time now in
    saved <-! or_else (call (SRepo (SUpsert row)) : setting (res SystemSetting)) internal ;;
    Ret (Ok (mapSystemSetting (with_value (dto.us_Value input) saved))).

Definition GetByKey (key : string) : setting (res dto.SystemSetting) :=
  let trimmed := TrimSpace key in
  if (trimmed =? "")%string then Ret (Err (bad_request (ErrNew "setting key is required")))
  else
    found <-! or_else (call (SRepo (SGetByKey trimmed)) : setting (res (option SystemSetting))) internal ;;
    match found with
    | None => Ret (Err (wrap_as ErrSystemSettingNotFound (ErrNew "system setting not found")))
    | Some row =>
      if ss_IsEncrypted row then
        match encryptor with
        | None => Ret (Err (internal no_encryption_key))
        | Some _ =>
          match Decrypt encryptor (ss_Value row) with
          | Err err => Ret (Err (internal err))
          | Ok value => Ret (Ok (mapSystemSetting (with_value value row)))
          end
        end
      else Ret (Ok (mapSystemSetting row))
    end.

End Service.

(** ** Execution *)

Record SettingEnv := {
  se_now : nat -> Z;
  se_db : nat -> fault;
  se_rand : nat -> Z -> res (list Z)
}.

(** The random source fills the buffer. *)
Definition rand_ok (env : SettingEnv) : Prop :=
  forall n k l, 0 <= k -> se_rand env n k = Ok l -> Z.of_nat (length l) = k /\ bytes l.

Record SettingWorld := MkSettingWorld { sw_step : nat; sw_db : SettingDB }.

Section System.
Context (env : SettingEnv).

Definition exec_setting_repo (o : setting_repo_op) (w : SettingWorld) : setting_repo_ans o * SettingDB :=
  let '(r, d) := setting_repo_exec (se_now env (sw_step w)) o (sw_db w) in
  match se_db env (sw_step w) with
  | NoFault => (r, d)
  | FailBefore e => (setting_repo_err o e, sw_db w)
  | FailAfter e => (setting_repo_err o e, d)
  end.

Definition setting_handle (o : setting_op) (w : SettingWorld) : setting_ans o * SettingWorld :=
  let next d := MkSettingWorld (S (sw_step w)) d in
  match o return setting_ans o * SettingWorld with
  | SRepo o => let '(a, d) := exec_setting_repo o w in (a, next d)
  | SRand (ReadRandom k) => (se_rand env (sw_step w) k, next (sw_db w))
  | SNow => (se_now env (sw_step w), next (sw_db w))
  end.

End System.
