(* ===== verification/SettingProps.v ===== *)
(** * Settings read back

    What is stored under a key is what is read under it, encrypted or not, and
    no other key is touched. *)

From Stdlib Require Import ZArith Lia.
From S2P Require Import Prelude GoString GoTime GoError Effects Table Schema Json JsonText Dto Crypto Base64 Aes Encryption.
From S2P Require Import SettingRepo SettingService.

(** An encryptor as [NewEncryptor] makes it, its identifier being text. *)
Definition encryptor_ok (s : option Encryptor) : Prop :=
  match s with Some e => key_ok (aead_key e) /\ ValidString (keyID e) = true | None => True end.

Lemma NewEncryptor_ok keyMaterial id e : ValidString id = true -> NewEncryptor keyMaterial id = Ok e -> encryptor_ok (Some e).
Proof.
  intros Hid. unfold NewEncryptor. destruct (DecodeEncryptionKey keyMaterial) as [key|] eqn:E; [|done]. intros [= <-].
  split; [by eapply DecodeEncryptionKey_ok|by apply ValidString_TrimSpace].
Qed.

(** The row a request stands for. *)
Definition setting_row (input : dto.UpsertSystemSettingInput) (value : string) (now : Z) : SystemSetting :=
  MkSystemSetting 0 (TrimSpace (dto.us_Key input)) value (normalizeSettingValueType (dto.us_ValueType input))
    (dto.us_IsEncrypted input) (TrimSpace (dto.us_Description input)) (dto.us_UpdatedBy input) zero_time now.

(** A setting says what the request said. *)
Definition says (input : dto.UpsertSystemSettingInput) (d : dto.SystemSetting) : Prop :=
  dto.st_Key d = TrimSpace (dto.us_Key input) /\ dto.st_Value d = dto.us_Value input /\
  dto.st_ValueType d = normalizeSettingValueType (dto.us_ValueType input) /\
  dto.st_IsEncrypted d = dto.us_IsEncrypted input /\ dto.st_Description d = TrimSpace (dto.us_Description input) /\
  dto.st_UpdatedBy d = dto.us_UpdatedBy input.

(** One statement: the row of the key is the setting, the others are as before. *)
Lemma Upsert_row now setting db : setting_ok setting = true -> exists saved row,
  (setting_repository.Upsert now setting db).1 = Ok saved /\
  first_where (has_key (ss_Key setting)) (sdb_rows (setting_repository.Upsert now setting db).2) = Some row /\
  (forall key, key <> ss_Key setting ->
     first_where (has_key key) (sdb_rows (setting_repository.Upsert now setting db).2) = first_where (has_key key) (sdb_rows db)) /\
  Forall (fun r => (ss_Key r, ss_Value r, ss_ValueType r, ss_IsEncrypted r, ss_Description r, ss_UpdatedBy r)
    = (ss_Key setting, ss_Value setting, ss_ValueType setting, ss_IsEncrypted setting, ss_Description setting, ss_UpdatedBy setting))
    [saved; row] /\
  ss_ID saved = ss_ID row.
Proof.
  intros Hok. unfold setting_repository.Upsert. cbv zeta. rewrite Hok. cbn [negb].
  assert (Hkey : forall key r, has_key key (setting_repository.overwrite setting r) = has_key key r) by done.
  destruct (first_where (has_key (ss_Key setting)) (sdb_rows db)) as [r|] eqn:E; cbn [fst snd with_setting_rows sdb_rows].
  - do 2 eexists. split; [done|]. apply first_where_Some in E as Er. destruct Er as [_ Er].
    rewrite first_where_update, E, Er by done. split; [done|]. apply has_key_eq in Er. split; [|split; [|done]].
    + intros key Hne. rewrite first_where_update by done. destruct (first_where (has_key key) (sdb_rows db)) as [x|] eqn:Ex; [|done].
      apply first_where_Some in Ex as [_ Ex]. apply has_key_eq in Ex. destruct (has_key (ss_Key setting) x) eqn:Ek; [|done].
      apply has_key_eq in Ek. congruence.
    + repeat constructor; cbn; congruence.
  - do 2 eexists. split; [done|]. rewrite first_where_app, E. unfold first_where at 1. cbn [List.find].
    unfold has_key at 1. cbn [ss_Key]. rewrite String.eqb_refl. split; [done|]. split; [|by repeat constructor].
    intros key Hne. rewrite first_where_app.
    destruct (first_where (has_key key) (sdb_rows db)); [done|]. unfold first_where. cbn [List.find].
    unfold has_key. cbn [ss_Key]. destruct (String.eqb_spec (ss_Key setting) key); [congruence|done].
Qed.

(** What the columns ask of the request itself. *)
Definition request_fits (input : dto.UpsertSystemSettingInput) : Prop :=
  TrimSpace (dto.us_Key input) <> "" /\
  setting_ok (setting_row input (if dto.us_IsEncrypted input then "" else dto.us_Value input) 0) = true.

Section Settings.
Context (env : SettingEnv) (s : option Encryptor).
Context (Hdb : forall n, se_db env n = NoFault) (Hrand : rand_ok env) (Hs : encryptor_ok s).
#[local] Abbreviation handle := (setting_handle env).
#[local] Abbreviation wps := (wp handle).

Definition read w key : res dto.SystemSetting := (run handle (GetByKey s key) w).1.

(** A read depends on the row of the key alone. *)
Definition read_row (found : option SystemSetting) : res dto.SystemSetting :=
  match found with
  | None => Err (wrap_as ErrSystemSettingNotFound (ErrNew "system setting not found"))
  | Some row =>
    if ss_IsEncrypted row then
      match s with
      | None => Err (internal no_encryption_key)
      | Some _ =>
        match Decrypt s (ss_Value row) with
        | Err err => Err (internal err)
        | Ok value => Ok (mapSystemSetting (with_value value row))
        end
      end
    else Ok (mapSystemSetting row)
  end.

Lemma read_spec w key : read w key =
  if (TrimSpace key =? "")%string then Err (bad_request (ErrNew "setting key is required"))
  else read_row (first_where (has_key (TrimSpace key)) (sdb_rows (sw_db w))).
Proof.
  unfold read, GetByKey. destruct (_ =? "")%string; [done|]. unfold bind_ok, or_else, call. cbn [bind run setting_handle].
  unfold exec_setting_repo. cbn [setting_repo_exec]. rewrite Hdb. cbn [bind map_err run setting_repository.GetByKey].
  destruct (first_where _ _) as [row|]; cbn [read_row run fst]; [|done].
  destruct (ss_IsEncrypted row); [|done]. destruct s as [e|]; [|done]. by destruct (Decrypt (Some e) (ss_Value row)).
Qed.

(** Making the value touches nothing; an encrypted one is an envelope. *)
Definition value_of (input : dto.UpsertSystemSettingInput) (value : string) : Prop :=
  if dto.us_IsEncrypted input then exists e, s = Some e /\ envelope_of e (dto.us_Value input) value /\ text_ok value = true
  else value = dto.us_Value input.

Lemma wp_stored_value input (Q : res string -> SettingWorld -> Prop) w :
  (forall r n, match r with Ok value => value_of input value | Err _ => dto.us_IsEncrypted input = true end ->
     (dto.us_IsEncrypted input = true -> s <> None -> (forall n k, is_ok (se_rand env n k) = true) -> is_ok r = true) ->
     Q r (MkSettingWorld n (sw_db w))) ->
  wps (stored_value s input) Q w.
Proof.
  intros HQ. unfold stored_value, value_of in *. destruct (dto.us_IsEncrypted input) eqn:Ee.
  - destruct s as [e|] eqn:Es.
    + unfold or_else, Encrypt, bind_ok, ReadFull, wp. cbn [or_else bind embed run inj rand_in_settings setting_handle proj].
      destruct (se_rand env (sw_step w) encryptionNonceBytes) as [nonce|err] eqn:En; cbn [bind map_err embed run].
      * destruct (Hrand _ encryptionNonceBytes nonce ltac:(done) En) as [Hl Hb]. destruct Hs as [Hk Hid]. unfold encryptionNonceBytes in Hl.
        apply HQ; [|done]. exists e. split; [done|]. split; [apply sealed_envelope; [done..|lia|done]|].
        apply Marshal_text, plain_sealed. cbn [sealed_payload ep_Algorithm ep_KeyID ep_Nonce ep_Ciphertext forallb].
        change (ValidString EncryptionAlgorithm) with true. rewrite Hid.
        rewrite !visible_valid; [reflexivity|..]; apply EncodeToString_visible; [|done].
        apply Seal_bytes; [done|apply bytes_of_range].
      * apply HQ; [done|]. intros _ _ Hr. specialize (Hr (sw_step w) encryptionNonceBytes). by rewrite En in Hr.
    + destruct w. apply HQ; [done|]. intros _ Hne. done.
  - destruct w. by apply HQ.
Qed.

(** What a row with a value of the input gives to a reader. *)
Lemma read_stored input key stored w :
  TrimSpace key <> "" -> first_where (has_key (TrimSpace key)) (sdb_rows (sw_db w)) = Some stored ->
  ss_IsEncrypted stored = dto.us_IsEncrypted input -> value_of input (ss_Value stored) ->
  read w key = Ok (mapSystemSetting (with_value (dto.us_Value input) stored)).
Proof.
  intros Hne Hf Henc Hv. rewrite read_spec, Hf. apply String.eqb_neq in Hne. rewrite Hne. unfold read_row. rewrite Henc.
  unfold value_of in Hv. destruct (dto.us_IsEncrypted input).
  - destruct Hv as (e & Es & Henv & _). destruct s as [e'|]; [|done]. injection Es as ->. destruct Hs as [Hk _].
    apply Decrypt_envelope in Henv as ->; done.
  - rewrite <- Hv. by destruct stored.
Qed.

(** C11 A setting reads back.  With a database that answers, a request that is
    accepted leaves its value, type, flag and description under its (trimmed)
    key, for every later read of that key, whether the value is kept as it is
    or encrypted, and no other key reads differently; an encrypted value is in
    the table only as an envelope under the key of the service.  A request that
    is refused changes no row; one that fits the columns is refused only when it
    asks for encryption without a key or without random bytes. *)
Theorem settings_roundtrip input w : settings_ok (sw_db w) ->
  let out := run handle (Upsert s input) w in
  settings_ok (sw_db out.2) /\
  match out.1 with
  | Ok d =>
    says input d /\
    (forall key, TrimSpace key = TrimSpace (dto.us_Key input) ->
       exists d', read out.2 key = Ok d' /\ says input d' /\ dto.st_ID d' = dto.st_ID d) /\
    (forall key, TrimSpace key <> TrimSpace (dto.us_Key input) -> read out.2 key = read w key) /\
    exists row, first_where (has_key (TrimSpace (dto.us_Key input))) (sdb_rows (sw_db out.2)) = Some row /\ value_of input (ss_Value row)
  | Err _ => sdb_rows (sw_db out.2) = sdb_rows (sw_db w)
  end /\
  (request_fits input -> (dto.us_IsEncrypted input = true -> s <> None /\ forall n k, is_ok (se_rand env n k) = true) -> is_ok out.1 = true).
Proof.
  intros Hok. cbv zeta.
  pose (Q := fun (r : res dto.SystemSetting) (w' : SettingWorld) => settings_ok (sw_db w') /\
    match r with
    | Ok d => says input d /\
        (forall key, TrimSpace key = TrimSpace (dto.us_Key input) -> exists d', read w' key = Ok d' /\ says input d' /\ dto.st_ID d' = dto.st_ID d) /\
        (forall key, TrimSpace key <> TrimSpace (dto.us_Key input) -> read w' key = read w key) /\
        exists row, first_where (has_key (TrimSpace (dto.us_Key input))) (sdb_rows (sw_db w')) = Some row /\ value_of input (ss_Value row)
    | Err _ => sdb_rows (sw_db w') = sdb_rows (sw_db w)
    end /\
    (request_fits input -> (dto.us_IsEncrypted input = true -> s <> None /\ forall n k, is_ok (se_rand env n k) = true) -> is_ok r = true)).
  enough (H : wps (Upsert s input) Q w) by (unfold wp in H; by destruct (run handle (Upsert s input) w)).
  unfold Upsert. destruct (String.eqb_spec (TrimSpace (dto.us_Key input)) "") as [E0|E0].
  { split; [done|]. split; [done|]. intros [Hne _]. done. }
  apply wp_bind_ok, wp_stored_value. intros [value|err] n Hv Hr.
  2: { split; [done|]. split; [done|]. intros _ Henc. destruct (Henc Hv) as [Hne Hrand']. by apply Hr. }
  apply wp_bind. unfold wp at 1, call at 1. cbn [run setting_handle]. fold (setting_row input value (se_now env n)).
  apply wp_bind_ok, wp_or_else. unfold wp, call. cbn [run setting_handle]. unfold exec_setting_repo. cbn [setting_repo_exec sw_step sw_db].
  rewrite Hdb. set (row := setting_row input value (se_now env n)).
  match goal with |- context [setting_repository.Upsert _ ?r _] => change r with row end. set (now := se_now env (S n)).
  pose proof (Upsert_ok now row (sw_db w) Hok) as Hok'.
  destruct (setting_ok row) eqn:Efit.
  - destruct (Upsert_row now row (sw_db w) Efit) as (saved & stored & E1 & E2 & E3 & Hf & Eid).
    destruct (setting_repository.Upsert now row (sw_db w)) as [r d]. cbn [fst snd] in *. subst r. cbn [map_err run fst snd].
    apply Forall_cons in Hf as [Fs Hf]. apply Forall_cons in Hf as [Fr _]. cbv beta in Fs, Fr. unfold row, setting_row in Fs, Fr, E2, E3.
    cbn [ss_Key ss_Value ss_ValueType ss_IsEncrypted ss_Description ss_UpdatedBy] in *.
    injection Fs as S1 S2 S3 S4 S5 S6. injection Fr as R1 R2 R3 R4 R5 R6.
    split; [done|]. split; [|done]. split; [done|]. split; [|split; [|exists stored; split; [done|by rewrite R2]]].
    + intros key Ek. rewrite (read_stored input key stored); [|by rewrite Ek..|done|by rewrite R2].
      eexists. split; [done|]. split; [|done]. unfold says. cbn. done.
    + intros key Hne. rewrite !read_spec. destruct (_ =? "")%string; [done|]. cbn [sw_db]. by rewrite E3.
  - unfold setting_repository.Upsert. cbv zeta. rewrite Efit. cbn [negb map_err run fst snd sw_db].
    split; [|split; [done|]].
    + revert Hok'. unfold setting_repository.Upsert. cbv zeta. by rewrite Efit.
    + intros [_ Hfits] _. exfalso. unfold setting_ok, row, setting_row in *. cbn [ss_Key ss_ValueType ss_Value ss_Description forallb] in *.
      unfold value_of in Hv. destruct (dto.us_IsEncrypted input) eqn:Ee.
      * destruct Hv as (e & _ & _ & Ht). rewrite Ht in Efit. change (text_ok "") with true in Hfits. congruence.
      * rewrite Hv in Efit. congruence.
Qed.

End Settings.

(** The invariant of the table, with any faults: every operation, hence any
    interleaving of the service's calls, keeps keys and identifiers unique. *)
Lemma setting_handle_ok env o w : settings_ok (sw_db w) -> settings_ok (sw_db (setting_handle env o w).2).
Proof.
  intros Hok. destruct o as [o|[k]|]; [|done|done]. cbn [setting_handle]. unfold exec_setting_repo.
  pose proof (setting_repo_exec_ok (se_now env (sw_step w)) o (sw_db w) Hok) as H.
  destruct (setting_repo_exec _ o (sw_db w)) as [r d]. by destruct (se_db env (sw_step w)).
Qed.

(** ** A password replaced by an encrypted one *)

Module Settings.

Definition env : SettingEnv :=
  {| se_now := fun n => 1700000000000000000 + Z.of_nat n; se_db := fun _ => NoFault; se_rand := fun _ k => Ok (replicate (Z.to_nat k) 7) |}.

Definition before : SettingWorld := MkSettingWorld 0 {| sdb_rows :=
  [MkSystemSetting 1 "site.name" "panel" "string" false "" None 0 0;
   MkSystemSetting 2 "mail.password" "hunter2" "string" false "" (Some 1) 0 0]; sdb_next := 3 |}.

Definition request : dto.UpsertSystemSettingInput :=
  {| dto.us_Key := " mail.password "; dto.us_Value := "s3cret"; dto.us_ValueType := ""; dto.us_IsEncrypted := true;
     dto.us_Description := " SMTP "; dto.us_UpdatedBy := Some 1 |}.

Definition after : SettingWorld := (run (setting_handle env) (Upsert (Some encryptor0) request) before).2.

Definition row_key_value (r : SystemSetting) : Z * string * string := (ss_ID r, ss_Key r, ss_Value r).

Lemma env_rand : rand_ok env.
Proof.
  intros n k l Hk. cbn [env se_rand]. intros [= <-]. rewrite length_replicate. split; [lia|by apply Forall_replicate].
Qed.

Lemma before_ok : settings_ok (sw_db before).
Proof. split; apply (bool_decide_unpack _); vm_compute; done. Qed.

(** The row keeps its place; the password is nowhere in the table. *)
Example replaced : map ss_ID (sdb_rows (sw_db after)) = [1; 2] /\
  forallb (fun r => negb (Contains (ss_Value r) "s3cret" || Contains (ss_Value r) "hunter2")) (sdb_rows (sw_db after)) = true.
Proof. vm_compute. done. Qed.

Example read_back : dto.st_Value <$> (match read env (Some encryptor0) after "mail.password" with Ok d => Some d | Err _ => None end) = Some "s3cret" /\
  is_ok (read env None after "mail.password") = false.
Proof. vm_compute. done. Qed.

(** The answer to an overwritten setting tells the time of the request as the
    time of its creation, the row the one of its first write. *)
Example overwritten_created :
  let answered := (run (setting_handle env) (Upsert (Some encryptor0) request) before).1 in
  match answered, read env (Some encryptor0) after "mail.password" with
  | Ok x, Ok y => dto.st_ID x = dto.st_ID y /\ dto.st_CreatedAt x <> dto.st_CreatedAt y
  | _, _ => False
  end.
Proof. vm_compute. done. Qed.

Lemma settings_roundtrip_witness :
  let out := run (setting_handle env) (Upsert (Some encryptor0) request) before in
  is_ok out.1 = true /\ settings_ok (sw_db out.2).
Proof.
  destruct (settings_roundtrip env (Some encryptor0) (fun _ => eq_refl) env_rand (conj key0_ok eq_refl) request before before_ok) as (H1 & _ & H3).
  split; [|exact H1]. apply H3; [split; [discriminate|reflexivity]|]. intros _. split; [discriminate|reflexivity].
Defined.

End Settings.
