(* ===== verification/BackupService.v ===== *)
(** * The backup service

    [internal/service/backup_service.go]: every method a program over the
    statements of the backup table, the operations of the file system and the
    clock.  The instance of [BackupImpl] and the world these programs run in
    are in [BackupSystem]. *)

From Stdlib Require Import ZArith Ascii.
From S2P Require Import Prelude GoString GoTime GoError Effects Schema Json JsonIndent Crypto FilePath OsFs Dto DtoJson.
From S2P Require Import BackupApi BackupRepo.

Open Scope prog_scope.

Record backupService := { retentionDays : Z; localDir : string }.

Definition NewBackupServiceWithOptions (RetentionDays : Z) (LocalDir : string) : backupService :=
  let dir := TrimSpace LocalDir in
  {| retentionDays := if RetentionDays <=? 0 then 30 else RetentionDays;
     localDir := if (dir =? "")%string then "var/backups" else dir |}.

Definition NewBackupService : backupService := NewBackupServiceWithOptions 0 "".

(** ** Operations *)

Inductive bk_op :=
| BRepo (o : brepo_op)
| BOs (o : os_op)
| BNow.

Definition bk_ans (o : bk_op) : Type :=
  match o with
  | BRepo o => brepo_ans o
  | BOs o => os_ans o
  | BNow => Z
  end.

#[local] Abbreviation prog A := (Effects.prog bk_ans A).

Definition brepo (o : brepo_op) : prog (brepo_ans o) := call (BRepo o).
Definition os (o : os_op) : prog (os_ans o) := call (BOs o).
Definition now : prog Z := call BNow.

(** [wrapBackupInternal] and [badBackupRequest]. *)
Definition wrapBackupInternal (err : goerr) : goerr := internal err.
Definition badBackupRequest (err : goerr) : goerr := bad_request err.
Definition bad (msg : string) : goerr := badBackupRequest (ErrNew msg).

(** ** Normalisation of the input *)

(** [%q]; a rune above U+00FF is taken as printable. *)
Definition hex2 (b : Z) : string :=
  String (hex_char (b / 16)) (String (hex_char (b mod 16)) "").

Definition quote_seg (x : Z * string) : string :=
  let r := x.1 in
  if negb (valid_seg x) then concat_str (map (fun a => "\x" +:+ hex2 (byte a))%string (String.list_ascii_of_string x.2))
  else if (r =? 34) || (r =? 92) then String "\" x.2
  else if ((32 <=? r) && (r <? 127)) || ((161 <=? r) && negb (r =? 173)) then x.2
  else if r =? 7 then "\a" else if r =? 8 then "\b" else if r =? 12 then "\f" else if r =? 10 then "\n"
  else if r =? 13 then "\r" else if r =? 9 then "\t" else if r =? 11 then "\v"
  else if (r <? 32) || (r =? 127) then ("\x" +:+ hex2 r)%string
  else ("\u00" +:+ hex2 r)%string.

Definition Quote (s : string) : string :=
  let q := String (chr 34) "" in (q +:+ concat_str (map quote_seg (segs s)) +:+ q)%string.

Definition normalizeBackupResourceType (raw : string) : res string :=
  let value := ToLower (TrimSpace raw) in
  if (value =? BackupResourcePostgres)%string || (value =? BackupResourceAppMetadata)%string
     || (value =? BackupResourceObservability)%string || (value =? BackupResourceCoreAgentTemplate)%string
  then Ok value
  else Err (ErrNew ("resource_type " +:+ Quote raw +:+ " is outside the P3 backup scope")).

Definition normalizeBackupStorageType (raw : string) : res string :=
  let value := ToLower (TrimSpace raw) in
  if (value =? "")%string then Ok BackupStorageLocal
  else if negb (value =? BackupStorageLocal)%string
  then Err (ErrNew "only local backup storage is supported in P3")
  else Ok value.

Definition normalizeBackupStatusFilter (raw : string) : res string :=
  let value := ToLower (TrimSpace raw) in
  if (value =? "")%string then Ok ""
  else if (value =? BackupStatusPending)%string || (value =? BackupStatusRunning)%string
          || (value =? BackupStatusSuccess)%string || (value =? BackupStatusFailed)%string
  then Ok value
  else Err (ErrNew ("unsupported backup status " +:+ Quote raw)).

Definition normalizeBackupText (raw field : string) (maxLength : Z) (required : bool) : res string :=
  let value := TrimSpace raw in
  if required && (value =? "")%string then Err (ErrNew (field +:+ " is required"))
  else if maxLength <? len value
  then Err (ErrNew (field +:+ " must be at most " +:+ fmt_d maxLength +:+ " bytes"))
  else if ContainsFunc IsControl value
  then Err (ErrNew (field +:+ " cannot contain control characters"))
  else Ok value.

Definition hex_rune (char : Z) : bool :=
  ((48 <=? char) && (char <=? 57)) || ((97 <=? char) && (char <=? 102)).

Definition normalizeBackupChecksum (raw : string) : res string :=
  let value := TrimPrefix (ToLower (TrimSpace raw)) "sha256:" in
  if negb (len value =? 64) then Err (ErrNew "checksum must be a sha256 hex digest")
  else if negb (forallb hex_rune (runes value)) then Err (ErrNew "checksum must be a sha256 hex digest")
  else Ok ("sha256:" +:+ value)%string.

(** ** The artifact *)

Definition backupArtifactScope (resourceType : string) : list string :=
  if (resourceType =? BackupResourcePostgres)%string then ["postgres.metadata"]
  else if (resourceType =? BackupResourceAppMetadata)%string then ["application.metadata"]
  else if (resourceType =? BackupResourceObservability)%string then ["observability.config"]
  else if (resourceType =? BackupResourceCoreAgentTemplate)%string then ["core_agent.config"]
  else ["unknown"].

Definition backupArtifactNote (resourceType : string) : string :=
  if (resourceType =? BackupResourcePostgres)%string
  then "This P3 artifact is a controlled manifest. Full pg_dump generation remains a follow-up."
  else "".

Record backupArtifactManifest := MkManifest {
  m_Version : Z;
  m_Kind : string;
  m_BackupID : Z;
  m_ResourceType : string;
  m_ResourceID : string;
  m_StorageType : string;
  m_CreatedAt : string;
  m_Scope : list string;
  m_Note : string
}.

(** [json.Marshal] of the struct, field by field. *)
Definition manifest_json (m : backupArtifactManifest) : json :=
  JObj ([("version", JInt (m_Version m)); ("kind", JStr (m_Kind m)); ("backup_id", JInt (m_BackupID m));
         ("resource_type", JStr (m_ResourceType m)); ("resource_id", JStr (m_ResourceID m));
         ("storage_type", JStr (m_StorageType m)); ("created_at", JStr (m_CreatedAt m));
         ("scope", JArr (map JStr (m_Scope m)))] ++
        (if (m_Note m =? "")%string then [] else [("note", JStr (m_Note m))])).

Definition manifestKind : string := "snowpanel.backup.artifact".

Definition new_manifest (backup : Backup) (now : Z) : backupArtifactManifest :=
  MkManifest 1 manifestKind (b_ID backup) (b_ResourceType backup) (b_ResourceID backup) (b_StorageType backup)
    (FormatRFC3339 now) (backupArtifactScope (b_ResourceType backup)) (backupArtifactNote (b_ResourceType backup)).

(** The bytes of the artifact. *)
Definition artifact_content (backup : Backup) (now : Z) : string :=
  (MarshalIndent (manifest_json (new_manifest backup now)) +:+ String (chr 10) "")%string.

Definition checksum_of (content : string) : string :=
  ("sha256:" +:+ hex_EncodeToString (sha256.Sum256 (bytes_of content)))%string.

(** The loop over the runes; [lastDash] as in the code. *)
Fixpoint sanitize_runes (lastDash : bool) (l : list Z) : string :=
  match l with
  | [] => ""
  | char :: l' =>
    if ((97 <=? char) && (char <=? 122)) || ((48 <=? char) && (char <=? 57))
    then String (chr char) (sanitize_runes false l')
    else if lastDash then sanitize_runes true l'
    else String "-" (sanitize_runes true l')
  end.

Definition sanitizeBackupFilenamePart (raw : string) : string :=
  let value := ToLower (TrimSpace raw) in
  let result := Trim1 "-" (sanitize_runes false (runes value)) in
  if (result =? "")%string then "backup"
  else
    let result := if 64 <? len result then Trim1 "-" (take_bytes 64 result) else result in
    if (result =? "")%string then "backup" else result.

(** [filepath.Abs]. *)
Definition Abs (path : string) : prog (res string) :=
  if IsAbs path then Ret (Ok (Clean path))
  else wd <-! os OGetwd ;; Ret (Ok (Join2 wd path)).

Definition artifact_name (backup : Backup) (now : Z) : string :=
  ("snowpanel-" +:+ sanitizeBackupFilenamePart (b_ResourceType backup) +:+ "-" +:+
   sanitizeBackupFilenamePart (b_ResourceID backup) +:+ "-" +:+ fmt_d (b_ID backup) +:+ "-" +:+
   fmt_d (Unix now) +:+ ".json")%string.

(** The file of the given name in the directory, unless the name leads out of it. *)
Definition path_inside (localAbs fileName message : string) : res string :=
  let path := Join2 localAbs fileName in
  match Rel localAbs path with
  | None => Err (ErrNew "Rel: can't make path relative")
  | Some rel => if rel_inside rel then Ok path else Err (ErrNew message)
  end.

Definition safeBackupArtifactPath (localDir : string) (backup : Backup) (now : Z) : prog (res string) :=
  let localDir := TrimSpace localDir in
  if (localDir =? "")%string then Ret (Err (ErrNew "backup local directory is required"))
  else
    localAbs <-! Abs localDir ;;
    Ret (path_inside localAbs (artifact_name backup now) "backup artifact path escapes local directory").

Definition backupPathWithinLocalDir (localDir path : string) : prog bool :=
  r <- Abs (TrimSpace localDir) ;;
  match r with
  | Err _ => Ret false
  | Ok localAbs =>
    r <- Abs (TrimSpace path) ;;
    match r with
    | Err _ => Ret false
    | Ok pathAbs =>
      r <- os (OEvalSymlinks localAbs) ;;
      let localAbs := match r with Ok localReal => localReal | Err _ => localAbs end in
      r <- os (OEvalSymlinks pathAbs) ;;
      match r with
      | Err _ => Ret false
      | Ok pathReal =>
        Ret (match Rel localAbs pathReal with Some rel => rel_inside rel | None => false end)
      end
    end
  end.

Definition checksumLocalBackupFile (path : string) : prog (res (Z * string)) :=
  content <-! os (OReadFile path) ;; Ret (Ok (len content, checksum_of content)).

(** ** Reading the manifest back

    [json.Unmarshal] into the struct, as for the payload of a task: names under
    case folding, [null] changes nothing, a value of another type is an error. *)

Definition set_manifest_int (name : string) (v : Z) (m : backupArtifactManifest) : backupArtifactManifest :=
  let 'MkManifest ve ki bi rt ri st ca sc no := m in
  if (name =? "version")%string then MkManifest v ki bi rt ri st ca sc no
  else MkManifest ve ki v rt ri st ca sc no.

Definition set_manifest_str (name v : string) (m : backupArtifactManifest) : backupArtifactManifest :=
  let 'MkManifest ve ki bi rt ri st ca sc no := m in
  if (name =? "kind")%string then MkManifest ve v bi rt ri st ca sc no
  else if (name =? "resource_type")%string then MkManifest ve ki bi v ri st ca sc no
  else if (name =? "resource_id")%string then MkManifest ve ki bi rt v st ca sc no
  else if (name =? "storage_type")%string then MkManifest ve ki bi rt ri v ca sc no
  else if (name =? "created_at")%string then MkManifest ve ki bi rt ri st v sc no
  else MkManifest ve ki bi rt ri st ca sc v.

Definition set_manifest_scope (v : list string) (m : backupArtifactManifest) : backupArtifactManifest :=
  let 'MkManifest ve ki bi rt ri st ca sc no := m in MkManifest ve ki bi rt ri st ca v no.

Definition manifest_ints : list string := ["version"; "backup_id"].
Definition manifest_fields : list string :=
  ["version"; "kind"; "backup_id"; "resource_type"; "resource_id"; "storage_type"; "created_at"; "scope"; "note"].

(** The elements of a [[]string]; [null] is the empty string. *)
Definition scope_elem (j : json) : option string :=
  match j with JStr v => Some v | JNull => Some "" | _ => None end.

Definition read_manifest_member (acc : backupArtifactManifest * bool) (kv : string * json)
  : backupArtifactManifest * bool :=
  let '(m, wrong) := acc in
  match List.find (fun name => EqualFold name kv.1) manifest_fields with
  | None => acc
  | Some name =>
    let is_int := existsb (String.eqb name) manifest_ints in
    let is_scope := (name =? "scope")%string in
    match kv.2 with
    | JNull => if is_scope then (set_manifest_scope [] m, wrong) else acc
    | JStr v => if is_int || is_scope then (m, true) else (set_manifest_str name v m, wrong)
    | JNum l =>
      if is_int then
        match ParseInt64 l with Some z => (set_manifest_int name z m, wrong) | None => (m, true) end
      else (m, true)
    | JArr l =>
      if is_scope then (set_manifest_scope (omap scope_elem l) m, wrong || existsb (fun j => negb (bool_decide (is_Some (scope_elem j)))) l)
      else (m, true)
    | JBool _ | JObj _ => (m, true)
    end
  end.

Definition empty_manifest : backupArtifactManifest := MkManifest 0 "" 0 "" "" "" "" [] "".

Definition unmarshal_manifest (raw : string) : option backupArtifactManifest :=
  match Parse raw with
  | Some JNull => Some empty_manifest
  | Some (JObj l) =>
    let '(m, wrong) := fold_left read_manifest_member l (empty_manifest, false) in
    if wrong then None else Some m
  | _ => None
  end.

(** The comparison of the manifest with the row. *)
Definition check_manifest (backup : Backup) (content : string) : res unit :=
  match unmarshal_manifest content with
  | None => Err (ErrNew "backup artifact manifest is invalid")
  | Some manifest =>
    if negb (m_Kind manifest =? manifestKind)%string
    then Err (ErrNew "backup artifact manifest kind mismatch")
    else if negb (m_BackupID manifest =? b_ID backup)
    then Err (ErrNew "backup artifact manifest backup_id mismatch")
    else if negb (m_ResourceType manifest =? b_ResourceType backup)%string
    then Err (ErrNew "backup artifact manifest resource_type mismatch")
    else if negb (m_ResourceID manifest =? b_ResourceID backup)%string
    then Err (ErrNew "backup artifact manifest resource_id mismatch")
    else if negb (m_StorageType manifest =? b_StorageType backup)%string
    then Err (ErrNew "backup artifact manifest storage_type mismatch")
    else Ok tt
  end.

Definition is_json_file (path : string) : bool := (ToLower (Ext path) =? ".json")%string.

Definition validateBackupArtifactManifest (backup : Backup) : prog (res unit) :=
  if negb (is_json_file (b_FilePath backup)) then Ret (Ok tt)
  else content <-! os (OReadFile (b_FilePath backup)) ;; Ret (check_manifest backup content).

(** ** The methods *)

Definition mapBackupSummary (backup : Backup) : dto.BackupSummary :=
  {| dto.bs_ID := b_ID backup; dto.bs_ResourceType := b_ResourceType backup;
     dto.bs_ResourceID := b_ResourceID backup; dto.bs_StorageType := b_StorageType backup;
     dto.bs_FilePath := b_FilePath backup; dto.bs_SizeBytes := b_SizeBytes backup;
     dto.bs_Checksum := b_Checksum backup; dto.bs_Status := b_Status backup;
     dto.bs_CreatedBy := b_CreatedBy backup; dto.bs_CreatedAt := FormatRFC3339 (b_CreatedAt backup);
     dto.bs_UpdatedAt := FormatRFC3339 (b_UpdatedAt backup) |}.

(** [if err != nil { return dto.BackupSummary{}, badBackupRequest(err) }]. *)
Definition or_bad {A B} (r : res A) (f : A -> prog (res B)) : prog (res B) :=
  match r with Ok x => f x | Err err => Ret (Err (badBackupRequest err)) end.

(** The same with [wrapBackupInternal]. *)
Definition or_internal {A B} (p : prog (res A)) (f : A -> prog (res B)) : prog (res B) :=
  bind_ok (or_else p wrapBackupInternal) f.

(** [GetByID] with a missing row as an error. *)
Definition find_backup {B} (id : Z) (f : Backup -> prog (res B)) : prog (res B) :=
  or_internal (brepo (BRGetByID id)) (fun backup =>
    match backup with None => Ret (Err ErrBackupNotFound) | Some backup => f backup end).

(** [_ = s.repo.UpdateStatus(ctx, id, BackupStatusFailed)], then the error. *)
Definition mark_failed {B} (id : Z) (err : goerr) : prog (res B) :=
  brepo (BRUpdateStatus id BackupStatusFailed) ;;; Ret (Err err).

(** A step that marks the backup as failed when it fails. *)
Definition or_mark_failed {A B} (id : Z) (p : prog (res A)) (f : A -> prog (res B)) : prog (res B) :=
  bind p (fun r => match r with Ok x => f x | Err err => mark_failed id (wrapBackupInternal err) end).

Section BackupService.
Context (s : backupService).

Definition CreateMetadata (req : dto.CreateBackupMetadataRequest) (createdBy : option Z)
  : prog (res dto.BackupSummary) :=
  or_bad (normalizeBackupResourceType (dto.bm_ResourceType req)) (fun resourceType =>
  or_bad (normalizeBackupText (dto.bm_ResourceID req) "resource_id" 128 true) (fun resourceID =>
  or_bad (normalizeBackupStorageType (dto.bm_StorageType req)) (fun storageType =>
  or_bad (normalizeBackupText (dto.bm_FilePath req) "file_path" 1024 false) (fun filePath =>
  or_internal (brepo (BRCreate (MkBackup 0 resourceType resourceID storageType filePath 0 ""
    BackupStatusPending createdBy zero_time zero_time))) (fun backup =>
  Ret (Ok (mapBackupSummary backup))))))).

(** The row in memory after a successful creation or verification. *)
Definition verified (backup : Backup) (sizeBytes : Z) (checksum filePath : string) (updatedAt : Z) : Backup :=
  assign_backup [bcol_Status BackupStatusSuccess; bcol_SizeBytes sizeBytes; bcol_Checksum checksum;
                 bcol_FilePath filePath; bcol_UpdatedAt updatedAt] backup.

(** From the directory on: the temporary file, its renaming, the row. *)
Definition write_artifact (id : Z) (backup : Backup) (time : Z) (path : string) : prog (res dto.BackupSummary) :=
  or_mark_failed id (os (OMkdirAll (Dir path))) (fun _ =>
  let content := artifact_content backup time in
  let tempPath := (path +:+ ".tmp")%string in
  or_mark_failed id (os (OWriteFile tempPath content)) (fun _ =>
  renamed <- os (ORename tempPath path) ;;
  match renamed with
  | Err err => os (ORemove tempPath) ;;; mark_failed id (wrapBackupInternal err)
  | Ok _ =>
    let checksum := checksum_of content in
    or_mark_failed id (brepo (BRUpdateVerification id BackupStatusSuccess (len content) checksum path)) (fun _ =>
    updatedAt <- now ;;
    Ret (Ok (mapBackupSummary (verified backup (len content) checksum path updatedAt))))
  end)).

Definition CreateArtifact (id : Z) : prog (res dto.BackupSummary) :=
  if id <=? 0 then Ret (Err (bad "backup id must be positive"))
  else find_backup id (fun backup =>
    if negb (b_StorageType backup =? BackupStorageLocal)%string
    then mark_failed id (bad "only local backup storage can create artifacts in P3")
    else
      or_internal (brepo (BRUpdateStatus id BackupStatusRunning)) (fun _ =>
      time <- now ;;
      or_mark_failed id (safeBackupArtifactPath (localDir s) backup time) (fun path =>
      write_artifact id backup time path))).

(** The comparison of size and checksum with the row. *)
Definition recorded_mismatch (backup : Backup) (sizeBytes : Z) (checksum : string) : option string :=
  if negb (b_Checksum backup =? "")%string && negb (b_Checksum backup =? checksum)%string
  then Some "backup checksum mismatch"
  else if (0 <? b_SizeBytes backup) && negb (b_SizeBytes backup =? sizeBytes)
  then Some "backup size mismatch"
  else None.

Definition Verify (id : Z) (req : dto.VerifyBackupRequest) : prog (res dto.BackupSummary) :=
  if id <=? 0 then Ret (Err (bad "backup id must be positive"))
  else if dto.vb_SizeBytes req <=? 0 then Ret (Err (bad "size_bytes must be positive"))
  else
    or_bad (normalizeBackupChecksum (dto.vb_Checksum req)) (fun checksum =>
    or_bad (normalizeBackupText (dto.vb_FilePath req) "file_path" 1024 false) (fun filePath =>
    find_backup id (fun backup =>
    match recorded_mismatch backup (dto.vb_SizeBytes req) checksum with
    | Some message => mark_failed id (bad message)
    | None =>
      or_internal (brepo (BRUpdateVerification id BackupStatusSuccess (dto.vb_SizeBytes req) checksum filePath))
        (fun _ =>
      updatedAt <- now ;;
      let path := if negb (filePath =? "")%string then filePath else b_FilePath backup in
      Ret (Ok (mapBackupSummary (verified backup (dto.vb_SizeBytes req) checksum path updatedAt))))
    end))).

Definition VerifyArtifact (id : Z) : prog (res dto.BackupSummary) :=
  if id <=? 0 then Ret (Err (bad "backup id must be positive"))
  else find_backup id (fun backup =>
    if negb (b_StorageType backup =? BackupStorageLocal)%string
    then mark_failed id (bad "only local backup storage can verify artifacts in P3")
    else if (TrimSpace (b_FilePath backup) =? "")%string
    then mark_failed id (bad "backup file_path is required for artifact verification")
    else
      inside <- backupPathWithinLocalDir (localDir s) (b_FilePath backup) ;;
      if negb (inside : bool) then mark_failed id (bad "backup artifact path must be inside BACKUP_LOCAL_DIR")
      else
        or_mark_failed id (checksumLocalBackupFile (b_FilePath backup)) (fun sized =>
        let '(sizeBytes, checksum) := sized : Z * string in
        match recorded_mismatch backup sizeBytes checksum with
        | Some message => mark_failed id (bad message)
        | None =>
          valid <- validateBackupArtifactManifest backup ;;
          match valid with
          | Err err => mark_failed id (badBackupRequest err)
          | Ok _ =>
            or_internal (brepo (BRUpdateVerification id BackupStatusSuccess sizeBytes checksum (b_FilePath backup)))
              (fun _ =>
            updatedAt <- now ;;
            Ret (Ok (mapBackupSummary (verified backup sizeBytes checksum (b_FilePath backup) updatedAt))))
          end
        end)).

Definition MarkStatus (id : Z) (status : string) : prog (res dto.BackupSummary) :=
  if id <=? 0 then Ret (Err (bad "backup id must be positive"))
  else match normalizeBackupStatusFilter status with
       | Err err => Ret (Err (badBackupRequest err))
       | Ok normalized =>
         if (normalized =? "")%string then Ret (Err (bad "backup status is required"))
         else find_backup id (fun backup =>
           or_internal (brepo (BRUpdateStatus id normalized)) (fun _ =>
           updatedAt <- now ;;
           Ret (Ok (mapBackupSummary
             (assign_backup [bcol_Status normalized; bcol_UpdatedAt updatedAt] backup)))))
       end.

Definition List (query : dto.ListBackupsQuery) : prog (res dto.ListBackupsResult) :=
  let page := if dto.lbq_Page query <=? 0 then 1 else dto.lbq_Page query in
  let size := if dto.lbq_Size query <=? 0 then 20 else dto.lbq_Size query in
  or_bad (normalizeBackupStatusFilter (dto.lbq_Status query)) (fun status =>
  or_bad (if negb (TrimSpace (dto.lbq_ResourceType query) =? "")%string
          then normalizeBackupResourceType (dto.lbq_ResourceType query) else Ok "") (fun resourceType =>
  or_internal (brepo (BRList {| bf_Page := page; bf_Size := size; bf_Status := status;
    bf_ResourceType := resourceType; bf_ResourceID := TrimSpace (dto.lbq_ResourceID query) |})) (fun listed =>
  Ret (Ok {| dto.lb_Page := page; dto.lb_Size := size; dto.lb_Total := listed.2;
             dto.lb_Items := map mapBackupSummary listed.1 |})))).

(** ** Retention *)

(** One line of the archive. *)
Definition archive_line (archivedAt cutoff : Z) (item : Backup) : string :=
  (Marshal (JObj [("archived_at", JStr (FormatRFC3339 archivedAt)); ("cutoff", JStr (FormatRFC3339 cutoff));
                  ("backup", BackupSummary_json (mapBackupSummary item))]) +:+ String (chr 10) "")%string.

(** The loop over the items. *)
Fixpoint write_lines (fd : place) (cutoff : Z) (items : list Backup) : prog (res unit) :=
  match items with
  | [] => Ret (Ok tt)
  | item :: rest =>
    archivedAt <- now ;;
    _ <-! os (OAppend fd (archive_line archivedAt cutoff item)) ;;
    write_lines fd cutoff rest
  end.

Definition archive_name (time : Z) : string :=
  ("snowpanel-backup-metadata-archive-" +:+ fmt_d time +:+ ".jsonl")%string.

Definition writeRetentionArchive (items : list Backup) (cutoff : Z) : prog (res string) :=
  match items with
  | [] => Ret (Ok "")
  | _ =>
    localAbs <-! Abs (TrimSpace (localDir s)) ;;
    _ <-! os (OMkdirAll localAbs) ;;
    time <- now ;;
    match path_inside localAbs (archive_name time) "backup retention archive path escapes local directory" with
    | Err err => Ret (Err err)
    | Ok path =>
      fd <-! os (OCreateExcl path) ;;
      _ <-! write_lines fd cutoff items ;;
      Ret (Ok path)
    end
  end.

Definition retention_days (req : dto.BackupRetentionCleanupRequest) : Z :=
  let days := dto.brq_RetentionDays req in
  let days := if days <=? 0 then retentionDays s else days in
  if days <=? 0 then 30 else days.

Definition CleanupRetention (req : dto.BackupRetentionCleanupRequest)
  : prog (res dto.BackupRetentionCleanupResult) :=
  let days := retention_days req in
  time <- now ;;
  let cutoff := AddDays (- days) time in
  or_internal (brepo (BRCountDeletableBefore cutoff)) (fun matchedRows =>
  let result deleted path :=
    {| dto.br_DryRun := dto.brq_DryRun req; dto.br_RetentionDays := days;
       dto.br_Cutoff := FormatRFC3339 cutoff; dto.br_MatchedRows := matchedRows;
       dto.br_DeletedRows := deleted; dto.br_ArchiveBeforeDelete := dto.brq_ArchiveBeforeDelete req;
       dto.br_ArchivePath := path |} in
  if dto.brq_DryRun req then Ret (Ok (result 0 ""))
  else
    or_internal
      (if dto.brq_ArchiveBeforeDelete req && (0 <? matchedRows) then
         items <-! brepo (BRListDeletableBefore cutoff) ;;
         writeRetentionArchive items cutoff
       else Ret (Ok "")) (fun archivePath =>
    or_internal (brepo (BRDeleteDeletableBefore cutoff)) (fun deletedRows =>
    Ret (Ok (result deletedRows archivePath))))).

(** The method behind each operation of the interface. *)
Definition backup_program (o : backup_op) : prog (backup_ans o) :=
  match o return prog (backup_ans o) with
  | BCreateMetadata req by_ => CreateMetadata req by_
  | BCreateArtifact id => CreateArtifact id
  | BVerify id req => Verify id req
  | BVerifyArtifact id => VerifyArtifact id
  | BMarkStatus id status => MarkStatus id status
  | BList query => List query
  | BCleanupRetention req => CleanupRetention req
  end.
End BackupService.
