(* ===== verification/BackupNames.v ===== *)
(** * Names, paths and checksums of backups

    The pure parts of the backup service: what its normalisations accept, that
    the parts of a file name are safe, that artifacts of different backups never
    share a name, that paths stay inside the local directory. *)

From Stdlib Require Import ZArith Lia Ascii DecimalString DecimalZ.
From S2P Require Import Prelude GoString AsciiText GoTime GoError Effects Schema Json JsonIndent Crypto FilePath OsFs.
From S2P Require Import BackupApi BackupRepo BackupService.

(** ** Checksums *)

Definition hex_text (v : string) : Prop := Forall (fun a => hex_rune (byte a) = true) (chars v).

Definition canonical_checksum (c : string) : Prop :=
  exists v, c = ("sha256:" +:+ v)%string /\ String.length v = 64%nat /\ hex_text v.

Lemma hex_rune_spec r : hex_rune r = true <-> 48 <= r <= 57 \/ 97 <= r <= 102.
Proof. unfold hex_rune. rewrite orb_true_iff, !andb_true_iff, !Z.leb_le. lia. Qed.

Lemma hex_text_stable v : hex_text v -> stable v.
Proof. intros H. eapply Forall_impl; [exact H|]. intros a. cbv beta. rewrite hex_rune_spec. unfold stable_char. lia. Qed.

Lemma hex_text_runes v : forallb hex_rune (runes v) = true <-> hex_text v.
Proof.
  rewrite forallb_Forall. apply (runes_small_iff (fun r => hex_rune r = true)). intros r. rewrite hex_rune_spec. lia.
Qed.

Lemma sha_prefix_stable : stable "sha256:".
Proof. repeat (apply Forall_cons_2; [unfold stable_char, byte; simpl; lia|]). constructor. Qed.

Lemma HasPrefix_of p t : HasPrefix (p +:+ t)%string p = true.
Proof.
  unfold HasPrefix. induction p as [|a p IH]; [by destruct t|]. rewrite app_cons_str. cbn [String.prefix].
  destruct (ascii_dec a a); [exact IH|congruence].
Qed.

Lemma canonical_fixed c : canonical_checksum c -> normalizeBackupChecksum c = Ok c.
Proof.
  intros (v & -> & Hlen & Hv). unfold normalizeBackupChecksum.
  assert (Hs : stable ("sha256:" +:+ v)%string) by (apply stable_app; [apply sha_prefix_stable|by apply hex_text_stable]).
  rewrite TrimSpace_stable, ToLower_stable by done. unfold TrimPrefix. rewrite HasPrefix_of, skip_bytes_app.
  cbv zeta. unfold len. rewrite Hlen. cbn [Z.eqb negb Z.of_nat]. rewrite (proj2 (hex_text_runes v)) by done. done.
Qed.

Lemma normalizeBackupChecksum_canonical raw c : normalizeBackupChecksum raw = Ok c -> canonical_checksum c.
Proof.
  unfold normalizeBackupChecksum. cbv zeta. set (v := TrimPrefix _ _).
  destruct (len v =? 64) eqn:El; [|done]. destruct (forallb hex_rune (runes v)) eqn:Eh; [|done].
  cbn [negb]. intros [= <-]. exists v. split; [done|]. unfold len in El. apply Z.eqb_eq in El.
  split; [lia|]. by apply hex_text_runes.
Qed.

Lemma hex_encode_text l : bytes l -> hex_text (hex_EncodeToString l) /\ String.length (hex_EncodeToString l) = (2 * length l)%nat.
Proof.
  assert (Hd : forall d, 0 <= d < 16 -> hex_rune (byte (hex_char d)) = true).
  { intros d Hd. unfold hex_char. rewrite byte_chr by (case_goal; lia). apply hex_rune_spec.
    destruct (Z.ltb_spec d 10); lia. }
  induction 1 as [|b l Hb Hl [IH1 IH2]]; [split; [constructor|done]|]. split.
  - constructor; [apply Hd; Z.to_euclidean_division_equations; lia|].
    constructor; [apply Hd; Z.to_euclidean_division_equations; lia|done].
  - cbn. rewrite IH2. lia.
Qed.

Lemma length_be_bytes n z : length (sha256.be_bytes n z) = n.
Proof. revert z. induction n as [|n IH]; intros z; [done|]. cbn [sha256.be_bytes]. rewrite length_app, IH. simpl. lia. Qed.

Lemma length_compress st block : length st = 8%nat -> length (sha256.compress st block) = 8%nat.
Proof.
  intros H. unfold sha256.compress. cbv zeta. rewrite length_zip_with.
  generalize (zip sha256.round_constants (reverse (sha256.schedule 48 (reverse (map sha256.of_bytes (sha256.chunks 16 4 block)))))).
  intros kw. assert (Hr : forall kw st, length st = 8%nat -> length (fold_left sha256.round kw st) = 8%nat).
  { clear. induction kw as [|x kw IH]; intros st H; [done|]. cbn [fold_left]. apply IH.
    do 9 (destruct st as [|? st]; try done). }
  rewrite Hr by done. lia.
Qed.

Lemma length_Sum256 msg : length (sha256.Sum256 msg) = 32%nat.
Proof.
  unfold sha256.Sum256. cbv zeta. generalize (sha256.chunks (length (sha256.pad msg)) 64 (sha256.pad msg)). intros l.
  assert (Hc : forall st, length st = 8%nat -> length (fold_left sha256.compress l st) = 8%nat).
  { induction l as [|x l IH]; intros st H; [done|]. cbn [fold_left]. apply IH. by apply length_compress. }
  specialize (Hc sha256.initial_state eq_refl). revert Hc. generalize (fold_left sha256.compress l sha256.initial_state).
  intros st Hst. do 9 (destruct st as [|? st]; try done).
Qed.

Lemma checksum_of_canonical content : canonical_checksum (checksum_of content).
Proof.
  exists (hex_EncodeToString (sha256.Sum256 (bytes_of content))).
  destruct (hex_encode_text _ (Sum256_range (bytes_of content))) as [H1 H2].
  split; [done|]. split; [|done]. by rewrite H2, length_Sum256.
Qed.

Lemma canonical_nonempty c : canonical_checksum c -> (c =? "")%string = false.
Proof. by intros (v & -> & _). Qed.

(** ** Parts of file names *)

Definition name_char (r : Z) : bool := ((97 <=? r) && (r <=? 122)) || ((48 <=? r) && (r <=? 57)) || (r =? 45).

Definition name_text (v : string) : Prop := Forall (fun a => name_char (byte a) = true) (chars v).

Lemma name_char_chr r : ((97 <=? r) && (r <=? 122)) || ((48 <=? r) && (r <=? 57)) = true -> name_char (byte (chr r)) = true.
Proof.
  intros H. rewrite byte_chr; unfold name_char; [by rewrite H|].
  rewrite orb_true_iff, !andb_true_iff, !Z.leb_le in H. lia.
Qed.

Lemma sanitize_runes_name b l : name_text (sanitize_runes b l).
Proof.
  revert b. induction l as [|r l IH]; intros b; [constructor|]. cbn [sanitize_runes].
  destruct (_ || _) eqn:E; [|destruct b; [apply IH|]].
  - constructor; [by apply name_char_chr|apply IH].
  - constructor; [done|apply IH].
Qed.

Definition is_dash (a : ascii) : bool := Ascii.eqb a "-".

Lemma chars_Trim1 v : chars (Trim1 "-" v) = drop_while_end is_dash (drop_while is_dash (chars v)).
Proof. unfold Trim1, chars. apply String.list_ascii_of_string_of_list_ascii. Qed.

Lemma Forall_trim {A} (P : A -> Prop) (p : A -> bool) l : Forall P l -> Forall P (drop_while_end p (drop_while p l)).
Proof.
  intros H. destruct (drop_while_suffix p l) as [k Hk]. destruct (drop_while_end_prefix p (drop_while p l)) as [q Hq].
  rewrite Hk in H. apply Forall_app in H as [_ H]. rewrite Hq in H. by apply Forall_app in H as [H _].
Qed.

Lemma length_trim {A} (p : A -> bool) l : (length (drop_while_end p (drop_while p l)) <= length l)%nat.
Proof.
  destruct (drop_while_suffix p l) as [k Hk]. destruct (drop_while_end_prefix p (drop_while p l)) as [q Hq].
  apply (f_equal length) in Hk, Hq. rewrite length_app in Hk, Hq. lia.
Qed.

(** Not empty, only [a-z0-9-], no dash at either end. *)
Definition part_ok (v : string) : Prop :=
  v <> "" /\ (String.length v <= 64)%nat /\ name_text v
  /\ (forall a l, chars v = a :: l -> is_dash a = false) /\ (forall a l, chars v = l ++ [a] -> is_dash a = false).

Lemma trimmed_ends v : (forall a l, chars (Trim1 "-" v) = a :: l -> is_dash a = false)
  /\ (forall a l, chars (Trim1 "-" v) = l ++ [a] -> is_dash a = false).
Proof.
  rewrite chars_Trim1. split; intros a l E.
  - apply (drop_while_head is_dash (drop_while_end is_dash (drop_while is_dash (chars v))) a l).
    by rewrite drop_while_end_head by apply drop_while_idem.
  - unfold drop_while_end in E. apply (f_equal reverse) in E. rewrite reverse_involutive, reverse_app in E.
    cbn in E. by apply drop_while_head in E.
Qed.

Lemma take_bytes_chars n v : chars (take_bytes n v) = take n (chars v).
Proof. unfold chars. revert v. induction n as [|n IH]; intros [|a v]; try done. cbn. by rewrite IH. Qed.

Lemma Trim1_name v : name_text v -> name_text (Trim1 "-" v).
Proof. unfold name_text. rewrite chars_Trim1. apply Forall_trim. Qed.

Lemma sanitize_part_ok raw : part_ok (sanitizeBackupFilenamePart raw).
Proof.
  unfold sanitizeBackupFilenamePart. cbv zeta. set (v := sanitize_runes false _).
  assert (Hb : part_ok "backup").
  { split; [done|]. split; [cbn; lia|]. split; [by repeat constructor|]. split.
    - intros a l [= <- _]. done.
    - intros a l E. change (chars "backup") with (chars "backu" ++ ["p"%char]) in E. apply app_inj_tail in E as [_ <-]. done. }
  assert (Hv : name_text v) by apply sanitize_runes_name.
  destruct (Trim1 "-" v =? "")%string eqn:E1; [done|]. apply String.eqb_neq in E1.
  destruct (Z.ltb_spec 64 (len (Trim1 "-" v))) as [Hl|Hl].
  - destruct (_ =? "")%string eqn:E2; [done|]. apply String.eqb_neq in E2.
    split; [done|]. split; [|split; [|apply trimmed_ends]].
    + rewrite <- length_chars, chars_Trim1. etrans; [apply length_trim|].
      rewrite take_bytes_chars, length_take. lia.
    + apply Trim1_name. unfold name_text. rewrite take_bytes_chars. apply Forall_take. by apply Trim1_name.
  - rewrite (proj2 (String.eqb_neq _ _) E1). split; [done|]. unfold len in Hl.
    split; [lia|]. split; [by apply Trim1_name|apply trimmed_ends].
Qed.

(** ** Numbers in names *)

Definition digit_text (v : string) : Prop := Forall (fun a => is_digit (byte a) = true) (chars v).

Lemma fmt_d_inj a b : fmt_d a = fmt_d b -> a = b.
Proof.
  unfold fmt_d. intros E.
  assert (H : forall z, NilZero.int_of_string (NilZero.string_of_int (Z.to_int z)) = Some (Z.to_int z)).
  { intros z. rewrite NilZero.isi; [done| |]; destruct z as [|p|p]; simpl; try done;
      pose proof (DecimalPos.Unsigned.to_uint_nonnil p); congruence. }
  pose proof (H a) as Ha. rewrite E, H in Ha. injection Ha as Ha.
  rewrite <- (DecimalZ.of_to a), <- (DecimalZ.of_to b). by f_equal.
Qed.

Lemma fmt_d_digits z : 0 <= z -> digit_text (fmt_d z).
Proof.
  intros Hz. assert (H : Forall (fun r => is_digit r = true) (lit (fmt_d z))).
  { destruct z as [|p|p]; [by repeat constructor| |lia].
    unfold fmt_d. cbn [Z.to_int NilZero.string_of_int]. rewrite NilZero_pos. apply lit_uint. }
  unfold lit in H. rewrite Forall_map in H. exact H.
Qed.

(** The text after the last dash. *)
Lemma last_field {A} (x : A) k l d e :
  k ++ x :: d = l ++ x :: e -> Forall (fun y => y <> x) d -> Forall (fun y => y <> x) e -> k = l /\ d = e.
Proof.
  intros E Hd He. apply app_eq_inv in E as [(m & -> & E)|(m & -> & E)].
  - destruct m as [|y m]; [by injection E as ->; rewrite app_nil_r|]. injection E as <- ->.
    apply Forall_app in He as [_ He]. inversion He. done.
  - destruct m as [|y m]; [by injection E as ->; rewrite app_nil_r|]. injection E as <- ->.
    apply Forall_app in Hd as [_ Hd]. inversion Hd. done.
Qed.

Lemma digits_no_dash v : digit_text v -> Forall (fun y => y <> "-"%char) (chars v).
Proof. intros H. eapply Forall_impl; [exact H|]. intros a Ha ->. done. Qed.

(** ** The name of an artifact *)

Lemma name_text_no_slash v : name_text v -> no_slash v = true.
Proof.
  unfold name_text, no_slash, chars. intros H. apply forallb_Forall. eapply Forall_impl; [exact H|].
  intros a Ha. cbv beta in *. destruct (Ascii.eqb_spec a slash) as [->|]; [by vm_compute in Ha|done].
Qed.

Lemma no_slash_app s t : no_slash (s +:+ t)%string = no_slash s && no_slash t.
Proof. unfold no_slash. fold (chars (s +:+ t)%string) (chars s) (chars t). by rewrite chars_app, forallb_app. Qed.

Lemma fmt_d_no_slash z : no_slash (fmt_d z) = true.
Proof.
  unfold no_slash. fold (chars (fmt_d z)).
  assert (H : forall v, digit_text v -> forallb (fun a => negb (Ascii.eqb a slash)) (chars v) = true).
  { intros v Hv. apply forallb_Forall. eapply Forall_impl; [exact Hv|]. intros a Ha. cbv beta in *.
    destruct (Ascii.eqb_spec a slash) as [->|]; [by vm_compute in Ha|done]. }
  destruct (Z_le_gt_dec 0 z); [by apply H, fmt_d_digits|].
  destruct z as [|p|p]; try lia. change (fmt_d (Z.neg p)) with ("-" +:+ fmt_d (Z.pos p))%string.
  rewrite chars_app, forallb_app. by rewrite (H (fmt_d (Z.pos p))) by (by apply fmt_d_digits).
Qed.

Lemma artifact_name_ok b now : file_name (artifact_name b now) = true.
Proof.
  unfold file_name. unfold artifact_name. rewrite !no_slash_app, !fmt_d_no_slash.
  destruct (sanitize_part_ok (b_ResourceType b)) as (_ & _ & H1 & _).
  destruct (sanitize_part_ok (b_ResourceID b)) as (_ & _ & H2 & _).
  rewrite (name_text_no_slash _ H1), (name_text_no_slash _ H2). done.
Qed.

Lemma archive_name_ok time : file_name (archive_name time) = true.
Proof. unfold file_name, archive_name. rewrite !no_slash_app, !fmt_d_no_slash. done. Qed.

Lemma temp_name_ok f : file_name f = true -> file_name (f +:+ ".tmp")%string = true.
Proof.
  intros H. apply file_name_spec in H as (_ & _ & _ & H). unfold file_name. rewrite no_slash_app, H.
  rewrite andb_true_r. apply negb_true_iff, orb_false_iff. split; [apply orb_false_iff; split|];
    apply String.eqb_neq; intros C; apply (f_equal String.length) in C; rewrite length_app_str in C; cbn in C; lia.
Qed.

Lemma path_inside_ok l f message : clean_abs l -> file_name f = true ->
  path_inside (abs_path l) f message = Ok (abs_path (l ++ [f])).
Proof.
  intros Hl Hf. unfold path_inside. rewrite Join2_abs by done. cbv zeta.
  assert (Hc : clean_abs (l ++ [f])) by (apply Forall_app_2; [done|by repeat constructor]).
  pose proof (proj2 (rel_inside_iff l (l ++ [f]) Hl Hc) (ex_intro _ [f] eq_refl)) as H.
  destruct (Rel _ _) as [rel|]; [|done]. by rewrite H.
Qed.

Lemma Dir_abs l f : clean_abs l -> file_name f = true -> Dir (abs_path (l ++ [f])) = abs_path l.
Proof.
  intros Hl Hf. assert (Hc : clean_abs (l ++ [f])) by (apply Forall_app_2; [done|by repeat constructor]).
  assert (Hlast : last_element (abs_path (l ++ [f])) = f).
  { unfold last_element. rewrite elements_abs_path, elements_Join by (done || by destruct l).
    rewrite app_comm_cons. by rewrite last_last. }
  unfold Dir. rewrite Hlast.
  assert (Hj : exists d, abs_path (l ++ [f]) = (d +:+ f)%string /\ Clean d = abs_path l).
  { destruct l as [|e l].
    - exists "/". split; done.
    - exists (abs_path (e :: l) +:+ "/")%string. split.
      + unfold abs_path. rewrite !app_assoc_str. f_equal. clear -Hf. revert e.
        induction l as [|e' l IH]; intros e; [done|].
        change (Join ((e :: e' :: l) ++ [f]) sep_string) with (e +:+ sep_string +:+ Join ((e' :: l) ++ [f]) sep_string)%string.
        rewrite IH. change (Join (e :: e' :: l) sep_string) with (e +:+ sep_string +:+ Join (e' :: l) sep_string)%string.
        by rewrite !app_assoc_str.
      + unfold Clean. assert (Ha : IsAbs (abs_path (e :: l) +:+ "/")%string = true).
        { unfold IsAbs, abs_path. rewrite app_assoc_str. apply HasPrefix_of. }
        rewrite Ha. f_equal. unfold clean_elements. rewrite Ha.
        change "/" with (String slash ""). rewrite elements_app, elements_abs_path, elements_Join by done.
        change (clean_from true [] ((e :: l) ++ [""]) = e :: l).
        rewrite (clean_from_names true (e :: l) Hl). cbn [clean_from]. change (("" =? "")%string) with true. cbn [orb].
        by rewrite app_nil_r, reverse_involutive. }
  destruct Hj as (d & -> & Hd). rewrite length_app_str.
  replace (String.length d + String.length f - String.length f)%nat with (String.length d) by lia.
  by rewrite take_bytes_app.
Qed.

Lemma chars_name b now : exists k, chars (artifact_name b now)
  = k ++ "-"%char :: chars (fmt_d (b_ID b)) ++ "-"%char :: chars (fmt_d (Unix now)) ++ chars ".json".
Proof.
  exists (chars ("snowpanel-" +:+ sanitizeBackupFilenamePart (b_ResourceType b) +:+ "-" +:+
                 sanitizeBackupFilenamePart (b_ResourceID b))%string).
  unfold artifact_name. rewrite !chars_app. rewrite <- !app_assoc. done.
Qed.

(** Artifacts of different backups, or of different seconds, have different
    names, and no artifact has the name of a temporary file. *)
Lemma artifact_name_inj b b' t t' : 0 < b_ID b -> 0 < b_ID b' -> 0 <= Unix t -> 0 <= Unix t' ->
  artifact_name b t = artifact_name b' t' -> b_ID b = b_ID b' /\ Unix t = Unix t'.
Proof.
  intros Hb Hb' Ht Ht' E. apply (f_equal chars) in E.
  destruct (chars_name b t) as (k & Ek), (chars_name b' t') as (k' & Ek').
  assert (R : forall (x : ascii) (k i u j : list ascii), k ++ x :: i ++ x :: u ++ j = ((k ++ x :: i) ++ x :: u) ++ j).
  { intros. rewrite <- !app_assoc. cbn [app]. done. }
  rewrite Ek, Ek', !R in E. apply app_inv_tail in E.
  apply last_field in E as [E E2]; [|by apply digits_no_dash, fmt_d_digits..].
  apply last_field in E as [_ E1]; [|apply digits_no_dash, fmt_d_digits; lia..].
  apply chars_inj, fmt_d_inj in E1, E2. done.
Qed.

Lemma artifact_name_temp b b' t t' : artifact_name b t <> (artifact_name b' t' +:+ ".tmp")%string.
Proof.
  intros E. apply (f_equal chars) in E. destruct (chars_name b t) as (k & Ek). rewrite Ek, chars_app in E.
  change (chars ".json") with (chars ".jso" ++ ["n"%char]) in E. change (chars ".tmp") with (chars ".tm" ++ ["p"%char]) in E.
  rewrite !app_comm_cons, !app_assoc in E. by apply app_inj_tail in E as [_ E].
Qed.

(** The path of an artifact has no white space around it. *)
Lemma TrimSpace_artifact l b t : TrimSpace (abs_path (l ++ [artifact_name b t])) = abs_path (l ++ [artifact_name b t]).
Proof.
  unfold artifact_name. rewrite <- !app_assoc_str. rewrite abs_path_suffix. unfold abs_path. rewrite app_assoc_str.
  match goal with |- context [(?x +:+ ".json")%string] => generalize x; intros u end.
  change (sep_string +:+ (u +:+ ".json"))%string with (String slash (u +:+ ".json")%string).
  apply (TrimSpace_ends slash _ (String slash u +:+ ".jso")%string "n"%char).
  - unfold stable_char, byte; simpl; lia.
  - unfold stable_char, byte; simpl; lia.
  - by rewrite app_assoc_str.
Qed.
