(* ===== verification/BackupSystem.v ===== *)
(** * The backup service at work

    The operations of [BackupService] executed: a world with the table and the
    file system, an environment that gives the time that passes and the faults
    of both by the number of operations done so far.  The service implements
    the interface [BackupImpl] the task service relies on, and in every
    interleaving of its methods the rows keep the form the service gives them. *)

From Stdlib Require Import ZArith Lia Ascii.
From S2P Require Import Prelude GoString AsciiText GoTime GoError Effects Table Schema Json Crypto FilePath OsFs Dto.
From S2P Require Import BackupApi BackupRepo BackupService BackupNames.

Record BackupEnv := {
  be_delay : nat -> Z;
  be_db : nat -> fault;
  be_os : nat -> fault;
  be_cut : nat -> nat
}.

Record BackupWorld := MkBackupWorld { bw_step : nat; bw_db : BackupDB; bw_os : os_state }.

Section System.
Context (env : BackupEnv) (start : Z).
Implicit Type w : BackupWorld.

Definition clock w : Z := start + be_delay env (bw_step w).

Definition exec_brepo (o : brepo_op) w : brepo_ans o * BackupDB :=
  let '(r, d) := brepo_exec (clock w) o (bw_db w) in
  match be_db env (bw_step w) with
  | NoFault => (r, d)
  | FailBefore e => (Err e, bw_db w)
  | FailAfter e => (Err e, d)
  end.

Definition bk_handle (o : bk_op) w : bk_ans o * BackupWorld :=
  let next d s := MkBackupWorld (S (bw_step w)) d s in
  match o return bk_ans o * BackupWorld with
  | BRepo o => let '(r, d) := exec_brepo o w in (r, next d (bw_os w))
  | BOs o => let '(r, s) := os_faulty (be_os env (bw_step w)) (be_cut env (bw_step w)) o (bw_os w) in
             (r, next (bw_db w) s)
  | BNow => (clock w, next (bw_db w) (bw_os w))
  end.

End System.

(** Membership in a concrete list. *)
Ltac in_list := by apply (bool_decide_unpack _).

(** ** The form of the rows *)

Definition resource_types : list string :=
  [BackupResourcePostgres; BackupResourceAppMetadata; BackupResourceObservability; BackupResourceCoreAgentTemplate].

(** A text the service accepts as an identifier. *)
Definition clean_text (maxLength : Z) (v : string) : Prop :=
  TrimSpace v = v /\ len v <= maxLength /\ Forall (fun r => IsControl r = false) (runes v).

Definition recorded_checksum (c : string) : Prop := c = "" \/ canonical_checksum c.

Record backup_wf (b : Backup) : Prop := {
  wf_type : b_ResourceType b ∈ resource_types;
  wf_id : clean_text 128 (b_ResourceID b) /\ b_ResourceID b <> "";
  wf_storage : b_StorageType b = BackupStorageLocal;
  wf_status : b_Status b ∈ backup_statuses;
  wf_size : 0 <= b_SizeBytes b;
  wf_checksum : recorded_checksum (b_Checksum b)
}.

Record backups_wf (db : BackupDB) : Prop := {
  bwf_db : bdb_ok db;
  bwf_rows : Forall backup_wf (bdb_rows db)
}.

(** The operations that keep it. *)
Definition wf_op (o : bk_op) : Prop :=
  match o with
  | BRepo (BRCreate b) => b_ID b = 0 /\ backup_wf b
  | BRepo (BRUpdateVerification _ status sizeBytes checksum _) =>
      status ∈ backup_statuses /\ 0 <= sizeBytes /\ canonical_checksum checksum
  | BRepo (BRUpdateStatus _ status) => status ∈ backup_statuses
  | _ => True
  end.

Lemma assign_wf cs b : backup_wf b ->
  Forall (fun c => match c with
    | bcol_Status v => v ∈ backup_statuses | bcol_SizeBytes v => 0 <= v
    | bcol_Checksum v => recorded_checksum v | _ => True end) cs -> backup_wf (assign_backup cs b).
Proof.
  unfold assign_backup. intros Hb H. revert b Hb. induction H as [|c cs Hc _ IH]; intros b Hb; [done|].
  cbn [fold_left]. apply IH. destruct Hb as [? ? ? ? ? ?], b, c; split; done.
Qed.

Lemma Updates_wf now id cs db : Forall backup_wf (bdb_rows db) ->
  Forall (fun c => match c with
    | bcol_Status v => v ∈ backup_statuses | bcol_SizeBytes v => 0 <= v
    | bcol_Checksum v => recorded_checksum v | _ => True end) cs ->
  Forall backup_wf (bdb_rows (backup_repository.Updates now id cs db).2).
Proof.
  intros Hr Hcs. unfold backup_repository.Updates. cbv zeta. destruct (existsb _ _); [done|]. cbn [snd bdb_rows with_rows].
  apply Forall_update; [done|]. intros b _ Hb. apply assign_wf; [done|]. apply Forall_app_2; [done|by repeat constructor].
Qed.

Lemma brepo_exec_wf now o db : wf_op (BRepo o) -> backups_wf db -> backups_wf (brepo_exec now o db).2.
Proof.
  intros Ho [Hok Hwf]. split.
  { apply brepo_exec_ok; [|done]. destruct o; try done. by destruct Ho. }
  destruct o as [b|i|f|i st n c p|i st|t|t|t]; cbn [brepo_exec snd]; try done.
  - destruct Ho as [_ Ho]. unfold backup_repository.Create. cbv zeta. destruct (_ || _); [done|].
    cbn [snd bdb_rows with_rows]. apply Forall_app_2; [done|]. constructor; [|constructor].
    apply assign_wf; [done|]. by repeat case_goal; repeat constructor.
  - destruct Ho as (H1 & H2 & H3). apply Updates_wf; [done|]. unfold backup_repository.verification_updates.
    apply Forall_app_2; [|by case_goal; repeat constructor]. apply Forall_cons_2; [done|]. apply Forall_cons_2; [done|]. apply Forall_cons_2; [by right|constructor].
  - apply Updates_wf; [done|]. by apply Forall_cons_2; [|constructor].
  - apply Forall_delete. done.
Qed.

Lemma bk_handle_wf env start o w : wf_op o -> backups_wf (bw_db w) -> backups_wf (bw_db (bk_handle env start o w).2).
Proof.
  intros Ho Hw. destruct o as [o|o|]; cbn [bk_handle]; [|by destruct (os_faulty _ _ _ _)|done].
  pose proof (brepo_exec_wf (clock env start w) o (bw_db w) Ho Hw) as H. unfold exec_brepo.
  destruct (brepo_exec _ o _) as [r d]. by destruct (be_db env (bw_step w)).
Qed.

(** ** Every method performs only such operations *)

Lemma normalizeBackupResourceType_ok raw v : normalizeBackupResourceType raw = Ok v -> v ∈ resource_types.
Proof.
  unfold normalizeBackupResourceType. cbv zeta. destruct (_ || _) eqn:E; [|done]. intros [= <-].
  rewrite !orb_true_iff, !String.eqb_eq in E. unfold resource_types. rewrite !elem_of_cons. tauto.
Qed.

Lemma normalizeBackupStorageType_ok raw v : normalizeBackupStorageType raw = Ok v -> v = BackupStorageLocal.
Proof.
  unfold normalizeBackupStorageType. cbv zeta. destruct (_ =? "")%string; [by intros [= <-]|].
  destruct (_ =? BackupStorageLocal)%string eqn:E; [|done]. cbn [negb]. intros [= <-]. by apply String.eqb_eq.
Qed.

Lemma normalizeBackupStatusFilter_ok raw v : normalizeBackupStatusFilter raw = Ok v -> v = "" \/ v ∈ backup_statuses.
Proof.
  unfold normalizeBackupStatusFilter. cbv zeta. destruct (_ =? "")%string; [intros [= <-]; by left|].
  destruct (_ || _) eqn:E; [|done]. intros [= <-]. right.
  rewrite !orb_true_iff, !String.eqb_eq in E. unfold backup_statuses. rewrite !elem_of_cons.
  unfold BackupStatusPending, BackupStatusRunning, BackupStatusSuccess, BackupStatusFailed in E. tauto.
Qed.

Lemma normalizeBackupText_ok raw field n required v : normalizeBackupText raw field n required = Ok v ->
  v = TrimSpace raw /\ clean_text n v /\ (required = true -> v <> "").
Proof.
  unfold normalizeBackupText. cbv zeta. destruct (required && _) eqn:Er; [done|].
  destruct (n <? _) eqn:El; [done|]. destruct (ContainsFunc _ _) eqn:Ec; [done|]. intros [= <-].
  split; [done|]. split.
  - unfold clean_text. rewrite TrimSpace_idem. breflect. split; [done|]. split; [lia|].
    apply Forall_forall. intros r Hr. destruct (IsControl r) eqn:E; [|done].
    assert (ContainsFunc IsControl (TrimSpace raw) = true); [|congruence].
    apply existsb_exists. exists r. by rewrite <- list_elem_of_In.
  - intros ->. cbn in Er. by apply String.eqb_neq.
Qed.

Create HintDb bops discriminated.

Lemma or_bad_ops {A B} (r : res A) (f : A -> prog bk_ans (res B)) :
  (forall x, r = Ok x -> all_ops wf_op (f x)) -> all_ops wf_op (or_bad r f).
Proof. destruct r; simpl; auto. Qed.

Lemma bind_ok_bops {A B} (p : prog bk_ans (res A)) (f : A -> prog bk_ans (res B)) :
  all_ops wf_op p -> (forall x, all_ops wf_op (f x)) -> all_ops wf_op (bind_ok p f).
Proof. intros Hp Hf. apply all_ops_bind; [done|]. by intros [x|e]. Qed.

Lemma or_internal_ops {A B} (p : prog bk_ans (res A)) (f : A -> prog bk_ans (res B)) :
  all_ops wf_op p -> (forall x, all_ops wf_op (f x)) -> all_ops wf_op (or_internal p f).
Proof. intros Hp Hf. apply bind_ok_bops; [|done]. by apply all_ops_bind. Qed.

Lemma brepo_ops o : wf_op (BRepo o) -> all_ops wf_op (brepo o).
Proof. simpl. auto. Qed.

Lemma os_ops o : all_ops wf_op (os o).
Proof. done. Qed.

Lemma now_ops : all_ops wf_op now.
Proof. done. Qed.

Lemma mark_failed_ops {B} id err : all_ops wf_op (mark_failed (B:=B) id err).
Proof. split; [|done]. cbn; in_list. Qed.

Lemma or_mark_failed_ops {A B} id (p : prog bk_ans (res A)) (f : A -> prog bk_ans (res B)) :
  all_ops wf_op p -> (forall x, all_ops wf_op (f x)) -> all_ops wf_op (or_mark_failed id p f).
Proof. intros Hp Hf. apply all_ops_bind; [done|]. intros [x|e]; [done|apply mark_failed_ops]. Qed.

Lemma find_backup_ops {B} id (f : Backup -> prog bk_ans (res B)) :
  (forall b, all_ops wf_op (f b)) -> all_ops wf_op (find_backup id f).
Proof. intros Hf. apply or_internal_ops; [by apply brepo_ops|]. by intros [b|]. Qed.

#[local] Hint Resolve brepo_ops os_ops now_ops mark_failed_ops : bops.

(** Walks through a program. *)
Ltac bops :=
  repeat (cbv beta zeta; first
    [ solve [auto with bops nocore]
    | apply or_internal_ops | apply or_mark_failed_ops | apply find_backup_ops | apply bind_ok_bops | apply all_ops_bind
    | progress intros
    | match goal with |- all_ops _ (match ?x with _ => _ end) => destruct x end
    | solve [repeat split; done] ]).

Lemma Abs_ops path : all_ops wf_op (Abs path).
Proof. unfold Abs. bops. Qed.
#[local] Hint Resolve Abs_ops : bops.

Lemma safeBackupArtifactPath_ops d b t : all_ops wf_op (safeBackupArtifactPath d b t).
Proof. unfold safeBackupArtifactPath. bops. Qed.

Lemma backupPathWithinLocalDir_ops d p : all_ops wf_op (backupPathWithinLocalDir d p).
Proof. unfold backupPathWithinLocalDir. bops. Qed.
#[local] Hint Resolve safeBackupArtifactPath_ops backupPathWithinLocalDir_ops : bops.

Lemma success_status : BackupStatusSuccess ∈ backup_statuses.
Proof. in_list. Qed.

Lemma running_status : BackupStatusRunning ∈ backup_statuses.
Proof. in_list. Qed.

Lemma verification_op id size c p : 0 <= size -> canonical_checksum c ->
  all_ops wf_op (brepo (BRUpdateVerification id BackupStatusSuccess size c p)).
Proof. intros Hn Hc. apply brepo_ops. split; [apply success_status|done]. Qed.

Lemma backup_len_nonneg v : 0 <= len v.
Proof. unfold len. lia. Qed.

#[local] Hint Extern 1 (all_ops _ (brepo (BRUpdateVerification _ _ _ _ _))) =>
  apply verification_op; [apply backup_len_nonneg | apply checksum_of_canonical] : bops.

Lemma write_lines_ops fd cutoff items : all_ops wf_op (write_lines fd cutoff items).
Proof. induction items as [|b l IH]; cbn [write_lines]; bops. Qed.
#[local] Hint Resolve write_lines_ops : bops.

Section Methods.
Context (s : backupService).

Lemma writeRetentionArchive_ops items cutoff : all_ops wf_op (writeRetentionArchive s items cutoff).
Proof. unfold writeRetentionArchive. bops. Qed.
#[local] Hint Resolve writeRetentionArchive_ops : bops.

Lemma CreateMetadata_ops req by_ : all_ops wf_op (CreateMetadata req by_).
Proof.
  unfold CreateMetadata. apply or_bad_ops. intros rt Hrt. apply or_bad_ops. intros rid Hrid.
  apply or_bad_ops. intros st Hst. apply or_bad_ops. intros fp _.
  apply or_internal_ops; [|done]. apply brepo_ops. split; [done|].
  apply normalizeBackupText_ok in Hrid as (_ & H1 & H2). split; cbn; auto.
  - by eapply normalizeBackupResourceType_ok.
  - by eapply normalizeBackupStorageType_ok.
  - in_list.
  - lia.
  - by left.
Qed.

Lemma write_artifact_ops id b t path : all_ops wf_op (write_artifact id b t path).
Proof. unfold write_artifact. bops. Qed.
#[local] Hint Resolve write_artifact_ops : bops.

Lemma CreateArtifact_ops id : all_ops wf_op (CreateArtifact s id).
Proof. unfold CreateArtifact. bops. apply brepo_ops, running_status. Qed.

Lemma Verify_ops id req : all_ops wf_op (Verify id req).
Proof.
  unfold Verify. destruct (id <=? 0); [done|]. destruct (Z.leb_spec (dto.vb_SizeBytes req) 0); [done|].
  apply or_bad_ops. intros c Hc. apply normalizeBackupChecksum_canonical in Hc.
  apply or_bad_ops. intros fp _. apply find_backup_ops. intros b. bops. apply verification_op; [lia|done].
Qed.

Lemma checksumLocalBackupFile_ops {B} path id (f : Z * string -> prog bk_ans (res B)) :
  (forall content, all_ops wf_op (f (len content, checksum_of content))) ->
  all_ops wf_op (or_mark_failed id (checksumLocalBackupFile path) f).
Proof.
  intros Hf. unfold or_mark_failed, checksumLocalBackupFile. simpl. split; [done|]. intros [c|e]; simpl; [apply Hf|].
  apply (mark_failed_ops (B:=B) id (wrapBackupInternal e)).
Qed.

Lemma VerifyArtifact_ops id : all_ops wf_op (VerifyArtifact s id).
Proof.
  unfold VerifyArtifact. destruct (id <=? 0); [done|]. apply find_backup_ops. intros b. repeat case_goal; auto with bops.
  apply all_ops_bind; [auto with bops|]. intros inside. destruct (negb inside); [auto with bops|].
  apply checksumLocalBackupFile_ops. intros content. cbv beta iota. bops.
  unfold validateBackupArtifactManifest. bops.
Qed.

Lemma MarkStatus_ops id status : all_ops wf_op (MarkStatus id status).
Proof.
  unfold MarkStatus. destruct (id <=? 0); [done|]. destruct (normalizeBackupStatusFilter status) as [v|e] eqn:E; [|done].
  destruct (v =? "")%string eqn:Ev; [done|]. apply normalizeBackupStatusFilter_ok in E as [->|E]; [done|].
  apply find_backup_ops. intros b. apply or_internal_ops; [by apply brepo_ops|]. bops.
Qed.

Lemma List_ops query : all_ops wf_op (List query).
Proof. unfold List. apply or_bad_ops. intros ? _. apply or_bad_ops. intros ? _. bops. Qed.

Lemma CleanupRetention_ops req : all_ops wf_op (CleanupRetention s req).
Proof. unfold CleanupRetention. bops. Qed.

Lemma backup_program_ops o : all_ops wf_op (backup_program s o).
Proof.
  destruct o; cbn [backup_program]; [apply CreateMetadata_ops | apply CreateArtifact_ops | apply Verify_ops
    | apply VerifyArtifact_ops | apply MarkStatus_ops | apply List_ops | apply CleanupRetention_ops].
Qed.

End Methods.

(** ** Interleavings *)

(** A request served by a goroutine. *)
Definition serve_backup (s : backupService) (o : backup_op) : prog bk_ans unit := backup_program s o ;;; Ret tt.

(** The backup service starts no goroutine. *)
Definition no_spawn (w : BackupWorld) : option (prog bk_ans unit * BackupWorld) := None.

(** C38 In every interleaving of the methods of the backup service, whatever
    fails, every row keeps the form the service promises: a resource type of the
    scope, a trimmed identifier of at most 128 bytes without control characters,
    local storage, a legal status, a size that is not negative, no checksum or a
    canonical one; ids stay positive and unique and every constraint of the
    table holds. *)
Theorem backups_stay_wf env start s requests w c :
  backups_wf (bw_db w) ->
  psteps (bk_handle env start) no_spawn (serve_backup s <$> requests, w) c ->
  backups_wf (bw_db c.2).
Proof.
  intros Hw Hs.
  apply (psteps_inv_ops (bk_handle env start) no_spawn (fun w => backups_wf (bw_db w)) wf_op
    (bk_handle_wf env start)) with (c1 := (serve_backup s <$> requests, w)); [done|done| |done].
  cbn [fst]. apply Forall_fmap, Forall_true. intros o. cbn. apply all_ops_bind; [apply backup_program_ops|done].
Qed.

(** ** The service as an implementation of its interface *)

Lemma new_backup_id env start req by_ w b : backups_wf (bw_db w) ->
  (run (bk_handle env start) (CreateMetadata req by_) w).1 = Ok b -> 0 < dto.bs_ID b.
Proof.
  intros [[_ _ [Hn _]] _]. unfold CreateMetadata, or_bad. repeat case_goal; try done.
  unfold or_internal, bind_ok, or_else, brepo, call. cbn [bind run].
  cbn [bk_handle]. unfold exec_brepo. cbn [brepo_exec]. unfold backup_repository.Create. cbv zeta.
  cbn [b_ID]. change (0 =? 0) with true. cbn iota.
  set (row := assign_backup _ _). assert (Hid : b_ID row = bdb_next (bw_db w)) by (subst row; by repeat case_goal).
  clearbody row. destruct (_ || _); destruct (be_db env (bw_step w)); cbn; try done.
  intros [= <-]. cbn. lia.
Qed.

#[export] Instance backup_impl (env : BackupEnv) (s : backupService) : BackupImpl BackupWorld.
Proof.
  refine {| backup_exec now o w := run (bk_handle env now) (backup_program s o) w;
            backup_inv w := backups_wf (bw_db w) |}.
  - intros now o w Hw. pose proof (backup_program_ops s o) as Ho.
    by apply (run_inv_ops (bk_handle env now) (fun w => backups_wf (bw_db w)) wf_op (bk_handle_wf env now)).
  - intros now req by_ w b Hw. apply new_backup_id. exact Hw.
Defined.
