(* ===== verification/BackupArtifact.v ===== *)
(** * Artifacts

    What [CreateArtifact] does to the table and the file system, whatever fails
    on the way: no other row and no other file is touched, no artifact is ever
    torn, and a row says success only of a file that is there. *)

From Stdlib Require Import ZArith Lia Ascii.
From stdpp Require Import gmap fin_maps.
From S2P Require Import Prelude GoString AsciiText GoTime GoError Effects Table Schema Json Crypto FilePath OsFs Dto.
From S2P Require Import BackupApi BackupRepo BackupService BackupNames BackupSystem.

(** ** The local directory *)

(** The elements of the absolute path, relative paths in the current directory. *)
Definition abs_elements (cwd : list string) (path : string) : list string :=
  clean_elements (if IsAbs path then path else abs_path cwd +:+ sep_string +:+ path)%string.

Lemma abs_elements_clean cwd path : clean_abs (abs_elements cwd path).
Proof.
  apply clean_elements_clean. destruct (IsAbs path) eqn:E; [done|].
  unfold IsAbs, abs_path. rewrite !app_assoc_str. apply HasPrefix_of.
Qed.

Definition local_dir (s : backupService) (cwd : list string) : list string :=
  abs_elements cwd (TrimSpace (localDir s)).

Lemma Abs_result cwd path : path <> "" ->
  (if IsAbs path then Clean path else Join2 (abs_path cwd) path) = abs_path (abs_elements cwd path).
Proof.
  intros Hp. unfold abs_elements. destruct (IsAbs path) eqn:E.
  - unfold Clean. by rewrite E.
  - unfold Join2. replace (abs_path cwd =? "")%string with false by done. unfold Clean.
    replace (IsAbs (abs_path cwd +:+ sep_string +:+ path)%string) with true; [done|].
    unfold IsAbs, abs_path. rewrite !app_assoc_str. symmetry. apply HasPrefix_of.
Qed.

(** ** Changes of the file system *)

Definition temp_name (b : Backup) (t : Z) : string := (artifact_name b t +:+ ".tmp")%string.

Definition artifact_like (b : Backup) (f : string) : Prop := exists t, f = artifact_name b t \/ f = temp_name b t.

(** What bears such a name is a file. *)
Definition names_free (b : Backup) (fs : filesystem) : Prop :=
  forall q f n, artifact_like b f -> fs !! (q ++ [f]) = Some n -> exists c, n = NFile c.

(** From [fs] to [fs'] only directories are added, temporary files come and go,
    and a file of the artifact's name is as before or has the content [c]. *)
Definition artifact_change (b : Backup) (t : Z) (c : string) (fs fs' : filesystem) : Prop :=
  fs' !! [] = fs !! [] /\ forall q f,
  (f = temp_name b t /\ (fs' !! (q ++ [f]) = None \/ exists c', fs' !! (q ++ [f]) = Some (NFile c'))) \/
  (f = artifact_name b t /\ fs' !! (q ++ [f]) = Some (NFile c)) \/
  fs' !! (q ++ [f]) = fs !! (q ++ [f]) \/
  (~ artifact_like b f /\ fs !! (q ++ [f]) = None /\ fs' !! (q ++ [f]) = Some NDir).

Lemma snoc_cases (k : list string) : k = [] \/ exists q f, k = q ++ [f].
Proof. destruct k as [|f q] using rev_ind; [by left|right; eauto]. Qed.

Lemma snoc_ne (q : list string) f : q ++ [f] <> [].
Proof. by destruct q. Qed.

Section Artifact.
Context (b : Backup) (t : Z) (c : string) (fs0 : filesystem) (L cwd : list string).
Hypothesis Hfree : names_free b fs0.
Hypothesis HL : clean_abs L.
Hypothesis HLnames : Forall (fun e => ~ artifact_like b e) L.

Let name := artifact_name b t.
Let tmp := temp_name b t.
Let J := artifact_change b t c fs0.

Lemma like_name : artifact_like b name.
Proof. exists t. by left. Qed.

Lemma like_tmp : artifact_like b tmp.
Proof. exists t. by right. Qed.

Lemma name_ne_tmp : name <> tmp.
Proof. apply artifact_name_temp. Qed.

Lemma name_ok : file_name name = true.
Proof. apply artifact_name_ok. Qed.

Lemma tmp_ok : file_name tmp = true.
Proof. apply temp_name_ok, artifact_name_ok. Qed.

Lemma change_refl : J fs0.
Proof. split; [done|]. intros q f. auto. Qed.

(** The names stay free of links and directories. *)
Lemma change_free fs q f n : J fs -> f = name \/ f = tmp -> fs !! (q ++ [f]) = Some n -> exists c', n = NFile c'.
Proof.
  intros [_ HJ] Hf Hn. destruct (HJ q f) as [[-> H]|[[-> H]|[H|(H & _)]]].
  - destruct H as [H|[c' H]]; rewrite H in Hn; [done|]. injection Hn as <-. eauto.
  - rewrite H in Hn. injection Hn as <-. eauto.
  - rewrite H in Hn. eapply Hfree; [|done]. destruct Hf as [-> | ->]; [apply like_name|apply like_tmp].
  - exfalso. apply H. destruct Hf as [-> | ->]; [apply like_name|apply like_tmp].
Qed.

Lemma change_no_link fs f : J fs -> f = name \/ f = tmp ->
  forall q, match fs !! (q ++ [f]) with Some (NLink _) => False | _ => True end.
Proof.
  intros HJ Hf q. destruct (fs !! (q ++ [f])) as [n|] eqn:E; [|done].
  destruct (change_free fs q f n HJ Hf E) as [c' ->]. done.
Qed.

Lemma change_no_dir fs q f : J fs -> f = name \/ f = tmp ->
  match fs !! (q ++ [f]) with Some n => ~ not_file n | None => True end.
Proof.
  intros HJ Hf. destruct (fs !! (q ++ [f])) as [n|] eqn:E; [|done].
  destruct (change_free fs q f n HJ Hf E) as [c' ->]. by intros [].
Qed.

(** Making the directory. *)
Lemma change_mkdir fs : J fs -> J (MkdirAll (abs_path L) cwd fs).2.
Proof.
  intros HJ. unfold MkdirAll. replace (abs_path L =? "")%string with false by done.
  rewrite IsAbs_abs_path, elements_abs_path. set (l := "" :: _). set (fs' := (mkdirs [] l fs).2).
  assert (Hsub : fs ⊆ fs') by apply mkdirs_keeps.
  assert (Hnew : forall k n, fs' !! k = Some n -> fs !! k = Some n \/
    (fs !! k = None /\ n = NDir /\ exists q e, k = q ++ [e] /\ ~ artifact_like b e)).
  { intros k n H. apply mkdirs_new in H as [H|(H1 & H2 & q & e & -> & He)]; [auto|right].
    split; [done|]. split; [done|]. exists q, e. split; [done|].
    subst l. apply elem_of_cons in He as [->|He].
    - intros (t' & [C|C]); apply (f_equal (fun v => (String.length v =? 0)%nat)) in C; done.
    - destruct L as [|x L'].
      + cbn in He. apply list_elem_of_singleton in He as ->.
        intros (t' & [C|C]); apply (f_equal (fun v => (String.length v =? 0)%nat)) in C; done.
      + rewrite elements_Join in He by done. rewrite Forall_forall in HLnames. by apply HLnames. }
  destruct HJ as [H0 HJ]. split.
  - destruct (fs' !! []) as [n|] eqn:E.
    + apply Hnew in E as [E|(_ & _ & q & e & E & _)]; [congruence|]. by destruct q.
    + destruct (fs !! []) as [n|] eqn:E'; [|congruence]. by rewrite (lookup_weaken _ _ _ _ E' Hsub) in E.
  - intros q f. destruct (fs' !! (q ++ [f])) as [n|] eqn:E.
    + apply Hnew in E as [E|(E1 & -> & q' & e & Eq & He)].
      * specialize (HJ q f). by rewrite E in HJ.
      * apply app_inj_tail in Eq as [<- <-]. right. right.
        destruct (HJ q f) as [[-> _]|[[-> _]|[H|(_ & _ & H)]]]; [by destruct He; apply like_tmp|by destruct He; apply like_name| |congruence].
        right. split; [done|]. split; [congruence|done].
    + assert (E' : fs !! (q ++ [f]) = None).
      { destruct (fs !! (q ++ [f])) eqn:E'; [|done]. by rewrite (lookup_weaken _ _ _ _ E' Hsub) in E. }
      specialize (HJ q f). by rewrite E' in HJ.
Qed.

Definition path : string := abs_path (L ++ [name]).
Definition tempPath : string := (path +:+ ".tmp")%string.

Lemma clean_name f : file_name f = true -> clean_abs (L ++ [f]).
Proof. intros H. apply Forall_app_2; [done|by repeat constructor]. Qed.

Lemma tempPath_abs : tempPath = abs_path (L ++ [tmp]).
Proof. symmetry. apply abs_path_suffix. Qed.

Lemma lookup_tmp fs follow : lookup_path fs cwd follow tempPath = walk kernel_links fs follow [] (L ++ [tmp]).
Proof. rewrite tempPath_abs. apply lookup_abs, clean_name, tmp_ok. Qed.

Lemma lookup_name fs follow : lookup_path fs cwd follow path = walk kernel_links fs follow [] (L ++ [name]).
Proof. apply lookup_abs, clean_name, name_ok. Qed.

(** Putting or removing something under the temporary name. *)
Lemma change_tmp fs q o : J fs -> match o with Some n => ~ not_file n | None => True end ->
  J (partial_alter (fun _ => o) (q ++ [tmp]) fs).
Proof.
  intros [H0 HJ] Ho. split.
  - rewrite lookup_partial_alter_ne; [done|]. apply snoc_ne.
  - intros q' f. destruct (decide (q ++ [tmp] = q' ++ [f])) as [E|E].
    + apply app_inj_tail in E as [-> <-]. left. split; [done|]. rewrite lookup_partial_alter_eq.
      destruct o as [[c'| |]|]; eauto; exfalso; by apply Ho.
    + rewrite lookup_partial_alter_ne by done. apply HJ.
Qed.

Lemma change_write fs x : J fs -> J (WriteFile tempPath x cwd fs).2.
Proof.
  intros HJ. unfold WriteFile. rewrite lookup_tmp.
  pose proof (walk_snoc_inv fs tmp tmp_ok (change_no_link fs tmp HJ (or_intror eq_refl)) kernel_links [] L true) as Hw.
  destruct (walk _ _ _ _ _) as [p|p|e]; [| |done]; destruct Hw as (q & -> & _).
  - rewrite node_at_snoc. destruct (fs !! _) as [[c'| |]|]; try done. by apply (change_tmp fs q (Some (NFile x))); [|intros []].
  - by apply (change_tmp fs q (Some (NFile x))); [|intros []].
Qed.

Lemma change_remove fs : J fs -> J (Remove tempPath cwd fs).2.
Proof.
  intros HJ. unfold Remove. rewrite lookup_tmp.
  pose proof (walk_snoc_inv fs tmp tmp_ok (change_no_link fs tmp HJ (or_intror eq_refl)) kernel_links [] L false) as Hw.
  destruct (walk _ _ _ _ _) as [p|p|e]; try done. destruct Hw as (q & -> & _).
  destruct (fs !! _) as [[c'| |]|]; try done; [|destruct (existsb _ _)|]; try done; by apply (change_tmp fs q None).
Qed.

(** A complete write puts the file into the directory. *)
Definition staged (fs : filesystem) : Prop :=
  exists q, walk kernel_links fs true [] L = WFound q /\ is_dir fs q = true /\ fs !! (q ++ [tmp]) = Some (NFile c).

Lemma write_staged fs : J fs -> (WriteFile tempPath c cwd fs).1 = Ok tt -> staged (WriteFile tempPath c cwd fs).2.
Proof.
  intros HJ. unfold WriteFile. rewrite lookup_tmp.
  pose proof (walk_snoc_inv fs tmp tmp_ok (change_no_link fs tmp HJ (or_intror eq_refl)) kernel_links [] L true) as Hw.
  assert (Hput : forall q, walk kernel_links fs true [] L = WFound q -> is_dir fs q = true ->
    staged (<[q ++ [tmp] := NFile c]> fs)).
  { intros q H1 H2. pose proof (insert_file_keeps fs (q ++ [tmp]) c (change_no_dir fs q tmp HJ (or_intror eq_refl))) as Hk.
    exists q. split; [by eapply walk_keeps|]. split; [by eapply is_dir_keeps|]. apply lookup_insert_eq. }
  destruct (walk _ _ _ _ _) as [p|p|e]; [| |done]; destruct Hw as (q & -> & H1 & H2).
  - rewrite node_at_snoc. destruct (fs !! _) as [[c'| |]|]; try done. intros _. by apply Hput.
  - intros _. by apply Hput.
Qed.

(** The renaming of a complete file. *)
Definition published (fs : filesystem) : Prop :=
  exists q, walk kernel_links fs true [] L = WFound q /\ is_dir fs q = true /\ fs !! (q ++ [name]) = Some (NFile c).

Lemma rename_staged fs : J fs -> staged fs ->
  exists q, Rename tempPath path cwd fs = (Ok tt, <[q ++ [name] := NFile c]> (delete (q ++ [tmp]) fs))
  /\ J (Rename tempPath path cwd fs).2 /\ published (Rename tempPath path cwd fs).2.
Proof.
  intros HJ (q & H1 & H2 & H3). exists q.
  assert (E : Rename tempPath path cwd fs = (Ok tt, <[q ++ [name] := NFile c]> (delete (q ++ [tmp]) fs))).
  { unfold Rename. rewrite lookup_tmp, lookup_name.
    rewrite (walk_snoc fs tmp tmp_ok kernel_links [] L q H1 H2) by (by rewrite H3).
    pose proof (change_no_link fs name HJ (or_introl eq_refl) q) as Hl.
    pose proof (change_no_dir fs q name HJ (or_introl eq_refl)) as Hd.
    rewrite (walk_snoc fs name name_ok kernel_links [] L q H1 H2 Hl). unfold last_step. rewrite H3.
    destruct (fs !! (q ++ [name])) as [[c'| |]|] eqn:E; rewrite !node_at_snoc, ?H3, ?E; try done; by destruct Hd. }
  split; [done|]. rewrite E. cbn [snd].
  set (fs1 := delete (q ++ [tmp]) fs).
  assert (HJ1 : J fs1) by (by apply (change_tmp fs q None)).
  assert (Hk1 : keeps_dirs fs fs1) by (apply delete_file_keeps; rewrite H3; by intros []).
  assert (Hk2 : keeps_dirs fs1 (<[q ++ [name] := NFile c]> fs1)).
  { apply insert_file_keeps, (change_no_dir fs1 q name HJ1 (or_introl eq_refl)). }
  split.
  - destruct HJ1 as [H0 HJ1]. split; [rewrite lookup_insert_ne; [done|apply snoc_ne]|].
    intros q' f. destruct (decide (q ++ [name] = q' ++ [f])) as [Eq|Eq].
    + apply app_inj_tail in Eq as [-> <-]. right. left. split; [done|]. apply lookup_insert_eq.
    + rewrite lookup_insert_ne by done. apply HJ1.
  - exists q. split; [|split].
    + eapply walk_keeps; [exact Hk2| |by eapply is_dir_keeps]. by eapply walk_keeps.
    + eapply is_dir_keeps; [exact Hk2|]. by eapply is_dir_keeps.
    + apply lookup_insert_eq.
Qed.

Lemma published_reads fs : published fs -> ReadFile path cwd fs = Ok c.
Proof.
  intros (q & H1 & H2 & H3). unfold ReadFile. rewrite lookup_name.
  rewrite (walk_snoc fs name name_ok kernel_links [] L q H1 H2) by (by rewrite H3).
  unfold last_step. by rewrite H3, node_at_snoc, H3.
Qed.

End Artifact.

(** ** Rules for the operations *)
Section Rules.
Context (env : BackupEnv) (start : Z).

#[local] Abbreviation wp := (wp (bk_handle env start)).

Lemma wp_os o (P : os_ans o -> os_state -> Prop) Q w :
  (forall f cut, P (os_faulty f cut o (bw_os w)).1 (os_faulty f cut o (bw_os w)).2) ->
  (forall r s' n, P r s' -> Q r (MkBackupWorld n (bw_db w) s')) -> wp (os o) Q w.
Proof.
  intros HP HQ. unfold os, call, Effects.wp. cbn [run bk_handle].
  specialize (HP (be_os env (bw_step w)) (be_cut env (bw_step w))).
  destruct (os_faulty _ _ o (bw_os w)) as [r s']. by apply HQ.
Qed.

(** A statement leaves the table as it was or as the repository says; only the
    latter can succeed. *)
Lemma wp_brepo o (P : brepo_ans o -> BackupDB -> Prop) Q w :
  (forall time, P (brepo_exec time o (bw_db w)).1 (brepo_exec time o (bw_db w)).2) ->
  (forall time e, P (Err e) (brepo_exec time o (bw_db w)).2) -> (forall e, P (Err e) (bw_db w)) ->
  (forall r d n, P r d -> Q r (MkBackupWorld n d (bw_os w))) -> wp (brepo o) Q w.
Proof.
  intros H1 H2 H3 HQ. unfold brepo, call, Effects.wp. cbn [run bk_handle]. unfold exec_brepo.
  specialize (H1 (clock env start w)). specialize (H2 (clock env start w)).
  destruct (brepo_exec _ o _) as [r d]. by destruct (be_db env (bw_step w)); apply HQ.
Qed.

Lemma wp_backup_now Q w : (forall n, Q (clock env start w) (MkBackupWorld n (bw_db w) (bw_os w))) -> wp now Q w.
Proof. intros H. unfold now, call, Effects.wp. cbn [run bk_handle]. apply H. Qed.

Lemma wp_or_internal {A B} (p : prog bk_ans (res A)) (f : A -> prog bk_ans (res B)) Q w :
  wp p (fun r w' => match r with Ok x => wp (f x) Q w' | Err e => Q (Err (wrapBackupInternal e)) w' end) w ->
  wp (or_internal p f) Q w.
Proof. intros H. apply wp_bind_ok, wp_or_else. eapply wp_mono; [exact H|]. by intros [x|e] w'. Qed.

Lemma wp_or_mark_failed {A B} id (p : prog bk_ans (res A)) (f : A -> prog bk_ans (res B)) Q w :
  wp p (fun r w' => match r with Ok x => wp (f x) Q w' | Err e => wp (mark_failed id (wrapBackupInternal e)) Q w' end) w ->
  wp (or_mark_failed id p f) Q w.
Proof. intros H. apply wp_bind. eapply wp_mono; [exact H|]. by intros [x|e] w'. Qed.

Lemma os_faulty_cwd f cut o s : os_cwd (os_faulty f cut o s).2 = os_cwd s.
Proof. destruct f, o; done. Qed.

(** What an operation on the files keeps, it keeps also when it fails. *)
Lemma os_faulty_keeps (I : filesystem -> Prop) o f cut s :
  I (os_fs s) -> (forall cut, I (os_fs (os_exec (cut_op cut o) s).2)) -> I (os_fs (os_exec o s).2) ->
  I (os_fs (os_faulty f cut o s).2).
Proof. intros H0 H1 H2. destruct f; cbn [os_faulty snd]; auto. Qed.

(** Absolute paths. *)
Lemma wp_Abs path Q w : path <> "" ->
  (forall n, Q (Ok (abs_path (abs_elements (os_cwd (bw_os w)) path))) (MkBackupWorld n (bw_db w) (bw_os w))) ->
  (forall n e, Q (Err e) (MkBackupWorld n (bw_db w) (bw_os w))) -> wp (Abs path) Q w.
Proof.
  intros Hp H1 H2. unfold Abs. pose proof (Abs_result (os_cwd (bw_os w)) path Hp) as E.
  destruct (IsAbs path).
  - apply wp_ret. rewrite E. destruct w as [n d s]. apply (H1 n).
  - apply wp_bind_ok. apply wp_os with (P := fun r s' => s' = bw_os w /\ (r = Ok (abs_path (os_cwd (bw_os w))) \/ exists e, r = Err e)).
    + intros [|e|e] cut; cbn; eauto.
    + intros r s' n [-> [->|[e ->]]]; [apply wp_ret; rewrite E; apply H1|apply H2].
Qed.

(** ** One row under the updates of a method *)

(** Only the row [id] differs, and it says success only as before or with [V]. *)
Definition row_change (id : Z) (b : Backup) (V : Backup -> Prop) (db db' : BackupDB) : Prop :=
  (forall i, i <> id -> row_of i db' = row_of i db) /\
  exists b', row_of id db' = Some b' /\ (b_Status b' = BackupStatusSuccess -> b' = b \/ V b').

Lemma row_change_refl id b V db : row_of id db = Some b -> row_change id b V db db.
Proof. intros H. split; [done|]. exists b. auto. Qed.

Lemma row_change_mono id b (V V' : Backup -> Prop) db db' :
  (forall x, V x -> V' x) -> row_change id b V db db' -> row_change id b V' db db'.
Proof. intros HV [H (b' & Hb & Hs)]. split; [done|]. exists b'. split; [done|]. intros E. destruct (Hs E); auto. Qed.

Lemma row_change_status id b V db db' time st : st <> BackupStatusSuccess ->
  row_change id b V db db' -> row_change id b V db (backup_repository.UpdateStatus time id st db').2.
Proof.
  intros Hst [H (b' & Hb & Hs)]. unfold backup_repository.UpdateStatus. split.
  - intros i Hi. by rewrite Updates_other, H.
  - rewrite (Updates_row time id [bcol_Status st] db' b' eq_refl Hb). eexists. split; [done|].
    destruct (is_ok _); [|done]. destruct b'; cbn. congruence.
Qed.

Lemma wp_update_status id b V db st Q w : st <> BackupStatusSuccess -> row_change id b V db (bw_db w) ->
  (forall r d n, row_change id b V db d -> Q r (MkBackupWorld n d (bw_os w))) ->
  wp (brepo (BRUpdateStatus id st)) Q w.
Proof.
  intros Hst Hw HQ. apply wp_brepo with (P := fun _ d => row_change id b V db d); auto; intros; by apply row_change_status.
Qed.

Lemma wp_mark_failed {B} id b V db err (Q : res B -> BackupWorld -> Prop) w : row_change id b V db (bw_db w) ->
  (forall d n, row_change id b V db d -> Q (Err err) (MkBackupWorld n d (bw_os w))) ->
  wp (mark_failed id err) Q w.
Proof.
  intros Hw HQ. apply wp_bind. apply (wp_update_status id b V db); [done|done|]. intros r d n Hd. by apply wp_ret, HQ.
Qed.

(** The row of a verification. *)
Definition recorded (size : Z) (checksum path : string) (b : Backup) : Prop :=
  b_SizeBytes b = size /\ b_Checksum b = checksum /\ b_FilePath b = path.

Lemma wp_update_verification id b V db size checksum path Q w :
  TrimSpace path <> "" -> row_change id b V db (bw_db w) ->
  (forall d n, row_change id b (fun x => V x \/ recorded size checksum path x) db d ->
     (exists b', row_of id d = Some b' /\ b_Status b' = BackupStatusSuccess /\ recorded size checksum path b') ->
     Q (Ok tt) (MkBackupWorld n d (bw_os w))) ->
  (forall e d n, row_change id b (fun x => V x \/ recorded size checksum path x) db d -> Q (Err e) (MkBackupWorld n d (bw_os w))) ->
  wp (brepo (BRUpdateVerification id BackupStatusSuccess size checksum path)) Q w.
Proof.
  intros Hp Hw HOk HErr.
  assert (Hweak : row_change id b (fun x => V x \/ recorded size checksum path x) db (bw_db w)).
  { eapply row_change_mono; [|exact Hw]. auto. }
  assert (Hupd : forall time,
    let out := backup_repository.UpdateVerification time id BackupStatusSuccess size checksum path (bw_db w) in
    row_change id b (fun x => V x \/ recorded size checksum path x) db out.2 /\
    (is_ok out.1 = true -> exists b', row_of id out.2 = Some b' /\ b_Status b' = BackupStatusSuccess /\ recorded size checksum path b')).
  { intros time. cbv zeta. unfold backup_repository.UpdateVerification.
    assert (E : backup_repository.verification_updates BackupStatusSuccess size checksum path =
      [bcol_Status BackupStatusSuccess; bcol_SizeBytes size; bcol_Checksum checksum; bcol_FilePath path]).
    { unfold backup_repository.verification_updates. by rewrite (proj2 (String.eqb_neq _ _) Hp). }
    rewrite E. destruct Hw as [Ho (b0 & Hb0 & Hs)].
    pose proof (Updates_row time id _ _ _ (eq_refl : forallb keeps_bid ([bcol_Status BackupStatusSuccess; bcol_SizeBytes size;
      bcol_Checksum checksum; bcol_FilePath path] ++ [bcol_UpdatedAt time]) = true) Hb0) as Hr.
    split; [split|].
    - intros i Hi. by rewrite Updates_other, Ho.
    - rewrite Hr. eexists. split; [done|]. destruct (is_ok _); [|intros Hst; destruct (Hs Hst); auto].
      intros _. right. right. by destruct b0.
    - intros Hok. rewrite Hr. eexists. split; [done|]. rewrite Hok. by destruct b0. }
  apply wp_brepo with (P := fun r d => row_change id b (fun x => V x \/ recorded size checksum path x) db d /\
    (is_ok r = true -> exists b', row_of id d = Some b' /\ b_Status b' = BackupStatusSuccess /\ recorded size checksum path b')).
  - intros time. apply Hupd.
  - intros time e. split; [apply Hupd|done].
  - intros e. done.
  - intros [[]|e] d n [H1 H2]; auto.
Qed.

End Rules.

(** ** [CreateArtifact] *)

(** The file a row names is there with the recorded size and checksum. *)
Definition backed (b : Backup) (s : os_state) : Prop := exists c,
  ReadFile (b_FilePath b) (os_cwd s) (os_fs s) = Ok c /\ b_SizeBytes b = len c /\ b_Checksum b = checksum_of c.

Definition artifact_outcome (id : Z) (b : Backup) (w : BackupWorld) (r : res dto.BackupSummary) (w' : BackupWorld) : Prop :=
  (exists t, artifact_change b t (artifact_content b t) (os_fs (bw_os w)) (os_fs (bw_os w'))) /\
  row_change id b (fun b' => backed b' (bw_os w')) (bw_db w) (bw_db w') /\
  forall x, r = Ok x -> exists b', row_of id (bw_db w') = Some b' /\ b_Status b' = BackupStatusSuccess /\
    backed b' (bw_os w') /\ dto.bs_FilePath x = b_FilePath b' /\ dto.bs_SizeBytes x = b_SizeBytes b' /\
    dto.bs_Checksum x = b_Checksum b' /\ dto.bs_Status x = BackupStatusSuccess.

Section Create.
Context (env : BackupEnv) (start : Z).

#[local] Abbreviation wp := (wp (bk_handle env start)).

Section Write.
Context (id : Z) (b : Backup) (w : BackupWorld) (L : list string) (t : Z).
Hypothesis Hfree : names_free b (os_fs (bw_os w)).
Hypothesis HL : clean_abs L.
Hypothesis HLnames : Forall (fun e => ~ artifact_like b e) L.

Let c := artifact_content b t.
Let fs0 := os_fs (bw_os w).
Let cwd := os_cwd (bw_os w).
Let J := artifact_change b t c fs0.
Let never (x : Backup) := False.

(** A state of the file system in the same directory with [J]. *)
Let Inv (s : os_state) : Prop := os_cwd s = cwd /\ J (os_fs s).

Lemma outcome_err w' err : Inv (bw_os w') -> row_change id b never (bw_db w) (bw_db w') ->
  artifact_outcome id b w (Err err) w'.
Proof.
  intros [_ HJ] Hr. split; [by exists t|]. split; [|done]. eapply row_change_mono; [|exact Hr]. by intros x [].
Qed.

Lemma failed_outcome err w' : Inv (bw_os w') -> row_change id b never (bw_db w) (bw_db w') ->
  wp (mark_failed id err) (artifact_outcome id b w) w'.
Proof.
  intros HS Hr. apply (wp_mark_failed env start id b never (bw_db w)); [done|]. intros d n Hd. by apply outcome_err.
Qed.

Lemma recorded_backed s x : Inv s -> published b t c L (os_fs s) ->
  recorded (len c) (checksum_of c) (path b t L) x -> backed x s.
Proof.
  intros [Hc _] Hp (E1 & E2 & E3). exists c. rewrite E1, E2, E3. split; [|done].
  by apply published_reads.
Qed.

(** The last statements, after the renaming. *)
Lemma record_outcome w' : Inv (bw_os w') -> published b t c L (os_fs (bw_os w')) ->
  row_change id b never (bw_db w) (bw_db w') ->
  wp (or_mark_failed id (brepo (BRUpdateVerification id BackupStatusSuccess (len c) (checksum_of c) (path b t L)))
        (fun _ => updatedAt <- now ;;
                  Ret (Ok (mapBackupSummary (verified b (len c) (checksum_of c) (path b t L) updatedAt)))))
     (artifact_outcome id b w) w'.
Proof.
  intros HS Hp Hr.
  assert (Hconv : forall d, row_change id b (fun x => never x \/ recorded (len c) (checksum_of c) (path b t L) x) (bw_db w) d ->
    row_change id b (fun b' => backed b' (bw_os w')) (bw_db w) d).
  { intros d Hd. eapply row_change_mono; [|exact Hd]. intros x [[]|Hx]. by apply recorded_backed. }
  apply wp_or_mark_failed.
  apply (wp_update_verification env start id b never (bw_db w)); [by unfold path; rewrite TrimSpace_artifact|done| |].
  - intros d n Hd (b' & Hb' & Hst & Hrec). apply wp_bind, wp_backup_now. intros m. apply wp_ret.
    split; [exists t; by destruct HS|]. split; [by apply Hconv|].
    intros x [= <-]. exists b'. split; [done|]. split; [done|]. split; [by apply recorded_backed|].
    destruct Hrec as (E1 & E2 & E3). rewrite E1, E2, E3. by destruct b.
  - intros e d n Hd. apply (wp_mark_failed env start id b (fun b' => backed b' (bw_os w')) (bw_db w)); [by apply Hconv|].
    intros d' m Hd'. split; [exists t; by destruct HS|]. by split.
Qed.

Lemma wp_os_keeps (o : os_op) (K : filesystem -> Prop) Q w' :
  Inv (bw_os w') ->
  (forall cut s, Inv s -> J (os_fs (os_exec (cut_op cut o) s).2)) -> (forall s, Inv s -> J (os_fs (os_exec o s).2)) ->
  (forall s x, Inv s -> (os_exec o s).1 = Ok x -> os_fs s = os_fs (bw_os w') -> K (os_fs (os_exec o s).2)) ->
  (forall x s' n, Inv s' -> K (os_fs s') -> Q (Ok x) (MkBackupWorld n (bw_db w') s')) ->
  (forall e s' n, Inv s' -> Q (Err e) (MkBackupWorld n (bw_db w') s')) -> wp (os o) Q w'.
Proof.
  intros HS H1 H2 H3 HOk HErr.
  apply wp_os with (P := fun r s' => Inv s' /\ (is_ok r = true -> K (os_fs s'))).
  - intros f cut. split; [split|].
    + rewrite os_faulty_cwd. apply HS.
    + apply os_faulty_keeps; [apply HS|intros; by apply H1|by apply H2].
    + destruct f; cbn [os_faulty fst snd]; [|done|done]. destruct (os_exec o (bw_os w')).1 as [x|e] eqn:E; [|done].
      intros _. eapply H3; [done|exact E|done].
  - intros [x|e] s' n [HS' HK]; [apply HOk; auto|apply HErr; auto].
Qed.

Lemma write_artifact_outcome w' : Inv (bw_os w') -> row_change id b never (bw_db w) (bw_db w') ->
  wp (write_artifact id b t (path b t L)) (artifact_outcome id b w) w'.
Proof.
  intros HS Hr. unfold write_artifact. apply wp_or_mark_failed.
  assert (HDir : Dir (path b t L) = abs_path L) by (apply Dir_abs; [done|apply artifact_name_ok]).
  apply (wp_os_keeps _ (fun _ => True)); [done| | |done| |].
  { intros cut s [Hc HJ]. cbn [cut_op os_exec on_fs snd with_fs os_fs]. rewrite HDir. by apply change_mkdir. }
  { intros s [Hc HJ]. cbn [os_exec on_fs snd with_fs os_fs]. rewrite HDir. by apply change_mkdir. }
  2: { intros e s' n HS'. by apply failed_outcome. }
  intros _ s1 n1 HS1 _. apply wp_or_mark_failed.
  apply (wp_os_keeps _ (staged b t c L)); [done| | | | |].
  { intros cut s [Hc HJ]. cbn [cut_op os_exec on_fs snd with_fs os_fs].
    by apply change_write. }
  { intros s [Hc HJ]. cbn [os_exec on_fs snd with_fs os_fs]. by apply change_write. }
  { intros s [] [Hc HJ] E _. cbn [os_exec on_fs fst snd with_fs os_fs] in *. by eapply write_staged. }
  2: { intros e s' n HS'. by apply failed_outcome. }
  intros _ s2 n2 HS2 Hst2. apply wp_bind.
  destruct HS2 as [Hc2 HJ2].
  destruct (rename_staged b t c fs0 L cwd Hfree HL (os_fs s2) HJ2 Hst2) as (q & Eq & HJ3 & Hp3).
  apply wp_os with (P := fun r s' => Inv s' /\ (is_ok r = true -> published b t c L (os_fs s'))).
  { intros f cut. cbn [bw_os]. split; [split|].
    - by rewrite os_faulty_cwd.
    - destruct f; cbn [os_faulty cut_op os_exec on_fs snd with_fs os_fs]; [|done|]; by rewrite Hc2.
    - destruct f; [|done|done]. intros _. cbn [os_faulty os_exec on_fs fst snd with_fs os_fs]. by rewrite Hc2. }
  intros r s3 n3 [HS3 Hp]. destruct r as [[]|e].
  - cbn [bw_db]. apply record_outcome; auto.
  - apply wp_bind. apply (wp_os_keeps _ (fun _ => True)); [done| | |done| |].
    { intros cut s [Hc HJ]. cbn [cut_op os_exec on_fs snd with_fs os_fs]. by apply change_remove. }
    { intros s [Hc HJ]. cbn [os_exec on_fs snd with_fs os_fs]. by apply change_remove. }
    + intros x s' n HS' _. by apply failed_outcome.
    + intros e' s' n HS'. by apply failed_outcome.
Qed.
End Write.

(** C13 Whatever fails while an artifact is created, a statement or an operation
    on the files, before or after its effect or in the middle of a write: no
    other row changes; no file but the temporary one and the artifact changes,
    and the artifact is as before or complete; the row says success only if it
    did before or if the file it names has the recorded size and checksum; an
    answer without error reports such a row. *)
Theorem CreateArtifact_fault_safe s id b w :
  row_of id (bw_db w) = Some b ->
  names_free b (os_fs (bw_os w)) ->
  Forall (fun e => ~ artifact_like b e) (local_dir s (os_cwd (bw_os w))) ->
  artifact_outcome id b w (run (bk_handle env start) (CreateArtifact s id) w).1
    (run (bk_handle env start) (CreateArtifact s id) w).2.
Proof.
  intros Hb Hfree HLn. assert (Hwp : wp (CreateArtifact s id) (artifact_outcome id b w) w);
    [|unfold Effects.wp in Hwp; by destruct (run _ _ _)].
  set (L := local_dir s (os_cwd (bw_os w))) in *.
  assert (HL : clean_abs L) by apply abs_elements_clean.
  assert (Herr : forall err d n, row_change id b (fun _ => False) (bw_db w) d ->
    artifact_outcome id b w (Err err) (MkBackupWorld n d (bw_os w))).
  { intros err d n Hd. apply (outcome_err id b w 0); [|done]. split; [done|]. apply change_refl. }
  assert (Hfail : forall err w', bw_os w' = bw_os w -> row_change id b (fun _ => False) (bw_db w) (bw_db w') ->
    wp (mark_failed id err) (artifact_outcome id b w) w').
  { intros err w' E Hr. apply (failed_outcome id b w 0); [|done]. rewrite E. split; [done|]. apply change_refl. }
  pose proof (row_change_refl id b (fun _ => False) (bw_db w) Hb) as Hr0.
  unfold CreateArtifact. destruct (id <=? 0).
  { apply wp_ret. destruct w as [n d os]. by apply Herr. }
  unfold find_backup. apply wp_or_internal.
  apply wp_brepo with (P := fun r d => d = bw_db w /\ (r = Ok (Some b) \/ exists e, r = Err e)); [|eauto..|].
  { intros time. split; [done|]. left. cbn. unfold backup_repository.GetByID. by rewrite <- Hb. }
  intros r d n [-> [->|[e ->]]]; [|by apply Herr].
  destruct (negb (b_StorageType b =? BackupStorageLocal)%string); [by apply Hfail|].
  apply wp_or_internal. apply (wp_update_status env start id b (fun _ => False) (bw_db w)); [done|done|].
  intros [[]|e] d1 n1 Hd1; [|by apply Herr]. apply wp_bind, wp_backup_now. intros n2. cbn [bw_db bw_os].
  set (t := clock _ _ _). apply wp_or_mark_failed. unfold safeBackupArtifactPath. cbv zeta.
  destruct (TrimSpace (localDir s) =? "")%string eqn:E.
  { apply wp_ret. by apply Hfail. }
  apply String.eqb_neq in E. apply wp_bind_ok, wp_Abs; [done| |by intros m e; apply Hfail].
  intros m. cbn [bw_os bw_db]. apply wp_ret. change (abs_elements _ _) with L.
  rewrite path_inside_ok by (done || apply artifact_name_ok).
  apply (write_artifact_outcome id b w L t); [done|done|done| |done]. split; [done|]. apply change_refl.
Qed.
End Create.
