(* ===== verification/BackupVerify.v ===== *)
(** * Verification of artifacts

    An artifact that was created verifies, a file that was changed does not, and
    a verification reads inside the local directory. *)

From Stdlib Require Import ZArith Lia Ascii.
From stdpp Require Import gmap fin_maps.
From S2P Require Import Prelude GoString AsciiText GoTime GoError Effects Table Schema Json JsonIndent Crypto FilePath OsFs Dto.
From S2P Require Import BackupApi BackupRepo BackupService BackupNames BackupSystem BackupArtifact.

(** Nothing fails. *)
Definition quiet_env (env : BackupEnv) : Prop := forall n, be_db env n = NoFault /\ be_os env n = NoFault.

(** ** The manifest *)

Lemma ascii_app s t : ascii_text s -> ascii_text t -> ascii_text (s +:+ t)%string.
Proof. unfold ascii_text. rewrite chars_app. apply Forall_app_2. Qed.

Lemma digit_ascii d : 0 <= d < 10 -> ascii_text (digit_str d).
Proof. intros H. constructor; [|constructor]. rewrite byte_chr; lia. Qed.

Lemma pad2_ascii n : ascii_text (pad2 n).
Proof. apply ascii_app; apply digit_ascii; apply Z.mod_pos_bound; lia. Qed.

Lemma RFC3339_valid t : ValidString (FormatRFC3339 t) = true.
Proof.
  apply ascii_ValidString. unfold FormatRFC3339. destruct (civil_from_days _) as [[y m] d]. unfold pad4.
  repeat match goal with
         | |- ascii_text (_ +:+ _)%string => apply ascii_app
         | |- ascii_text (pad2 _) => apply pad2_ascii
         | |- _ => apply Forall_cons_2; [by vm_compute|apply Forall_nil_2]
         end.
Qed.

Definition manifest_strings_valid (b : Backup) : Prop :=
  ValidString (b_ResourceType b) = true /\ ValidString (b_ResourceID b) = true /\ ValidString (b_StorageType b) = true.

Lemma manifest_plain b t : manifest_strings_valid b -> plain (manifest_json (new_manifest b t)).
Proof.
  intros (H1 & H2 & H3). unfold manifest_json, new_manifest. cbn [m_Version m_Kind m_BackupID m_ResourceType m_ResourceID
    m_StorageType m_CreatedAt m_Scope m_Note].
  assert (Hscope : plain (JArr (map JStr (backupArtifactScope (b_ResourceType b))))).
  { constructor. unfold backupArtifactScope. repeat case_goal; repeat constructor. }
  assert (Hnote : ValidString (backupArtifactNote (b_ResourceType b)) = true).
  { unfold backupArtifactNote. by case_goal. }
  constructor. apply Forall_app_2.
  - repeat (apply Forall_cons_2; [split; [done|]; cbn [snd]; first [done | by constructor | constructor; apply RFC3339_valid]|]).
    constructor.
  - case_goal; [constructor|]. repeat constructor; done.
Qed.

(** One member of each kind. *)
Definition known (name : string) : Prop := List.find (fun n => EqualFold n name) manifest_fields = Some name.

Lemma read_str name v m wrong : known name -> existsb (String.eqb name) manifest_ints || (name =? "scope")%string = false ->
  read_manifest_member (m, wrong) (name, JStr v) = (set_manifest_str name v m, wrong).
Proof. intros Hk Hi. unfold read_manifest_member. cbn [fst snd]. rewrite Hk. cbv zeta. by rewrite Hi. Qed.

Lemma read_int name v m wrong : known name -> existsb (String.eqb name) manifest_ints = true -> in_int64 v = true ->
  read_manifest_member (m, wrong) (name, JInt v) = (set_manifest_int name v m, wrong).
Proof.
  intros Hk Hi Hv. unfold read_manifest_member. cbn [fst snd]. rewrite Hk. cbv zeta. unfold JInt.
  by rewrite Hi, ParseInt64_fmt.
Qed.

Lemma read_scope l m wrong :
  read_manifest_member (m, wrong) ("scope", JArr (map JStr l)) = (set_manifest_scope l m, wrong).
Proof.
  unfold read_manifest_member. cbn [fst snd]. replace (List.find _ _) with (Some "scope") by reflexivity. cbv zeta.
  change (("scope" =? "scope")%string) with true. cbn iota.
  assert (E1 : omap scope_elem (map JStr l) = l) by (induction l as [|x l IH]; [done|]; change (x :: omap scope_elem (map JStr l) = x :: l); by rewrite IH).
  assert (E2 : existsb (fun j => negb (bool_decide (is_Some (scope_elem j)))) (map JStr l) = false)
    by (clear E1; induction l as [|x l IH]; [done|]; cbn [map existsb scope_elem]; rewrite bool_decide_eq_true_2 by eauto; exact IH).
  by rewrite E1, E2, orb_false_r.
Qed.

(** What the manifest of a backup reads back as. *)
Lemma manifest_reads b t : manifest_strings_valid b -> in_int64 (b_ID b) = true ->
  check_manifest b (artifact_content b t) = Ok tt.
Proof.
  intros Hv Hid. unfold check_manifest, unmarshal_manifest, artifact_content.
  rewrite Parse_MarshalIndent by (by apply manifest_plain).
  unfold manifest_json. rewrite fold_left_app. cbn [fold_left new_manifest m_Version m_Kind m_BackupID m_ResourceType
    m_ResourceID m_StorageType m_CreatedAt m_Scope].
  rewrite read_int, read_str, read_int, !read_str, read_scope by (done || reflexivity).
  match goal with |- context [fold_left _ (if ?c then _ else _) _] => destruct c end; cbn [fold_left];
    [|rewrite read_str by reflexivity]; cbn; by rewrite !String.eqb_refl, Z.eqb_refl.
Qed.

(** ** Names and paths of an artifact *)

Lemma last_dot_app s t : last_dot t <> "" -> last_dot (s +:+ t)%string = last_dot t.
Proof.
  intros H. induction s as [|a s IH]; [done|]. rewrite app_cons_str. cbn [last_dot]. cbv zeta. rewrite IH.
  by rewrite (proj2 (String.eqb_neq _ _) H).
Qed.

Lemma last_element_abs l f : clean_abs (l ++ [f]) -> last_element (abs_path (l ++ [f])) = f.
Proof.
  intros Hc. unfold last_element. rewrite elements_abs_path, elements_Join by (done || by destruct l).
  rewrite app_comm_cons. apply last_last.
Qed.

Lemma artifact_is_json l b t : clean_abs l -> is_json_file (abs_path (l ++ [artifact_name b t])) = true.
Proof.
  intros Hl. unfold is_json_file, Ext. rewrite last_element_abs.
  - unfold artifact_name. rewrite <- !app_assoc_str. rewrite last_dot_app by done. reflexivity.
  - apply Forall_app_2; [done|]. constructor; [apply artifact_name_ok|constructor].
Qed.

(** The real place of the local directory. *)
Definition real_dir (fs : filesystem) (l : list string) : list string :=
  match walk eval_links fs true [] l with WFound p => p | _ => l end.

Lemma no_slash_elements l : clean_abs l -> Forall (fun e => no_slash e = true) l.
Proof. intros H. eapply Forall_impl; [exact H|]. intros e He. by apply file_name_spec in He as (_ & _ & _ & ?). Qed.

Lemma walk_abs_clean fs n l p : clean_abs l -> walk n fs true [] l = WFound p -> clean_abs p.
Proof.
  intros Hl H. pose proof (walk_clean fs true n [] l (Forall_nil_2 _) (no_slash_elements l Hl)) as Hc. by rewrite H in Hc.
Qed.

Lemma real_dir_clean fs l : clean_abs l -> clean_abs (real_dir fs l).
Proof. intros Hl. unfold real_dir. destruct (walk _ _ _ _ _) eqn:E; [by eapply walk_abs_clean|done|done]. Qed.

(** ** When nothing fails *)
Section Quiet.
Context (env : BackupEnv) (start : Z).
Hypothesis Hquiet : quiet_env env.

#[local] Abbreviation wp := (wp (bk_handle env start)).

Lemma wp_os_quiet o Q w :
  Q (os_exec o (bw_os w)).1 (MkBackupWorld (S (bw_step w)) (bw_db w) (os_exec o (bw_os w)).2) -> wp (os o) Q w.
Proof.
  intros H. unfold os, call, Effects.wp. cbn [run bk_handle]. destruct (Hquiet (bw_step w)) as [_ ->].
  cbn [os_faulty]. by destruct (os_exec o (bw_os w)).
Qed.

Lemma wp_brepo_quiet o Q w :
  Q (brepo_exec (clock env start w) o (bw_db w)).1
    (MkBackupWorld (S (bw_step w)) (brepo_exec (clock env start w) o (bw_db w)).2 (bw_os w)) -> wp (brepo o) Q w.
Proof.
  intros H. unfold brepo, call, Effects.wp. cbn [run bk_handle]. unfold exec_brepo.
  destruct (Hquiet (bw_step w)) as [-> _]. by destruct (brepo_exec _ o (bw_db w)).
Qed.

Lemma wp_find {B} id b (f : Backup -> prog bk_ans (res B)) Q w : row_of id (bw_db w) = Some b ->
  wp (f b) Q (MkBackupWorld (S (bw_step w)) (bw_db w) (bw_os w)) -> wp (find_backup id f) Q w.
Proof.
  intros Hb H. apply wp_or_internal. apply wp_brepo_quiet.
  replace (brepo_exec _ (BRGetByID id) (bw_db w)).1 with (Ok (Some b) : res (option Backup)); [exact H|].
  cbn. unfold backup_repository.GetByID. by rewrite <- Hb.
Qed.

Lemma wp_Abs_quiet path Q w : path <> "" ->
  (forall n, Q (Ok (abs_path (abs_elements (os_cwd (bw_os w)) path))) (MkBackupWorld n (bw_db w) (bw_os w))) ->
  wp (Abs path) Q w.
Proof.
  intros Hp H. unfold Abs. pose proof (Abs_result (os_cwd (bw_os w)) path Hp) as E.
  destruct (IsAbs path).
  - apply wp_ret. rewrite E. destruct w as [n d s]. apply (H n).
  - apply wp_bind_ok, wp_os_quiet, wp_ret. cbn [os_exec fst snd]. rewrite E. apply H.
Qed.

(** The updates of one row succeed when the constraints hold. *)
Lemma wp_status_quiet id b st Q w : bdb_ok (bw_db w) -> row_of id (bw_db w) = Some b -> st ∈ backup_statuses ->
  (forall time n d, bdb_ok d -> row_of id d = Some (assign_backup [bcol_Status st; bcol_UpdatedAt time] b) ->
     Q (Ok tt) (MkBackupWorld n d (bw_os w))) ->
  wp (brepo (BRUpdateStatus id st)) Q w.
Proof.
  intros Hok Hb Hst HQ. apply wp_brepo_quiet. set (time := clock _ _ _). cbn [brepo_exec].
  pose proof (brepo_exec_ok time (BRUpdateStatus id st) (bw_db w) I Hok) as Hok'. cbn [brepo_exec] in Hok'.
  unfold backup_repository.UpdateStatus in *.
  assert (Hc : row_checks (assign_backup ([bcol_Status st] ++ [bcol_UpdatedAt time]) b) = true).
  { pose proof (row_of_checks _ _ _ Hok Hb) as Hb'. revert Hb'. unfold row_checks. rewrite !andb_true_iff.
    destruct b as [x0 x1 x2 x3 x4 x5 x6 x7 x8 x9 x10]; cbn [assign_backup fold_left app set_backup b_ResourceType b_ResourceID b_StorageType b_SizeBytes b_Checksum b_Status].
    intros [[[[[[H1 H2] H3] H4] H5] H6] H7]. repeat split; try done.
    - clear -Hst. unfold backup_statuses in Hst. rewrite !elem_of_cons in Hst.
      destruct Hst as [->|[->|[->|[->|Hst]]]]; try done. by apply elem_of_nil in Hst.
    - by apply bool_decide_eq_true. }
  pose proof (Updates_succeeds time id [bcol_Status st] _ b Hok Hb Hc) as Hs.
  pose proof (Updates_row time id [bcol_Status st] _ b eq_refl Hb) as Hr. rewrite Hs in Hr.
  destruct (backup_repository.Updates _ _ _ _) as [[[]|e] d]; [|done]. by apply (HQ time).
Qed.

Lemma wp_verification_quiet id b size checksum path Q w : bdb_ok (bw_db w) -> row_of id (bw_db w) = Some b ->
  0 <= size -> canonical_checksum checksum -> TrimSpace path <> "" ->
  (forall time n d, bdb_ok d ->
     row_of id d = Some (assign_backup [bcol_Status BackupStatusSuccess; bcol_SizeBytes size; bcol_Checksum checksum;
                                        bcol_FilePath path; bcol_UpdatedAt time] b) ->
     Q (Ok tt) (MkBackupWorld n d (bw_os w))) ->
  wp (brepo (BRUpdateVerification id BackupStatusSuccess size checksum path)) Q w.
Proof.
  intros Hok Hb Hsize Hcs Hp HQ. apply wp_brepo_quiet. set (time := clock _ _ _). cbn [brepo_exec].
  pose proof (brepo_exec_ok time (BRUpdateVerification id BackupStatusSuccess size checksum path) (bw_db w) I Hok) as Hok'.
  cbn [brepo_exec] in Hok'. unfold backup_repository.UpdateVerification, backup_repository.verification_updates in *.
  rewrite (proj2 (String.eqb_neq _ _) Hp) in *. cbn [app] in *.
  set (cs := [bcol_Status _; _; _; _]) in *.
  assert (Hc : row_checks (assign_backup (cs ++ [bcol_UpdatedAt time]) b) = true).
  { pose proof (row_of_checks _ _ _ Hok Hb) as Hb'. revert Hb'. unfold row_checks. rewrite !andb_true_iff.
    destruct b as [x0 x1 x2 x3 x4 x5 x6 x7 x8 x9 x10]; cbn [cs assign_backup fold_left app set_backup b_ResourceType b_ResourceID b_StorageType b_SizeBytes b_Checksum b_Status].
    intros [[[[[[H1 H2] H3] H4] H5] H6] H7]. repeat split; try done.
    - unfold size_ok. by apply Z.leb_le.
    - destruct Hcs as (v & -> & Hlen & Hv). unfold varchar. apply Z.leb_le.
      assert (Ha : ascii_text ("sha256:" +:+ v)%string).
      { apply stable_ascii, stable_app; [apply sha_prefix_stable|by apply hex_text_stable]. }
      rewrite runes_ascii, length_map, length_chars, length_app_str, Hlen by done. cbn. lia. }
  pose proof (Updates_succeeds time id cs _ b Hok Hb Hc) as Hs.
  pose proof (Updates_row time id cs _ b eq_refl Hb) as Hr. rewrite Hs in Hr.
  destruct (backup_repository.Updates _ _ _ _) as [[[]|e] d]; [|done]. by apply (HQ time).
Qed.

End Quiet.

(** ** Creation and verification when nothing fails *)

(** The local directory can be made and leads to the directory [R]. *)
Definition usable_dir (s : backupService) (st : os_state) (R : list string) : Prop :=
  let L := local_dir s (os_cwd st) in
  exists fs1, MkdirAll (abs_path L) (os_cwd st) (os_fs st) = (Ok tt, fs1) /\
    walk kernel_links fs1 true [] L = WFound R /\ is_dir fs1 R = true.

(** A row that records the artifact of [b] made at [t], and its file. *)
Definition artifact_recorded (id : Z) (b : Backup) (t : Z) (L : list string) (db : BackupDB) (st : os_state) : Prop :=
  let c := artifact_content b t in
  bdb_ok db /\ published b t c L (os_fs st) /\
  exists b', row_of id db = Some b' /\ b_Status b' = BackupStatusSuccess /\ recorded (len c) (checksum_of c) (path b t L) b'
    /\ b_ID b' = b_ID b /\ b_ResourceType b' = b_ResourceType b /\ b_ResourceID b' = b_ResourceID b
    /\ b_StorageType b' = b_StorageType b.

Section Calm.
Context (env : BackupEnv) (start : Z) (s : backupService).
Hypothesis Hquiet : quiet_env env.
Hypothesis Hdir : TrimSpace (localDir s) <> "".

#[local] Abbreviation wp := (wp (bk_handle env start)).

Lemma write_quiet id b t L R w :
  bdb_ok (bw_db w) -> clean_abs L -> Forall (fun e => ~ artifact_like b e) L -> names_free b (os_fs (bw_os w)) ->
  (exists fs1, MkdirAll (abs_path L) (os_cwd (bw_os w)) (os_fs (bw_os w)) = (Ok tt, fs1) /\
    walk kernel_links fs1 true [] L = WFound R /\ is_dir fs1 R = true) ->
  (exists b', row_of id (bw_db w) = Some b' /\ b_ID b' = b_ID b /\ b_ResourceType b' = b_ResourceType b
    /\ b_ResourceID b' = b_ResourceID b /\ b_StorageType b' = b_StorageType b) ->
  wp (write_artifact id b t (path b t L)) (fun r w' =>
    (exists time, r = Ok (mapBackupSummary (verified b (len (artifact_content b t)) (checksum_of (artifact_content b t)) (path b t L) time)))
    /\ os_cwd (bw_os w') = os_cwd (bw_os w) /\ artifact_recorded id b t L (bw_db w') (bw_os w')) w.
Proof.
  intros Hok HL HLn Hfree (fs1 & Hmk & HR & HRd) (b' & Hb' & Hsame).
  set (c := artifact_content b t). set (cwd := os_cwd (bw_os w)) in *. set (fs0 := os_fs (bw_os w)) in *.
  assert (HDir : Dir (path b t L) = abs_path L) by (apply Dir_abs; [done|apply artifact_name_ok]).
  assert (HJ1 : artifact_change b t c fs0 fs1).
  { pose proof (change_mkdir b t c fs0 L cwd HL HLn fs0 (change_refl b t c fs0)) as H. by rewrite Hmk in H. }
  unfold write_artifact. apply wp_or_mark_failed, wp_os_quiet; [done|]. rewrite HDir.
  cbn [os_exec on_fs fst snd with_fs os_fs os_cwd bw_os bw_db bw_step]. fold cwd fs0. rewrite Hmk. cbn [fst snd].
  apply wp_or_mark_failed, wp_os_quiet; [done|]. cbn [os_exec on_fs fst snd with_fs os_fs os_cwd bw_os bw_db bw_step].
  fold cwd. fold c. change (path b t L +:+ ".tmp")%string with (tempPath b t L).
  assert (Hw : (WriteFile (tempPath b t L) c cwd fs1).1 = Ok tt).
  { unfold WriteFile. rewrite lookup_tmp by done.
    pose proof (change_no_link b t c fs0 Hfree fs1 (temp_name b t) HJ1 (or_intror eq_refl) R) as Hl.
    rewrite (walk_snoc fs1 (temp_name b t) (tmp_ok b t) kernel_links [] L R HR HRd Hl). unfold last_step.
    destruct (fs1 !! (R ++ [temp_name b t])) as [n|] eqn:E; [|done].
    destruct (change_free b t c fs0 Hfree fs1 R (temp_name b t) n HJ1 (or_intror eq_refl) E) as [c' ->].
    by rewrite node_at_snoc, E. }
  pose proof (write_staged b t c fs0 L cwd Hfree HL fs1 HJ1 Hw) as Hst.
  pose proof (change_write b t c fs0 L cwd Hfree HL fs1 c HJ1) as HJ2.
  destruct (WriteFile (tempPath b t L) c cwd fs1) as [rw fs2]. cbn [fst snd] in *. subst rw.
  apply wp_bind, wp_os_quiet; [done|]. cbn [os_exec on_fs fst snd with_fs os_fs os_cwd bw_os bw_db bw_step]. fold cwd.
  destruct (rename_staged b t c fs0 L cwd Hfree HL fs2 HJ2 Hst) as (q & Eq & _ & Hp). rewrite Eq in *. cbn [fst snd] in *.
  apply wp_or_mark_failed. apply (wp_verification_quiet env start Hquiet id b'); cbn [bw_db bw_os]; try done.
  { apply checksum_of_canonical. }
  { unfold path. rewrite TrimSpace_artifact. done. }
  intros time n d Hd Hrow. apply wp_bind, wp_backup_now. intros n2. apply wp_ret. cbn [bw_os bw_db os_cwd os_fs].
  split; [eauto|]. split; [done|]. split; [done|]. split; [done|].
  eexists. split; [exact Hrow|]. destruct Hsame as (E1 & E2 & E3 & E4). by destruct b'.
Qed.

Lemma create_quiet id b R w :
  bdb_ok (bw_db w) -> row_of id (bw_db w) = Some b -> b_StorageType b = BackupStorageLocal ->
  names_free b (os_fs (bw_os w)) -> Forall (fun e => ~ artifact_like b e) (local_dir s (os_cwd (bw_os w))) ->
  usable_dir s (bw_os w) R ->
  wp (CreateArtifact s id) (fun r w' => exists t,
    let L := local_dir s (os_cwd (bw_os w)) in
    (exists time, r = Ok (mapBackupSummary (verified b (len (artifact_content b t)) (checksum_of (artifact_content b t)) (path b t L) time)))
    /\ os_cwd (bw_os w') = os_cwd (bw_os w) /\ artifact_recorded id b t L (bw_db w') (bw_os w')) w.
Proof.
  intros Hok Hb Hst Hfree HLn Hus. unfold CreateArtifact.
  pose proof (row_of_id _ _ _ Hb) as Hid. destruct (Hok) as [_ _ [_ Hpos]].
  assert (0 < id). { apply first_where_Some in Hb as Hb2. destruct Hb2 as [Hin _]. rewrite Forall_forall in Hpos.
    specialize (Hpos b Hin). cbv beta in Hpos. lia. }
  replace (id <=? 0) with false by (symmetry; apply Z.leb_gt; lia).
  apply (wp_find env start Hquiet id b); [done|]. rewrite Hst. cbn [negb String.eqb]. rewrite String.eqb_refl. cbn [negb].
  apply wp_or_internal, (wp_status_quiet env start Hquiet id b); cbn [bw_db bw_os]; [done|done|apply running_status|].
  intros time n d Hd Hrow. apply wp_bind, wp_backup_now. intros n2. cbn [bw_db bw_os]. set (t := clock _ _ _).
  apply wp_or_mark_failed. unfold safeBackupArtifactPath. cbv zeta. rewrite (proj2 (String.eqb_neq _ _) Hdir).
  apply wp_bind_ok, wp_Abs_quiet; [done|done|]. intros m. cbn [bw_os bw_db].
  change (abs_elements (os_cwd (bw_os w)) (TrimSpace (localDir s))) with (local_dir s (os_cwd (bw_os w))).
  apply wp_ret. rewrite path_inside_ok by (apply abs_elements_clean || apply artifact_name_ok).
  eapply wp_mono; [apply (write_quiet id b t (local_dir s (os_cwd (bw_os w))) R)|]; cbn [bw_db bw_os]; try done.
  - apply abs_elements_clean.
  - eexists. split; [exact Hrow|]. by destruct b.
  - intros r w' Hr. exists t. exact Hr.
Qed.

(** The file the artifact was published at is inside the local directory. *)
Lemma within_quiet b t c w :
  let L := local_dir s (os_cwd (bw_os w)) in
  published b t c L (os_fs (bw_os w)) ->
  wp (backupPathWithinLocalDir (localDir s) (path b t L))
    (fun r w' => r = true /\ bw_db w' = bw_db w /\ bw_os w' = bw_os w) w.
Proof.
  intros L (q & Hq1 & Hq2 & Hq3). set (cwd := os_cwd (bw_os w)) in *. set (fs := os_fs (bw_os w)) in *.
  assert (HL : clean_abs L) by apply abs_elements_clean.
  assert (Htp : TrimSpace (path b t L) = path b t L) by apply TrimSpace_artifact.
  unfold backupPathWithinLocalDir. apply wp_bind, wp_Abs_quiet; [done|done|]. intros n1. cbn [bw_os bw_db].
  change (abs_elements (os_cwd (bw_os w)) (TrimSpace (localDir s))) with L.
  apply wp_bind. rewrite Htp. apply wp_Abs_quiet; [done|done|]. intros n2. cbn [bw_os bw_db].
  assert (Hcp : clean_abs (L ++ [artifact_name b t])) by (by apply clean_name, artifact_name_ok).
  replace (abs_elements (os_cwd (bw_os w)) (path b t L)) with (L ++ [artifact_name b t])
    by (unfold abs_elements, path; rewrite IsAbs_abs_path; by rewrite clean_elements_abs).
  apply wp_bind, wp_os_quiet; [done|]. cbn [os_exec fst snd bw_os bw_db bw_step]. fold fs.
  rewrite EvalSymlinks_abs by done.
  pose proof (walk_more fs true kernel_links [] L eval_links) as Hmore. rewrite Hq1 in Hmore.
  rewrite Hmore by (unfold kernel_links, eval_links; lia).
  apply wp_bind, wp_os_quiet; [done|]. cbn [os_exec fst snd bw_os bw_db bw_step]. fold fs.
  rewrite EvalSymlinks_abs by done.
  rewrite (walk_snoc fs (artifact_name b t) (artifact_name_ok b t) eval_links [] L q (Hmore ltac:(unfold kernel_links, eval_links; lia)) Hq2) by (by rewrite Hq3).
  unfold last_step. rewrite Hq3. apply wp_ret. split; [|done].
  assert (Hqc : clean_abs q) by exact (walk_abs_clean fs kernel_links L q HL Hq1).
  apply rel_inside_iff; [done| |by eexists]. apply Forall_app_2; [done|]. constructor; [apply artifact_name_ok|constructor].
Qed.

Lemma manifest_same b b' raw : b_ID b' = b_ID b -> b_ResourceType b' = b_ResourceType b ->
  b_ResourceID b' = b_ResourceID b -> b_StorageType b' = b_StorageType b -> check_manifest b' raw = check_manifest b raw.
Proof. unfold check_manifest. intros -> -> -> ->. reflexivity. Qed.

(** Verification of a recorded artifact. *)
Lemma verify_quiet id b t w :
  let L := local_dir s (os_cwd (bw_os w)) in
  0 < id -> in_int64 (b_ID b) = true -> manifest_strings_valid b -> b_StorageType b = BackupStorageLocal ->
  artifact_recorded id b t L (bw_db w) (bw_os w) ->
  wp (VerifyArtifact s id) (fun r w' => exists b' x, row_of id (bw_db w) = Some b' /\ r = Ok x
    /\ dto.bs_Checksum x = b_Checksum b' /\ dto.bs_SizeBytes x = b_SizeBytes b' /\ dto.bs_FilePath x = b_FilePath b'
    /\ bw_os w' = bw_os w /\ artifact_recorded id b t L (bw_db w') (bw_os w')) w.
Proof.
  intros L Hid Hint Hval Hst (Hok & Hpub & b' & Hb' & Hsucc & Hrec & E1 & E2 & E3 & E4).
  set (c := artifact_content b t) in *. set (cwd := os_cwd (bw_os w)) in *. set (fs := os_fs (bw_os w)) in *.
  assert (HL : clean_abs L) by apply abs_elements_clean.
  assert (Hread : ReadFile (path b t L) cwd fs = Ok c) by (by apply published_reads).
  destruct Hrec as (R1 & R2 & R3).
  unfold VerifyArtifact. replace (id <=? 0) with false by (symmetry; apply Z.leb_gt; lia).
  apply (wp_find env start Hquiet id b'); [done|]. rewrite E4, Hst, String.eqb_refl. cbn [negb]. rewrite R3.
  assert (Htp : TrimSpace (path b t L) = path b t L) by apply TrimSpace_artifact.
  rewrite Htp. change ((path b t L =? "")%string) with false. cbn iota.
  pose proof (within_quiet b t c (MkBackupWorld (S (bw_step w)) (bw_db w) (bw_os w)) Hpub) as Hin.
  apply wp_bind. eapply wp_mono; [exact Hin|]. intros r w1 (-> & Hdb1 & Hos1). cbn [bw_os bw_db] in Hdb1, Hos1. cbn [negb].
  apply wp_or_mark_failed. apply wp_bind_ok, wp_os_quiet; [done|]. cbn [os_exec fst snd bw_os bw_db bw_step].
  rewrite Hos1. fold cwd fs. rewrite Hread. apply wp_ret.
  assert (Hmm : recorded_mismatch b' (len c) (checksum_of c) = None).
  { unfold recorded_mismatch. rewrite R1, R2, String.eqb_refl, Z.eqb_refl, !andb_false_r. done. }
  rewrite Hmm. apply wp_bind. unfold validateBackupArtifactManifest. rewrite R3.
  unfold path at 1. rewrite artifact_is_json by done. cbn [negb]. apply wp_bind_ok, wp_os_quiet; [done|].
  cbn [os_exec fst snd bw_os bw_db bw_step]. fold cwd fs. rewrite Hread. apply wp_ret.
  assert (Hman : check_manifest b' c = Ok tt).
  { rewrite (manifest_same b b' c E1 E2 E3 E4). exact (manifest_reads b t Hval Hint). }
  rewrite Hman. apply wp_or_internal, (wp_verification_quiet env start Hquiet id b'); cbn [bw_db bw_os]; try by rewrite ?Hdb1.
  all: try apply backup_len_nonneg; try apply checksum_of_canonical; rewrite ?Hdb1, ?Htp; try done.
  intros time n d Hd Hrow. apply wp_bind, wp_backup_now. intros n2. apply wp_ret.
  exists b'. eexists. split; [done|]. split; [done|]. rewrite R1, R2, R3. cbn [bw_os bw_db].
  split; [by destruct b'|]. split; [by destruct b'|]. split; [by destruct b'|]. split; [done|].
  split; [done|]. split; [done|]. eexists. split; [exact Hrow|].
  revert E1 E2 E3 E4. unfold recorded. destruct b'. cbn. intros -> -> -> ->. done.
Qed.

(** C10 A backup that is created verifies: when nothing fails and the local
    directory can be made, [CreateArtifact] of a local backup answers with the
    size and the checksum of the artifact it has written, and [VerifyArtifact]
    after it reads the same file back, accepts it with the same size and
    checksum, and leaves the row a success. *)
Theorem create_then_verify id b R w :
  bdb_ok (bw_db w) -> row_of id (bw_db w) = Some b -> b_StorageType b = BackupStorageLocal ->
  in_int64 id = true -> manifest_strings_valid b ->
  names_free b (os_fs (bw_os w)) -> Forall (fun e => ~ artifact_like b e) (local_dir s (os_cwd (bw_os w))) ->
  usable_dir s (bw_os w) R ->
  let w1 := (run (bk_handle env start) (CreateArtifact s id) w).2 in
  let w2 := (run (bk_handle env start) (VerifyArtifact s id) w1).2 in
  exists x y b2,
    (run (bk_handle env start) (CreateArtifact s id) w).1 = Ok x /\
    (run (bk_handle env start) (VerifyArtifact s id) w1).1 = Ok y /\
    dto.bs_SizeBytes y = dto.bs_SizeBytes x /\ dto.bs_Checksum y = dto.bs_Checksum x /\ dto.bs_FilePath y = dto.bs_FilePath x /\
    bw_os w2 = bw_os w1 /\ row_of id (bw_db w2) = Some b2 /\ b_Status b2 = BackupStatusSuccess /\ backed b2 (bw_os w2).
Proof.
  intros Hok Hb Hst Hint Hval Hfree HLn Hus. cbv zeta.
  pose proof (create_quiet id b R w Hok Hb Hst Hfree HLn Hus) as Hc. unfold Effects.wp in Hc.
  destruct (run _ (CreateArtifact s id) w) as [r1 w1]. destruct Hc as (t & (time & ->) & Hcwd & Hrec). cbn [fst snd].
  pose proof (row_of_id _ _ _ Hb) as Hbid.
  assert (Hid : 0 < id).
  { destruct Hok as [_ _ [_ Hpos]]. apply first_where_Some in Hb as [Hin _]. rewrite Forall_forall in Hpos.
    specialize (Hpos b Hin). cbv beta in Hpos. lia. }
  rewrite <- Hcwd in Hrec.
  pose proof (verify_quiet id b t w1 Hid ltac:(by rewrite Hbid) Hval Hst Hrec) as Hv. unfold Effects.wp in Hv.
  destruct (run _ (VerifyArtifact s id) w1) as [r2 w2]. destruct Hv as (b1 & y & Hb1 & -> & Y1 & Y2 & Y3 & Hos & Hrec2). cbn [fst snd].
  destruct Hrec as (_ & _ & b1' & Hb1' & _ & (R1 & R2 & R3) & _). rewrite Hb1 in Hb1'. injection Hb1' as <-.
  destruct Hrec2 as (_ & Hp2 & b2 & Hb2 & Hs2 & (Q1 & Q2 & Q3) & _).
  eexists _, y, b2. split; [done|]. split; [done|]. rewrite Y1, Y2, Y3, R1, R2, R3, Hcwd.
  split; [by destruct b|]. split; [by destruct b|]. split; [by destruct b|]. split; [done|]. split; [done|]. split; [done|].
  exists (artifact_content b t). split; [|done]. rewrite Q3. apply published_reads; [apply abs_elements_clean|done].
Qed.

End Calm.
