(* ===== verification/BackupVerdict.v ===== *)
(** * The verdict on an artifact

    What [VerifyArtifact] accepts: exactly the files inside the local directory
    whose content is what the row has recorded; and whatever fails, it accepts
    nothing else. *)

From Stdlib Require Import ZArith Lia Ascii.
From stdpp Require Import gmap fin_maps.
From S2P Require Import Prelude GoString AsciiText GoTime GoError Effects Table Schema Json JsonIndent Crypto FilePath OsFs Dto.
From S2P Require Import BackupApi BackupRepo BackupService BackupNames BackupSystem BackupArtifact BackupVerify.

(** ** What is accepted *)

(** The real file of [path] is below the directory [base]. *)
Definition below (base : list string) (path : string) (st : os_state) : Prop :=
  exists m, walk eval_links (os_fs st) true [] (abs_elements (os_cwd st) (TrimSpace path)) = WFound (base ++ m).

Definition inside (s : backupService) (path : string) (st : os_state) : Prop :=
  below (real_dir (os_fs st) (local_dir s (os_cwd st))) path st.

(** The content is what the row says: a recorded checksum or a positive
    recorded size agrees, and a manifest names the backup. *)
Definition genuine (b : Backup) (content : string) : Prop :=
  (b_Checksum b = "" \/ b_Checksum b = checksum_of content) /\
  (b_SizeBytes b <= 0 \/ b_SizeBytes b = len content) /\
  (is_json_file (b_FilePath b) = true -> check_manifest b content = Ok tt).

Lemma recorded_mismatch_None b size checksum : recorded_mismatch b size checksum = None <->
  (b_Checksum b = "" \/ b_Checksum b = checksum) /\ (b_SizeBytes b <= 0 \/ b_SizeBytes b = size).
Proof.
  unfold recorded_mismatch.
  destruct (String.eqb_spec (b_Checksum b) ""); destruct (String.eqb_spec (b_Checksum b) checksum);
    destruct (Z.ltb_spec 0 (b_SizeBytes b)); destruct (Z.eqb_spec (b_SizeBytes b) size); cbn [negb andb];
    split; try done; try (intros _; split; auto; fail); try (intros [[?|?] [?|?]]; congruence || lia).
  all: intros _; split; auto; left; lia.
Qed.

(** The test of [backupPathWithinLocalDir] on the places found. *)
Lemma rel_test base q : clean_abs base -> clean_abs q ->
  match Rel (abs_path base) (abs_path q) with Some rel => rel_inside rel | None => false end = true
  <-> exists m, q = base ++ m.
Proof. apply rel_inside_iff. Qed.

Lemma eval_cases fs l : clean_abs l ->
  match EvalSymlinks (abs_path l) fs with
  | Ok v => exists q, walk eval_links fs true [] l = WFound q /\ clean_abs q /\ v = abs_path q
  | Err _ => forall q, walk eval_links fs true [] l <> WFound q
  end.
Proof.
  intros Hl. rewrite EvalSymlinks_abs by done. destruct (walk _ _ _ _ _) as [q|q|e] eqn:E; [|done|done].
  exists q. split; [done|]. split; [by eapply walk_abs_clean|done].
Qed.

Section Verdict.
Context (env : BackupEnv) (start : Z) (s : backupService).
Hypothesis Hdir : TrimSpace (localDir s) <> "".

#[local] Abbreviation wp := (wp (bk_handle env start)).

(** Operations that only look. *)
Lemma wp_os_reads o Q w : (forall cut st, (os_exec (cut_op cut o) st).2 = st) -> (os_exec o (bw_os w)).2 = bw_os w ->
  (forall n, Q (os_exec o (bw_os w)).1 (MkBackupWorld n (bw_db w) (bw_os w))) ->
  (forall e n, Q (Err e) (MkBackupWorld n (bw_db w) (bw_os w))) -> wp (os o) Q w.
Proof.
  intros H1 H2 HOk HErr. apply wp_os with (P := fun r s' => s' = bw_os w /\ (r = (os_exec o (bw_os w)).1 \/ exists e, r = Err e)).
  - intros [|e|e] cut; cbn [os_faulty fst snd]; eauto.
  - intros r s' n [-> [->|[e ->]]]; auto.
Qed.

(** Whatever fails, a path that passes is below the local directory. *)
Lemma within_sound path Q w : TrimSpace path <> "" ->
  (forall n (r : bool), (r = true -> exists base, (base = local_dir s (os_cwd (bw_os w)) \/
       base = real_dir (os_fs (bw_os w)) (local_dir s (os_cwd (bw_os w)))) /\ below base path (bw_os w)) ->
     Q r (MkBackupWorld n (bw_db w) (bw_os w))) ->
  wp (backupPathWithinLocalDir (localDir s) path) Q w.
Proof.
  intros Hp HQ. unfold backupPathWithinLocalDir.
  apply wp_bind, wp_Abs; [done| |intros n e; by apply wp_ret, HQ]. intros n1. cbn [bw_os bw_db].
  apply wp_bind, wp_Abs; [done| |intros n e; by apply wp_ret, HQ]. intros n2. cbn [bw_os bw_db].
  set (L := abs_elements _ (TrimSpace (localDir s))). set (P := abs_elements _ (TrimSpace path)).
  assert (HL : clean_abs L) by apply abs_elements_clean. assert (HP : clean_abs P) by apply abs_elements_clean.
  assert (Hlast : forall base n, clean_abs base -> base = L \/ base = real_dir (os_fs (bw_os w)) L ->
    wp (r <- os (OEvalSymlinks (abs_path P)) ;;
        match r with
        | Err _ => Ret false
        | Ok pathReal => Ret (match Rel (abs_path base) pathReal with Some rel => rel_inside rel | None => false end)
        end) Q (MkBackupWorld n (bw_db w) (bw_os w))).
  { intros base n Hbase Hb. apply wp_bind, wp_os_reads; [done|done| |intros e m; by apply wp_ret, HQ].
    intros m. cbn [os_exec fst bw_os bw_db]. pose proof (eval_cases (os_fs (bw_os w)) P HP) as He.
    destruct (EvalSymlinks (abs_path P) (os_fs (bw_os w))) as [v|e]; [|by apply wp_ret, HQ].
    destruct He as (q & Hq & Hqc & ->). apply wp_ret, HQ. intros Hr. apply rel_test in Hr as [k ->]; [|done|done].
    exists base. split; [done|]. exists k. exact Hq. }
  apply wp_bind, wp_os_reads; [done|done| |intros e m; apply Hlast; auto].
  intros m. cbn [os_exec fst bw_os bw_db]. pose proof (eval_cases (os_fs (bw_os w)) L HL) as He.
  destruct (EvalSymlinks (abs_path L) (os_fs (bw_os w))) as [v|e]; [|apply Hlast; auto].
  destruct He as (q & Hq & Hqc & ->). apply Hlast; [done|]. right. unfold real_dir. by rewrite Hq.
Qed.

(** When nothing fails the test is exact. *)
Lemma within_exact path Q w : quiet_env env -> TrimSpace path <> "" ->
  (forall n (r : bool), (r = true <-> inside s path (bw_os w)) -> Q r (MkBackupWorld n (bw_db w) (bw_os w))) ->
  wp (backupPathWithinLocalDir (localDir s) path) Q w.
Proof.
  intros Hq Hp HQ. unfold backupPathWithinLocalDir.
  apply wp_bind, wp_Abs_quiet; [done|done|]. intros n1. cbn [bw_os bw_db].
  apply wp_bind, wp_Abs_quiet; [done|done|]. intros n2. cbn [bw_os bw_db].
  set (L := abs_elements _ (TrimSpace (localDir s))). set (P := abs_elements _ (TrimSpace path)).
  assert (HL : clean_abs L) by apply abs_elements_clean. assert (HP : clean_abs P) by apply abs_elements_clean.
  apply wp_bind, wp_os_quiet; [done|]. cbn [os_exec fst snd bw_os bw_db bw_step].
  assert (ER : match EvalSymlinks (abs_path L) (os_fs (bw_os w)) with Ok localReal => localReal | Err _ => abs_path L end
    = abs_path (real_dir (os_fs (bw_os w)) L)).
  { rewrite EvalSymlinks_abs by done. unfold real_dir. by destruct (walk _ _ _ _ _). }
  apply wp_bind, wp_os_quiet; [done|]. cbn [os_exec fst snd bw_os bw_db bw_step].
  pose proof (eval_cases (os_fs (bw_os w)) P HP) as He.
  destruct (EvalSymlinks (abs_path P) (os_fs (bw_os w))) as [v|e].
  - destruct He as (q & Eq & Hqc & ->). apply wp_ret, HQ. match goal with |- context [Rel ?x _] => replace x with (abs_path (real_dir (os_fs (bw_os w)) L)) by (symmetry; exact ER) end.
    rewrite rel_test; [|by apply real_dir_clean|done].
    unfold inside, below. fold P. rewrite Eq. split; [intros [m ->]; by exists m|]. intros [m [= ->]]. by exists m.
  - apply wp_ret, HQ. split; [done|]. intros [m Hm]. by destruct (He _ Hm).
Qed.

(** What a verification leaves when it says success. *)
Definition accepted (b : Backup) (st : os_state) (b' : Backup) : Prop := exists c base,
  (base = local_dir s (os_cwd st) \/ base = real_dir (os_fs st) (local_dir s (os_cwd st))) /\
  below base (b_FilePath b) st /\ ReadFile (b_FilePath b) (os_cwd st) (os_fs st) = Ok c /\ genuine b c /\
  recorded (len c) (checksum_of c) (b_FilePath b) b'.

Definition verify_outcome (id : Z) (b : Backup) (w : BackupWorld) (r : res dto.BackupSummary) (w' : BackupWorld) : Prop :=
  bw_os w' = bw_os w /\ row_change id b (accepted b (bw_os w)) (bw_db w) (bw_db w') /\
  forall x, r = Ok x -> exists b', row_of id (bw_db w') = Some b' /\ b_Status b' = BackupStatusSuccess /\
    accepted b (bw_os w) b' /\ dto.bs_SizeBytes x = b_SizeBytes b' /\ dto.bs_Checksum x = b_Checksum b' /\
    dto.bs_Status x = BackupStatusSuccess.

Lemma validate_sound b w Q :
  (forall n r, (r = Ok tt -> forall c, ReadFile (b_FilePath b) (os_cwd (bw_os w)) (os_fs (bw_os w)) = Ok c ->
       is_json_file (b_FilePath b) = true -> check_manifest b c = Ok tt) ->
     Q r (MkBackupWorld n (bw_db w) (bw_os w))) ->
  wp (validateBackupArtifactManifest b) Q w.
Proof.
  intros HQ. unfold validateBackupArtifactManifest. destruct (is_json_file (b_FilePath b)) eqn:Ej; cbn [negb].
  - apply wp_bind_ok, wp_os_reads; [done|done| |intros e n; by apply HQ]. intros n. cbn [os_exec fst].
    destruct (ReadFile _ _ _) as [c|e] eqn:E; [|by apply HQ]. apply wp_ret, HQ. by intros H c' [= <-] _.
  - apply wp_ret. destruct w as [n d st]. by apply HQ.
Qed.

Lemma VerifyArtifact_outcome id b w : row_of id (bw_db w) = Some b ->
  wp (VerifyArtifact s id) (verify_outcome id b w) w.
Proof.
  intros Hb. pose proof (row_change_refl id b (fun _ => False) (bw_db w) Hb) as Hr0.
  assert (Hweak : forall d, row_change id b (fun _ => False) (bw_db w) d -> row_change id b (accepted b (bw_os w)) (bw_db w) d).
  { intros d Hd. eapply row_change_mono; [|exact Hd]. by intros x []. }
  assert (Herr : forall err d n, row_change id b (fun _ => False) (bw_db w) d ->
    verify_outcome id b w (Err err) (MkBackupWorld n d (bw_os w))).
  { intros err d n Hd. split; [done|]. split; [by apply Hweak|done]. }
  assert (Hfail : forall err w', bw_os w' = bw_os w -> row_change id b (fun _ => False) (bw_db w) (bw_db w') ->
    wp (mark_failed id err) (verify_outcome id b w) w').
  { intros err w' E Hr. apply (wp_mark_failed env start id b (fun _ => False) (bw_db w)); [done|]. intros d n Hd. rewrite E. by apply Herr. }
  unfold VerifyArtifact. destruct (id <=? 0).
  { apply wp_ret. destruct w as [n d st]. by apply Herr. }
  unfold find_backup. apply wp_or_internal.
  apply wp_brepo with (P := fun r d => d = bw_db w /\ (r = Ok (Some b) \/ exists e, r = Err e)); [|eauto..|].
  { intros time. split; [done|]. left. cbn. unfold backup_repository.GetByID. by rewrite <- Hb. }
  intros r d n [-> [->|[e ->]]]; [|by apply Herr].
  destruct (negb (b_StorageType b =? BackupStorageLocal)%string); [by apply Hfail|].
  destruct (TrimSpace (b_FilePath b) =? "")%string eqn:Ep; [by apply Hfail|]. apply String.eqb_neq in Ep.
  apply wp_bind, within_sound; [done|]. intros n1 inside Hin. cbn [bw_os bw_db] in Hin |- *.
  destruct inside; cbn [negb]; [|by apply Hfail]. destruct (Hin eq_refl) as (base & Hbase & Hbelow).
  apply wp_or_mark_failed. unfold checksumLocalBackupFile. apply wp_bind_ok, wp_os_reads; [done|done| |intros e m; by apply Hfail].
  intros n2. cbn [os_exec fst bw_os bw_db]. destruct (ReadFile _ _ _) as [c|e] eqn:Ec; [|by apply Hfail]. apply wp_ret.
  destruct (recorded_mismatch b (len c) (checksum_of c)) as [msg|] eqn:Em; [by apply Hfail|]. apply recorded_mismatch_None in Em as [E1 E2].
  apply wp_bind, validate_sound. intros n3 valid Hval. cbn [bw_os bw_db] in Hval |- *. destruct valid as [[]|e]; [|by apply Hfail].
  assert (Hacc : forall x, recorded (len c) (checksum_of c) (b_FilePath b) x -> accepted b (bw_os w) x).
  { intros x Hx. exists c, base. split; [done|]. split; [done|]. split; [done|]. split; [|done].
    split; [done|]. split; [done|]. by apply Hval. }
  assert (Hconv : forall d, row_change id b (fun x => False \/ recorded (len c) (checksum_of c) (b_FilePath b) x) (bw_db w) d ->
    row_change id b (accepted b (bw_os w)) (bw_db w) d).
  { intros d Hd. eapply row_change_mono; [|exact Hd]. intros x [[]|Hx]. by apply Hacc. }
  apply wp_or_internal. apply (wp_update_verification env start id b (fun _ => False) (bw_db w)); [done|done| |].
  - intros d n4 Hd (b' & Hb' & Hst & Hrec). apply wp_bind, wp_backup_now. intros m. apply wp_ret.
    split; [done|]. split; [by apply Hconv|]. intros x [= <-]. exists b'. split; [done|]. split; [done|].
    split; [by apply Hacc|]. destruct Hrec as (R1 & R2 & _). rewrite R1, R2. by destruct b.
  - intros e d n4 Hd. split; [done|]. split; [by apply Hconv|done].
Qed.

(** Whatever fails during a verification, it writes no file and touches no
    other row, and it accepts nothing wrong: the row says success only as before
    or after a file was read whose path is below the local directory, whose
    content has the checksum and the size the row had recorded, and whose
    manifest names this backup; the row then records the size and checksum read. *)
Theorem VerifyArtifact_sound id b w : row_of id (bw_db w) = Some b ->
  verify_outcome id b w (run (bk_handle env start) (VerifyArtifact s id) w).1
    (run (bk_handle env start) (VerifyArtifact s id) w).2.
Proof. intros Hb. pose proof (VerifyArtifact_outcome id b w Hb) as H. unfold Effects.wp in H. by destruct (run _ _ _). Qed.

(** The row of a verification that failed. *)
Definition rejected (id : Z) (b : Backup) (r : res dto.BackupSummary) (w' : BackupWorld) : Prop :=
  (exists e, r = Err e) /\ exists time, row_of id (bw_db w') =
    Some (assign_backup [bcol_Status BackupStatusFailed; bcol_UpdatedAt time] b).

Definition good (b : Backup) (st : os_state) (c : string) : Prop :=
  b_StorageType b = BackupStorageLocal /\ TrimSpace (b_FilePath b) <> "" /\ inside s (b_FilePath b) st /\
  ReadFile (b_FilePath b) (os_cwd st) (os_fs st) = Ok c /\ genuine b c.

Definition verdict (id : Z) (b : Backup) (st : os_state) (r : res dto.BackupSummary) (w' : BackupWorld) : Prop :=
  (exists c, good b st c /\ is_ok r = true /\ exists time, row_of id (bw_db w') =
     Some (verified b (len c) (checksum_of c) (b_FilePath b) time)) \/
  ((forall c, ~ good b st c) /\ rejected id b r w').

Lemma validate_exact b c w Q : quiet_env env -> ReadFile (b_FilePath b) (os_cwd (bw_os w)) (os_fs (bw_os w)) = Ok c ->
  (forall n r, (r = Ok tt <-> (is_json_file (b_FilePath b) = true -> check_manifest b c = Ok tt)) ->
     Q r (MkBackupWorld n (bw_db w) (bw_os w))) ->
  wp (validateBackupArtifactManifest b) Q w.
Proof.
  intros Hq Hc HQ. unfold validateBackupArtifactManifest. destruct (is_json_file (b_FilePath b)) eqn:Ej; cbn [negb].
  - apply wp_bind_ok, wp_os_quiet; [done|]. cbn [os_exec fst snd]. rewrite Hc. apply wp_ret, HQ. split; auto.
  - apply wp_ret. destruct w as [n d st]. by apply HQ.
Qed.

Lemma VerifyArtifact_exact id b w : quiet_env env -> bdb_ok (bw_db w) -> row_of id (bw_db w) = Some b ->
  wp (VerifyArtifact s id) (verdict id b (bw_os w)) w.
Proof.
  intros Hq Hok Hb.
  assert (Hfail : forall err w', bw_os w' = bw_os w -> bw_db w' = bw_db w -> (forall c, ~ good b (bw_os w) c) ->
    wp (mark_failed id err) (verdict id b (bw_os w)) w').
  { intros err w' E1 E2 Hng. apply wp_bind. apply (wp_status_quiet env start Hq id b); [by rewrite E2|by rewrite E2|in_list|].
    intros time n d _ Hrow. apply wp_ret. right. split; [done|]. split; [eauto|]. by exists time. }
  assert (Hid : 0 < id).
  { destruct Hok as [_ _ [_ Hpos]]. pose proof (row_of_id _ _ _ Hb) as Hi. apply first_where_Some in Hb as [Hin _].
    rewrite Forall_forall in Hpos. specialize (Hpos b Hin). cbv beta in Hpos. lia. }
  unfold VerifyArtifact. replace (id <=? 0) with false by (symmetry; apply Z.leb_gt; lia).
  apply (wp_find env start Hq id b); [done|].
  destruct (String.eqb_spec (b_StorageType b) BackupStorageLocal) as [Est|Est]; cbn [negb];
    [|apply Hfail; [done|done|]; by intros c (? & _)].
  destruct (TrimSpace (b_FilePath b) =? "")%string eqn:Ep.
  { apply String.eqb_eq in Ep. apply Hfail; [done|done|]. by intros c (_ & ? & _). }
  apply String.eqb_neq in Ep. apply wp_bind, within_exact; [done|done|]. intros n1 r Hin. cbn [bw_os bw_db] in Hin |- *.
  destruct r; cbn [negb]; [|apply Hfail; [done|done|]; intros c (_ & _ & H & _); by apply Hin in H].
  destruct (Hin) as [Hin' _]. specialize (Hin' eq_refl).
  apply wp_or_mark_failed. unfold checksumLocalBackupFile. apply wp_bind_ok, wp_os_quiet; [done|].
  cbn [os_exec fst snd bw_os bw_db bw_step]. destruct (ReadFile _ _ _) as [c|e] eqn:Ec;
    [|apply Hfail; [done|done|]; intros c (_ & _ & _ & H & _); congruence].
  apply wp_ret. destruct (recorded_mismatch b (len c) (checksum_of c)) as [msg|] eqn:Em.
  { apply Hfail; [done|done|]. intros c' (_ & _ & _ & H & H1 & H2 & _). assert (c' = c) as -> by congruence.
    by rewrite (proj2 (recorded_mismatch_None b (len c) (checksum_of c)) (conj H1 H2)) in Em. }
  apply recorded_mismatch_None in Em as [E1 E2].
  apply wp_bind, (validate_exact b c); [done|done|]. intros n3 valid Hval. cbn [bw_os bw_db].
  destruct valid as [[]|e].
  - assert (Hgood : good b (bw_os w) c).
    { split; [done|]. split; [done|]. split; [done|]. split; [done|]. split; [done|]. split; [done|]. by apply Hval. }
    apply wp_or_internal, (wp_verification_quiet env start Hq id b); cbn [bw_db bw_os]; try done;
      [apply backup_len_nonneg|apply checksum_of_canonical|].
    intros time n d _ Hrow. apply wp_bind, wp_backup_now. intros m. apply wp_ret. left. exists c. split; [done|]. split; [done|]. by exists time.
  - apply Hfail; [done|done|]. intros c' (_ & _ & _ & H & _ & _ & H2). assert (c' = c) as -> by congruence.
    apply Hval in H2. done.
Qed.


End Verdict.
