(* ===== verification/BackupRetention.v ===== *)
(** * Retention

    What a clean-up deletes, what it archives first, and what it leaves alone,
    whatever fails on the way; and the gap between the two statements when
    another request runs in between. *)

From Stdlib Require Import ZArith Lia Ascii.
From stdpp Require Import gmap fin_maps sorting.
From S2P Require Import Prelude GoString AsciiText GoTime GoError Effects Table Schema Json Crypto FilePath OsFs Dto.
From S2P Require Import BackupApi BackupRepo BackupService BackupNames BackupSystem BackupArtifact.

(** ** The archive file *)

Definition archive_text (cutoff : Z) (times : list Z) (items : list Backup) : string :=
  concat_str (zip_with (fun t b => archive_line t cutoff b) times items).

(** A complete archive of the rows is at the path. *)
Definition archived (cutoff : Z) (items : list Backup) (st : os_state) (path : string) : Prop :=
  exists times, length times = length items /\ ReadFile path (os_cwd st) (os_fs st) = Ok (archive_text cutoff times items).

(** The rows a clean-up at [cutoff] deletes, oldest first. *)
Definition deletable_rows (cutoff : Z) (db : BackupDB) : list Backup :=
  merge_sort backup_repository.older (select_where (backup_repository.deletable cutoff) (bdb_rows db)).

Definition without_deletable (cutoff : Z) (db : BackupDB) : BackupDB :=
  with_rows (delete_where (backup_repository.deletable cutoff) (bdb_rows db)) db.

Lemma deletable_rows_elem cutoff db b : b ∈ deletable_rows cutoff db <->
  b ∈ bdb_rows db /\ backup_repository.deletable cutoff b = true.
Proof.
  unfold deletable_rows. rewrite merge_sort_Permutation. unfold select_where.
  rewrite list_elem_of_In, filter_In, <- list_elem_of_In. done.
Qed.

Lemma deletable_rows_count cutoff db :
  Z.of_nat (length (deletable_rows cutoff db)) = count_where (backup_repository.deletable cutoff) (bdb_rows db).
Proof. unfold deletable_rows, count_where, select_where. by rewrite merge_sort_Permutation. Qed.

Section Retention.
Context (env : BackupEnv) (start : Z) (s : backupService).

#[local] Abbreviation wp := (wp (bk_handle env start)).

Section Archive.
Context (cutoff : Z) (fs0 : filesystem) (cwd L : list string) (name : string).
Hypothesis HL : clean_abs L.
Hypothesis Hname : file_name name = true.

(** The files there were are as they were. *)
Definition kept (st : os_state) : Prop := os_cwd st = cwd /\ fs0 ⊆ os_fs st.

(** The file behind the descriptor is new, in the directory, with the content. *)
Definition archive_at (fd : place) (c : string) (st : os_state) : Prop :=
  kept st /\ fs0 !! fd = None /\ exists q, fd = q ++ [name] /\
  walk kernel_links (os_fs st) true [] L = WFound q /\ is_dir (os_fs st) q = true /\ os_fs st !! fd = Some (NFile c).

Lemma archive_reads fd c st : archive_at fd c st -> ReadFile (abs_path (L ++ [name])) (os_cwd st) (os_fs st) = Ok c.
Proof.
  intros (_ & _ & q & -> & H1 & H2 & H3). unfold ReadFile.
  rewrite lookup_abs by (apply Forall_app_2; [done|by repeat constructor]).
  rewrite (walk_snoc _ name Hname kernel_links [] L q H1 H2) by (by rewrite H3). unfold last_step. by rewrite H3, node_at_snoc, H3.
Qed.

Lemma create_archive st : kept st ->
  match CreateExcl (abs_path (L ++ [name])) (os_cwd st) (os_fs st) with
  | (Ok fd, fs) => archive_at fd "" (with_fs st fs)
  | (Err _, fs) => fs = os_fs st
  end.
Proof.
  intros [Hc Hsub]. unfold CreateExcl.
  rewrite lookup_abs by (apply Forall_app_2; [done|by repeat constructor]).
  destruct (walk _ _ _ _ _) as [p|p|e] eqn:E; [done| |done].
  pose proof (walk_missing _ _ _ _ _ _ E) as (_ & _ & _ & _ & Hnone).
  apply walk_snoc_missing in E as (q & -> & H1 & H2); [|done]. unfold archive_at, kept. cbn [with_fs os_cwd os_fs].
  assert (H0 : fs0 !! (q ++ [name]) = None) by (by eapply lookup_weaken_None).
  split; [split; [done|]; by apply insert_subseteq_r|]. split; [done|]. exists q.
  pose proof (insert_file_keeps (os_fs st) (q ++ [name]) "") as Hk. rewrite Hnone in Hk.
  split; [done|]. split; [eapply walk_keeps; eauto|]. split; [eapply is_dir_keeps; eauto|]. apply lookup_insert_eq.
Qed.

Lemma append_archive fd c data st : archive_at fd c st -> archive_at fd (c +:+ data)%string (with_fs st (Append fd data (os_fs st)).2).
Proof.
  intros ([Hc Hsub] & H0 & q & -> & H1 & H2 & H3). unfold archive_at, kept, Append. rewrite H3. cbn [with_fs os_cwd os_fs snd].
  pose proof (insert_file_keeps (os_fs st) (q ++ [name]) (c +:+ data)%string) as Hk. rewrite H3 in Hk.
  assert (Hk' : keeps_dirs (os_fs st) (<[q ++ [name]:=NFile (c +:+ data)%string]> (os_fs st))) by (apply Hk; by intros []).
  split; [split; [done|]; by apply insert_subseteq_r|]. split; [done|]. exists q.
  split; [done|]. split; [eapply walk_keeps; eauto|]. split; [eapply is_dir_keeps; eauto|]. apply lookup_insert_eq.
Qed.

(** The loop writes one line for every row, or fails. *)
Lemma write_lines_archive items : forall fd c w Q, archive_at fd c (bw_os w) ->
  (forall times n st, length times = length items -> archive_at fd (c +:+ archive_text cutoff times items)%string st ->
     Q (Ok tt) (MkBackupWorld n (bw_db w) st)) ->
  (forall e n st, kept st -> Q (Err e) (MkBackupWorld n (bw_db w) st)) ->
  wp (write_lines fd cutoff items) Q w.
Proof.
  induction items as [|b items IH]; intros fd c w Q Hat HOk HErr; cbn [write_lines].
  - apply wp_ret. destruct w as [n d st]. apply (HOk [] n st eq_refl). unfold archive_text. cbn [zip_with concat_str]. by rewrite app_nil_r_str.
  - apply wp_bind, wp_backup_now. intros n1. set (t := clock _ _ _). cbn [bw_db bw_os].
    apply wp_bind_ok, wp_os with (P := fun r st => (r = Ok tt /\ archive_at fd (c +:+ archive_line t cutoff b)%string st) \/ ((exists e, r = Err e) /\ kept st)).
    + intros f cut. destruct f as [|e|e]; cbn [os_faulty cut_op os_exec on_fs fst snd bw_os].
      * left. split; [|by apply append_archive]. unfold Append. by destruct Hat as (_ & _ & q & -> & _ & _ & ->).
      * right. split; [eauto|]. apply Hat.
      * right. split; [eauto|]. apply (append_archive fd c (take_bytes cut (archive_line t cutoff b)) (bw_os w) Hat).
    + intros r st n [[-> Hat']|[[e ->] Hk]]; [|by apply HErr]. apply (IH fd _ (MkBackupWorld n (bw_db w) st) Q Hat'); cbn [bw_db].
      * intros times m st' Hlen Hat2. apply (HOk (t :: times) m st'); [cbn; by rewrite Hlen|].
        unfold archive_text in *. cbn [zip_with concat_str]. by rewrite app_assoc_str in Hat2.
      * intros e m st' Hk. by apply HErr.
Qed.

End Archive.

Lemma kept_mkdir fs0 cwd path st : kept fs0 cwd st -> kept fs0 cwd (with_fs st (MkdirAll path (os_cwd st) (os_fs st)).2).
Proof.
  intros [Hc Hsub]. split; [done|]. cbn [with_fs os_fs]. unfold MkdirAll. destruct (path =? "")%string; [done|].
  etransitivity; [exact Hsub|apply mkdirs_keeps].
Qed.

Lemma writeRetentionArchive_safe items cutoff w Q : items <> [] -> TrimSpace (localDir s) <> "" ->
  (forall path n st, kept (os_fs (bw_os w)) (os_cwd (bw_os w)) st -> archived cutoff items st path ->
     Q (Ok path) (MkBackupWorld n (bw_db w) st)) ->
  (forall e n st, kept (os_fs (bw_os w)) (os_cwd (bw_os w)) st -> Q (Err e) (MkBackupWorld n (bw_db w) st)) ->
  wp (writeRetentionArchive s items cutoff) Q w.
Proof.
  intros Hne Hdir HOk HErr. set (fs0 := os_fs (bw_os w)) in *. set (cwd := os_cwd (bw_os w)) in *.
  assert (Hk0 : kept fs0 cwd (bw_os w)) by done.
  unfold writeRetentionArchive. destruct items as [|b0 items0] eqn:Ei; [done|]. rewrite <- Ei in *. clear b0 items0 Ei.
  apply wp_bind_ok, wp_Abs; [done| |intros n e; by apply HErr]. intros n1. cbn [bw_os bw_db].
  set (L := abs_elements _ _). assert (HL : clean_abs L) by apply abs_elements_clean.
  apply wp_bind_ok, wp_os with (P := fun _ st => kept fs0 cwd st).
  { intros [|e|e] cut; cbn [os_faulty cut_op os_exec on_fs snd bw_os]; [by apply kept_mkdir|done|by apply kept_mkdir]. }
  intros [[]|e] st n2 Hk; [|by apply HErr]. apply wp_bind, wp_backup_now. intros n3. cbn [bw_os bw_db]. set (t := clock _ _ _).
  rewrite path_inside_ok by (done || apply archive_name_ok).
  pose proof (archive_name_ok t) as Hname. set (name := archive_name t) in *.
  apply wp_bind_ok, wp_os with (P := fun r st' => match r with Ok fd => archive_at fs0 cwd L name fd "" st' | Err _ => kept fs0 cwd st' end).
  { intros f cut. pose proof (create_archive fs0 cwd L name HL Hname st Hk) as Hc.
    destruct f as [|e|e]; cbn [os_faulty cut_op os_exec on_fs fst snd bw_os]; [|done|];
      destruct (CreateExcl _ _ _) as [[fd|e'] fs]; cbn [fst snd] in *; [done| |apply Hc|]; subst fs; by destruct st. }
  intros [fd|e] st' n4 Hat; [|by apply HErr]. apply wp_bind_ok.
  apply (write_lines_archive cutoff fs0 cwd L name items fd ""); [done| |].
  - intros times n st2 Hlen Hat2. cbn [bw_db]. apply wp_ret. apply HOk; [apply Hat2|]. exists times. split; [done|].
    by apply (archive_reads fs0 cwd L name HL Hname fd _ st2) in Hat2.
  - intros e n st2 Hk2. cbn [bw_db]. by apply HErr.
Qed.

(** ** [CleanupRetention] *)

Definition cleanup_outcome (req : dto.BackupRetentionCleanupRequest) (cutoff : Z) (w : BackupWorld)
  (r : res dto.BackupRetentionCleanupResult) (w' : BackupWorld) : Prop :=
  let db := bw_db w in
  let deletes := bw_db w' = without_deletable cutoff db /\ dto.brq_DryRun req = false /\
    (dto.brq_ArchiveBeforeDelete req = true -> deletable_rows cutoff db <> [] ->
     exists path, archived cutoff (deletable_rows cutoff db) (bw_os w') path /\
       forall x, r = Ok x -> dto.br_ArchivePath x = path) in
  os_fs (bw_os w) ⊆ os_fs (bw_os w') /\
  (dto.brq_DryRun req = true -> bw_db w' = db /\ bw_os w' = bw_os w) /\
  (bw_db w' = db \/ deletes) /\
  forall x, r = Ok x -> dto.br_MatchedRows x = Z.of_nat (length (deletable_rows cutoff db)) /\
    dto.br_DeletedRows x = (if dto.brq_DryRun req then 0 else dto.br_MatchedRows x) /\
    (dto.brq_DryRun req = false -> deletes).

(** The statement that deletes. *)
Lemma delete_outcome cutoff w Q :
  (forall n, Q (Ok (Z.of_nat (length (deletable_rows cutoff (bw_db w))))) (MkBackupWorld n (without_deletable cutoff (bw_db w)) (bw_os w))) ->
  (forall e n, Q (Err e) (MkBackupWorld n (without_deletable cutoff (bw_db w)) (bw_os w))) ->
  (forall e n, Q (Err e) (MkBackupWorld n (bw_db w) (bw_os w))) ->
  wp (brepo (BRDeleteDeletableBefore cutoff)) Q w.
Proof.
  intros H1 H2 H3. apply wp_brepo with (P := fun r d =>
    (r = Ok (Z.of_nat (length (deletable_rows cutoff (bw_db w)))) /\ d = without_deletable cutoff (bw_db w)) \/
    ((exists e, r = Err e) /\ (d = without_deletable cutoff (bw_db w) \/ d = bw_db w))).
  - intros time. left. cbn. by rewrite deletable_rows_count.
  - intros time e. right. eauto.
  - intros e. right. eauto.
  - intros r d n [[-> ->]|[[e ->] [-> | ->]]]; auto.
Qed.

(** A statement that only reads. *)
Lemma wp_brepo_reads o Q w : (forall time, (brepo_exec time o (bw_db w)).2 = bw_db w) ->
  (forall time n, Q (brepo_exec time o (bw_db w)).1 (MkBackupWorld n (bw_db w) (bw_os w))) ->
  (forall e n, Q (Err e) (MkBackupWorld n (bw_db w) (bw_os w))) -> wp (brepo o) Q w.
Proof.
  intros H1 H2 H3. apply wp_brepo with (P := fun r d => d = bw_db w /\ ((exists time, r = (brepo_exec time o (bw_db w)).1) \/ exists e, r = Err e)).
  - intros time. eauto.
  - intros time e. eauto.
  - eauto.
  - intros r d n [-> [[time ->]|[e ->]]]; auto.
Qed.

Lemma cleanup_wp req w : TrimSpace (localDir s) <> "" ->
  wp (CleanupRetention s req) (cleanup_outcome req (AddDays (- retention_days s req) (clock env start w)) w) w.
Proof.
  intros Hdir. unfold CleanupRetention. apply wp_bind, wp_backup_now. intros n1. set (cutoff := AddDays _ _).
  assert (Herr : forall e n st, kept (os_fs (bw_os w)) (os_cwd (bw_os w)) st -> (dto.brq_DryRun req = true -> st = bw_os w) ->
    cleanup_outcome req cutoff w (Err e) (MkBackupWorld n (bw_db w) st)).
  { intros e n st [_ Hk] Hd. split; [done|]. split; [intros E; by rewrite Hd|]. split; [by left|done]. }
  apply wp_or_internal, wp_brepo_reads; [done| |intros e n; by apply Herr]. intros time n2. cbn [bw_db bw_os brepo_exec fst].
  unfold backup_repository.CountDeletableBefore. rewrite <- deletable_rows_count. set (items := deletable_rows cutoff (bw_db w)).
  destruct (dto.brq_DryRun req) eqn:Edry.
  { apply wp_ret. split; [done|]. split; [done|]. split; [by left|]. intros x [= <-]. cbn. by rewrite Edry. }
  apply wp_or_internal.
  assert (Hdel : forall path n st, kept (os_fs (bw_os w)) (os_cwd (bw_os w)) st ->
    (dto.brq_ArchiveBeforeDelete req = true -> items <> [] -> archived cutoff items st path) ->
    wp (or_internal (brepo (BRDeleteDeletableBefore cutoff)) (fun deletedRows => Ret (Ok
      {| dto.br_DryRun := false; dto.br_RetentionDays := retention_days s req;
       dto.br_Cutoff := FormatRFC3339 cutoff; dto.br_MatchedRows := Z.of_nat (length items);
       dto.br_DeletedRows := deletedRows; dto.br_ArchiveBeforeDelete := dto.brq_ArchiveBeforeDelete req;
       dto.br_ArchivePath := path |})))
      (cleanup_outcome req cutoff w) (MkBackupWorld n (bw_db w) st)).
  { intros path n st Hk Har. apply wp_or_internal, delete_outcome; cbn [bw_db bw_os]; fold items.
    - intros m. apply wp_ret. assert (Hd : bw_db (MkBackupWorld m (without_deletable cutoff (bw_db w)) st) = without_deletable cutoff (bw_db w)) by done.
      split; [apply Hk|]. split; [by rewrite Edry|].
      split; [right|intros x [= <-]; cbn; rewrite Edry; split; [done|split; [done|intros _]]];
        (split; [done|]; split; [done|]; intros Ha Hi; exists path; split; [by apply Har|]; by intros x [= <-]).
    - intros e m. split; [apply Hk|]. split; [by rewrite Edry|]. split; [|done]. right. split; [done|]. split; [done|].
      intros Ha Hi. exists path. split; [by apply Har|done].
    - intros e m. by apply Herr. }
  destruct (dto.brq_ArchiveBeforeDelete req && (0 <? Z.of_nat (length items))) eqn:Ea.
  - apply andb_prop in Ea as [Ea Hlen]. apply Z.ltb_lt in Hlen.
    apply wp_bind_ok, wp_brepo_reads; [done| |intros e n; by apply Herr]. intros time' n3.
    cbn [bw_db bw_os brepo_exec fst]. unfold backup_repository.ListDeletableBefore. fold (deletable_rows cutoff (bw_db w)). fold items.
    apply writeRetentionArchive_safe; [by intros ->|done| |]; cbn [bw_db bw_os].
    + intros path n st Hk Har. by apply Hdel.
    + intros e n st Hk. by apply Herr.
  - apply wp_ret. apply Hdel; [done|]. intros Ha Hi. rewrite Ha in Ea. cbn [andb] in Ea. apply Z.ltb_ge in Ea. destruct items; [done|]. cbn [length] in Ea. lia.
Qed.


End Retention.
