(* ===== verification/BackupExamples.v ===== *)
(** * Backups at concrete inputs

    The theorems on artifacts, verification and retention at a small table and
    file system, with and without faults; a path that leads out of the local
    directory; and a clean-up with another request between its statements. *)

From Stdlib Require Import ZArith Lia Ascii.
From stdpp Require Import gmap fin_maps.
From S2P Require Import Prelude GoString GoTime GoError Effects Table Schema Json Crypto FilePath OsFs Dto.
From S2P Require Import BackupApi BackupRepo BackupService BackupNames BackupSystem BackupArtifact BackupVerify.
From S2P Require Import BackupVerdict BackupRetention.

Definition svc0 : backupService := NewBackupServiceWithOptions 30 " /b ".

Definition start0 : Z := 1700000000 * Second.

(** Every operation takes a millisecond; [failing n] loses operation [n] after
    its effect, a write after eight bytes. *)
Definition quiet0 : BackupEnv :=
  {| be_delay n := Z.of_nat n * 1000000; be_db _ := NoFault; be_os _ := NoFault; be_cut _ := 8%nat |}.

Definition failing (k : nat) : BackupEnv :=
  {| be_delay n := Z.of_nat n * 1000000; be_db _ := NoFault; be_cut _ := 8%nat;
     be_os n := if (n =? k)%nat then FailAfter (ErrNew "i/o error") else NoFault |}.

Lemma quiet0_quiet : quiet_env quiet0.
Proof. done. Qed.

Lemma svc0_dir : TrimSpace (localDir svc0) <> "".
Proof. done. Qed.

Definition row0 : Backup :=
  MkBackup 1 "postgres" "db/Main 1" "local" "" 0 "" "pending" (Some 7) (start0 - 5 * Second) (start0 - 5 * Second).

Definition db_with (l : list Backup) : BackupDB := {| bdb_rows := l; bdb_next := 10 |}.

Definition fs_dirs : filesystem := {[ ["b"] := NDir ]}.

Definition w0 : BackupWorld := MkBackupWorld 0 (db_with [row0]) {| os_fs := fs_dirs; os_cwd := ["srv"] |}.

Ltac concrete_db :=
  split; [by repeat constructor | vm_compute; repeat constructor; set_solver | split; [done|by repeat constructor]].

Lemma w0_db : bdb_ok (bw_db w0).
Proof. concrete_db. Qed.

(** Names that do not begin as those of artifacts do. *)
Lemma not_artifact b f : HasPrefix f "snowpanel-" = false -> ~ artifact_like b f.
Proof.
  intros H (t & [-> | ->]); unfold temp_name, artifact_name in H; rewrite ?app_assoc_str, HasPrefix_of in H; done.
Qed.

Lemma w0_names : names_free row0 (os_fs (bw_os w0)).
Proof.
  intros q f n Hf Hn. exfalso. cbn in Hn. unfold fs_dirs in Hn. apply lookup_singleton_Some in Hn as [E _].
  destruct q as [|x q]; [|by destruct q]. injection E as <-. by apply (not_artifact row0 "b") in Hf.
Qed.

Lemma w0_local : Forall (fun e => ~ artifact_like row0 e) (local_dir svc0 (os_cwd (bw_os w0))).
Proof. replace (local_dir _ _) with ["b"] by (vm_compute; reflexivity). constructor; [by apply not_artifact|constructor]. Qed.

Lemma w0_usable : usable_dir svc0 (bw_os w0) ["b"].
Proof. eexists. split; [vm_compute; reflexivity|]. split; vm_compute; reflexivity. Qed.

(** Creation and verification. *)
Lemma create_then_verify_witness :
  let w1 := (run (bk_handle quiet0 start0) (CreateArtifact svc0 1) w0).2 in
  let w2 := (run (bk_handle quiet0 start0) (VerifyArtifact svc0 1) w1).2 in
  exists x y b2,
    (run (bk_handle quiet0 start0) (CreateArtifact svc0 1) w0).1 = Ok x /\
    (run (bk_handle quiet0 start0) (VerifyArtifact svc0 1) w1).1 = Ok y /\
    dto.bs_SizeBytes y = dto.bs_SizeBytes x /\ dto.bs_Checksum y = dto.bs_Checksum x /\ dto.bs_FilePath y = dto.bs_FilePath x /\
    bw_os w2 = bw_os w1 /\ row_of 1 (bw_db w2) = Some b2 /\ b_Status b2 = BackupStatusSuccess /\ backed b2 (bw_os w2).
Proof.
  apply (create_then_verify quiet0 start0 svc0 quiet0_quiet svc0_dir 1 row0 ["b"] w0 w0_db);
    [reflexivity|reflexivity|reflexivity|repeat split|apply w0_names|apply w0_local|apply w0_usable].
Defined.

(** The renaming is lost: it has happened, the answer is an error, the row is a failure. *)
Lemma CreateArtifact_fault_safe_witness :
  artifact_outcome 1 row0 w0 (run (bk_handle (failing 5) start0) (CreateArtifact svc0 1) w0).1
    (run (bk_handle (failing 5) start0) (CreateArtifact svc0 1) w0).2 /\
  is_ok (run (bk_handle (failing 5) start0) (CreateArtifact svc0 1) w0).1 = false /\
  b_Status <$> row_of 1 (bw_db (run (bk_handle (failing 5) start0) (CreateArtifact svc0 1) w0).2) = Some "failed".
Proof.
  split; [|split; vm_compute; reflexivity].
  apply (CreateArtifact_fault_safe (failing 5) start0 svc0 1 row0 w0 eq_refl w0_names w0_local).
Defined.

(** ** Verification *)

(** The world after the creation, and the same with one byte of the artifact changed. *)
Definition created : BackupWorld := (run (bk_handle quiet0 start0) (CreateArtifact svc0 1) w0).2.

Definition tamper (w : BackupWorld) : BackupWorld :=
  MkBackupWorld (bw_step w) (bw_db w)
    (with_fs (bw_os w) ((fun n => match n with NFile c => NFile (c +:+ " ")%string | n => n end) <$> os_fs (bw_os w))).

Definition row_at (w : BackupWorld) : Backup := default row0 (row_of 1 (bw_db w)).

Definition tampered : BackupWorld := tamper created.

Lemma tampered_row : row_of 1 (bw_db tampered) = Some (row_at tampered).
Proof.
  unfold row_at. assert (E : match row_of 1 (bw_db tampered) with Some _ => true | None => false end = true)
    by (vm_compute; reflexivity).
  by destruct (row_of 1 (bw_db tampered)).
Qed.

(** A verification whose last statement loses its answer. *)
Definition losing_db (k : nat) : BackupEnv :=
  {| be_delay n := Z.of_nat n * 1000000; be_os _ := NoFault; be_cut _ := 8%nat;
     be_db n := if (n =? k)%nat then FailAfter (ErrNew "connection lost") else NoFault |}.

Lemma VerifyArtifact_sound_witness :
  verify_outcome svc0 1 (row_at tampered) tampered
    (run (bk_handle (losing_db 12) start0) (VerifyArtifact svc0 1) tampered).1
    (run (bk_handle (losing_db 12) start0) (VerifyArtifact svc0 1) tampered).2.
Proof. exact (VerifyArtifact_sound (losing_db 12) start0 svc0 svc0_dir 1 (row_at tampered) tampered tampered_row). Defined.


(** ** A path that leads out

    The test resolves [/b/out/..] as a text; the kernel follows the link first. *)
Definition linked : BackupWorld :=
  MkBackupWorld 0
    (db_with [MkBackup 1 "app_metadata" "etc" "local" "/b/out/../x.txt" 0 "" "pending" None start0 start0])
    {| os_fs := list_to_map [(["b"], NDir); (["b"; "out"], NLink "/etc/d"); (["b"; "x.txt"], NFile "inside");
                             (["etc"], NDir); (["etc"; "d"], NDir); (["etc"; "x.txt"], NFile "outside")];
       os_cwd := [] |}.

(** The verification can accept a file outside the local directory: the test
    cleans [/b/out/../x.txt] to [/b/x.txt], while [os.Open] gets the path as it
    is and follows the link [/b/out] to [/etc/d] first; the row then holds the
    checksum of [/etc/x.txt]. *)
Theorem verify_reads_outside :
  let r := run (bk_handle quiet0 start0) (VerifyArtifact svc0 1) linked in
  is_ok r.1 = true /\
  (b_Status <$> row_of 1 (bw_db r.2)) = Some BackupStatusSuccess /\
  (b_Checksum <$> row_of 1 (bw_db r.2)) = Some (checksum_of "outside") /\
  os_fs (bw_os linked) !! ["etc"; "x.txt"] = Some (NFile "outside").
Proof. cbv zeta. repeat split; vm_compute; reflexivity. Qed.

(** ** Retention *)

Definition old_row (id : Z) (status : string) : Backup :=
  MkBackup id "app_metadata" "settings" "local" "" 0 "" status None (start0 - 60 * 24 * Hour + id) start0.

Definition new_row : Backup := MkBackup 3 "app_metadata" "settings" "local" "" 0 "" "success" None start0 start0.

Definition w_old : BackupWorld :=
  MkBackupWorld 0 (db_with [old_row 1 "success"; old_row 2 "running"; new_row]) {| os_fs := fs_dirs; os_cwd := [] |}.

Definition clean_up (dry archive : bool) : dto.BackupRetentionCleanupRequest :=
  {| dto.brq_RetentionDays := 0; dto.brq_DryRun := dry; dto.brq_ArchiveBeforeDelete := archive |}.


(** A clean-up and a request that ends the running backup, between the
    statement that lists the rows and the one that deletes them. *)
Definition cleaning : list (option nat) := replicate 4 (Some 0%nat) ++ replicate 3 (Some 1%nat) ++ replicate 9 (Some 0%nat).

Definition cleaned : list (prog bk_ans unit) * BackupWorld :=
  run_sched (bk_handle quiet0 start0) no_spawn cleaning
    (serve_backup svc0 <$> [BCleanupRetention (clean_up false true); BMarkStatus 2 "failed"], w_old).

Definition archive_files (fs : filesystem) : list string :=
  omap (fun kv => match kv with ([_; _], NFile c) => Some c | _ => None end) (map_to_list fs).

(** A clean-up that archives can delete a row it has not archived: the rows
    are listed by one statement and deleted by another, so a backup that fails
    in between is deleted while the archive has no line for it. *)
Theorem retention_race : exists ts w,
  psteps (bk_handle quiet0 start0) no_spawn
    (serve_backup svc0 <$> [BCleanupRetention (clean_up false true); BMarkStatus 2 "failed"], w_old) (ts, w) /\
  b_ID <$> bdb_rows (bw_db w) = [3] /\
  exists t1, archive_files (os_fs (bw_os w)) = [archive_line t1 (AddDays (-30) start0) (old_row 1 "success")].
Proof.
  exists cleaned.1, cleaned.2. split.
  - replace (cleaned.1, cleaned.2) with cleaned by (by destruct cleaned). apply run_sched_psteps.
  - split; [vm_compute; reflexivity|]. exists (start0 + 9 * 1000000). vm_compute. reflexivity.
Qed.

(** The same interleaving keeps the form of the rows. *)
Lemma w_old_wf : backups_wf (bw_db w_old).
Proof.
  split; [concrete_db|]. repeat constructor; try in_list; try done; try (by left).
  all: split; [by vm_compute|]; by repeat constructor.
Qed.

Lemma backups_stay_wf_witness : backups_wf (bw_db cleaned.2) /\ length (bdb_rows (bw_db cleaned.2)) = 1%nat.
Proof.
  split; [|vm_compute; reflexivity].
  apply (backups_stay_wf quiet0 start0 svc0 [BCleanupRetention (clean_up false true); BMarkStatus 2 "failed"] w_old cleaned w_old_wf).
  apply run_sched_psteps.
Defined.
