(* ===== verification/TaskService.v ===== *)
(** * The task service

    [internal/service/task_service.go]: the creation, cancellation and retry of
    tasks, the execution of a task by a goroutine of its own ([runTask]) or by
    the worker ([RunWorker], [runClaimedTask]), as programs over the operations
    below.  A goroutine's endless loop is cut at its head: each iteration ends
    by asking for the next one ([Go]), so a loop may run for ever. *)

From Stdlib Require Import ZArith.
From S2P Require Import Prelude GoString GoTime GoError Effects Schema Json Redaction Agent Dto BackupApi.
From S2P Require Import TaskRepo TaskPayload AgentServices.

Open Scope prog_scope.

(** [TaskServiceOptions] and which of the services are configured (not nil). *)
Record TaskServiceOptions := {
  AsyncExecution : bool;
  MaxAttempts : Z;
  HasMetrics : bool;
  HasDocker : bool;
  HasServices : bool;
  HasBackup : bool
}.

Definition NewTaskServiceWithOptions (options : TaskServiceOptions) : TaskServiceOptions :=
  {| AsyncExecution := AsyncExecution options;
     MaxAttempts := if MaxAttempts options <=? 0 then 1 else MaxAttempts options;
     HasMetrics := HasMetrics options; HasDocker := HasDocker options;
     HasServices := HasServices options; HasBackup := HasBackup options |}.

Definition NewTaskService (HasDocker HasServices : bool) : TaskServiceOptions :=
  NewTaskServiceWithOptions
    {| AsyncExecution := true; MaxAttempts := 1; HasMetrics := false;
       HasDocker := HasDocker; HasServices := HasServices; HasBackup := false |}.

(** What is observed by the metrics set. *)
Inductive metric :=
| ObserveTaskWorkerClaim (outcome : string)
| ObserveTaskCompleted (taskType status : string) (duration : Z)
| SetTaskQueueDepth (count : Z)
| SetTasksRunning (count : Z).

(** The goroutines of the service and the heads of their loops.  A channel and
    a context are known by their number. *)
Inductive job :=
| JRunTask (taskID : Z) (payload : taskPayload)
| JClaimed (options : TaskWorkerOptions) (workers : nat) (task : Task)
| JHeartbeat (ctx : nat) (taskID : Z) (workerID : string) (leaseDuration : Z)
| JWorker (options : TaskWorkerOptions) (workers : nat)
| JClaim (options : TaskWorkerOptions) (workers : nat)
| JWait (options : TaskWorkerOptions) (workers : nat).

(** The operations of the service. *)
Inductive task_op :=
| Repo (o : repo_op)
| AgentCall (o : agent_op)
| BackupCall (o : backup_op)
| Now
| Go (j : job)
| Observe (m : metric)
| MakeWorkers (* make(chan struct{}, n) *)
| TrySend (workers : nat) (capacity : Z) (* select { case workers <- struct{}{}: default: } *)
| Receive (workers : nat) (* <-workers *)
| CtxDone (* ctx.Err() != nil *)
| WaitTick (* select { case <-ctx.Done(): case <-ticker.C: }, true when the context is done *)
| WithCancel (* context.WithCancel *)
| Cancel (ctx : nat)
| WaitHeartbeat (ctx : nat) (* the same select on the heartbeat's context *).

Definition task_ans (o : task_op) : Type :=
  match o with
  | Repo o => repo_ans o
  | AgentCall o => agent_ans o
  | BackupCall o => backup_ans o
  | Now => Z
  | MakeWorkers | WithCancel => nat
  | TrySend _ _ | CtxDone | WaitTick | WaitHeartbeat _ => bool
  | Go _ | Observe _ | Receive _ | Cancel _ => unit
  end.

#[export] Instance task_agent : SubOp agent_ans task_ans :=
  {| inj := AgentCall; proj o (a : task_ans (AgentCall o)) := a |}.

Section TaskService.
Context (s : TaskServiceOptions).

#[local] Abbreviation prog A := (Effects.prog task_ans A).

Definition repo (o : repo_op) : prog (repo_ans o) := call (Repo o).
Definition backup (o : backup_op) : prog (backup_ans o) := call (BackupCall o).
Definition now : prog Z := call Now.
Definition go (j : job) : prog unit := call (Go j).

(** A call on a nil metrics set does nothing. *)
Definition observe (m : metric) : prog unit := if HasMetrics s then call (Observe m) else Ret tt.

(** [_ = s.repo.AppendLog(ctx, &model.TaskLog{...})]. *)
Definition log_raw (taskID : Z) (level message metadata : string) : prog unit :=
  repo (RAppendLog (MkTaskLog 0 taskID level message metadata zero_time)) ;;; Ret tt.

Definition log (taskID : Z) (level message : string) (fields : list (string * json)) : prog unit :=
  log_raw taskID level message (marshalTaskMetadata fields).

Definition isCanceled (taskID : Z) : prog bool :=
  r <- repo (RGetByID taskID) ;;
  Ret (match r with
       | Ok (Some task) => (t_Status task =? TaskStatusCanceled)%string
       | Ok None | Err _ => false
       end).

Definition setRunningProgress (taskID progress : Z) : prog bool :=
  canceled <- isCanceled taskID ;;
  if canceled : bool then Ret false
  else r <- repo (RUpdateStatus taskID TaskStatusRunning progress "") ;; Ret (is_ok r).

Definition markTaskFailed (taskID : Z) (err : goerr) (metadata : list (string * json)) : prog unit :=
  canceled <- isCanceled taskID ;;
  if canceled : bool then log_raw taskID "warn" "task canceled while operation was running" "{}"
  else
    repo (RUpdateStatus taskID TaskStatusFailed 100 (Error err)) ;;;
    log taskID "error" "task failed" ([("error", JStr (Error err))] ++ metadata).

(** ** Creation *)

Definition create_result (t : Task) : dto.CreateTaskResult :=
  {| dto.ctr_ID := t_ID t; dto.ctr_Type := t_Type t; dto.ctr_Status := t_Status t |}.

(** The row of a new task, before GORM fills the id and the times. *)
Definition new_task (taskType : string) (payload : taskPayload) (triggeredBy : option Z)
  (idempotencyKey : option string) : Task :=
  MkTask 0 taskType TaskStatusPending 0 (marshalTaskPayload payload) "{}" "" triggeredBy None None None 0
    (MaxAttempts s) idempotencyKey None None None zero_time zero_time.

(** The row with the key, if there is a key. *)
Definition find_existing (idempotencyKey : option string) : prog (res (option Task)) :=
  match idempotencyKey with
  | Some key => repo (RGetByIdempotencyKey key)
  | None => Ret (Ok None)
  end.

Definition createAndRunTask (taskType : string) (payload : taskPayload) (triggeredBy : option Z)
  (username : string) (idempotencyKey : option string) : prog (res dto.CreateTaskResult) :=
  found <- find_existing idempotencyKey ;;
  match found with
  | Err err => Ret (Err (internal err))
  | Ok (Some existing) => Ret (Ok (create_result existing))
  | Ok None =>
    created <- repo (RCreate (new_task taskType payload triggeredBy idempotencyKey)) ;;
    match created with
    | Err err =>
      again <- find_existing idempotencyKey ;;
      Ret (match again with
           | Ok (Some existing) => Ok (create_result existing)
           | Ok None | Err _ => Err (internal err)
           end)
    | Ok task =>
      log (t_ID task) "info" "task queued"
        [("actor", JStr username); ("type", JStr taskType); ("payload", payload_json payload);
         ("status", JStr TaskStatusPending); ("progress", JInt 0)] ;;;
      (if AsyncExecution s then go (JRunTask (t_ID task) payload) else Ret tt) ;;;
      Ret (Ok (create_result task))
    end
  end.

Definition bad (msg : string) : goerr := bad_request (ErrNew msg).

(** The idempotency key of a request, then the rest. *)
Definition with_key {A} (raw : string) (k : option string -> prog (res A)) : prog (res A) :=
  match normalizeTaskIdempotencyKey raw with
  | Err err => Ret (Err (bad_request err))
  | Ok key => k key
  end.

Definition CreateDockerRestartTask (req : dto.CreateDockerRestartTaskRequest) (triggeredBy : option Z)
  (username : string) : prog (res dto.CreateTaskResult) :=
  let containerID := TrimSpace (dto.drt_ContainerID req) in
  if (containerID =? "")%string then Ret (Err (bad "container_id is required"))
  else if negb (HasDocker s) then Ret (Err (internal (ErrNew "docker service is not configured")))
  else with_key (dto.drt_IdempotencyKey req) (fun key =>
    createAndRunTask TaskTypeDockerRestart
      (MkPayload taskOperationDockerRestart containerID "" 0 "" "" "" "" 0 "") triggeredBy username key).

Definition CreateServiceRestartTask (req : dto.CreateServiceRestartTaskRequest) (triggeredBy : option Z)
  (username : string) : prog (res dto.CreateTaskResult) :=
  let serviceName := TrimSpace (dto.srt_ServiceName req) in
  if (serviceName =? "")%string then Ret (Err (bad "service_name is required"))
  else if negb (HasServices s) then Ret (Err (internal (ErrNew "service manager is not configured")))
  else with_key (dto.srt_IdempotencyKey req) (fun key =>
    createAndRunTask TaskTypeServiceRestart
      (MkPayload taskOperationServiceRestart "" serviceName 0 "" "" "" "" 0 "") triggeredBy username key).

Definition CreateBackupTask (req : dto.CreateBackupTaskRequest) (triggeredBy : option Z)
  (username : string) : prog (res dto.CreateBackupTaskResult) :=
  if negb (HasBackup s) then Ret (Err (internal (ErrNew "backup service is not configured")))
  else with_key (dto.bt_IdempotencyKey req) (fun key =>
    b <-! backup (BCreateMetadata
           {| dto.bm_ResourceType := dto.bt_ResourceType req; dto.bm_ResourceID := dto.bt_ResourceID req;
              dto.bm_StorageType := dto.bt_StorageType req; dto.bm_FilePath := dto.bt_FilePath req |}
           triggeredBy) ;;
    task <- createAndRunTask TaskTypeBackupCreate
      (MkPayload taskOperationBackupCreate "" "" (dto.bs_ID b) (dto.bs_ResourceType b) (dto.bs_ResourceID b)
         (dto.bs_StorageType b) (dto.bs_FilePath b) 0 "") triggeredBy username key ;;
    match task with
    | Err err => backup (BMarkStatus (dto.bs_ID b) BackupStatusFailed) ;;; Ret (Err err)
    | Ok t => Ret (Ok {| dto.btr_Backup := b; dto.btr_Task := t |})
    end).

Definition CreateBackupVerifyTask (backupID : Z) (req : dto.CreateBackupVerifyTaskRequest)
  (triggeredBy : option Z) (username : string) : prog (res dto.CreateTaskResult) :=
  if backupID <=? 0 then Ret (Err (bad "backup id must be positive"))
  else if negb (HasBackup s) then Ret (Err (internal (ErrNew "backup service is not configured")))
  else with_key (dto.vt_IdempotencyKey req) (fun key =>
    let hasManualVerification :=
      manual_verification (dto.vt_SizeBytes req) (dto.vt_Checksum req) (dto.vt_FilePath req) in
    if hasManualVerification && ((dto.vt_SizeBytes req <=? 0) || blank (dto.vt_Checksum req))
    then Ret (Err (bad "size_bytes and checksum are required when overriding artifact verification"))
    else createAndRunTask TaskTypeBackupVerify
      (MkPayload taskOperationBackupVerify "" "" backupID "" "" "" (dto.vt_FilePath req)
         (dto.vt_SizeBytes req) (dto.vt_Checksum req)) triggeredBy username key).

(** ** Cancellation, retry, queries *)

Definition terminal_status (st : string) : bool :=
  (st =? TaskStatusSuccess)%string || (st =? TaskStatusFailed)%string || (st =? TaskStatusCanceled)%string.

(** [GetByID], with a missing row as an error. *)
Definition get_task (id : Z) : prog (res Task) :=
  r <- repo (RGetByID id) ;;
  Ret (match r with
       | Err err => Err (internal err)
       | Ok None => Err ErrTaskNotFound
       | Ok (Some task) => Ok task
       end).

Definition CancelTask (id : Z) (username : string) : prog (res unit) :=
  task <-! get_task id ;;
  if terminal_status (t_Status task)
  then Ret (Err (bad ("task is already terminal with status '" +:+ t_Status task +:+ "'")))
  else
    _ <-! or_else (repo (RUpdateStatus id TaskStatusCanceled (t_Progress task) "canceled by operator")) internal ;;
    log id "warn" "task canceled" [("actor", JStr username)] ;;;
    Ret (Ok tt).

Definition RetryTask (id : Z) (triggeredBy : option Z) (username : string) : prog (res dto.CreateTaskResult) :=
  task <-! get_task id ;;
  if negb ((t_Status task =? TaskStatusFailed)%string || (t_Status task =? TaskStatusCanceled)%string)
  then Ret (Err (bad "only failed or canceled tasks can be retried"))
  else
    match unmarshalTaskPayload (t_Payload task) with
    | Err payloadErr => Ret (Err (bad_request payloadErr))
    | Ok payload =>
      result <-! createAndRunTask (t_Type task) payload triggeredBy username None ;;
      log (t_ID task) "info" "task retried"
        [("actor", JStr username); ("retry_task_id", JInt (dto.ctr_ID result))] ;;;
      Ret (Ok result)
    end.

Definition mapTaskSummary (task : Task) : dto.TaskSummary :=
  {| dto.ts_ID := t_ID task; dto.ts_Type := t_Type task; dto.ts_Status := t_Status task;
     dto.ts_Progress := t_Progress task; dto.ts_Error := t_ErrorMsg task;
     dto.ts_TriggeredBy := t_TriggeredBy task;
     dto.ts_CreatedAt := FormatRFC3339 (t_CreatedAt task);
     dto.ts_UpdatedAt := FormatRFC3339 (t_UpdatedAt task) |}.

Definition ListTasks (query : dto.ListTasksQuery) : prog (res dto.ListTasksResult) :=
  let page := if dto.ltq_Page query <=? 0 then 1 else dto.ltq_Page query in
  let size := if dto.ltq_Size query <=? 0 then 20 else dto.ltq_Size query in
  r <-! or_else (repo (RList {| tf_Page := page; tf_Size := size; tf_Status := dto.ltq_Status query;
                                tf_Type := dto.ltq_Type query |})) internal ;;
  Ret (Ok {| dto.ltr_Page := page; dto.ltr_Size := size; dto.ltr_Total := r.2;
             dto.ltr_Items := map mapTaskSummary r.1 |}).

Definition mapTaskLog (l : TaskLog) : dto.TaskLog :=
  {| dto.tlog_ID := tl_ID l; dto.tlog_Level := tl_Level l; dto.tlog_Message := tl_Message l;
     dto.tlog_Metadata := tl_Metadata l; dto.tlog_CreatedAt := FormatRFC3339 (tl_CreatedAt l) |}.

Definition GetTaskDetail (id : Z) : prog (res dto.TaskDetail) :=
  task <-! get_task id ;;
  logs <-! or_else (repo (RListLogs id 200)) internal ;;
  Ret (Ok {| dto.td_Summary := mapTaskSummary task; dto.td_Logs := map mapTaskLog logs |}).

(** ** Execution *)

Definition restart_docker : string -> prog (res dto.DockerContainerActionResult) := RestartContainer.
Definition restart_service : string -> prog (res dto.ServiceActionResult) := RestartService.

Definition nonRetryable (msg : string) : goerr := ErrNonRetryable (ErrNew msg).

(** [if !s.setRunningProgress(...) { return err }], then the rest. *)
Definition progress_or {A} (taskID progress : Z) (stop rest : prog A) : prog A :=
  ok <- setRunningProgress taskID progress ;; if ok : bool then rest else stop.

Definition stop_err {A} (msg : string) : prog (res A) := Ret (Err (ErrNew msg)).

Definition executeBackupCreate (taskID : Z) (payload : taskPayload) (workerID : string) : prog (res unit) :=
  if negb (HasBackup s) then Ret (Err (nonRetryable "backup service is not configured"))
  else progress_or taskID 30 (stop_err "task canceled before backup artifact creation") (
    log taskID "info" "creating backup artifact"
      [("backup_id", JInt (BackupID payload)); ("resource_type", JStr (ResourceType payload));
       ("resource_id", JStr (ResourceID payload)); ("progress", JInt 30); ("worker_id", JStr workerID)] ;;;
    b <-! backup (BCreateArtifact (BackupID payload)) ;;
    progress_or taskID 85 (stop_err "task canceled after backup artifact creation") (
      log taskID "info" "backup artifact created"
        [("backup_id", JInt (dto.bs_ID b)); ("file_path", JStr (dto.bs_FilePath b));
         ("size_bytes", JInt (dto.bs_SizeBytes b)); ("checksum", JStr (dto.bs_Checksum b));
         ("status", JStr BackupStatusSuccess); ("progress", JInt 85); ("worker_id", JStr workerID)] ;;;
      Ret (Ok tt))).

Definition executeBackupVerify (taskID : Z) (payload : taskPayload) (workerID : string) : prog (res unit) :=
  if negb (HasBackup s) then Ret (Err (nonRetryable "backup service is not configured"))
  else progress_or taskID 30 (stop_err "task canceled before backup verification") (
    b <-! (if manual_verification (SizeBytes payload) (Checksum payload) (FilePath payload)
           then backup (BVerify (BackupID payload)
                  {| dto.vb_SizeBytes := SizeBytes payload; dto.vb_Checksum := Checksum payload;
                     dto.vb_FilePath := FilePath payload |})
           else backup (BVerifyArtifact (BackupID payload))) ;;
    progress_or taskID 85 (stop_err "task canceled after backup verification") (
      log taskID "info" "backup metadata verified"
        [("backup_id", JInt (dto.bs_ID b)); ("file_path", JStr (dto.bs_FilePath b));
         ("size_bytes", JInt (dto.bs_SizeBytes b)); ("checksum", JStr (dto.bs_Checksum b));
         ("progress", JInt 85); ("worker_id", JStr workerID)] ;;;
      Ret (Ok tt))).

Definition executeTaskOperation (taskID : Z) (payload : taskPayload) (workerID : string) : prog (res unit) :=
  if (Operation payload =? taskOperationDockerRestart)%string then
    progress_or taskID 30 (stop_err "task canceled before docker restart") (
      log taskID "info" "restarting docker container"
        [("container_id", JStr (ContainerID payload)); ("progress", JInt 30)] ;;;
      result <-! restart_docker (ContainerID payload) ;;
      progress_or taskID 85 (stop_err "task canceled after docker restart") (
        log taskID "info" "docker container restarted"
          [("container_id", JStr (dto.dca_ID result)); ("state", JStr (dto.dca_State result));
           ("progress", JInt 85)] ;;;
        Ret (Ok tt)))
  else if (Operation payload =? taskOperationServiceRestart)%string then
    progress_or taskID 30 (stop_err "task canceled before service restart") (
      log taskID "info" "restarting system service"
        [("service_name", JStr (ServiceName payload)); ("progress", JInt 30)] ;;;
      result <-! restart_service (ServiceName payload) ;;
      progress_or taskID 85 (stop_err "task canceled after service restart") (
        log taskID "info" "system service restarted"
          [("service_name", JStr (dto.sva_Name result)); ("status", JStr (dto.sva_Status result));
           ("progress", JInt 85)] ;;;
        Ret (Ok tt)))
  else if (Operation payload =? taskOperationBackupCreate)%string then
    executeBackupCreate taskID payload workerID
  else if (Operation payload =? taskOperationBackupVerify)%string then
    executeBackupVerify taskID payload workerID
  else Ret (Err (nonRetryable "unsupported task operation")).

(** The tail of [runTask], after the operation. *)
Definition runTask_finish (taskID : Z) (payload : taskPayload) : prog unit :=
  canceled <- isCanceled taskID ;;
  if canceled : bool then log_raw taskID "warn" "task canceled after operation" "{}"
  else
    repo (RUpdateStatus taskID TaskStatusSuccess 100 "") ;;;
    log taskID "info" "task completed"
      [("operation", JStr (Operation payload)); ("status", JStr TaskStatusSuccess); ("progress", JInt 100)].

(** The [switch] of [runTask]: the branches return or fall through to the tail. *)
Definition runTask_operation (taskID : Z) (payload : taskPayload) : prog unit :=
  let finish := runTask_finish taskID payload in
  let op_field := ("operation", JStr (Operation payload)) in
  if (Operation payload =? taskOperationDockerRestart)%string then
    progress_or taskID 30 (log_raw taskID "warn" "task canceled before docker restart" "{}") (
      log taskID "info" "restarting docker container"
        [("container_id", JStr (ContainerID payload)); ("progress", JInt 30)] ;;;
      result <- restart_docker (ContainerID payload) ;;
      match result with
      | Err err => markTaskFailed taskID err [op_field; ("container_id", JStr (ContainerID payload))]
      | Ok result =>
        progress_or taskID 85 (log_raw taskID "warn" "task canceled after docker restart" "{}") (
          log taskID "info" "docker container restarted"
            [("container_id", JStr (dto.dca_ID result)); ("state", JStr (dto.dca_State result));
             ("progress", JInt 85)] ;;;
          finish)
      end)
  else if (Operation payload =? taskOperationServiceRestart)%string then
    progress_or taskID 30 (log_raw taskID "warn" "task canceled before service restart" "{}") (
      log taskID "info" "restarting system service"
        [("service_name", JStr (ServiceName payload)); ("progress", JInt 30)] ;;;
      result <- restart_service (ServiceName payload) ;;
      match result with
      | Err err => markTaskFailed taskID err [op_field; ("service_name", JStr (ServiceName payload))]
      | Ok result =>
        progress_or taskID 85 (log_raw taskID "warn" "task canceled after service restart" "{}") (
          log taskID "info" "system service restarted"
            [("service_name", JStr (dto.sva_Name result)); ("status", JStr (dto.sva_Status result));
             ("progress", JInt 85)] ;;;
          finish)
      end)
  else if (Operation payload =? taskOperationBackupCreate)%string then
    r <- executeBackupCreate taskID payload "" ;;
    match r with
    | Err err => markTaskFailed taskID err [op_field; ("backup_id", JInt (BackupID payload))]
    | Ok _ => finish
    end
  else if (Operation payload =? taskOperationBackupVerify)%string then
    r <- executeBackupVerify taskID payload "" ;;
    match r with
    | Err err => markTaskFailed taskID err [op_field; ("backup_id", JInt (BackupID payload))]
    | Ok _ => finish
    end
  else markTaskFailed taskID (ErrNew "unsupported task operation") [op_field].

Definition runTask (taskID : Z) (payload : taskPayload) : prog unit :=
  canceled <- isCanceled taskID ;;
  if canceled : bool then log_raw taskID "warn" "task canceled before execution" "{}"
  else progress_or taskID 5 (Ret tt) (
    log taskID "info" "task execution started"
      [("operation", JStr (Operation payload)); ("progress", JInt 5)] ;;;
    canceled <- isCanceled taskID ;;
    if canceled : bool then log_raw taskID "warn" "task canceled before operation" "{}"
    else runTask_operation taskID payload).

(** ** The worker *)

Definition failClaimedTask (task : Task) (workerID : string) (err : goerr) (metadata : list (string * json))
  : prog unit :=
  canceled <- isCanceled (t_ID task) ;;
  if canceled : bool then
    log (t_ID task) "warn" "task canceled while operation was running" [("worker_id", JStr workerID)]
  else
    time <- now ;;
    let retryable := negb (AsNonRetryable err) && isRetryableTaskError err in
    let nextRunAt := nextTaskRetryAt time (t_Attempt task) (t_MaxAttempts task) retryable in
    let fields := [("attempt", JInt (t_Attempt task)); ("error", JStr (Error err));
                   ("max_attempts", JInt (t_MaxAttempts task)); ("retryable", JBool retryable);
                   ("worker_id", JStr workerID)] ++
                  match nextRunAt with
                  | Some t => [("next_run_at", JStr (FormatRFC3339 t))]
                  | None => []
                  end ++ metadata in
    let message := match nextRunAt with
                   | Some _ => "task failed; retry scheduled"
                   | None => "task failed"
                   end in
    repo (RFailTask (t_ID task) workerID (Error err) nextRunAt) ;;;
    match nextRunAt with
    | None => t <- now ;; observe (ObserveTaskCompleted (t_Type task) TaskStatusFailed (t - t_CreatedAt task))
    | Some _ => Ret tt
    end ;;;
    log (t_ID task) "error" message fields.

(** The body of [runClaimedTask] between the start and the stop of the heartbeat. *)
Definition claimed_body (workerID : string) (task : Task) : prog unit :=
  match unmarshalTaskPayload (t_Payload task) with
  | Err err => failClaimedTask task workerID (ErrNonRetryable err) [("payload", JStr (t_Payload task))]
  | Ok payload =>
    log (t_ID task) "info" "task claimed by worker"
      [("worker_id", JStr workerID); ("attempt", JInt (t_Attempt task))] ;;;
    canceled <- isCanceled (t_ID task) ;;
    if canceled : bool then log_raw (t_ID task) "warn" "task canceled before worker execution" "{}"
    else progress_or (t_ID task) 5 (Ret tt) (
      log (t_ID task) "info" "task execution started"
        [("operation", JStr (Operation payload)); ("progress", JInt 5); ("worker_id", JStr workerID)] ;;;
      r <- executeTaskOperation (t_ID task) payload workerID ;;
      match r with
      | Err err => failClaimedTask task workerID err [("operation", JStr (Operation payload))]
      | Ok _ =>
        canceled <- isCanceled (t_ID task) ;;
        if canceled : bool then log_raw (t_ID task) "warn" "task canceled after operation" "{}"
        else
          repo (RCompleteTask (t_ID task) workerID "{}") ;;;
          t <- now ;;
          observe (ObserveTaskCompleted (t_Type task) TaskStatusSuccess (t - t_CreatedAt task)) ;;;
          log (t_ID task) "info" "task completed"
            [("operation", JStr (Operation payload)); ("status", JStr TaskStatusSuccess);
             ("progress", JInt 100); ("worker_id", JStr workerID)]
      end)
  end.

(** Returns the heartbeat's context, which [stopHeartbeat] cancels. *)
Definition startTaskHeartbeat (taskID : Z) (workerID : string) (leaseDuration : Z) : prog nat :=
  heartbeatCtx <- call WithCancel ;;
  go (JHeartbeat heartbeatCtx taskID workerID leaseDuration) ;;;
  Ret heartbeatCtx.

Definition runClaimedTask (workerID : string) (leaseDuration : Z) (task : Task) : prog unit :=
  heartbeatCtx <- startTaskHeartbeat (t_ID task) workerID leaseDuration ;;
  claimed_body workerID task ;;;
  call (Cancel heartbeatCtx).

(** One iteration of the heartbeat's loop. *)
Definition heartbeat_loop (heartbeatCtx : nat) (taskID : Z) (workerID : string) (leaseDuration : Z)
  : prog unit :=
  done <- call (WaitHeartbeat heartbeatCtx) ;;
  if done : bool then Ret tt
  else
    repo (RHeartbeatTask taskID workerID leaseDuration) ;;;
    go (JHeartbeat heartbeatCtx taskID workerID leaseDuration).

Definition refreshTaskGauges : prog unit :=
  if negb (HasMetrics s) then Ret tt
  else
    pending <- repo (RCountByStatus TaskStatusPending) ;;
    match pending with Ok count => observe (SetTaskQueueDepth count) | Err _ => Ret tt end ;;;
    running <- repo (RCountByStatus TaskStatusRunning) ;;
    match running with Ok count => observe (SetTasksRunning count) | Err _ => Ret tt end.

(** The goroutine started for a claimed task. *)
Definition claimed_goroutine (options : TaskWorkerOptions) (workers : nat) (task : Task) : prog unit :=
  runClaimedTask (WorkerID options) (LeaseDuration options) task ;;;
  call (Receive workers).

(** One iteration of the loop of [claimAvailableTasks]; [return] goes on with
    the [select] of [RunWorker]. *)
Definition claimAvailableTasks (options : TaskWorkerOptions) (workers : nat) : prog unit :=
  sent <- call (TrySend workers (Concurrency options)) ;;
  if negb (sent : bool) then go (JWait options workers)
  else
    r <- repo (RClaimNextTask (WorkerID options) (LeaseDuration options)) ;;
    match r with
    | Err _ => observe (ObserveTaskWorkerClaim "error") ;;; call (Receive workers) ;;; go (JWait options workers)
    | Ok None => observe (ObserveTaskWorkerClaim "empty") ;;; call (Receive workers) ;;; go (JWait options workers)
    | Ok (Some task) =>
      observe (ObserveTaskWorkerClaim "success") ;;;
      go (JClaimed options workers task) ;;;
      go (JClaim options workers)
    end.

(** The head of the loop of [RunWorker]. *)
Definition worker_loop (options : TaskWorkerOptions) (workers : nat) : prog unit :=
  done <- call CtxDone ;;
  if done : bool then Ret tt
  else
    time <- now ;;
    repo (RReleaseStaleTasks time) ;;;
    refreshTaskGauges ;;;
    go (JClaim options workers).

Definition worker_wait (options : TaskWorkerOptions) (workers : nat) : prog unit :=
  done <- call WaitTick ;;
  if done : bool then Ret tt else go (JWorker options workers).

Definition RunWorker (hostname : string) (pid : Z) (options : TaskWorkerOptions) : prog unit :=
  let options := normalizeTaskWorkerOptions hostname pid options in
  workers <- call MakeWorkers ;;
  go (JWorker options workers).

Definition job_prog (j : job) : prog unit :=
  match j with
  | JRunTask taskID payload => runTask taskID payload
  | JClaimed options workers task => claimed_goroutine options workers task
  | JHeartbeat ctx taskID workerID lease => heartbeat_loop ctx taskID workerID lease
  | JWorker options workers => worker_loop options workers
  | JClaim options workers => claimAvailableTasks options workers
  | JWait options workers => worker_wait options workers
  end.

End TaskService.
