(* ===== verification/TaskSystem.v ===== *)
(** * The task service at work

    The operations of [TaskService] executed: a world with the two task tables,
    the state of a backup service, the goroutines waiting to start, the slots
    of the worker channels, the cancelled contexts; an environment that gives
    the clock, database faults, the agent's answers and the choices of
    [select], all by the number of operations done so far.  The properties
    hold in every environment. *)

From Stdlib Require Import ZArith Lia.
From S2P Require Import Prelude GoString GoError Effects Table Schema Json Redaction Agent Dto BackupApi.
From S2P Require Import TaskRepo TaskPayload AgentServices TaskService.

Record Env := {
  env_now : nat -> Z;
  env_db : nat -> fault;
  env_agent : nat -> forall o : agent_op, agent_ans o;
  env_done : nat -> bool;
  env_pick : nat -> bool
}.

Record World (B : Type) := MkWorld {
  w_step : nat;
  w_db : TaskDB;
  w_backups : B;
  w_jobs : list job;
  w_chans : list Z;
  w_ctxs : list bool;
  w_metrics : list metric;
  w_calls : list agent_op
}.
Arguments MkWorld {B}.
Arguments w_step {B}.
Arguments w_db {B}.
Arguments w_backups {B}.
Arguments w_jobs {B}.
Arguments w_chans {B}.
Arguments w_ctxs {B}.
Arguments w_metrics {B}.
Arguments w_calls {B}.

Section TaskSystem.
Context {B : Type} `{BackupImpl B} (env : Env) (s : TaskServiceOptions).
Implicit Type w : World B.

Definition set_db (d : TaskDB) w := MkWorld (w_step w) d (w_backups w) (w_jobs w) (w_chans w) (w_ctxs w) (w_metrics w) (w_calls w).
Definition set_backups (b : B) w := MkWorld (w_step w) (w_db w) b (w_jobs w) (w_chans w) (w_ctxs w) (w_metrics w) (w_calls w).
Definition set_jobs (l : list job) w := MkWorld (w_step w) (w_db w) (w_backups w) l (w_chans w) (w_ctxs w) (w_metrics w) (w_calls w).
Definition set_chans (l : list Z) w := MkWorld (w_step w) (w_db w) (w_backups w) (w_jobs w) l (w_ctxs w) (w_metrics w) (w_calls w).
Definition set_ctxs (l : list bool) w := MkWorld (w_step w) (w_db w) (w_backups w) (w_jobs w) (w_chans w) l (w_metrics w) (w_calls w).
Definition set_metrics (l : list metric) w := MkWorld (w_step w) (w_db w) (w_backups w) (w_jobs w) (w_chans w) (w_ctxs w) l (w_calls w).
Definition set_calls (l : list agent_op) w := MkWorld (w_step w) (w_db w) (w_backups w) (w_jobs w) (w_chans w) (w_ctxs w) (w_metrics w) l.
Definition tick w := MkWorld (S (w_step w)) (w_db w) (w_backups w) (w_jobs w) (w_chans w) (w_ctxs w) (w_metrics w) (w_calls w).

Definition exec_repo (o : repo_op) w : repo_ans o * World B :=
  let '(r, d) := repo_exec (env_now env (w_step w)) o (w_db w) in
  match env_db env (w_step w) with
  | NoFault => (r, set_db d w)
  | FailBefore e => (Err e, w)
  | FailAfter e => (Err e, set_db d w)
  end.

Definition chan_slots (c : nat) w : Z := default 0 (w_chans w !! c).

Definition exec (o : task_op) w : task_ans o * World B :=
  match o return task_ans o * World B with
  | Repo o => exec_repo o w
  | AgentCall o => (env_agent env (w_step w) o, set_calls (w_calls w ++ [o]) w)
  | BackupCall o =>
      let '(r, b) := backup_exec (env_now env (w_step w)) o (w_backups w) in (r, set_backups b w)
  | Now => (env_now env (w_step w), w)
  | Go j => (tt, set_jobs (w_jobs w ++ [j]) w)
  | Observe m => (tt, set_metrics (w_metrics w ++ [m]) w)
  | MakeWorkers => (length (w_chans w), set_chans (w_chans w ++ [0]) w)
  | TrySend c capacity =>
      if chan_slots c w <? capacity then (true, set_chans (<[c := chan_slots c w + 1]> (w_chans w)) w)
      else (false, w)
  | Receive c => (tt, set_chans (<[c := chan_slots c w - 1]> (w_chans w)) w)
  | CtxDone => (env_done env (w_step w), w)
  | WaitTick => (env_done env (w_step w) && env_pick env (w_step w), w)
  | WithCancel => (length (w_ctxs w), set_ctxs (w_ctxs w ++ [false]) w)
  | Cancel c => (tt, set_ctxs (<[c := true]> (w_ctxs w)) w)
  | WaitHeartbeat c =>
      ((env_done env (w_step w) || default true (w_ctxs w !! c)) && env_pick env (w_step w), w)
  end.

Definition handle (o : task_op) w : task_ans o * World B :=
  let '(a, w') := exec o w in (a, tick w').

(** The next goroutine to start. *)
Definition spawn w : option (prog task_ans unit * World B) :=
  match w_jobs w with
  | [] => None
  | j :: l => Some (job_prog s j, set_jobs l w)
  end.

(** ** Every row the service inserts is fresh *)

Definition fresh_op (o : task_op) : Prop := match o with Repo o => op_ok o | _ => True end.

(** The operations of everything but the worker's loops: rows are inserted
    fresh, no worker slot is touched, no worker loop is started. *)
Definition plain_op (o : task_op) : Prop :=
  match o with
  | Repo o => op_ok o
  | Go (JRunTask _ _) | Go (JHeartbeat _ _ _ _) => True
  | Go _ | TrySend _ _ | Receive _ | MakeWorkers => False
  | _ => True
  end.

Create HintDb ops discriminated.

Lemma bind_ok_ops {A C} (p : prog task_ans (res A)) (f : A -> prog task_ans (res C)) :
  all_ops plain_op p -> (forall x, all_ops plain_op (f x)) -> all_ops plain_op (bind_ok p f).
Proof. intros Hp Hf. apply all_ops_bind; [done|]. by intros [x|e]. Qed.

(** Walks through a program. *)
Ltac ops :=
  repeat (cbv beta zeta; first
    [ solve [auto with ops nocore]
    | apply bind_ok_ops
    | apply all_ops_bind
    | progress intros
    | match goal with |- all_ops _ (match ?x with _ => _ end) => destruct x end
    | solve [repeat split; done] ]).

Lemma log_raw_ops id l m d : all_ops plain_op (log_raw id l m d).
Proof. done. Qed.

Lemma log_ops id l m f : all_ops plain_op (log id l m f).
Proof. apply log_raw_ops. Qed.

Lemma observe_ops m : all_ops plain_op (observe s m).
Proof. unfold observe. ops. Qed.

Lemma isCanceled_ops id : all_ops plain_op (isCanceled id).
Proof. done. Qed.
Hint Resolve log_raw_ops log_ops observe_ops isCanceled_ops : ops.

Lemma setRunningProgress_ops id p : all_ops plain_op (setRunningProgress id p).
Proof. unfold setRunningProgress. ops. Qed.
Hint Resolve setRunningProgress_ops : ops.

Lemma progress_or_ops {A} id p (stop rest : prog task_ans A) :
  all_ops plain_op stop -> all_ops plain_op rest -> all_ops plain_op (progress_or id p stop rest).
Proof. intros H1 H2. unfold progress_or. apply all_ops_bind; [ops|]. by intros []. Qed.

Lemma markTaskFailed_ops id e f : all_ops plain_op (markTaskFailed id e f).
Proof. unfold markTaskFailed. ops. Qed.

Lemma find_existing_ops k : all_ops plain_op (find_existing k).
Proof. unfold find_existing. ops. Qed.
Hint Resolve markTaskFailed_ops find_existing_ops : ops.

Ltac ops' := repeat (ops; try apply progress_or_ops).

Lemma createAndRunTask_ops ty p by_ u k : all_ops plain_op (createAndRunTask s ty p by_ u k).
Proof. unfold createAndRunTask. ops. Qed.

Lemma executeBackupCreate_ops id p wk : all_ops plain_op (executeBackupCreate s id p wk).
Proof. unfold executeBackupCreate. ops'. Qed.

Lemma executeBackupVerify_ops id p wk : all_ops plain_op (executeBackupVerify s id p wk).
Proof. unfold executeBackupVerify. ops'. Qed.

Lemma runTask_finish_ops id p : all_ops plain_op (runTask_finish id p).
Proof. unfold runTask_finish. ops. Qed.
Hint Resolve createAndRunTask_ops executeBackupCreate_ops executeBackupVerify_ops runTask_finish_ops : ops.

Lemma executeTaskOperation_ops id p wk : all_ops plain_op (executeTaskOperation s id p wk).
Proof. unfold executeTaskOperation. ops'. Qed.

Lemma runTask_ops id p : all_ops plain_op (runTask s id p).
Proof. unfold runTask, runTask_operation. ops'. Qed.

Lemma failClaimedTask_ops t wk e f : all_ops plain_op (failClaimedTask s t wk e f).
Proof. unfold failClaimedTask. ops. Qed.
Hint Resolve executeTaskOperation_ops runTask_ops failClaimedTask_ops : ops.

Lemma claimed_body_ops wk t : all_ops plain_op (claimed_body s wk t).
Proof. unfold claimed_body. ops'. Qed.
Hint Resolve claimed_body_ops : ops.

Lemma refreshTaskGauges_ops : all_ops plain_op (refreshTaskGauges s).
Proof. unfold refreshTaskGauges. ops. Qed.
Hint Resolve refreshTaskGauges_ops : ops.

Lemma plain_fresh {A} (p : prog task_ans A) : all_ops plain_op p -> all_ops fresh_op p.
Proof. apply all_ops_mono. by intros []. Qed.

Lemma runClaimedTask_ops wk lease t : all_ops plain_op (runClaimedTask s wk lease t).
Proof. unfold runClaimedTask, startTaskHeartbeat. ops. Qed.

Lemma heartbeat_loop_ops c id wk lease : all_ops plain_op (heartbeat_loop c id wk lease).
Proof. unfold heartbeat_loop. ops. Qed.
Hint Resolve plain_fresh runClaimedTask_ops heartbeat_loop_ops : ops.

Lemma job_ops j : all_ops fresh_op (job_prog s j).
Proof.
  destruct j; cbn [job_prog]; [auto with ops|..];
    unfold claimed_goroutine, worker_loop, claimAvailableTasks, worker_wait;
    repeat (first [apply all_ops_bind | progress intros | by auto using plain_fresh with ops |
      match goal with |- all_ops _ (match ?x with _ => _ end) => destruct x end | solve [repeat split; done]]).
Qed.

(** The requests of the HTTP handlers and the worker's start. *)
Inductive request :=
| ReqDocker (req : dto.CreateDockerRestartTaskRequest) (by_ : option Z) (username : string)
| ReqService (req : dto.CreateServiceRestartTaskRequest) (by_ : option Z) (username : string)
| ReqBackup (req : dto.CreateBackupTaskRequest) (by_ : option Z) (username : string)
| ReqVerify (backupID : Z) (req : dto.CreateBackupVerifyTaskRequest) (by_ : option Z) (username : string)
| ReqCancel (id : Z) (username : string)
| ReqRetry (id : Z) (by_ : option Z) (username : string)
| ReqList (query : dto.ListTasksQuery)
| ReqDetail (id : Z)
| ReqWorker (hostname : string) (pid : Z) (options : TaskWorkerOptions).

(** The goroutine that serves a request; the answer goes to the client. *)
Definition serve (r : request) : prog task_ans unit :=
  match r with
  | ReqDocker req by_ u => CreateDockerRestartTask s req by_ u ;;; Ret tt
  | ReqService req by_ u => CreateServiceRestartTask s req by_ u ;;; Ret tt
  | ReqBackup req by_ u => CreateBackupTask s req by_ u ;;; Ret tt
  | ReqVerify id req by_ u => CreateBackupVerifyTask s id req by_ u ;;; Ret tt
  | ReqCancel id u => CancelTask id u ;;; Ret tt
  | ReqRetry id by_ u => RetryTask s id by_ u ;;; Ret tt
  | ReqList q => ListTasks q ;;; Ret tt
  | ReqDetail id => GetTaskDetail id ;;; Ret tt
  | ReqWorker h p o => RunWorker h p o
  end%prog.

Lemma get_task_ops id : all_ops plain_op (get_task id).
Proof. done. Qed.
Hint Resolve get_task_ops : ops.

Lemma CancelTask_ops id u : all_ops plain_op (CancelTask id u).
Proof. unfold CancelTask, or_else. ops. Qed.

Definition is_worker (r : request) : bool := match r with ReqWorker _ _ _ => true | _ => false end.

Lemma serve_plain r : is_worker r = false -> all_ops plain_op (serve r).
Proof.
  destruct r; intros Hr; try done; cbn [serve];
    unfold CreateDockerRestartTask, CreateServiceRestartTask, CreateBackupTask, CreateBackupVerifyTask,
      CancelTask, RetryTask, ListTasks, GetTaskDetail, with_key, or_else; ops.
Qed.

Lemma serve_ops r : all_ops fresh_op (serve r).
Proof. destruct r; try by apply plain_fresh, serve_plain. simpl. by repeat split. Qed.

(** ** The invariant in every interleaving *)

Lemma w_db_tick w : w_db (tick w) = w_db w.
Proof. done. Qed.

Lemma handle_db_ok o w : fresh_op o -> db_ok (w_db w) -> db_ok (w_db (handle o w).2).
Proof.
  intros Ho Hw. unfold handle. destruct o; cbn [exec]; try done.
  - unfold exec_repo. pose proof (repo_exec_ok (env_now env (w_step w)) o (w_db w) Ho Hw) as Hr.
    destruct (repo_exec _ o _) as [r d]. by destruct (env_db env (w_step w)).
  - by destruct (backup_exec _ o _).
  - by destruct (chan_slots workers w <? capacity).
Qed.

(** C1 However the goroutines of any number of requests, workers, tasks and
    heartbeats are interleaved, whatever the database and the agent answer, the
    task table stays well formed: legal statuses and progress, never more than
    [max_attempts] attempts, both lock columns or neither, unique ids, one row
    per idempotency key. *)
Theorem interleaving_db_ok (requests : list request) w c
  (Hinit : db_ok (w_db w)) (Hsteps : psteps handle spawn (serve <$> requests, w) c) :
  db_ok (w_db c.2).
Proof.
  refine (psteps_inv_ops handle spawn (fun w => db_ok (w_db w)) fresh_op _ _ _ _ Hsteps _ Hinit).
  - intros o w1. apply handle_db_ok.
  - intros w1 p w2 Hsp Hw. unfold spawn in Hsp. destruct (w_jobs w1); [done|].
    injection Hsp as <- <-. split; [done|apply job_ops].
  - cbn [fst]. apply Forall_fmap. apply Forall_forall. intros r _. apply serve_ops.
Qed.

(** ** A claimed task that runs undisturbed *)

(** No statement fails. *)
Definition calm : Prop := forall n, env_db env n = NoFault.

Definition row (id : Z) w : option Task := first_where (has_id id) (db_tasks (w_db w)).

(** The operations that neither insert nor choose a row. *)
Definition by_id (o : repo_op) : bool :=
  match o with
  | RCreate _ | RClaimNextTask _ _ => false
  | RUpdateStatus _ st p _ => status_ok st && progress_ok p
  | _ => true
  end.

Lemma has_id_keeps f id : keeps_keys f -> forall t, has_id id (f t) = has_id id t.
Proof. intros Hk t. unfold has_id. by destruct (Hk t) as [-> _]. Qed.

Lemma row_after now o db id : by_id o = true ->
  first_where (has_id id) (db_tasks (repo_exec now o db).2)
  = match first_where (has_id id) (db_tasks db) with
    | Some t => Some (if (row_update now o).1 t then (row_update now o).2 t else t)
    | None => None
    end.
Proof.
  intros Ho.
  assert (Hu : forall p f, keeps_keys f -> first_where (has_id id) (update_where p f (db_tasks db))
    = match first_where (has_id id) (db_tasks db) with Some t => Some (if p t then f t else t) | None => None end).
  { intros p f Hk. apply first_where_update. by apply has_id_keeps. }
  pose proof (row_update_keeps now o) as Hk.
  destruct o; cbn [by_id repo_exec row_update fst snd] in *; try done; try (by destruct (first_where _ _));
    try (unfold repository.HeartbeatTask, repository.CompleteTask, repository.FailTask,
           repository.ReleaseStaleTasks, repository.Updates; cbn [snd with_tasks db_tasks]; by apply Hu).
  - unfold repository.UpdateStatus. rewrite Ho, andb_false_r. cbn. by apply Hu.
  - unfold repository.AppendLog. destruct (existsb _ (db_tasks db)); cbn [snd db_tasks];
      by destruct (first_where (has_id id) (db_tasks db)).
Qed.

Section Wp.
Context (Hcalm : calm).

Lemma wp_repo {A} o (k : repo_ans o -> prog task_ans A) Q w :
  (let '(r, d) := repo_exec (env_now env (w_step w)) o (w_db w) in wp handle (k r) Q (tick (set_db d w))) ->
  wp handle (bind (repo o) k) Q w.
Proof.
  unfold wp, repo, call. cbn [bind run]. unfold handle at 2. cbn [exec]. unfold exec_repo.
  destruct (repo_exec _ o _) as [r d]. by rewrite Hcalm.
Qed.

Lemma wp_call {A} o (k : task_ans o -> prog task_ans A) Q w :
  (let '(a, w') := handle o w in wp handle (k a) Q w') -> wp handle (bind (call o) k) Q w.
Proof. unfold wp, call. cbn [bind run]. by destruct (handle o w). Qed.

(** The row [id] is held by [wk] for the task [t0], and the rest is as in [w0]. *)
Record held_in (id : Z) (wk : string) (t0 : Task) (w0 w : World B) : Prop := {
  hi_ok : db_ok (w_db w);
  hi_row : exists t, row id w = Some t /\ t_Status t = "running" /\ t_LockedBy t = Some wk
    /\ t_Attempt t = t_Attempt t0 /\ t_MaxAttempts t = t_MaxAttempts t0;
  hi_rest : forall i, i <> id -> row i w = row i w0
}.

Context (id : Z) (wk : string) (t0 : Task) (w0 : World B).
#[local] Abbreviation P := (held_in id wk t0 w0).

(** An operation on row [id] by its id. *)
Lemma held_repo o w :
  by_id o = true -> op_ok o -> P w ->
  (forall now t, (row_update now o).1 t = true -> t_ID t = id) ->
  (forall now t, t_Status t = "running" -> t_LockedBy t = Some wk -> (row_update now o).1 t = true ->
     let t' := (row_update now o).2 t in
     t_Status t' = "running" /\ t_LockedBy t' = Some wk /\ t_Attempt t' = t_Attempt t /\ t_MaxAttempts t' = t_MaxAttempts t) ->
  P (tick (set_db (repo_exec (env_now env (w_step w)) o (w_db w)).2 w)).
Proof.
  intros Hb Ho [Hok (t & Hrow & Hst & Hl & Ha & Hm) Hrest] Hid Hrun. split.
  - by apply repo_exec_ok.
  - unfold row in *. simpl. rewrite row_after, Hrow by done. eexists. split; [done|].
    destruct ((row_update (env_now env (w_step w)) o).1 t) eqn:E; [|done].
    destruct (Hrun _ t Hst Hl E) as (-> & -> & -> & ->). done.
  - intros i Hi. unfold row in *. simpl. rewrite row_after by done. rewrite <- Hrest by done.
    destruct (first_where (has_id i) (db_tasks (w_db w))) as [t'|] eqn:E; [|done].
    destruct ((row_update (env_now env (w_step w)) o).1 t') eqn:E2; [|done].
    apply first_where_Some in E as [_ E]. apply Hid in E2. unfold has_id in E. lia.
Qed.

Lemma wp_log {A} i l m d (k : unit -> prog task_ans A) Q w :
  P w -> (forall w', P w' -> w_backups w' = w_backups w -> wp handle (k tt) Q w') ->
  wp handle (bind (log_raw i l m d) k) Q w.
Proof.
  intros Hp Hk. unfold log_raw. apply wp_bind, wp_repo. cbn [repo_exec].
  destruct (repository.AppendLog _ _ _) as [r db] eqn:E. unfold wp at 1. cbn [run]. apply Hk; [|done].
  pose proof (held_repo (RAppendLog (MkTaskLog 0 i l m d zero_time)) w eq_refl I Hp) as Hh.
  cbn [repo_exec] in Hh. rewrite E in Hh. by apply Hh.
Qed.

Lemma wp_isCanceled {A} (k : bool -> prog task_ans A) Q w :
  P w -> (forall w', P w' -> w_backups w' = w_backups w -> wp handle (k false) Q w') ->
  wp handle (bind (isCanceled id) k) Q w.
Proof.
  intros Hp Hk. unfold isCanceled. apply wp_bind, wp_repo. cbn [repo_exec]. unfold wp at 1. cbn [run].
  pose proof (hi_row _ _ _ _ _ Hp) as (t & Hrow & Hst & _).
  unfold repository.GetByID. unfold row in Hrow. rewrite Hrow, Hst. apply Hk; [|by destruct w].
  by apply (held_repo (RGetByID id)).
Qed.

Lemma wp_progress {A} p (stop rest : prog task_ans A) Q w :
  progress_ok p = true -> P w -> (forall w', P w' -> w_backups w' = w_backups w -> wp handle rest Q w') ->
  wp handle (progress_or id p stop rest) Q w.
Proof.
  intros Hpr Hp Hk. unfold progress_or, setRunningProgress. apply wp_bind, wp_isCanceled; [done|].
  intros w1 Hp1 Hb1. apply wp_repo.
  pose proof (held_repo (RUpdateStatus id TaskStatusRunning p "") w1) as Hh. cbn [repo_exec] in *.
  assert (Hr : (repository.UpdateStatus (env_now env (w_step w1)) id TaskStatusRunning p "" (w_db w1)).1 = Ok tt).
  { unfold repository.UpdateStatus. rewrite Hpr. by rewrite andb_false_r. }
  destruct (repository.UpdateStatus _ _ _ _ _ _) as [r db]. simpl in Hr. subst r.
  unfold wp at 1. cbn [run is_ok]. apply Hk; [|done]. apply Hh; [|done|done| |].
  - simpl. by rewrite Hpr.
  - intros now t Ht. by apply Z.eqb_eq in Ht.
  - intros now t _ Hl _. by destruct t.
Qed.

Lemma held_frame w w' : w_db w' = w_db w -> P w -> P w'.
Proof. intros E [H1 H2 H3]. unfold row in *. split; unfold row; by rewrite E. Qed.

(** The result of the external operation of a payload, the state of the backups
    being [b]. *)
Definition forget {A} (r : res A) : res unit := res_map (fun _ => tt) r.

Definition agent_outcome {A} (r : res A) : res unit :=
  match r with Ok _ => Ok tt | Err e => Err (mapAgentError e) end.

Definition operation_outcome (p : taskPayload) (b : B) (r : res unit) : Prop :=
  if (Operation p =? taskOperationDockerRestart)%string then
    exists n, r = agent_outcome (env_agent env n (ARestartDockerContainer (ContainerID p)))
  else if (Operation p =? taskOperationServiceRestart)%string then
    exists n, r = agent_outcome (env_agent env n (ARestartService (ServiceName p)))
  else if (Operation p =? taskOperationBackupCreate)%string then
    if HasBackup s then exists time, r = forget (backup_exec time (BCreateArtifact (BackupID p)) b).1
    else r = Err (nonRetryable "backup service is not configured")
  else if (Operation p =? taskOperationBackupVerify)%string then
    if HasBackup s then
      if manual_verification (SizeBytes p) (Checksum p) (FilePath p) then
        exists time, r = forget (backup_exec time (BVerify (BackupID p)
          {| dto.vb_SizeBytes := SizeBytes p; dto.vb_Checksum := Checksum p; dto.vb_FilePath := FilePath p |}) b).1
      else exists time, r = forget (backup_exec time (BVerifyArtifact (BackupID p)) b).1
    else r = Err (nonRetryable "backup service is not configured")
  else r = Err (nonRetryable "unsupported task operation").

Lemma wp_docker {A} c (k : res dto.DockerContainerActionResult -> prog task_ans A) Q w :
  P w ->
  (forall n w', P w' ->
     wp handle (k (match env_agent env n (ARestartDockerContainer c) with
                   | Ok x => Ok (docker_action x) | Err e => Err (mapAgentError e) end)) Q w') ->
  wp handle (bind (restart_docker c) k) Q w.
Proof. intros Hp Hk. apply Hk. by apply (held_frame w). Qed.

Lemma wp_service {A} c (k : res dto.ServiceActionResult -> prog task_ans A) Q w :
  P w ->
  (forall n w', P w' ->
     wp handle (k (match env_agent env n (ARestartService c) with
                   | Ok x => Ok (service_action x) | Err e => Err (mapAgentError e) end)) Q w') ->
  wp handle (bind (restart_service c) k) Q w.
Proof. intros Hp Hk. apply Hk. by apply (held_frame w). Qed.

Lemma wp_backup {A} o (k : backup_ans o -> prog task_ans A) Q w :
  P w ->
  (forall time w', P w' -> wp handle (k (backup_exec time o (w_backups w)).1) Q w') ->
  wp handle (bind (backup o) k) Q w.
Proof.
  intros Hp Hk. unfold backup. apply wp_call. unfold handle. cbn [exec].
  specialize (Hk (env_now env (w_step w))). destruct (backup_exec _ o _) as [r b]. apply Hk.
  by apply (held_frame w).
Qed.

Lemma wp_return {A} (x : A) (Q : A -> World B -> Prop) w : Q x w -> wp handle (Ret x) Q w.
Proof. done. Qed.

Lemma bind_bind_ok {A C} (p : prog task_ans (res A)) (f : A -> prog task_ans (res C)) Q w :
  wp handle (bind p (fun r => match r with Ok x => f x | Err e => Ret (Err e) end)) Q w ->
  wp handle (bind_ok p f) Q w.
Proof. done. Qed.

(** The steps of an execution that keeps the row held. *)
Ltac held_step :=
  first
    [ apply wp_progress; [reflexivity|assumption|intros ? ? ?]
    | apply wp_log; [assumption|intros ? ? ?]
    | apply bind_bind_ok
    | apply wp_isCanceled; [assumption|intros ? ? ?] ].

Lemma wp_backup_end (r : res dto.BackupSummary) b p stop l (out : res unit) Q w :
  P w -> out = forget r -> operation_outcome p b out ->
  (forall r w', P w' -> operation_outcome p b r -> Q r w') ->
  wp handle (match r with
             | Ok x => progress_or id 85 stop (log_raw id "info" (l x).1 (l x).2 ;;; Ret (Ok tt))
             | Err e => Ret (Err e)
             end)%prog Q w.
Proof.
  intros Hp -> Ho HQ. destruct r as [b'|e]; [|by apply wp_return, HQ].
  held_step. held_step. by apply wp_return, HQ.
Qed.

Lemma wp_executeTaskOperation p wkr Q w :
  P w -> (forall r w', P w' -> operation_outcome p (w_backups w) r -> Q r w') ->
  wp handle (executeTaskOperation s id p wkr) Q w.
Proof.
  intros Hp HQ. unfold executeTaskOperation.
  assert (Hout : forall r, operation_outcome p (w_backups w) r -> operation_outcome p (w_backups w) r) by done.
  unfold operation_outcome at 1 in Hout. revert Hout.
  destruct (Operation p =? taskOperationDockerRestart)%string; [intros Hout|].
  { held_step. held_step. held_step. apply wp_docker; [done|]. intros n w3 Hp3.
    specialize (Hout _ (ex_intro _ n eq_refl)).
    destruct (env_agent env n _) as [x|e]; [|by apply wp_return, HQ].
    held_step. held_step. by apply wp_return, HQ. }
  destruct (Operation p =? taskOperationServiceRestart)%string; [intros Hout|].
  { held_step. held_step. held_step. apply wp_service; [done|]. intros n w3 Hp3.
    specialize (Hout _ (ex_intro _ n eq_refl)).
    destruct (env_agent env n _) as [x|e]; [|by apply wp_return, HQ].
    held_step. held_step. by apply wp_return, HQ. }
  unfold executeBackupCreate, executeBackupVerify.
  destruct (Operation p =? taskOperationBackupCreate)%string; [intros Hout|].
  { destruct (HasBackup s); cbn [negb]; [|apply wp_return, HQ; auto].
    held_step. held_step. held_step. apply wp_backup; [done|]. intros time w3 Hp3.
    replace (w_backups w'0) with (w_backups w) by congruence.
    apply (wp_backup_end _ (w_backups w) p _ (fun b => ("backup artifact created", _)) _ _ _ Hp3 eq_refl); eauto. }
  destruct (Operation p =? taskOperationBackupVerify)%string; intros Hout; [|apply wp_return, HQ; auto].
  destruct (HasBackup s); cbn [negb]; [|apply wp_return, HQ; auto]. held_step.
  destruct (manual_verification _ _ _); held_step; (apply wp_backup; [done|]); intros time w3 Hp3;
    replace (w_backups w') with (w_backups w) by congruence;
    apply (wp_backup_end _ (w_backups w) p _ (fun b => ("backup metadata verified", _)) _ _ _ Hp3 eq_refl); eauto.
Qed.

(** The abstract specification of one execution: what becomes of the row. *)
Definition settled (r : res unit) (t : Task) : Prop :=
  t_LockedBy t = None /\ t_LockedUntil t = None /\ t_Attempt t = t_Attempt t0 /\ t_MaxAttempts t = t_MaxAttempts t0 /\
  match r with
  | Ok _ => t_Status t = "success" /\ t_Progress t = 100 /\ t_ErrorMsg t = "" /\ exists f, t_FinishedAt t = Some f
  | Err e => t_ErrorMsg t = Error e /\ exists time,
      match nextTaskRetryAt time (t_Attempt t0) (t_MaxAttempts t0)
              (negb (AsNonRetryable e) && isRetryableTaskError e) with
      | Some at_ => t_Status t = "pending" /\ t_NextRunAt t = Some at_
      | None => t_Status t = "failed" /\ t_Progress t = 100 /\ t_NextRunAt t = None
                /\ exists f, t_FinishedAt t = Some f
      end
  end.

Record settled_in (r : res unit) (w : World B) : Prop := {
  si_ok : db_ok (w_db w);
  si_row : exists t, row id w = Some t /\ settled r t;
  si_rest : forall i, i <> id -> row i w = row i w0
}.

Definition same_rows w w' : Prop := db_ok (w_db w') /\ forall i, row i w' = row i w.

Lemma settled_frame r w w' : same_rows w w' -> settled_in r w -> settled_in r w'.
Proof. intros [Hok Hr] [H1 H2 H3]. split; [done| |]; intros; rewrite Hr; auto. Qed.

Lemma wp_log_settled {A} r i l m d (k : unit -> prog task_ans A) Q w :
  settled_in r w -> (forall w', settled_in r w' -> wp handle (k tt) Q w') ->
  wp handle (bind (log_raw i l m d) k) Q w.
Proof.
  intros Hp Hk. unfold log_raw. apply wp_bind, wp_repo. set (o := RAppendLog _).
  pose proof (repo_exec_ok (env_now env (w_step w)) o (w_db w) I (si_ok _ _ Hp)) as Hd.
  pose proof (fun j => row_after (env_now env (w_step w)) o (w_db w) j eq_refl) as Hr.
  destruct (repo_exec _ o _) as [a d']. apply wp_return, Hk. apply (settled_frame r w); [|done]. split; [done|].
  intros j. unfold row. cbn [w_db tick set_db]. rewrite Hr. simpl. by destruct (first_where _ _).
Qed.

Lemma wp_observe m (Q : unit -> World B -> Prop) w :
  (forall w', w_db w' = w_db w -> Q tt w') -> wp handle (observe s m) Q w.
Proof. intros Hk. unfold observe. destruct (HasMetrics s); by apply Hk. Qed.

Lemma settled_frame_db r w w' : w_db w' = w_db w -> settled_in r w -> settled_in r w'.
Proof. intros E Hs. apply (settled_frame r w); [|done]. split; [rewrite E; apply Hs|]. intros i. unfold row. by rewrite E. Qed.

(** Completing or failing the task settles the row. *)
Lemma settle_row r w o :
  P w -> by_id o = true -> op_ok o ->
  (forall now t, (row_update now o).1 t = repository.owned id wk t) ->
  (forall t, t_Attempt t = t_Attempt t0 -> t_MaxAttempts t = t_MaxAttempts t0 -> settled r ((row_update (env_now env (w_step w)) o).2 t)) ->
  settled_in r (tick (set_db (repo_exec (env_now env (w_step w)) o (w_db w)).2 w)).
Proof.
  intros [Hok (t & Hrow & Hst & Hl & Ha & Hm) Hrest] Hb Ho Hp Hset. split.
  - by apply repo_exec_ok.
  - unfold row in *. simpl. rewrite row_after, Hrow by done. eexists. split; [done|].
    rewrite Hp. unfold repository.owned. rewrite Hst, Hl, String.eqb_refl.
    apply first_where_Some in Hrow as [_ ->]. by apply Hset.
  - intros i Hi. unfold row in *. simpl. rewrite row_after by done. rewrite <- Hrest by done.
    destruct (first_where (has_id i) (db_tasks (w_db w))) as [t'|] eqn:E; [|done]. rewrite Hp.
    unfold repository.owned. apply first_where_Some in E as [_ E].
    replace (has_id id t') with false; [done|]. unfold has_id in *. lia.
Qed.

Lemma wp_now {A} (k : Z -> prog task_ans A) Q w :
  (forall t, wp handle (k t) Q (tick w)) -> wp handle (bind now k) Q w.
Proof. intros Hk. unfold now. apply wp_call. apply Hk. Qed.

(** An execution ends in a log line. *)
Lemma wp_last_log r i l m d w : settled_in r w -> wp handle (log_raw i l m d) (fun _ w' => settled_in r w') w.
Proof. intros Hs. unfold log_raw. by apply (wp_log_settled r i l m d Ret). Qed.

Lemma wp_failClaimedTask task e f w :
  t_ID task = id -> t_Attempt task = t_Attempt t0 -> t_MaxAttempts task = t_MaxAttempts t0 ->
  P w -> wp handle (failClaimedTask s task wk e f) (fun _ w' => settled_in (Err e) w') w.
Proof.
  intros Hid Ha Hm Hp. unfold failClaimedTask. rewrite Hid, Ha, Hm. held_step. cbv iota. apply wp_now. intros time.
  set (next := nextTaskRetryAt time _ _ _). apply wp_repo.
  assert (Hp1 : P (tick w')) by (by apply (held_frame w')).
  pose proof (settle_row (Err e) (tick w') (RFailTask id wk (Error e) next) Hp1 eq_refl I) as Hs.
  destruct (repo_exec _ (RFailTask id wk (Error e) next) _) as [r d] eqn:E. cbn [snd] in Hs.
  assert (Hs1 : settled_in (Err e) (tick (set_db d (tick w')))).
  { apply Hs; [done|]. intros t Hat Hmx. cbn [row_update snd]. unfold repository.fail_updates.
    split; [by destruct next, t|]. split; [by destruct next, t|]. split; [rewrite <- Hat; by destruct next, t|].
    split; [rewrite <- Hmx; by destruct next, t|].
    split; [by destruct next, t|]. exists time. fold next.
    destruct next; [by destruct t|]. destruct t. simpl. repeat (split; [done|]). by eexists. }
  destruct next as [at_|].
  - by apply wp_last_log.
  - apply wp_bind, wp_now. intros t. apply wp_observe. intros w4 E4. apply wp_last_log.
    by apply (settled_frame_db _ (tick (set_db d (tick w')))).
Qed.

(** What the worker makes of a claimed task. *)
Definition execution_outcome (payload : string) (b : B) (r : res unit) : Prop :=
  match unmarshalTaskPayload payload with
  | Err err => r = Err (ErrNonRetryable err)
  | Ok p => operation_outcome p b r
  end.

Lemma wp_claimed_body task w :
  t_ID task = id -> t_Attempt task = t_Attempt t0 -> t_MaxAttempts task = t_MaxAttempts t0 -> P w ->
  wp handle (claimed_body s wk task)
    (fun _ w' => exists r, execution_outcome (t_Payload task) (w_backups w) r /\ settled_in r w') w.
Proof.
  intros Hid Ha Hm Hp. unfold claimed_body, execution_outcome.
  destruct (unmarshalTaskPayload (t_Payload task)) as [p|e]; rewrite ?Hid.
  2: { eapply wp_mono; [by apply wp_failClaimedTask|]. intros ? ? ?; eauto. }
  held_step. held_step. cbv iota. held_step. held_step.
  replace (w_backups w) with (w_backups w'2) by congruence.
  apply wp_bind, wp_executeTaskOperation; [done|]. intros r w5 Hp5 Ho.
  destruct r as [u|e]; [|eapply wp_mono; [by apply wp_failClaimedTask|]; intros ? ? ?; eauto].
  held_step. cbv iota. apply wp_repo.
  pose proof (settle_row (Ok u) w'3 (RCompleteTask id wk "{}") ltac:(assumption) eq_refl I) as Hs.
  destruct (repo_exec _ (RCompleteTask id wk "{}") _) as [a d] eqn:E. cbn [snd] in Hs.
  assert (Hs1 : settled_in (Ok u) (tick (set_db d w'3))).
  { apply Hs; [done|]. intros t Hat Hmx. destruct t. simpl in *. repeat (split; [done|]). by eexists. }
  apply wp_now. intros t. apply wp_bind, wp_observe. intros w7 E7.
  eapply wp_mono; [apply (wp_last_log (Ok u)); by apply (settled_frame_db _ (tick (set_db d w'3)))|].
  intros ? ? ?; eauto.
Qed.
End Wp.

(** The whole of [runClaimedTask]. *)
Lemma wp_runClaimedTask w task workerID lease :
  calm -> db_ok (w_db w) -> row (t_ID task) w = Some task -> t_Status task = "running" -> t_LockedBy task = Some workerID ->
  wp handle (runClaimedTask s workerID lease task)
    (fun _ w' => exists r, execution_outcome (t_Payload task) (w_backups w) r
                         /\ settled_in (t_ID task) task w r w') w.
Proof.
  intros Hcalm Hok Hrow Hrunning Hlocked.
  unfold runClaimedTask, startTaskHeartbeat. apply wp_bind, wp_bind. unfold wp at 1. cbn [run call].
  unfold handle at 1. cbn [exec]. apply wp_bind. unfold wp at 1. cbn [run call go]. unfold handle at 1. cbn [exec].
  apply wp_return. apply wp_bind. set (w1 := tick _).
  assert (Hp : held_in (t_ID task) workerID task w w1) by (split; [done|by exists task|done]).
  eapply wp_mono; [by apply (wp_claimed_body Hcalm (t_ID task) workerID task w)|].
  intros ? w2 (r & Ho & Hs). exists r. split; [exact Ho|].
  by apply (settled_frame_db _ _ _ r w2).
Qed.

End TaskSystem.
