(* ===== verification/TaskWorker.v ===== *)
(** * The slots of the task worker

    [RunWorker] bounds the tasks it runs at a time by a buffered channel: a
    slot is taken before a task is claimed and given back when the goroutine
    of the task ends.  The account below follows the slots of one channel
    through every goroutine. *)

From Stdlib Require Import ZArith Lia.
From S2P Require Import Prelude GoString GoError Effects Schema BackupApi.
From S2P Require Import TaskRepo TaskPayload TaskService TaskSystem.

Definition sumZ (l : list Z) : Z := foldr Z.add 0 l.

Lemma sumZ_app l k : sumZ (l ++ k) = sumZ l + sumZ k.
Proof. unfold sumZ. induction l as [|x l IH]; simpl; lia. Qed.

Lemma sumZ_cons x l : sumZ (x :: l) = x + sumZ l.
Proof. done. Qed.

Lemma sumZ_zero {A} (f : A -> Z) l : (forall x, f x = 0) -> sumZ (f <$> l) = 0.
Proof. intros Hf. induction l as [|x l IH]; [done|]. rewrite fmap_cons, sumZ_cons, Hf, IH. done. Qed.

Lemma sumZ_nonneg {A} (f : A -> Z) l : (forall x, 0 <= f x) -> 0 <= sumZ (f <$> l).
Proof. intros Hf. induction l as [|x l IH]; [done|]. rewrite fmap_cons, sumZ_cons. specialize (Hf x). lia. Qed.

Lemma sumZ_insert l i n m : l !! i = Some n -> sumZ (<[i := m]> l) = sumZ l - n + m.
Proof.
  revert i. unfold sumZ. induction l as [|x l IH]; intros [|i] Hi; simplify_eq/=; [lia|].
  rewrite IH by done. lia.
Qed.

Lemma sumZ_bound l : Forall (fun n => 0 <= n) l -> Z.of_nat (length (List.filter (Z.ltb 0) l)) <= sumZ l.
Proof.
  unfold sumZ. induction 1 as [|x l Hx _ IH]; simpl; [done|]. destruct (Z.ltb_spec 0 x); simpl; lia.
Qed.

Section Slots.
Context (s : TaskServiceOptions) (c : nat) (cap : Z).

(** The slots a goroutine not yet started will give back. *)
Definition job_slots (j : job) : Z :=
  match j with JClaimed _ c' _ => if (c' =? c)%nat then 1 else 0 | _ => 0 end.

(** The loops of the worker that owns the channel agree on its capacity. *)
Definition job_cap (j : job) : Prop :=
  match j with
  | JClaimed o c' _ | JWorker o c' | JClaim o c' | JWait o c' => c' = c -> Concurrency o = cap
  | JRunTask _ _ | JHeartbeat _ _ _ _ => True
  end.

(** Slots taken by an operation with its answer. *)
Definition op_delta (o : task_op) : task_ans o -> Z :=
  match o return task_ans o -> Z with
  | TrySend c' _ => fun a => if ((c' =? c)%nat && a)%bool then 1 else 0
  | Receive c' => fun _ => if (c' =? c)%nat then -1 else 0
  | Go j => fun _ => - job_slots j
  | _ => fun _ => 0
  end.

Definition op_side (o : task_op) : Prop :=
  match o with
  | TrySend c' cap' => c' = c -> cap' = cap
  | Go j => job_cap j
  | _ => True
  end.

(** A channel made later is another channel. *)
Definition op_ret (o : task_op) : task_ans o -> Prop :=
  match o return task_ans o -> Prop with MakeWorkers => fun a => a <> c | _ => fun _ => True end.

(** [holds n p] : the program [p] has [n] slots to give back, whatever answers
    it gets, and never gives back one it does not have. *)
Fixpoint holds {A} (n : Z) (p : prog task_ans A) : Prop :=
  0 <= n /\
  match p with
  | Ret _ => n = 0
  | Do o k => op_side o /\ forall a, op_ret o a -> holds (n + op_delta o a) (k a)
  end.

Lemma holds_nonneg {A} n (p : prog task_ans A) : holds n p -> 0 <= n.
Proof. destruct p; by intros [? _]. Qed.

(** A program without channel operations keeps the account. *)
Lemma holds_bind {A C} n (p : prog task_ans A) (f : A -> prog task_ans C) :
  0 <= n -> all_ops plain_op p -> (forall x, holds n (f x)) -> holds n (bind p f).
Proof.
  intros Hn. induction p as [x|o k IH]; intros Hp Hf; [apply Hf|]. destruct Hp as [Ho Hk].
  cbn [bind holds]. split; [done|]. split.
  - destruct o; try done. by destruct j.
  - intros a _. replace (n + op_delta o a) with n; [by apply IH|].
    destruct o; simpl in *; try done; try lia. destruct j; simpl in *; try done; lia.
Qed.

Lemma holds_plain {A} (p : prog task_ans A) : all_ops plain_op p -> holds 0 p.
Proof.
  induction p as [x|o k IH]; intros Hp; [done|]. destruct Hp as [Ho Hk]. split; [done|]. split.
  - destruct o; try done. by destruct j.
  - intros a _. replace (0 + op_delta o a) with 0; [by apply IH|].
    destruct o; simpl in *; try done. by destruct j.
Qed.

(** Every goroutine gives back exactly the slots it was started with. *)
Lemma job_holds j : job_cap j -> holds (job_slots j) (job_prog s j).
Proof.
  intros Hj. destruct j; cbn [job_prog job_slots].
  - apply holds_plain, runTask_ops.
  - unfold claimed_goroutine. apply holds_bind; [case_match; lia|apply runClaimedTask_ops|].
    intros _. simpl. by destruct (workers =? c)%nat.
  - apply holds_plain, heartbeat_loop_ops.
  - unfold worker_loop. apply holds_bind; [done|done|]. intros []; [done|].
    apply holds_bind; [done|done|]. intros t. apply holds_bind; [done|done|]. intros _.
    apply holds_bind; [done|apply refreshTaskGauges_ops|]. intros _. by repeat split.
  - unfold claimAvailableTasks. cbn [bind call holds op_side op_ret op_delta]. split; [done|].
    split; [exact Hj|]. intros sent _.
    assert (Hobs : forall m (f : unit -> prog task_ans unit) n, 0 <= n -> holds n (f tt) ->
              holds n (bind (observe s m) f)).
    { intros m f n Hn Hf. apply holds_bind; [done|apply observe_ops|]. by intros []. }
    destruct sent; simpl negb; cbv iota; rewrite ?andb_true_r, ?andb_false_r.
    2: { simpl. repeat split; try done; lia. }
    apply holds_bind; [case_match; lia|done|].
    intros [[t|]|e]; (apply Hobs; [case_match; lia|]); simpl; destruct (workers =? c)%nat eqn:E;
      repeat split; try done; try lia; intros; simplify_eq/=; try done; try lia.
  - unfold worker_wait. cbn [bind call holds op_side op_ret op_delta]. split; [done|]. split; [done|].
    intros [] _; simpl; [done|]. by repeat split.
Qed.
End Slots.

Section Bound.
Context {B : Type} `{BackupImpl B} (env : Env) (s : TaskServiceOptions).
Context (c : nat) (cap : Z).

Definition queued_slots (w : World B) : Z := sumZ (job_slots c <$> w_jobs w).

(** The account of one channel. *)
Record slots_inv (ts : list (prog task_ans unit)) (w : World B) : Prop := {
  sl_chan : (c < length (w_chans w))%nat;
  sl_jobs : Forall (job_cap c cap) (w_jobs w);
  sl_cap : chan_slots c w <= cap;
  sl_held : exists ns, Forall2 (holds c cap) ns ts /\ sumZ ns + queued_slots w = chan_slots c w
}.

(** One operation moves the account by its delta. *)
Lemma handle_slots o w :
  (c < length (w_chans w))%nat -> op_side c cap o -> Forall (job_cap c cap) (w_jobs w) -> chan_slots c w <= cap ->
  let '(a, w') := handle env o w in
  op_ret c o a /\ (c < length (w_chans w'))%nat /\ Forall (job_cap c cap) (w_jobs w')
  /\ chan_slots c w' <= cap
  /\ chan_slots c w' - queued_slots w' = chan_slots c w - queued_slots w + op_delta c o a.
Proof.
  intros Hc Hs Hj Hcap. unfold handle.
  assert (Hnop : forall w', w_chans w' = w_chans w -> w_jobs w' = w_jobs w ->
    (c < length (w_chans (tick w')))%nat /\ Forall (job_cap c cap) (w_jobs (tick w'))
    /\ chan_slots c (tick w') <= cap
    /\ chan_slots c (tick w') - queued_slots (tick w') = chan_slots c w - queued_slots w + 0).
  { intros w' E1 E2. unfold chan_slots, queued_slots in *. simpl. rewrite E1, E2. repeat split; try done; lia. }
  destruct o; cbn [exec op_ret op_delta]; try (split; [done|]; by apply Hnop).
  - unfold exec_repo. destruct (repo_exec _ o _) as [r d]. destruct (env_db env _); (split; [done|]; by apply Hnop).
  - destruct (backup_exec _ o _) as [r b]. split; [done|]. by apply Hnop.
  - split; [done|]. split; [done|]. split; [by apply Forall_app_2; [|constructor]|].
    unfold chan_slots, queued_slots in *. simpl. rewrite fmap_app, sumZ_app. simpl. split; [done|].
    unfold sumZ. simpl. lia.
  - split; [lia|]. split; [simpl; rewrite length_app; lia|]. split; [done|].
    unfold chan_slots, queued_slots in *. simpl. rewrite lookup_app_l by done. split; [done|lia].
  - destruct (Z.ltb_spec (chan_slots workers w) capacity); [|split; [done|]; rewrite andb_false_r; by apply Hnop].
    split; [done|]. split; [simpl; by rewrite length_insert|]. split; [done|]. rewrite andb_true_r.
    destruct (Nat.eqb_spec workers c) as [->|Hne]; unfold chan_slots, queued_slots in *; simpl.
    + rewrite list_lookup_insert_eq by done. simpl. rewrite Hs in * by done. lia.
    + rewrite list_lookup_insert_ne by done. lia.
  - split; [done|]. split; [simpl; by rewrite length_insert|]. split; [done|].
    destruct (Nat.eqb_spec workers c) as [->|Hne]; unfold chan_slots, queued_slots in *; simpl.
    + rewrite list_lookup_insert_eq by done. simpl. lia.
    + rewrite list_lookup_insert_ne by done. lia.
Qed.

Lemma pstep_slots c1 c2 : pstep (handle env) (spawn s) c1 c2 -> slots_inv c1.1 c1.2 -> slots_inv c2.1 c2.2.
Proof.
  intros [ts i o k w Hl|ts p w w' Hsp] [Hc Hj Hcap (ns & Hns & Hsum)]; cbn [fst snd] in *.
  - destruct (Forall2_lookup_r _ _ _ _ _ Hns Hl) as (n & Hn & Hh). destruct Hh as [Hn0 [Hside Hk]].
    pose proof (handle_slots o w Hc Hside Hj Hcap) as Hw. destruct (handle env o w) as [a w'].
    destruct Hw as (Hret & Hc' & Hj' & Hle & Heq). cbn [fst snd].
    assert (Hns' : Forall2 (holds c cap) (<[i := n + op_delta c o a]> ns) (<[i := k a]> ts))
      by (apply Forall2_insert; auto).
    split; [done..|]. eexists. split; [exact Hns'|]. rewrite (sumZ_insert _ _ _ _ Hn). lia.
  - unfold spawn in Hsp. destruct (w_jobs w) as [|j l] eqn:E; [done|]. injection Hsp as <- <-.
    inversion Hj as [|? ? Hj1 Hj2]; subst. split; [done..|]. exists (ns ++ [job_slots c j]). split.
    + apply Forall2_app; [done|]. constructor; [by apply job_holds|constructor].
    + rewrite sumZ_app, sumZ_cons. unfold queued_slots, chan_slots in *. rewrite E, fmap_cons, sumZ_cons in Hsum.
      cbn [set_jobs w_jobs w_chans]. unfold sumZ at 2. simpl. lia.
Qed.

Lemma psteps_slots c1 c2 : psteps (handle env) (spawn s) c1 c2 -> slots_inv c1.1 c1.2 -> slots_inv c2.1 c2.2.
Proof. induction 1; eauto using pstep_slots. Qed.
End Bound.

Section Worker.
Context {B : Type} `{BackupImpl B} (env : Env) (s : TaskServiceOptions).

End Worker.
