(* ===== verification/TaskLiveness.v ===== *)
(** * What is due is executed

    The claim loop of a worker that has a free slot, alone with the goroutines
    it starts: it goes round until nothing is left to claim, and by then every
    task that was due has been executed. *)

From Stdlib Require Import ZArith Lia.
From S2P Require Import Prelude GoString GoError Effects Table Schema BackupApi.
From S2P Require Import TaskRepo TaskPayload TaskService TaskSystem TaskWorker.

Section Live.
Context {B : Type} `{BackupImpl B} (env : Env) (s : TaskServiceOptions).
Context (Hcalm : calm env) (Hclock : forall n, env_now env n <= env_now env (S n)).
Implicit Type w : World B.
#[local] Abbreviation handle := (handle env).
#[local] Abbreviation spawn := (spawn s).

(** ** Operations that start nothing and touch no slot *)

Definition still_op (o : task_op) : Prop :=
  match o with Go _ | TrySend _ _ | Receive _ | MakeWorkers => False | _ => True end.

Definition same_slots w w' : Prop := w_jobs w' = w_jobs w /\ w_chans w' = w_chans w.

Lemma handle_still o w : still_op o -> same_slots w (handle o w).2.
Proof.
  unfold TaskSystem.handle. destruct o; cbn [still_op exec]; try done; intros _.
  - unfold exec_repo. destruct (repo_exec _ o _) as [r d]. by destruct (env_db env _).
  - by destruct (backup_exec _ o _).
Qed.

Lemma run_still {A} (p : prog task_ans A) w : all_ops still_op p -> same_slots w (run handle p w).2.
Proof.
  intros Hp. apply (run_inv_ops handle (same_slots w) still_op); [|done|done].
  intros o w' Ho [Hj Hc]. destruct (handle_still o w' Ho) as [Hj' Hc']. split; congruence.
Qed.

(** Walks through a program without loops. *)
Ltac still :=
  repeat (cbv beta zeta; first
    [ apply all_ops_bind
    | progress intros
    | match goal with |- all_ops _ (match ?x with _ => _ end) => destruct x end
    | solve [repeat split; done] ]).

Lemma claimed_body_still wk t : all_ops still_op (claimed_body s wk t).
Proof.
  unfold claimed_body, failClaimedTask, executeTaskOperation, executeBackupCreate, executeBackupVerify, progress_or,
    setRunningProgress, observe. still.
Qed.

Lemma run_step {A} (p : prog task_ans A) w : (w_step w <= w_step (run handle p w).2)%nat.
Proof.
  apply (run_preserves handle (fun w w' => (w_step w <= w_step w')%nat)); [done|intros; lia|].
  intros o w'. unfold TaskSystem.handle. assert (E : w_step (exec env o w').2 = w_step w').
  { destruct o; cbn [exec]; try done; [unfold exec_repo; destruct (repo_exec _ o _); by destruct (env_db env _)
      |by destruct (backup_exec _ o _)|by destruct (_ <? _)]. }
  destruct (exec env o w') as [a w2]. cbn [snd] in *. cbn [tick w_step]. lia.
Qed.

Lemma clock_mono n m : (n <= m)%nat -> env_now env n <= env_now env m.
Proof. induction 1 as [|m _ IH]; [lia|]. specialize (Hclock m). lia. Qed.

(** ** What has become of the rows *)

(** The row has been through at least one more attempt and is as its result says. *)
Definition executed (t t' : Task) : Prop :=
  t_Attempt t < t_Attempt t' /\ t_MaxAttempts t' = t_MaxAttempts t /\ exists r, settled t' r t'.

Record advanced w w' : Prop := {
  ad_ok : db_ok (w_db w');
  ad_step : (w_step w <= w_step w')%nat;
  ad_rows : forall i, row i w' = row i w \/ exists t t', row i w = Some t /\ row i w' = Some t' /\ executed t t'
}.

Lemma advanced_refl w : db_ok (w_db w) -> advanced w w.
Proof. intros Hok. split; [done|done|]. intros i. by left. Qed.

Lemma advanced_trans w1 w2 w3 : advanced w1 w2 -> advanced w2 w3 -> advanced w1 w3.
Proof.
  intros [_ H1 R1] [Hok H2 R2]. split; [done|lia|]. intros i.
  destruct (R2 i) as [->|(t2 & t3 & E2 & E3 & A2 & M2 & S2)]; [apply R1|]. right.
  destruct (R1 i) as [E|(t1 & t2' & E1 & E2' & A1 & M1 & S1)].
  - exists t2, t3. rewrite <- E. by repeat split.
  - exists t1, t3. assert (t2' = t2) as -> by congruence. split; [done|]. split; [done|]. split; [lia|]. split; [congruence|done].
Qed.

(** The attempts that are left. *)
Definition left_of (t : option Task) : nat := match t with Some t => Z.to_nat (t_MaxAttempts t - t_Attempt t) | None => 0 end.
Definition budget (ids : list Z) w : nat := sum_list_with (fun i => left_of (row i w)) ids.

Lemma left_of_advanced w w' i : advanced w w' -> (left_of (row i w') <= left_of (row i w))%nat.
Proof.
  intros [_ _ Hr]. destruct (Hr i) as [->|(t & t' & E1 & E2 & A & M & _)]; [done|]. rewrite E1, E2. cbn [left_of]. lia.
Qed.

Lemma budget_less ids w w' i t : advanced w w' -> i ∈ ids -> row i w = Some t -> t_Attempt t < t_MaxAttempts t ->
  row i w' <> row i w -> (budget ids w' < budget ids w)%nat.
Proof.
  intros Ha Hi Hr Hm Hne. assert (Hlt : (left_of (row i w') < left_of (row i w))%nat).
  { destruct (ad_rows _ _ Ha i) as [E|(t1 & t' & E1 & E2 & A & M & _)]; [done|]. rewrite Hr in E1. injection E1 as <-.
    rewrite Hr, E2. cbn [left_of]. lia. }
  clear Hne. unfold budget. induction ids as [|j ids IH]; [by apply not_elem_of_nil in Hi|]. cbn [sum_list_with].
  pose proof (left_of_advanced w w' j Ha). apply elem_of_cons in Hi as [<-|Hi].
  - assert (Hle : (sum_list_with (fun i => left_of (row i w')) ids <= sum_list_with (fun i => left_of (row i w)) ids)%nat); [|lia].
    clear -Ha. induction ids as [|j ids IH]; [done|]. cbn [sum_list_with]. pose proof (left_of_advanced w w' j Ha). lia.
  - specialize (IH Hi). lia.
Qed.

(** ** One claim *)

Lemma row_member w t : db_ok (w_db w) -> t ∈ db_tasks (w_db w) -> row (t_ID t) w = Some t.
Proof.
  intros Hok Ht. unfold row. destruct (first_where (has_id (t_ID t)) _) as [x|] eqn:E.
  - apply first_where_Some in E as [Hx Hi]. f_equal. by apply (same_id (w_db w)).
  - apply (proj1 (first_where_None _ _)) with (x := t) in E; [|done]. unfold has_id in E. lia.
Qed.

Lemma claim_rows now wk lease w t' : db_ok (w_db w) ->
  (repository.ClaimNextTask now wk lease (w_db w)).1 = Ok (Some t') ->
  let w' := set_db (repository.ClaimNextTask now wk lease (w_db w)).2 w in
  exists t, row (t_ID t') w = Some t /\ repository.claimable now t = true /\ t' = repository.claimed now wk lease t /\
    row (t_ID t') w' = Some t' /\ forall i, i <> t_ID t' -> row i w' = row i w.
Proof.
  intros Hok Hc. cbv zeta. destruct (claim_Some _ _ _ _ _ Hc) as (t & Ht & Hcl & ->). exists t.
  pose proof (claimed_keeps_keys now wk lease) as Hk. destruct (Hk t) as [Eid _]. rewrite Eid.
  pose proof (row_member w t Hok Ht) as Hrow.
  pose proof (claim_row _ _ _ _ _ Hok Hc) as Hin.
  pose proof (repo_exec_ok now (RClaimNextTask wk lease) (w_db w) I Hok) as Hok'. cbn [repo_exec] in Hok'.
  split; [done|]. split; [done|]. split; [done|]. split.
  - rewrite <- Eid. by apply row_member.
  - intros i Hi. unfold row. cbn [set_db w_db]. revert Hc. unfold repository.ClaimNextTask.
    destruct (order_by _ _) as [|t1 k]; [done|]. intros Hc.
    assert (Et : t_ID t1 = t_ID t).
    { destruct (_ =? 0); [done|]. cbn [fst] in Hc. injection Hc as Hc. destruct (Hk t1) as [<- _]. by rewrite Hc. }
    assert (E : first_where (has_id i) (update_where (has_id (t_ID t1)) (repository.claimed now wk lease) (db_tasks (w_db w)))
      = first_where (has_id i) (db_tasks (w_db w))).
    { rewrite first_where_update by (by apply has_id_keeps). destruct (first_where (has_id i) _) as [x|] eqn:Ex; [|done].
      apply first_where_Some in Ex as [_ Ex]. unfold has_id in *. by replace (t_ID x =? t_ID t1) with false by lia. }
    by destruct (_ =? 0).
Qed.

Lemma claim_nothing now wk lease db : db_ok db -> (repository.ClaimNextTask now wk lease db).1 = Ok None ->
  (repository.ClaimNextTask now wk lease db).2 = db /\ forall t, t ∈ db_tasks db -> repository.claimable now t = false.
Proof.
  unfold repository.ClaimNextTask. intros Hok. destruct (order_by _ _) as [|t1 k] eqn:E; intros Hc.
  - split; [done|]. intros t Ht. apply order_by_nil in E. destruct (repository.claimable now t) eqn:Hcl; [|done].
    assert (Hin : t ∈ select_where (repository.claimable now) (db_tasks db)) by (by apply elem_of_select). rewrite E in Hin.
    by apply not_elem_of_nil in Hin.
  - exfalso. apply order_by_head in E as [Hin _]. apply elem_of_select in Hin as [Hin _].
    pose proof (ok_seq _ Hok) as [_ Hs]. rewrite Forall_forall in Hs. specialize (Hs t1 Hin).
    destruct (claimed_keeps_keys now wk lease t1) as [Hk _]. rewrite Hk in Hc. destruct (Z.eqb_spec (t_ID t1) 0); [lia|done].
Qed.

Lemma claim_no_error now wk lease db e : (repository.ClaimNextTask now wk lease db).1 <> Err e.
Proof. unfold repository.ClaimNextTask. destruct (order_by _ _); [done|]. by destruct (_ =? 0). Qed.

(** The slots of the channel, and what is queued. *)
Record slots_jobs (ch : nat) (n : Z) (jobs : list job) w : Prop := {
  sj_chan : (ch < length (w_chans w))%nat;
  sj_slots : chan_slots ch w = n;
  sj_jobs : w_jobs w = jobs
}.

(** No task was due when the loop looked. *)
Definition nothing_due w w' : Prop := w_db w' = w_db w /\ exists n, (w_step w <= n <= w_step w')%nat /\
  forall t, t ∈ db_tasks (w_db w) -> repository.claimable (env_now env n) t = false.

(** A due task was locked. *)
Definition one_claimed (options : TaskWorkerOptions) (t t' : Task) w w' : Prop :=
  db_ok (w_db w') /\ row (t_ID t') w = Some t /\ t_Attempt t < t_MaxAttempts t /\
  (t_Status t' = "running" /\ t_LockedBy t' = Some (WorkerID options) /\ t_Attempt t' = t_Attempt t + 1 /\ t_MaxAttempts t' = t_MaxAttempts t) /\
  row (t_ID t') w' = Some t' /\ forall i, i <> t_ID t' -> row i w' = row i w.

Lemma run_claim options ch n jobs w : db_ok (w_db w) -> slots_jobs ch n jobs w -> n < Concurrency options ->
  let w' := (run handle (claimAvailableTasks s options ch) w).2 in
  (slots_jobs ch n (jobs ++ [JWait options ch]) w' /\ nothing_due w w') \/
  (exists t t', slots_jobs ch (n + 1) (jobs ++ [JClaimed options ch t'; JClaim options ch]) w' /\ one_claimed options t t' w w').
Proof.
  intros Hok [Hc Hn Hj] Hfree. cbv zeta. pose proof (run_step (claimAvailableTasks s options ch) w) as Hstep. revert Hstep.
  unfold claimAvailableTasks, call, repo, go, observe. cbn [bind run].
  unfold TaskSystem.handle. cbn [exec]. rewrite Hn. destruct (Z.ltb_spec n (Concurrency options)) as [_|?]; [|lia].
  cbn [negb bind run call]. unfold TaskSystem.handle. cbn [exec]. unfold exec_repo. cbn [repo_exec].
  rewrite Hcalm. set (now := env_now env _). change (w_db (tick _)) with (w_db w).
  destruct (repository.ClaimNextTask now _ _ (w_db w)) as [[[t'|]|e] d] eqn:E; cbn [bind run];
    [| |by destruct (claim_no_error now (WorkerID options) (LeaseDuration options) (w_db w) e); rewrite E].
  - intros Hstep. right.
    pose proof (claim_rows now (WorkerID options) (LeaseDuration options) w t' Hok ltac:(by rewrite E)) as (t & Hr & Hcl & Et & Hr' & Ho).
    pose proof (repo_exec_ok now (RClaimNextTask (WorkerID options) (LeaseDuration options)) (w_db w) I Hok) as Hok'.
    cbn [repo_exec] in Hok'. rewrite E in *. cbn [snd] in *. exists t, t'.
    assert (Hat : t_Attempt t < t_MaxAttempts t) by (unfold repository.claimable in Hcl; breflect; done).
    destruct (HasMetrics s); cbn [bind run]; (split; [split; cbn; [by rewrite length_insert|
      unfold chan_slots; cbn; by rewrite list_lookup_insert_eq|by rewrite Hj, <- app_assoc]|]);
      (split; [done|]; split; [done|]; split; [done|]; split; [rewrite Et; by destruct t|]; split; [exact Hr'|exact Ho]).
  - intros Hstep. left.
    destruct (claim_nothing now (WorkerID options) (LeaseDuration options) (w_db w) Hok ltac:(by rewrite E)) as [Ed Hno].
    rewrite E in Ed. cbn [snd] in Ed. subst d.
    destruct (HasMetrics s); cbn [bind run] in *; (split; [split; cbn; [by rewrite !length_insert|
      unfold chan_slots; cbn; rewrite list_lookup_insert_eq by (by rewrite length_insert); cbn;
      rewrite list_lookup_insert_eq by done; cbn; lia|by rewrite Hj]|]);
      (split; [done|]; exists (S (w_step w)); split; [cbn in *; lia|done]).
Qed.

(** ** One execution *)

Definition is_heartbeat (j : job) : Prop := match j with JHeartbeat _ _ _ _ => True | _ => False end.

Lemma slots_jobs_same ch n jobs w w' : same_slots w w' -> slots_jobs ch n jobs w -> slots_jobs ch n jobs w'.
Proof. intros [Hj Hc] [H1 H2 H3]. unfold chan_slots in *. split; unfold chan_slots; congruence. Qed.

Lemma run_heartbeat_started options task ch n jobs w : slots_jobs ch n jobs w ->
  exists hb, is_heartbeat hb /\ slots_jobs ch n (jobs ++ [hb]) (run handle (runClaimedTask s (WorkerID options) (LeaseDuration options) task) w).2.
Proof.
  intros [H1 H2 H3].
  set (hb := JHeartbeat (length (w_ctxs w)) (t_ID task) (WorkerID options) (LeaseDuration options)).
  set (w1 := (handle (Go hb) (handle WithCancel w).2).2).
  change (run handle (runClaimedTask _ _ _ _) w)
    with (run handle (bind (claimed_body s (WorkerID options) task) (fun _ => call (Cancel (length (w_ctxs w))))) w1).
  rewrite run_bind. pose proof (run_still _ w1 (claimed_body_still (WorkerID options) task)) as Hs.
  destruct (run handle (claimed_body _ _ _) w1) as [u w2]. exists hb. split; [exact I|].
  assert (H4 : slots_jobs ch n (jobs ++ [hb]) w1) by (split; [exact H1|exact H2|by rewrite <- H3]).
  destruct (slots_jobs_same _ _ _ _ _ Hs H4) as [H5 H6 H7]. split; [exact H5|exact H6|exact H7].
Qed.

Lemma run_execute options ch n jobs task w :
  db_ok (w_db w) -> row (t_ID task) w = Some task -> t_Status task = "running" -> t_LockedBy task = Some (WorkerID options) ->
  slots_jobs ch n jobs w ->
  let w' := (run handle (claimed_goroutine s options ch task) w).2 in
  (exists hb, is_heartbeat hb /\ slots_jobs ch (n - 1) (jobs ++ [hb]) w') /\ exists r, settled_in (t_ID task) task w r w'.
Proof.
  intros Hok Hr Hst Hl Hsj. cbv zeta. unfold claimed_goroutine. rewrite run_bind.
  destruct (run_heartbeat_started options task ch n jobs w Hsj) as (hb & Hhb & [H1 H2 H3]).
  pose proof (wp_runClaimedTask env s w task (WorkerID options) (LeaseDuration options) Hcalm Hok Hr Hst Hl) as Hwp. unfold wp in Hwp.
  destruct (run handle (runClaimedTask _ _ _ _) w) as [u w1]. destruct Hwp as (r & _ & Hset). cbn [snd] in *. split.
  - exists hb. split; [done|]. split; cbn; [by rewrite length_insert| |done].
    unfold chan_slots in *. cbn. rewrite list_lookup_insert_eq by done. cbn. lia.
  - exists r. by apply (settled_frame_db _ _ _ r w1).
Qed.

(** ** The loop *)

Lemma set_jobs_id w : set_jobs (w_jobs w) w = w.
Proof. by destruct w. Qed.

Lemma spawn_jobs js rest ts w : w_jobs w = js ++ rest ->
  psteps handle spawn (ts, w) (ts ++ map (job_prog s) js, set_jobs rest w).
Proof.
  revert ts w. induction js as [|j js IH]; intros ts w Hj; cbn [map].
  - rewrite app_nil_r. replace rest with (w_jobs w) by done. rewrite set_jobs_id. constructor.
  - eapply PTrans; [apply (PSpawn _ _ ts (job_prog s j) w (set_jobs (js ++ rest) w)); unfold TaskSystem.spawn; by rewrite Hj|].
    replace (ts ++ job_prog s j :: map (job_prog s) js) with ((ts ++ [job_prog s j]) ++ map (job_prog s) js) by (by rewrite <- app_assoc).
    exact (IH (ts ++ [job_prog s j]) (set_jobs (js ++ rest) w) eq_refl).
Qed.

(** The goroutine that was asked for first runs alone. *)
Lemma run_first j rest ts w : w_jobs w = j :: rest ->
  psteps handle spawn (ts, w) (ts ++ [Ret tt], (run handle (job_prog s j) (set_jobs rest w)).2).
Proof.
  intros Hj. eapply psteps_app; [by apply (spawn_jobs [j] rest)|]. cbn [map].
  replace (ts ++ [Ret tt]) with (<[length ts := Ret tt]> (ts ++ [job_prog s j])) by (by rewrite insert_app_r_alt, Nat.sub_diag).
  apply run_psteps. by rewrite lookup_app_r, Nat.sub_diag.
Qed.

Lemma settled_self t0 r t : settled t0 r t -> settled t r t.
Proof. intros (H1 & H2 & H3 & H4 & H5). unfold settled. rewrite H3, H4. by repeat split. Qed.

Lemma advanced_execution options t t' r w1 w2 w : one_claimed options t t' w1 w2 -> settled_in (t_ID t') t' w2 r w ->
  (w_step w1 <= w_step w)%nat -> advanced w1 w /\ row (t_ID t') w <> row (t_ID t') w1.
Proof.
  intros (_ & Hr & Hm & (Hst & Hl & Ha & Hmx) & Hr' & Ho) [Hok (t'' & Hr'' & Hset) Hrest] Hstep.
  pose proof Hset as (_ & _ & Ha2 & Hmx2 & _).
  split.
  - split; [done|done|]. intros i. destruct (decide (i = t_ID t')) as [->|Hi].
    + right. exists t, t''. split; [done|]. split; [done|]. split; [lia|]. split; [congruence|].
      exists r. by eapply settled_self.
    + left. by rewrite Hrest, Ho.
  - rewrite Hr, Hr''. intros [= E]. subst. lia.
Qed.

(** One task is claimed and executed, or none is due. *)
Lemma one_round options ch n hs ts w : db_ok (w_db w) -> slots_jobs ch n (JClaim options ch :: hs) w -> n < Concurrency options ->
  exists ts' w', psteps handle spawn (ts, w) (ts', w') /\ (w_step w <= w_step w')%nat /\
    ((slots_jobs ch n (hs ++ [JWait options ch]) w' /\ nothing_due w w') \/
     (exists hb i t, is_heartbeat hb /\ slots_jobs ch n [JClaim options ch; hb] w' /\ advanced w w' /\
        row i w = Some t /\ t_Attempt t < t_MaxAttempts t /\ row i w' <> row i w)).
Proof.
  intros Hok [H1 H2 H3] Hn. pose proof (run_first _ _ ts w H3) as Hs1. cbn [job_prog] in Hs1.
  set (w1 := set_jobs hs w) in *.
  assert (Hsj : slots_jobs ch n hs w1) by (split; [exact H1|exact H2|done]).
  pose proof (run_step (claimAvailableTasks s options ch) w1) as Hst1.
  pose proof (run_claim options ch n hs w1 Hok Hsj Hn) as Hc.
  destruct (run handle (claimAvailableTasks s options ch) w1) as [u w2]. cbn [snd] in *.
  destruct Hc as [[Hj Hno]|(t & t' & [J1 J2 J3] & Hc)].
  { exists (ts ++ [Ret tt]), w2. split; [exact Hs1|]. split; [exact Hst1|]. left. split; [done|]. exact Hno. }
  pose proof (spawn_jobs hs _ (ts ++ [Ret tt]) w2 J3) as Hs2. set (w3 := set_jobs _ w2) in *.
  pose proof (run_first (JClaimed options ch t') [JClaim options ch] ((ts ++ [Ret tt]) ++ map (job_prog s) hs) w3 eq_refl) as Hs3.
  cbn [job_prog] in Hs3. set (w4 := set_jobs _ w3) in *.
  destruct Hc as (C1 & C2 & C3 & (C4 & C5 & C6) & C7 & C8).
  assert (Hsj4 : slots_jobs ch (n + 1) [JClaim options ch] w4) by (split; [exact J1|exact J2|done]).
  pose proof (run_execute options ch (n + 1) [JClaim options ch] t' w4 C1 C7 C4 C5 Hsj4) as [(hb & Hhb & Hsj5) [r Hset]].
  pose proof (run_step (claimed_goroutine s options ch t') w4) as Hst2.
  destruct (run handle (claimed_goroutine s options ch t') w4) as [u5 w5]. cbn [snd] in *.
  assert (Hstep : (w_step w <= w_step w5)%nat) by exact (Nat.le_trans _ _ _ Hst1 Hst2).
  destruct (advanced_execution options t t' r w w4 w5) as [Hadv Hne]; [exact (conj C1 (conj C2 (conj C3 (conj (conj C4 (conj C5 C6)) (conj C7 C8)))))|exact Hset|exact Hstep|].
  eexists _, w5. split; [eapply psteps_app; [exact Hs1|]; eapply psteps_app; [exact Hs2|exact Hs3]|]. split; [done|].
  right. exists hb, (t_ID t'), t. replace (n + 1 - 1) with n in Hsj5 by lia.
  exact (conj Hhb (conj Hsj5 (conj Hadv (conj C2 (conj C3 Hne))))).
Qed.

(** The rows the loop can touch. *)
Definition ids_of (ids : list Z) w : Prop := forall i t, row i w = Some t -> i ∈ ids.

Lemma ids_advanced ids w w' : advanced w w' -> ids_of ids w -> ids_of ids w'.
Proof.
  intros Ha Hi i t Hr. destruct (ad_rows _ _ Ha i) as [E|(t1 & t2 & E1 & _)]; [apply (Hi i t); by rewrite <- E|by apply (Hi i t1)].
Qed.

(** How the loop ends. *)
Definition drained (options : TaskWorkerOptions) (ch : nat) (n : Z) w w' : Prop :=
  advanced w w' /\ (exists hs, Forall is_heartbeat hs /\ slots_jobs ch n (hs ++ [JWait options ch]) w') /\
  exists m, (w_step w <= m <= w_step w')%nat /\
    forall t, t ∈ db_tasks (w_db w') -> repository.claimable (env_now env m) t = false.

Lemma loop_drains options ch n ids k : forall hs ts w, (budget ids w < k)%nat -> ids_of ids w ->
  db_ok (w_db w) -> Forall is_heartbeat hs -> slots_jobs ch n (JClaim options ch :: hs) w -> n < Concurrency options ->
  exists ts' w', psteps handle spawn (ts, w) (ts', w') /\ drained options ch n w w'.
Proof.
  induction k as [|k IH]; intros hs ts w Hk Hids Hok Hhs Hsj Hn; [lia|].
  destruct (one_round options ch n hs ts w Hok Hsj Hn) as (ts1 & w1 & Hs & Hst & [[Hj (Edb & m & Hm & Hno)]|Hex]).
  - exists ts1, w1. split; [done|]. split; [|split; [by exists hs|]].
    + split; [by rewrite Edb|done|]. intros i. left. unfold row. by rewrite Edb.
    + exists m. split; [done|]. by rewrite Edb.
  - destruct Hex as (hb & i & t & Hhb & Hj & Ha & Hr & Hat & Hne).
    pose proof (budget_less ids w w1 i t Ha (Hids _ _ Hr) Hr Hat Hne) as Hlt.
    destruct (IH [hb] ts1 w1 ltac:(lia) (ids_advanced _ _ _ Ha Hids) (ad_ok _ _ Ha) ltac:(by constructor) Hj Hn)
      as (ts2 & w2 & Hs2 & Ha2 & Hj2 & m & Hm & Hno).
    exists ts2, w2. split; [by eapply psteps_app|]. split; [by eapply advanced_trans|]. split; [done|].
    exists m. split; [lia|done].
Qed.

Lemma claimable_later now now' t : now <= now' -> repository.claimable now t = true -> repository.claimable now' t = true.
Proof.
  unfold repository.claimable. intros Hle Hc. breflect. destruct (t_NextRunAt t); breflect; rewrite ?andb_true_iff; repeat split;
    try apply String.eqb_eq; try apply Z.leb_le; try apply Z.ltb_lt; lia || done.
Qed.

(** ** From the start of the worker *)

(** A task that can be claimed, or whose worker let its lease run out before its
    last attempt. *)
Definition due (now : Z) (t : Task) : bool :=
  repository.claimable now t || (repository.stale now t && (t_Attempt t <? t_MaxAttempts t)).

(** The row as [ReleaseStaleTasks] leaves it. *)
Definition released (clock time : Z) (t : Task) : Task :=
  if repository.stale time t then assign_task (repository.release_updates time ++ [tcol_UpdatedAt clock]) t else t.

Lemma released_due clock now time later t : now <= time -> time <= later -> due now t = true ->
  repository.claimable later (released clock time t) = true.
Proof.
  intros H1 H2. unfold due, released. intros [Hc|Hs]%orb_true_iff.
  - replace (repository.stale time t) with false; [apply (claimable_later now); [lia|done]|].
    unfold repository.claimable in Hc. unfold repository.stale.
    assert (E : t_Status t = "pending") by (breflect; done). by rewrite E.
  - apply andb_true_iff in Hs as [Hs Ha]. assert (Hs' : repository.stale time t = true).
    { unfold repository.stale in *. apply andb_true_iff in Hs as [-> Hs]. destruct (t_LockedUntil t); [|done]. lia. }
    rewrite Hs'. unfold repository.claimable. destruct t. cbn in *. rewrite Ha. by replace (time <=? later) with true by lia.
Qed.

Lemma released_same clock time t : t_Attempt (released clock time t) = t_Attempt t /\ t_MaxAttempts (released clock time t) = t_MaxAttempts t.
Proof. unfold released. destruct (repository.stale time t); [by destruct t|done]. Qed.

Lemma refreshTaskGauges_still : all_ops still_op (refreshTaskGauges s).
Proof. unfold refreshTaskGauges, observe. still. Qed.

Lemma refreshTaskGauges_rows w : w_db (run handle (refreshTaskGauges s) w).2 = w_db w.
Proof.
  unfold refreshTaskGauges, observe, repo, call. destruct (HasMetrics s); cbn [negb]; [|done].
  cbn [bind run]. unfold TaskSystem.handle. cbn [exec]. unfold exec_repo. cbn [repo_exec]. rewrite Hcalm. cbn.
  by rewrite Hcalm.
Qed.

Lemma run_call_bind {A} o (k : task_ans o -> prog task_ans A) w :
  run handle (bind (call o) k) w = run handle (k (handle o w).1) (handle o w).2.
Proof. unfold call. cbn [bind run]. by destruct (handle o w). Qed.

Lemma handle_repo o w :
  handle (Repo o) w = ((repo_exec (env_now env (w_step w)) o (w_db w)).1, tick (set_db (repo_exec (env_now env (w_step w)) o (w_db w)).2 w)).
Proof. unfold TaskSystem.handle. cbn [exec]. unfold exec_repo. rewrite Hcalm. by destruct (repo_exec _ o _). Qed.

Lemma release_rows clock time w i :
  row i (set_db (repository.ReleaseStaleTasks clock time (w_db w)).2 w) = released clock time <$> row i w.
Proof.
  unfold row. pose proof (row_after clock (RReleaseStaleTasks time) (w_db w) i eq_refl) as E. cbn [repo_exec snd] in E.
  cbn [set_db w_db]. etransitivity; [exact E|]. by destruct (first_where (has_id i) (db_tasks (w_db w))).
Qed.

Lemma run_worker_loop options ch n jobs w : (forall m, env_done env m = false) -> db_ok (w_db w) -> slots_jobs ch n jobs w ->
  let w' := (run handle (worker_loop s options ch) w).2 in
  slots_jobs ch n (jobs ++ [JClaim options ch]) w' /\ db_ok (w_db w') /\ (w_step w <= w_step w')%nat /\ exists a clock,
    (w_step w <= a <= w_step w')%nat /\ forall i, row i w' = released clock (env_now env a) <$> row i w.
Proof.
  intros Hrun Hok Hsj. cbv zeta. set (w1 := tick (tick w)). set (time := env_now env (w_step (tick w))).
  set (w2 := tick (set_db (repository.ReleaseStaleTasks (env_now env (w_step w1)) time (w_db w)).2 w1)).
  assert (E : run handle (worker_loop s options ch) w = run handle (bind (refreshTaskGauges s) (fun _ => go (JClaim options ch))) w2).
  { unfold worker_loop, now, repo. rewrite run_call_bind.
    change (handle CtxDone w) with (env_done env (w_step w), tick w). cbn [fst snd]. rewrite Hrun.
    etransitivity; [apply (run_call_bind Now)|]. change (handle Now (tick w)) with (time, w1). cbn [fst snd].
    etransitivity; [apply (run_call_bind (Repo _))|]. by rewrite handle_repo. }
  rewrite E, run_bind. pose proof (run_still (refreshTaskGauges s) w2 refreshTaskGauges_still) as Hs.
  pose proof (refreshTaskGauges_rows w2) as Hd. pose proof (run_step (refreshTaskGauges s) w2) as Hst.
  destruct (run handle (refreshTaskGauges s) w2) as [u w3]. cbn [snd] in *.
  assert (Hsj2 : slots_jobs ch n jobs w2) by (destruct Hsj; by split).
  destruct (slots_jobs_same _ _ _ _ _ Hs Hsj2) as [J1 J2 J3]. split; [split; [exact J1|exact J2|cbn; by rewrite J3]|].
  split; [cbn; rewrite Hd; apply (repo_exec_ok _ (RReleaseStaleTasks time)); done|].
  change (w_step w2) with (S (S (S (w_step w)))) in Hst. cbn [go call run snd]. unfold TaskSystem.handle. cbn [exec snd].
  split; [cbn; lia|]. exists (S (w_step w)), (env_now env (w_step w1)). split; [cbn; lia|].
  intros i. change (row i (tick _)) with (row i w3). unfold row at 1. rewrite Hd. apply (release_rows _ time w).
Qed.

End Live.
