(* ===== verification/TaskMetrics.v ===== *)
(** * The series of the task worker

    What the task service observes, as [Metrics] counts it.  Each successful
    claim is a credit for one completed task: the account below follows the
    credits through every goroutine. *)

From Stdlib Require Import ZArith Lia.
From S2P Require Import Prelude GoString GoError Effects Schema BackupApi.
From S2P Require Import TaskRepo TaskPayload TaskService TaskSystem TaskWorker.
From S2P Require Metrics.

(** ** The methods behind the operations *)

Definition observe_metric (m : metric) (x : Metrics.MetricsSet) : Metrics.MetricsSet :=
  default x match m with
            | ObserveTaskWorkerClaim outcome => Metrics.ObserveTaskWorkerClaim outcome (Some x)
            | ObserveTaskCompleted taskType status d => Metrics.ObserveTaskCompleted taskType status d (Some x)
            | SetTaskQueueDepth depth => Metrics.SetTaskQueueDepth depth (Some x)
            | SetTasksRunning count => Metrics.SetTasksRunning count (Some x)
            end.

Definition observe_all (l : list metric) (x : Metrics.MetricsSet) : Metrics.MetricsSet := fold_left (fun x m => observe_metric m x) l x.

(** Successful claims and completions. *)
Definition is_claim (m : metric) : bool := match m with ObserveTaskWorkerClaim o => (o =? "success")%string | _ => false end.
Definition is_completion (m : metric) : bool := match m with ObserveTaskCompleted _ _ _ => true | _ => false end.
Definition how_many (p : metric -> bool) (l : list metric) : Z := Z.of_nat (length (List.filter p l)).

Lemma how_many_app p l k : how_many p (l ++ k) = how_many p l + how_many p k.
Proof. unfold how_many. rewrite List.filter_app, length_app. lia. Qed.

Lemma how_many_nil p : how_many p [] = 0.
Proof. done. Qed.

Lemma how_many_one p m : how_many p [m] = if p m then 1 else 0.
Proof. unfold how_many. cbn. by destruct (p m). Qed.

(** What the worker reports of a completed task. *)
Definition final (m : metric) : Prop :=
  match m with ObserveTaskCompleted _ status _ => status = TaskStatusSuccess \/ status = TaskStatusFailed | _ => True end.

Lemma observe_all_app l m x : observe_all (l ++ [m]) x = observe_metric m (observe_all l x).
Proof. unfold observe_all. by rewrite fold_left_app. Qed.

Lemma claims_counted l x :
  Metrics.counter ["success"] (Metrics.TaskWorkerClaims (observe_all l x))
  = Metrics.counter ["success"] (Metrics.TaskWorkerClaims x) + how_many is_claim l.
Proof.
  induction l as [|m l IH] using rev_ind; [by rewrite how_many_nil, Z.add_0_r|]. rewrite observe_all_app, how_many_app, how_many_one, Z.add_assoc, <- IH.
  destruct m; cbn [observe_metric default is_claim]; try (by rewrite Z.add_0_r).
  unfold Metrics.ObserveTaskWorkerClaim. cbn [fmap option_fmap option_map default id Metrics.set_claims Metrics.TaskWorkerClaims].
  rewrite Metrics.counter_Inc. unfold Metrics.or_unknown. destruct (String.eqb_spec outcome ""), (String.eqb_spec outcome "success");
    subst; try done; destruct (decide _) as [E|E]; congruence.
Qed.

Lemma completions_counted l x :
  Metrics.total (Metrics.TasksCompletedTotal (observe_all l x))
  = Metrics.total (Metrics.TasksCompletedTotal x) + how_many is_completion l.
Proof.
  induction l as [|m l IH] using rev_ind; [by rewrite how_many_nil, Z.add_0_r|]. rewrite observe_all_app, how_many_app, how_many_one, Z.add_assoc, <- IH.
  destruct m; cbn [observe_metric default is_completion]; try (by rewrite Z.add_0_r).
  unfold Metrics.ObserveTaskCompleted. cbn [fmap option_fmap option_map default id Metrics.set_completed Metrics.TasksCompletedTotal].
  apply Metrics.total_Inc.
Qed.

(** A completed task is counted and its duration observed under the same labels. *)
Lemma durations_counted l x labels :
  Z.of_nat (length (Metrics.observations labels (Metrics.TaskDuration (observe_all l x))))
    - Metrics.counter labels (Metrics.TasksCompletedTotal (observe_all l x))
  = Z.of_nat (length (Metrics.observations labels (Metrics.TaskDuration x))) - Metrics.counter labels (Metrics.TasksCompletedTotal x).
Proof.
  induction l as [|m l IH] using rev_ind; [done|]. rewrite observe_all_app, <- IH. destruct m; try done.
  unfold observe_metric, Metrics.ObserveTaskCompleted.
  cbn [fmap option_fmap option_map default id Metrics.set_completed Metrics.TasksCompletedTotal Metrics.TaskDuration].
  rewrite Metrics.counter_Inc, Metrics.observations_Observe, length_app. destruct (decide _); cbn [length]; lia.
Qed.

(** No label of another status is counted. *)
Lemma final_counted l x taskType status : Forall final l -> status <> TaskStatusSuccess -> status <> TaskStatusFailed ->
  Metrics.counter [taskType; status] (Metrics.TasksCompletedTotal (observe_all l x))
  = Metrics.counter [taskType; status] (Metrics.TasksCompletedTotal x).
Proof.
  intros Hl H1 H2. induction l as [|m l IH] using rev_ind; [done|]. apply Forall_app in Hl as [Hl Hm]. apply Forall_inv in Hm.
  rewrite observe_all_app, <- (IH Hl). destruct m; try done.
  unfold observe_metric, Metrics.ObserveTaskCompleted. cbn [fmap option_fmap option_map default id Metrics.set_completed Metrics.TasksCompletedTotal].
  rewrite Metrics.counter_Inc. destruct (decide _) as [E|]; [|lia]. exfalso. injection E as _ E. cbn [final] in Hm.
  revert E. unfold Metrics.or_unknown. destruct Hm as [-> | ->]; cbn; congruence.
Qed.

(** ** The account of one goroutine *)
Section Account.
Context (s : TaskServiceOptions) (Hmetrics : HasMetrics s = true).

Definition job_credit (j : job) : Z := match j with JClaimed _ _ _ => 1 | _ => 0 end.

(** A claim that is observed gives a credit, which goes to the goroutine of the
    task; a completion uses one up. *)
Definition gain (o : task_op) : Z :=
  match o with
  | Observe m => (if is_claim m then 1 else 0) - (if is_completion m then 1 else 0)
  | Go j => - job_credit j
  | _ => 0
  end.

(** [affords n p] : with [n] credits the program never owes one, whatever
    answers it gets. *)
Fixpoint affords {A} (n : Z) (p : prog task_ans A) : Prop :=
  0 <= n /\ match p with Ret _ => True | Do o k => forall a, affords (n + gain o) (k a) end.

(** Operations that cost nothing and report only final statuses. *)
Definition free_op (o : task_op) : Prop := gain o = 0 /\ match o with Observe m => final m | _ => True end.
Definition final_op (o : task_op) : Prop := match o with Observe m => final m | _ => True end.

Lemma affords_nonneg {A} n (p : prog task_ans A) : affords n p -> 0 <= n.
Proof. by destruct p as [|? ?]; intros [? _]. Qed.

Lemma affords_bind {A C} n (p : prog task_ans A) (f : A -> prog task_ans C) :
  0 <= n -> all_ops free_op p -> (forall x, affords n (f x)) -> affords n (bind p f).
Proof.
  intros Hn. induction p as [x|o k IH]; intros Hp Hf; [apply Hf|]. destruct Hp as [[Ho _] Hk].
  cbn [bind affords]. split; [done|]. intros a. rewrite Ho, Z.add_0_r. by apply IH.
Qed.

Lemma affords_free {A} n (p : prog task_ans A) : 0 <= n -> all_ops free_op p -> affords n p.
Proof.
  intros Hn. induction p as [x|o k IH]; intros Hp; [done|]. destruct Hp as [[Ho _] Hk].
  cbn [affords]. split; [done|]. intros a. rewrite Ho, Z.add_0_r. by apply IH.
Qed.

Create HintDb metered discriminated.

Ltac free :=
  repeat (cbv beta zeta; first
    [ solve [auto with metered nocore]
    | apply all_ops_bind
    | progress intros
    | match goal with |- all_ops _ (match ?x with _ => _ end) => destruct x end
    | solve [repeat split; done] ]).

Lemma progress_or_free {A} id n (stop rest : prog task_ans A) :
  all_ops free_op stop -> all_ops free_op rest -> all_ops free_op (progress_or id n stop rest).
Proof. intros H1 H2. unfold progress_or, setRunningProgress. free. Qed.

Lemma executeTaskOperation_free id p wk : all_ops free_op (executeTaskOperation s id p wk).
Proof. unfold executeTaskOperation, executeBackupCreate, executeBackupVerify, progress_or, setRunningProgress. free. Qed.

Lemma refreshTaskGauges_free : all_ops free_op (refreshTaskGauges s).
Proof. unfold refreshTaskGauges, observe. free. Qed.

Lemma runTask_free id p : all_ops free_op (runTask s id p).
Proof.
  unfold runTask, runTask_operation, runTask_finish, markTaskFailed, executeBackupCreate, executeBackupVerify, progress_or, setRunningProgress. free.
Qed.

Lemma createAndRunTask_free ty p by_ u k : all_ops free_op (createAndRunTask s ty p by_ u k).
Proof. unfold createAndRunTask, find_existing. free. Qed.
Hint Resolve executeTaskOperation_free refreshTaskGauges_free runTask_free createAndRunTask_free : metered.

Lemma bind_ok_free {A C} (p : prog task_ans (res A)) (f : A -> prog task_ans (res C)) :
  all_ops free_op p -> (forall x, all_ops free_op (f x)) -> all_ops free_op (bind_ok p f).
Proof. intros Hp Hf. apply all_ops_bind; [done|]. by intros [x|e]. Qed.

Lemma serve_free r : all_ops free_op (serve s r).
Proof.
  destruct r; cbn [serve]; unfold CreateDockerRestartTask, CreateServiceRestartTask, CreateBackupTask, CreateBackupVerifyTask,
    CancelTask, RetryTask, ListTasks, GetTaskDetail, RunWorker, with_key, or_else; repeat (free || apply bind_ok_free).
Qed.

Lemma affords_observe {A} m n (f : unit -> prog task_ans A) :
  0 <= n -> affords (n + gain (Observe m)) (f tt) -> affords n (bind (observe s m) f).
Proof. intros Hn Hf. unfold observe. rewrite Hmetrics. cbn [bind call affords]. split; [done|]. by intros []. Qed.

Lemma affords_call {A} o n (k : task_ans o -> prog task_ans A) : 0 <= n -> (forall a, affords (n + gain o) (k a)) -> affords n (bind (call o) k).
Proof. intros Hn Hk. by split. Qed.

(** What is left of the credits goes on. *)
Lemma affords_then {A C} n (p : prog task_ans A) (f : A -> prog task_ans C) :
  affords n p -> (forall x m, 0 <= m -> affords m (f x)) -> affords n (bind p f).
Proof.
  revert n. induction p as [x|o k IH]; intros n [Hn Hp] Hf; [by apply Hf|]. cbn [bind affords]. split; [done|].
  intros a. by apply IH.
Qed.

Ltac free_part := apply affords_bind; [done|solve [free]|].
Ltac free_rest := apply affords_free; [done|solve [free]].

Lemma failClaimedTask_affords task wk e f : affords 1 (failClaimedTask s task wk e f).
Proof.
  unfold failClaimedTask. free_part. intros []; [free_rest|]. free_part. intros time. cbv zeta. free_part. intros r.
  destruct (nextTaskRetryAt _ _ _ _); [free_rest|].
  apply (affords_call Now); [done|]. intros t. change (1 + gain Now) with 1. cbn [bind].
  apply affords_observe; [done|]. free_rest.
Qed.

Lemma claimed_body_affords wk task : affords 1 (claimed_body s wk task).
Proof.
  unfold claimed_body. destruct (unmarshalTaskPayload _) as [payload|e]; [|apply failClaimedTask_affords].
  free_part. intros _. free_part. intros []; [free_rest|]. unfold progress_or, setRunningProgress. free_part. intros ok.
  destruct ok; [|free_rest]. free_part. intros _. free_part. intros [u|e]; [|apply failClaimedTask_affords].
  free_part. intros []; [free_rest|]. free_part. intros r. free_part. intros t. apply affords_observe; [done|]. free_rest.
Qed.

(** Every goroutine can pay for what it reports with what it was started with. *)
Lemma job_affords j : affords (job_credit j) (job_prog s j).
Proof.
  destruct j; cbn [job_prog job_credit].
  - by apply affords_free, runTask_free.
  - unfold claimed_goroutine, runClaimedTask, startTaskHeartbeat. apply affords_then; [|intros; free_rest].
    free_part. intros ctx. apply affords_then; [apply claimed_body_affords|intros; free_rest].
  - unfold heartbeat_loop. free_rest.
  - unfold worker_loop. free_rest.
  - unfold claimAvailableTasks. free_part. intros [|]; cbn [negb]; [|free_rest]. free_part.
    intros [[task|]|e]; (apply affords_observe; [done|]); [|free_rest..]. cbn [gain is_claim is_completion String.eqb].
    change (0 + (1 - 0)) with 1. apply (affords_call (Go _)); [done|]. intros _. free_rest.
  - unfold worker_wait. free_rest.
Qed.

Lemma free_final {A} (p : prog task_ans A) : all_ops free_op p -> all_ops final_op p.
Proof. apply all_ops_mono. by intros o [_ Ho]. Qed.
Hint Resolve free_final : metered.

Ltac final_ops :=
  repeat (cbv beta zeta; first
    [ solve [auto using free_final with metered nocore]
    | apply all_ops_bind
    | progress intros
    | match goal with |- all_ops _ (match ?x with _ => _ end) => destruct x end
    | solve [repeat split; try done; by (left + right)] ]).

Lemma failClaimedTask_final task wk e f : all_ops final_op (failClaimedTask s task wk e f).
Proof. unfold failClaimedTask, observe. final_ops. Qed.
Hint Resolve failClaimedTask_final : metered.

Lemma job_final j : all_ops final_op (job_prog s j).
Proof.
  destruct j; cbn [job_prog]; unfold claimed_goroutine, runClaimedTask, startTaskHeartbeat, claimed_body, progress_or, setRunningProgress,
    heartbeat_loop, worker_loop, claimAvailableTasks, worker_wait, observe; final_ops.
Qed.
End Account.

(** ** The account of the service *)
Section Ledger.
Context {B : Type} `{BackupImpl B} (env : Env) (s : TaskServiceOptions) (Hmetrics : HasMetrics s = true).
Implicit Type w : World B.

Definition queued_credit w : Z := sumZ (job_credit <$> w_jobs w).

(** Credits given and used up so far. *)
Definition balance w : Z := how_many is_claim (w_metrics w) - how_many is_completion (w_metrics w).

Record ledger (ts : list (prog task_ans unit)) w : Prop := {
  lg_final : Forall final (w_metrics w);
  lg_progs : Forall (all_ops final_op) ts;
  lg_held : exists ns, Forall2 affords ns ts /\ sumZ ns + queued_credit w = balance w
}.

Lemma handle_ledger o w : let w' := (handle env o w).2 in
  balance w' - queued_credit w' = balance w - queued_credit w + gain o /\
  (final_op o -> Forall final (w_metrics w) -> Forall final (w_metrics w')).
Proof.
  cbv zeta. unfold handle, balance, queued_credit. destruct o; cbn [exec gain final_op]; try (split; [by rewrite Z.add_0_r|done]).
  - unfold exec_repo. destruct (repo_exec _ o _) as [r d]. destruct (env_db env _); (split; [by rewrite Z.add_0_r|done]).
  - destruct (backup_exec _ o _). split; [by rewrite Z.add_0_r|done].
  - cbn [snd tick set_jobs w_metrics w_jobs]. split; [|done]. rewrite fmap_app, sumZ_app.
    change (sumZ (job_credit <$> [j])) with (job_credit j + 0). lia.
  - cbn [snd tick set_metrics w_metrics w_jobs]. rewrite !how_many_app, !how_many_one. split; [lia|].
    intros Hm Hl. apply Forall_app. by split; [|constructor].
  - destruct (_ <? _); (split; [by rewrite Z.add_0_r|done]).
Qed.

Lemma pstep_ledger c1 c2 : pstep (handle env) (spawn s) c1 c2 -> ledger c1.1 c1.2 -> ledger c2.1 c2.2.
Proof.
  intros [ts i o k w Hl|ts p w w' Hsp] [Hf Hp (ns & Hns & Hsum)]; cbn [fst snd] in *.
  - destruct (Forall2_lookup_r _ _ _ _ _ Hns Hl) as (n & Hn & [Hn0 Hk]).
    assert (Ho : all_ops final_op (Do o k)) by (rewrite Forall_forall in Hp; apply Hp; by eapply list_elem_of_lookup_2).
    destruct Ho as [Ho Hok]. pose proof (handle_ledger o w) as Hw. cbv zeta in Hw.
    destruct (handle env o w) as [a w']. cbn [fst snd] in *. destruct Hw as [Hb Hfin]. split; [by apply Hfin|by apply Forall_insert|].
    exists (<[i := n + gain o]> ns). split; [apply Forall2_insert; auto|]. rewrite (sumZ_insert _ _ _ _ Hn). lia.
  - unfold spawn in Hsp. destruct (w_jobs w) as [|j l] eqn:E; [done|]. injection Hsp as <- <-. split; [done| |].
    + apply Forall_app. split; [done|]. constructor; [by apply job_final|constructor].
    + exists (ns ++ [job_credit j]). split.
      * apply Forall2_app; [done|]. constructor; [by apply job_affords|constructor].
      * unfold queued_credit, balance in *. rewrite E, fmap_cons, sumZ_cons in Hsum. rewrite sumZ_app.
        change (sumZ [job_credit j]) with (job_credit j + 0). cbn [set_jobs w_jobs w_metrics]. lia.
Qed.

Lemma psteps_ledger c1 c2 : psteps (handle env) (spawn s) c1 c2 -> ledger c1.1 c1.2 -> ledger c2.1 c2.2.
Proof. induction 1; eauto using pstep_ledger. Qed.

(** C19 The worker's series can be trusted so far.  However the goroutines of
    requests, workers and tasks interleave, whatever the database and the agent
    answer: at most as many tasks are counted as completed as claims are counted
    as successful; only the statuses success and failed are counted, whatever the
    type; and under every label as many durations are observed as tasks are
    counted.  [x] is the set the process started with. *)
Theorem completions_within_claims (requests : list request) w c x :
  w_jobs w = [] -> w_metrics w = [] ->
  psteps (handle env) (spawn s) (serve s <$> requests, w) c ->
  let m := observe_all (w_metrics c.2) x in
  Metrics.total (Metrics.TasksCompletedTotal m) - Metrics.total (Metrics.TasksCompletedTotal x)
    <= Metrics.counter ["success"] (Metrics.TaskWorkerClaims m) - Metrics.counter ["success"] (Metrics.TaskWorkerClaims x) /\
  (forall taskType status, status <> TaskStatusSuccess -> status <> TaskStatusFailed ->
     Metrics.counter [taskType; status] (Metrics.TasksCompletedTotal m) = Metrics.counter [taskType; status] (Metrics.TasksCompletedTotal x)) /\
  forall labels, Z.of_nat (length (Metrics.observations labels (Metrics.TaskDuration m))) - Metrics.counter labels (Metrics.TasksCompletedTotal m)
    = Z.of_nat (length (Metrics.observations labels (Metrics.TaskDuration x))) - Metrics.counter labels (Metrics.TasksCompletedTotal x).
Proof.
  intros Hj Hm Hsteps m. destruct (psteps_ledger _ _ Hsteps) as [Hfin _ (ns & Hns & Hsum)].
  { split; cbn [fst snd]; [by rewrite Hm| |].
    - apply Forall_fmap, Forall_forall. intros r _. apply free_final, serve_free.
    - exists ((fun _ => 0) <$> requests). split.
      + apply Forall2_fmap, Forall_Forall2_diag, Forall_forall. intros r _. by apply affords_free, serve_free.
      + unfold queued_credit, balance. rewrite Hj, Hm, sumZ_zero by done. done. }
  split; [|split; [intros taskType status; by apply final_counted|intros labels; apply durations_counted]].
  unfold m. rewrite completions_counted, claims_counted.
  assert (0 <= sumZ ns).
  { clear -Hns. induction Hns as [|n p ns ps Hh _ IH]; [done|]. rewrite sumZ_cons. apply affords_nonneg in Hh. lia. }
  assert (0 <= queued_credit c.2) by (apply sumZ_nonneg; by intros []).
  unfold balance in Hsum. lia.
Qed.
End Ledger.
