(* ===== verification/TaskProps.v ===== *)
(** * Requests on tasks

    What creation, cancellation and retry of tasks guarantee to the client, in
    every environment: one task per idempotency key, payloads the worker can
    execute, no execution of a task cancelled in time. *)

From Stdlib Require Import ZArith Lia.
From S2P Require Import Prelude GoString GoError Effects Table Schema Json Agent Dto BackupApi.
From S2P Require Import TaskRepo TaskPayload AgentServices TaskService TaskSystem.

(** ** Rows are never lost *)

Definition same_keys (t t' : Task) : Prop :=
  t_ID t' = t_ID t /\ t_IdempotencyKey t' = t_IdempotencyKey t.

(** Every row of [d1] is still in [d2]. *)
Definition extends (d1 d2 : TaskDB) : Prop :=
  forall t, t ∈ db_tasks d1 -> exists t', t' ∈ db_tasks d2 /\ same_keys t t'.

#[export] Instance extends_refl : Reflexive extends.
Proof. intros d t Ht. by exists t. Qed.

#[export] Instance extends_trans : Transitive extends.
Proof.
  intros d1 d2 d3 H1 H2 t Ht. destruct (H1 t Ht) as (t' & Ht' & E1 & E2).
  destruct (H2 t' Ht') as (t3 & Ht3 & E3 & E4). exists t3. split; [done|]. split; congruence.
Qed.

Lemma repo_exec_extends now o d : db_ok d -> extends d (repo_exec now o d).2.
Proof.
  intros Hd t Ht. destruct (repo_exec_row now o d t Hd Ht) as [H|[_ H]]; [by exists t|].
  eexists. split; [exact H|]. by apply row_update_keeps.
Qed.

(** An idempotency key belongs to one row. *)
Lemma key_unique d t t' k : db_ok d -> t ∈ db_tasks d -> t' ∈ db_tasks d ->
  t_IdempotencyKey t = Some k -> t_IdempotencyKey t' = Some k -> t = t'.
Proof.
  intros Hd. pose proof (ok_keys _ Hd) as Hn. revert Hn. generalize (db_tasks d). clear Hd d.
  induction l as [|x l IH]; [by inversion 2|]. cbn. intros Hn Ht Ht' E E'.
  assert (Hin : forall y, y ∈ l -> t_IdempotencyKey y = Some k -> k ∈ omap t_IdempotencyKey l).
  { intros y Hy Ey. apply list_elem_of_omap. by exists y. }
  apply elem_of_cons in Ht as [->|Ht]; apply elem_of_cons in Ht' as [->|Ht']; try done.
  - rewrite E in Hn. inversion Hn as [|? ? Hni]. by destruct Hni; apply (Hin t').
  - rewrite E' in Hn. inversion Hn as [|? ? Hni]. by destruct Hni; apply (Hin t).
  - apply IH; try done. destruct (t_IdempotencyKey x); [by inversion Hn|done].
Qed.

Lemma assign_key cs t : t_IdempotencyKey (assign_task cs t) = t_IdempotencyKey t.
Proof.
  unfold assign_task. revert t. induction cs as [|c cs IH]; intros t; [done|]. cbn [fold_left]. rewrite IH.
  by destruct t, c.
Qed.

Section Props.
Context {B : Type} `{BackupImpl B} (env : Env) (s : TaskServiceOptions).
Implicit Type w : World B.
#[local] Abbreviation handle := (handle env).

Lemma handle_extends o w : db_ok (w_db w) -> extends (w_db w) (w_db (handle o w).2).
Proof.
  intros Hw. unfold TaskSystem.handle. destruct o; cbn [exec]; try reflexivity.
  - unfold exec_repo. pose proof (repo_exec_extends (env_now env (w_step w)) o (w_db w) Hw).
    destruct (repo_exec _ o _) as [r d]. by destruct (env_db env (w_step w)).
  - by destruct (backup_exec _ o _).
  - by destruct (chan_slots workers w <? capacity).
Qed.

(** Later: reached by the goroutines of any requests. *)
Definition later w w' : Prop :=
  exists requests c, psteps handle (spawn s) (serve s <$> requests, w) c /\ c.2 = w'.

Lemma later_ok w w' : later w w' -> db_ok (w_db w) -> db_ok (w_db w') /\ extends (w_db w) (w_db w').
Proof.
  intros (reqs & c & Hs & <-) Hw.
  refine (psteps_inv_ops handle (spawn s) (fun w1 => db_ok (w_db w1) /\ extends (w_db w) (w_db w1))
            fresh_op _ _ _ _ Hs _ _).
  - intros o w1 Ho [H1 H2]. split; [by apply handle_db_ok|]. etrans; [done|]. by apply handle_extends.
  - intros w1 p w2 Hsp Hw1. unfold spawn in Hsp. destruct (w_jobs w1); [done|].
    injection Hsp as <- <-. split; [done|apply job_ops].
  - cbn [fst]. apply Forall_fmap, Forall_forall. intros r _. apply serve_ops.
  - split; [done|reflexivity].
Qed.

Lemma run_ok {A} (p : prog task_ans A) w : all_ops plain_op p -> db_ok (w_db w) ->
  db_ok (w_db (run handle p w).2) /\ extends (w_db w) (w_db (run handle p w).2).
Proof.
  intros Hp Hw. refine (run_inv_ops handle (fun w1 => db_ok (w_db w1) /\ extends (w_db w) (w_db w1)) plain_op _ _ p w Hp _).
  - intros o w1 Ho [H1 H2]. split; [apply handle_db_ok; [by destruct o|done]|]. etrans; [done|]. by apply handle_extends.
  - split; [done|reflexivity].
Qed.

(** A row with the key, after any answer of the repository that shows one. *)
Lemma run_repo {A} o (k : repo_ans o -> prog task_ans A) w :
  run handle (bind (repo o) k) w = let '(r, w1) := handle (Repo o) w in run handle (k r) w1.
Proof. unfold repo, call. cbn [bind run]. by destruct (handle (Repo o) w). Qed.

Definition keyed (id : Z) (k : string) (d : TaskDB) : Prop :=
  exists t, t ∈ db_tasks d /\ t_ID t = id /\ t_IdempotencyKey t = Some k.

Lemma keyed_extends id k d d' : extends d d' -> keyed id k d -> keyed id k d'.
Proof.
  intros He (t & Ht & <- & Hk). destruct (He t Ht) as (t' & Ht' & E1 & E2). exists t'. split; [done|].
  split; congruence.
Qed.

Lemma get_key_found k w t : (handle (Repo (RGetByIdempotencyKey k)) w).1 = Ok (Some t) -> keyed (t_ID t) k (w_db w).
Proof.
  unfold TaskSystem.handle. cbn [exec]. unfold exec_repo. cbn [repo_exec].
  unfold repository.GetByIdempotencyKey. destruct (env_db env (w_step w)); try done. simpl. intros [= E].
  apply first_where_Some in E as [Hin Hk]. exists t. split; [done|]. split; [done|].
  unfold has_key in Hk. destruct (t_IdempotencyKey t); [|done]. f_equal. by apply String.eqb_eq.
Qed.

Lemma create_keyed now t d t' k : t_IdempotencyKey t = Some k ->
  (repository.Create now t d).1 = Ok t' -> keyed (t_ID t') k (repository.Create now t d).2.
Proof.
  intros Hk. unfold repository.Create. cbv zeta. cbn [db_tasks].
  match goal with |- context [existsb (collides ?r) _] => set (row := r) end.
  destruct (existsb (collides row) _); [done|]. destruct (negb _); [done|]. intros [= <-].
  eexists. split; [apply elem_of_app; right; by apply list_elem_of_singleton|]. split; [done|].
  unfold row. rewrite assign_key. case_match; by rewrite ?assign_key.
Qed.

Lemma createAndRunTask_keyed ty p by_ u k w r :
  db_ok (w_db w) -> (run handle (createAndRunTask s ty p by_ u (Some k)) w).1 = Ok r ->
  keyed (dto.ctr_ID r) k (w_db (run handle (createAndRunTask s ty p by_ u (Some k)) w).2).
Proof.
  intros Hd. unfold createAndRunTask. cbn [find_existing].
  assert (Htail : forall A (q : prog task_ans A) w1 id, all_ops plain_op q -> db_ok (w_db w1) ->
    keyed id k (w_db w1) -> keyed id k (w_db (run handle q w1).2)).
  { intros A q w1 id Hq Hw1. apply keyed_extends. by apply run_ok. }
  assert (Hstep : forall o w1, op_ok o -> db_ok (w_db w1) -> db_ok (w_db (handle (Repo o) w1).2))
    by (intros; by apply handle_db_ok).
  rewrite (run_repo (RGetByIdempotencyKey k)). pose proof (get_key_found k w) as Hg1. pose proof (Hstep (RGetByIdempotencyKey k) w I Hd) as Hd1.
  pose proof (handle_extends (Repo (RGetByIdempotencyKey k)) w Hd) as He1.
  destruct (handle (Repo (RGetByIdempotencyKey k)) w) as [[[t|]|e] w1]; cbn [fst snd] in *; [| |done].
  { intros [= <-]. eapply keyed_extends; [exact He1|]. by apply Hg1. }
  set (nt := new_task s ty p by_ (Some k)). rewrite (run_repo (RCreate nt)).
  pose proof (Hstep (RCreate nt) w1 ltac:(by repeat split) Hd1) as Hd2.
  assert (Hc : forall t, (handle (Repo (RCreate nt)) w1).1 = Ok t -> keyed (t_ID t) k (w_db (handle (Repo (RCreate nt)) w1).2)).
  { intros t. unfold TaskSystem.handle. cbn [exec]. unfold exec_repo. cbn [repo_exec].
    pose proof (create_keyed (env_now env (w_step w1)) nt (w_db w1) t k eq_refl) as Hck.
    destruct (repository.Create _ nt _) as [r' d']. by destruct (env_db env (w_step w1)). }
  destruct (handle (Repo (RCreate nt)) w1) as [[t|e] w2]; cbn [fst snd] in *.
  - rewrite run_bind. specialize (Hc t eq_refl).
    pose proof (Htail _ (log (t_ID t) "info" "task queued" [("actor", JStr u); ("type", JStr ty);
      ("payload", payload_json p); ("status", JStr TaskStatusPending); ("progress", JInt 0)]) w2 _ (log_ops _ _ _ _) Hd2 Hc) as Hk.
    destruct (run handle _ w2) as [? w3]. cbn [snd] in Hk. by destruct (AsyncExecution s); intros [= <-].
  - rewrite (run_repo (RGetByIdempotencyKey k)). pose proof (get_key_found k w2) as Hg2.
    pose proof (handle_extends (Repo (RGetByIdempotencyKey k)) w2 Hd2) as He2.
    destruct (handle (Repo (RGetByIdempotencyKey k)) w2) as [[[t|]|e'] w3]; cbn [fst snd] in *; try done.
    intros [= <-]. eapply keyed_extends; [exact He2|]. by apply Hg2.
Qed.

(** C24 One idempotency key, one task: whatever else runs between two creations
    with the same key, and whatever statements fail, when both report success
    they report the same task. *)
Theorem create_idempotent ty1 p1 by1 u1 ty2 p2 by2 u2 key w1 w2 r1 r2
  (Hok : db_ok (w_db w1))
  (H1 : (run handle (createAndRunTask s ty1 p1 by1 u1 (Some key)) w1).1 = Ok r1)
  (Hlater : later (run handle (createAndRunTask s ty1 p1 by1 u1 (Some key)) w1).2 w2)
  (H2 : (run handle (createAndRunTask s ty2 p2 by2 u2 (Some key)) w2).1 = Ok r2) :
  dto.ctr_ID r1 = dto.ctr_ID r2.
Proof.
  pose proof (createAndRunTask_keyed _ _ _ _ _ _ _ Hok H1) as K1.
  destruct (run_ok _ w1 (createAndRunTask_ops s ty1 p1 by1 u1 (Some key)) Hok) as [Hok1 _].
  destruct (later_ok _ _ Hlater Hok1) as [Hok2 He]. apply (keyed_extends _ _ _ _ He) in K1.
  pose proof (createAndRunTask_keyed _ _ _ _ _ _ _ Hok2 H2) as K2.
  destruct (run_ok _ w2 (createAndRunTask_ops s ty2 p2 by2 u2 (Some key)) Hok2) as [Hok3 He3].
  apply (keyed_extends _ _ _ _ He3) in K1. destruct K1 as (t1 & Ht1 & <- & Hk1), K2 as (t2 & Ht2 & <- & Hk2).
  by rewrite (key_unique _ t1 t2 key Hok3 Ht1 Ht2 Hk1 Hk2).
Qed.

(** ** Cancellation *)

(** What a read or a log line leaves as it is. *)
Record untouched w w' : Prop := {
  un_ok : db_ok (w_db w');
  un_rows : forall i, row i w' = row i w;
  un_calls : w_calls w' = w_calls w;
  un_backups : w_backups w' = w_backups w
}.

Lemma untouched_trans w1 w2 w3 : untouched w1 w2 -> untouched w2 w3 -> untouched w1 w3.
Proof. intros [? R1 ? ?] [? R2 ? ?]. split; [done| |congruence..]. intros i. by rewrite R2. Qed.

Lemma wp_isCanceled_row (Hcalm : calm env) {A} id t (k : bool -> prog task_ans A) Q w :
  db_ok (w_db w) -> row id w = Some t ->
  (forall w', untouched w w' -> wp handle (k (t_Status t =? "canceled")%string) Q w') ->
  wp handle (bind (isCanceled id) k) Q w.
Proof.
  intros Hd Hr Hk. unfold isCanceled. apply wp_bind, wp_repo; [done|]. cbn [repo_exec].
  unfold repository.GetByID. unfold row in Hr. rewrite Hr. apply Hk. by destruct w.
Qed.

Lemma wp_log_row (Hcalm : calm env) i l m d w : db_ok (w_db w) ->
  wp handle (log_raw i l m d) (fun _ w' => untouched w w') w.
Proof.
  intros Hd. unfold log_raw. apply wp_repo; [done|]. set (o := RAppendLog _).
  pose proof (repo_exec_ok (env_now env (w_step w)) o (w_db w) I Hd) as Hd'.
  pose proof (fun j => row_after (env_now env (w_step w)) o (w_db w) j eq_refl) as Hr.
  destruct (repo_exec _ o _) as [a d']. apply wp_return. split; [done| |done|done].
  intros j. unfold row. cbn [w_db tick set_db]. rewrite Hr. simpl. by destruct (first_where _ _).
Qed.

(** Reads the status, then writes a log line. *)
Lemma wp_canceled_log (Hcalm : calm env) id t (rest : prog task_ans unit) i l m d w :
  db_ok (w_db w) -> row id w = Some t -> t_Status t = "canceled" ->
  wp handle (bind (isCanceled id) (fun b : bool => if b then log_raw i l m d else rest))
    (fun _ w' => untouched w w') w.
Proof.
  intros Hd Hr Hs. eapply wp_isCanceled_row; [done..|]. intros w1 H1. rewrite Hs. simpl.
  eapply wp_mono; [apply wp_log_row; [done|apply H1]|]. intros ? w2 H2. by eapply untouched_trans.
Qed.


(** [CancelTask] on an undisturbed database: a task that does not exist is a
    404, a finished one is a 400, and both leave every row; any other task
    becomes canceled with its progress kept, and no other row changes. *)
Theorem CancelTask_spec id username w (Hcalm : calm env) (Hok : db_ok (w_db w)) :
  let '(r, w') := run handle (CancelTask id username) w in
  match row id w with
  | None => r = Err ErrTaskNotFound /\ http_status ErrTaskNotFound = 404 /\ untouched w w'
  | Some t =>
    if terminal_status (t_Status t)
    then (exists e, r = Err e /\ http_status e = 400) /\ untouched w w'
    else r = Ok tt
      /\ (exists t', row id w' = Some t' /\ t_Status t' = "canceled" /\ t_Progress t' = t_Progress t
            /\ t_ErrorMsg t' = "canceled by operator" /\ t_Attempt t' = t_Attempt t /\ t_Payload t' = t_Payload t)
      /\ (forall i, i <> id -> row i w' = row i w) /\ db_ok (w_db w')
  end.
Proof.
  assert (Hwp : forall Q, wp handle (CancelTask id username) Q w ->
     let '(r, w') := run handle (CancelTask id username) w in Q r w') by done.
  unfold CancelTask, get_task in Hwp |- *. apply Hwp. clear Hwp.
  apply bind_bind_ok, wp_bind, wp_bind, wp_repo; [done|]. cbn [repo_exec]. unfold repository.GetByID.
  apply wp_return, wp_return.
  assert (Hun : untouched w (tick (set_db (w_db w) w))) by (by destruct w).
  destruct (row id w) as [t|] eqn:Hr; unfold row in Hr; rewrite Hr; cbv iota beta; [|by apply wp_return].
  destruct (terminal_status (t_Status t)) eqn:Et.
  { apply wp_return. split; [by eexists|done]. }
  apply bind_bind_ok. unfold or_else. apply wp_bind, wp_bind, wp_repo; [done|].
  set (w1 := tick _) in *. set (o := RUpdateStatus id TaskStatusCanceled (t_Progress t) "canceled by operator").
  assert (Hprog : progress_ok (t_Progress t) = true).
  { apply first_where_Some in Hr as [Hin _]. pose proof (ok_rows _ Hok) as Hf.
    rewrite Forall_forall in Hf. by apply Hf. }
  assert (Hby : by_id o = true) by (simpl; by rewrite Hprog).
  pose proof (repo_exec_ok (env_now env (w_step w1)) o (w_db w1) I Hok) as Hd'.
  pose proof (fun j => row_after (env_now env (w_step w1)) o (w_db w1) j Hby) as Hra.
  assert (Hres : (repo_exec (env_now env (w_step w1)) o (w_db w1)).1 = Ok tt).
  { cbn. unfold repository.UpdateStatus. rewrite Hprog. by rewrite andb_false_r. }
  destruct (repo_exec _ o _) as [r2 d2]. cbn [fst snd] in *. subst r2. apply wp_return. cbn [map_err].
  apply wp_bind. eapply wp_mono; [by apply wp_log_row|]. intros ? w3 [H1 H2 _ _]. apply wp_return.
  assert (Hrow3 : forall i, row i w3 = match row i w1 with Some x => Some (if has_id id x then
     assign_task (repository.status_updates "canceled" (t_Progress t) "canceled by operator" ++
       [tcol_UpdatedAt (env_now env (w_step w1))]) x else x) | None => None end).
  { intros i. rewrite H2. unfold row. cbn [w_db tick set_db]. by rewrite Hra. }
  split; [done|]. split; [|split; [|done]].
  - rewrite Hrow3. unfold row. cbn. rewrite Hr. eexists. split; [done|].
    apply first_where_Some in Hr as [_ ->]. by destruct t.
  - intros i Hi. rewrite Hrow3. unfold row. cbn [w_db w1 tick set_db].
    destruct (first_where (has_id i) (db_tasks (w_db w))) as [y|] eqn:E; [|done].
    apply first_where_Some in E as [_ E]. unfold has_id in *. by replace (t_ID y =? id) with false by lia.
Qed.

(** ** What is queued can be executed *)

(** The rows inserted have a payload the worker accepts. *)
Definition runnable_op (o : task_op) : Prop :=
  match o with
  | Repo (RCreate t) => exists p, unmarshalTaskPayload (t_Payload t) = Ok p
  | _ => True
  end.

Lemma createAndRunTask_runnable ty p by_ u k :
  payload_wf p -> payload_accepted p -> all_ops runnable_op (createAndRunTask s ty p by_ u k).
Proof.
  intros Hwf Ha. assert (Hrun : exists q, unmarshalTaskPayload (marshalTaskPayload p) = Ok q).
  { destruct (unmarshal_checks _ p (Unmarshal_marshal p Hwf)) as [[_ E]|[Hn _]]; [by exists p|done]. }
  assert (Hf : all_ops runnable_op (find_existing k)) by (destruct k; by repeat split).
  assert (Hc : all_ops runnable_op (repo (RCreate (new_task s ty p by_ k)))) by (split; [exact Hrun|done]).
  unfold createAndRunTask.
  repeat (first [exact Hf | exact Hc | apply all_ops_bind | progress intros | match goal with |- all_ops _ (match ?x with _ => _ end) => destruct x end
                | solve [repeat split; done] ]).
Qed.

Lemma with_key_ops {A} P raw (k : option string -> prog task_ans (res A)) :
  (forall key, all_ops P (k key)) -> all_ops P (with_key raw k).
Proof. intros Hk. unfold with_key. by case_match. Qed.

(** Every task queued for a container, a service or the verification of a
    backup has a payload the worker accepts, whatever the request says (its
    texts being valid UTF-8, its numbers 64-bit integers). *)
Theorem queued_tasks_run (by_ : option Z) username
  (docker : dto.CreateDockerRestartTaskRequest) (service : dto.CreateServiceRestartTaskRequest)
  backupID (verify : dto.CreateBackupVerifyTaskRequest)
  (Hd : ValidString (dto.drt_ContainerID docker) = true)
  (Hs : ValidString (dto.srt_ServiceName service) = true)
  (Hv : ValidString (dto.vt_Checksum verify) = true /\ ValidString (dto.vt_FilePath verify) = true
        /\ in_int64 backupID = true /\ in_int64 (dto.vt_SizeBytes verify) = true) :
  all_ops runnable_op (CreateDockerRestartTask s docker by_ username)
  /\ all_ops runnable_op (CreateServiceRestartTask s service by_ username)
  /\ all_ops runnable_op (CreateBackupVerifyTask s backupID verify by_ username).
Proof.
  split; [|split].
  - unfold CreateDockerRestartTask. destruct (String.eqb_spec (TrimSpace (dto.drt_ContainerID docker)) ""); [done|].
    case_match; [done|]. apply with_key_ops. intros key. apply createAndRunTask_runnable.
    + split; [|done]. repeat constructor; simpl. by apply ValidString_TrimSpace.
    + left. simpl. by rewrite TrimSpace_idem.
  - unfold CreateServiceRestartTask. destruct (String.eqb_spec (TrimSpace (dto.srt_ServiceName service)) ""); [done|].
    case_match; [done|]. apply with_key_ops. intros key. apply createAndRunTask_runnable.
    + split; [|done]. repeat constructor; simpl. by apply ValidString_TrimSpace.
    + right. left. simpl. by rewrite TrimSpace_idem.
  - destruct Hv as (Hc & Hf & Hb & Hz). unfold CreateBackupVerifyTask.
    destruct (Z.leb_spec backupID 0); [done|]. case_match; [done|]. apply with_key_ops. intros key. cbv zeta.
    case_match eqn:E; [done|]. apply createAndRunTask_runnable.
    + split; [|done]. repeat constructor; simpl; done.
    + right. right. right. split; [done|]. split; [done|]. simpl. unfold manual_verification in E.
      destruct (Z.ltb_spec 0 (dto.vt_SizeBytes verify)); destruct (blank (dto.vt_Checksum verify)) eqn:B1;
        destruct (blank (dto.vt_FilePath verify)) eqn:B2; destruct (Z.leb_spec (dto.vt_SizeBytes verify) 0);
        simpl in E; try done; try lia; apply blank_true in B1 || apply blank_false in B1; auto;
        apply blank_true in B2; auto.
Qed.
End Props.
