(* ===== verification/TaskExamples.v ===== *)
(** * Concrete schedules of the task service

    An environment in which nothing fails and every operation takes ten
    seconds; the instances of the general properties at concrete requests; and
    executions that show what the code does not guarantee: two interleavings, a
    refused completion and a repeated request for a backup. *)

From Stdlib Require Import ZArith Lia.
From S2P Require Import Prelude GoString GoError Effects Table Schema Json Agent Dto BackupApi.
From S2P Require Metrics BackupRepo BackupSystem BackupExamples.
From S2P Require Import TaskRepo TaskPayload AgentServices TaskService TaskSystem TaskWorker TaskLiveness TaskMetrics TaskProps.

(** The agent restarts containers. *)
Definition docker_agent (o : agent_op) : agent_ans o :=
  match o return agent_ans o with
  | ARestartDockerContainer id => Ok {| grpcclient.da_ID := id; grpcclient.da_State := "running" |}
  | o => failing_agent (ErrNew "unreachable") o
  end.

Definition env0 : Env :=
  {| env_now n := Z.of_nat n * 10 * Second; env_db _ := NoFault; env_agent _ := docker_agent;
     env_done _ := false; env_pick _ := false |}.

Lemma env0_calm : calm env0.
Proof. intros n. reflexivity. Qed.

Definition options0 (async : bool) : TaskServiceOptions :=
  NewTaskServiceWithOptions
    {| AsyncExecution := async; MaxAttempts := 3; HasMetrics := false; HasDocker := true;
       HasServices := true; HasBackup := false |}.

Definition world0 : World unit := MkWorld 0%nat empty_TaskDB tt [] [] [] [] [].

Definition restart_web : request :=
  ReqDocker {| dto.drt_ContainerID := " web "; dto.drt_IdempotencyKey := "" |} None "admin".

Definition worker_options (name : string) : TaskWorkerOptions :=
  {| WorkerID := name; Concurrency := 1; LeaseDuration := 30 * Second; PollInterval := 0 |}.

Definition start (async : bool) (requests : list request) : pool :=
  (serve (options0 async) <$> requests, world0).

Definition sched0 (async : bool) (requests : list request) (l : list (option nat)) : pool :=
  run_sched (handle env0) (spawn (options0 async)) l (start async requests).

Definition config : Type := list (prog task_ans unit) * World unit.

Definition finished (p : prog task_ans unit) : bool := match p with Ret _ => true | Do _ _ => false end.

(** [n] operations of goroutine [i]. *)
Definition steps (n i : nat) : list (option nat) := replicate n (Some i).

(** ** A cancellation that is lost

    The goroutine of the task has read the status when the operator cancels. *)
Definition lost_cancel : list (option nat) :=
  steps 3 0 ++ [None] ++ steps 2 2 ++ steps 3 1 ++ steps 40 2.

(** A cancellation can be lost: there is an interleaving of a request that
    queues a task, its goroutine and a successful [CancelTask] after which
    everything has finished, the cancellation is in the task's log, and the
    task has been executed and is marked successful. *)
Theorem cancel_can_be_lost : exists c,
  psteps (handle env0) (spawn (options0 true)) (start true [restart_web; ReqCancel 1 "op"]) c
  /\ forallb finished c.1 = true
  /\ (exists t, row 1 c.2 = Some t /\ t_Status t = "success")
  /\ existsb (fun l => (tl_Message l =? "task canceled")%string) (db_logs (w_db c.2)) = true
  /\ w_calls c.2 = [ARestartDockerContainer "web"].
Proof.
  exists (sched0 true [restart_web; ReqCancel 1 "op"] lost_cancel).
  split; [apply run_sched_psteps|]. split; [vm_compute; reflexivity|]. split; [|split].
  - eexists. split; vm_compute; reflexivity.
  - vm_compute. reflexivity.
  - vm_compute. reflexivity.
Qed.

(** ** A stale worker

    Worker [a] claims the task and is late: its lease ends, worker [b] claims
    the task and completes it, then [a] goes on. *)
Definition late_worker : list (option nat) :=
  steps 2 0 ++ steps 2 1 ++ [None] ++ steps 4 3 ++ [None] ++ steps 4 4 ++ [None] ++ steps 5 5 ++
  steps 2 2 ++ [None; None; None] ++ steps 4 8 ++ [None] ++ steps 4 9 ++ [None] ++ steps 40 10 ++ steps 40 5.

Definition late_requests : list request :=
  [restart_web; ReqWorker "" 1 (worker_options "a"); ReqWorker "" 2 (worker_options "b")].

Definition late_end : config := sched0 false late_requests late_worker.

Definition restarted_twice (c : config) : Prop :=
  w_calls c.2 = [ARestartDockerContainer "web"; ARestartDockerContainer "web"].

(** The goroutines of both executions have ended. *)
Definition both_ended (c : config) : bool :=
  match c.1 !! 5%nat, c.1 !! 10%nat with Some p, Some q => finished p && finished q | _, _ => false end.

Definition row_running_unlocked (c : config) : bool :=
  match row 1 c.2 with
  | Some t => (t_Status t =? "running")%string
      && match t_LockedBy t, t_LockedUntil t with None, None => true | _, _ => false end
  | None => false
  end.

Definition logged (message : string) (c : config) : bool :=
  existsb (fun l => (tl_Message l =? message)%string) (db_logs (w_db c.2)).

Lemma late_calls : restarted_twice late_end.
Proof. vm_compute. reflexivity. Qed.

Lemma late_checks : both_ended late_end && row_running_unlocked late_end && logged "task completed" late_end = true.
Proof. vm_compute. reflexivity. Qed.

(** A configuration reached from requests on an empty database is well formed. *)
Lemma start_ok async requests c :
  psteps (handle env0) (spawn (options0 async)) (start async requests) c -> db_ok (w_db c.2).
Proof.
  intros Hsteps. refine (psteps_inv_ops _ _ (fun w => db_ok (w_db w)) fresh_op _ _ _ _ Hsteps _ empty_ok).
  - intros o w. apply handle_db_ok.
  - intros w1 p w2 Hsp Hw. unfold spawn in Hsp. destruct (w_jobs w1); [done|].
    injection Hsp as <- <-. split; [done|apply job_ops].
  - cbn [fst start]. apply Forall_fmap, Forall_forall. intros r _. apply serve_ops.
Qed.

Lemma stuck_running c : db_ok (w_db c.2) -> row_running_unlocked c = true ->
  forall l, Forall (fun x => op_ok x.2 /\ not_by_hand 1 x.1 x.2) l ->
    exists t', t' ∈ db_tasks (repo_run l (w_db c.2)) /\ t_ID t' = 1 /\ t_Status t' = "running".
Proof.
  unfold row_running_unlocked. intros Hok Hr l Hops. destruct (row 1 c.2) as [t|] eqn:Hrow; [|done]. breflect.
  destruct (t_LockedBy t) eqn:Hl; [done|].
  apply first_where_Some in Hrow as [Hin Hid]. unfold has_id in Hid.
  assert (E : t_ID t = 1) by lia. rewrite <- E in Hops |- *. by apply unlocked_running_stuck.
Qed.

(** A worker that was late can undo a success: there is an interleaving of
    two workers in which the task is executed twice, both executions end, the
    second completed the task, and yet the task is marked running with no owner
    and no lease; no later history of repository operations, a change of its
    status by hand apart, ever changes that status. *)
Theorem late_worker_resurrects : exists c,
  psteps (handle env0) (spawn (options0 false)) (start false late_requests) c
  /\ restarted_twice c /\ both_ended c = true /\ row_running_unlocked c = true
  /\ logged "task completed" c = true
  /\ forall l, Forall (fun x => op_ok x.2 /\ not_by_hand 1 x.1 x.2) l ->
       exists t', t' ∈ db_tasks (repo_run l (w_db c.2)) /\ t_ID t' = 1 /\ t_Status t' = "running".
Proof.
  pose proof late_checks as Hc. pose proof late_calls as Hl.
  assert (Hs : psteps (handle env0) (spawn (options0 false)) (start false late_requests) late_end)
    by apply run_sched_psteps.
  revert Hc Hl Hs. generalize late_end. intros c Hc Hl Hs. breflect. exists c. repeat (split; [done|]).
  apply stuck_running; [by eapply start_ok|done].
Qed.

(** ** Instances *)

Definition web_payload : taskPayload := MkPayload "docker.restart" "web" "" 0 "" "" "" "" 0 "".

(** A task queued with the key [k1], then claimed by worker [a]. *)
Definition create_web : prog task_ans (res dto.CreateTaskResult) :=
  createAndRunTask (options0 false) "docker_restart" web_payload None "admin" (Some "k1").

Definition queued : World unit := (run (handle env0) create_web world0).2.

Definition claimed_world : World unit :=
  (handle env0 (Repo (RClaimNextTask "a" (30 * Second))) queued).2.

Lemma queued_ok : db_ok (w_db queued).
Proof. apply run_ok; [apply createAndRunTask_ops|apply empty_ok]. Qed.

Lemma claimed_world_ok : db_ok (w_db claimed_world).
Proof. apply handle_db_ok; [done|apply queued_ok]. Qed.

Lemma interleaving_db_ok_witness : db_ok (w_db late_end.2).
Proof.
  apply (interleaving_db_ok env0 (options0 false) late_requests world0 late_end).
  - apply empty_ok.
  - apply run_sched_psteps.
Defined.

Definition claimed_row : Task := default (sample_task 0) (row 1 claimed_world).

Lemma claimed_row_found : row (t_ID claimed_row) claimed_world = Some claimed_row
  /\ t_Status claimed_row = "running" /\ t_LockedBy claimed_row = Some "a".
Proof. vm_compute. done. Qed.


Definition one_worker : list (option nat) := [None] ++ steps 4 0 ++ [None] ++ steps 5 1.

Definition worker_end : config :=
  run_sched (handle env0) (spawn (options0 false)) one_worker
    ([], (run (handle env0) (RunWorker "" 1 (worker_options "a")) queued).2).


Lemma create_idempotent_witness :
  exists r1 r2, (run (handle env0) create_web world0).1 = Ok r1
  /\ (run (handle env0) create_web queued).1 = Ok r2 /\ dto.ctr_ID r1 = dto.ctr_ID r2.
Proof.
  assert (H1 : exists r, (run (handle env0) create_web world0).1 = Ok r) by (eexists; vm_compute; reflexivity).
  assert (H2 : exists r, (run (handle env0) create_web queued).1 = Ok r) by (eexists; vm_compute; reflexivity).
  destruct H1 as [r1 H1], H2 as [r2 H2]. exists r1, r2. split; [exact H1|]. split; [exact H2|].
  apply (create_idempotent env0 (options0 false) "docker_restart" web_payload None "admin"
           "docker_restart" web_payload None "admin" "k1" world0 queued r1 r2 empty_ok H1); [|exact H2].
  exists [], ([], queued). split; [constructor|reflexivity].
Defined.

Definition canceled_world : World unit := (run (handle env0) (CancelTask 1 "op") claimed_world).2.

Lemma canceled_world_ok : db_ok (w_db canceled_world).
Proof. apply run_ok; [apply CancelTask_ops | apply claimed_world_ok]. Qed.


Lemma CancelTask_spec_witness :
  (run (handle env0) (CancelTask 1 "op") claimed_world).1 = Ok tt.
Proof.
  pose proof (CancelTask_spec env0 1 "op" claimed_world env0_calm claimed_world_ok) as H.
  destruct (run (handle env0) (CancelTask 1 "op") claimed_world) as [r w'].
  destruct claimed_row_found as (H1 & H2 & _).
  replace (row 1 claimed_world) with (Some claimed_row) in H by (vm_compute; reflexivity).
  rewrite H2 in H. exact (proj1 H).
Defined.

Lemma queued_tasks_run_witness :
  all_ops runnable_op (CreateDockerRestartTask (options0 false)
    {| dto.drt_ContainerID := "web"; dto.drt_IdempotencyKey := "" |} None "admin").
Proof.
  refine (proj1 (queued_tasks_run (options0 false) None "admin"
    {| dto.drt_ContainerID := "web"; dto.drt_IdempotencyKey := "" |}
    {| dto.srt_ServiceName := "nginx"; dto.srt_IdempotencyKey := "" |} 1
    {| dto.vt_SizeBytes := 0; dto.vt_Checksum := ""; dto.vt_FilePath := ""; dto.vt_IdempotencyKey := "" |}
    _ _ _)).
  - vm_compute. reflexivity.
  - vm_compute. reflexivity.
  - vm_compute. done.
Defined.

(** A worker died with the first task; the second one is waiting. *)
Definition crashed_db : TaskDB :=
  let task := MkTask 0 "docker_restart" "pending" 0 (marshalTaskPayload web_payload) "{}" "" None None None None 0 3 None None None None
    zero_time zero_time in
  repo_run [(10, RCreate task); (20, RCreate task); (100, RClaimNextTask "w" 30)] empty_TaskDB.

Definition crashed_world : World unit := MkWorld 5%nat crashed_db tt [] [] [] [] [].

Lemma crashed_db_ok : db_ok crashed_db.
Proof. apply repo_run_ok; [repeat constructor | apply empty_ok]. Qed.


(** The worker of a service with metrics executes the task. *)
Definition metered : TaskServiceOptions :=
  NewTaskServiceWithOptions
    {| AsyncExecution := false; MaxAttempts := 3; HasMetrics := true; HasDocker := true; HasServices := true; HasBackup := false |}.

Definition metered_end : config :=
  run_sched (handle env0) (spawn metered) (steps 2 0 ++ [None] ++ steps 9 1 ++ [None] ++ steps 9 2 ++ [None] ++ steps 60 3)
    (serve metered <$> [ReqWorker "host" 1 (worker_options "a")], crashed_world).

Lemma completions_within_claims_witness :
  let m := observe_all (w_metrics metered_end.2) Metrics.New in
  Metrics.counter ["success"] (Metrics.TaskWorkerClaims m) = 1 /\
  Metrics.counter ["docker_restart"; "success"] (Metrics.TasksCompletedTotal m) = 1 /\
  Metrics.total (Metrics.TasksCompletedTotal m) - Metrics.total (Metrics.TasksCompletedTotal Metrics.New)
    <= Metrics.counter ["success"] (Metrics.TaskWorkerClaims m) - Metrics.counter ["success"] (Metrics.TaskWorkerClaims Metrics.New).
Proof.
  split; [vm_compute; reflexivity|]. split; [vm_compute; reflexivity|].
  exact (proj1 (completions_within_claims env0 metered eq_refl [ReqWorker "host" 1 (worker_options "a")] crashed_world metered_end
    Metrics.New eq_refl eq_refl (run_sched_psteps _ _ _ _))).
Defined.

(** ** A completion that is refused

    A worker goes on after another one, [a], has taken over its task: the row
    stays running under the lock of [a], and the series count a success. *)
Definition late_completion : World unit :=
  (run (handle env0) (runClaimedTask metered "z" (30 * Second) claimed_row) claimed_world).2.

Lemma refused_completion_counted :
  (fun t => (t_Status t, t_LockedBy t)) <$> row 1 late_completion = Some ("running", Some "a") /\
  Metrics.counter ["docker_restart"; "success"] (Metrics.TasksCompletedTotal (observe_all (w_metrics late_completion) Metrics.New)) = 1.
Proof. vm_compute. done. Qed.

(** ** A repeated request for a backup

    The service with backups, one of them in the table. *)
Definition backing : TaskServiceOptions :=
  NewTaskServiceWithOptions
    {| AsyncExecution := true; MaxAttempts := 3; HasMetrics := false; HasDocker := true; HasServices := true; HasBackup := true |}.

#[local] Instance local_backups : BackupImpl BackupSystem.BackupWorld := BackupSystem.backup_impl BackupExamples.quiet0 BackupExamples.svc0.

Definition create_backup_k1 : prog task_ans (res dto.CreateBackupTaskResult) :=
  CreateBackupTask backing
    {| dto.bt_ResourceType := "postgres"; dto.bt_ResourceID := "main"; dto.bt_StorageType := ""; dto.bt_FilePath := "";
       dto.bt_IdempotencyKey := "k1" |} None "admin".

Definition backup_world0 : World BackupSystem.BackupWorld := MkWorld 0%nat empty_TaskDB BackupExamples.w0 [] [] [] [] [].

(** Sent twice with one key the request gives one task, and a second pending row
    of a backup that no task makes. *)
Lemma repeated_backup_orphaned :
  let first := run (handle env0) create_backup_k1 backup_world0 in
  let second := run (handle env0) create_backup_k1 first.2 in
  let ids r := res_map (fun x => (dto.ctr_ID (dto.btr_Task x), dto.bs_ID (dto.btr_Backup x))) r in
  ids first.1 = Ok (1, 10) /\ ids second.1 = Ok (1, 11) /\ length (db_tasks (w_db second.2)) = 1%nat /\
  map (fun b => (b_ID b, b_Status b)) (BackupRepo.bdb_rows (BackupSystem.bw_db (w_backups second.2)))
    = [(1, "pending"); (10, "pending"); (11, "pending")].
Proof. vm_compute. done. Qed.
