(* ===== verification/AuditRepo.v ===== *)
(** * The audit table

    [internal/repository/audit_repository.go] over the table [audit_logs] of
    the migrations.  An insert fails when a text is longer than its column,
    has a NUL byte or is not UTF-8, when the address is no INET or the summary
    no JSONB; both types, with the text they give back, are PostgreSQL's and
    the class [Postgres].  The foreign key of [user_id] is left to the faults. *)

From Stdlib Require Import ZArith Lia.
From S2P Require Import Prelude GoString GoError Table Schema.

(** The text a column of the type gives back, if it takes the value. *)
Class Postgres := {
  inet : string -> option string;
  jsonb : string -> option string
}.

Record AuditListFilter := {
  af_Page : Z;
  af_Size : Z;
  af_StartTime : option Z;
  af_EndTime : option Z;
  af_UserID : option Z;
  af_Username : string;
  af_Module : string;
  af_Action : string;
  af_TargetType : string;
  af_TargetID : string;
  af_Success : option bool;
  af_ResultCode : string;
  af_RequestID : string;
  af_TraceID : string
}.

Record AuditDB := { adb_rows : list AuditLog; adb_next : Z }.

Definition with_audit_rows (l : list AuditLog) (db : AuditDB) : AuditDB :=
  {| adb_rows := l; adb_next := adb_next db |}.

(** The lengths of the columns. *)
Definition audit_lengths (r : AuditLog) : bool :=
  varchar 64 (al_Username r) && varchar 64 (al_Module r) && varchar 64 (al_Action r) && varchar 64 (al_TargetType r)
  && varchar 128 (al_TargetID r) && varchar 32 (al_ResultCode r) && varchar 128 (al_RequestID r) && varchar 64 (al_TraceID r).

Definition audit_texts (r : AuditLog) : list string :=
  [al_Username r; al_Module r; al_Action r; al_TargetType r; al_TargetID r; al_ResultCode r; al_ResultMessage r;
   al_RequestID r; al_TraceID r].

Definition ErrAuditRow : goerr := ErrNew "new row of audit_logs is refused".

(** A condition of the filter that is not set holds of every row. *)
Definition eq_or_unset (value column : string) : bool := (value =? "")%string || (column =? value)%string.

Definition audit_matches (f : AuditListFilter) (r : AuditLog) : bool :=
  match af_StartTime f with Some t => timestamptz t <=? al_CreatedAt r | None => true end
  && match af_EndTime f with Some t => al_CreatedAt r <=? timestamptz t | None => true end
  && match af_UserID f, al_UserID r with Some id, Some id' => id' =? id | Some _, None => false | None, _ => true end
  && eq_or_unset (af_Username f) (al_Username r) && eq_or_unset (af_Module f) (al_Module r)
  && eq_or_unset (af_Action f) (al_Action r) && eq_or_unset (af_TargetType f) (al_TargetType r)
  && eq_or_unset (af_TargetID f) (al_TargetID r)
  && match af_Success f with Some b => Bool.eqb (al_Success r) b | None => true end
  && eq_or_unset (af_ResultCode f) (al_ResultCode r) && eq_or_unset (af_RequestID f) (al_RequestID r)
  && eq_or_unset (af_TraceID f) (al_TraceID r).

(** [Order("created_at DESC")]. *)
Definition newest_first (l : list AuditLog) : list AuditLog := order_by (fun r => - al_CreatedAt r) l.

(** [created_at < ?]. *)
Definition before (cutoff : Z) (r : AuditLog) : bool := al_CreatedAt r <? timestamptz cutoff.

Module audit_repository.
Section Statements.
Context `{Postgres}.

(** GORM fills in the key and the time of creation. *)
Definition Create (now : Z) (item : AuditLog) (db : AuditDB) : res unit * AuditDB :=
  let taken := {| adb_rows := adb_rows db; adb_next := adb_next db + 1 |} in
  if negb (audit_lengths item && forallb text_ok (audit_texts item)) then (Err ErrAuditRow, taken)
  else
    match inet (al_IP item), jsonb (al_RequestSummary item) with
    | Some ip, Some summary =>
      (Ok tt, with_audit_rows (adb_rows db ++
        [MkAuditLog (adb_next db) (al_UserID item) (al_Username item) ip (al_Module item) (al_Action item)
           (al_TargetType item) (al_TargetID item) summary (al_Success item) (al_ResultCode item)
           (al_ResultMessage item) (al_RequestID item) (al_TraceID item) (timestamptz now)]) taken)
    | _, _ => (Err ErrAuditRow, taken)
    end.

Definition List (filter : AuditListFilter) (db : AuditDB) : res (list AuditLog * Z) :=
  let page := if af_Page filter <=? 0 then 1 else af_Page filter in
  let size := if af_Size filter <=? 0 then 20 else af_Size filter in
  let size := if 100 <? size then 100 else size in
  let query := select_where (audit_matches filter) (adb_rows db) in
  Ok (page_of (page_offset page size) size (newest_first query), Z.of_nat (length query)).

Definition CountBefore (cutoff : Z) (db : AuditDB) : res Z := Ok (count_where (before cutoff) (adb_rows db)).

Definition DeleteBefore (cutoff : Z) (db : AuditDB) : res Z * AuditDB :=
  (Ok (count_where (before cutoff) (adb_rows db)), with_audit_rows (delete_where (before cutoff) (adb_rows db)) db).

End Statements.
End audit_repository.

(** ** The interface [AuditRepository] *)

Inductive audit_repo_op :=
| ARCreate (item : AuditLog)
| ARList (filter : AuditListFilter)
| ARCountBefore (cutoff : Z)
| ARDeleteBefore (cutoff : Z).

Definition audit_repo_ans (o : audit_repo_op) : Type :=
  match o with
  | ARCreate _ => res unit
  | ARList _ => res (list AuditLog * Z)
  | ARCountBefore _ | ARDeleteBefore _ => res Z
  end.

Definition audit_repo_err (o : audit_repo_op) (e : goerr) : audit_repo_ans o :=
  match o return audit_repo_ans o with
  | ARCreate _ | ARList _ | ARCountBefore _ | ARDeleteBefore _ => Err e
  end.

Definition audit_repo_exec `{Postgres} (now : Z) (o : audit_repo_op) (db : AuditDB) : audit_repo_ans o * AuditDB :=
  match o return audit_repo_ans o * AuditDB with
  | ARCreate item => audit_repository.Create now item db
  | ARList f => (audit_repository.List f db, db)
  | ARCountBefore t => (audit_repository.CountBefore t db, db)
  | ARDeleteBefore t => audit_repository.DeleteBefore t db
  end.
