(* ===== verification/Csv.v ===== *)
(** * CSV

    The writer of [encoding/csv] with its default options, and a reader that
    follows RFC 4180: a text the writer wrote reads back as the same records. *)

From Stdlib Require Import ZArith Lia Ascii.
From S2P Require Import Prelude GoString.

Definition comma : ascii := chr 44.
Definition quote : ascii := chr 34.
Definition newline_char : ascii := chr 10.
Definition return_char : ascii := chr 13.

(** [Writer.fieldNeedsQuotes]. *)
Definition special (a : ascii) : bool :=
  Ascii.eqb a newline_char || Ascii.eqb a return_char || Ascii.eqb a quote || Ascii.eqb a comma.

Definition fieldNeedsQuotes (field : string) : bool :=
  if (field =? "")%string then false
  else if (field =? "\.")%string then true
  else existsb special (String.list_ascii_of_string field) || IsSpace (decode_rune field).1.

(** The inside of a quoted field. *)
Fixpoint double_quotes (field : string) : string :=
  match field with
  | EmptyString => ""
  | String a rest => if Ascii.eqb a quote then String a (String a (double_quotes rest)) else String a (double_quotes rest)
  end.

Definition csv_field (field : string) : string :=
  if fieldNeedsQuotes field then String quote (double_quotes field +:+ String quote "")%string else field.

(** [Writer.Write]: one line. *)
Definition csv_record (fields : list string) : string :=
  (Join (map csv_field fields) (String comma "") +:+ String newline_char "")%string.

(** ** Reading *)

(** Up to the next character with [p]. *)
Fixpoint span (p : ascii -> bool) (s : string) : string * string :=
  match s with
  | EmptyString => ("", "")
  | String a rest => if p a then ("", s) else let '(x, y) := span p rest in (String a x, y)
  end.

(** The inside of a quoted field up to the closing quote. *)
Fixpoint read_quoted (s : string) : option (string * string) :=
  match s with
  | EmptyString => None
  | String a rest =>
    if Ascii.eqb a quote then
      match rest with
      | String b rest' =>
        if Ascii.eqb b quote then
          match read_quoted rest' with Some (x, y) => Some (String quote x, y) | None => None end
        else Some ("", rest)
      | EmptyString => Some ("", "")
      end
    else match read_quoted rest with Some (x, y) => Some (String a x, y) | None => None end
  end.

Definition read_field (s : string) : option (string * string) :=
  match s with
  | String a rest => if Ascii.eqb a quote then read_quoted rest else Some (span (fun c => Ascii.eqb c comma || Ascii.eqb c newline_char) s)
  | EmptyString => Some ("", "")
  end.

(** The fields of a line; [fuel] bounds their number. *)
Fixpoint read_record (fuel : nat) (s : string) : option (list string * string) :=
  match fuel with
  | O => None
  | S fuel =>
    match read_field s with
    | Some (f, String a rest) =>
      if Ascii.eqb a comma then
        match read_record fuel rest with Some (fs, rest') => Some (f :: fs, rest') | None => None end
      else if Ascii.eqb a newline_char then Some ([f], rest)
      else None
    | _ => None
    end
  end.

Fixpoint read_lines (fuel : nat) (s : string) : option (list (list string)) :=
  match s with
  | EmptyString => Some []
  | _ =>
    match fuel with
    | O => None
    | S fuel =>
      match read_record (S (String.length s)) s with
      | Some (r, rest) => match read_lines fuel rest with Some rs => Some (r :: rs) | None => None end
      | None => None
      end
    end
  end.

(** Every line is at least one character long. *)
Definition read_csv (s : string) : option (list (list string)) := read_lines (String.length s) s.

(** ** What was written reads back *)

Definition stop (a : ascii) : Prop := a = comma \/ a = newline_char.

Lemma stop_eqb a : stop a -> (Ascii.eqb a comma || Ascii.eqb a newline_char) = true /\ Ascii.eqb a quote = false.
Proof. intros [-> | ->]; done. Qed.

Lemma span_field f a rest : stop a -> existsb special (String.list_ascii_of_string f) = false ->
  span (fun c => Ascii.eqb c comma || Ascii.eqb c newline_char) (f +:+ String a rest) = (f, String a rest).
Proof.
  intros Ha. induction f as [|b f IH]; cbn [String.list_ascii_of_string existsb]; intros H.
  - rewrite app_nil_str. cbn [span]. by destruct (stop_eqb a Ha) as [-> _].
  - apply orb_false_elim in H as [Hb H]. rewrite app_cons_str. cbn [span].
    unfold special in Hb. apply orb_false_elim in Hb as [Hb H4]. apply orb_false_elim in Hb as [Hb H3].
    apply orb_false_elim in Hb as [H1 H2]. rewrite H1, H4. cbn [orb]. by rewrite IH.
Qed.

Lemma read_quoted_field f a rest : stop a ->
  read_quoted (double_quotes f +:+ String quote (String a rest)) = Some (f, String a rest).
Proof.
  intros Ha. induction f as [|b f IH]; cbn [double_quotes].
  - rewrite app_nil_str. cbn [read_quoted]. change (Ascii.eqb quote quote) with true. cbn iota.
    by destruct (stop_eqb a Ha) as [_ ->].
  - destruct (Ascii.eqb b quote) eqn:E.
    + apply Ascii.eqb_eq in E as ->. rewrite !app_cons_str. cbn [read_quoted].
      change (Ascii.eqb quote quote) with true. cbn iota. by rewrite IH.
    + rewrite app_cons_str. cbn [read_quoted]. by rewrite E, IH.
Qed.

Lemma read_field_csv f a rest : stop a -> read_field (csv_field f +:+ String a rest) = Some (f, String a rest).
Proof.
  intros Ha. unfold csv_field. destruct (fieldNeedsQuotes f) eqn:E.
  - rewrite app_cons_str. cbn [read_field]. change (Ascii.eqb quote quote) with true. cbn iota.
    rewrite app_assoc_str, app_cons_str, app_nil_str. by apply read_quoted_field.
  - destruct f as [|b f].
    + rewrite app_nil_str. cbn [read_field span]. destruct (stop_eqb a Ha) as [E1 ->]. by rewrite E1.
    + unfold fieldNeedsQuotes in E. change ((String b f =? "")%string) with false in E. cbn iota in E.
      destruct (String b f =? "\.")%string; [done|]. apply orb_false_elim in E as [E _].
      pose proof (span_field (String b f) a rest Ha E) as Hs. rewrite app_cons_str in *. cbn [read_field].
      cbn [String.list_ascii_of_string existsb] in E. apply orb_false_elim in E as [E _]. unfold special in E.
      apply orb_false_elim in E as [E _]. apply orb_false_elim in E as [_ ->]. by rewrite Hs.
Qed.

Lemma Join_cons2 x y l sep : Join (x :: y :: l) sep = (x +:+ sep +:+ Join (y :: l) sep)%string.
Proof. done. Qed.

Lemma read_record_csv fs rest : fs <> [] -> forall fuel, (length fs <= fuel)%nat ->
  read_record fuel (csv_record fs +:+ rest) = Some (fs, rest).
Proof.
  unfold csv_record. rewrite app_assoc_str, app_cons_str, app_nil_str. intros Hne.
  induction fs as [|f fs IH]; [done|]. intros fuel Hf. destruct fuel as [|fuel]; [simpl in Hf; lia|].
  destruct fs as [|g fs]; cbn [map read_record].
  - change (Join [csv_field f] (String comma "")) with (csv_field f). rewrite read_field_csv by (by right). done.
  - cbn [map]. rewrite Join_cons2, !app_assoc_str, app_cons_str, app_nil_str, read_field_csv by (by left).
    change (Ascii.eqb comma comma) with true. cbn iota. cbn [map] in IH. by rewrite IH by (done || simpl in *; lia).
Qed.

Lemma csv_record_length fs : fs <> [] -> (length fs <= String.length (csv_record fs))%nat.
Proof.
  intros _. unfold csv_record. rewrite length_app_str. cbn [String.length].
  induction fs as [|f fs IH]; cbn [length]; [lia|]. destruct fs as [|g fs]; cbn [length map]; [lia|].
  rewrite Join_cons2, !length_app_str. cbn [String.length map length] in *. lia.
Qed.

Lemma read_lines_csv l : Forall (fun fs => fs <> []) l -> forall fuel, (length l <= fuel)%nat ->
  read_lines fuel (concat_str (map csv_record l)) = Some l.
Proof.
  induction 1 as [|fs l Hfs _ IH]; intros fuel Hf; [by destruct fuel|].
  destruct fuel as [|fuel]; [simpl in Hf; lia|]. cbn [map concat_str].
  assert (Hl : (1 <= String.length (csv_record fs))%nat).
  { pose proof (csv_record_length fs Hfs). destruct fs; [done|]. simpl in *. lia. }
  assert (Hr : read_record (S (String.length (csv_record fs +:+ concat_str (map csv_record l)))) (csv_record fs +:+ concat_str (map csv_record l))
    = Some (fs, concat_str (map csv_record l))).
  { apply read_record_csv; [done|]. pose proof (csv_record_length fs Hfs). rewrite length_app_str. lia. }
  cbn [read_lines]. destruct (csv_record fs +:+ concat_str (map csv_record l))%string as [|a s] eqn:E.
  - apply (f_equal String.length) in E. rewrite length_app_str in E. simpl in E. lia.
  - rewrite Hr, IH; [done|]. simpl in Hf. lia.
Qed.

Lemma read_csv_records l : Forall (fun fs => fs <> []) l -> read_csv (concat_str (map csv_record l)) = Some l.
Proof.
  intros H. unfold read_csv. apply read_lines_csv; [done|].
  induction H as [|fs l Hfs _ IH]; cbn [map concat_str length]; [lia|]. rewrite length_app_str.
  pose proof (csv_record_length fs Hfs). destruct fs; [done|]. simpl in *. lia.
Qed.
