(* ===== verification/AuditService.v ===== *)
(** * The audit service

    [internal/service/audit_service.go]: every method a program over the
    statements of the audit table, the clock and the writer of an export; and
    these operations executed.  A CSV export goes through the buffer of
    [csv.Writer], a [bufio.Writer] of 4096 bytes, a JSONL export straight to
    the writer. *)

From Stdlib Require Import ZArith Lia Ascii.
From S2P Require Import Prelude GoString GoTime GoTimeParse GoError Effects Table Schema Json Redaction Dto DtoJson AuditRepo Csv.

Record auditService := { retentionDays : Z; exportMaxRows : Z }.

Definition NewAuditServiceWithOptions (RetentionDays ExportMaxRows : Z) : auditService :=
  {| retentionDays := if RetentionDays <=? 0 then 180 else RetentionDays;
     exportMaxRows := if ExportMaxRows <=? 0 then 100000 else ExportMaxRows |}.

Definition NewAuditService : auditService := NewAuditServiceWithOptions 0 0.

(** ** Operations *)

Inductive audit_op :=
| ARepo (o : audit_repo_op)
| AuNow
| AWrite (data : string)      (* the writer of the export *)
| ABuffer (data : string)     (* the buffer in front of it *)
| AFlush.

Definition audit_ans (o : audit_op) : Type :=
  match o with
  | ARepo o => audit_repo_ans o
  | AuNow => Z
  | AWrite _ | ABuffer _ | AFlush => res unit
  end.

Abbreviation audit A := (prog audit_ans A).

Open Scope prog_scope.

(** ** Recording *)

Definition audit_row (input : dto.RecordAuditInput) : AuditLog :=
  MkAuditLog 0 (dto.ra_UserID input) (dto.ra_Username input) (dto.ra_IP input) (dto.ra_Module input) (dto.ra_Action input)
    (dto.ra_TargetType input) (dto.ra_TargetID input) (RedactJSON (dto.ra_RequestSummary input)) (dto.ra_Success input)
    (dto.ra_ResultCode input) (RedactText (dto.ra_ResultMessage input)) (dto.ra_RequestID input) (dto.ra_TraceID input)
    zero_time.

(** The error of the insert is dropped. *)
Definition Record_ (input : dto.RecordAuditInput) : audit unit :=
  bind (call (ARepo (ARCreate (audit_row input)))) (fun _ => Ret tt).

(** ** Filters *)

Definition parseAuditTime (raw : string) (endOfDay : bool) : option Z :=
  let value := TrimSpace raw in
  match ParseRFC3339 value with
  | Some parsed => Some parsed
  | None =>
    match ParseDate value with
    | None => None
    | Some parsed => Some (if endOfDay then parsed + (24 * Hour - Nanosecond) else parsed)
    end
  end.

Definition bad_audit_request (message : string) : goerr := New (app_code ErrBadRequest) (http_status ErrBadRequest) message.

(** A bound that is set must parse. *)
Definition audit_bound (raw : string) (endOfDay : bool) (message : string) : res (option Z) :=
  if (TrimSpace raw =? "")%string then Ok None
  else match parseAuditTime raw endOfDay with
       | Some parsed => Ok (Some parsed)
       | None => Err (bad_audit_request message)
       end.

Definition auditListFilter (query : dto.ListAuditLogsQuery) (page size : Z) : res AuditListFilter :=
  res_bind (audit_bound (dto.alq_StartTime query) false "invalid start_time") (fun startTime =>
  res_bind (audit_bound (dto.alq_EndTime query) true "invalid end_time") (fun endTime =>
  Ok {| af_Page := page; af_Size := size; af_StartTime := startTime; af_EndTime := endTime;
        af_UserID := if 0 <? dto.alq_UserID query then Some (dto.alq_UserID query) else None;
        af_Username := TrimSpace (dto.alq_Username query); af_Module := TrimSpace (dto.alq_Module query);
        af_Action := TrimSpace (dto.alq_Action query); af_TargetType := TrimSpace (dto.alq_TargetType query);
        af_TargetID := TrimSpace (dto.alq_TargetID query); af_Success := dto.alq_Success query;
        af_ResultCode := TrimSpace (dto.alq_ResultCode query); af_RequestID := TrimSpace (dto.alq_RequestID query);
        af_TraceID := TrimSpace (dto.alq_TraceID query) |})).

Definition toAuditLogDTO (item : AuditLog) : dto.AuditLog :=
  {| dto.dal_ID := al_ID item; dto.dal_UserID := al_UserID item; dto.dal_Username := al_Username item;
     dto.dal_IP := al_IP item; dto.dal_Module := al_Module item; dto.dal_Action := al_Action item;
     dto.dal_TargetType := al_TargetType item; dto.dal_TargetID := al_TargetID item;
     dto.dal_RequestSummary := al_RequestSummary item; dto.dal_Success := al_Success item;
     dto.dal_ResultCode := al_ResultCode item; dto.dal_ResultMessage := al_ResultMessage item;
     dto.dal_RequestID := al_RequestID item; dto.dal_TraceID := al_TraceID item;
     dto.dal_CreatedAt := FormatRFC3339 (al_CreatedAt item) |}.

(** ** Listing *)

Definition List (query : dto.ListAuditLogsQuery) : audit (res dto.ListAuditLogsResult) :=
  let page := if dto.alq_Page query <=? 0 then 1 else dto.alq_Page query in
  let size := if dto.alq_Size query <=? 0 then 20 else dto.alq_Size query in
  let size := if 100 <? size then 100 else size in
  match auditListFilter query page size with
  | Err err => Ret (Err err)
  | Ok filter =>
    listed <-! or_else (call (ARepo (ARList filter)) : audit (res (list AuditLog * Z))) internal ;;
    Ret (Ok {| dto.alr_Page := page; dto.alr_Size := size; dto.alr_Total := listed.2;
               dto.alr_Items := map toAuditLogDTO listed.1 |})
  end.

(** ** Exports *)

Definition with_page (page : Z) (f : AuditListFilter) : AuditListFilter :=
  {| af_Page := page; af_Size := 100; af_StartTime := af_StartTime f; af_EndTime := af_EndTime f;
     af_UserID := af_UserID f; af_Username := af_Username f; af_Module := af_Module f; af_Action := af_Action f;
     af_TargetType := af_TargetType f; af_TargetID := af_TargetID f; af_Success := af_Success f;
     af_ResultCode := af_ResultCode f; af_RequestID := af_RequestID f; af_TraceID := af_TraceID f |}.

Definition json_bool_text (b : bool) : string := if b then "true" else "false".

Definition csv_header : list string :=
  ["id"; "user_id"; "username"; "ip"; "module"; "action"; "target_type"; "target_id"; "success"; "result_code";
   "request_id"; "trace_id"; "created_at"; "request_summary"; "result_message"].

Definition csv_fields (item : dto.AuditLog) : list string :=
  [fmt_d (dto.dal_ID item); match dto.dal_UserID item with Some id => fmt_d id | None => "" end;
   dto.dal_Username item; dto.dal_IP item; dto.dal_Module item; dto.dal_Action item; dto.dal_TargetType item;
   dto.dal_TargetID item; json_bool_text (dto.dal_Success item); dto.dal_ResultCode item; dto.dal_RequestID item;
   dto.dal_TraceID item; dto.dal_CreatedAt item; dto.dal_RequestSummary item; dto.dal_ResultMessage item].

(** [json.Encoder.Encode] of an entry. *)
Definition json_line (item : dto.AuditLog) : string := (Marshal (AuditLog_json item) +:+ String (chr 10) "")%string.

Section AuditService.
Context (s : auditService).

(** The rows of a page; [Ok None] when the limit is reached. *)
Fixpoint write_items (writeItem : dto.AuditLog -> audit (res unit)) (exported : Z) (items : list AuditLog)
  : audit (res (option Z)) :=
  match items with
  | [] => Ret (Ok (Some exported))
  | item :: rest =>
    if exportMaxRows s <=? exported then Ret (Ok None)
    else
      _ <-! writeItem (toAuditLogDTO item) ;;
      write_items writeItem (exported + 1) rest
  end.

Definition ErrFuel : goerr := ErrNew "out of fuel".

(** The loop; every round but the last writes 100 rows. *)
Fixpoint export_pages (fuel : nat) (filter : AuditListFilter) (writeItem : dto.AuditLog -> audit (res unit))
  (exported page : Z) : audit (res unit) :=
  match fuel with
  | O => Ret (Err ErrFuel)
  | S fuel =>
    listed <-! or_else (call (ARepo (ARList (with_page page filter))) : audit (res (list AuditLog * Z))) internal ;;
    match listed.1 with
    | [] => Ret (Ok tt)
    | _ =>
      written <-! write_items writeItem exported listed.1 ;;
      match written with
      | None => Ret (Ok tt)
      | Some exported =>
        if Z.of_nat (length listed.1) <? 100 then Ret (Ok tt) else export_pages fuel filter writeItem exported (page + 1)
      end
    end
  end.

Definition export_fuel : nat := Z.to_nat (exportMaxRows s / 100 + 2).

Definition paginateAuditExport (filter : AuditListFilter) (writeItem : dto.AuditLog -> audit (res unit)) : audit (res unit) :=
  export_pages export_fuel filter writeItem 0 1.

Definition exportCSV (filter : AuditListFilter) : audit (res unit) :=
  _ <-! (call (ABuffer (csv_record csv_header)) : audit (res unit)) ;;
  _ <-! paginateAuditExport filter (fun item => call (ABuffer (csv_record (csv_fields item)))) ;;
  (call AFlush : audit (res unit)).

Definition exportJSONL (filter : AuditListFilter) : audit (res unit) :=
  paginateAuditExport filter (fun item => call (AWrite (json_line item))).

Definition export_format (format : string) : string :=
  let normalizedFormat := ToLower (TrimSpace format) in
  if (normalizedFormat =? "")%string then "csv" else normalizedFormat.

Definition Export (query : dto.ListAuditLogsQuery) (format : string) : audit (res unit) :=
  let normalizedFormat := export_format format in
  if negb (normalizedFormat =? "csv")%string && negb (normalizedFormat =? "jsonl")%string
  then Ret (Err (bad_audit_request "unsupported audit export format"))
  else
    match auditListFilter query 1 100 with
    | Err err => Ret (Err err)
    | Ok filter => if (normalizedFormat =? "csv")%string then exportCSV filter else exportJSONL filter
    end.

(** ** Retention *)

Definition CleanupRetention (req : dto.AuditRetentionCleanupRequest) : audit (res dto.AuditRetentionCleanupResult) :=
  let days := dto.arq_RetentionDays req in
  let days := if days <=? 0 then retentionDays s else days in
  let days := if days <=? 0 then 180 else days in
  time <- call AuNow ;;
  let cutoff := AddDays (- days) time in
  matchedRows <-! or_else (call (ARepo (ARCountBefore cutoff)) : audit (res Z)) internal ;;
  let result deleted :=
    {| dto.arr_DryRun := dto.arq_DryRun req; dto.arr_RetentionDays := days; dto.arr_Cutoff := FormatRFC3339 cutoff;
       dto.arr_MatchedRows := matchedRows; dto.arr_DeletedRows := deleted;
       dto.arr_ArchiveBeforeDelete := dto.arq_ArchiveBeforeDelete req |} in
  if dto.arq_DryRun req then Ret (Ok (result 0))
  else
    deletedRows <-! or_else (call (ARepo (ARDeleteBefore cutoff)) : audit (res Z)) internal ;;
    Ret (Ok (result deletedRows)).
End AuditService.

(** ** Execution *)

Record AuditEnv := {
  ae_now : nat -> Z;
  ae_db : nat -> fault;
  ae_out : nat -> fault;
  ae_cut : nat -> nat
}.

(** The writer, the buffer in front of it and the buffer's error. *)
Record sink := { sk_out : string; sk_buf : string; sk_err : option goerr }.

Record AuditWorld := MkAuditWorld { auw_step : nat; auw_db : AuditDB; auw_sink : sink }.

Definition empty_sink : sink := {| sk_out := ""; sk_buf := ""; sk_err := None |}.

Definition buffer_size : nat := 4096.

Section Exec.
Context `{Postgres} (env : AuditEnv).

(** What a write that can fail puts out. *)
Definition put (f : fault) (cut : nat) (data : string) (k : sink) : res unit * sink :=
  match f with
  | NoFault => (Ok tt, {| sk_out := (sk_out k +:+ data)%string; sk_buf := sk_buf k; sk_err := sk_err k |})
  | FailBefore e => (Err e, k)
  | FailAfter e => (Err e, {| sk_out := (sk_out k +:+ take_bytes cut data)%string; sk_buf := sk_buf k; sk_err := sk_err k |})
  end.

(** The buffer passes on [n] bytes and keeps its error. *)
Definition pass_on (f : fault) (cut : nat) (n : nat) (k : sink) : res unit * sink :=
  match sk_err k with
  | Some e => (Err e, k)
  | None =>
    let '(r, k') := put f cut (take_bytes n (sk_buf k)) k in
    (r, {| sk_out := sk_out k'; sk_buf := skip_bytes n (sk_buf k);
           sk_err := match r with Ok _ => None | Err e => Some e end |})
  end.

Definition buffer_add (data : string) (k : sink) : sink :=
  {| sk_out := sk_out k; sk_buf := (sk_buf k +:+ data)%string; sk_err := sk_err k |}.

(** The whole buffers in [n] bytes, so that something stays unless it is empty. *)
Definition full_buffers (n : nat) : nat := ((n - 1) / buffer_size) * buffer_size.

Definition exec_sink (f : fault) (cut : nat) (o : audit_op) (k : sink) : res unit * sink :=
  match o with
  | AWrite data => put f cut data k
  | ABuffer data =>
    match sk_err k with
    | Some e => (Err e, k)
    | None => let k := buffer_add data k in
              match full_buffers (String.length (sk_buf k)) with O => (Ok tt, k) | n => pass_on f cut n k end
    end
  | AFlush => match sk_buf k, sk_err k with "", None => (Ok tt, k) | _, _ => pass_on f cut (String.length (sk_buf k)) k end
  | _ => (Ok tt, k)
  end.

Definition exec_audit_repo (now : Z) (f : fault) (o : audit_repo_op) (db : AuditDB) : audit_repo_ans o * AuditDB :=
  let '(r, d) := audit_repo_exec now o db in
  match f with
  | NoFault => (r, d)
  | FailBefore e => (audit_repo_err o e, db)
  | FailAfter e => (audit_repo_err o e, d)
  end.

Definition au_handle (o : audit_op) (w : AuditWorld) : audit_ans o * AuditWorld :=
  let n := auw_step w in
  match o return audit_ans o * AuditWorld with
  | ARepo o => let '(r, d) := exec_audit_repo (ae_now env n) (ae_db env n) o (auw_db w) in
               (r, MkAuditWorld (S n) d (auw_sink w))
  | AuNow => (ae_now env n, MkAuditWorld (S n) (auw_db w) (auw_sink w))
  | AWrite data => let '(r, k) := exec_sink (ae_out env n) (ae_cut env n) (AWrite data) (auw_sink w) in
                   (r, MkAuditWorld (S n) (auw_db w) k)
  | ABuffer data => let '(r, k) := exec_sink (ae_out env n) (ae_cut env n) (ABuffer data) (auw_sink w) in
                    (r, MkAuditWorld (S n) (auw_db w) k)
  | AFlush => let '(r, k) := exec_sink (ae_out env n) (ae_cut env n) AFlush (auw_sink w) in
              (r, MkAuditWorld (S n) (auw_db w) k)
  end.
End Exec.
