(* ===== verification/AuditProps.v ===== *)
(** * Properties of the audit service

    What is recorded, what an export contains, which entries a query by dates
    selects, and what a clean-up deletes. *)

From Stdlib Require Import ZArith Lia Ascii.
From S2P Require Import Prelude GoString GoTime GoTimeParse GoError Effects Table Schema Json Redaction Dto.
From S2P Require Import AuditRepo Csv AuditService.

(** ** Recording *)
Section Recording.
Context `{Postgres} (env : AuditEnv).

#[local] Abbreviation handle := (au_handle env).

(** The row an entry becomes, if the table takes it. *)
Definition stored_row (id now : Z) (input : dto.RecordAuditInput) : option AuditLog :=
  let row := audit_row input in
  if audit_lengths row && forallb text_ok (audit_texts row) then
    match inet (dto.ra_IP input), jsonb (RedactJSON (dto.ra_RequestSummary input)) with
    | Some ip, Some summary =>
      Some (MkAuditLog id (dto.ra_UserID input) (dto.ra_Username input) ip (dto.ra_Module input) (dto.ra_Action input)
        (dto.ra_TargetType input) (dto.ra_TargetID input) summary (dto.ra_Success input) (dto.ra_ResultCode input)
        (RedactText (dto.ra_ResultMessage input)) (dto.ra_RequestID input) (dto.ra_TraceID input) (timestamptz now))
    | _, _ => None
    end
  else None.

(** The entry with another summary. *)
Definition with_summary (summary : string) (input : dto.RecordAuditInput) : dto.RecordAuditInput :=
  {| dto.ra_UserID := dto.ra_UserID input; dto.ra_Username := dto.ra_Username input; dto.ra_IP := dto.ra_IP input;
     dto.ra_Module := dto.ra_Module input; dto.ra_Action := dto.ra_Action input; dto.ra_TargetType := dto.ra_TargetType input;
     dto.ra_TargetID := dto.ra_TargetID input; dto.ra_RequestSummary := summary; dto.ra_Success := dto.ra_Success input;
     dto.ra_ResultCode := dto.ra_ResultCode input; dto.ra_ResultMessage := dto.ra_ResultMessage input;
     dto.ra_RequestID := dto.ra_RequestID input; dto.ra_TraceID := dto.ra_TraceID input |}.

Lemma Create_stored now input db :
  adb_rows (audit_repository.Create now (audit_row input) db).2 =
    adb_rows db ++ match stored_row (adb_next db) now input with Some r => [r] | None => [] end.
Proof.
  unfold audit_repository.Create, stored_row. cbv zeta. destruct (_ && _); cbn [negb snd adb_rows]; [|by rewrite app_nil_r].
  cbn [audit_row al_IP al_RequestSummary]. destruct (inet _) as [ip|]; [|by rewrite app_nil_r].
  destruct (jsonb _) as [summary|]; [done|by rewrite app_nil_r].
Qed.

Lemma redacted_summary_same input summary v v' : Parse (TrimSpace (dto.ra_RequestSummary input)) = Some v ->
  Parse (TrimSpace summary) = Some v' -> same_public (to_interface v) (to_interface v') ->
  audit_row (with_summary summary input) = audit_row input.
Proof.
  intros H1 H2 Hs. unfold audit_row. cbn [with_summary dto.ra_UserID dto.ra_Username dto.ra_IP dto.ra_Module dto.ra_Action
    dto.ra_TargetType dto.ra_TargetID dto.ra_RequestSummary dto.ra_Success dto.ra_ResultCode dto.ra_ResultMessage
    dto.ra_RequestID dto.ra_TraceID].
  by rewrite (RedactJSON_Parse _ v H1), (RedactJSON_Parse _ v' H2), (redact_same_public _ _ Hs).
Qed.


(** An entry that does not fit is lost, whatever else happens. *)
Lemma Record_lost input w : audit_lengths (audit_row input) = false ->
  adb_rows (auw_db (run handle (Record_ input) w).2) = adb_rows (auw_db w).
Proof.
  intros Hl. unfold Record_, call. cbn [bind run au_handle]. unfold exec_audit_repo. cbn [audit_repo_exec].
  unfold audit_repository.Create. cbv zeta. rewrite Hl. cbn [andb negb]. by destruct (ae_db env (auw_step w)).
Qed.

End Recording.

(** ** Queries by dates *)

(** The day of an instant, since the epoch. *)
Definition day_of (t : Z) : Z := t / Day.

Lemma Day_pos : 0 < Day.
Proof. done. Qed.

Lemma timestamptz_day d : timestamptz (d * Day) = d * Day.
Proof. unfold timestamptz, Day, Hour, Minute, Second. Z.to_euclidean_division_equations. lia. Qed.

Lemma timestamptz_day_end d t : timestamptz t = t -> (t <=? timestamptz (d * Day + (24 * Hour - Nanosecond))) = (day_of t <=? d).
Proof.
  intros Ht. apply eq_bool_prop_intro. rewrite !Is_true_true, !Z.leb_le. revert Ht.
  unfold timestamptz, day_of, Day, Hour, Minute, Second, Nanosecond. intros Ht. Z.to_euclidean_division_equations. lia.
Qed.

Lemma timestamptz_day_start d t : (timestamptz (d * Day) <=? t) = (d <=? day_of t).
Proof.
  apply eq_bool_prop_intro. rewrite timestamptz_day, !Is_true_true, !Z.leb_le.
  unfold day_of, Day, Hour, Minute, Second. Z.to_euclidean_division_equations. lia.
Qed.

(** The times of the stored rows are those a column gives back. *)
Definition audit_times_ok (db : AuditDB) : Prop := Forall (fun r => timestamptz (al_CreatedAt r) = al_CreatedAt r) (adb_rows db).

(** A text that is a date and nothing else that parses. *)
Definition is_date (raw : string) (y m d : Z) : Prop :=
  ParseRFC3339 (TrimSpace raw) = None /\ scan_date (TrimSpace raw) = Some (y, m, d, "") /\ valid_date y m d = true.

Lemma is_date_parses raw y m d : is_date raw y m d ->
  parseAuditTime raw false = Some (days_from_civil y m d * Day) /\
  parseAuditTime raw true = Some (days_from_civil y m d * Day + (24 * Hour - Nanosecond)) /\
  (TrimSpace raw =? "")%string = false.
Proof.
  intros (H1 & H2 & H3). unfold parseAuditTime. cbv zeta. rewrite H1. unfold ParseDate. rewrite H2.
  change (("" =? "")%string) with true. rewrite H3. cbn [andb]. split; [done|]. split; [done|].
  apply String.eqb_neq. intros E. by rewrite E in H2.
Qed.

(** The entries a query without bounds selects. *)
Definition without_dates (query : dto.ListAuditLogsQuery) : dto.ListAuditLogsQuery :=
  {| dto.alq_Page := dto.alq_Page query; dto.alq_Size := dto.alq_Size query; dto.alq_StartTime := ""; dto.alq_EndTime := "";
     dto.alq_UserID := dto.alq_UserID query; dto.alq_Username := dto.alq_Username query; dto.alq_Module := dto.alq_Module query;
     dto.alq_Action := dto.alq_Action query; dto.alq_TargetType := dto.alq_TargetType query;
     dto.alq_TargetID := dto.alq_TargetID query; dto.alq_Success := dto.alq_Success query;
     dto.alq_ResultCode := dto.alq_ResultCode query; dto.alq_RequestID := dto.alq_RequestID query;
     dto.alq_TraceID := dto.alq_TraceID query |}.

Lemma audit_bound_date raw y m d endOfDay msg : is_date raw y m d ->
  audit_bound raw endOfDay msg = Ok (Some (days_from_civil y m d * Day + if endOfDay then 24 * Hour - Nanosecond else 0)).
Proof.
  intros Hd. destruct (is_date_parses raw y m d Hd) as (H1 & H2 & H3). unfold audit_bound. rewrite H3.
  destruct endOfDay; rewrite ?H1, ?H2; [done|]. by rewrite Z.add_0_r.
Qed.

(** Whole days.  A query whose bounds are two dates selects exactly the
    entries that the query without bounds selects and whose day lies between
    the dates, both included, whatever the time of day. *)
Theorem audit_day_filter query page size y1 m1 d1 y2 m2 d2 r :
  is_date (dto.alq_StartTime query) y1 m1 d1 -> is_date (dto.alq_EndTime query) y2 m2 d2 ->
  timestamptz (al_CreatedAt r) = al_CreatedAt r ->
  exists f f0, auditListFilter query page size = Ok f /\ auditListFilter (without_dates query) page size = Ok f0 /\
    audit_matches f r = (audit_matches f0 r &&
      ((days_from_civil y1 m1 d1 <=? day_of (al_CreatedAt r)) && (day_of (al_CreatedAt r) <=? days_from_civil y2 m2 d2))).
Proof.
  intros H1 H2 Hr. unfold auditListFilter. rewrite (audit_bound_date _ _ _ _ false _ H1), (audit_bound_date _ _ _ _ true _ H2).
  do 2 eexists. split; [reflexivity|]. split; [reflexivity|]. unfold audit_matches.
  cbn [af_StartTime af_EndTime af_UserID af_Username af_Module af_Action af_TargetType af_TargetID af_Success af_ResultCode
    af_RequestID af_TraceID without_dates dto.alq_UserID dto.alq_Username dto.alq_Module dto.alq_Action dto.alq_TargetType
    dto.alq_TargetID dto.alq_Success dto.alq_ResultCode dto.alq_RequestID dto.alq_TraceID].
  rewrite Z.add_0_r, timestamptz_day_start, (timestamptz_day_end _ _ Hr).
  set (a := _ <=? day_of _). set (b := day_of _ <=? _).
  destruct a, b; cbn [andb]; by rewrite ?andb_true_r, ?andb_false_r.
Qed.

(** ** Exports *)
Section Exporting.
Context `{Postgres} (env : AuditEnv) (s : auditService) (db : AuditDB).

#[local] Abbreviation handle := (au_handle env).
#[local] Abbreviation wp := (Effects.wp handle).

(** Some statement or write can fail. *)
Definition faulty : Prop := exists n, ae_db env n <> NoFault \/ ae_out env n <> NoFault.

Lemma faulty_db n f : ae_db env n = f -> f <> NoFault -> faulty.
Proof. intros <- Hn. exists n. by left. Qed.

Lemma faulty_out n f : ae_out env n = f -> f <> NoFault -> faulty.
Proof. intros <- Hn. exists n. by right. Qed.

(** What has been written, and what is still in the buffer. *)
Definition sk_text (k : sink) : string := (sk_out k +:+ sk_buf k)%string.

Definition starts (x y : string) : Prop := exists z, y = (x +:+ z)%string.

Lemma starts_refl x : starts x x.
Proof. exists "". by rewrite app_nil_r_str. Qed.

Lemma starts_app x y z : starts x y -> starts x (y +:+ z).
Proof. intros [t ->]. exists (t +:+ z)%string. by rewrite app_assoc_str. Qed.

Lemma starts_take x n y : starts (x +:+ take_bytes n y) (x +:+ y).
Proof. exists (skip_bytes n y). by rewrite app_assoc_str, take_skip_bytes. Qed.

Lemma take_bytes_take m n x : starts (take_bytes m (take_bytes n x)) x.
Proof.
  exists (skip_bytes m (take_bytes n x) +:+ skip_bytes n x)%string.
  by rewrite <- app_assoc_str, !take_skip_bytes.
Qed.

(** The program appends [text] to what a good sink holds.  If it fails, the
    writer has a part of it and something is at fault. *)
Definition appends (good : sink -> Prop) (p : audit (res unit)) (text : string) : Prop :=
  forall w, auw_db w = db -> good (auw_sink w) ->
    wp p (fun r w' => auw_db w' = db /\
      match r with
      | Ok _ => good (auw_sink w') /\ sk_text (auw_sink w') = (sk_text (auw_sink w) +:+ text)%string
      | Err _ => starts (sk_out (auw_sink w')) (sk_text (auw_sink w) +:+ text) /\ faulty
      end) w.

Lemma appends_nothing good : appends good (Ret (Ok tt)) "".
Proof. intros w Hd Hg. apply wp_ret. split; [done|]. by rewrite app_nil_r_str. Qed.

Lemma appends_step good p q x y : appends good p x -> appends good q y ->
  appends good (bind_ok p (fun _ => q)) (x +:+ y)%string.
Proof.
  intros Hp Hq w Hd0 Hg. apply wp_bind_ok. eapply wp_mono; [by apply Hp|]. cbn beta. intros [[]|e] w' [Hd Hr].
  - destruct Hr as [Hg' Ht]. eapply wp_mono; [by apply Hq|]. cbn beta. rewrite Ht, app_assoc_str. by intros.
  - split; [done|]. destruct Hr as [Hs Hf]. split; [|done]. rewrite <- app_assoc_str. by apply starts_app.
Qed.

(** A sink written to directly, and one with a buffer that works. *)
Definition unbuffered (k : sink) : Prop := sk_buf k = "".
Definition working (k : sink) : Prop := sk_err k = None.

Lemma appends_AWrite data : appends unbuffered (call (AWrite data)) data.
Proof.
  intros w Hd Hg. unfold Effects.wp, call. cbn [run au_handle exec_sink]. unfold unbuffered, sk_text in *.
  destruct (ae_out env (auw_step w)) as [|e|e] eqn:E; cbn [put auw_db auw_sink sk_out sk_buf]; rewrite Hg, ?app_nil_r_str;
    (split; [done|]); [done| |]; (split; [|by eapply faulty_out]).
  - by exists data.
  - apply starts_take.
Qed.

(** Passing on bytes of the buffer keeps the text. *)
Lemma pass_on_text f cut n k : working k ->
  match pass_on f cut n k with
  | (Ok _, k') => f = NoFault /\ working k' /\ sk_text k' = sk_text k /\ sk_buf k' = skip_bytes n (sk_buf k)
  | (Err _, k') => f <> NoFault /\ starts (sk_out k') (sk_text k)
  end.
Proof.
  unfold working, sk_text. intros Hw. unfold pass_on. rewrite Hw. destruct f as [|e|e]; cbn [put sk_out sk_buf sk_err].
  - split; [done|]. split; [done|]. split; [|done]. by rewrite app_assoc_str, take_skip_bytes.
  - split; [done|]. by exists (sk_buf k).
  - split; [done|]. destruct (take_bytes_take cut n (sk_buf k)) as [z Hz]. exists z. rewrite app_assoc_str. by rewrite <- Hz.
Qed.

Lemma appends_ABuffer data : appends working (call (ABuffer data)) data.
Proof.
  intros w Hd Hg. unfold Effects.wp, call. cbn [run au_handle exec_sink]. rewrite Hg.
  set (k := buffer_add data (auw_sink w)).
  assert (Hk : working k /\ sk_text k = (sk_text (auw_sink w) +:+ data)%string).
  { split; [done|]. unfold sk_text, k. cbn [buffer_add sk_out sk_buf]. by rewrite app_assoc_str. }
  destruct Hk as [Hw <-]. destruct (full_buffers _) as [|n]; [done|].
  pose proof (pass_on_text (ae_out env (auw_step w)) (ae_cut env (auw_step w)) (S n) k Hw) as Hp.
  destruct (pass_on _ _ _ k) as [[u|e] k']; cbn [auw_db auw_sink]; (split; [done|]).
  - by destruct Hp as (_ & ? & ? & _).
  - destruct Hp as [Hf Hs]. split; [done|]. by eapply faulty_out.
Qed.

(** A flush empties the buffer. *)
Lemma AFlush_text w : auw_db w = db -> working (auw_sink w) ->
  wp (call AFlush) (fun r w' => auw_db w' = db /\
    match r with
    | Ok _ => sk_out (auw_sink w') = sk_text (auw_sink w)
    | Err _ => starts (sk_out (auw_sink w')) (sk_text (auw_sink w)) /\ faulty
    end) w.
Proof.
  intros Hd Hg. unfold Effects.wp, call. cbn [run au_handle exec_sink]. rewrite Hg. unfold sk_text in *.
  destruct (sk_buf (auw_sink w)) as [|a b] eqn:Eb; cbn [auw_db auw_sink].
  { split; [done|]. by rewrite app_nil_r_str. }
  rewrite <- Eb. pose proof (pass_on_text (ae_out env (auw_step w)) (ae_cut env (auw_step w)) (String.length (sk_buf (auw_sink w)))
    (auw_sink w) Hg) as Hp.
  destruct (pass_on _ _ _ (auw_sink w)) as [[u|e] k']; cbn [auw_db auw_sink]; (split; [done|]).
  - destruct Hp as (_ & _ & Ht & Hb). unfold sk_text in Ht. rewrite <- Ht, Hb.
    pose proof (length_skip_bytes (String.length (sk_buf (auw_sink w))) (sk_buf (auw_sink w))) as Hl. rewrite Nat.sub_diag in Hl.
    destruct (skip_bytes _ _); [by rewrite app_nil_r_str|done].
  - destruct Hp as [Hf Hs]. split; [done|]. by eapply faulty_out.
Qed.

(** *** The loop *)
Section Pages.
Context (good : sink -> Prop) (writeItem : dto.AuditLog -> audit (res unit)) (enc : dto.AuditLog -> string).
Hypothesis writes : forall item, appends good (writeItem item) (enc item).

Definition items_text (items : list AuditLog) : string := concat_str (map (fun item => enc (toAuditLogDTO item)) items).

Lemma items_text_app l k : items_text (l ++ k) = (items_text l +:+ items_text k)%string.
Proof. unfold items_text. induction l as [|x l IH]; [done|]. cbn [app map concat_str]. by rewrite IH, app_assoc_str. Qed.

Lemma items_text_cons x l : items_text (x :: l) = (enc (toAuditLogDTO x) +:+ items_text l)%string.
Proof. done. Qed.

Definition room (exported : Z) : nat := Z.to_nat (exportMaxRows s - exported).

Lemma write_items_spec items : forall exported w, exported <= exportMaxRows s -> auw_db w = db -> good (auw_sink w) ->
  wp (write_items s writeItem exported items) (fun r w' => auw_db w' = db /\
    match r with
    | Ok o => good (auw_sink w') /\ sk_text (auw_sink w') = (sk_text (auw_sink w) +:+ items_text (take (room exported) items))%string /\
      match o with
      | Some n => n = exported + Z.of_nat (length items) /\ n <= exportMaxRows s
      | None => (room exported <= length items)%nat
      end
    | Err _ => starts (sk_out (auw_sink w')) (sk_text (auw_sink w) +:+ items_text (take (room exported) items)) /\ faulty
    end) w.
Proof.
  induction items as [|item items IH]; intros exported w Hx Hd Hg; cbn [write_items].
  - apply wp_ret. rewrite take_nil. split; [done|]. split; [done|]. unfold items_text. cbn [map concat_str].
    rewrite app_nil_r_str. split; [done|]. cbn [length]. lia.
  - destruct (Z.leb_spec (exportMaxRows s) exported) as [Hle|Hlt].
    + apply wp_ret. unfold room. replace (Z.to_nat _) with 0%nat by lia. cbn [take]. unfold items_text. cbn [map concat_str].
      rewrite app_nil_r_str. repeat (split; [done|]). cbn [length]. lia.
    + assert (Hr : room exported = S (room (exported + 1))) by (unfold room; lia). rewrite Hr. cbn [take].
      rewrite items_text_cons. apply wp_bind_ok.
      eapply wp_mono; [by apply writes|]. cbn beta. intros [[]|e] w' [Hd' Hw].
      * destruct Hw as [Hg' Ht]. eapply wp_mono; [apply IH; [lia|done..]|]. cbn beta.
        intros r w2 [Hd2 Hr2]. split; [done|]. rewrite Ht, app_assoc_str in Hr2. destruct r as [[n|]|e].
        -- destruct Hr2 as (? & ? & ? & ?). repeat (split; [done|]). cbn [length]. lia.
        -- destruct Hr2 as (? & ? & ?). repeat (split; [done|]). cbn [length]. lia.
        -- done.
      * split; [done|]. destruct Hw as [Hs Hf]. split; [|done]. rewrite <- app_assoc_str. by apply starts_app.
Qed.

(** The rows of the export, in order. *)
Definition listing (f : AuditListFilter) : list AuditLog := newest_first (select_where (audit_matches f) (adb_rows db)).

Lemma List_page page f w : auw_db w = db -> 1 <= page -> (page - 1) * 100 <= int64_max ->
  wp (or_else (call (ARepo (ARList (with_page page f))) : audit (res (list AuditLog * Z))) internal) (fun r w' =>
    auw_db w' = db /\ auw_sink w' = auw_sink w /\
    match r with
    | Ok listed => listed.1 = take 100 (drop (Z.to_nat ((page - 1) * 100)) (listing f))
    | Err _ => faulty
    end) w.
Proof.
  intros Hd Hp Hb. apply wp_or_else. unfold Effects.wp, call. cbn [run au_handle].
  unfold exec_audit_repo. cbn [audit_repo_exec]. rewrite Hd.
  destruct (ae_db env (auw_step w)) as [|e|e] eqn:E; cbn [auw_db auw_sink map_err audit_repo_err]; (split; [done|]); (split; [done|]).
  2,3: by eapply faulty_db.
  unfold audit_repository.List. cbn [map_err fst with_page af_Page af_Size].
  destruct (Z.leb_spec page 0) as [?|_]; [lia|].
  change (if 100 <=? 0 then 20 else 100) with 100. change (if 100 <? 100 then 100 else 100) with 100.
  rewrite page_offset_small by lia. unfold page_of. destruct (Z.ltb_spec ((page - 1) * 100) 0) as [?|_]; [lia|]. reflexivity.
Qed.

(** What is left of the limit after a page goes to the pages after it. *)
Lemma take_page (n : nat) (l : list AuditLog) :
  take n l = take n (take 100 l) ++ take (n - length (take 100 l)) (drop 100 l).
Proof. rewrite <- (take_drop 100 l) at 1. apply take_app. Qed.

Lemma export_pages_spec f fuel : forall page, 1 <= page -> (page - 1) * 100 <= exportMaxRows s <= int64_max ->
  exportMaxRows s / 100 + 2 <= Z.of_nat fuel + (page - 1) ->
  appends good (export_pages s fuel f writeItem ((page - 1) * 100) page)
    (items_text (take (room ((page - 1) * 100)) (drop (Z.to_nat ((page - 1) * 100)) (listing f)))).
Proof.
  induction fuel as [|fuel IH]; intros page Hp Hx Hf; [Z.to_euclidean_division_equations; lia|].
  set (rest := drop (Z.to_nat ((page - 1) * 100)) (listing f)). set (n := room ((page - 1) * 100)).
  intros w Hd Hg. cbn [export_pages]. apply wp_bind_ok. eapply wp_mono; [apply List_page; [done|done|lia]|]. cbn beta.
  intros [[items total]|e] w1 (Hd1 & Hs1 & Hr).
  2:{ rewrite Hs1. split; [done|]. split; [|done]. unfold sk_text. rewrite app_assoc_str. by eexists. }
  cbn [fst] in *. fold rest in Hr. rewrite <- Hs1. rewrite <- Hs1 in Hg. clear Hs1 w Hd.
  destruct (decide (items = [])) as [->|Hne].
  { apply wp_ret. split; [done|]. split; [done|]. assert (rest = []) as -> by (by destruct rest).
    rewrite take_nil. by rewrite app_nil_r_str. }
  replace (match items with [] => _ | _ => _ end) with
    (written <-! write_items s writeItem ((page - 1) * 100) items ;;
     match written with
     | None => Ret (Ok tt)
     | Some exported =>
       if Z.of_nat (length items) <? 100 then Ret (Ok tt) else export_pages s fuel f writeItem exported (page + 1)
     end)%prog by (by destruct items).
  assert (Hlen : (length items <= 100)%nat) by (rewrite Hr, length_take; lia).
  assert (Hn : Z.of_nat n = exportMaxRows s - (page - 1) * 100) by (unfold n, room; lia).
  apply wp_bind_ok. eapply wp_mono; [by apply write_items_spec; [lia|..]|]. cbn beta. fold n. intros [[m|]|e] w2 (Hd2 & Hw).
  all: rewrite (take_page n rest), <- Hr, items_text_app.
  - destruct Hw as (Hg2 & Ht & -> & Hm). rewrite (take_ge items) in * by lia.
    destruct (Z.ltb_spec (Z.of_nat (length items)) 100) as [Hl|Hl].
    + apply wp_ret. split; [done|]. split; [done|]. rewrite drop_ge, take_nil by (rewrite Hr, length_take in Hl; lia).
      unfold items_text at 2. cbn [map concat_str]. by rewrite app_nil_r_str.
    + replace ((page - 1) * 100 + Z.of_nat (length items)) with ((page + 1 - 1) * 100) in * by lia.
      eapply wp_mono; [apply (IH (page + 1)); [lia..|done|done]|]. cbn beta. unfold rest. rewrite drop_drop.
      replace (Z.to_nat ((page - 1) * 100) + 100)%nat with (Z.to_nat ((page + 1 - 1) * 100)) by lia.
      replace (n - length items)%nat with (room ((page + 1 - 1) * 100)) by (unfold room; lia).
      intros r w3. by rewrite Ht, app_assoc_str.
  - destruct Hw as (Hg2 & Ht & Hm). replace (n - length items)%nat with 0%nat by lia. apply wp_ret.
    cbn [take]. unfold items_text at 2. cbn [map concat_str]. by rewrite app_nil_r_str.
  - destruct Hw as [Hw Hfl]. split; [done|]. split; [|done]. rewrite <- app_assoc_str. by apply starts_app.
Qed.

End Pages.

(** *** The two formats *)

Definition exported_rows (f : AuditListFilter) : list AuditLog := take (Z.to_nat (exportMaxRows s)) (listing f).

Definition csv_text (f : AuditListFilter) : string :=
  concat_str (map csv_record (csv_header :: map (fun r => csv_fields (toAuditLogDTO r)) (exported_rows f))).

Definition jsonl_text (f : AuditListFilter) : string :=
  concat_str (map (fun r => json_line (toAuditLogDTO r)) (exported_rows f)).

Lemma csv_text_reads f :
  read_csv (csv_text f) = Some (csv_header :: map (fun r => csv_fields (toAuditLogDTO r)) (exported_rows f)).
Proof.
  apply read_csv_records. constructor; [done|]. apply Forall_forall. intros x Hx. apply list_elem_of_In, in_map_iff in Hx.
  by destruct Hx as (r & <- & _).
Qed.

Lemma paginate_spec good writeItem enc f : (forall item, appends good (writeItem item) (enc item)) -> 0 <= exportMaxRows s <= int64_max ->
  appends good (paginateAuditExport s f writeItem) (items_text enc (exported_rows f)).
Proof.
  intros Hw Hx. unfold paginateAuditExport, exported_rows.
  pose proof (export_pages_spec good writeItem enc Hw f (export_fuel s) 1 ltac:(lia) Hx) as He.
  unfold room in He. cbn in He. rewrite Z.sub_0_r in He. apply He. unfold export_fuel.
  Z.to_euclidean_division_equations. lia.
Qed.

(** What an export in progress promises: the writer holds a part of [text],
    all of it when the export ends well, and it ends badly only by a fault. *)
Definition exports (text : string) (r : res unit) (w' : AuditWorld) : Prop :=
  auw_db w' = db /\ starts (sk_out (auw_sink w')) text /\
  match r with Ok _ => sk_out (auw_sink w') = text | Err _ => faulty end.

Lemma exportJSONL_spec f w : 0 <= exportMaxRows s <= int64_max -> auw_db w = db -> auw_sink w = empty_sink ->
  wp (exportJSONL s f) (exports (jsonl_text f)) w.
Proof.
  intros Hx Hd Hk. eapply wp_mono; [apply (paginate_spec unbuffered _ json_line f (fun item => appends_AWrite _) Hx w Hd); by rewrite Hk|].
  cbn beta. rewrite Hk. change (sk_text empty_sink +:+ ?x)%string with x. unfold items_text. fold (jsonl_text f).
  intros [[]|e] w' [Hd' Hr]; (split; [done|]).
  - destruct Hr as [Hu Ht]. unfold sk_text in Ht. rewrite Hu, app_nil_r_str in Ht. rewrite Ht. split; [apply starts_refl|done].
  - done.
Qed.

Lemma exportCSV_spec f w : 0 <= exportMaxRows s <= int64_max -> auw_db w = db -> auw_sink w = empty_sink ->
  wp (exportCSV s f) (exports (csv_text f)) w.
Proof.
  intros Hx Hd Hk. unfold exportCSV. apply wp_bind_ok.
  eapply wp_mono; [apply (appends_ABuffer (csv_record csv_header) w Hd); by rewrite Hk|].
  rewrite Hk. change (sk_text empty_sink +:+ ?x)%string with x.
  set (rows := items_text (fun item => csv_record (csv_fields item)) (exported_rows f)).
  assert (Hc : csv_text f = (csv_record csv_header +:+ rows)%string).
  { unfold csv_text, rows, items_text. cbn [map concat_str]. by rewrite map_map. }
  cbn beta. intros [[]|e] w1 [Hd1 H1]; [|split; [done|]; destruct H1; split; [|done]; rewrite Hc; by apply starts_app].
  destruct H1 as [Hg1 Ht1]. apply wp_bind_ok.
  eapply wp_mono; [apply (paginate_spec working _ (fun item => csv_record (csv_fields item)) f (fun item => appends_ABuffer _) Hx w1 Hd1 Hg1)|].
  cbn beta. fold rows. rewrite Ht1, <- Hc. intros [[]|e] w2 [Hd2 H2]; [|done]. destruct H2 as [Hg2 Ht2].
  eapply wp_mono; [by apply AFlush_text|]. cbn beta. rewrite Ht2. intros [[]|e] w3 [Hd3 H3]; (split; [done|]); [|done].
  rewrite H3. split; [apply starts_refl|done].
Qed.

End Exporting.

Section Export_spec.
Context `{Postgres} (env : AuditEnv).

#[local] Abbreviation handle := (au_handle env).

(** What an export of a known format runs, and the text it is to write. *)
Definition export_body (s : auditService) (format : string) (f : AuditListFilter) : audit (res unit) :=
  if decide (export_format format = "csv") then exportCSV s f else exportJSONL s f.

Definition export_text (s : auditService) (db : AuditDB) (format : string) (f : AuditListFilter) : string :=
  if decide (export_format format = "csv") then csv_text s db f else jsonl_text s db f.

Lemma Export_known s query format : export_format format = "csv" \/ export_format format = "jsonl" ->
  Export s query format = match auditListFilter query 1 100 with Err e => Ret (Err e) | Ok f => export_body s format f end.
Proof. unfold Export, export_body. by intros [-> | ->]. Qed.

Lemma Export_body s format f w : 0 <= exportMaxRows s <= int64_max -> auw_sink w = empty_sink ->
  exports env (auw_db w) (export_text s (auw_db w) format f) (run handle (export_body s format f) w).1
    (run handle (export_body s format f) w).2.
Proof.
  intros Hx Hk. unfold export_body, export_text. destruct (decide _).
  - pose proof (exportCSV_spec env s (auw_db w) f w Hx eq_refl Hk) as Hw. unfold wp in Hw. by destruct (run _ _ w).
  - pose proof (exportJSONL_spec env s (auw_db w) f w Hx eq_refl Hk) as Hw. unfold wp in Hw. by destruct (run _ _ w).
Qed.


End Export_spec.

(** ** Retention *)
Section Retention.
Context `{Postgres} (env : AuditEnv).

#[local] Abbreviation handle := (au_handle env).

(** The days a request keeps. *)
Definition kept_days (s : auditService) (req : dto.AuditRetentionCleanupRequest) : Z :=
  if dto.arq_RetentionDays req <=? 0 then retentionDays s else dto.arq_RetentionDays req.

Lemma kept_days_pos days rows req : 0 < kept_days (NewAuditServiceWithOptions days rows) req.
Proof. unfold kept_days, NewAuditServiceWithOptions. cbn [retentionDays].
  destruct (Z.leb_spec (dto.arq_RetentionDays req) 0); [destruct (Z.leb_spec days 0); lia|done].
Qed.

Lemma length_delete {A} p (l : list A) : Z.of_nat (length (delete_where p l)) = Z.of_nat (length l) - count_where p l.
Proof.
  unfold count_where, delete_where, select_where. induction l as [|x l IH]; [done|]. cbn [List.filter length].
  destruct (p x); cbn [negb length]; lia.
Qed.

Lemma delete_keeps {A} p (l : list A) x : x ∈ l -> p x = false -> x ∈ delete_where p l.
Proof. intros Hx Hp. unfold delete_where. apply list_elem_of_In, filter_In. rewrite Hp. split; [by apply list_elem_of_In|done]. Qed.

Lemma CleanupRetention_runs s req w : 0 < kept_days s req ->
  let cutoff := AddDays (- kept_days s req) (ae_now env (auw_step w)) in
  let old := adb_rows (auw_db w) in
  Effects.wp handle (CleanupRetention s req) (fun r w' =>
    (adb_rows (auw_db w') = old \/ dto.arq_DryRun req = false /\ adb_rows (auw_db w') = delete_where (before cutoff) old) /\
    match r with
    | Ok res => adb_rows (auw_db w') = (if dto.arq_DryRun req then old else delete_where (before cutoff) old) /\
        dto.arr_RetentionDays res = kept_days s req /\ dto.arr_MatchedRows res = count_where (before cutoff) old /\
        dto.arr_DeletedRows res = (if dto.arq_DryRun req then 0 else count_where (before cutoff) old)
    | Err _ => exists n, ae_db env n <> NoFault
    end) w.
Proof.
  intros Hp. cbv zeta. set (cutoff := AddDays _ _). set (old := adb_rows _). unfold CleanupRetention. cbv zeta.
  fold (kept_days s req). destruct (Z.leb_spec (kept_days s req) 0) as [?|_]; [lia|].
  unfold Effects.wp, or_else, call. cbn [bind bind_ok run au_handle auw_step auw_db exec_audit_repo audit_repo_exec
    audit_repository.CountBefore]. fold cutoff old. unfold exec_audit_repo.
  destruct (ae_db env (S (auw_step w))) eqn:E1; cbn [audit_repo_exec audit_repo_err map_err run bind bind_ok].
  2,3: split; [by left|]; exists (S (auw_step w)); by rewrite E1.
  unfold audit_repository.CountBefore. cbn [map_err]. destruct (dto.arq_DryRun req); cbn [run au_handle auw_step auw_db].
  - split; [by left|done].
  - unfold exec_audit_repo. cbn [audit_repo_exec]. unfold audit_repository.DeleteBefore. fold old.
    destruct (ae_db env (S (S (auw_step w)))) eqn:E2; cbn [audit_repo_err map_err run auw_db with_audit_rows adb_rows].
    + split; [by right|done].
    + split; [by left|]. exists (S (S (auw_step w))). by rewrite E2.
    + split; [by right|]. exists (S (S (auw_step w))). by rewrite E2.
Qed.


End Retention.
