(* ===== verification/AuditExamples.v ===== *)
(** * Audit entries at concrete inputs

    The theorems on recording, queries, exports and retention at small
    tables; and an export with an entry written between two of its pages. *)

From Stdlib Require Import ZArith Lia Ascii.
From S2P Require Import Prelude GoString GoTime GoTimeParse GoError Effects Table Schema Json Redaction Dto.
From S2P Require Import AuditRepo Csv AuditService AuditProps.

(** Every address and summary but the empty one, kept as it is. *)
#[export] Instance plain_pg : Postgres := {
  inet s := if (s =? "")%string then None else Some s;
  jsonb s := if (s =? "")%string then None else Some s
}.

Definition noon : Z := 1709251199 * Second.   (* 2024-02-29 23:59:59 *)

Definition quiet0 : AuditEnv :=
  {| ae_now n := noon + Z.of_nat n * Second; ae_db _ := NoFault; ae_out _ := NoFault; ae_cut _ := 8%nat |}.

(** The writer breaks at operation [k]. *)
Definition broken (k : nat) : AuditEnv :=
  {| ae_now n := noon; ae_db _ := NoFault; ae_cut _ := 8%nat;
     ae_out n := if (n =? k)%nat then FailAfter (ErrNew "closed") else NoFault |}.

Definition q34 : string := String (chr 34) "".

(** A login whose summary holds a password. *)
Definition summary_with (password : string) : string :=
  ("{" +:+ q34 +:+ "password" +:+ q34 +:+ ":" +:+ q34 +:+ password +:+ q34 +:+ "," +:+ q34 +:+ "user" +:+ q34 +:+ ":" +:+ q34 +:+
   "bob" +:+ q34 +:+ "}")%string.

Definition login_entry (password : string) : dto.RecordAuditInput :=
  {| dto.ra_UserID := Some 7; dto.ra_Username := "bob"; dto.ra_IP := "10.0.0.1"; dto.ra_Module := "auth";
     dto.ra_Action := "login"; dto.ra_TargetType := "user"; dto.ra_TargetID := "bob";
     dto.ra_RequestSummary := summary_with password; dto.ra_Success := true; dto.ra_ResultCode := "0";
     dto.ra_ResultMessage := "ok, token=abc"; dto.ra_RequestID := "r-1"; dto.ra_TraceID := "" |}.

Definition empty0 : AuditWorld := MkAuditWorld 0 {| adb_rows := []; adb_next := 1 |} empty_sink.


(** ** Queries *)

Definition query_between (start_time end_time : string) : dto.ListAuditLogsQuery :=
  {| dto.alq_Page := 1; dto.alq_Size := 20; dto.alq_StartTime := start_time; dto.alq_EndTime := end_time;
     dto.alq_UserID := 0; dto.alq_Username := " bob "; dto.alq_Module := ""; dto.alq_Action := ""; dto.alq_TargetType := "";
     dto.alq_TargetID := ""; dto.alq_Success := None; dto.alq_ResultCode := ""; dto.alq_RequestID := ""; dto.alq_TraceID := "" |}.

Definition entry (id created : Z) (message : string) : AuditLog :=
  MkAuditLog id (Some 7) "bob" "10.0.0.1" "auth" "login" "user" "bob" "{}" true "0" message "r-1" "" created.

(** The last microsecond of the last day still counts. *)
Definition late_entry : AuditLog := entry 3 (noon + 999999 * 1000) "late, very".

Lemma audit_day_filter_witness : exists f f0,
  auditListFilter (query_between "2024-02-28" " 2024-02-29") 1 20 = Ok f /\
  auditListFilter (without_dates (query_between "2024-02-28" " 2024-02-29")) 1 20 = Ok f0 /\
  audit_matches f late_entry = (audit_matches f0 late_entry &&
    ((days_from_civil 2024 2 28 <=? day_of (al_CreatedAt late_entry)) &&
     (day_of (al_CreatedAt late_entry) <=? days_from_civil 2024 2 29))).
Proof.
  apply (audit_day_filter (query_between "2024-02-28" " 2024-02-29") 1 20 2024 2 28 2024 2 29 late_entry);
    [split; [|split]; vm_compute; reflexivity..|vm_compute; reflexivity].
Defined.

Lemma late_entry_matches :
  match auditListFilter (query_between "2024-02-28" " 2024-02-29") 1 20 with
  | Ok f => audit_matches f late_entry
  | Err _ => false
  end = true.
Proof. vm_compute. reflexivity. Qed.

(** ** Exports and retention *)

Definition entries0 : list AuditLog := [entry 1 (noon - 40 * Day) "old"; late_entry; entry 2 noon "ok"].

Definition world0 : AuditWorld := MkAuditWorld 0 {| adb_rows := entries0; adb_next := 4 |} empty_sink.

Definition svc0 : auditService := NewAuditServiceWithOptions 30 2.


(** A writer that breaks keeps the beginning, and the export fails. *)
Lemma broken_export :
  let out := run (au_handle (broken 1)) (Export svc0 (query_between "" "") "jsonl") world0 in
  out.1 = Err (ErrNew "closed") /\ String.length (sk_out (auw_sink out.2)) = 8%nat.
Proof. vm_compute. done. Qed.


(** ** An entry written during an export

    The pages are read by offset from the newest entry on, each in a statement
    of its own: an entry written in between moves the last row of a page to
    the next one. *)

Definition many : list AuditLog := map (fun n => entry (Z.of_nat n) (noon - Z.of_nat n * Second) "ok") (seq 1 101).

Definition world_many : AuditWorld := MkAuditWorld 0 {| adb_rows := many; adb_next := 102 |} empty_sink.

Definition goroutines : list (prog audit_ans unit) :=
  [bind (Export (NewAuditServiceWithOptions 0 0) (query_between "" "") "jsonl") (fun _ => Ret tt); Record_ (login_entry "x")].

Definition no_spawn (w : AuditWorld) : option (prog audit_ans unit * AuditWorld) := None.

(** The first page, the new entry, the rest. *)
Definition schedule : list (option nat) := repeat (Some 0%nat) 101 ++ [Some 1%nat] ++ repeat (Some 0%nat) 103.

Definition interleaved : list (prog audit_ans unit) * AuditWorld :=
  run_sched (au_handle quiet0) no_spawn schedule (goroutines, world_many).

Definition twice : AuditLog := entry 100 (noon - 100 * Second) "ok".

(** There is an interleaving in which an entry written while an export runs
    makes the export contain another entry twice. *)
Theorem export_repeats_entry : exists ts w before after,
  psteps (au_handle quiet0) no_spawn (goroutines, world_many) (ts, w) /\ ts = [Ret tt; Ret tt] /\ twice ∈ many /\
  sk_out (auw_sink w) = (before +:+ json_line (toAuditLogDTO twice) +:+ json_line (toAuditLogDTO twice) +:+ after)%string.
Proof.
  exists interleaved.1, interleaved.2, (concat_str (map (fun r => json_line (toAuditLogDTO r)) (take 99 many))),
    (json_line (toAuditLogDTO (entry 101 (noon - 101 * Second) "ok"))).
  split; [replace (interleaved.1, interleaved.2) with interleaved by (by destruct interleaved); apply run_sched_psteps|].
  split; [vm_compute; reflexivity|]. split; [|apply String.eqb_eq; vm_compute; reflexivity].
  apply list_elem_of_In, in_map_iff. exists 100%nat. split; [done|]. apply in_seq. lia.
Qed.
