(* ===== verification/Paging.v ===== *)
(** * Listings in pages

    Tasks, backups and audit entries are listed newest first, a page at a time:
    [ListTasks], [backupService.List] and [auditService.List] over the [List] of
    their repositories.  A client that walks through the pages while nothing
    is written gets every matching row once - as long as no two rows have the
    same time of creation, the pages are of at most 100 rows, and the offset
    fits an [int]. *)

From Stdlib Require Import ZArith Lia.
From S2P Require Import Prelude GoString GoTime GoError Effects Table Schema Dto TaskRepo TaskService BackupApi TaskSystem.
From S2P Require Import BackupRepo BackupService BackupSystem BackupVerify AuditRepo AuditService AuditProps.
From S2P Require TaskExamples BackupExamples AuditExamples.

Ltac decide_nodup := apply (bool_decide_unpack (NoDup _)); vm_compute; exact I.

(** ** Sorted rows *)

Lemma NoDup_fmap_eq {A B} (f : A -> B) l x y : NoDup (f <$> l) -> x ∈ l -> y ∈ l -> f x = f y -> x = y.
Proof.
  intros Hn Hx Hy E. apply list_elem_of_lookup in Hx as [i Hi]. apply list_elem_of_lookup in Hy as [j Hj].
  assert (i = j) as ->; [|congruence].
  apply (NoDup_lookup (f <$> l) i j (f x)); [done|by rewrite list_lookup_fmap, Hi|by rewrite list_lookup_fmap, Hj, E].
Qed.

(** Without equal keys there is one order. *)
Lemma order_by_only {A} (key : A -> Z) l rows :
  NoDup (key <$> l) -> rows ≡ₚ l -> StronglySorted (key_le key) rows -> order_by key l = rows.
Proof.
  intros Hn Hp Hs. apply (StronglySorted_unique_strong (key_le key)); [|apply StronglySorted_merge_sort; apply _|done|].
  - intros x y Hx Hy H1 H2. rewrite order_by_Permutation in Hx. rewrite Hp in Hy.
    apply (NoDup_fmap_eq key l); [done..|]. unfold key_le in *. lia.
  - by rewrite order_by_Permutation.
Qed.

(** Newest first. *)
Definition newest_key {A} (created : A -> Z) (r : A) : Z := - created r.

(** The rows in the order of a listing. *)
Record listed_as {A} (created : A -> Z) (matching rows : list A) : Prop := {
  la_distinct : NoDup (created <$> matching);
  la_rows : rows ≡ₚ matching;
  la_sorted : StronglySorted (key_le (newest_key created)) rows
}.

Lemma listed_as_order {A} (created : A -> Z) matching rows :
  listed_as created matching rows -> order_by (fun r => - created r) matching = rows.
Proof.
  intros [Hd Hr Hs]. apply order_by_only; [|done|done].
  replace ((fun r => - created r) <$> matching) with (Z.opp <$> (created <$> matching)) by (by rewrite <- list_fmap_compose).
  apply NoDup_fmap_2; [|done]. intros x y. lia.
Qed.

Lemma listed_as_sorted {A} (created : A -> Z) matching :
  NoDup (created <$> matching) -> listed_as created matching (order_by (newest_key created) matching).
Proof. intros Hd. split; [done|apply order_by_Permutation|apply StronglySorted_merge_sort; apply _]. Qed.

(** ** Walking through the pages *)
Section Walk.
Context {A : Type} (lister : Z -> Z -> res (list A * Z)).

(** The items of the first [n] pages. *)
Fixpoint walk (size : Z) (n : nat) : res (list A) :=
  match n with
  | O => Ok []
  | S n => res_bind (walk size n) (fun items => res_map (fun listed => items ++ listed.1) (lister (Z.of_nat n + 1) size))
  end.

(** Every page is a slice of the rows, and tells how many there are. *)
Definition slices (rows : list A) : Prop := forall page size, 1 <= page -> 1 <= size <= 100 -> page * size <= int64_max ->
  lister page size = Ok (take (Z.to_nat size) (drop (Z.to_nat ((page - 1) * size)) rows), Z.of_nat (length rows)).

(** The pages hold all rows, and the pages behind them none. *)
Definition covers (rows : list A) : Prop := forall size n, 1 <= size <= 100 -> Z.of_nat n * size <= int64_max ->
  walk size n = Ok (take (n * Z.to_nat size) rows) /\
  (Z.of_nat (length rows) <= Z.of_nat n * size -> walk size n = Ok rows) /\
  (forall page, 1 <= page <= Z.of_nat n -> exists items,
     lister page size = Ok (items, Z.of_nat (length rows)) /\ Z.of_nat (length items) <= size).

Lemma slices_covers rows : slices rows -> covers rows.
Proof.
  intros Hs size n Hz Hn.
  assert (Hw : walk size n = Ok (take (n * Z.to_nat size) rows)).
  { induction n as [|n IH]; [done|]. cbn [walk]. rewrite IH by lia. cbn [res_bind]. rewrite Hs by lia. cbn [res_map fst].
    f_equal. replace (Z.to_nat ((Z.of_nat n + 1 - 1) * size)) with (n * Z.to_nat size)%nat by lia.
    rewrite take_take_drop. f_equal. lia. }
  split; [done|]. split.
  - intros Hl. rewrite Hw, take_ge; [done|]. nia.
  - intros page Hp. rewrite Hs by nia. eexists. split; [done|]. rewrite length_take. lia.
Qed.

(** A page of a table. *)
Lemma page_slice {R} (f : R -> A) (rows : list R) page size : 1 <= page -> 1 <= size -> page * size <= int64_max ->
  map f (page_of (page_offset page size) size rows)
  = take (Z.to_nat size) (drop (Z.to_nat ((page - 1) * size)) (map f rows)).
Proof.
  unfold int64_max. intros Hp Hs Hb. rewrite page_offset_small by (unfold int64_max; nia). unfold page_of.
  destruct (Z.ltb_spec ((page - 1) * size) 0) as [?|_]; [nia|]. destruct (Z.ltb_spec size 0) as [?|_]; [lia|].
  change (@map R A) with (@fmap list _ R A). by rewrite fmap_take, fmap_drop.
Qed.
End Walk.

(** ** The three listings *)

(** The items and the total of an answer. *)
Definition task_page (r : res dto.ListTasksResult) : res (list dto.TaskSummary * Z) :=
  res_map (fun l => (dto.ltr_Items l, dto.ltr_Total l)) r.
Definition backup_page (r : res dto.ListBackupsResult) : res (list dto.BackupSummary * Z) :=
  res_map (fun l => (dto.lb_Items l, dto.lb_Total l)) r.
Definition audit_page (r : res dto.ListAuditLogsResult) : res (list dto.AuditLog * Z) :=
  res_map (fun l => (dto.alr_Items l, dto.alr_Total l)) r.

(** A column is as the filter says, when it says something. *)
Definition column_is (value column : string) : bool := (TrimSpace value =? "")%string || (column =? TrimSpace value)%string.

Section Tasks.
Context {B : Type} `{BackupImpl B} (env : Env) (w : World B).
Context (Hcalm : calm env) (status taskType : string).

Definition matching_tasks : list Task :=
  select_where (fun t => column_is status (t_Status t) && column_is taskType (t_Type t)) (db_tasks (w_db w)).

Definition list_tasks (page size : Z) : res (list dto.TaskSummary * Z) :=
  task_page (run (handle env) (ListTasks {| dto.ltq_Page := page; dto.ltq_Size := size; dto.ltq_Status := status;
                                            dto.ltq_Type := taskType |}) w).1.

Lemma tasks_slices rows : listed_as t_CreatedAt matching_tasks rows -> slices list_tasks (map mapTaskSummary rows).
Proof.
  intros Hl page size Hp Hs Hb. unfold list_tasks, ListTasks, bind_ok, or_else, repo, call. cbn [bind run dto.ltq_Page dto.ltq_Size].
  unfold handle, exec, exec_repo. cbn [repo_exec]. rewrite Hcalm. cbn [bind run map_err fst snd]. unfold repository.List.
  cbn [tf_Page tf_Size tf_Status tf_Type dto.ltq_Status dto.ltq_Type map_err bind run fst snd task_page res_map dto.ltr_Items dto.ltr_Total].
  destruct (Z.leb_spec page 0) as [?|_]; [lia|]. destruct (Z.leb_spec size 0) as [?|_]; [lia|].
  cbn [map_err bind run fst snd]. destruct (Z.leb_spec page 0) as [?|_]; [lia|]. destruct (Z.leb_spec size 0) as [?|_]; [lia|].
  destruct (Z.ltb_spec 100 size) as [?|_]; [lia|]. fold (column_is status) (column_is taskType).
  change (select_where _ (db_tasks (w_db w))) with matching_tasks. rewrite (listed_as_order _ _ _ Hl), page_slice by lia.
  by rewrite length_map, (Permutation_length (la_rows _ _ _ Hl)).
Qed.
End Tasks.

Section Backups.
Context (env : BackupEnv) (start : Z) (w : BackupWorld).
Context (Hquiet : quiet_env env) (status resourceType resourceID : string).

(** The filter as the statement gets it. *)
Definition backup_type_filter : res string :=
  if negb (TrimSpace resourceType =? "")%string then normalizeBackupResourceType resourceType else Ok "".

Definition matching_backups (status resourceType : string) : list Backup :=
  select_where (fun b => column_is status (b_Status b) && column_is resourceType (b_ResourceType b)
    && column_is (TrimSpace resourceID) (b_ResourceID b)) (bdb_rows (bw_db w)).

Definition list_backups (page size : Z) : res (list dto.BackupSummary * Z) :=
  backup_page (run (bk_handle env start) (BackupService.List {| dto.lbq_Page := page; dto.lbq_Size := size;
    dto.lbq_Status := status; dto.lbq_ResourceType := resourceType; dto.lbq_ResourceID := resourceID |}) w).1.

Lemma backups_slices status' type' rows :
  normalizeBackupStatusFilter status = Ok status' -> backup_type_filter = Ok type' ->
  listed_as b_CreatedAt (matching_backups status' type') rows -> slices list_backups (map mapBackupSummary rows).
Proof.
  intros Est Ety Hl page size Hp Hs Hb. unfold list_backups, BackupService.List. cbn [dto.lbq_Status dto.lbq_ResourceType].
  fold backup_type_filter. rewrite Est, Ety. unfold or_bad, or_internal, bind_ok, or_else, brepo, call.
  cbn [bind run bk_handle]. unfold exec_brepo. cbn [brepo_exec]. rewrite (proj1 (Hquiet _)).
  unfold backup_repository.List. cbn [bf_Page bf_Size bf_Status bf_ResourceType bf_ResourceID dto.lbq_Page dto.lbq_Size dto.lbq_ResourceID].
  destruct (Z.leb_spec page 0) as [?|_]; [lia|]. destruct (Z.leb_spec size 0) as [?|_]; [lia|].
  cbn [map_err bind run fst snd]. destruct (Z.leb_spec page 0) as [?|_]; [lia|]. destruct (Z.leb_spec size 0) as [?|_]; [lia|].
  destruct (Z.ltb_spec 100 size) as [?|_]; [lia|].
  change (select_where _ (bdb_rows (bw_db w))) with (matching_backups status' type'). cbn [map_err bind run fst snd backup_page res_map dto.lb_Items dto.lb_Total].
  rewrite (listed_as_order _ _ _ Hl), page_slice by lia. by rewrite length_map, (Permutation_length (la_rows _ _ _ Hl)).
Qed.
End Backups.

Section Audits.
Context `{Postgres} (env : AuditEnv) (w : AuditWorld).
Context (Hquiet : forall n, ae_db env n = NoFault) (query : dto.ListAuditLogsQuery).

Definition query_page (page size : Z) : dto.ListAuditLogsQuery :=
  {| dto.alq_Page := page; dto.alq_Size := size; dto.alq_StartTime := dto.alq_StartTime query;
     dto.alq_EndTime := dto.alq_EndTime query; dto.alq_UserID := dto.alq_UserID query;
     dto.alq_Username := dto.alq_Username query; dto.alq_Module := dto.alq_Module query;
     dto.alq_Action := dto.alq_Action query; dto.alq_TargetType := dto.alq_TargetType query;
     dto.alq_TargetID := dto.alq_TargetID query; dto.alq_Success := dto.alq_Success query;
     dto.alq_ResultCode := dto.alq_ResultCode query; dto.alq_RequestID := dto.alq_RequestID query;
     dto.alq_TraceID := dto.alq_TraceID query |}.

Definition matching_entries (f : AuditListFilter) : list AuditLog := select_where (audit_matches f) (adb_rows (auw_db w)).

Definition list_entries (page size : Z) : res (list dto.AuditLog * Z) :=
  audit_page (run (au_handle env) (AuditService.List (query_page page size)) w).1.

(** The page is not part of what matches. *)
Lemma filter_page page size f : auditListFilter query 1 20 = Ok f ->
  exists f', auditListFilter (query_page page size) page size = Ok f' /\ af_Page f' = page /\ af_Size f' = size /\
    matching_entries f' = matching_entries f.
Proof.
  unfold auditListFilter. cbn [query_page dto.alq_StartTime dto.alq_EndTime]. intros Ef.
  destruct (audit_bound (dto.alq_StartTime query) _ _) as [t1|]; [|done].
  destruct (audit_bound (dto.alq_EndTime query) _ _) as [t2|]; [|done]. injection Ef as <-.
  eexists. split; [done|]. done.
Qed.

Lemma entries_slices f rows : auditListFilter query 1 20 = Ok f ->
  listed_as al_CreatedAt (matching_entries f) rows -> slices list_entries (map toAuditLogDTO rows).
Proof.
  intros Ef Hl page size Hp Hs Hb. unfold list_entries, AuditService.List. cbn [query_page dto.alq_Page dto.alq_Size].
  destruct (Z.leb_spec page 0) as [?|_]; [lia|]. destruct (Z.leb_spec size 0) as [?|_]; [lia|].
  destruct (Z.ltb_spec 100 size) as [?|_]; [lia|]. change (auditListFilter _ page size) with (auditListFilter (query_page page size) page size).
  destruct (filter_page page size f Ef) as (f' & -> & Epage & Esize & Em). unfold or_else, bind_ok, call.
  cbn [bind run au_handle]. unfold exec_audit_repo. cbn [audit_repo_exec]. rewrite Hquiet. unfold audit_repository.List.
  rewrite Epage, Esize. destruct (Z.leb_spec page 0) as [?|_]; [lia|]. destruct (Z.leb_spec size 0) as [?|_]; [lia|].
  destruct (Z.ltb_spec 100 size) as [?|_]; [lia|]. fold (matching_entries f'). rewrite Em.
  cbn [map_err bind run fst snd audit_page res_map dto.alr_Items dto.alr_Total].
  unfold newest_first. rewrite (listed_as_order _ _ _ Hl), page_slice by lia.
  by rewrite length_map, (Permutation_length (la_rows _ _ _ Hl)).
Qed.
End Audits.

(** C32 Walking through the pages shows every row once.  While nothing is written
    and no statement fails, the pages 1, 2, ... of up to 100 items of the tasks,
    the backups and the audit entries that match a filter are, one after the
    other, all matching rows, newest first, and each page tells how many there
    are; no page is longer than asked for, and behind the last row pages are
    empty.  This takes rows with different times of creation. *)
Theorem pages_cover_listings :
  (forall B (impl : BackupImpl B) (env : Env) (w : World B) status taskType rows, calm env ->
     listed_as t_CreatedAt (matching_tasks w status taskType) rows ->
     covers (list_tasks env w status taskType) (map mapTaskSummary rows)) /\
  (forall env start w status resourceType resourceID status' type' rows, quiet_env env ->
     normalizeBackupStatusFilter status = Ok status' -> backup_type_filter resourceType = Ok type' ->
     listed_as b_CreatedAt (matching_backups w resourceID status' type') rows ->
     covers (list_backups env start w status resourceType resourceID) (map mapBackupSummary rows)) /\
  (forall (pg : Postgres) env w query f rows, (forall n, ae_db env n = NoFault) -> auditListFilter query 1 20 = Ok f ->
     listed_as al_CreatedAt (matching_entries w f) rows ->
     covers (list_entries env w query) (map toAuditLogDTO rows)).
Proof.
  split; [|split]; intros; apply slices_covers; [by apply tasks_slices|by eapply backups_slices|by eapply entries_slices].
Qed.

(** ** Where the pages do not cover the rows *)

(** The offset wraps around: with 4 rows a page, the page after 2^62 others is
    the first one again, and the one before it has a negative offset, which is
    no offset. *)
Example offset_wraps : page_offset (2 ^ 62 + 1) 4 = 0 /\ page_offset (2 ^ 61) 8 = -8.
Proof. split; reflexivity. Qed.

(** Rows with the same time can come in another order in each statement: both
    orders are sorted, and a row is on the second page again. *)
Example ties_repeat (a b : Task) : t_CreatedAt a = t_CreatedAt b ->
  let newest := key_le (newest_key t_CreatedAt) in
  StronglySorted newest [a; b] /\ StronglySorted newest [b; a] /\ page_of 0 1 [a; b] ++ page_of 1 1 [b; a] = [a; a].
Proof. intros E. unfold newest_key. split; [|split; [|done]]; repeat constructor; unfold key_le; lia. Qed.

(** ** Three pages of tasks *)

Definition task_at (id created : Z) : Task :=
  MkTask id "docker_restart" "pending" 0 "{}" "{}" "" None None None None 0 3 None None None None created created.

Definition tasks_world (l : list Task) : World unit :=
  MkWorld 0%nat {| db_tasks := l; db_next_task := 200; db_logs := []; db_next_log := 1 |} tt [] [] [] [] [].

Definition five : World unit := tasks_world [task_at 1 10; task_at 2 30; task_at 3 20; task_at 4 50; task_at 5 40].

Example five_walked :
  res_map (map dto.ts_ID) (walk (list_tasks TaskExamples.env0 five "pending" " ") 2 3) = Ok [4; 5; 2; 3; 1] /\
  (map (fun page => res_map (fun l => (map dto.ts_ID l.1, l.2)) (list_tasks TaskExamples.env0 five "" "" page 2)) [1; 3; 4])
    = [Ok ([4; 5], 5); Ok ([1], 5); Ok ([], 5)].
Proof. split; vm_compute; reflexivity. Qed.

(** Two backups of databases among three, and three entries, two a page. *)
Definition backup_at (id : Z) (resourceType : string) (created : Z) : Backup :=
  MkBackup id resourceType "web" "local" "" 0 "" "success" None created created.

Definition three_backups : BackupWorld :=
  MkBackupWorld 0 {| bdb_rows := [backup_at 1 "postgres" 10; backup_at 2 "observability" 20; backup_at 3 "postgres" 30]; bdb_next := 4 |}
    (bw_os BackupExamples.w0).

Definition any_entry : dto.ListAuditLogsQuery := AuditExamples.query_between "" "".

Definition any_filter : AuditListFilter :=
  {| af_Page := 1; af_Size := 20; af_StartTime := None; af_EndTime := None; af_UserID := None; af_Username := "bob";
     af_Module := ""; af_Action := ""; af_TargetType := ""; af_TargetID := ""; af_Success := None; af_ResultCode := "";
     af_RequestID := ""; af_TraceID := "" |}.

Definition three_entries : AuditWorld :=
  MkAuditWorld 0 {| adb_rows := [AuditExamples.entry 1 10 ""; AuditExamples.entry 2 30 ""; AuditExamples.entry 3 20 ""]; adb_next := 4 |}
    empty_sink.

Lemma pages_cover_listings_witness :
  (walk (list_tasks TaskExamples.env0 five "pending" " ") 2 3 = Ok (map mapTaskSummary [task_at 4 50; task_at 5 40; task_at 2 30; task_at 3 20; task_at 1 10])) /\
  (walk (list_backups BackupExamples.quiet0 0 three_backups "" "Postgres " "") 2 1
     = Ok (map mapBackupSummary [backup_at 3 "postgres" 30; backup_at 1 "postgres" 10])) /\
  (walk (list_entries (H := AuditExamples.plain_pg) AuditExamples.quiet0 three_entries any_entry) 2 2
     = Ok (map toAuditLogDTO [AuditExamples.entry 2 30 ""; AuditExamples.entry 3 20 ""; AuditExamples.entry 1 10 ""])).
Proof.
  pose proof pages_cover_listings as (Ht & Hb & Ha). split; [|split].
  - apply (Ht _ _ TaskExamples.env0 five "pending" " " _ TaskExamples.env0_calm
      (listed_as_sorted t_CreatedAt (matching_tasks five "pending" " ") ltac:(decide_nodup)) 2 3%nat); first [lia|vm_compute; discriminate].
  - apply (Hb BackupExamples.quiet0 0 three_backups "" "Postgres " "" "" "postgres" _ BackupExamples.quiet0_quiet eq_refl eq_refl
      (listed_as_sorted b_CreatedAt (matching_backups three_backups "" "" "postgres") ltac:(decide_nodup)) 2 1%nat); first [lia|vm_compute; discriminate].
  - apply (Ha AuditExamples.plain_pg AuditExamples.quiet0 three_entries any_entry any_filter _ (fun _ => eq_refl) eq_refl
      (listed_as_sorted al_CreatedAt (matching_entries three_entries any_filter) ltac:(decide_nodup)) 2 2%nat); first [lia|vm_compute; discriminate].
Defined.

(** A page of 200 is said to be of 200 and has 100 items. *)
Definition many : World unit := tasks_world (map (fun n => task_at (Z.of_nat n) (Z.of_nat n)) (seq 1 150)).

Example capped_page_size :
  (run (handle TaskExamples.env0) (ListTasks {| dto.ltq_Page := 1; dto.ltq_Size := 200; dto.ltq_Status := "";
     dto.ltq_Type := "" |}) many).1
  = Ok {| dto.ltr_Page := 1; dto.ltr_Size := 200; dto.ltr_Total := 150;
       dto.ltr_Items := map (fun n => mapTaskSummary (task_at (Z.of_nat n) (Z.of_nat n))) (rev (seq 51 100)) |}.
Proof. vm_compute. reflexivity. Qed.

(** The page behind the last representable offset shows rows again. *)
Example wrapped_page :
  res_map (fun l => map dto.ts_ID l.1) (list_tasks TaskExamples.env0 five "" "" (2 ^ 62 + 1) 4) = Ok [4; 5; 2; 3].
Proof. vm_compute. reflexivity. Qed.
