(* ===== verification/FileService.v ===== *)
(** * Files

    [internal/service/file_service.go]: the file operations forwarded to the
    agent, the download loop and the upload loop.  The two loops take fuel and
    answer [None] when it runs out; the theorems give the fuel that is enough. *)

From Stdlib Require Import ZArith Lia.
From S2P Require Import Prelude GoString GoError Effects Agent Dto AgentServices.

Open Scope prog_scope.

(** The callbacks of the handlers: [writeChunk] can fail; [readChunk] returns
    the length read, an error, and leaves the bytes in the buffer. *)
Inductive file_op :=
| FileAgent (o : agent_op)
| WriteChunk (bytes : string)
| ReadChunk (capacity : Z).

Definition file_ans (o : file_op) : Type :=
  match o with
  | FileAgent o => agent_ans o
  | WriteChunk _ => option goerr
  | ReadChunk _ => Z * option goerr * string
  end.

#[export] Instance file_agent : SubOp agent_ans file_ans :=
  {| inj := FileAgent; proj o (a : file_ans (FileAgent o)) := a |}.

#[local] Abbreviation prog A := (Effects.prog file_ans A).

Definition downloadChunkSize : Z := 256 * 1024.
Definition uploadChunkSize : Z := 256 * 1024.

Definition uint64 (z : Z) : Z := wrap 64 z.

Definition ListFiles (path : string) : prog (res dto.ListFilesResult) :=
  mapped (fun result =>
    {| dto.lfr_CurrentPath := grpcclient.lf_CurrentPath result;
       dto.lfr_Entries := map (fun item =>
         {| dto.fent_Name := grpcclient.fe_Name item; dto.fent_Path := grpcclient.fe_Path item;
            dto.fent_IsDir := grpcclient.fe_IsDir item; dto.fent_Size := grpcclient.fe_Size item;
            dto.fent_ModifiedAt := grpcclient.fe_ModifiedAtUnix item |}) (grpcclient.lf_Entries result) |})
    (agent (AListFiles path)).

Definition ReadTextFile (req : dto.ReadTextFileRequest) : prog (res dto.ReadTextFileResult) :=
  mapped (fun result =>
    {| dto.rtf_Path := grpcclient.rt_Path result; dto.rtf_Content := grpcclient.rt_Content result;
       dto.rtf_Size := grpcclient.rt_Size result; dto.rtf_Truncated := grpcclient.rt_Truncated result;
       dto.rtf_Encoding := grpcclient.rt_Encoding result |})
    (agent (AReadTextFile {| grpcclient.rtq_Path := dto.rtfq_Path req;
                             grpcclient.rtq_MaxBytes := dto.rtfq_MaxBytes req;
                             grpcclient.rtq_Encoding := dto.rtfq_Encoding req |})).

Definition WriteTextFile (req : dto.WriteTextFileRequest) : prog (res dto.WriteTextFileResult) :=
  mapped (fun result =>
    {| dto.wtf_Path := grpcclient.wt_Path result; dto.wtf_WrittenBytes := grpcclient.wt_WrittenBytes result |})
    (agent (AWriteTextFile {| grpcclient.wtq_Path := dto.wtfq_Path req;
                              grpcclient.wtq_Content := dto.wtfq_Content req;
                              grpcclient.wtq_CreateIfNotExists := dto.wtfq_CreateIfNotExists req;
                              grpcclient.wtq_Truncate := dto.wtfq_Truncate req;
                              grpcclient.wtq_Encoding := dto.wtfq_Encoding req |})).

Definition CreateDirectory (req : dto.CreateDirectoryRequest) : prog (res string) :=
  mapped (fun path => path)
    (agent (ACreateDirectory {| grpcclient.cdq_Path := dto.mkq_Path req;
                                grpcclient.cdq_CreateParents := dto.mkq_CreateParents req |})).

Definition DeleteFile (req : dto.DeleteFileRequest) : prog (res string) :=
  mapped (fun path => path)
    (agent (ADeleteFile {| grpcclient.dfq_Path := dto.delq_Path req;
                           grpcclient.dfq_Recursive := dto.delq_Recursive req |})).

Definition or_path (path default : string) : string := if (path =? "")%string then default else path.

Definition bad_req (msg : string) : goerr := bad_request (ErrNew msg).
Definition internal_msg (msg : string) : goerr := internal (ErrNew msg).

Definition RenameFile (req : dto.RenameFileRequest) : prog (res dto.RenameFileResult) :=
  let sourcePath := TrimSpace (dto.renq_SourcePath req) in
  let targetPath := TrimSpace (dto.renq_TargetPath req) in
  if (sourcePath =? "")%string || (targetPath =? "")%string
  then Ret (Err (bad_req "source_path and target_path are required"))
  else if (sourcePath =? targetPath)%string
  then Ret (Err (bad_req "source_path and target_path cannot be the same"))
  else mapped (fun result =>
    {| dto.ren_SourcePath := or_path (TrimSpace (grpcclient.rn_SourcePath result)) sourcePath;
       dto.ren_TargetPath := or_path (TrimSpace (grpcclient.rn_TargetPath result)) targetPath;
       dto.ren_WrittenBytes := grpcclient.rn_MovedBytes result |})
    (agent (ARenameFile {| grpcclient.rnq_SourcePath := sourcePath; grpcclient.rnq_TargetPath := targetPath |})).

(** ** Download *)

(** The variables of the loop of [DownloadFile]. *)
Record download := {
  d_offset : Z;
  d_path : string;
  d_downloaded : Z;
  d_total : Z;
  d_remaining : Z
}.

Definition finish_download (startOffset : Z) (st : download) : dto.DownloadFileResult :=
  let totalSize := if d_total st =? 0 then d_offset st else d_total st in
  let endOffset := if 0 <? d_downloaded st then uint64 (startOffset + d_downloaded st - 1) else startOffset in
  {| dto.dl_Path := d_path st; dto.dl_StartOffset := startOffset; dto.dl_EndOffset := endOffset;
     dto.dl_TotalSize := totalSize; dto.dl_DownloadedBytes := d_downloaded st |}.

(** The state after a chunk was received, before its bytes are written. *)
Definition chunk_seen (path : string) (chunk : grpcclient.ReadFileChunkResult) (st : download) : download :=
  {| d_offset := d_offset st;
     d_path := if (d_path st =? "")%string then or_path (TrimSpace (grpcclient.rc_Path chunk)) path
               else d_path st;
     d_downloaded := d_downloaded st;
     d_total := if 0 <? grpcclient.rc_TotalSize chunk then grpcclient.rc_TotalSize chunk else d_total st;
     d_remaining := d_remaining st |}.

Definition chunk_written (n : Z) (st : download) : download :=
  {| d_offset := uint64 (d_offset st + n); d_path := d_path st;
     d_downloaded := uint64 (d_downloaded st + n); d_total := d_total st;
     d_remaining := if 0 <? d_remaining st then uint64 (d_remaining st - n) else d_remaining st |}.

(** The bytes of a chunk that are passed on: at most what remains. *)
Definition clipped (remaining : Z) (bytes : string) : string :=
  if (0 <? remaining) && (remaining <? len bytes) then take_bytes (Z.to_nat remaining) bytes else bytes.

Fixpoint download_loop (fuel : nat) (path : string) (query_limit : Z) (st : download)
  : prog (option (res download)) :=
  match fuel with
  | O => Ret None
  | S fuel =>
    let limit := if (0 <? d_remaining st) && (d_remaining st <? downloadChunkSize)
                 then d_remaining st else downloadChunkSize in
    if (d_remaining st =? 0) && (0 <? query_limit) then Ret (Some (Ok st))
    else
      r <- agent (AReadFileChunk {| grpcclient.rcq_Path := path; grpcclient.rcq_Offset := d_offset st;
                                    grpcclient.rcq_Limit := limit |}) ;;
      match r with
      | Err err => Ret (Some (Err (mapAgentError err)))
      | Ok chunk =>
        let st := chunk_seen path chunk st in
        let bytes := grpcclient.rc_Chunk chunk in
        if negb (grpcclient.rc_Offset chunk =? d_offset st)
        then Ret (Some (Err (internal_msg ("unexpected chunk offset: got " +:+ fmt_d (grpcclient.rc_Offset chunk)
                                           +:+ ", want " +:+ fmt_d (d_offset st)))))
        else
          let next (st : download) :=
            if grpcclient.rc_EOF chunk || ((0 <? query_limit) && (d_remaining st =? 0))
            then Ret (Some (Ok st))
            else if len bytes =? 0
            then Ret (Some (Err (internal_msg "core-agent returned empty chunk before EOF")))
            else download_loop fuel path query_limit st in
          if 0 <? len bytes then
            let writeBytes := clipped (d_remaining st) bytes in
            e <- call (WriteChunk writeBytes) ;;
            match e : option goerr with
            | Some err => Ret (Some (Err (Wrap 1000 500 "stream write failed" err)))
            | None => next (chunk_written (len writeBytes) st)
            end
          else next st
      end
  end.

(** [writer_set] is false for a nil [writeChunk]. *)
Definition DownloadFile (fuel : nat) (query : dto.DownloadFileQuery) (writer_set : bool)
  : prog (option (res dto.DownloadFileResult)) :=
  let path := TrimSpace (dto.dlq_Path query) in
  if (path =? "")%string then Ret (Some (Err (bad_req "path is required")))
  else if negb writer_set then Ret (Some (Err (internal_msg "download writer is required")))
  else
    r <- download_loop fuel path (dto.dlq_Limit query)
           {| d_offset := dto.dlq_Offset query; d_path := ""; d_downloaded := 0; d_total := 0;
              d_remaining := dto.dlq_Limit query |} ;;
    Ret (match r with
         | None => None
         | Some (Err e) => Some (Err e)
         | Some (Ok st) => Some (Ok (finish_download (dto.dlq_Offset query) st))
         end).

(** ** Upload *)

Record upload := {
  u_offset : Z;
  u_path : string;
  u_total : Z;
  u_wrote : bool
}.

Definition write_chunk (path : string) (offset : Z) (chunk : string) (truncate : bool) : agent_op :=
  AWriteFileChunk {| grpcclient.wcq_Path := path; grpcclient.wcq_Offset := offset;
                     grpcclient.wcq_Chunk := chunk; grpcclient.wcq_CreateIfNotExists := true;
                     grpcclient.wcq_Truncate := truncate |}.

Fixpoint upload_loop (fuel : nat) (path : string) (st : upload) : prog (option (res upload)) :=
  match fuel with
  | O => Ret None
  | S fuel =>
    rd <- call (ReadChunk uploadChunkSize) ;;
    let '(readLen, readErr, buffer) := rd : Z * option goerr * string in
    let eof := match readErr with Some ErrEOF => true | _ => false end in
    match readErr with
    | Some ErrEOF | None =>
      if (readLen <? 0) || (uploadChunkSize <? readLen)
      then Ret (Some (Err (internal_msg ("invalid stream chunk length: " +:+ fmt_d readLen))))
      else
        let next (st : upload) := if eof then Ret (Some (Ok st)) else upload_loop fuel path st in
        if 0 <? readLen then
          let chunk := take_bytes (Z.to_nat readLen) buffer in
          r <- agent (write_chunk path (u_offset st) chunk ((u_offset st =? 0) && negb (u_wrote st))) ;;
          match r : res grpcclient.WriteFileChunkResult with
          | Err err => Ret (Some (Err (mapAgentError err)))
          | Ok result =>
            if negb (grpcclient.wc_Offset result =? u_offset st)
            then Ret (Some (Err (internal_msg ("unexpected write offset: got " +:+ fmt_d (grpcclient.wc_Offset result)
                                               +:+ ", want " +:+ fmt_d (u_offset st)))))
            else if negb (grpcclient.wc_WrittenBytes result =? readLen)
            then Ret (Some (Err (internal_msg ("unexpected written bytes: got " +:+
                       fmt_d (grpcclient.wc_WrittenBytes result) +:+ ", want " +:+ fmt_d readLen))))
            else next {| u_offset := uint64 (u_offset st + readLen);
                         u_path := if (u_path st =? "")%string then TrimSpace (grpcclient.wc_Path result)
                                   else u_path st;
                         u_total := grpcclient.wc_TotalSize result; u_wrote := true |}
          end
        else next st
    | Some readErr => Ret (Some (Err (Wrap 1000 500 "stream read failed" readErr)))
    end
  end.

Definition finish_upload (path : string) (st : upload) : dto.UploadFileResult :=
  {| dto.upl_Path := or_path (u_path st) path; dto.upl_UploadedBytes := u_offset st;
     dto.upl_TotalSize := if u_total st =? 0 then u_offset st else u_total st |}.

(** [reader_set] is false for a nil [readChunk]. *)
Definition UploadFile (fuel : nat) (req : dto.UploadFileRequest) (reader_set : bool)
  : prog (option (res dto.UploadFileResult)) :=
  let path := TrimSpace (dto.uplq_Path req) in
  if (path =? "")%string then Ret (Some (Err (bad_req "path is required")))
  else if negb reader_set then Ret (Some (Err (internal_msg "upload reader is required")))
  else
    r <- upload_loop fuel path
           {| u_offset := dto.uplq_Offset req; u_path := ""; u_total := 0; u_wrote := false |} ;;
    match r with
    | None => Ret None
    | Some (Err e) => Ret (Some (Err e))
    | Some (Ok st) =>
      if negb (u_wrote st) && (dto.uplq_Offset req =? 0) then
        w <- agent (write_chunk path 0 "" true) ;;
        Ret (Some (match w : res grpcclient.WriteFileChunkResult with
             | Err err => Err (mapAgentError err)
             | Ok result =>
               Ok (finish_upload path
                     {| u_offset := u_offset st;
                        u_path := if (u_path st =? "")%string then TrimSpace (grpcclient.wc_Path result)
                                  else u_path st;
                        u_total := grpcclient.wc_TotalSize result; u_wrote := u_wrote st |})
             end))
      else Ret (Some (Ok (finish_upload path st)))
    end.

(** ** Slices *)

Lemma skip_bytes_nil n : skip_bytes n "" = "".
Proof. by destruct n. Qed.

Lemma len_nonneg s : 0 <= len s.
Proof. unfold len. lia. Qed.

Lemma take_bytes_add a b s : take_bytes (a + b) s = (take_bytes a s +:+ take_bytes b (skip_bytes a s))%string.
Proof. revert s. induction a as [|a IH]; intros [|c s]; simpl; try done; [by destruct b|]. by rewrite IH, app_cons_str. Qed.

Lemma skip_skip a b s : skip_bytes b (skip_bytes a s) = skip_bytes (a + b) s.
Proof. revert s. induction a as [|a IH]; intros [|c s]; simpl; try done; by destruct b. Qed.

Lemma take_bytes_all n s : (String.length s <= n)%nat -> take_bytes n s = s.
Proof. revert s. induction n as [|n IH]; intros [|c s] Hn; simpl in *; try done; [lia|]. by rewrite IH by lia. Qed.

Lemma len_take_bytes n s : 0 <= n <= len s -> len (take_bytes (Z.to_nat n) s) = n.
Proof. unfold len. intros H. rewrite length_take_bytes by lia. lia. Qed.

Lemma len_skip_bytes n s : 0 <= n <= len s -> len (skip_bytes (Z.to_nat n) s) = len s - n.
Proof. unfold len. intros H. rewrite length_skip_bytes. lia. Qed.

Lemma len_app s t : len (s +:+ t) = len s + len t.
Proof. unfold len. rewrite length_app_str. lia. Qed.

Lemma uint64_small z : 0 <= z < 2 ^ 64 -> uint64 z = z.
Proof. intros H. unfold uint64, wrap. by apply Z.mod_small. Qed.

Lemma len_clipped rem bytes : 0 < rem -> 0 < len bytes -> 0 < len (clipped rem bytes) <= rem.
Proof.
  intros Hr Hb. unfold clipped. destruct (Z.ltb_spec 0 rem); [|lia]. simpl.
  destruct (Z.ltb_spec rem (len bytes)); [|lia]. rewrite len_take_bytes; lia.
Qed.

(** ** Download from an agent that serves a file *)

Section Download.
Context (ag : forall o : agent_op, agent_ans o).

(** The writer collects what it is given. *)
Definition sink_handle (o : file_op) (w : string) : file_ans o * string :=
  match o return file_ans o * string with
  | FileAgent o => (ag o, w)
  | WriteChunk b => (None, (w +:+ b)%string)
  | ReadChunk _ => ((0, Some ErrEOF, ""), w)
  end.

(** The agent serves [content] at [path]: each chunk is a piece of the file at
    the offset asked for, no longer than the limit, not empty before the end. *)
Definition serves (path content : string) : Prop :=
  forall off lim, 0 <= off <= len content -> 0 < lim ->
  exists n r, ag (AReadFileChunk {| grpcclient.rcq_Path := path; grpcclient.rcq_Offset := off;
                                    grpcclient.rcq_Limit := lim |}) = Ok r
    /\ grpcclient.rc_Offset r = off /\ grpcclient.rc_TotalSize r = len content
    /\ grpcclient.rc_Chunk r = take_bytes (Z.to_nat n) (skip_bytes (Z.to_nat off) content)
    /\ 0 <= n <= lim /\ n <= len content - off /\ (off < len content -> 0 < n)
    /\ grpcclient.rc_EOF r = (len content <=? off + n).

Context (path content : string) (Hserves : serves path content) (Hsize : len content < 2 ^ 64).

Definition wanted (query_limit off remaining : Z) : Z :=
  if query_limit =? 0 then len content - off else Z.min remaining (len content - off).

Lemma run_agent {A} o (k : agent_ans o -> Effects.prog file_ans A) w :
  run sink_handle (bind (agent o) k) w = run sink_handle (k (ag o)) w.
Proof. done. Qed.

Lemma run_write {A} b (k : option goerr -> Effects.prog file_ans A) w :
  run sink_handle (bind (call (WriteChunk b)) k) w = run sink_handle (k None) (w +:+ b)%string.
Proof. done. Qed.

(** The state after [n] more bytes. *)
Definition advanced (n : Z) (st st' : download) : Prop :=
  d_offset st' = d_offset st + n /\ d_downloaded st' = d_downloaded st + n /\ d_total st' = len content.

(** What holds at the head of the loop. *)
Record at_head (limit : Z) (st : download) : Prop := {
  ah_limit : 0 <= limit < 2 ^ 64;
  ah_offset : 0 <= d_offset st <= len content;
  ah_remaining : 0 <= d_remaining st < 2 ^ 64;
  ah_unlimited : limit = 0 -> d_remaining st = 0;
  ah_downloaded : 0 <= d_downloaded st <= d_offset st;
  ah_total : d_total st = 0 \/ d_total st = len content;
  ah_seen : limit = 0 \/ 0 < d_remaining st \/ d_total st = len content
}.

Lemma download_loop_spec limit fuel st w :
  at_head limit st ->
  (Z.to_nat (wanted limit (d_offset st) (d_remaining st)) < fuel)%nat ->
  let n := wanted limit (d_offset st) (d_remaining st) in
  exists st', run sink_handle (download_loop fuel path limit st) w
      = (Some (Ok st'), (w +:+ take_bytes (Z.to_nat n) (skip_bytes (Z.to_nat (d_offset st)) content))%string)
    /\ advanced n st st'.
Proof.
  revert st w. induction fuel as [|fuel IH]; intros st w [Hlim Ho Hr H0 Hd Ht Hs] Hf; [lia|].
  cbn [download_loop]. cbv zeta.
  destruct ((d_remaining st =? 0) && (0 <? limit)) eqn:Estop.
  { breflect. unfold wanted. destruct (Z.eqb_spec limit 0); [lia|]. exists st.
    replace (Z.min (d_remaining st) (len content - d_offset st)) with 0 by lia. rewrite app_nil_r_str.
    split; [done|]. split; [lia|]. split; [lia|]. destruct Hs as [?|[?|?]]; lia. }
  set (lim := if (0 <? d_remaining st) && (d_remaining st <? downloadChunkSize) then d_remaining st else downloadChunkSize).
  assert (Hl : 0 < lim /\ (0 < d_remaining st -> lim <= d_remaining st)).
  { unfold lim. assert (E : downloadChunkSize = 262144) by reflexivity. rewrite E.
    destruct (Z.ltb_spec 0 (d_remaining st)), (Z.ltb_spec (d_remaining st) 262144); simpl; lia. }
  destruct (Hserves (d_offset st) lim Ho ltac:(lia)) as (n & r & Hag & Hoff & Htot & Hch & Hn & Hn2 & Hn3 & Heof).
  rewrite run_agent, Hag. cbn [d_offset chunk_seen d_remaining]. rewrite Hoff, Z.eqb_refl. cbn [negb].
  assert (Hlen : len (grpcclient.rc_Chunk r) = n).
  { rewrite Hch, len_take_bytes; [done|]. rewrite len_skip_bytes; lia. }
  assert (Hclip : clipped (d_remaining st) (grpcclient.rc_Chunk r) = grpcclient.rc_Chunk r).
  { unfold clipped. rewrite Hlen. destruct (Z.ltb_spec 0 (d_remaining st)), (Z.ltb_spec (d_remaining st) n); simpl; try done; lia. }
  assert (Htot' : (if 0 <? grpcclient.rc_TotalSize r then grpcclient.rc_TotalSize r else d_total st) = len content).
  { rewrite Htot. pose proof (len_nonneg content). destruct (Z.ltb_spec 0 (len content)); [done|]. lia. }
  rewrite Hclip, Hlen, Heof. set (st1 := chunk_seen path r st).
  (* the rest of the iteration, once [n] bytes were written *)
  assert (Hnext : forall st2 w2, d_offset st2 = d_offset st + n -> d_downloaded st2 = d_downloaded st + n ->
    d_total st2 = len content -> d_remaining st2 = (if 0 <? d_remaining st then d_remaining st - n else d_remaining st) ->
    w2 = (w +:+ grpcclient.rc_Chunk r)%string ->
    exists st', run sink_handle
      (if (len content <=? d_offset st + n) || ((0 <? limit) && (d_remaining st2 =? 0)) then Ret (Some (Ok st2))
       else if n =? 0 then Ret (Some (Err (internal_msg "core-agent returned empty chunk before EOF")))
       else download_loop fuel path limit st2) w2
      = (Some (Ok st'), (w +:+ take_bytes (Z.to_nat (wanted limit (d_offset st) (d_remaining st)))
            (skip_bytes (Z.to_nat (d_offset st)) content))%string)
      /\ advanced (wanted limit (d_offset st) (d_remaining st)) st st').
  { intros st2 w2 E1 E2 E3 E4 ->.
    destruct ((len content <=? d_offset st + n) || ((0 <? limit) && (d_remaining st2 =? 0))) eqn:Eend.
    - (* the end *)
      exists st2. assert (Ew : wanted limit (d_offset st) (d_remaining st) = n).
      { unfold wanted. destruct (Z.eqb_spec limit 0), (Z.ltb_spec 0 (d_remaining st)), (Z.leb_spec (len content) (d_offset st + n)),
          (Z.ltb_spec 0 limit), (Z.eqb_spec (d_remaining st2) 0); simpl in Eend; try done; lia. }
      rewrite Ew, Hch. split; [done|]. by repeat split.
    - assert (Hn0 : 0 < n) by (destruct (Z.leb_spec (len content) (d_offset st + n)); [done|lia]).
      destruct (Z.eqb_spec n 0); [lia|].
      assert (Hw2 : wanted limit (d_offset st2) (d_remaining st2) = wanted limit (d_offset st) (d_remaining st) - n).
      { unfold wanted. rewrite E1, E4. destruct (Z.eqb_spec limit 0), (Z.ltb_spec 0 (d_remaining st)); lia. }
      assert (Hgt : n < wanted limit (d_offset st) (d_remaining st)).
      { unfold wanted. destruct (Z.eqb_spec limit 0), (Z.ltb_spec 0 (d_remaining st)),
          (Z.leb_spec (len content) (d_offset st + n)), (Z.ltb_spec 0 limit), (Z.eqb_spec (d_remaining st2) 0);
          simpl in Eend; try done; lia. }
      destruct (IH st2 (w +:+ grpcclient.rc_Chunk r)%string) as (st' & Hrun & A1 & A2 & A3).
      + split; rewrite ?E1, ?E2, ?E3, ?E4; try done; try lia; try (by right);
          destruct (Z.ltb_spec 0 (d_remaining st)); try lia; right; right; done.
      + rewrite Hw2. lia.
      + rewrite Hw2 in Hrun, A1, A2. exists st'. rewrite Hrun. split.
        * f_equal. rewrite app_assoc_str. f_equal. rewrite Hch, E1.
          set (q := wanted limit (d_offset st) (d_remaining st)) in *.
          replace (Z.to_nat q) with (Z.to_nat n + Z.to_nat (q - n))%nat by lia.
          rewrite take_bytes_add, skip_skip. repeat f_equal. lia.
        * split; [lia|]. split; [lia|done]. }
  destruct (Z.ltb_spec 0 n) as [Hp|Hp].
  - rewrite run_write. cbn [d_offset d_remaining chunk_seen]. 
    apply Hnext; cbn [d_offset d_downloaded d_total d_remaining chunk_written chunk_seen st1]; try done.
    + apply uint64_small. lia.
    + apply uint64_small. lia.
    + destruct (Z.ltb_spec 0 (d_remaining st)); [|done]. apply uint64_small. lia.
  - assert (n = 0) as En by lia.
    apply (Hnext st1 w); cbn [d_offset d_downloaded d_total d_remaining chunk_seen st1]; try done; try lia.
    + destruct (Z.ltb_spec 0 (d_remaining st)); lia.
    + rewrite Hch, En. simpl. by rewrite app_nil_r_str.
Qed.
End Download.

(** C33 A download is the slice of the file that was asked for: from an agent
    that serves the file in chunks of any size, [DownloadFile] passes on exactly
    the [Limit] bytes from [Offset] (to the end of the file for a limit of
    zero, or when the file is shorter), reports them, and ends within one
    iteration more than the bytes passed on. *)
Theorem DownloadFile_slice ag content query w fuel
  (Hpath : TrimSpace (dto.dlq_Path query) <> "")
  (Hserves : serves ag (TrimSpace (dto.dlq_Path query)) content) (Hsize : len content < 2 ^ 64)
  (Hoff : 0 <= dto.dlq_Offset query <= len content) (Hlim : 0 <= dto.dlq_Limit query < 2 ^ 64)
  (Hfuel : (Z.to_nat (len content - dto.dlq_Offset query) < fuel)%nat) :
  let rest := len content - dto.dlq_Offset query in
  let n := if dto.dlq_Limit query =? 0 then rest else Z.min (dto.dlq_Limit query) rest in
  exists r, run (sink_handle ag) (DownloadFile fuel query true) w
    = (Some (Ok r), w +:+ take_bytes (Z.to_nat n) (skip_bytes (Z.to_nat (dto.dlq_Offset query)) content))%string
  /\ dto.dl_StartOffset r = dto.dlq_Offset query /\ dto.dl_DownloadedBytes r = n
  /\ dto.dl_EndOffset r = (if 0 <? n then dto.dlq_Offset query + n - 1 else dto.dlq_Offset query)
  /\ dto.dl_TotalSize r = (if len content =? 0 then n else len content).
Proof.
  cbv zeta. unfold DownloadFile. cbv zeta. destruct (String.eqb_spec (TrimSpace (dto.dlq_Path query)) ""); [done|].
  cbn [negb]. rewrite run_bind. set (st := {| d_offset := _ |}).
  assert (Hn : wanted content (dto.dlq_Limit query) (d_offset st) (d_remaining st)
    = if dto.dlq_Limit query =? 0 then len content - dto.dlq_Offset query
      else Z.min (dto.dlq_Limit query) (len content - dto.dlq_Offset query)) by done.
  destruct (download_loop_spec ag _ content Hserves Hsize (dto.dlq_Limit query) fuel st w) as (st' & Hrun & A1 & A2 & A3).
  - split; simpl; try done; try lia. 
  - rewrite Hn. destruct (Z.eqb_spec (dto.dlq_Limit query) 0); lia.
  - rewrite Hn in *. rewrite Hrun. set (n0 := if dto.dlq_Limit query =? 0 then _ else _) in *.
    assert (0 <= n0 <= len content - dto.dlq_Offset query) by (unfold n0; destruct (Z.eqb_spec (dto.dlq_Limit query) 0); lia).
    simpl in A1, A2. rewrite ?Z.add_0_l in A2. cbn [run]. eexists. split; [done|]. unfold finish_download. cbn [dto.dl_StartOffset dto.dl_DownloadedBytes dto.dl_EndOffset dto.dl_TotalSize].
    rewrite A1, A2, A3. split; [done|]. split; [done|]. split.
    + destruct (Z.ltb_spec 0 n0); [|done]. rewrite uint64_small; lia.
    + destruct (Z.eqb_spec (len content) 0); lia.
Qed.

(** ** A bounded download ends, whatever the agent answers *)

Section Bounded.
Context {W : Type} (handle : forall o : file_op, W -> file_ans o * W) (written : W -> Z).
Context (Hwritten : forall o w, written (handle o w).2
                      = written w + match o with WriteChunk b => len b | _ => 0 end).

Lemma download_loop_bounded path limit fuel st w :
  0 < limit -> 0 < d_remaining st < 2 ^ 64 -> (Z.to_nat (d_remaining st) <= fuel)%nat ->
  let '(r, w') := run handle (download_loop fuel path limit st) w in
  r <> None /\ written w' <= written w + d_remaining st.
Proof.
  revert st w. induction fuel as [|fuel IH]; intros st w Hl Hr Hf; [lia|]. cbn [download_loop]. cbv zeta.
  destruct (Z.eqb_spec (d_remaining st) 0); [lia|]. cbn [andb]. unfold agent, trigger. cbn [bind run inj proj file_agent].
  match goal with |- context [handle ?o w] => pose proof (Hwritten o w) as Hw1; destruct (handle o w) as [a w1] end.
  cbn [snd] in Hw1. rewrite Z.add_0_r in Hw1.
  destruct a as [chunk|e]; [|cbn [run]; split; [done|lia]].
  cbn [chunk_seen d_offset d_remaining]. destruct (negb _); [cbn [run]; split; [done|lia]|].
  destruct (Z.ltb_spec 0 limit); [|lia]. cbn [andb].
  destruct (Z.ltb_spec 0 (len (grpcclient.rc_Chunk chunk))) as [Hc|Hc].
  - rewrite run_bind, run_call. pose proof (len_clipped (d_remaining st) (grpcclient.rc_Chunk chunk) ltac:(lia) Hc) as Hlen.
    set (b := clipped _ _) in *. pose proof (Hwritten (WriteChunk b) w1) as Hw2.
    destruct (handle (WriteChunk b) w1) as [e w2]. cbn [snd] in Hw2.
    destruct e as [e|]; [cbn [run]; split; [done|lia]|].
    set (st2 := chunk_written _ _).
    assert (E : d_remaining st2 = d_remaining st - len b).
    { unfold st2. cbn. destruct (Z.ltb_spec 0 (d_remaining st)); [|lia]. apply uint64_small. lia. }
    rewrite E. destruct (grpcclient.rc_EOF chunk); cbn [orb]; [cbn [run]; split; [done|lia]|].
    destruct (Z.eqb_spec (d_remaining st - len b) 0); [cbn [run]; split; [done|lia]|].
    destruct (Z.eqb_spec (len (grpcclient.rc_Chunk chunk)) 0); [lia|].
    specialize (IH st2 w2 Hl ltac:(lia) ltac:(lia)). destruct (run handle _ w2) as [r w3]. rewrite E in IH.
    destruct IH as [H1 H2]. split; [done|lia].
  - pose proof (len_nonneg (grpcclient.rc_Chunk chunk)).
    destruct (grpcclient.rc_EOF chunk); cbn [orb]; [cbn [run]; split; [done|lia]|].
    destruct (Z.eqb_spec (d_remaining st) 0); [lia|].
    destruct (Z.eqb_spec (len (grpcclient.rc_Chunk chunk)) 0); [|lia]. cbn [run]. split; [done|lia].
Qed.
End Bounded.

(** C40 A download with a limit ends after at most [Limit] chunks and passes on
    at most [Limit] bytes, whatever the agent and the writer answer. *)
Theorem DownloadFile_bounded {W} (handle : forall o : file_op, W -> file_ans o * W) (written : W -> Z)
  query writer_set fuel w
  (Hwritten : forall o w, written (handle o w).2 = written w + match o with WriteChunk b => len b | _ => 0 end)
  (Hlim : 0 < dto.dlq_Limit query < 2 ^ 64) (Hfuel : (Z.to_nat (dto.dlq_Limit query) <= fuel)%nat) :
  let '(r, w') := run handle (DownloadFile fuel query writer_set) w in
  r <> None /\ written w' <= written w + dto.dlq_Limit query.
Proof.
  unfold DownloadFile. cbv zeta. destruct (_ =? "")%string; [cbn [run]; split; [done|lia]|].
  destruct writer_set; cbn [negb]; [|cbn [run]; split; [done|lia]]. rewrite run_bind. set (st := {| d_offset := _ |}).
  pose proof (download_loop_bounded handle written Hwritten (TrimSpace (dto.dlq_Path query)) (dto.dlq_Limit query)
                fuel st w ltac:(lia) Hlim Hfuel) as Hb.
  destruct (run handle (download_loop _ _ _ _) w) as [[[st'|e]|] w']; cbn [run]; destruct Hb as [? Hb]; split; done.
Qed.

(** ** Upload to an agent that writes a file *)

(** [data] written over [base] from offset [o]. *)
Definition write_at (o : nat) (data base : string) : string :=
  (take_bytes o base +:+ data +:+ skip_bytes (o + String.length data) base)%string.

Lemma write_at_app o a b base : (o <= String.length base)%nat ->
  write_at (o + String.length a) b (write_at o a base) = write_at o (a +:+ b) base.
Proof.
  intros Ho. unfold write_at. set (r := skip_bytes (o + String.length a) base).
  assert (Hl : (o + String.length a)%nat = String.length (take_bytes o base +:+ a)%string)
    by (rewrite length_app_str, length_take_bytes by done; done).
  rewrite <- (app_assoc_str (take_bytes o base) a r).
  assert (E1 : take_bytes (o + String.length a) ((take_bytes o base +:+ a) +:+ r) = (take_bytes o base +:+ a)%string)
    by (rewrite Hl; apply take_bytes_app).
  assert (E2 : skip_bytes (o + String.length a + String.length b) ((take_bytes o base +:+ a) +:+ r)
             = skip_bytes (o + String.length (a +:+ b)) base).
  { rewrite <- skip_skip, Hl, skip_bytes_app. unfold r. rewrite skip_skip, length_app_str. f_equal. lia. }
  by rewrite E1, E2, !app_assoc_str.
Qed.

Lemma write_at_nil o base : (o <= String.length base)%nat -> write_at o "" base = base.
Proof. intros Ho. unfold write_at. simpl. rewrite Nat.add_0_r, app_nil_str. apply take_skip_bytes. Qed.

Lemma length_write_at o d base : (o <= String.length base)%nat ->
  (o + String.length d <= String.length (write_at o d base))%nat.
Proof. intros Ho. unfold write_at. rewrite !length_app_str, length_take_bytes by done. lia. Qed.

(** The file at the agent and the chunks still to be read; [eager] tells
    whether the end is reported with the last chunk. *)
Record upload_world := { uw_file : string; uw_reads : list string }.

Section Upload.
Context (eager : bool).

Definition upload_handle (o : file_op) (w : upload_world) : file_ans o * upload_world :=
  match o return file_ans o * upload_world with
  | FileAgent (AWriteFileChunk req) =>
      let base := if grpcclient.wcq_Truncate req then "" else uw_file w in
      let file := write_at (Z.to_nat (grpcclient.wcq_Offset req)) (grpcclient.wcq_Chunk req) base in
      (Ok {| grpcclient.wc_Path := grpcclient.wcq_Path req; grpcclient.wc_Offset := grpcclient.wcq_Offset req;
             grpcclient.wc_WrittenBytes := len (grpcclient.wcq_Chunk req); grpcclient.wc_TotalSize := len file |},
       {| uw_file := file; uw_reads := uw_reads w |})
  | FileAgent o => (failing_agent (ErrNew "not served") o, w)
  | WriteChunk _ => (None, w)
  | ReadChunk _ =>
      match uw_reads w with
      | [] => ((0, Some ErrEOF, ""), w)
      | c :: rest =>
        ((len c, if eager && bool_decide (rest = []) then Some ErrEOF else None, c),
         {| uw_file := uw_file w; uw_reads := rest |})
      end
  end.

(** The file a first write goes to. *)
Definition base_file (st : upload) (w : upload_world) : string :=
  if (u_offset st =? 0) && negb (u_wrote st) then "" else uw_file w.

Lemma upload_loop_spec path fuel st w :
  let data := concat_str (uw_reads w) in
  0 <= u_offset st <= len (base_file st w) -> (u_wrote st = true -> 0 < u_offset st) ->
  Forall (fun c => len c <= uploadChunkSize) (uw_reads w) ->
  u_offset st + len data < 2 ^ 64 -> (length (uw_reads w) < fuel)%nat ->
  exists st' w', run upload_handle (upload_loop fuel path st) w = (Some (Ok st'), w')
    /\ u_offset st' = u_offset st + len data
    /\ u_wrote st' = (u_wrote st || (0 <? len data))%bool
    /\ (0 < len data -> u_total st' = len (uw_file w')
          /\ uw_file w' = write_at (Z.to_nat (u_offset st)) data (base_file st w))
    /\ (len data = 0 -> st' = st /\ uw_file w' = uw_file w).
Proof.
  revert st w. induction fuel as [|fuel IH]; intros st w data Ho Hwr Hc Hsz Hf; [lia|].
  cbn [upload_loop]. rewrite run_bind, run_call. cbn [upload_handle].
  destruct (uw_reads w) as [|c rest] eqn:Er.
  { assert (E : len data = 0) by done. rewrite E. cbn [run]. exists st, w. split; [done|]. split; [lia|].
    split; [by rewrite orb_false_r|]. split; [lia|done]. }
  inversion Hc as [|? ? Hc1 Hc2]; subst.
  assert (Hdata : data = (c +:+ concat_str rest)%string) by done. pose proof (len_nonneg c). pose proof (len_nonneg (concat_str rest)).
  rewrite Hdata, len_app in Hsz |- *. clearbody data. clear Hdata.
  set (e := if eager && bool_decide (rest = []) then Some ErrEOF else None).
  (* what follows a chunk *)
  assert (Hnext : forall st1 w1, uw_reads w1 = rest ->
    0 <= u_offset st1 <= len (base_file st1 w1) -> (u_wrote st1 = true -> 0 < u_offset st1) ->
    u_offset st1 + len (concat_str rest) < 2 ^ 64 ->
    exists st' w', run upload_handle (if match e with Some ErrEOF => true | _ => false end
       then Ret (Some (Ok st1)) else upload_loop fuel path st1) w1 = (Some (Ok st'), w')
    /\ u_offset st' = u_offset st1 + len (concat_str rest)
    /\ u_wrote st' = (u_wrote st1 || (0 <? len (concat_str rest)))%bool
    /\ (0 < len (concat_str rest) -> u_total st' = len (uw_file w')
          /\ uw_file w' = write_at (Z.to_nat (u_offset st1)) (concat_str rest) (base_file st1 w1))
    /\ (len (concat_str rest) = 0 -> st' = st1 /\ uw_file w' = uw_file w1)).
  { intros st1 w1 E H1 H2 H3. unfold e. destruct (eager && bool_decide (rest = [])) eqn:Ee.
    - apply andb_prop in Ee as [_ Ee]. apply bool_decide_eq_true in Ee. subst rest. exists st1, w1.
      assert (E0 : len (concat_str []) = 0) by done. rewrite E0. split; [done|]. split; [lia|].
      split; [by rewrite orb_false_r|]. split; [lia|done].
    - destruct (IH st1 w1) as (st' & w' & Hrun & Hrest); rewrite ?E; try done; [simpl in Hf; lia|].
      rewrite E in Hrest. exists st', w'. split; [exact Hrun|exact Hrest]. }
  assert (Erange : (len c <? 0) || (uploadChunkSize <? len c) = false).
  { cbv beta in Hc1. destruct (Z.ltb_spec (len c) 0), (Z.ltb_spec uploadChunkSize (len c)); try done; lia. }
  assert (Hcase : forall k, match e with Some ErrEOF | None => k | Some err => Ret (Some (Err (Wrap 1000 500 "stream read failed" err))) end
                   = k :> Effects.prog file_ans (option (res upload))).
  { intros k. unfold e. by destruct (eager && bool_decide (rest = [])). }
  cbv iota beta. rewrite Hcase, Erange. clear Hcase Erange.
  set (w1 := {| uw_file := uw_file w; uw_reads := rest |}).
  destruct (Z.ltb_spec 0 (len c)) as [Hp|Hp].
  - unfold agent, trigger. cbn [bind run upload_handle inj proj file_agent write_chunk
      grpcclient.wcq_Truncate grpcclient.wcq_Offset grpcclient.wcq_Chunk grpcclient.wc_Offset grpcclient.wc_WrittenBytes].
    assert (Etake : take_bytes (Z.to_nat (len c)) c = c) by (apply take_bytes_all; unfold len; lia).
    rewrite Etake, !Z.eqb_refl. cbn [negb grpcclient.wc_TotalSize grpcclient.wc_Path grpcclient.wcq_Path uw_file].
    change (if (u_offset st =? 0) && negb (u_wrote st) then "" else uw_file w1) with (base_file st w).
    set (f1 := write_at (Z.to_nat (u_offset st)) c (base_file st w)).
    set (st1 := {| u_offset := uint64 (u_offset st + len c); u_path := _ |}).
    set (w2 := {| uw_file := f1; uw_reads := uw_reads w1 |}).
    assert (Eo : u_offset st1 = u_offset st + len c) by (apply uint64_small; lia).
    assert (Hnat : (Z.to_nat (u_offset st) <= String.length (base_file st w))%nat) by (unfold len in Ho; lia).
    assert (Eb : base_file st1 w2 = f1) by (unfold base_file; cbn [u_wrote st1 negb]; by rewrite andb_false_r).
    pose proof (length_write_at (Z.to_nat (u_offset st)) c _ Hnat) as Hlw. fold f1 in Hlw.
    destruct (Hnext st1 w2) as (st' & w' & Hrun & A1 & A2 & A3 & A4); [done| | |rewrite Eo; lia|].
    { rewrite Eb, Eo. unfold len in *. lia. }
    { intros _. rewrite Eo. lia. }
    exists st', w'. split; [exact Hrun|]. split; [rewrite A1, Eo; lia|].
    split; [rewrite A2; cbn [u_wrote st1]; destruct (Z.ltb_spec 0 (len c + len (concat_str rest))); [by rewrite orb_true_r|lia]|].
    split; [|lia]. intros _. destruct (Z.eqb_spec (len (concat_str rest)) 0) as [Ez|Ez].
    + destruct (A4 Ez) as [-> ->]. split; [done|]. simpl. unfold f1.
      replace (concat_str rest) with "" by (destruct (concat_str rest); [done|unfold len in Ez; simpl in Ez; lia]).
      by rewrite app_nil_r_str.
    + destruct A3 as [A3 A3']; [lia|]. split; [done|]. rewrite A3', Eb, Eo. unfold f1.
      replace (Z.to_nat (u_offset st + len c)) with (Z.to_nat (u_offset st) + String.length c)%nat by (unfold len; lia).
      by apply write_at_app.
  - assert (c = "") as -> by (destruct c; [done|unfold len in Hp; simpl in Hp; lia]).
    change (base_file st w) with (base_file st w1). rewrite app_nil_str.
    destruct (Hnext st w1) as (st' & w' & Hrun & A1 & A2 & A3 & A4); [done|done|done|lia|].
    exists st', w'. replace (len "" + len (concat_str rest)) with (len (concat_str rest)) by done. done.
Qed.
End Upload.


(** ** Concrete transfers *)

(** Serves "hello world" at "/f", three bytes at a time. *)
Definition hello_agent (o : agent_op) : agent_ans o :=
  match o return agent_ans o with
  | AReadFileChunk req =>
      let n := Z.min 3 (Z.min (grpcclient.rcq_Limit req) (11 - grpcclient.rcq_Offset req)) in
      Ok {| grpcclient.rc_Path := "/f"; grpcclient.rc_Offset := grpcclient.rcq_Offset req;
            grpcclient.rc_Chunk := take_bytes (Z.to_nat n) (skip_bytes (Z.to_nat (grpcclient.rcq_Offset req)) "hello world");
            grpcclient.rc_TotalSize := 11; grpcclient.rc_EOF := 11 <=? grpcclient.rcq_Offset req + n |}
  | o => failing_agent (ErrNew "not served") o
  end.

Lemma hello_serves : serves hello_agent "/f" "hello world".
Proof.
  intros off lim Ho Hl. change (len "hello world") with 11 in *.
  exists (Z.min 3 (Z.min lim (11 - off))). eexists. split; [reflexivity|].
  split; [done|]. split; [done|]. split; [done|]. split; [lia|]. split; [lia|]. split; [lia|done].
Qed.

Lemma DownloadFile_slice_witness :
  exists r, run (sink_handle hello_agent)
    (DownloadFile 12 {| dto.dlq_Path := " /f"; dto.dlq_Offset := 4; dto.dlq_Limit := 5 |} true) ">"
    = (Some (Ok r), ">o wor")%string /\ dto.dl_EndOffset r = 8.
Proof.
  destruct (DownloadFile_slice hello_agent "hello world" {| dto.dlq_Path := " /f"; dto.dlq_Offset := 4; dto.dlq_Limit := 5 |}
    ">" 12%nat) as (r & Hr & _ & _ & He & _).
  - vm_compute. discriminate.
  - exact hello_serves.
  - vm_compute. reflexivity.
  - vm_compute. split; discriminate.
  - vm_compute. split; [discriminate|reflexivity].
  - vm_compute. lia.
  - exists r. split; [exact Hr|exact He].
Defined.

Lemma DownloadFile_bounded_witness :
  (run (sink_handle (failing_agent (ErrNew "down")))
     (DownloadFile 5 {| dto.dlq_Path := "/f"; dto.dlq_Offset := 0; dto.dlq_Limit := 5 |} true) "").1 <> None.
Proof.
  pose proof (DownloadFile_bounded (sink_handle (failing_agent (ErrNew "down"))) len
    {| dto.dlq_Path := "/f"; dto.dlq_Offset := 0; dto.dlq_Limit := 5 |} true 5 "") as H.
  destruct (run _ _ _) as [r w']. apply H.
  - intros [o|b|c] w; simpl; rewrite ?len_app; lia.
  - simpl. lia.
  - simpl. lia.
Defined.

