(* ===== verification/LoginLimiter.v ===== *)
(** * Login throttling

    [internal/security/login_attempt_limiter.go] and its Redis variant, with
    the part of [internal/api/handler/auth_handler.go] that consults them.
    The interface [LoginAttemptGuard] is a type class with both limiters as
    instances.  Redis is an external service: the class [Redis] states what
    the limiter relies on of its commands.  Every method holds the limiter's
    mutex (or is one Lua script), so a method is one atomic step. *)

From Stdlib Require Import ZArith Lia.
From stdpp Require Import gmap.
From S2P Require Import Prelude GoString GoTime GoError.

(** [LoginAttemptGuard]; [E] is what a call observes of the outside (the
    clock, the state of the network). *)
Class LoginAttemptGuard (E S : Type) := {
  Allow : string -> E -> S -> option goerr * S;
  RecordFailure : string -> E -> S -> S;
  RecordSuccess : string -> E -> S -> S;
}.

Definition BuildLoginAttemptKey (username ip : string) : string :=
  let normalizedUsername := ToLower (TrimSpace username) in
  let normalizedUsername := if (normalizedUsername =? "")%string then "unknown" else normalizedUsername in
  let normalizedIP := TrimSpace ip in
  let normalizedIP := if (normalizedIP =? "")%string then "unknown" else normalizedIP in
  (normalizedUsername +:+ "|" +:+ normalizedIP)%string.

(** [AuthHandler.Login] after the payload is bound: the answer of the service
    is asked for only when the guard allows it. *)
Definition handler_Login {A E S} `{LoginAttemptGuard E S} (Username ClientIP : string)
    (start finish : E) (service_Login : unit -> res A) (loginAttempts : S) : res A * S :=
  let attemptKey := BuildLoginAttemptKey Username ClientIP in
  match Allow attemptKey start loginAttempts with
  | (Some err, g) => (Err err, g)
  | (None, g) =>
    match service_Login tt with
    | Err err =>
      match As err with
      | Some appErr =>
        if (ae_Code appErr =? app_code ErrInvalidCredential) || (ae_Code appErr =? app_code ErrUserDisabled)
        then (Err err, RecordFailure attemptKey finish g)
        else (Err err, g)
      | None => (Err err, g)
      end
    | Ok resp => (Ok resp, RecordSuccess attemptKey finish g)
    end
  end.

Definition defaultLoginMaxFailures : Z := 5.
Definition defaultLoginFailureWindow : Z := 15 * Minute.
Definition defaultLoginLockDuration : Z := 15 * Minute.

(** [apperror.Wrap(ErrLoginRateLimited..., fmt.Errorf("retry after %s", d))]. *)
Definition rate_limited (d : Z) : goerr :=
  wrap_as ErrLoginRateLimited (ErrNew ("retry after " +:+ DurationString d)%string).

(** ** The limiter in memory *)
Module memory.

Record loginAttemptState := { failures : list Z; lockedUntil : Z }.

Record LoginAttemptLimiter := {
  maxFailures : Z;
  failureWindow : Z;
  lockDuration : Z;
  states : gmap string loginAttemptState;
}.

(** The options and the defaults they select. *)
Definition NewLoginAttemptLimiter (MaxFailures FailureWindow LockDuration : Z) : LoginAttemptLimiter :=
  {| maxFailures := if MaxFailures <=? 0 then defaultLoginMaxFailures else MaxFailures;
     failureWindow := if FailureWindow <=? 0 then defaultLoginFailureWindow else FailureWindow;
     lockDuration := if LockDuration <=? 0 then defaultLoginLockDuration else LockDuration;
     states := ∅ |}.

Definition set_states (m : gmap string loginAttemptState) (l : LoginAttemptLimiter) : LoginAttemptLimiter :=
  {| maxFailures := maxFailures l; failureWindow := failureWindow l;
     lockDuration := lockDuration l; states := m |}.

Definition pruneFailures (l : LoginAttemptLimiter) (state : loginAttemptState) (now : Z) : loginAttemptState :=
  let threshold := now - failureWindow l in
  {| failures := List.filter (fun item => threshold <? item) (failures state);
     lockedUntil := lockedUntil state |}.

Definition Allow (key : string) (now : Z) (l : LoginAttemptLimiter) : option goerr * LoginAttemptLimiter :=
  if (key =? "")%string then (None, l)
  else
    match states l !! key with
    | None => (None, l)
    | Some state =>
      let state := pruneFailures l state now in
      let l' := set_states (<[key := state]> (states l)) l in
      if now <? lockedUntil state then
        let remaining := Round (lockedUntil state - now) Second in
        let remaining := if remaining <? Second then Second else remaining in
        (Some (rate_limited remaining), l')
      else
        match failures state with
        | [] => (None, set_states (delete key (states l)) l)
        | _ => (None, l')
        end
    end.

Definition RecordFailure (key : string) (now : Z) (l : LoginAttemptLimiter) : LoginAttemptLimiter :=
  if (key =? "")%string then l
  else
    let state := match states l !! key with
                 | Some state => state
                 | None => {| failures := []; lockedUntil := zero_time |}
                 end in
    let state := pruneFailures l state now in
    let fs := failures state ++ [now] in
    let state :=
      if maxFailures l <=? Z.of_nat (length fs)
      then {| failures := []; lockedUntil := now + lockDuration l |}
      else {| failures := fs; lockedUntil := lockedUntil state |} in
    set_states (<[key := state]> (states l)) l.

Definition RecordSuccess (key : string) (now : Z) (l : LoginAttemptLimiter) : LoginAttemptLimiter :=
  if (key =? "")%string then l else set_states (delete key (states l)) l.

End memory.
Import memory.

#[export] Instance memory_guard : LoginAttemptGuard Z LoginAttemptLimiter := {
  Allow := memory.Allow;
  RecordFailure := memory.RecordFailure;
  RecordSuccess := memory.RecordSuccess;
}.

(** ** Lemmas on the limiter in memory *)

(** The failures still inside the window at [t]. *)
Definition recent (w t : Z) (fs : list Z) : list Z := List.filter (fun f => t - w <? f) fs.

Lemma recent_recent w now t fs : now <= t -> recent w t (recent w now fs) = recent w t fs.
Proof.
  intros Ht. unfold recent. induction fs as [|f fs IH]; simpl; [done|].
  destruct (Z.ltb_spec (now - w) f); simpl; [by rewrite IH|].
  destruct (Z.ltb_spec (t - w) f); [lia | done].
Qed.

Lemma recent_app w t fs gs : recent w t (fs ++ gs) = recent w t fs ++ recent w t gs.
Proof. apply List.filter_app. Qed.

Lemma recent_length w t fs : (length (recent w t fs) <= length fs)%nat.
Proof. unfold recent. induction fs as [|f fs IH]; simpl; [lia|]. destruct (_ <? _); simpl; lia. Qed.

Lemma recent_mono w v t fs : v <= w -> (length (recent v t fs) <= length (recent w t fs))%nat.
Proof.
  intros Hv. unfold recent. induction fs as [|f fs IH]; simpl; [lia|].
  destruct (Z.ltb_spec (t - v) f); destruct (Z.ltb_spec (t - w) f); simpl; lia.
Qed.

Lemma recent_none w t fs : Forall (fun f => f <= t - w) fs -> recent w t fs = [].
Proof.
  intros H. unfold recent. induction H as [|f fs Hf _ IH]; simpl; [done|].
  destruct (Z.ltb_spec (t - w) f); [lia|done].
Qed.

Lemma recent_all w t fs : Forall (fun f => t - w < f) fs -> recent w t fs = fs.
Proof.
  intros H. unfold recent. induction H as [|f fs Hf _ IH]; simpl; [done|].
  destruct (Z.ltb_spec (t - w) f); [by rewrite IH | lia].
Qed.

(** The parameters never change. *)
Definition same_params (l l' : LoginAttemptLimiter) : Prop :=
  maxFailures l' = maxFailures l /\ failureWindow l' = failureWindow l /\ lockDuration l' = lockDuration l.

Lemma key_not_empty username ip : BuildLoginAttemptKey username ip <> "".
Proof.
  unfold BuildLoginAttemptKey. cbv zeta. destruct (String.eqb_spec (ToLower (TrimSpace username)) ""); [done|].
  by destruct (ToLower (TrimSpace username)).
Qed.

(** What the limiter holds of a key. *)
Definition fails_of (l : LoginAttemptLimiter) (k : string) : list Z :=
  match states l !! k with Some s => failures s | None => [] end.

Definition unlocked (l : LoginAttemptLimiter) (k : string) (t : Z) : Prop :=
  match states l !! k with Some s => lockedUntil s <= t | None => True end.

Lemma Allow_other key k now l : key <> k -> states (memory.Allow key now l).2 !! k = states l !! k.
Proof.
  intros Hk. unfold memory.Allow. destruct (_ =? _)%string; [done|].
  destruct (states l !! key) as [s|]; [|done]. cbv zeta.
  destruct (_ <? _); [|destruct (failures _)]; simpl;
    by rewrite ?lookup_insert_ne, ?lookup_delete_ne by done.
Qed.

Lemma RecordFailure_other key k now l : key <> k -> states (memory.RecordFailure key now l) !! k = states l !! k.
Proof.
  intros Hk. unfold memory.RecordFailure. destruct (_ =? _)%string; [done|].
  cbv zeta. simpl. by rewrite lookup_insert_ne.
Qed.

Lemma RecordSuccess_other key k now l : key <> k -> states (memory.RecordSuccess key now l) !! k = states l !! k.
Proof.
  intros Hk. unfold memory.RecordSuccess. destruct (_ =? _)%string; [done|].
  simpl. by rewrite lookup_delete_ne.
Qed.

Lemma Allow_params key now l : same_params l (memory.Allow key now l).2.
Proof.
  unfold memory.Allow. destruct (_ =? _)%string; [done|].
  destruct (states l !! key) as [s|]; [|done]. cbv zeta.
  by destruct (_ <? _); [|destruct (failures _)].
Qed.

Lemma RecordFailure_params key now l : same_params l (memory.RecordFailure key now l).
Proof. unfold memory.RecordFailure. by destruct (_ =? _)%string. Qed.

Lemma RecordSuccess_params key now l : same_params l (memory.RecordSuccess key now l).
Proof. unfold memory.RecordSuccess. by destruct (_ =? _)%string. Qed.

(** The key itself after [Allow]: the failures are pruned, the lock is kept. *)
Lemma Allow_self k now l : k <> "" ->
  fails_of (memory.Allow k now l).2 k = recent (failureWindow l) now (fails_of l k) /\
  (forall t, now <= t -> unlocked (memory.Allow k now l).2 k t -> unlocked l k t) /\
  ((memory.Allow k now l).1 = None <-> unlocked l k now).
Proof.
  intros Hk. unfold memory.Allow, fails_of, unlocked. rewrite (proj2 (String.eqb_neq k "")) by done.
  destruct (states l !! k) as [s|] eqn:Es; [|simpl; rewrite Es; done]. cbv zeta.
  unfold pruneFailures. simpl. fold (recent (failureWindow l) now (failures s)).
  destruct (Z.ltb_spec now (lockedUntil s)).
  - simpl. rewrite lookup_insert_eq. simpl. split; [done|]. split; [done|]. split; [done|lia].
  - destruct (recent _ _ _) eqn:Er; simpl; rewrite ?lookup_insert_eq, ?lookup_delete_eq; simpl;
      (split; [done|]); (split; [intros; lia | done]).
Qed.

Lemma fails_of_eq l l' k : states l' !! k = states l !! k -> fails_of l' k = fails_of l k.
Proof. unfold fails_of. by intros ->. Qed.

Lemma unlocked_eq l l' k t : states l' !! k = states l !! k -> unlocked l' k t <-> unlocked l k t.
Proof. unfold unlocked. by intros ->. Qed.

(** The key itself after [RecordFailure]. *)
Lemma RecordFailure_self k now l : k <> "" ->
  let fs := recent (failureWindow l) now (fails_of l k) ++ [now] in
  if maxFailures l <=? Z.of_nat (length fs)
  then states (memory.RecordFailure k now l) !! k
       = Some {| failures := []; lockedUntil := now + lockDuration l |}
  else fails_of (memory.RecordFailure k now l) k = fs /\
       states (memory.RecordFailure k now l) !! k
       = Some {| failures := fs; lockedUntil := match states l !! k with
                                                | Some s => lockedUntil s | None => zero_time end |}.
Proof.
  intros Hk. unfold memory.RecordFailure, fails_of. rewrite (proj2 (String.eqb_neq k "")) by done.
  cbv zeta. unfold pruneFailures. simpl. rewrite lookup_insert_eq.
  destruct (states l !! k) as [s|]; simpl; fold (recent (failureWindow l) now);
    (destruct (_ <=? _); [done | split; done]).
Qed.

(** ** Throttling *)
Section Throttle.
Context (k : string) (D : Z).
Hypothesis k_key : k <> "".

(** [throttle T l H]: at time [T] the limiter [l] accounts for the failures
    [H] of the key: whenever the key is not locked, those of the last [D] are
    among the recorded ones. *)
Record throttle (T : Z) (l : LoginAttemptLimiter) (H : list Z) : Prop := {
  th_max : 0 < maxFailures l;
  th_window : D <= failureWindow l;
  th_lock : D <= lockDuration l;
  th_past : Forall (fun h => h <= T) H;
  th_few : Z.of_nat (length (fails_of l k)) < maxFailures l;
  th_count : forall t, T <= t -> unlocked l k t ->
    (length (recent D t H) <= length (recent (failureWindow l) t (fails_of l k)))%nat;
  th_bound : forall a, Z.of_nat (length (List.filter (fun h => (a <=? h) && (h <? a + D)) H)) <= maxFailures l;
}.

Lemma throttle_same T l l' H : throttle T l H -> same_params l l' ->
  states l' !! k = states l !! k -> throttle T l' H.
Proof.
  intros [] (E1 & E2 & E3) Es. pose proof (fails_of_eq _ _ _ Es) as Ef.
  constructor; rewrite ?E1, ?E2, ?E3, ?Ef; try done.
  intros t Ht Hu. apply th_count0; [done|]. by rewrite unlocked_eq in Hu.
Qed.

Lemma throttle_later T T' l H : throttle T l H -> T <= T' -> throttle T' l H.
Proof.
  intros [] Hle. constructor; try done.
  - eapply Forall_impl; [exact th_past0|]. simpl. lia.
  - intros t Ht. apply th_count0. lia.
Qed.

Lemma throttle_Allow T key now l H : throttle T l H -> T <= now ->
  throttle now (memory.Allow key now l).2 H.
Proof.
  intros Hth Hle. apply throttle_later with (T' := now) in Hth; [|done]. pose proof (Allow_params key now l) as Hp.
  destruct (decide (key = k)) as [->|Hk]; [|by eapply throttle_same; [..|by apply Allow_other]].
  destruct (Allow_self k now l k_key) as (Ef & Hu & _). destruct Hth. destruct Hp as (E1 & E2 & E3).
  constructor; rewrite ?E1, ?E2, ?E3, ?Ef; try done.
  - pose proof (recent_length (failureWindow l) now (fails_of l k)). lia.
  - intros t Ht Hun. rewrite recent_recent by done. by apply th_count0, Hu.
Qed.

Lemma throttle_success T key now l : throttle T l [] -> throttle T (memory.RecordSuccess key now l) [].
Proof.
  intros Hth. pose proof (RecordSuccess_params key now l) as Hp.
  destruct (decide (key = k)) as [->|Hk]; [|by eapply throttle_same; [..|by apply RecordSuccess_other]].
  destruct Hth, Hp as (E1 & E2 & E3).
  assert (Ef : fails_of (memory.RecordSuccess k now l) k = []).
  { unfold fails_of, memory.RecordSuccess. rewrite (proj2 (String.eqb_neq k "")) by done. simpl.
    by rewrite lookup_delete_eq. }
  constructor; rewrite ?E1, ?E2, ?E3, ?Ef; done.
Qed.

Lemma throttle_reset T l H : throttle T l H -> throttle T l [].
Proof. intros []. constructor; try done; simpl; intros; lia. Qed.

(** The failures of an interval that ends now are among those of the last [D]. *)
Lemma interval_recent a now H : a <= now < a + D ->
  (length (List.filter (fun h => (a <=? h)%Z && (h <? a + D)%Z) H) <= length (recent D now H))%nat.
Proof.
  intros Ha. unfold recent. induction H as [|h H IH]; simpl; [lia|].
  destruct (Z.leb_spec a h); simpl; [|destruct (_ <? _); simpl; lia].
  destruct (Z.ltb_spec h (a + D)); destruct (Z.ltb_spec (now - D) h); simpl; lia.
Qed.

Lemma throttle_failure T now l H : throttle T l H -> T <= now -> unlocked l k T ->
  throttle now (memory.RecordFailure k now l) (H ++ [now]).
Proof.
  intros Hth Hle Hun. pose proof (RecordFailure_params k now l) as (E1 & E2 & E3).
  assert (Hun' : unlocked l k now) by (revert Hun; unfold unlocked; destruct (states l !! k); [lia|done]).
  pose proof (RecordFailure_self k now l k_key) as Hself. destruct Hth. cbv zeta in Hself.
  pose proof (th_count0 now Hle Hun') as Hc. pose proof (recent_length (failureWindow l) now (fails_of l k)) as Hr.
  assert (Hpast : Forall (fun h => h <= now) (H ++ [now])).
  { apply Forall_app. split; [|repeat constructor; lia]. eapply Forall_impl; [exact th_past0|]. simpl. lia. }
  assert (Hb : forall a, Z.of_nat (length (List.filter (fun h => (a <=? h) && (h <? a + D)) (H ++ [now])))
                         <= maxFailures l).
  { intros a. rewrite List.filter_app, length_app. simpl.
    destruct (Z.leb_spec a now); destruct (Z.ltb_spec now (a + D)); simpl;
      try (rewrite Nat.add_0_r; apply th_bound0).
    pose proof (interval_recent a now H ltac:(lia)). lia. }
  destruct (_ <=? _) eqn:El; breflect.
  - assert (Ef : fails_of (memory.RecordFailure k now l) k = []) by (unfold fails_of; by rewrite Hself).
    constructor; rewrite ?E1, ?E2, ?E3, ?Ef; try done. intros t Ht. unfold unlocked. rewrite Hself. simpl.
    intros Hl. rewrite recent_none; [simpl; lia|]. eapply Forall_impl; [exact Hpast|]. simpl. lia.
  - destruct Hself as [Ef Es]. rewrite length_app in El. simpl in El.
    constructor; rewrite ?E1, ?E2, ?E3, ?Ef; try done; [rewrite length_app; simpl; lia|].
    intros t Ht Hu. rewrite !recent_app, recent_recent, !length_app by lia.
    assert (Hu' : unlocked l k t) by (revert Hu; unfold unlocked; rewrite Es; by destruct (states l !! k)).
    pose proof (th_count0 t ltac:(lia) Hu'). pose proof (recent_mono (failureWindow l) D t [now] th_window0). lia.
Qed.
End Throttle.

(** ** Sequences of logins *)

(** One login: its names, when it starts and finishes, and what the service
    answers if it is asked. *)
Record login := {
  lg_user : string; lg_ip : string; lg_start : Z; lg_finish : Z; lg_answer : res unit;
}.

Definition credential_error (e : goerr) : bool :=
  match As e with
  | Some a => (ae_Code a =? app_code ErrInvalidCredential) || (ae_Code a =? app_code ErrUserDisabled)
  | None => false
  end.

(** The logins one after the other, with the times of the wrong guesses that
    the service judged for the key [k] since the last success. *)
Fixpoint logins (k : string) (evs : list login) (l : LoginAttemptLimiter) (H : list Z)
  : LoginAttemptLimiter * list Z :=
  match evs with
  | [] => (l, H)
  | e :: evs =>
    let '(r, l') := handler_Login (lg_user e) (lg_ip e) (lg_start e) (lg_finish e)
                      (fun _ => lg_answer e) l in
    let H' := if (BuildLoginAttemptKey (lg_user e) (lg_ip e) =? k)%string then
                match r with
                | Ok _ => []
                | Err err => if credential_error err then H ++ [lg_finish e] else H
                end
              else H in
    logins k evs l' H'
  end.

(** The logins do not overlap. *)
Fixpoint chronological (T : Z) (evs : list login) : Prop :=
  match evs with
  | [] => True
  | e :: evs => T <= lg_start e /\ lg_start e <= lg_finish e /\ chronological (lg_finish e) evs
  end.

Lemma rate_limited_not_credential d : credential_error (rate_limited d) = false.
Proof. reflexivity. Qed.

Lemma Allow_error key now l e l' :
  memory.Allow key now l = (Some e, l') -> exists d, e = rate_limited d.
Proof.
  unfold memory.Allow. destruct (_ =? _)%string; [done|]. destruct (states l !! key); [|done].
  cbv zeta. destruct (_ <? _); [|by destruct (failures _)]. intros [= <- _]. eauto.
Qed.

(** The handler over the limiter in memory. *)
Lemma handler_Login_memory {A} user ip start finish (f : unit -> res A) l :
  handler_Login user ip start finish f l =
  let key := BuildLoginAttemptKey user ip in
  match memory.Allow key start l with
  | (Some err, g) => (Err err, g)
  | (None, g) =>
    match f tt with
    | Err err => (Err err, if credential_error err then memory.RecordFailure key finish g else g)
    | Ok resp => (Ok resp, memory.RecordSuccess key finish g)
    end
  end.
Proof.
  unfold handler_Login, credential_error. cbn. destruct (memory.Allow _ _ _) as [[e|] g]; [done|].
  destruct (f tt) as [x|e]; [done|]. destruct (As e); [|done]. by destruct (_ || _).
Qed.

(** One login keeps the account of the key. *)
Lemma throttle_login k D T e l H : k <> "" -> throttle k D T l H ->
  T <= lg_start e -> lg_start e <= lg_finish e ->
  let '(r, l') := handler_Login (lg_user e) (lg_ip e) (lg_start e) (lg_finish e)
                    (fun _ => lg_answer e) l in
  throttle k D (lg_finish e) l'
    (if (BuildLoginAttemptKey (lg_user e) (lg_ip e) =? k)%string then
       match r with
       | Ok _ => [] | Err err => if credential_error err then H ++ [lg_finish e] else H
       end else H).
Proof.
  intros Hk Hth Hs Hf. rewrite handler_Login_memory. cbv zeta.
  set (key := BuildLoginAttemptKey _ _).
  pose proof (throttle_Allow k D Hk T key (lg_start e) l H Hth Hs) as Ha.
  destruct (memory.Allow key (lg_start e) l) as [[err|] g] eqn:Eg; simpl in Ha.
  - apply Allow_error in Eg as [d ->]. cbv beta iota. rewrite rate_limited_not_credential.
    destruct (_ =? _)%string; by eapply throttle_later.
  - assert (Hlater : throttle k D (lg_finish e) g H) by by eapply throttle_later.
    destruct (lg_answer e) as [x|err].
    + destruct (String.eqb_spec key k) as [->|Hne].
      * apply throttle_success; [done|]. by eapply throttle_reset.
      * by eapply throttle_same; [exact Hlater | apply RecordSuccess_params | apply RecordSuccess_other].
    + destruct (credential_error err); [|by destruct (_ =? _)%string].
      destruct (String.eqb_spec key k) as [E|Hne].
      * rewrite E. apply throttle_failure with (T := lg_start e); [done|done|done|].
        rewrite E in Eg.
        pose proof (Allow_self k (lg_start e) l Hk) as (_ & _ & Hn). rewrite Eg in Hn. simpl in Hn.
        destruct Hn as [Hn _]. specialize (Hn eq_refl). revert Hn Eg. clear.
        unfold unlocked, memory.Allow. destruct (_ =? _)%string; [by intros ? [= <-]|].
        destruct (states l !! k) as [s|] eqn:Es; [|intros _ [= <-]; by rewrite Es]. cbv zeta.
        destruct (_ <? _); [done|].
        destruct (failures _); intros ? [= <-]; simpl; by rewrite ?lookup_delete_eq, ?lookup_insert_eq.
      * by eapply throttle_same; [exact Hlater | apply RecordFailure_params | apply RecordFailure_other].
Qed.

Lemma throttle_logins k D evs : k <> "" -> forall T l H, throttle k D T l H -> chronological T evs ->
  exists T', throttle k D T' (logins k evs l H).1 (logins k evs l H).2.
Proof.
  intros Hk. induction evs as [|e evs IH]; intros T l H Hth Hc; [by exists T|].
  destruct Hc as (Hs & Hf & Hc). pose proof (throttle_login k D T e l H Hk Hth Hs Hf) as Hl.
  cbn [logins]. destruct (handler_Login _ _ _ _ _ _) as [r l']. by eapply IH.
Qed.

Lemma same_params_trans l1 l2 l3 : same_params l1 l2 -> same_params l2 l3 -> same_params l1 l3.
Proof. unfold same_params. intuition congruence. Qed.

Lemma logins_params k evs : forall l H, same_params l (logins k evs l H).1.
Proof.
  induction evs as [|e evs IH]; intros l H; [done|]. cbn [logins]. rewrite handler_Login_memory. cbv zeta.
  pose proof (Allow_params (BuildLoginAttemptKey (lg_user e) (lg_ip e)) (lg_start e) l) as Ha.
  destruct (memory.Allow _ _ _) as [[err|] g]; simpl in Ha;
    [by eapply same_params_trans|].
  destruct (lg_answer e) as [x|err]; [|destruct (credential_error err)];
    (eapply same_params_trans; [exact Ha|]); [| |apply IH];
    (eapply same_params_trans; [|apply IH]); [apply RecordSuccess_params | apply RecordFailure_params].
Qed.

Lemma throttle_new k T m w d : throttle k (Z.min w d) T
  {| maxFailures := Z.max 1 m; failureWindow := w; lockDuration := d; states := ∅ |} [].
Proof.
  constructor; simpl; try lia; try done; unfold fails_of; simpl; rewrite lookup_empty; simpl; lia.
Qed.

(** C18 The limiter throttles guessing: as long as the logins do not overlap, a
    user name and address never have more than [maxFailures] wrong passwords
    judged within any interval as long as the failure window and the lock,
    since the last success, whatever other logins, errors of the service and
    refused attempts are mixed in. *)
Theorem logins_throttled (k : string) (T MaxFailures FailureWindow LockDuration : Z) (evs : list login) :
  k <> "" -> chronological T evs ->
  let l := NewLoginAttemptLimiter MaxFailures FailureWindow LockDuration in
  let guesses := (logins k evs l []).2 in
  forall a, Z.of_nat (length (List.filter
      (fun t => (a <=? t) && (t <? a + Z.min (failureWindow l) (lockDuration l))) guesses))
    <= maxFailures l.
Proof.
  intros Hk Hc. cbv zeta. intros a.
  set (l := NewLoginAttemptLimiter _ _ _).
  assert (Hl : throttle k (Z.min (failureWindow l) (lockDuration l)) T l []).
  { pose proof (throttle_new k T (maxFailures l) (failureWindow l) (lockDuration l)) as Hn.
    assert (Hm : Z.max 1 (maxFailures l) = maxFailures l).
    { unfold l, NewLoginAttemptLimiter. simpl. destruct (Z.leb_spec MaxFailures 0); [done | lia]. }
    rewrite Hm in Hn. exact Hn. }
  destruct (throttle_logins k _ evs Hk T l [] Hl Hc) as [T' Ht].
  destruct (logins_params k evs l []) as (Em & _). rewrite <- Em. exact (th_bound _ _ _ _ _ Ht a).
Qed.

Definition wrong_guess (t : Z) : login :=
  {| lg_user := " Admin"; lg_ip := "10.0.0.1"; lg_start := t * Second; lg_finish := t * Second;
     lg_answer := Err ErrInvalidCredential |}.

Definition guessing : list login := map (fun n => wrong_guess (Z.of_nat n)) (seq 0 40).

Lemma logins_throttled_witness :
  ("admin|10.0.0.1" <> ""%string /\ chronological 0 guessing /\
   forall a, Z.of_nat (length (List.filter (fun t => (a <=? t) && (t <? a + Z.min (10 * Second) (20 * Second)))
     (logins "admin|10.0.0.1" guessing (NewLoginAttemptLimiter 3 (10 * Second) (20 * Second)) []).2)) <= 3) /\
  (logins "admin|10.0.0.1" guessing (NewLoginAttemptLimiter 3 (10 * Second) (20 * Second)) []).2
  = map (fun t => t * Second) [0; 1; 2; 22; 23; 24].
Proof.
  split; [|vm_compute; reflexivity].
  assert (Hc : chronological 0 guessing) by (vm_compute; repeat split; discriminate).
  split; [done|]. split; [exact Hc|].
  exact (logins_throttled "admin|10.0.0.1" 0 3 (10 * Second) (20 * Second) guessing ltac:(discriminate) Hc).
Defined.

(** ** The lock of one key *)

Definition fail_all (key : string) (ts : list Z) (l : LoginAttemptLimiter) : LoginAttemptLimiter :=
  fold_left (fun l t => memory.RecordFailure key t l) ts l.

Lemma fail_all_app key ts us l : fail_all key (ts ++ us) l = fail_all key us (fail_all key ts l).
Proof. apply fold_left_app. Qed.

Lemma fail_all_params key ts l : same_params l (fail_all key ts l).
Proof.
  revert l. induction ts as [|t ts IH]; intros l; [done|].
  eapply same_params_trans; [apply RecordFailure_params | apply IH].
Qed.

Lemma fail_all_other key ts l k : key <> k -> states (fail_all key ts l) !! k = states l !! k.
Proof.
  intros Hk. revert l. induction ts as [|t ts IH]; intros l; [done|].
  change (states (fail_all key ts (memory.RecordFailure key t l)) !! k = states l !! k).
  by rewrite IH, RecordFailure_other.
Qed.

(** Below the limit, the failures of a fresh key are all recorded. *)
Lemma fail_all_below key ts l : key <> "" -> states l !! key = None ->
  (forall t u, t ∈ ts -> u ∈ ts -> t - failureWindow l < u) ->
  Z.of_nat (length ts) < maxFailures l ->
  fails_of (fail_all key ts l) key = ts /\
  (match states (fail_all key ts l) !! key with Some s => lockedUntil s = zero_time | None => ts = [] end).
Proof.
  intros Hk Hl. induction ts as [|t ts IH] using rev_ind; intros Hw Hn.
  { unfold fails_of. simpl. by rewrite Hl. }
  rewrite fail_all_app. change (fail_all key [t] ?x) with (memory.RecordFailure key t x).
  rewrite length_app in Hn. simpl in Hn.
  destruct IH as [Hf Hs]; [intros; apply Hw; apply elem_of_app; auto | lia |].
  pose proof (RecordFailure_self key t (fail_all key ts l) Hk) as Hr. cbv zeta in Hr.
  destruct (fail_all_params key ts l) as (Em & Ew & Ed). rewrite Em, Ew, Hf in Hr.
  rewrite recent_all in Hr; [|apply Forall_forall; intros u Hu; apply Hw; apply elem_of_app; [right; constructor | by left]].
  rewrite length_app in Hr. simpl in Hr. destruct (Z.leb_spec (maxFailures l) (Z.of_nat (length ts + 1))); [lia|].
  destruct Hr as [Ef Es]. rewrite Ef, Es. split; [done|]. simpl. by destruct (states (fail_all key ts l) !! key).
Qed.

(** The lock: failures of a fresh key within one window leave it open while
    they are fewer than [maxFailures]; the [maxFailures]-th locks it for exactly
    [lockDuration] from that moment (429), a success opens it at once, and no
    other key is touched. *)
Theorem lockout (key : string) (ts : list Z) (last t : Z) (l : LoginAttemptLimiter) :
  key <> "" -> states l !! key = None -> zero_time <= t ->
  (forall u v, u ∈ ts ++ [last] -> v ∈ ts ++ [last] -> u - failureWindow l < v) ->
  let l' := fail_all key (ts ++ [last]) l in
  (Z.of_nat (length ts) + 1 < maxFailures l -> (memory.Allow key t l').1 = None) /\
  (Z.of_nat (length ts) + 1 = maxFailures l ->
     ((memory.Allow key t l').1 = None <-> last + lockDuration l <= t) /\
     (forall e, (memory.Allow key t l').1 = Some e -> http_status e = 429)) /\
  (memory.Allow key t (memory.RecordSuccess key t l')).1 = None /\
  (forall k, k <> key -> states l' !! k = states l !! k).
Proof.
  intros Hk Hl Hz Hw. cbv zeta. set (l' := fail_all key (ts ++ [last]) l).
  destruct (Allow_self key t l' Hk) as (_ & _ & Ha). split; [|split; [|split]].
  - intros Hn. apply Ha. unfold unlocked, l'.
    destruct (fail_all_below key (ts ++ [last]) l) as [_ Hs]; [done..|rewrite length_app; simpl; lia|].
    revert Hs. destruct (states (fail_all _ _ _) !! key); [lia | done].
  - intros Hn. split.
    + rewrite Ha. unfold unlocked, l'. rewrite fail_all_app.
      change (fail_all key [last] ?x) with (memory.RecordFailure key last x).
      destruct (fail_all_below key ts l) as [Hf _]; [done|done|..|lia|].
      { intros u v Hu Hv. apply Hw; apply elem_of_app; auto. }
      pose proof (RecordFailure_self key last (fail_all key ts l) Hk) as Hr. cbv zeta in Hr.
      destruct (fail_all_params key ts l) as (Em & Ew & Ed). rewrite Em, Ew, Ed, Hf in Hr.
      rewrite recent_all in Hr; [|apply Forall_forall; intros u Hu; apply Hw; apply elem_of_app; [right; constructor | by left]].
      rewrite length_app in Hr. simpl in Hr.
      destruct (Z.leb_spec (maxFailures l) (Z.of_nat (length ts + 1))); [|lia]. by rewrite Hr.
    + intros e He. destruct (memory.Allow key t l') as [o g] eqn:Eg. simpl in He. subst o.
      by apply Allow_error in Eg as [d ->].
  - apply Allow_self; [done|]. unfold unlocked, memory.RecordSuccess.
    rewrite (proj2 (String.eqb_neq key "")) by done. simpl. by rewrite lookup_delete_eq.
  - intros k Hne. by apply fail_all_other.
Qed.

Lemma lockout_witness :
  let l := NewLoginAttemptLimiter 3 0 (5 * Minute) in
  let l' := fail_all "bob|::1" ([0; Minute] ++ [2 * Minute]) l in
  (((memory.Allow "bob|::1" (3 * Minute) l').1 = None <-> 2 * Minute + lockDuration l <= 3 * Minute) /\
   (forall e, (memory.Allow "bob|::1" (3 * Minute) l').1 = Some e -> http_status e = 429)) /\
  option_map Error (memory.Allow "bob|::1" (3 * Minute) l').1
    = Some "too many login attempts, try later: retry after 4m0s"%string.
Proof.
  cbv zeta. split; [|vm_compute; reflexivity].
  refine (proj1 (proj2 (lockout "bob|::1" [0; Minute] (2 * Minute) (3 * Minute)
            (NewLoginAttemptLimiter 3 0 (5 * Minute)) _ _ _ _)) _).
  - discriminate.
  - reflexivity.
  - vm_compute. discriminate.
  - change (failureWindow (NewLoginAttemptLimiter 3 0 (5 * Minute))) with (15 * Minute).
    intros u v Hu Hv. simpl in Hu, Hv. rewrite !elem_of_cons, elem_of_nil in Hu, Hv.
    destruct Hu as [->|[->|[->|[]]]], Hv as [->|[->|[->|[]]]]; vm_compute; reflexivity.
  - reflexivity.
Defined.

(** ** Logins that overlap *)

(** The check and the record are two calls: of any number [n] of logins
    that overlap, all with a wrong password, every one is let through, whatever
    the limits, before the first failure is recorded; the throttle above is for
    logins one after the other. *)
Theorem parallel_logins_unthrottled (n : nat) (key : string) (t : Z) (l : LoginAttemptLimiter) :
  states l !! key = None ->
  fold_left (fun '(rs, l) _ => let '(r, l') := memory.Allow key t l in (rs ++ [r], l'))
    (seq 0 n) ([], l) = (replicate n None, l).
Proof.
  intros Hl. induction n as [|n IH]; [done|]. rewrite seq_S, fold_left_app, IH. simpl.
  unfold memory.Allow. destruct (_ =? _)%string; [|rewrite Hl]; f_equal; by rewrite <- replicate_S_end.
Qed.

Lemma parallel_logins_unthrottled_witness :
  let l := NewLoginAttemptLimiter 3 Minute Minute in
  fold_left (fun '(rs, l) _ => let '(r, l') := memory.Allow "bob|::1" 0 l in (rs ++ [r], l'))
    (seq 0 1000) ([], l) = (replicate 1000 None, l).
Proof. cbv zeta. apply (parallel_logins_unthrottled 1000). reflexivity. Defined.
