(* ===== verification/RedisLimiter.v ===== *)
(** * Login throttling over Redis

    [internal/security/login_attempt_limiter_redis.go].  The Redis server is
    external: the class [Redis] gives its commands and the documented laws the
    limiter relies on, over the live value and deadline of a key.  The limiter
    keeps a limiter in memory as a fallback for an unreachable server. *)

From Stdlib Require Import ZArith Lia.
From stdpp Require Import gmap.
From S2P Require Import Prelude GoString GoTime GoError LoginLimiter.
Import LoginLimiter.memory.

(** Times of the server are milliseconds; a key holds a number and, perhaps, a
    deadline. *)
Class Redis (R : Type) := {
  live : R -> Z -> string -> option (Z * option Z);
  PTTL : string -> Z -> R -> Z;
  EXISTS : string -> Z -> R -> bool;
  INCR : string -> Z -> R -> Z * R;
  PEXPIRE : string -> Z -> Z -> R -> R;
  SETPX : string -> Z -> Z -> Z -> R -> option R;
  DEL : list string -> R -> R;
}.

Class RedisLaws (R : Type) `{Redis R} := {
  live_later r ms ms' k : ms <= ms' ->
    live r ms' k = match live r ms k with
                   | Some (v, Some e) => if ms' <? e then Some (v, Some e) else None
                   | x => x
                   end;
  (** As go-redis hands it over: -2 for no key, -1 for no deadline. *)
  PTTL_live r ms k : PTTL k ms r = match live r ms k with
                                   | None => -2
                                   | Some (_, None) => -1
                                   | Some (_, Some e) => (e - ms) * Millisecond
                                   end;
  EXISTS_live r ms k : EXISTS k ms r = bool_decide (is_Some (live r ms k));
  INCR_value r ms k : (INCR k ms r).1 = match live r ms k with Some (v, _) => v + 1 | None => 1 end;
  INCR_live r ms k k' : live (INCR k ms r).2 ms k'
    = if decide (k = k')
      then Some ((INCR k ms r).1, match live r ms k with Some (_, e) => e | None => None end)
      else live r ms k';
  PEXPIRE_live r d ms k k' : live (PEXPIRE k d ms r) ms k'
    = if decide (k = k')
      then match live r ms k with
           | Some (v, _) => if 0 <? d then Some (v, Some (ms + d)) else None
           | None => None
           end
      else live r ms k';
  (** A deadline that is not positive is an error. *)
  SETPX_live r v d ms k : match SETPX k v d ms r with
    | Some r' => 0 < d /\ forall k', live r' ms k' = if decide (k = k') then Some (v, Some (ms + d)) else live r ms k'
    | None => d <= 0
    end;
  DEL_live r ms ks k' : live (DEL ks r) ms k' = if decide (k' ∈ ks) then None else live r ms k';
}.

Definition defaultLoginAttemptRedisPrefix : string := "snowpanel:auth:attempt".

(** What a call observes: the clock of the process, the clock of the server,
    and whether the server answers in time. *)
Record net := { clock : Z; server_ms : Z; reachable : bool }.

Section Limiter.
Context {R : Type} `{Redis R}.

Record RedisLoginAttemptLimiter := {
  client : option R;
  r_maxFailures : Z;
  r_failureWindow : Z;
  r_lockDuration : Z;
  keyPrefix : string;
  fallback : LoginAttemptLimiter;
}.

Definition NewRedisLoginAttemptLimiter (c : option R)
    (MaxFailures FailureWindow LockDuration : Z) (KeyPrefix : string) : RedisLoginAttemptLimiter :=
  let maxFailures := if MaxFailures <=? 0 then defaultLoginMaxFailures else MaxFailures in
  let failureWindow := if FailureWindow <=? 0 then defaultLoginFailureWindow else FailureWindow in
  let lockDuration := if LockDuration <=? 0 then defaultLoginLockDuration else LockDuration in
  let keyPrefix := TrimSpace KeyPrefix in
  {| client := c; r_maxFailures := maxFailures; r_failureWindow := failureWindow;
     r_lockDuration := lockDuration;
     keyPrefix := if (keyPrefix =? "")%string then defaultLoginAttemptRedisPrefix else keyPrefix;
     fallback := NewLoginAttemptLimiter maxFailures failureWindow lockDuration |}.

Definition with_client (c : option R) (l : RedisLoginAttemptLimiter) : RedisLoginAttemptLimiter :=
  {| client := c; r_maxFailures := r_maxFailures l; r_failureWindow := r_failureWindow l;
     r_lockDuration := r_lockDuration l; keyPrefix := keyPrefix l; fallback := fallback l |}.

Definition with_fallback (f : LoginAttemptLimiter) (l : RedisLoginAttemptLimiter) : RedisLoginAttemptLimiter :=
  {| client := client l; r_maxFailures := r_maxFailures l; r_failureWindow := r_failureWindow l;
     r_lockDuration := r_lockDuration l; keyPrefix := keyPrefix l; fallback := f |}.

Definition lockKey (l : RedisLoginAttemptLimiter) (attemptKey : string) : string :=
  (keyPrefix l +:+ ":lock:" +:+ attemptKey)%string.

Definition failuresKey (l : RedisLoginAttemptLimiter) (attemptKey : string) : string :=
  (keyPrefix l +:+ ":failures:" +:+ attemptKey)%string.

(** The Lua script; a command that fails ends it and keeps what was done. *)
Definition recordFailureScript (lockKey failuresKey : string)
    (maxFailures failureWindowMs lockDurationMs ms : Z) (r : R) : R :=
  if EXISTS lockKey ms r then r
  else
    let '(count, r) := INCR failuresKey ms r in
    let r := if count =? 1 then PEXPIRE failuresKey failureWindowMs ms r else r in
    if maxFailures <=? count then
      match SETPX lockKey 1 lockDurationMs ms r with
      | Some r => DEL [failuresKey] r
      | None => r
      end
    else r.

Definition redis_Allow (key : string) (e : net) (l : RedisLoginAttemptLimiter)
  : option goerr * RedisLoginAttemptLimiter :=
  let use_fallback :=
    let '(r, f) := memory.Allow key (clock e) (fallback l) in (r, with_fallback f l) in
  if (key =? "")%string then (None, l)
  else
    match client l with
    | None => use_fallback
    | Some r =>
      if negb (reachable e) then use_fallback
      else
        let ttl := PTTL (lockKey l key) (server_ms e) r in
        if (0 <? ttl) || (ttl =? -1) then
          let ttl := if ttl <? Second then Second else ttl in
          let ttl := if ttl =? -1 then r_lockDuration l else ttl in
          (Some (rate_limited (Round ttl Second)), l)
        else (None, l)
    end.

Definition redis_RecordFailure (key : string) (e : net) (l : RedisLoginAttemptLimiter)
  : RedisLoginAttemptLimiter :=
  if (key =? "")%string then l
  else
    let l := with_fallback (memory.RecordFailure key (clock e) (fallback l)) l in
    match client l with
    | None => l
    | Some r =>
      if negb (reachable e) then l
      else with_client (Some (recordFailureScript (lockKey l key) (failuresKey l key) (r_maxFailures l)
             (Milliseconds (r_failureWindow l)) (Milliseconds (r_lockDuration l)) (server_ms e) r)) l
    end.

Definition redis_RecordSuccess (key : string) (e : net) (l : RedisLoginAttemptLimiter)
  : RedisLoginAttemptLimiter :=
  if (key =? "")%string then l
  else
    let l := with_fallback (memory.RecordSuccess key (clock e) (fallback l)) l in
    match client l with
    | None => l
    | Some r =>
      if negb (reachable e) then l
      else with_client (Some (DEL [lockKey l key; failuresKey l key] r)) l
    end.

#[export] Instance redis_guard : LoginAttemptGuard net RedisLoginAttemptLimiter := {
  Allow := redis_Allow;
  RecordFailure := redis_RecordFailure;
  RecordSuccess := redis_RecordSuccess;
}.
End Limiter.
Arguments RedisLoginAttemptLimiter R : clear implicits.

(** ** The server is away *)
Section Outage.
Context {R : Type} `{Redis R}.

(** C39 While Redis is unreachable (or not configured) a login is judged exactly
    as by the limiter in memory: the same answer, the same fallback state, and
    the server's data is not touched. *)
Theorem outage_is_memory {A} (user ip : string) (start finish : net) (f : unit -> res A)
    (l : RedisLoginAttemptLimiter R) :
  (client l = None \/ (reachable start = false /\ reachable finish = false)) ->
  handler_Login user ip start finish f l
  = let '(r, g) := handler_Login user ip (clock start) (clock finish) f (fallback l) in
    (r, with_fallback g l).
Proof.
  intros Hc. rewrite handler_Login_memory. unfold handler_Login. cbn. cbv zeta.
  set (key := BuildLoginAttemptKey user ip).
  assert (Hk : (key =? "")%string = false) by apply String.eqb_neq, key_not_empty.
  assert (Ha : redis_Allow key start l = let '(r, g) := memory.Allow key (clock start) (fallback l) in
                                         (r, with_fallback g l)).
  { unfold redis_Allow. rewrite Hk. destruct (client l); [|done].
    destruct Hc as [|[-> _]]; [done|]. done. }
  rewrite Ha. destruct (memory.Allow _ _ _) as [[e|] g]; [done|].
  assert (Hf : redis_RecordFailure key finish (with_fallback g l)
               = with_fallback (memory.RecordFailure key (clock finish) g) l).
  { unfold redis_RecordFailure. rewrite Hk. cbn. destruct (client l) eqn:El; [|done].
    destruct Hc as [|[_ ->]]; [done|]. done. }
  assert (Hs : redis_RecordSuccess key finish (with_fallback g l)
               = with_fallback (memory.RecordSuccess key (clock finish) g) l).
  { unfold redis_RecordSuccess. rewrite Hk. cbn. destruct (client l) eqn:El; [|done].
    destruct Hc as [|[_ ->]]; [done|]. done. }
  unfold credential_error. destruct (f tt) as [x|e]; [by rewrite Hs|].
  destruct (As e); [|done]. destruct (_ || _); [by rewrite Hf | done].
Qed.
End Outage.

(** ** The lock on the server *)
Section Lock.
Context {R : Type} `{RedisLaws R}.
Implicit Types (l : RedisLoginAttemptLimiter R) (r : R).

Lemma live_keep r ms ms' k v e : ms <= ms' -> ms' < e ->
  live r ms k = Some (v, Some e) -> live r ms' k = Some (v, Some e).
Proof.
  intros Hle Hlt Hl. rewrite (live_later r ms ms' k Hle), Hl.
  destruct (Z.ltb_spec ms' e); [done|lia].
Qed.

Lemma live_none r ms ms' k : ms <= ms' -> live r ms k = None -> live r ms' k = None.
Proof. intros Hle Hl. by rewrite (live_later r ms ms' k Hle), Hl. Qed.

Definition next_count r ms (k : string) : Z := match live r ms k with Some (v, _) => v + 1 | None => 1 end.

(** The script where the lock is not set. *)
Lemma script_live lk fk max W L ms r k :
  lk <> fk -> 0 < W -> 0 < L -> live r ms lk = None ->
  let c := next_count r ms fk in
  live (recordFailureScript lk fk max W L ms r) ms k
  = if max <=? c then
      if decide (lk = k) then Some (1, Some (ms + L))
      else if decide (fk = k) then None else live r ms k
    else if decide (fk = k) then
      Some (c, if c =? 1 then Some (ms + W) else match live r ms fk with Some (_, e) => e | None => None end)
    else live r ms k.
Proof.
  intros Hne HW HL Hlk. cbv zeta. unfold recordFailureScript. rewrite EXISTS_live, Hlk. simpl.
  pose proof (INCR_value r ms fk) as Hc. pose proof (INCR_live r ms fk) as Hi.
  change (match live r ms fk with Some (v, _) => v + 1 | None => 1 end) with (next_count r ms fk) in Hc.
  destruct (INCR fk ms r) as [c r1]. simpl in Hc, Hi. subst c. set (c := next_count r ms fk) in *.
  set (r2 := if c =? 1 then PEXPIRE fk W ms r1 else r1).
  assert (H2 : forall k', live r2 ms k' = if decide (fk = k') then
      Some (c, if c =? 1 then Some (ms + W) else match live r ms fk with Some (_, e) => e | None => None end)
      else live r ms k').
  { intros k'. unfold r2. destruct (Z.eqb_spec c 1) as [E|E]; [|apply Hi].
    rewrite PEXPIRE_live, !Hi. rewrite (decide_True _ _ (eq_refl fk)).
    destruct (decide (fk = k')); [|done]. destruct (Z.ltb_spec 0 W); [done|lia]. }
  destruct (max <=? c); [|apply H2]. pose proof (SETPX_live r2 1 L ms lk) as Hs.
  destruct (SETPX lk 1 L ms r2) as [r3|]; [|lia]. destruct Hs as [_ Hs]. rewrite DEL_live, Hs, H2.
  destruct (decide (k ∈ [fk])) as [Hin|Hin]; rewrite list_elem_of_singleton in Hin.
  - subst k. rewrite (decide_True _ _ (eq_refl fk)). by destruct (decide (lk = fk)).
  - destruct (decide (lk = k)); [done|]. by destruct (decide (fk = k)).
Qed.

Lemma keys_ne l key : lockKey l key <> failuresKey l key.
Proof.
  unfold lockKey, failuresKey. intros E. by apply (inj (String.append _)) in E.
Qed.

Lemma last_cons_default {A} (x d : A) xs : List.last (x :: xs) d = List.last xs x.
Proof.
  revert x d. induction xs as [|y xs IH]; intros x d; [done|].
  change (List.last (y :: xs) d = List.last (y :: xs) x). by rewrite !IH.
Qed.

(** Failures one after the other on the server. *)
Definition server_fail (lk fk : string) (max W L : Z) (mss : list Z) r : R :=
  fold_left (fun r ms => recordFailureScript lk fk max W L ms r) mss r.

Fixpoint ordered (T : Z) (ms : list Z) : Prop :=
  match ms with [] => True | m :: ms => T <= m /\ ordered m ms end.

Lemma server_fail_from lk fk max W L mss : lk <> fk -> 0 < W -> 0 < L -> forall ms r c d,
  live r ms lk = None -> live r ms fk = Some (c, Some d) -> 1 <= c ->
  ordered ms mss -> Forall (fun m => m < d) mss -> c + Z.of_nat (length mss) < max ->
  live (server_fail lk fk max W L mss r) (List.last mss ms) lk = None /\
  live (server_fail lk fk max W L mss r) (List.last mss ms) fk = Some (c + Z.of_nat (length mss), Some d).
Proof.
  intros Hne HW HL. induction mss as [|m mss IH]; intros ms r c d Hlk Hfk Hc Ho Hd Hn.
  { simpl. by rewrite Z.add_0_r. }
  destruct Ho as [Hm Ho]. inversion Hd as [|? ? Hmd Hd']; subst.
  apply (live_none _ _ m) in Hlk; [|done]. apply (live_keep _ _ m) in Hfk; [|done..].
  pose proof (fun k => script_live lk fk max W L m r k Hne HW HL Hlk) as Hs. cbv zeta in Hs.
  assert (Hnc : next_count r m fk = c + 1) by (unfold next_count; by rewrite Hfk). rewrite Hnc, Hfk in Hs.
  cbn [length] in Hn |- *. destruct (Z.leb_spec max (c + 1)); [lia|]. destruct (Z.eqb_spec (c + 1) 1); [lia|].
  rewrite last_cons_default.
  destruct (IH m (recordFailureScript lk fk max W L m r) (c + 1) d) as [Hl1 Hl2]; [..|lia|done|done|lia|].
  - rewrite Hs. by destruct (decide (fk = lk)) as [->|].
  - rewrite Hs. by rewrite decide_True.
  - split; [done|]. unfold server_fail in *. cbn [fold_left]. rewrite Hl2. do 2 f_equal. lia.
Qed.

(** Starting with no failure recorded. *)
Lemma server_below lk fk max W L m mss r : lk <> fk -> 0 < W -> 0 < L ->
  live r m lk = None -> live r m fk = None -> ordered m mss -> Forall (fun x => x < m + W) mss ->
  Z.of_nat (length mss) + 1 < max ->
  live (server_fail lk fk max W L (m :: mss) r) (List.last mss m) lk = None /\
  live (server_fail lk fk max W L (m :: mss) r) (List.last mss m) fk
    = Some (1 + Z.of_nat (length mss), Some (m + W)).
Proof.
  intros Hne HW HL Hlk Hfk Ho Hw Hn.
  pose proof (fun k => script_live lk fk max W L m r k Hne HW HL Hlk) as Hs. cbv zeta in Hs.
  assert (Hc : next_count r m fk = 1) by (unfold next_count; by rewrite Hfk). rewrite Hc in Hs.
  destruct (Z.leb_spec max 1); [lia|]. change (server_fail lk fk max W L (m :: mss) r)
    with (server_fail lk fk max W L mss (recordFailureScript lk fk max W L m r)).
  apply server_fail_from; [done..| | |lia|done|done|lia]; rewrite Hs; [|by rewrite decide_True].
  by destruct (decide (fk = lk)) as [->|].
Qed.

Lemma ordered_app T (xs : list Z) m : ordered T (xs ++ [m]) -> ordered T xs /\ List.last xs T <= m.
Proof.
  revert T. induction xs as [|x xs IH]; intros T; [simpl; lia|]. rewrite last_cons_default.
  intros [Hx Ho]. apply IH in Ho as [Ho Hl]. done.
Qed.

Lemma server_locks lk fk max W L m mss r t : lk <> fk -> 0 < W -> 0 < L ->
  live r m lk = None -> live r m fk = None -> ordered m mss -> Forall (fun x => x < m + W) mss ->
  Z.of_nat (length mss) + 1 = max -> List.last mss m <= t ->
  live (server_fail lk fk max W L (m :: mss) r) t lk = None <-> List.last mss m + L <= t.
Proof.
  intros Hne HW HL Hlk Hfk Ho Hw Hn Ht.
  enough (E : live (server_fail lk fk max W L (m :: mss) r) (List.last mss m) lk
              = Some (1, Some (List.last mss m + L))).
  { rewrite (live_later _ _ _ _ Ht), E. destruct (Z.ltb_spec t (List.last mss m + L)); split; (lia || done). }
  destruct mss as [|x mss _] using rev_ind.
  - simpl in Hn |- *. unfold server_fail. simpl. rewrite script_live by done. cbv zeta. unfold next_count.
    rewrite Hfk. destruct (Z.leb_spec max 1); [|lia]. by rewrite decide_True.
  - rewrite last_last in *. apply Forall_app in Hw as [Hw Hx]. apply ordered_app in Ho as [Ho Hl].
    rewrite length_app in Hn. simpl in Hn. inversion Hx; subst.
    unfold server_fail. rewrite app_comm_cons, fold_left_app.
    destruct (server_below lk fk (Z.of_nat (length mss + 1) + 1) W L m mss r) as [H1' H2']; [done..|lia|].
    apply (live_none _ _ x) in H1'; [|done]. apply (live_keep _ _ x) in H2'; [|done..].
    unfold server_fail in *. cbn [fold_left]. cbn [fold_left] in *.
    rewrite script_live by done. cbv zeta. unfold next_count. rewrite H2'.
    destruct (Z.leb_spec (Z.of_nat (length mss + 1) + 1) (1 + Z.of_nat (length mss) + 1)); [|lia].
    by rewrite decide_True.
Qed.

Definition redis_fail_all (key : string) (es : list net) l : RedisLoginAttemptLimiter R :=
  fold_left (fun l e => redis_RecordFailure key e l) es l.

Lemma redis_fail_all_server key es : key <> "" -> forall l r, client l = Some r ->
  Forall (fun e => reachable e = true) es ->
  redis_fail_all key es l
  = with_client (Some (server_fail (lockKey l key) (failuresKey l key) (r_maxFailures l)
        (Milliseconds (r_failureWindow l)) (Milliseconds (r_lockDuration l)) (map server_ms es) r))
      (with_fallback (fail_all key (map clock es) (fallback l)) l).
Proof.
  intros Hk. induction es as [|e es IH]; intros l r Hr He.
  { destruct l. simpl in *. by subst. }
  inversion He as [|? ? Hre Hes]; subst. unfold redis_fail_all. cbn [fold_left map].
  assert (E : redis_RecordFailure key e l = with_client (Some (recordFailureScript (lockKey l key)
     (failuresKey l key) (r_maxFailures l) (Milliseconds (r_failureWindow l)) (Milliseconds (r_lockDuration l))
     (server_ms e) r)) (with_fallback (memory.RecordFailure key (clock e) (fallback l)) l)).
  { unfold redis_RecordFailure. rewrite (proj2 (String.eqb_neq key "")) by done. cbn. by rewrite Hr, Hre. }
  rewrite E. match goal with |- fold_left _ es ?l1 = _ => change (fold_left _ es l1) with (redis_fail_all key es l1) end.
  by erewrite IH.
Qed.

Lemma redis_Allow_server key e l r : key <> "" -> client l = Some r -> reachable e = true ->
  (redis_Allow key e l).1 = None <-> live r (server_ms e) (lockKey l key) = None.
Proof.
  intros Hk Hr He. unfold redis_Allow. rewrite (proj2 (String.eqb_neq key "")) by done. rewrite Hr, He.
  cbn [negb]. cbv zeta. rewrite PTTL_live. destruct (live _ _ _) as [[v [d|]]|] eqn:E; [|done|done].
  assert (Hd : server_ms e < d).
  { pose proof (live_later r (server_ms e) (server_ms e) (lockKey l key) ltac:(lia)) as Hl.
    rewrite E in Hl. destruct (Z.ltb_spec (server_ms e) d); done. }
  unfold Millisecond. destruct (Z.ltb_spec 0 ((d - server_ms e) * 1000000)); [done|lia].
Qed.

(** The lock on the server: with Redis up, failures of a fresh key inside
    one window leave the key open while they are fewer than [maxFailures], and
    the [maxFailures]-th locks it for [lockDuration] (in whole milliseconds)
    of the server's clock.  The same failures are in the fallback, so an outage
    in that time is judged by them. *)
Theorem redis_lockout (key : string) (first : net) (es : list net) (l : RedisLoginAttemptLimiter R) r (e : net) :
  key <> "" -> client l = Some r ->
  Forall (fun e => reachable e = true) (first :: es) -> reachable e = true ->
  0 < Milliseconds (r_failureWindow l) -> 0 < Milliseconds (r_lockDuration l) ->
  live r (server_ms first) (lockKey l key) = None -> live r (server_ms first) (failuresKey l key) = None ->
  ordered (server_ms first) (map server_ms es) ->
  Forall (fun m => m < server_ms first + Milliseconds (r_failureWindow l)) (map server_ms es) ->
  List.last (map server_ms es) (server_ms first) <= server_ms e ->
  let last := List.last (map server_ms es) (server_ms first) in
  let l' := redis_fail_all key (first :: es) l in
  (Z.of_nat (length es) + 1 < r_maxFailures l -> (redis_Allow key e l').1 = None) /\
  (Z.of_nat (length es) + 1 = r_maxFailures l ->
     ((redis_Allow key e l').1 = None <-> last + Milliseconds (r_lockDuration l) <= server_ms e)) /\
  fallback l' = fail_all key (map clock (first :: es)) (fallback l).
Proof.
  intros Hk Hr Hes He HW HL Hlk Hfk Ho Hw Hle last l'.
  pose proof (redis_fail_all_server key (first :: es) Hk l r Hr Hes) as El. fold l' in El.
  set (W := Milliseconds (r_failureWindow l)) in *. set (L := Milliseconds (r_lockDuration l)) in *.
  set (lk := lockKey l key) in *. set (fk := failuresKey l key) in *.
  assert (Hne : lk <> fk) by apply keys_ne. cbn [map] in El.
  set (r' := server_fail lk fk (r_maxFailures l) W L (server_ms first :: map server_ms es) r) in *.
  assert (Ha : (redis_Allow key e l').1 = None <-> live r' (server_ms e) lk = None).
  { rewrite El. by apply redis_Allow_server. }
  rewrite Ha. split; [|split; [|by rewrite El]].
  - intros Hn. apply (live_none _ last); [done|].
    apply server_below; try done. by rewrite length_map.
  - intros Hn. apply server_locks; try done. by rewrite length_map.
Qed.

(** The message of a lock without deadline: [Allow] raises a short delay to
    one second before it looks for the reply -1, so the branch that reports
    [lockDuration] is never taken and the client is told to retry in a second. *)
Lemma no_deadline_message (key : string) (e : net) (l : RedisLoginAttemptLimiter R) r v :
  key <> "" -> client l = Some r -> reachable e = true ->
  live r (server_ms e) (lockKey l key) = Some (v, None) ->
  (redis_Allow key e l).1 = Some (rate_limited Second).
Proof.
  intros Hk Hr He Hl. unfold redis_Allow. rewrite (proj2 (String.eqb_neq key "")) by done.
  rewrite Hr, He. cbn [negb]. cbv zeta. by rewrite PTTL_live, Hl.
Qed.
End Lock.

(** ** A server

    The keys with their values and deadlines; it meets the laws. *)
#[local] Abbreviation server := (gmap string (Z * option Z)).

Definition server_live (r : server) (ms : Z) (k : string) : option (Z * option Z) :=
  match r !! k with
  | Some (v, Some e) => if ms <? e then Some (v, Some e) else None
  | x => x
  end.

#[export] Instance server_redis : Redis server := {
  live := server_live;
  PTTL k ms r := match server_live r ms k with
                 | None => -2 | Some (_, None) => -1 | Some (_, Some e) => (e - ms) * Millisecond
                 end;
  EXISTS k ms r := match server_live r ms k with Some _ => true | None => false end;
  INCR k ms r := match server_live r ms k with
                 | Some (v, e) => (v + 1, <[k := (v + 1, e)]> r)
                 | None => (1, <[k := (1, None)]> r)
                 end;
  PEXPIRE k d ms r := match server_live r ms k with
                      | Some (v, _) => if 0 <? d then <[k := (v, Some (ms + d))]> r else delete k r
                      | None => r
                      end;
  SETPX k v d ms r := if 0 <? d then Some (<[k := (v, Some (ms + d))]> r) else None;
  DEL ks r := fold_right delete r ks;
}.

Lemma server_live_set r ms k v e k' : (forall d, e = Some d -> ms < d) ->
  server_live (<[k := (v, e)]> r) ms k' = if decide (k = k') then Some (v, e) else server_live r ms k'.
Proof.
  intros He. unfold server_live. destruct (decide (k = k')) as [->|Hne].
  - rewrite lookup_insert_eq. destruct e as [d|]; [|done]. destruct (Z.ltb_spec ms d); [done|].
    specialize (He d eq_refl). lia.
  - by rewrite lookup_insert_ne.
Qed.

Lemma server_live_deadline r ms k v d : server_live r ms k = Some (v, Some d) -> ms < d.
Proof.
  unfold server_live. destruct (r !! k) as [[w [e|]]|]; [|done|done].
  destruct (Z.ltb_spec ms e); [|done]. by intros [= _ ->].
Qed.

#[export] Instance server_laws : RedisLaws server.
Proof.
  constructor; simpl.
  - intros r ms ms' k Hle. unfold server_live. destruct (r !! k) as [[v [e|]]|]; [|done|done].
    destruct (Z.ltb_spec ms e), (Z.ltb_spec ms' e); done || lia.
  - done.
  - intros r ms k. destruct (server_live r ms k); [by rewrite bool_decide_true|by rewrite bool_decide_false].
  - intros r ms k. by destruct (server_live r ms k) as [[v e]|].
  - intros r ms k k'. destruct (server_live r ms k) as [[v e]|] eqn:E; simpl; apply server_live_set; [|done].
    intros d ->. by eapply server_live_deadline.
  - intros r d ms k k'. destruct (server_live r ms k) as [[v e]|] eqn:E; [|by destruct (decide (k = k')) as [<-|]].
    destruct (Z.ltb_spec 0 d); [apply server_live_set; intros ? [= <-]; lia|].
    unfold server_live. destruct (decide (k = k')) as [<-|]; [by rewrite lookup_delete_eq | by rewrite lookup_delete_ne].
  - intros r v d ms k. destruct (Z.ltb_spec 0 d); [|done]. split; [done|]. intros k'.
    apply server_live_set. intros ? [= <-]. lia.
  - intros r ms ks k'. unfold server_live. induction ks as [|k ks IH]; simpl; [done|].
    destruct (decide (k = k')) as [<-|Hne].
    + rewrite lookup_delete_eq. by rewrite decide_True by constructor.
    + rewrite lookup_delete_ne, IH by done. destruct (decide (k' ∈ ks)).
      * by rewrite decide_True by (by right).
      * rewrite decide_False; [done|]. rewrite elem_of_cons. by intros [?|?].
Qed.

(** ** Examples *)

Definition at_second (up : bool) (s : Z) : net :=
  {| clock := s * Second; server_ms := s * 1000; reachable := up |}.

Definition redis0 : RedisLoginAttemptLimiter server :=
  NewRedisLoginAttemptLimiter (Some ∅) 3 (10 * Second) (20 * Second) " ".

Lemma outage_is_memory_witness :
  (client redis0 = None \/ (reachable (at_second false 1) = false /\ reachable (at_second false 2) = false)) /\
  handler_Login "bob" "::1" (at_second false 1) (at_second false 2)
    (fun _ => @Err unit (ErrInvalidCredential)) redis0
  = let '(r, g) := handler_Login "bob" "::1" (clock (at_second false 1)) (clock (at_second false 2))
                     (fun _ => Err ErrInvalidCredential) (fallback redis0) in
    (r, with_fallback g redis0).
Proof. split; [by right|]. apply outage_is_memory. by right. Defined.

Lemma redis_lockout_witness :
  let l' := redis_fail_all "bob|::1" (at_second true 1 :: [at_second true 2; at_second true 5]) redis0 in
  ((redis_Allow "bob|::1" (at_second true 24) l').1 = None <-> 5000 + 20000 <= 24000) /\
  option_map Error (redis_Allow "bob|::1" (at_second true 24) l').1
    = Some "too many login attempts, try later: retry after 1s"%string /\
  option_map Error (redis_Allow "bob|::1" (at_second false 24) l').1
    = Some "too many login attempts, try later: retry after 1s"%string.
Proof.
  cbv zeta. split; [|split; vm_compute; reflexivity].
  refine (proj1 (proj2 (redis_lockout "bob|::1" (at_second true 1) [at_second true 2; at_second true 5]
                          redis0 ∅ (at_second true 24) _ _ _ _ _ _ _ _ _ _ _)) _);
    try (vm_compute; reflexivity); try discriminate; try (repeat constructor; discriminate);
    repeat constructor; vm_compute; discriminate || reflexivity.
Defined.

Lemma no_deadline_message_witness :
  let l := with_client (Some (<[lockKey redis0 "bob|::1" := (1, None)]> ∅)) redis0 in
  (redis_Allow "bob|::1" (at_second true 3) l).1 = Some (rate_limited Second).
Proof.
  cbv zeta. by apply (no_deadline_message "bob|::1" (at_second true 3) _
    (<[lockKey redis0 "bob|::1" := (1, None)]> ∅) 1).
Defined.

(** The two limiters differ: the server counts in fixed windows from the
    first failure, the memory in a sliding one.  With at most 3 failures in 10
    seconds, four failures within 3 seconds around the end of a window lock the
    key in memory and pass on the server. *)
Lemma windows_differ :
  let es := [at_second true 0; at_second true 9; at_second true 11; at_second true 12] in
  let l' := redis_fail_all "bob|::1" es redis0 in
  (redis_Allow "bob|::1" (at_second true 12) l').1 = None /\
  (memory.Allow "bob|::1" (12 * Second) (fallback l')).1 = Some (rate_limited (20 * Second)).
Proof. split; vm_compute; reflexivity. Qed.
