(* ===== verification/UserRepo.v ===== *)
(** * Users, roles and permissions

    [internal/repository/user_repository.go] over the tables [users], [roles],
    [permissions], [role_permissions] and [user_roles] of the migrations.
    Every statement is one atomic operation; a transaction is one too.  A
    [TIMESTAMPTZ] column keeps whole microseconds. *)

From Stdlib Require Import ZArith Lia.
From stdpp Require Import sets.
From S2P Require Import Prelude GoString GoError Effects Table Schema.

Record UserDB := {
  db_users : list User;
  db_roles : list Role;
  db_permissions : list Permission;
  db_role_permissions : list RolePermission;
  db_user_roles : list UserRole;
  db_next_user : Z;
  db_next_role : Z;
  db_next_permission : Z
}.

Definition empty_UserDB : UserDB := {|
  db_users := []; db_roles := []; db_permissions := []; db_role_permissions := [];
  db_user_roles := []; db_next_user := 1; db_next_role := 1; db_next_permission := 1 |}.

Definition with_users (l : list User) (db : UserDB) : UserDB := {|
  db_users := l; db_roles := db_roles db; db_permissions := db_permissions db;
  db_role_permissions := db_role_permissions db; db_user_roles := db_user_roles db;
  db_next_user := db_next_user db; db_next_role := db_next_role db;
  db_next_permission := db_next_permission db |}.

Definition with_user_roles (l : list UserRole) (db : UserDB) : UserDB := {|
  db_users := db_users db; db_roles := db_roles db; db_permissions := db_permissions db;
  db_role_permissions := db_role_permissions db; db_user_roles := l;
  db_next_user := db_next_user db; db_next_role := db_next_role db;
  db_next_permission := db_next_permission db |}.

Definition ErrDuplicate : goerr := ErrNew "duplicate key value violates unique constraint".
Definition ErrCheck : goerr := ErrNew "new row violates check constraint".
Definition ErrTooLong : goerr := ErrNew "value too long for type character varying".
Definition ErrForeignKey : goerr := ErrNew "insert violates foreign key constraint".


(** [INSERT ... ON CONFLICT ... DO NOTHING] of several rows: [conflict] is the
    constraint named, [other] the remaining ones, which abort the statement. *)
Fixpoint insert_nothing {A} (conflict other : A -> A -> bool) (rows table : list A) : option (list A) :=
  match rows with
  | [] => Some table
  | r :: rows =>
    if existsb (conflict r) table then insert_nothing conflict other rows table
    else if existsb (other r) table then None
    else insert_nothing conflict other rows (table ++ [r])
  end.

(** The operations on users. *)
Definition has_user_id (id : Z) (u : User) : bool := u_ID u =? id.
Definition has_username (name : string) (u : User) : bool := (u_Username u =? name)%string.

Definition user_collides (u v : User) : bool :=
  has_user_id (u_ID u) v || has_username (u_Username u) v || (u_Email u =? u_Email v)%string.

Definition set_last_login (now t : Z) (u : User) : User :=
  MkUser (u_ID u) (u_Username u) (u_Email u) (u_PasswordHash u) (u_Status u) (Some (timestamptz t))
    (u_CreatedAt u) now (u_DeletedAt u).

Definition set_password (now : Z) (h : string) (u : User) : User :=
  MkUser (u_ID u) (u_Username u) (u_Email u) h (u_Status u) (u_LastLoginAt u)
    (u_CreatedAt u) now (u_DeletedAt u).

Module user_repository.

Definition Count (db : UserDB) : res Z * UserDB := (Ok (Z.of_nat (length (db_users db))), db).

Definition Create (now : Z) (user : User) (db : UserDB) : res User * UserDB :=
  let next := if u_ID user =? 0 then db_next_user db + 1 else db_next_user db in
  let user := MkUser (if u_ID user =? 0 then db_next_user db else u_ID user) (u_Username user) (u_Email user) (u_PasswordHash user)
    (if u_Status user =? 0 then 1 else u_Status user) (option_map timestamptz (u_LastLoginAt user))
    (if u_CreatedAt user =? zero_time then now else u_CreatedAt user)
    (if u_UpdatedAt user =? zero_time then now else u_UpdatedAt user) (u_DeletedAt user) in
  let db := {| db_users := db_users db; db_roles := db_roles db; db_permissions := db_permissions db;
               db_role_permissions := db_role_permissions db; db_user_roles := db_user_roles db;
               db_next_user := next;
               db_next_role := db_next_role db; db_next_permission := db_next_permission db |} in
  if negb (varchar 64 (u_Username user) && varchar 255 (u_Email user)) then (Err ErrTooLong, db)
  else if existsb (user_collides user) (db_users db) then (Err ErrDuplicate, db)
  else if negb ((0 <=? u_Status user) && (u_Status user <=? 2)) then (Err ErrCheck, db)
  else (Ok user, with_users (db_users db ++ [user]) db).

(** [First] orders by the primary key. *)
Definition GetByUsername (username : string) (db : UserDB) : res (option User) * UserDB :=
  (Ok (head (order_by u_ID (select_where (has_username username) (db_users db)))), db).

Definition GetByID (id : Z) (db : UserDB) : res (option User) * UserDB :=
  (Ok (head (order_by u_ID (select_where (has_user_id id) (db_users db)))), db).

Definition UpdateLastLoginAt (now id lastLoginAt : Z) (db : UserDB) : res unit * UserDB :=
  (Ok tt, with_users (update_where (has_user_id id) (set_last_login now lastLoginAt) (db_users db)) db).

Definition UpdatePasswordHash (now id : Z) (passwordHash : string) (db : UserDB) : res unit * UserDB :=
  (Ok tt, with_users (update_where (has_user_id id) (set_password now passwordHash) (db_users db)) db).

(** *** The default roles and permissions *)

Definition default_roles : list (string * string * string) :=
  [("Super Admin", "super_admin", "Full access to all resources");
   ("Operator", "operator", "Limited operations access")].

Definition permissionSeeds : list (string * string) :=
  [("dashboard.read", "Read dashboard overview"); ("files.read", "Read files"); ("files.write", "Write files");
   ("services.read", "Read service states"); ("services.manage", "Manage services");
   ("docker.read", "Read docker resources"); ("docker.manage", "Manage docker resources");
   ("cron.read", "Read cron jobs"); ("cron.manage", "Manage cron jobs");
   ("audit.read", "Read audit logs"); ("audit.export", "Export audit logs");
   ("audit.manage", "Manage audit retention"); ("tasks.read", "Read tasks"); ("tasks.manage", "Manage tasks");
   ("backup.read", "Read backup metadata"); ("backup.manage", "Manage backups")].

Definition permissionNames : list string := map fst permissionSeeds.
Definition operatorPermissions : list string := ["dashboard.read"; "files.read"].

Definition role_rows (now next : Z) : list Role :=
  imap (fun i '(n, s, d) => MkRole (next + Z.of_nat i) n s d now now) default_roles.

Definition permission_rows (now next : Z) : list Permission :=
  imap (fun i '(n, d) => MkPermission (next + Z.of_nat i) n d now now) permissionSeeds.

(** The ids of the maps [roleIDs] and [permissionIDs]: the last row of a slug or name. *)
Definition role_id (slug : string) (roles : list Role) : option Z :=
  role_ID <$> last (filter (fun r => role_Slug r = slug) roles).

Definition permission_id (name : string) (perms : list Permission) : option Z :=
  perm_ID <$> last (filter (fun p => perm_Name p = name) perms).

Definition grant_rows (now : Z) (slug : string) (names : list string)
    (roles : list Role) (perms : list Permission) : list RolePermission :=
  omap (fun name => r ← role_id slug roles; p ← permission_id name perms; Some (MkRolePermission r p now)) names.

Definition same_slug (a b : Role) : bool := (role_Slug a =? role_Slug b)%string.
Definition same_role (a b : Role) : bool := (role_Name a =? role_Name b)%string || (role_ID a =? role_ID b).
Definition same_perm_name (a b : Permission) : bool := (perm_Name a =? perm_Name b)%string.
Definition same_perm_id (a b : Permission) : bool := perm_ID a =? perm_ID b.
Definition same_grant (a b : RolePermission) : bool :=
  (rp_RoleID a =? rp_RoleID b) && (rp_PermissionID a =? rp_PermissionID b).
Definition same_user_role (a b : UserRole) : bool :=
  (ur_UserID a =? ur_UserID b) && (ur_RoleID a =? ur_RoleID b).

(** The transaction; an error rolls it back. *)
Definition EnsureRBACDefaults (now : Z) (db : UserDB) : res unit * UserDB :=
  match insert_nothing same_slug same_role (role_rows now (db_next_role db)) (db_roles db) with
  | None => (Err ErrDuplicate, db)
  | Some roles =>
    match insert_nothing same_perm_name same_perm_id (permission_rows now (db_next_permission db))
            (db_permissions db) with
    | None => (Err ErrDuplicate, db)
    | Some perms =>
      match insert_nothing same_grant (fun _ _ => false)
              (grant_rows now "super_admin" permissionNames roles perms ++
               grant_rows now "operator" operatorPermissions roles perms) (db_role_permissions db) with
      | None => (Err ErrDuplicate, db)
      | Some grants =>
        (Ok tt, {| db_users := db_users db; db_roles := roles; db_permissions := perms;
                   db_role_permissions := grants; db_user_roles := db_user_roles db;
                   db_next_user := db_next_user db;
                   db_next_role := db_next_role db + Z.of_nat (length default_roles);
                   db_next_permission := db_next_permission db + Z.of_nat (length permissionSeeds) |})
      end
    end
  end.

(** The two statements of [EnsureUserRoleBySlug]. *)
Definition FindRole (roleSlug : string) (db : UserDB) : res (option Role) * UserDB :=
  (Ok (head (order_by role_ID (select_where (fun r => (role_Slug r =? roleSlug)%string) (db_roles db)))), db).

Definition InsertUserRole (now userID roleID : Z) (db : UserDB) : res unit * UserDB :=
  let row := MkUserRole userID roleID now in
  if existsb (same_user_role row) (db_user_roles db) then (Ok tt, db)
  else if negb (existsb (has_user_id userID) (db_users db) && existsb (fun r => role_ID r =? roleID) (db_roles db))
  then (Err ErrForeignKey, db)
  else (Ok tt, with_user_roles (db_user_roles db ++ [row]) db).

(** The two statements of [GetRolesAndPermissions]. *)
Definition sorted_distinct (l : list string) : list string :=
  SortStrings (remove_dups l).

Definition role_ids_of (userID : Z) (db : UserDB) : list Z :=
  map ur_RoleID (select_where (fun u => ur_UserID u =? userID) (db_user_roles db)).

Definition SelectRoles (userID : Z) (db : UserDB) : res (list string) * UserDB :=
  (Ok (sorted_distinct (map role_Slug
     (select_where (fun r => bool_decide (role_ID r ∈ role_ids_of userID db)) (db_roles db)))), db).

Definition SelectPermissions (userID : Z) (db : UserDB) : res (list string) * UserDB :=
  let granted := map rp_PermissionID
    (select_where (fun g => bool_decide (rp_RoleID g ∈ role_ids_of userID db)) (db_role_permissions db)) in
  (Ok (sorted_distinct (map perm_Name
     (select_where (fun p => bool_decide (perm_ID p ∈ granted)) (db_permissions db)))), db).

End user_repository.
Import user_repository.

(** ** The statements as operations *)

Inductive user_op :=
| UCount
| UCreate (user : User)
| UGetByUsername (username : string)
| UGetByID (id : Z)
| UUpdateLastLoginAt (id lastLoginAt : Z)
| UUpdatePasswordHash (id : Z) (passwordHash : string)
| UEnsureRBACDefaults
| UFindRole (roleSlug : string)
| UInsertUserRole (userID roleID : Z)
| USelectRoles (userID : Z)
| USelectPermissions (userID : Z).

Definition user_val (o : user_op) : Type :=
  match o with
  | UCount => Z
  | UCreate _ => User
  | UGetByUsername _ | UGetByID _ => option User
  | UUpdateLastLoginAt _ _ | UUpdatePasswordHash _ _ | UEnsureRBACDefaults | UInsertUserRole _ _ => unit
  | UFindRole _ => option Role
  | USelectRoles _ | USelectPermissions _ => list string
  end.

Definition user_ans (o : user_op) : Type := res (user_val o).

Definition user_exec (now : Z) (o : user_op) (db : UserDB) : user_ans o * UserDB :=
  match o with
  | UCount => Count db
  | UCreate u => Create now u db
  | UGetByUsername n => GetByUsername n db
  | UGetByID id => GetByID id db
  | UUpdateLastLoginAt id t => UpdateLastLoginAt now id t db
  | UUpdatePasswordHash id h => UpdatePasswordHash now id h db
  | UEnsureRBACDefaults => EnsureRBACDefaults now db
  | UFindRole slug => FindRole slug db
  | UInsertUserRole u r => InsertUserRole now u r db
  | USelectRoles u => SelectRoles u db
  | USelectPermissions u => SelectPermissions u db
  end.

(** The methods of two statements, over any signature with those of the
    repository. *)
Section Methods.
Context {op : Type} {ans : op -> Type} `{SubOp user_op user_ans op ans}.

Definition EnsureUserRoleBySlug (userID : Z) (roleSlug : string) : prog ans (res unit) :=
  (role <-! trigger (UFindRole roleSlug) ;;
   match role with
   | None => Ret (Ok tt)
   | Some role => trigger (UInsertUserRole userID (role_ID role))
   end)%prog.

Definition GetRolesAndPermissions (userID : Z) : prog ans (res (list string * list string)) :=
  (roles <-! trigger (USelectRoles userID) ;;
   permissions <-! trigger (USelectPermissions userID) ;;
   Ret (Ok (roles, permissions)))%prog.
End Methods.

(** ** Lemmas on [insert_nothing] *)
Lemma existsb_false_elem {A} (p : A -> bool) l x : existsb p l = false -> In x l -> p x = false.
Proof.
  intros H Hx. destruct (p x) eqn:E; [|done].
  assert (existsb p l = true) by (apply existsb_exists; eauto). congruence.
Qed.

Section InsertNothing.
Context {A : Type} (conflict other : A -> A -> bool).

Lemma insert_nothing_prefix rows : forall table t, insert_nothing conflict other rows table = Some t ->
  exists k, t = table ++ k /\ Forall (fun r => r ∈ rows) k.
Proof.
  induction rows as [|r rows IH]; intros table t; simpl.
  { intros [= <-]. exists []. by rewrite app_nil_r. }
  assert (Hmono : forall k, Forall (fun x => x ∈ rows) k -> Forall (fun x => x ∈ r :: rows) k).
  { intros k Hk. eapply Forall_impl; [exact Hk|]. by right. }
  destruct (existsb (conflict r) table).
  - intros H. apply IH in H as (k & -> & Hk). exists k. auto.
  - destruct (existsb _ _); [done|]. intros H. apply IH in H as (k & -> & Hk).
    exists (r :: k). rewrite <- app_assoc. split; [done|]. constructor; [constructor | auto].
Qed.

Lemma insert_nothing_present rows : forall table t r, insert_nothing conflict other rows table = Some t ->
  r ∈ rows -> exists y, y ∈ t /\ (y = r \/ conflict r y = true).
Proof.
  induction rows as [|x rows IH]; intros table t r; simpl; [by intros _ ?%elem_of_nil|].
  intros H Hr. assert (Hin : forall y, y ∈ table -> y ∈ t).
  { intros y Hy. destruct (existsb (conflict x) table);
      [|destruct (existsb _ _); [done|]]; apply insert_nothing_prefix in H as (k & -> & _); apply elem_of_app; left; [done|];
      apply elem_of_app; by left. }
  destruct (existsb (conflict x) table) eqn:Ec.
  - apply elem_of_cons in Hr as [->|Hr]; [|by eapply IH].
    apply existsb_exists in Ec as (y & Hy & Hc). apply list_elem_of_In in Hy. eauto.
  - destruct (existsb (other x) table); [done|]. apply elem_of_cons in Hr as [->|Hr]; [|by eapply IH].
    apply insert_nothing_prefix in H as (k & -> & _). exists x.
    split; [|by left]. apply elem_of_app. left. apply elem_of_app. right. constructor.
Qed.

Lemma insert_nothing_id rows table :
  (forall r, r ∈ rows -> existsb (conflict r) table = true) -> insert_nothing conflict other rows table = Some table.
Proof.
  induction rows as [|r rows IH]; intros H; simpl; [done|].
  rewrite H by constructor. apply IH. intros x Hx. apply H. by right.
Qed.

Lemma insert_nothing_NoDup {B} (f : A -> B) rows :
  (forall a b, conflict a b = false -> other a b = false -> f a <> f b) ->
  forall table t, insert_nothing conflict other rows table = Some t ->
  NoDup (map f table) -> NoDup (map f t).
Proof.
  intros Hf. induction rows as [|r rows IH]; intros table t; simpl; [by intros [= <-]|].
  destruct (existsb (conflict r) table) eqn:Ec; [by eauto|].
  destruct (existsb (other r) table) eqn:Eo; [done|]. intros H Hd. eapply IH; [exact H|].
  rewrite map_app. apply NoDup_app. split; [done|]. split; [|apply NoDup_singleton].
  intros x Hx Hr. simpl in Hr. apply list_elem_of_singleton in Hr as ->.
  apply list_elem_of_In, in_map_iff in Hx as (y & Hy & Hin).
  apply (Hf r y); [| |done].
  - by eapply existsb_false_elem.
  - by eapply existsb_false_elem.
Qed.
End InsertNothing.

(** ** The invariant of the tables *)

Record user_db_ok (db : UserDB) : Prop := {
  ok_user_ids : NoDup (map u_ID (db_users db));
  ok_usernames : NoDup (map u_Username (db_users db));
  ok_emails : NoDup (map u_Email (db_users db));
  ok_status : Forall (fun u => 0 <= u_Status u <= 2) (db_users db);
  ok_times : Forall (fun u => match u_LastLoginAt u with Some t => timestamptz t = t | None => True end) (db_users db);
  ok_role_ids : NoDup (map role_ID (db_roles db));
  ok_slugs : NoDup (map role_Slug (db_roles db));
  ok_role_names : NoDup (map role_Name (db_roles db));
  ok_perm_ids : NoDup (map perm_ID (db_permissions db));
  ok_perm_names : NoDup (map perm_Name (db_permissions db));
  ok_grants : NoDup (map (fun g => (rp_RoleID g, rp_PermissionID g)) (db_role_permissions db));
  ok_user_roles : NoDup (map (fun g => (ur_UserID g, ur_RoleID g)) (db_user_roles db));
  ok_grant_keys : Forall (fun g => rp_RoleID g ∈ map role_ID (db_roles db) /\
                                   rp_PermissionID g ∈ map perm_ID (db_permissions db)) (db_role_permissions db);
  ok_member_keys : Forall (fun g => ur_UserID g ∈ map u_ID (db_users db) /\
                                    ur_RoleID g ∈ map role_ID (db_roles db)) (db_user_roles db)
}.

Lemma elem_of_map {A B} (f : A -> B) l y : y ∈ map f l <-> exists x, x ∈ l /\ y = f x.
Proof.
  rewrite list_elem_of_In, in_map_iff. split; intros (x & H1 & H2); exists x.
  - rewrite list_elem_of_In. auto.
  - rewrite <- list_elem_of_In. auto.
Qed.

Lemma NoDup_snoc_map {A B} (f : A -> B) l x :
  NoDup (map f l) -> (forall y, y ∈ l -> f y <> f x) -> NoDup (map f (l ++ [x])).
Proof.
  intros Hl Hx. rewrite map_app. apply NoDup_app. split; [done|]. split; [|apply NoDup_singleton].
  intros b Hb Hc. apply elem_of_map in Hb as (y & Hy & ->). simpl in Hc.
  apply list_elem_of_singleton in Hc. by apply (Hx y).
Qed.

Lemma map_update {A B} (g : A -> B) p f (l : list A) :
  (forall x, g (f x) = g x) -> map g (update_where p f l) = map g l.
Proof. apply fmap_update. Qed.

Lemma CreateUser_ok now u db : user_db_ok db -> user_db_ok (Create now u db).2.
Proof.
  intros []. unfold Create. cbv zeta. destruct (negb _); [by constructor|].
  set (v := MkUser _ _ _ _ _ _ _ _ _). simpl. destruct (existsb (user_collides v) (db_users db)) eqn:Ec; [by constructor|].
  destruct (negb _) eqn:Es; [by constructor|].
  apply negb_false_iff, andb_prop in Es as [Hs1 Hs2]. apply Z.leb_le in Hs1, Hs2.
  assert (Hv : forall y, y ∈ db_users db -> u_ID y <> u_ID v /\ u_Username y <> u_Username v /\ u_Email y <> u_Email v).
  { intros y Hy. apply list_elem_of_In in Hy. pose proof (existsb_false_elem _ _ _ Ec Hy) as E.
    unfold user_collides, has_user_id, has_username in E.
    apply orb_false_elim in E as [E E3]. apply orb_false_elim in E as [E1 E2].
    apply Z.eqb_neq in E1. apply String.eqb_neq in E2, E3. auto. }
  constructor; simpl; try done.
  1-3: apply NoDup_snoc_map; [done|]; intros y Hy; apply (Hv y Hy).
  - apply Forall_app. split; [done|]. repeat constructor; simpl in *; lia.
  - apply Forall_app. split; [done|]. repeat constructor. simpl.
    destruct (u_LastLoginAt u); simpl; [apply timestamptz_idem|done].
  - eapply Forall_impl; [exact ok_member_keys0|]. simpl. intros g [Hg ?]. split; [|done].
    rewrite map_app. apply elem_of_app. by left.
Qed.

(** An update of one user that keeps its keys. *)
Lemma update_users_ok p f db :
  (forall u, u_ID (f u) = u_ID u /\ u_Username (f u) = u_Username u /\ u_Email (f u) = u_Email u /\
             u_Status (f u) = u_Status u) ->
  (forall u, match u_LastLoginAt u with Some t => timestamptz t = t | None => True end ->
             match u_LastLoginAt (f u) with Some t => timestamptz t = t | None => True end) ->
  user_db_ok db -> user_db_ok (with_users (update_where p f (db_users db)) db).
Proof.
  intros Hf Ht [].
  assert (H1 : map u_ID (update_where p f (db_users db)) = map u_ID (db_users db)) by (apply map_update; apply Hf).
  constructor; simpl; rewrite ?H1; try done.
  1-2: rewrite map_update; [done | apply Hf].
  - apply Forall_update; [done|]. intros u _ Hu. destruct (Hf u) as (_ & _ & _ & ->). done.
  - apply Forall_update; [done|]. intros u _ Hu. by apply Ht.
Qed.

Lemma InsertUserRole_ok now u r db : user_db_ok db -> user_db_ok (InsertUserRole now u r db).2.
Proof.
  intros []. unfold InsertUserRole. cbv zeta. destruct (existsb (same_user_role _) _) eqn:Ec; [by constructor|].
  destruct (negb _) eqn:Ef; [by constructor|]. apply negb_false_iff, andb_prop in Ef as [H1 H2].
  apply existsb_exists in H1 as (x & Hx & Ex), H2 as (y & Hy & Ey).
  apply list_elem_of_In in Hx, Hy. apply Z.eqb_eq in Ex, Ey.
  constructor; simpl; try done.
  - apply NoDup_snoc_map; [done|]. intros g Hg [= E1 E2]. apply list_elem_of_In in Hg.
    pose proof (existsb_false_elem _ _ _ Ec Hg) as E. unfold same_user_role in E. simpl in E.
    apply andb_false_iff in E as [E|E]; apply Z.eqb_neq in E; congruence.
  - apply Forall_app. split; [done|]. repeat constructor; simpl; apply elem_of_map; eauto.
Qed.

(** ** What a user may do *)

(** The role [slug] has the permission [name]. *)
Definition grants (db : UserDB) (slug name : string) : Prop :=
  exists r p g, r ∈ db_roles db /\ role_Slug r = slug /\ p ∈ db_permissions db /\ perm_Name p = name /\
    g ∈ db_role_permissions db /\ rp_RoleID g = role_ID r /\ rp_PermissionID g = perm_ID p.

(** The defaults: which role gets which permission. *)
Definition default_grant (slug name : string) : Prop :=
  (slug = "super_admin" /\ name ∈ permissionNames) \/ (slug = "operator" /\ name ∈ operatorPermissions).

Lemma role_id_Some slug roles r : role_id slug roles = Some r ->
  exists x, x ∈ roles /\ role_Slug x = slug /\ role_ID x = r.
Proof.
  unfold role_id. destruct (last _) as [x|] eqn:E; [|done]. intros [= <-].
  apply last_Some_elem_of, list_elem_of_filter in E as [? ?]. eauto.
Qed.

Lemma permission_id_Some name perms p : permission_id name perms = Some p ->
  exists x, x ∈ perms /\ perm_Name x = name /\ perm_ID x = p.
Proof.
  unfold permission_id. destruct (last _) as [x|] eqn:E; [|done]. intros [= <-].
  apply last_Some_elem_of, list_elem_of_filter in E as [? ?]. eauto.
Qed.

Lemma last_is_Some_elem {A} (x : A) l : x ∈ l -> is_Some (last l).
Proof. intros Hx. apply last_is_Some. intros ->. by apply elem_of_nil in Hx. Qed.

Lemma role_id_is_Some slug roles x : x ∈ roles -> role_Slug x = slug -> is_Some (role_id slug roles).
Proof. intros Hx Hs. unfold role_id. apply fmap_is_Some, (last_is_Some_elem x), list_elem_of_filter. auto. Qed.

Lemma permission_id_is_Some name perms x : x ∈ perms -> perm_Name x = name -> is_Some (permission_id name perms).
Proof. intros Hx Hs. unfold permission_id. apply fmap_is_Some, (last_is_Some_elem x), list_elem_of_filter. auto. Qed.

(** The rows the defaults add. *)
Lemma grant_rows_elem now slug names roles perms g :
  g ∈ grant_rows now slug names roles perms <->
  exists name r p, name ∈ names /\ role_id slug roles = Some r /\ permission_id name perms = Some p /\
                   g = MkRolePermission r p now.
Proof.
  unfold grant_rows. rewrite list_elem_of_omap. split.
  - intros (name & Hn & Hg). destruct (role_id slug roles) as [r|] eqn:Er; [|done]. simpl in Hg.
    destruct (permission_id name perms) as [p|] eqn:Ep; [|done]. injection Hg as <-. by exists name, r, p.
  - intros (name & r & p & Hn & Hr & Hp & ->). exists name. by rewrite Hr, Hp.
Qed.

Definition new_grants (now : Z) (roles : list Role) (perms : list Permission) : list RolePermission :=
  grant_rows now "super_admin" permissionNames roles perms ++
  grant_rows now "operator" operatorPermissions roles perms.

Lemma new_grants_elem now roles perms g : g ∈ new_grants now roles perms <->
  exists slug name r p, default_grant slug name /\ role_id slug roles = Some r /\
    permission_id name perms = Some p /\ g = MkRolePermission r p now.
Proof.
  unfold new_grants, default_grant. rewrite elem_of_app, !grant_rows_elem. split.
  - intros [(name & r & p & Hn & H)|(name & r & p & Hn & H)]; eauto 10.
  - intros (slug & name & r & p & [[-> Hn]|[-> Hn]] & H); [left|right]; eauto 8.
Qed.

(** What a successful transaction did. *)
Lemma EnsureRBACDefaults_Ok now db db' : EnsureRBACDefaults now db = (Ok tt, db') ->
  insert_nothing same_slug same_role (role_rows now (db_next_role db)) (db_roles db) = Some (db_roles db') /\
  insert_nothing same_perm_name same_perm_id (permission_rows now (db_next_permission db)) (db_permissions db)
    = Some (db_permissions db') /\
  insert_nothing same_grant (fun _ _ => false) (new_grants now (db_roles db') (db_permissions db'))
    (db_role_permissions db) = Some (db_role_permissions db') /\
  db_users db' = db_users db /\ db_user_roles db' = db_user_roles db.
Proof.
  unfold EnsureRBACDefaults.
  generalize (role_rows now (db_next_role db)) (permission_rows now (db_next_permission db)). intros rs ps.
  destruct (insert_nothing same_slug _ _ _) as [roles|]; [|discriminate].
  destruct (insert_nothing same_perm_name _ _ _) as [perms|]; [|discriminate].
  change (grant_rows now "super_admin" _ _ _ ++ _) with (new_grants now roles perms).
  destruct (insert_nothing same_grant _ _ _) as [gs|] eqn:E; [|discriminate].
  intros H. injection H as <-. cbn [db_roles db_permissions db_role_permissions db_users db_user_roles].
  split; [reflexivity|]. split; [reflexivity|]. split; [exact E|]. split; reflexivity.
Qed.

Lemma EnsureRBACDefaults_ok now db : user_db_ok db -> user_db_ok (EnsureRBACDefaults now db).2.
Proof.
  intros Hok. destruct (EnsureRBACDefaults now db) as [[[]|e] db'] eqn:E; simpl.
  2:{ unfold EnsureRBACDefaults in E. revert E.
      destruct (insert_nothing same_slug _ _ _); [|by intros [= _ <-]].
      destruct (insert_nothing same_perm_name _ _ _); [|by intros [= _ <-]].
      destruct (insert_nothing same_grant _ _ _); [discriminate|by intros [= _ <-]]. }
  apply EnsureRBACDefaults_Ok in E as (Hr & Hp & Hg & Hu & Hm). destruct Hok.
  assert (Hroles : forall x, x ∈ map role_ID (db_roles db) -> x ∈ map role_ID (db_roles db')).
  { intros x Hx. apply insert_nothing_prefix in Hr as (k & -> & _). rewrite map_app. apply elem_of_app. by left. }
  assert (Hperms : forall x, x ∈ map perm_ID (db_permissions db) -> x ∈ map perm_ID (db_permissions db')).
  { intros x Hx. apply insert_nothing_prefix in Hp as (k & -> & _). rewrite map_app. apply elem_of_app. by left. }
  constructor; rewrite ?Hu, ?Hm; try done.
  - eapply insert_nothing_NoDup; [|exact Hr|done]. intros a b _ H. apply orb_false_elim in H as [_ H].
    by apply Z.eqb_neq in H.
  - eapply insert_nothing_NoDup; [|exact Hr|done]. intros a b H _. by apply String.eqb_neq in H.
  - eapply insert_nothing_NoDup; [|exact Hr|done]. intros a b _ H. apply orb_false_elim in H as [H _].
    by apply String.eqb_neq in H.
  - eapply insert_nothing_NoDup; [|exact Hp|done]. intros a b _ H. by apply Z.eqb_neq in H.
  - eapply insert_nothing_NoDup; [|exact Hp|done]. intros a b H _. by apply String.eqb_neq in H.
  - eapply insert_nothing_NoDup; [|exact Hg|done]. intros a b H _ [= E1 E2].
    apply andb_false_iff in H as [H|H]; apply Z.eqb_neq in H; congruence.
  - apply insert_nothing_prefix in Hg as (k & -> & Hk). apply Forall_app. split.
    + eapply Forall_impl; [exact ok_grant_keys0|]. simpl. intros g [? ?]. auto.
    + eapply Forall_impl; [exact Hk|]. simpl. intros g Hin.
      apply new_grants_elem in Hin as (slug & name & r & p & _ & H1 & H2 & ->).
      apply role_id_Some in H1 as (x & Hx & _ & <-). apply permission_id_Some in H2 as (y & Hy & _ & <-).
      split; apply elem_of_map; eauto.
  - eapply Forall_impl; [exact ok_member_keys0|]. simpl. intros g [? ?]. auto.
Qed.

Lemma user_exec_ok now o db : user_db_ok db -> user_db_ok (user_exec now o db).2.
Proof.
  intros Hok. destruct o; simpl; try done.
  - by apply CreateUser_ok.
  - apply update_users_ok; [done| |done]. intros u _. simpl. apply timestamptz_idem.
  - by apply update_users_ok.
  - by apply EnsureRBACDefaults_ok.
  - by apply InsertUserRole_ok.
Qed.

(** ** The default grants *)

(** Each default row is there afterwards. *)
Lemma defaults_present now db db' : EnsureRBACDefaults now db = (Ok tt, db') ->
  (forall slug, slug ∈ ["super_admin"; "operator"] -> exists r, r ∈ db_roles db' /\ role_Slug r = slug) /\
  (forall name, name ∈ permissionNames -> exists p, p ∈ db_permissions db' /\ perm_Name p = name).
Proof.
  intros E. apply EnsureRBACDefaults_Ok in E as (Hr & Hp & _). split.
  - intros slug Hs.
    assert (Hin : exists r, r ∈ role_rows now (db_next_role db) /\ role_Slug r = slug).
    { rewrite !elem_of_cons, elem_of_nil in Hs. unfold role_rows. simpl imap.
      destruct Hs as [->|[->|[]]]; eexists; split; [left|reflexivity|right; left|reflexivity]. }
    destruct Hin as (r & Hin & <-). destruct (insert_nothing_present _ _ _ _ _ r Hr Hin) as (y & Hy & [->|Hs']).
    + by exists r.
    + exists y. split; [done|]. symmetry. by apply String.eqb_eq.
  - intros name Hn.
    assert (Hin : exists p, p ∈ permission_rows now (db_next_permission db) /\ perm_Name p = name).
    { apply elem_of_map in Hn as ([n d] & Hin & ->). apply list_elem_of_lookup in Hin as [i Hi].
      exists (MkPermission (db_next_permission db + Z.of_nat i) n d now now). split; [|reflexivity].
      apply list_elem_of_lookup. exists i. unfold permission_rows. by rewrite list_lookup_imap, Hi. }
    destruct Hin as (r & Hin & <-). destruct (insert_nothing_present _ _ _ _ _ r Hp Hin) as (y & Hy & [->|Hs']).
    + by exists r.
    + exists y. split; [done|]. symmetry. by apply String.eqb_eq.
Qed.

(** The same id is the same row. *)
Lemma same_key {A B} (f : A -> B) l x y : NoDup (map f l) -> x ∈ l -> y ∈ l -> f x = f y -> x = y.
Proof.
  intros Hd Hx Hy E. apply list_elem_of_lookup in Hx as [i Hi], Hy as [j Hj].
  assert (i = j) as ->; [|congruence]. eapply (NoDup_lookup (f <$> l) i j (f x)); [exact Hd|..].
  - by rewrite list_lookup_fmap, Hi.
  - by rewrite list_lookup_fmap, Hj, E.
Qed.

Lemma default_grant_slug slug name : default_grant slug name ->
  slug ∈ ["super_admin"; "operator"] /\ name ∈ permissionNames.
Proof.
  unfold default_grant. intros [[-> Hn]|[-> Hn]]; (split; [|try done]); [left|right; left|].
  unfold operatorPermissions in Hn. rewrite !elem_of_cons, elem_of_nil in Hn.
  destruct Hn as [->|[->|[]]]; apply (bool_decide_unpack _); vm_compute; exact I.
Qed.

Section Grants.
Context (now : Z) (db db' : UserDB).
Hypothesis Hok : user_db_ok db.
Hypothesis Hok' : user_db_ok db'.
Hypothesis Hr : insert_nothing same_slug same_role (role_rows now (db_next_role db)) (db_roles db) = Some (db_roles db').
Hypothesis Hp : insert_nothing same_perm_name same_perm_id (permission_rows now (db_next_permission db))
  (db_permissions db) = Some (db_permissions db').
Hypothesis Hg : insert_nothing same_grant (fun _ _ => false) (new_grants now (db_roles db') (db_permissions db'))
  (db_role_permissions db) = Some (db_role_permissions db').
Hypothesis Hroles : forall slug, slug ∈ ["super_admin"; "operator"] ->
  exists r, r ∈ db_roles db' /\ role_Slug r = slug.
Hypothesis Hperms : forall name, name ∈ permissionNames -> exists p, p ∈ db_permissions db' /\ perm_Name p = name.

Lemma roles_kept r : r ∈ db_roles db -> r ∈ db_roles db'.
Proof. intros H. destruct (insert_nothing_prefix _ _ _ _ _ Hr) as (k & -> & _). apply elem_of_app. by left. Qed.

Lemma perms_kept p : p ∈ db_permissions db -> p ∈ db_permissions db'.
Proof. intros H. destruct (insert_nothing_prefix _ _ _ _ _ Hp) as (k & -> & _). apply elem_of_app. by left. Qed.

Lemma grants_kept slug name : grants db slug name -> grants db' slug name.
Proof using Hr Hp Hg.
  intros (r & p & g & Hr1 & Hr2 & Hp1 & Hp2 & Hg1 & Hg2). exists r, p, g.
  split; [by apply roles_kept|]. split; [done|]. split; [by apply perms_kept|]. split; [done|]. split; [|done].
  destruct (insert_nothing_prefix _ _ _ _ _ Hg) as (k & -> & _). apply elem_of_app. by left.
Qed.

(** The row of a default grant. *)
Lemma default_row slug name : default_grant slug name -> exists g r p,
  g ∈ new_grants now (db_roles db') (db_permissions db') /\ r ∈ db_roles db' /\ role_Slug r = slug /\
  p ∈ db_permissions db' /\ perm_Name p = name /\ rp_RoleID g = role_ID r /\ rp_PermissionID g = perm_ID p.
Proof using Hroles Hperms.
  intros H. destruct (default_grant_slug _ _ H) as [Hs Hn].
  destruct (Hroles _ Hs) as (r0 & Hr0 & Es), (Hperms _ Hn) as (p0 & Hp0 & En).
  destruct (role_id_is_Some slug _ _ Hr0 Es) as [ri Eri], (permission_id_is_Some name _ _ Hp0 En) as [pi Epi].
  destruct (role_id_Some _ _ _ Eri) as (r & Hr1 & Hr2 & Hr3).
  destruct (permission_id_Some _ _ _ Epi) as (p & Hp1 & Hp2 & Hp3).
  exists (MkRolePermission ri pi now), r, p. split; [|by rewrite Hr3, Hp3].
  apply new_grants_elem. exists slug, name, ri, pi. done.
Qed.

Lemma grants_added slug name : default_grant slug name -> grants db' slug name.
Proof using Hg Hroles Hperms.
  intros H. destruct (default_row _ _ H) as (g & r & p & Hin & Hr1 & Hr2 & Hp1 & Hp2 & E1 & E2).
  destruct (insert_nothing_present _ _ _ _ _ g Hg Hin) as (y & Hy & [->|Hc]).
  - by exists r, p, g.
  - apply andb_prop in Hc as [Hc1 Hc2]. apply Z.eqb_eq in Hc1, Hc2.
    exists r, p, y. by rewrite <- Hc1, <- Hc2.
Qed.

Lemma grants_only slug name : grants db' slug name -> grants db slug name \/ default_grant slug name.
Proof using Hok Hok' Hr Hp Hg.
  intros (r & p & g & Hr1 & Hr2 & Hp1 & Hp2 & Hg1 & Hg2 & Hg3).
  destruct (insert_nothing_prefix _ _ _ _ _ Hg) as (k & Ek & Hk). rewrite Ek in Hg1.
  apply elem_of_app in Hg1 as [Hg1|Hg1].
  - left. pose proof (ok_grant_keys _ Hok) as Hkeys. rewrite Forall_forall in Hkeys.
    destruct (Hkeys g Hg1) as [Hkr Hkp]. apply elem_of_map in Hkr as (r0 & Hr0 & Er0), Hkp as (p0 & Hp0 & Ep0).
    assert (r = r0) as <-.
    { apply (same_key role_ID (db_roles db')); [apply Hok'|done|by apply roles_kept|congruence]. }
    assert (p = p0) as <-.
    { apply (same_key perm_ID (db_permissions db')); [apply Hok'|done|by apply perms_kept|congruence]. }
    by exists r, p, g.
  - right. rewrite Forall_forall in Hk. apply Hk, new_grants_elem in Hg1 as (s & n & ri & pi & Hd & H1 & H2 & ->).
    simpl in Hg2, Hg3. apply role_id_Some in H1 as (x & Hx & Es & Ex).
    apply permission_id_Some in H2 as (y & Hy & En & Ey).
    assert (r = x) as -> by (apply (same_key role_ID (db_roles db')); [apply Hok'|done|done|congruence]).
    assert (p = y) as -> by (apply (same_key perm_ID (db_permissions db')); [apply Hok'|done|done|congruence]).
    by subst.
Qed.

(** All the rows are there the second time. *)
Lemma defaults_again now2 : exists db'', EnsureRBACDefaults now2 db' = (Ok tt, db'') /\
  db_roles db'' = db_roles db' /\ db_permissions db'' = db_permissions db' /\
  db_role_permissions db'' = db_role_permissions db'.
Proof using Hg Hroles Hperms.
  assert (E1 : insert_nothing same_slug same_role (role_rows now2 (db_next_role db')) (db_roles db')
               = Some (db_roles db')).
  { apply insert_nothing_id. intros r Hin. apply existsb_exists.
    assert (Hs : role_Slug r ∈ ["super_admin"; "operator"]).
    { unfold role_rows in Hin. simpl in Hin. rewrite !elem_of_cons, elem_of_nil in Hin.
      destruct Hin as [->|[->|[]]]; [left|right; left]. }
    destruct (Hroles _ Hs) as (x & Hx & E). exists x. split; [by apply list_elem_of_In|].
    unfold same_slug. by rewrite E, String.eqb_refl. }
  assert (E2 : insert_nothing same_perm_name same_perm_id (permission_rows now2 (db_next_permission db'))
                 (db_permissions db') = Some (db_permissions db')).
  { apply insert_nothing_id. intros p Hin. apply existsb_exists.
    assert (Hn : perm_Name p ∈ permissionNames).
    { apply list_elem_of_lookup in Hin as [i Hi]. unfold permission_rows in Hi. rewrite list_lookup_imap in Hi.
      destruct (permissionSeeds !! i) as [[n d]|] eqn:Es; [|discriminate]. injection Hi as <-.
      apply elem_of_map. exists (n, d). split; [by eapply list_elem_of_lookup_2|done]. }
    destruct (Hperms _ Hn) as (x & Hx & E). exists x. split; [by apply list_elem_of_In|].
    unfold same_perm_name. by rewrite E, String.eqb_refl. }
  assert (E3 : insert_nothing same_grant (fun _ _ => false) (new_grants now2 (db_roles db') (db_permissions db'))
                 (db_role_permissions db') = Some (db_role_permissions db')).
  { apply insert_nothing_id. intros g Hin. apply existsb_exists.
    apply new_grants_elem in Hin as (s & n & ri & pi & Hd & H1 & H2 & ->).
    assert (Hin : MkRolePermission ri pi now ∈ new_grants now (db_roles db') (db_permissions db'))
      by (apply new_grants_elem; eauto 10).
    destruct (insert_nothing_present _ _ _ _ _ _ Hg Hin) as (y & Hy & [->|Hc]); eexists;
      (split; [apply list_elem_of_In, Hy|]); [|exact Hc].
    unfold same_grant. cbn. by rewrite !Z.eqb_refl. }
  unfold new_grants in E3. unfold EnsureRBACDefaults. rewrite E1, E2, E3. eexists. split; [reflexivity|]. done.
Qed.
End Grants.

(** The defaults: when [EnsureRBACDefaults] succeeds, [super_admin] has
    every permission of the list and [operator] exactly the two read
    permissions on top of what the tables granted before: nothing else is
    granted and nothing is taken away; users and memberships stay as they are,
    and running it again changes no row. *)
Theorem EnsureRBACDefaults_spec now db db' :
  user_db_ok db -> EnsureRBACDefaults now db = (Ok tt, db') ->
  (forall slug name, grants db' slug name <-> grants db slug name \/ default_grant slug name) /\
  db_users db' = db_users db /\ db_user_roles db' = db_user_roles db /\
  forall now2, exists db'', EnsureRBACDefaults now2 db' = (Ok tt, db'') /\ db_roles db'' = db_roles db' /\
    db_permissions db'' = db_permissions db' /\ db_role_permissions db'' = db_role_permissions db'.
Proof.
  intros Hok E. pose proof (EnsureRBACDefaults_ok now db Hok) as Hok'. rewrite E in Hok'. cbn [snd] in Hok'.
  destruct (defaults_present _ _ _ E) as [Hroles Hperms].
  apply EnsureRBACDefaults_Ok in E as (Hr & Hp & Hg & Hu & Hm). split; [|split; [done|split; [done|]]].
  - intros slug name. split.
    + by apply (grants_only now db db').
    + intros [H|H]; [by apply (grants_kept now db)|]. by apply (grants_added now db).
  - intros now2. by apply (defaults_again now db).
Qed.

Lemma empty_UserDB_ok : user_db_ok empty_UserDB.
Proof. constructor; simpl; constructor. Qed.

Lemma EnsureRBACDefaults_spec_witness :
  user_db_ok empty_UserDB /\
  exists db', EnsureRBACDefaults 7 empty_UserDB = (Ok tt, db') /\
  ((forall slug name, grants db' slug name <-> grants empty_UserDB slug name \/ default_grant slug name) /\
   db_users db' = db_users empty_UserDB /\ db_user_roles db' = db_user_roles empty_UserDB /\
   forall now2, exists db'', EnsureRBACDefaults now2 db' = (Ok tt, db'') /\ db_roles db'' = db_roles db' /\
     db_permissions db'' = db_permissions db' /\ db_role_permissions db'' = db_role_permissions db').
Proof.
  split; [exact empty_UserDB_ok|]. eexists. split; [vm_compute; reflexivity|].
  apply (EnsureRBACDefaults_spec 7); [exact empty_UserDB_ok | vm_compute; reflexivity].
Defined.

Lemma elem_of_sorted_distinct l x : x ∈ sorted_distinct l <-> x ∈ l.
Proof. unfold sorted_distinct. by rewrite SortStrings_Permutation, elem_of_remove_dups. Qed.

Lemma NoDup_sorted_distinct l : NoDup (sorted_distinct l).
Proof. unfold sorted_distinct. rewrite SortStrings_Permutation. apply NoDup_remove_dups. Qed.

(** The user has the role [slug]. *)
Definition member (db : UserDB) (userID : Z) (slug : string) : Prop :=
  exists m r, m ∈ db_user_roles db /\ ur_UserID m = userID /\ r ∈ db_roles db /\
    role_ID r = ur_RoleID m /\ role_Slug r = slug.

Lemma elem_of_role_ids_of userID db x : x ∈ role_ids_of userID db <->
  exists m, m ∈ db_user_roles db /\ ur_UserID m = userID /\ ur_RoleID m = x.
Proof.
  unfold role_ids_of. rewrite elem_of_map. setoid_rewrite elem_of_select. split.
  - intros (m & [Hm E] & ->). apply Z.eqb_eq in E. eauto.
  - intros (m & Hm & E & <-). exists m. split; [|done]. split; [done|]. by apply Z.eqb_eq.
Qed.

Lemma rights_of (userID : Z) (db : UserDB) :
  user_db_ok db ->
  exists roles permissions,
    SelectRoles userID db = (Ok roles, db) /\ SelectPermissions userID db = (Ok permissions, db) /\
    NoDup roles /\ NoDup permissions /\
    (forall slug, slug ∈ roles <-> member db userID slug) /\
    (forall name, name ∈ permissions <-> exists slug, slug ∈ roles /\ grants db slug name).
Proof.
  intros Hok. eexists _, _. split; [reflexivity|]. split; [reflexivity|].
  split; [apply NoDup_sorted_distinct|]. split; [apply NoDup_sorted_distinct|].
  assert (Hroles : forall slug, slug ∈ sorted_distinct (map role_Slug
     (select_where (fun r => bool_decide (role_ID r ∈ role_ids_of userID db)) (db_roles db)))
     <-> member db userID slug).
  { intros slug. rewrite elem_of_sorted_distinct, elem_of_map. setoid_rewrite elem_of_select.
    unfold member. split.
    - intros (r & [Hr Hm] & ->). apply bool_decide_eq_true, elem_of_role_ids_of in Hm as (m & Hm & E & E').
      exists m, r. auto.
    - intros (m & r & Hm & E & Hr & E' & <-). exists r. split; [|done]. split; [done|].
      apply bool_decide_eq_true, elem_of_role_ids_of. eauto. }
  split; [exact Hroles|]. intros name. setoid_rewrite Hroles.
  rewrite elem_of_sorted_distinct, elem_of_map. setoid_rewrite elem_of_select. split.
  - intros (p & [Hp Hg] & ->). apply bool_decide_eq_true, elem_of_map in Hg as (g & Hg & Ep).
    apply elem_of_select in Hg as [Hg Hm]. apply bool_decide_eq_true, elem_of_role_ids_of in Hm as (m & Hm & E & Em).
    pose proof (ok_grant_keys _ Hok) as Hk. rewrite Forall_forall in Hk. destruct (Hk g Hg) as [Hkr _].
    apply elem_of_map in Hkr as (r & Hr & Er). exists (role_Slug r). split.
    + exists m, r. rewrite Em. auto.
    + exists r, p, g. auto 10.
  - intros (slug & (m & r & Hm & E & Hr & Er & Es) & (r' & p & g & Hr' & Es' & Hp & <- & Hg & E1 & E2)).
    exists p. split; [|done]. split; [done|]. apply bool_decide_eq_true, elem_of_map. exists g. split; [|done].
    apply elem_of_select. split; [done|]. apply bool_decide_eq_true, elem_of_role_ids_of. exists m.
    split; [done|]. split; [done|].
    assert (r = r') as -> by (apply (same_key role_Slug (db_roles db)); [apply Hok|done|done|congruence]).
    congruence.
Qed.

(** What [GetRolesAndPermissions] reads: the slugs of the user's roles, each
    once, and the names of the permissions some role of the user grants, each
    once: no more and no fewer. *)
Theorem GetRolesAndPermissions_spec (userID : Z) (db : UserDB) :
  user_db_ok db ->
  exists roles permissions,
    SelectRoles userID db = (Ok roles, db) /\ SelectPermissions userID db = (Ok permissions, db) /\
    NoDup roles /\ NoDup permissions /\
    (forall slug, slug ∈ roles <-> member db userID slug) /\
    (forall name, name ∈ permissions <-> exists slug, slug ∈ roles /\ grants db slug name).
Proof. apply rights_of. Qed.

Lemma GetRolesAndPermissions_spec_witness :
  let u := MkUser 0 "bob" "b@x" "h" 1 None zero_time zero_time None in
  let db := (user_exec 5 (UInsertUserRole 1 2)
               (user_exec 3 (UCreate u) (user_exec 1 UEnsureRBACDefaults empty_UserDB).2).2).2 in
  (user_db_ok db /\
   exists roles permissions,
    SelectRoles 1 db = (Ok roles, db) /\ SelectPermissions 1 db = (Ok permissions, db) /\
    NoDup roles /\ NoDup permissions /\
    (forall slug, slug ∈ roles <-> member db 1 slug) /\
    (forall name, name ∈ permissions <-> exists slug, slug ∈ roles /\ grants db slug name)) /\
  (SelectRoles 1 db).1 = Ok ["operator"] /\ (SelectPermissions 1 db).1 = Ok operatorPermissions.
Proof.
  cbv zeta. split; [|split; vm_compute; reflexivity].
  assert (Hok : user_db_ok (user_exec 5 (UInsertUserRole 1 2)
     (user_exec 3 (UCreate (MkUser 0 "bob" "b@x" "h" 1 None zero_time zero_time None))
        (user_exec 1 UEnsureRBACDefaults empty_UserDB).2).2).2).
  { apply user_exec_ok, user_exec_ok, user_exec_ok, empty_UserDB_ok. }
  split; [exact Hok|]. exact (GetRolesAndPermissions_spec 1 _ Hok).
Defined.
