(* ===== verification/AuthService.v ===== *)
(** * Authentication

    [internal/service/auth_service.go], every method, as programs over the
    statements of the user repository, the clock, the random source, bcrypt
    and the log.  JSON web tokens are the class [JWT]. *)

From Stdlib Require Import ZArith Lia.
From stdpp Require Import sets.
From S2P Require Import Prelude GoString GoTime GoError Effects Table Schema Dto Crypto UserRepo.
Import Dto.dto.

(** [config.AuthConfig], the part the service reads. *)
Record AuthConfig := {
  AppEnv : string;
  JWTSecret : string;
  JWTIssuer : string;
  JWTExpire : Z;
  JWTRefreshExpire : Z;
  LoginAttemptStore : string;
  LoginAttemptPrefix : string;
  LoginMaxFailures : Z;
  LoginFailureWindow : Z;
  LoginLockDuration : Z;
  BootstrapAdmin : bool;
  DefaultAdminUsername : string;
  DefaultAdminEmail : string;
  DefaultAdminPassword : string
}.

Record TokenClaims := {
  tc_UserID : Z;
  tc_Username : string;
  tc_Roles : list string;
  tc_Permissions : list string;
  tc_MustChangePassword : bool;
  tc_SessionIssuedAt : Z;
  tc_TokenUse : string;
  tc_RBACChecksum : string
}.

(** With the registered claims; a numeric date is in seconds. *)
Record jwtClaims := {
  jc_UserID : Z;
  jc_Username : string;
  jc_Roles : list string;
  jc_Permissions : list string;
  jc_MustChangePassword : bool;
  jc_SessionIssuedAt : Z;
  jc_TokenUse : string;
  jc_RBACChecksum : string;
  jc_ExpiresAt : Z;
  jc_IssuedAt : Z;
  jc_Issuer : string;
  jc_Subject : string;
  jc_ID : string
}.

(** The texts of the claims are UTF-8, which JSON keeps as they are. *)
Definition claims_text (c : jwtClaims) : bool :=
  forallb ValidString ([jc_Username c; jc_TokenUse c; jc_RBACChecksum c; jc_Issuer c; jc_Subject c; jc_ID c] ++
                       jc_Roles c ++ jc_Permissions c).

(** Signing with HS256 and parsing at a time; a signed token is read back until
    it expires. *)
Class JWT := {
  SignedString : jwtClaims -> string -> res string;
  ParseWithClaims : string -> string -> Z -> option jwtClaims;
  jwt_parse_signed c k t now : claims_text c = true -> SignedString c k = Ok t ->
    ParseWithClaims t k now = if now <? jc_ExpiresAt c * Second then Some c else None
}.

Definition roleSuperAdmin : string := "super_admin".
Definition roleOperator : string := "operator".
Definition tokenUseAccess : string := "access".
Definition tokenUseRefresh : string := "refresh".

Definition NewAuthService (cfg : AuthConfig) : AuthConfig := {|
  AppEnv := AppEnv cfg; JWTSecret := JWTSecret cfg; JWTIssuer := JWTIssuer cfg;
  JWTExpire := if JWTExpire cfg <=? 0 then 24 * Hour else JWTExpire cfg;
  JWTRefreshExpire := if JWTRefreshExpire cfg <=? 0 then 7 * 24 * Hour else JWTRefreshExpire cfg;
  LoginAttemptStore := LoginAttemptStore cfg; LoginAttemptPrefix := LoginAttemptPrefix cfg;
  LoginMaxFailures := LoginMaxFailures cfg; LoginFailureWindow := LoginFailureWindow cfg;
  LoginLockDuration := LoginLockDuration cfg;
  BootstrapAdmin := BootstrapAdmin cfg; DefaultAdminUsername := DefaultAdminUsername cfg;
  DefaultAdminEmail := DefaultAdminEmail cfg; DefaultAdminPassword := DefaultAdminPassword cfg |}.

(** ** The operations of the service *)

Inductive auth_op :=
| Users (o : user_op)
| ANow
| RandRead (n : Z)
| GenerateFromPassword (password : string)
| Printf (line : string).

Definition auth_ans (o : auth_op) : Type :=
  match o with
  | Users o => user_ans o
  | ANow => Z
  | RandRead _ => res (list Z)
  | GenerateFromPassword _ => res string
  | Printf _ => unit
  end.

#[export] Instance users_in_auth : SubOp user_ans auth_ans :=
  {| inj := Users; proj := fun o (a : auth_ans (Users o)) => a |}.

Abbreviation auth A := (prog auth_ans A).

(** One statement of the repository, its error wrapped as [sentinel]. *)
Definition repo (sentinel : goerr) (o : user_op) : auth (res (user_val o)) :=
  or_else (trigger o) (wrap_as sentinel).

(** ** Pure helpers *)

Definition nextSessionTime (now : Z) (previous : option Z) : Z :=
  match previous with
  | None => now
  | Some p => if negb (p <? now) then p + Nanosecond else now
  end.

(** The text [computeRBACChecksum] hashes. *)
Definition checksum_payload (roles permissions : list string) : string :=
  (Join (SortStrings roles) "," +:+ "|" +:+ Join (SortStrings permissions) ",")%string.

Definition computeRBACChecksum (roles permissions : list string) : string :=
  hex_EncodeToString (sha256.Sum256 (bytes_of (checksum_payload roles permissions))).

Definition toProfile (user : User) (roles permissions : list string) (mustChangePassword : bool) : UserProfile :=
  {| up_ID := u_ID user; up_Username := u_Username user; up_Email := u_Email user; up_Status := u_Status user;
     up_Roles := roles; up_Permissions := permissions; up_MustChangePassword := mustChangePassword |}.

Definition isProductionEnv (raw : string) : bool := EqualFold (TrimSpace raw) "production".

Definition is_upper (ch : Z) : bool := (65 <=? ch) && (ch <=? 90).
Definition is_lower (ch : Z) : bool := (97 <=? ch) && (ch <=? 122).
Definition is_digit (ch : Z) : bool := (48 <=? ch) && (ch <=? 57).

Definition isStrongPassword (raw : string) : bool :=
  let password := TrimSpace raw in
  if len password <? 14 then false
  else
    let '(hasUpper, hasLower, hasDigit, hasSymbol) :=
      fold_left (fun '(u, l, d, s) ch =>
          if is_upper ch then (true, l, d, s)
          else if is_lower ch then (u, true, d, s)
          else if is_digit ch then (u, l, true, s)
          else (u, l, d, true))
        (runes password) (false, false, false, false) in
    hasUpper && hasLower && hasDigit && hasSymbol.

Definition set_LastLoginAt (t : Z) (u : User) : User :=
  MkUser (u_ID u) (u_Username u) (u_Email u) (u_PasswordHash u) (u_Status u) (Some t)
    (u_CreatedAt u) (u_UpdatedAt u) (u_DeletedAt u).

Definition set_PasswordHash (h : string) (u : User) : User :=
  MkUser (u_ID u) (u_Username u) (u_Email u) h (u_Status u) (u_LastLoginAt u)
    (u_CreatedAt u) (u_UpdatedAt u) (u_DeletedAt u).

(** ** The methods *)
Section AuthService.
Context `{JWT} `{Bcrypt} (cfg : AuthConfig).
#[local] Open Scope prog_scope.

Definition mustChangePassword (user : User) : bool :=
  if negb (EqualFold (TrimSpace (u_Username user)) (TrimSpace (DefaultAdminUsername cfg))) then false
  else match u_LastLoginAt user with None => true | Some _ => false end.

Definition generateTokenID (byteLen : Z) : auth (res string) :=
  (buffer <-! call (RandRead byteLen : auth_op) ;; Ret (Ok (base64_RawURL buffer)))%prog.

Definition generateBootstrapPassword (byteLen : Z) : auth (res string) :=
  (buffer <-! call (RandRead byteLen : auth_op) ;; Ret (Ok (base64_RawURL buffer)))%prog.

Definition resolveBootstrapPassword : auth (res string) :=
  let username := TrimSpace (DefaultAdminUsername cfg) in
  let email := TrimSpace (DefaultAdminEmail cfg) in
  if (username =? "")%string then Ret (Err (ErrNew "DEFAULT_ADMIN_USERNAME cannot be empty"))
  else if (email =? "")%string then Ret (Err (ErrNew "DEFAULT_ADMIN_EMAIL cannot be empty"))
  else
    let password := TrimSpace (DefaultAdminPassword cfg) in
    if (password =? "")%string then
      if isProductionEnv (AppEnv cfg) then Ret (Err (ErrNew "DEFAULT_ADMIN_PASSWORD must be set in production"))
      else
        (generated <-! or_else (generateBootstrapPassword 24) (ErrWrapW "generate bootstrap password") ;;
         call (Printf ("[security] generated bootstrap admin password for user '" +:+ username +:+ "': "
                       +:+ generated)%string : auth_op) ;;;
         Ret (Ok generated))%prog
    else if isProductionEnv (AppEnv cfg) && negb (isStrongPassword password) then
      Ret (Err (ErrNew "DEFAULT_ADMIN_PASSWORD is weak for production environment"))
    else
      ((if negb (isStrongPassword password) then
          call (Printf ("[security] warning: bootstrap admin password for user '" +:+ username
                        +:+ "' is weak; rotate it after initial login")%string : auth_op)
        else Ret tt) ;;;
       Ret (Ok password))%prog.

(** A new user as [EnsureDefaultAdmin] builds it. *)
Definition bootstrap_user (hash : string) : User :=
  MkUser 0 (DefaultAdminUsername cfg) (DefaultAdminEmail cfg) hash 1 None zero_time zero_time None.

Definition EnsureDefaultAdmin : auth (res unit) :=
  (_ <-! repo ErrBootstrapAdminFail UEnsureRBACDefaults ;;
   if negb (BootstrapAdmin cfg) then Ret (Ok tt)
   else
     count <-! repo ErrBootstrapAdminFail UCount ;;
     bootstrapUser <-!
       (if count =? 0 then
          bootstrapPassword <-! or_else resolveBootstrapPassword (wrap_as ErrBootstrapAdminFail) ;;
          hash <-! or_else (call (GenerateFromPassword bootstrapPassword : auth_op)) (wrap_as ErrBootstrapAdminFail) ;;
          user <-! repo ErrBootstrapAdminFail (UCreate (bootstrap_user hash)) ;;
          Ret (Ok (Some (user : User)))
        else repo ErrBootstrapAdminFail (UGetByUsername (DefaultAdminUsername cfg))) ;;
     match bootstrapUser with
     | Some user => or_else (EnsureUserRoleBySlug (u_ID user) roleSuperAdmin) (wrap_as ErrBootstrapAdminFail)
     | None => Ret (Ok tt)
     end)%prog.

Definition resolveUserRBAC (user : User) : auth (res (list string * list string)) :=
  (rp <-! GetRolesAndPermissions (u_ID user) ;;
   match rp.1 with
   | _ :: _ => Ret (Ok rp)
   | [] =>
     _ <-! EnsureUserRoleBySlug (u_ID user) roleOperator ;;
     GetRolesAndPermissions (u_ID user)
   end)%prog.

Definition generateToken (user : User) (roles permissions : list string) (mustChangePassword : bool)
    (tokenUse rbacChecksum : string) (expireAfter sessionIssuedAt : Z) : auth (res (string * Z)) :=
  (issuedAt <- call ANow ;;
   tokenID <-! generateTokenID 16 ;;
   Ret (res_map (fun signed => (signed, Z.quot expireAfter Second))
     (SignedString {|
        jc_UserID := u_ID user; jc_Username := u_Username user; jc_Roles := roles;
        jc_Permissions := permissions; jc_MustChangePassword := mustChangePassword;
        jc_SessionIssuedAt := sessionIssuedAt; jc_TokenUse := tokenUse; jc_RBACChecksum := rbacChecksum;
        jc_ExpiresAt := Unix (issuedAt + expireAfter); jc_IssuedAt := Unix issuedAt;
        jc_Issuer := JWTIssuer cfg; jc_Subject := u_Username user; jc_ID := tokenID |} (JWTSecret cfg))))%prog.

Definition generateTokenPair (user : User) (roles permissions : list string) (mustChangePassword : bool)
    (sessionIssuedAt : Z) : auth (res ((string * Z) * (string * Z))) :=
  (sessionIssuedAt <- (if sessionIssuedAt <=? 0 then call ANow else Ret sessionIssuedAt) ;;
   let rbacChecksum := computeRBACChecksum roles permissions in
   access <-! generateToken user roles permissions mustChangePassword tokenUseAccess rbacChecksum
                (JWTExpire cfg) sessionIssuedAt ;;
   refresh <-! generateToken user roles permissions mustChangePassword tokenUseRefresh rbacChecksum
                 (JWTRefreshExpire cfg) sessionIssuedAt ;;
   Ret (Ok (access, refresh)))%prog.

(** The last steps of [Login], [Refresh] and [ChangePassword]. *)
Definition respond (user : User) (roles permissions : list string) (must : bool) (session : Z)
  : auth (res LoginResponse) :=
  (pair <-! or_else (generateTokenPair user roles permissions must session) (wrap_as ErrTokenGenerate) ;;
   Ret (Ok {| lres_AccessToken := pair.1.1; lres_RefreshToken := pair.2.1; lres_TokenType := "Bearer";
              lres_ExpiresIn := pair.1.2; lres_RefreshExpiresIn := pair.2.2;
              lres_User := toProfile user roles permissions must |}))%prog.

Definition Login (req : LoginRequest) : auth (res LoginResponse) :=
  (user <-! repo ErrInternal (UGetByUsername (lr_Username req)) ;;
   match user with
   | None => Ret (Err ErrInvalidCredential)
   | Some user =>
     if negb (bcrypt_compare (u_PasswordHash user) (lr_Password req)) then Ret (Err ErrInvalidCredential)
     else if negb (u_Status user =? 1) then Ret (Err ErrUserDisabled)
     else
       rp <-! or_else (resolveUserRBAC user) internal ;;
       let must := mustChangePassword user in
       now <- call ANow ;;
       let sessionIssuedAt := nextSessionTime now (u_LastLoginAt user) in
       user <-! (if negb must then
                   _ <-! repo ErrInternal (UUpdateLastLoginAt (u_ID user) sessionIssuedAt) ;;
                   Ret (Ok (set_LastLoginAt sessionIssuedAt user))
                 else Ret (Ok user)) ;;
       respond user rp.1 rp.2 must sessionIssuedAt
   end)%prog.

Definition parseTokenWithUse (rawToken expectedUse : string) : auth (res TokenClaims) :=
  (now <- call ANow ;;
   match ParseWithClaims rawToken (JWTSecret cfg) now with
   | None => Ret (Err ErrTokenParse)
   | Some claims =>
     let tokenUse := TrimSpace (ToLower (jc_TokenUse claims)) in
     let tokenUse := if (tokenUse =? "")%string then tokenUseAccess else tokenUse in
     if negb (expectedUse =? "")%string && negb (tokenUse =? expectedUse)%string then Ret (Err ErrTokenParse)
     else Ret (Ok {|
       tc_UserID := jc_UserID claims; tc_Username := jc_Username claims; tc_Roles := jc_Roles claims;
       tc_Permissions := jc_Permissions claims; tc_MustChangePassword := jc_MustChangePassword claims;
       tc_SessionIssuedAt := jc_SessionIssuedAt claims; tc_TokenUse := tokenUse;
       tc_RBACChecksum := TrimSpace (jc_RBACChecksum claims) |})
   end)%prog.

Definition ParseToken (rawToken : string) : auth (res TokenClaims) := parseTokenWithUse rawToken tokenUseAccess.

Definition ValidateSession (claims : TokenClaims) : auth (res unit) :=
  (user <-! repo ErrInternal (UGetByID (tc_UserID claims)) ;;
   match user with
   | None => Ret (Err ErrSessionExpired)
   | Some user =>
     if negb (u_Status user =? 1) then Ret (Err ErrSessionExpired)
     else if tc_SessionIssuedAt claims <=? 0 then Ret (Err ErrTokenParse)
     else if match u_LastLoginAt user with Some t => tc_SessionIssuedAt claims <? t | None => false end
     then Ret (Err ErrSessionExpired)
     else
       current <-! or_else (resolveUserRBAC user) internal ;;
       let currentChecksum := computeRBACChecksum current.1 current.2 in
       let claimChecksum := TrimSpace (tc_RBACChecksum claims) in
       let claimChecksum := if (claimChecksum =? "")%string
                            then computeRBACChecksum (tc_Roles claims) (tc_Permissions claims)
                            else claimChecksum in
       if negb (claimChecksum =? currentChecksum)%string then Ret (Err ErrSessionExpired)
       else Ret (Ok tt)
   end)%prog.

Definition Refresh (refreshToken : string) : auth (res LoginResponse) :=
  (claims <-! parseTokenWithUse refreshToken tokenUseRefresh ;;
   if tc_MustChangePassword claims then Ret (Err ErrPasswordChangeNeed)
   else
     _ <-! ValidateSession claims ;;
     user <-! repo ErrInternal (UGetByID (tc_UserID claims)) ;;
     match user with
     | None => Ret (Err ErrSessionExpired)
     | Some user =>
       if negb (u_Status user =? 1) then Ret (Err ErrSessionExpired)
       else
         rp <-! or_else (resolveUserRBAC user) internal ;;
         clock <- call ANow ;;
         let now := nextSessionTime clock (u_LastLoginAt user) in
         _ <-! repo ErrInternal (UUpdateLastLoginAt (u_ID user) now) ;;
         respond (set_LastLoginAt now user) rp.1 rp.2 false now
     end)%prog.

Definition RevokeSession (userID : Z) : auth (res unit) :=
  (user <-! repo ErrInternal (UGetByID userID) ;;
   match user with
   | None => Ret (Err ErrUserNotFound)
   | Some user =>
     if mustChangePassword user then Ret (Ok tt)
     else
       clock <- call ANow ;;
       _ <-! repo ErrInternal (UUpdateLastLoginAt (u_ID user) (nextSessionTime clock (u_LastLoginAt user))) ;;
       Ret (Ok tt)
   end)%prog.

(** [apperror.Wrap(ErrBadRequest.Code, ErrBadRequest.HTTPStatus, message, errors.New(cause))]. *)
Definition bad_password (message cause : string) : goerr := Wrap 2000 400 message (ErrNew cause).

Definition ChangePassword (userID : Z) (req : ChangePasswordRequest) : auth (res LoginResponse) :=
  (user <-! repo ErrInternal (UGetByID userID) ;;
   match user with
   | None => Ret (Err ErrUserNotFound)
   | Some user =>
     if negb (bcrypt_compare (u_PasswordHash user) (cp_CurrentPassword req)) then
       Ret (Err (bad_password "current password is incorrect" "current password mismatch"))
     else
       let nextPassword := TrimSpace (cp_NewPassword req) in
       if negb (isStrongPassword nextPassword) then
         Ret (Err (bad_password "new password is too weak"
                     "new password must be at least 14 chars and include upper/lower/digit/symbol"))
       else if (cp_CurrentPassword req =? nextPassword)%string then
         Ret (Err (bad_password "new password must be different from current password"
                     "new password equals current password"))
       else
         hash <-! or_else (call (GenerateFromPassword nextPassword : auth_op)) internal ;;
         _ <-! repo ErrInternal (UUpdatePasswordHash (u_ID user) hash) ;;
         clock <- call ANow ;;
         let now := nextSessionTime clock (u_LastLoginAt user) in
         _ <-! repo ErrInternal (UUpdateLastLoginAt (u_ID user) now) ;;
         let user := set_LastLoginAt now (set_PasswordHash hash user) in
         rp <-! or_else (resolveUserRBAC user) internal ;;
         respond user rp.1 rp.2 false now
   end)%prog.

Definition Me (userID : Z) : auth (res UserProfile) :=
  (user <-! repo ErrInternal (UGetByID userID) ;;
   match user with
   | None => Ret (Err ErrUserNotFound)
   | Some user =>
     rp <-! or_else (resolveUserRBAC user) internal ;;
     Ret (Ok (toProfile user rp.1 rp.2 (mustChangePassword user)))
   end)%prog.

End AuthService.
