(* ===== verification/AuthSystem.v ===== *)
(** * The authentication service at work

    The operations of [AuthService] executed on the user tables, with an
    environment that gives the clock, database faults, the random source and
    bcrypt's salts by the number of operations done so far; then the calls of
    the service as programs, and what every one of them preserves. *)

From Stdlib Require Import ZArith Lia.
From stdpp Require Import sets.
From S2P Require Import Prelude GoString GoTime GoError Effects Table Schema Dto Crypto UserRepo AuthService.
Import Dto.dto UserRepo.user_repository.

Record AuthEnv := {
  aenv_now : nat -> Z;
  aenv_db : nat -> fault;
  aenv_rand : nat -> Z -> res (list Z);
  aenv_salt : nat -> Z
}.

Record AuthWorld := { aw_step : nat; aw_db : UserDB; aw_log : list string }.

(** ** Walking through a program's operations *)

Lemma bind_ok_quiet (P : auth_op -> Prop) {A B} (p : auth (res A)) (f : A -> auth (res B)) :
  all_ops P p -> (forall x, all_ops P (f x)) -> all_ops P (bind_ok p f).
Proof. intros Hp Hf. apply all_ops_bind; [done|]. by intros [x|e]. Qed.

Lemma or_else_quiet (P : auth_op -> Prop) {A} (p : auth (res A)) f : all_ops P p -> all_ops P (or_else p f).
Proof. intros Hp. by apply all_ops_bind. Qed.

(** Walks through a program. *)
Ltac quiet :=
  repeat (cbv beta zeta; first
    [ solve [auto with quiet nocore]
    | apply bind_ok_quiet
    | apply or_else_quiet
    | apply all_ops_bind
    | progress intros
    | match goal with |- all_ops _ (match ?x with _ => _ end) => destruct x end
    | solve [repeat split; done] ]).

Create HintDb quiet discriminated.

Section AuthSystem.
Context `{JWT} `{Bcrypt} (env : AuthEnv) (cfg : AuthConfig).

Definition aset_db (d : UserDB) (w : AuthWorld) : AuthWorld :=
  {| aw_step := aw_step w; aw_db := d; aw_log := aw_log w |}.

Definition ErrPasswordTooLong : goerr := ErrNew "bcrypt: password length exceeds 72 bytes".

Definition exec_user (o : user_op) (w : AuthWorld) : user_ans o * AuthWorld :=
  let '(r, d) := user_exec (aenv_now env (aw_step w)) o (aw_db w) in
  match aenv_db env (aw_step w) with
  | NoFault => (r, aset_db d w)
  | FailBefore e => (Err e, w)
  | FailAfter e => (Err e, aset_db d w)
  end.

Definition auth_exec (o : auth_op) (w : AuthWorld) : auth_ans o * AuthWorld :=
  match o return auth_ans o * AuthWorld with
  | Users o => exec_user o w
  | ANow => (aenv_now env (aw_step w), w)
  | RandRead n => (aenv_rand env (aw_step w) n, w)
  | GenerateFromPassword pw =>
      (match bcrypt_generate (aenv_salt env (aw_step w)) pw with
       | Some h => Ok h
       | None => Err ErrPasswordTooLong
       end, w)
  | Printf line => (tt, {| aw_step := aw_step w; aw_db := aw_db w; aw_log := aw_log w ++ [line] |})
  end.

Definition auth_handle (o : auth_op) (w : AuthWorld) : auth_ans o * AuthWorld :=
  let '(a, w') := auth_exec o w in
  (a, {| aw_step := S (aw_step w'); aw_db := aw_db w'; aw_log := aw_log w' |}).

(** The calls of the service, each answering the user whose session it
    started, if it started one. *)
Inductive auth_call :=
| CEnsureDefaultAdmin
| CLogin (req : LoginRequest)
| CRefresh (refreshToken : string)
| CRevokeSession (userID : Z)
| CChangePassword (userID : Z) (req : ChangePasswordRequest)
| CMe (userID : Z)
| CParseToken (token : string)
| CValidateSession (claims : TokenClaims).

Definition started (r : res LoginResponse) : option Z :=
  match r with
  | Ok resp => if up_MustChangePassword (lres_User resp) then None else Some (up_ID (lres_User resp))
  | Err _ => None
  end.

Definition call_prog (c : auth_call) : auth (option Z) :=
  match c with
  | CEnsureDefaultAdmin => bind (EnsureDefaultAdmin cfg) (fun _ => Ret None)
  | CLogin req => bind (Login cfg req) (fun r => Ret (started r))
  | CRefresh t => bind (Refresh cfg t) (fun r => Ret (started r))
  | CRevokeSession id =>
      bind (RevokeSession cfg id) (fun r => Ret (match r with Ok _ => Some id | Err _ => None end))
  | CChangePassword id req => bind (ChangePassword cfg id req) (fun r => Ret (started r))
  | CMe id => bind (Me cfg id) (fun _ => Ret None)
  | CParseToken t => bind (ParseToken cfg t) (fun _ => Ret None)
  | CValidateSession c => bind (ValidateSession c) (fun _ => Ret None)
  end.

Fixpoint run_calls (cs : list auth_call) (w : AuthWorld) : AuthWorld :=
  match cs with
  | [] => w
  | c :: cs => run_calls cs (run auth_handle (call_prog c) w).2
  end.

(** ** The last login of a user *)

Definition user_of (db : UserDB) (id : Z) : option User := first_where (has_user_id id) (db_users db).

Lemma user_of_id db id u : user_of db id = Some u -> u_ID u = id.
Proof. intros Hu. apply first_where_Some in Hu as [_ Hu]. by apply Z.eqb_eq. Qed.

Lemma user_of_elem db u : user_db_ok db -> u ∈ db_users db -> user_of db (u_ID u) = Some u.
Proof.
  intros Hok Hu. destruct (user_of db (u_ID u)) as [v|] eqn:E.
  - f_equal. apply (same_key u_ID (db_users db)); [apply Hok| |done|by eapply user_of_id].
    by apply first_where_Some in E as [? _].
  - pose proof (proj1 (first_where_None _ _) E u Hu) as Hn. unfold has_user_id in Hn. by rewrite Z.eqb_refl in Hn.
Qed.

(** [First] among rows of one key. *)
Lemma head_select {K} (key : User -> K) (p : User -> bool) db u :
  NoDup (map key (db_users db)) -> (forall x y, p x = true -> p y = true -> key x = key y) ->
  head (order_by u_ID (select_where p (db_users db))) = Some u <-> u ∈ db_users db /\ p u = true.
Proof.
  intros Hd Hp. destruct (order_by u_ID (select_where p (db_users db))) as [|x l] eqn:E; simpl.
  - apply order_by_nil in E. split; [done|]. intros Hu. apply elem_of_select in Hu. rewrite E in Hu.
    by apply elem_of_nil in Hu.
  - apply order_by_head in E as [Hx _]. apply elem_of_select in Hx as [Hx Hpx]. split.
    + by intros [= <-].
    + intros [Hu Hpu]. f_equal. apply (same_key key (db_users db)); auto.
Qed.

Lemma GetByID_user_of id db : user_db_ok db -> (GetByID id db).1 = Ok (user_of db id).
Proof.
  intros Hok. unfold GetByID. cbn [fst]. f_equal.
  assert (Hp : forall x y, has_user_id id x = true -> has_user_id id y = true -> u_ID x = u_ID y).
  { unfold has_user_id. intros x y Hx Hy. apply Z.eqb_eq in Hx, Hy. congruence. }
  pose proof (fun u => head_select u_ID (has_user_id id) db u (ok_user_ids _ Hok) Hp) as Hh.
  destruct (user_of db id) as [u|] eqn:Eu.
  - apply first_where_Some in Eu. by apply Hh.
  - destruct (head _) as [u|]; [|done]. destruct (proj1 (Hh u) eq_refl) as [Hin Hid].
    pose proof (proj1 (first_where_None _ _) Eu u Hin). congruence.
Qed.

Lemma GetByUsername_elem name db u : user_db_ok db ->
  (GetByUsername name db).1 = Ok (Some u) <-> u ∈ db_users db /\ u_Username u = name.
Proof.
  intros Hok. unfold GetByUsername. cbn [fst].
  pose proof (head_select u_Username (has_username name) db u (ok_usernames _ Hok)) as Hh.
  assert (Hn : has_username name u = true <-> u_Username u = name) by apply String.eqb_eq.
  rewrite <- Hn, <- Hh; [split; [by intros [= ->] | by intros ->]|].
  unfold has_username. intros x y Hx Hy. apply String.eqb_eq in Hx, Hy. congruence.
Qed.

Definition last_of (db : UserDB) (id : Z) : option Z :=
  match user_of db id with Some u => u_LastLoginAt u | None => None end.

(** Users stay, and no last login goes back. *)
Definition later (db db' : UserDB) : Prop :=
  forall id u, user_of db id = Some u -> exists u', user_of db' id = Some u' /\
    match u_LastLoginAt u with
    | Some t => exists t', u_LastLoginAt u' = Some t' /\ t <= t'
    | None => True
    end.

Lemma later_refl db : later db db.
Proof. intros id u Hu. exists u. split; [done|]. destruct (u_LastLoginAt u); [|done]. eexists. split; [done|lia]. Qed.

Lemma later_trans db1 db2 db3 : later db1 db2 -> later db2 db3 -> later db1 db3.
Proof.
  intros H12 H23 id u Hu. destruct (H12 id u Hu) as (u2 & Hu2 & Hl2), (H23 id u2 Hu2) as (u3 & Hu3 & Hl3).
  exists u3. split; [done|]. destruct (u_LastLoginAt u) as [t|]; [|done]. destruct Hl2 as (t2 & E2 & Ht2).
  rewrite E2 in Hl3. destruct Hl3 as (t3 & E3 & Ht3). exists t3. split; [done|lia].
Qed.

Lemma later_last db db' id t : later db db' -> last_of db id = Some t ->
  exists t', last_of db' id = Some t' /\ t <= t'.
Proof.
  unfold last_of. intros Hl Ht. destruct (user_of db id) as [u|] eqn:Eu; [|done].
  destruct (Hl id u Eu) as (u' & Eu' & Hl'). rewrite Ht, Eu' in *. done.
Qed.

(** ** One operation *)

Definition quiet_op (o : auth_op) : Prop :=
  match o with Users (UUpdateLastLoginAt _ _) => False | _ => True end.

(** Users stay with their last login. *)
Definition same_last (db db' : UserDB) : Prop :=
  forall id u, user_of db id = Some u ->
  exists u', user_of db' id = Some u' /\ u_LastLoginAt u' = u_LastLoginAt u.

Lemma same_last_refl db : same_last db db.
Proof. intros id u Hu. eauto. Qed.

Lemma same_last_trans db1 db2 db3 : same_last db1 db2 -> same_last db2 db3 -> same_last db1 db3.
Proof.
  intros H12 H23 id u Hu. destruct (H12 id u Hu) as (u2 & Hu2 & E2), (H23 id u2 Hu2) as (u3 & Hu3 & E3).
  exists u3. split; [done|congruence].
Qed.

Lemma same_last_later db db' : same_last db db' -> later db db'.
Proof.
  intros Hs id u Hu. destruct (Hs id u Hu) as (u' & Hu' & E). exists u'. split; [done|]. rewrite E.
  destruct (u_LastLoginAt u); [|done]. eexists. split; [done|lia].
Qed.

Lemma user_exec_quiet now o db : quiet_op (Users o) -> same_last db (user_exec now o db).2.
Proof.
  intros Hq id u Hu. destruct o; simpl in Hq |- *; try done; eauto.
  - unfold Create. cbv zeta. destruct (negb _); [by exists u|]. destruct (existsb _ _); [by exists u|].
    destruct (negb _); [by exists u|]. exists u. split; [|done]. unfold user_of in *. simpl.
    by rewrite first_where_app, Hu.
  - exists (if has_user_id id0 u then set_password now passwordHash u else u). unfold user_of in *. simpl.
    rewrite first_where_update, Hu by done. split; [done|]. by destruct (has_user_id id0 u).
  - exists u. split; [|done]. unfold user_of in *. unfold EnsureRBACDefaults.
    destruct (insert_nothing same_slug _ _ _); [|done].
    destruct (insert_nothing same_perm_name _ _ _); [|done].
    by destruct (insert_nothing same_grant _ _ _).
  - exists u. split; [|done]. unfold InsertUserRole. cbv zeta. destruct (existsb _ _); [done|].
    by destruct (negb _).
Qed.

Lemma nextSessionTime_ge clock prev : clock <= nextSessionTime clock prev.
Proof. unfold nextSessionTime, Nanosecond. destruct prev as [p|]; [|lia]. destruct (Z.ltb_spec p clock); simpl; lia. Qed.

Lemma nextSessionTime_prev clock p : p < nextSessionTime clock (Some p).
Proof. unfold nextSessionTime, Nanosecond. destruct (Z.ltb_spec p clock); simpl; lia. Qed.

(** Starting a session of the user [u] as it was read. *)
Lemma update_later now clock db u : user_db_ok db ->
  (exists u', user_of db (u_ID u) = Some u' /\ u_LastLoginAt u' = u_LastLoginAt u) ->
  let db' := (UpdateLastLoginAt now (u_ID u) (nextSessionTime clock (u_LastLoginAt u)) db).2 in
  later db db' /\ last_of db' (u_ID u) = Some (timestamptz (nextSessionTime clock (u_LastLoginAt u))).
Proof.
  intros Hok (u' & Hu' & El). cbv zeta. unfold UpdateLastLoginAt. cbn [snd].
  set (f := set_last_login now (nextSessionTime clock (u_LastLoginAt u))).
  assert (Hf : forall id, user_of (with_users (update_where (has_user_id (u_ID u)) f (db_users db)) db) id
     = match user_of db id with Some x => Some (if has_user_id (u_ID u) x then f x else x) | None => None end).
  { intros id. unfold user_of. simpl. by rewrite first_where_update. }
  split.
  - intros id v Hv. rewrite Hf, Hv. eexists. split; [done|]. destruct (has_user_id (u_ID u) v) eqn:E.
    + assert (v = u') as ->.
      { apply Z.eqb_eq in E. apply user_of_id in Hv as Hid. rewrite Hid in E. subst id. congruence. }
      rewrite El. destruct (u_LastLoginAt u) as [t|] eqn:Et; [|done]. eexists. split; [done|].
      pose proof (nextSessionTime_prev clock t). pose proof (ok_times _ Hok) as Ht. rewrite Forall_forall in Ht.
      apply first_where_Some in Hu' as [Hin _]. specialize (Ht u' Hin). rewrite El in Ht. rewrite <- Ht.
      apply timestamptz_mono. rewrite Ht. lia.
    + destruct (u_LastLoginAt v); [|done]. eexists. split; [done|lia].
  - unfold last_of. rewrite Hf, Hu'. apply user_of_id in Hu'. unfold has_user_id. by rewrite Hu', Z.eqb_refl.
Qed.

Lemma auth_step_db o w : aw_db (auth_handle o w).2 = aw_db w \/
  exists uo, o = Users uo /\
    aw_db (auth_handle o w).2 = (user_exec (aenv_now env (aw_step w)) uo (aw_db w)).2.
Proof.
  destruct o as [uo| | | |]; auto. unfold auth_handle. cbn [auth_exec]. unfold exec_user.
  destruct (user_exec _ uo (aw_db w)) as [r d] eqn:E.
  destruct (aenv_db env (aw_step w)); [right|by left|right]; exists uo; by rewrite E.
Qed.

(** ** The invariant of every call *)

Record session_inv (w0 w : AuthWorld) : Prop := {
  si_ok : user_db_ok (aw_db w);
  si_later : later (aw_db w0) (aw_db w);
  si_step : (aw_step w0 <= aw_step w)%nat
}.

Lemma auth_handle_step o w : aw_step (auth_handle o w).2 = S (aw_step w).
Proof.
  destruct o as [uo| | | |]; try done. unfold auth_handle. cbn [auth_exec]. unfold exec_user.
  destruct (user_exec _ uo (aw_db w)) as [r d]. by destruct (aenv_db env (aw_step w)).
Qed.

Lemma auth_handle_ok o w : user_db_ok (aw_db w) -> user_db_ok (aw_db (auth_handle o w).2).
Proof. intros Hok. destruct (auth_step_db o w) as [->|(uo & -> & ->)]; [done|by apply user_exec_ok]. Qed.

Lemma quiet_same_last o w : quiet_op o -> same_last (aw_db w) (aw_db (auth_handle o w).2).
Proof.
  intros Hq. destruct (auth_step_db o w) as [->|(uo & -> & ->)]; [apply same_last_refl | by apply user_exec_quiet].
Qed.

(** Quiet operations keep the invariant and what was read of a user. *)
Record read_inv (w0 w : AuthWorld) (u : User) : Prop := {
  ri_inv : session_inv w0 w;
  ri_user : exists u', user_of (aw_db w) (u_ID u) = Some u' /\ u_LastLoginAt u' = u_LastLoginAt u
}.

Lemma session_inv_quiet w0 o w : quiet_op o -> session_inv w0 w -> session_inv w0 (auth_handle o w).2.
Proof.
  intros Hq []. constructor.
  - by apply auth_handle_ok.
  - eapply later_trans; [done|]. by apply same_last_later, quiet_same_last.
  - rewrite auth_handle_step. lia.
Qed.

Lemma read_inv_quiet w0 u o w : quiet_op o -> read_inv w0 w u -> read_inv w0 (auth_handle o w).2 u.
Proof.
  intros Hq [Hi (u' & Hu' & E)]. constructor; [by apply session_inv_quiet|].
  destruct (quiet_same_last o w Hq _ _ Hu') as (u2 & Hu2 & E2). exists u2. split; [done|congruence].
Qed.

(** ** Programs of quiet operations *)

Lemma resolveUserRBAC_quiet u : all_ops quiet_op (resolveUserRBAC u).
Proof. unfold resolveUserRBAC, GetRolesAndPermissions, EnsureUserRoleBySlug. quiet. Qed.

Lemma generateToken_quiet u rs ps m tu ck ea si : all_ops quiet_op (generateToken cfg u rs ps m tu ck ea si).
Proof. unfold generateToken, generateTokenID. quiet. Qed.
Hint Resolve resolveUserRBAC_quiet generateToken_quiet : quiet.

Lemma generateTokenPair_quiet u rs ps m si : all_ops quiet_op (generateTokenPair cfg u rs ps m si).
Proof. unfold generateTokenPair. quiet. Qed.
Hint Resolve generateTokenPair_quiet : quiet.

Lemma respond_quiet u rs ps m si : all_ops quiet_op (respond cfg u rs ps m si).
Proof. unfold respond. quiet. Qed.

Lemma parseTokenWithUse_quiet t use : all_ops quiet_op (parseTokenWithUse cfg t use).
Proof. unfold parseTokenWithUse. quiet. Qed.

Lemma ValidateSession_quiet c : all_ops quiet_op (ValidateSession c).
Proof. unfold ValidateSession, repo. quiet. Qed.

Lemma Me_quiet id : all_ops quiet_op (Me cfg id).
Proof. unfold Me, repo. quiet. Qed.

Lemma EnsureDefaultAdmin_quiet : all_ops quiet_op (EnsureDefaultAdmin cfg).
Proof.
  unfold EnsureDefaultAdmin, resolveBootstrapPassword, generateBootstrapPassword, EnsureUserRoleBySlug, repo. quiet.
Qed.
Hint Resolve respond_quiet parseTokenWithUse_quiet ValidateSession_quiet Me_quiet EnsureDefaultAdmin_quiet : quiet.

(** ** Rules for the calls *)

(** [fresh w0 id w] : the last login of [id] is not before some clock reading
    since [w0]. *)
Definition fresh (w0 : AuthWorld) (id : Z) (w : AuthWorld) : Prop :=
  exists n t, (aw_step w0 <= n)%nat /\ last_of (aw_db w) id = Some t /\ timestamptz (aenv_now env n) <= t.

Lemma fresh_later w0 id w w' : later (aw_db w) (aw_db w') -> fresh w0 id w -> fresh w0 id w'.
Proof.
  intros Hl (n & t & Hn & Ht & Hle). destruct (later_last _ _ _ _ Hl Ht) as (t' & Ht' & Hle').
  exists n, t'. split; [done|]. split; [done|lia].
Qed.

Lemma wp_quiet {A} (I : AuthWorld -> Prop) (p : auth A) (Q : A -> AuthWorld -> Prop) w :
  (forall o w, quiet_op o -> I w -> I (auth_handle o w).2) -> all_ops quiet_op p -> I w ->
  (forall x w', I w' -> Q x w') -> wp auth_handle p Q w.
Proof. intros Hop Hp Hw HQ. eapply wp_mono; [by eapply wp_inv|]. auto. Qed.

Lemma exec_user_cases o w : exists r, (auth_handle (Users o) w).1 = r /\
  (r = (user_exec (aenv_now env (aw_step w)) o (aw_db w)).1 /\
   aw_db (auth_handle (Users o) w).2 = (user_exec (aenv_now env (aw_step w)) o (aw_db w)).2 \/
   exists e, r = Err e).
Proof.
  unfold auth_handle. cbn [auth_exec]. unfold exec_user.
  destruct (user_exec _ o (aw_db w)) as [r d]. destruct (aenv_db env (aw_step w)) as [|e|e]; eexists;
    (split; [reflexivity|]); [left; by split|right; by exists e|right; by exists e].
Qed.

Lemma wp_auth_repo s o (Q : res (user_val o) -> AuthWorld -> Prop) w :
  Q (map_err (wrap_as s) (auth_handle (Users o) w).1) (auth_handle (Users o) w).2 ->
  wp auth_handle (repo s o) Q w.
Proof.
  intros HQ. unfold repo. apply wp_or_else. unfold wp, trigger. cbn [run inj proj users_in_auth].
  revert HQ. by destruct (auth_handle (Users o) w) as [a w'].
Qed.

Lemma wp_auth_now (Q : Z -> AuthWorld -> Prop) w :
  Q (aenv_now env (aw_step w)) (auth_handle ANow w).2 -> wp auth_handle (call (ANow : auth_op)) Q w.
Proof. done. Qed.

Lemma wp_GetByID s id (Q : res (option User) -> AuthWorld -> Prop) w0 w : session_inv w0 w ->
  (forall r w', session_inv w0 w' ->
     (forall u, r = Ok (Some u) -> read_inv w0 w' u /\ u_ID u = id /\ user_of (aw_db w) id = Some u) -> Q r w') ->
  wp auth_handle (repo s (UGetByID id)) Q w.
Proof.
  intros Hi HQ. apply wp_auth_repo. pose proof (session_inv_quiet w0 (Users (UGetByID id)) w I Hi) as Hi'.
  apply HQ; [done|]. intros u Hr.
  destruct (exec_user_cases (UGetByID id) w) as (r & Er & [[E Ed]|[e E]]); rewrite Er in Hr; [|by rewrite E in Hr].
  assert (E2 : r = Ok (user_of (aw_db w) id)) by (rewrite E; apply GetByID_user_of, Hi).
  rewrite E2 in Hr. injection Hr as Hu. pose proof (user_of_id _ _ _ Hu) as Hid. split; [|done]. constructor; [done|].
  exists u. rewrite Ed, Hid. done.
Qed.

Lemma wp_GetByUsername s name (Q : res (option User) -> AuthWorld -> Prop) w0 w : session_inv w0 w ->
  (forall r w', session_inv w0 w' ->
     (forall u, r = Ok (Some u) -> read_inv w0 w' u /\ u_Username u = name) -> Q r w') ->
  wp auth_handle (repo s (UGetByUsername name)) Q w.
Proof.
  intros Hi HQ. apply wp_auth_repo. pose proof (session_inv_quiet w0 (Users (UGetByUsername name)) w I Hi) as Hi'.
  apply HQ; [done|]. intros u Hr.
  destruct (exec_user_cases (UGetByUsername name) w) as (r & Er & [[E Ed]|[e E]]); rewrite Er in Hr; [|by rewrite E in Hr].
  cbn [user_exec] in E. assert (Hg : (GetByUsername name (aw_db w)).1 = Ok (Some u)).
  { apply (eq_trans (eq_sym E)). destruct r; [exact Hr|discriminate Hr]. }
  apply GetByUsername_elem in Hg as [Hin Hn]; [|apply Hi]. split; [|done]. constructor; [done|].
  exists u. rewrite Ed. split; [|done]. apply user_of_elem; [apply Hi|done].
Qed.

Lemma wp_start s clock u (Q : res unit -> AuthWorld -> Prop) w0 n w :
  read_inv w0 w u -> clock = aenv_now env n -> (aw_step w0 <= n)%nat ->
  (forall r w', session_inv w0 w' -> (r = Ok tt -> fresh w0 (u_ID u) w') -> Q r w') ->
  wp auth_handle (repo s (UUpdateLastLoginAt (u_ID u) (nextSessionTime clock (u_LastLoginAt u)))) Q w.
Proof.
  intros [[] Hu] Hc Hn HQ. apply wp_auth_repo. set (o := UUpdateLastLoginAt _ _).
  destruct (update_later (aenv_now env (aw_step w)) clock (aw_db w) u si_ok0 Hu) as [Hl Hlast].
  apply HQ.
  - constructor.
    + by apply auth_handle_ok.
    + eapply later_trans; [done|]. destruct (auth_step_db (Users o) w) as [->|(uo & [= <-] & ->)];
        [apply later_refl | exact Hl].
    + rewrite auth_handle_step. lia.
  - intros Hr. destruct (exec_user_cases o w) as (r & Er & [[E Ed]|[e E]]); rewrite Er in Hr; [|by rewrite E in Hr].
    exists n. eexists. split; [done|]. rewrite Ed. split; [exact Hlast|]. apply timestamptz_mono.
    rewrite <- Hc. apply nextSessionTime_ge.
Qed.

Lemma wp_respond (I : AuthWorld -> Prop) u rs ps m si (Q : res LoginResponse -> AuthWorld -> Prop) w :
  (forall o w, quiet_op o -> I w -> I (auth_handle o w).2) -> I w ->
  (forall r w', I w' -> (forall resp, r = Ok resp -> lres_User resp = toProfile u rs ps m) -> Q r w') ->
  wp auth_handle (respond cfg u rs ps m si) Q w.
Proof.
  intros Hop Hw HQ. unfold respond. apply wp_bind_ok, wp_or_else.
  eapply (wp_quiet I); [done|apply generateTokenPair_quiet|done|]. intros [x|e] w' Hw'; cbn [map_err].
  - apply wp_ret. apply HQ; [done|]. by intros resp [= <-].
  - by apply HQ.
Qed.

Definition started_inv (w0 : AuthWorld) (id : Z) (w : AuthWorld) : Prop := session_inv w0 w /\ fresh w0 id w.

Lemma started_inv_quiet w0 id o w : quiet_op o -> started_inv w0 id w -> started_inv w0 id (auth_handle o w).2.
Proof.
  intros Hq [Hi Hf]. split; [by apply session_inv_quiet|].
  eapply fresh_later; [|exact Hf]. by apply same_last_later, quiet_same_last.
Qed.

(** What a call that answers a login response leaves. *)
Definition login_post (w0 : AuthWorld) (r : res LoginResponse) (w : AuthWorld) : Prop :=
  session_inv w0 w /\ forall id, started r = Some id -> fresh w0 id w.

Lemma login_post_err w0 e w : session_inv w0 w -> login_post w0 (Err e) w.
Proof. intros Hi. split; [done|]. by intros id. Qed.

(** The end of a call that starts a session. *)
Lemma wp_session s clock n u u' rs ps m si w0 w :
  read_inv w0 w u -> clock = aenv_now env n -> (aw_step w0 <= n)%nat -> u_ID u' = u_ID u ->
  wp auth_handle (bind_ok (repo s (UUpdateLastLoginAt (u_ID u) (nextSessionTime clock (u_LastLoginAt u))))
                    (fun _ => respond cfg u' rs ps m si)) (login_post w0) w.
Proof.
  intros Hr Hc Hn Hid. apply wp_bind_ok. eapply wp_start; [done..|]. intros [[]|e] w1 Hi Hf; [|by apply login_post_err].
  eapply (wp_respond (started_inv w0 (u_ID u))); [apply started_inv_quiet|by split; auto|].
  intros r w2 [Hi2 Hf2] Hresp. split; [done|]. intros id Hs. destruct r as [resp|]; [|done]. simpl in Hs.
  rewrite (Hresp resp eq_refl) in Hs. simpl in Hs. destruct m; [done|]. injection Hs as <-. by rewrite Hid.
Qed.

Lemma wp_rbac_read {A} w0 u (Q : res A -> AuthWorld -> Prop) (f : list string * list string -> auth (res A)) w :
  read_inv w0 w u -> (forall e w', session_inv w0 w' -> Q (Err e) w') ->
  (forall rp w', read_inv w0 w' u -> wp auth_handle (f rp) Q w') ->
  forall v, wp auth_handle (bind_ok (or_else (resolveUserRBAC v) internal) f) Q w.
Proof.
  intros Hr He Hf v. apply wp_bind_ok, wp_or_else.
  eapply (wp_quiet (fun w => read_inv w0 w u)); [intros o w'; apply read_inv_quiet|apply resolveUserRBAC_quiet|done|].
  intros [rp|e] w1 H1; simpl; [by apply Hf|]. by apply He, H1.
Qed.

Lemma wp_Login w0 w req : session_inv w0 w -> wp auth_handle (Login cfg req) (login_post w0) w.
Proof.
  intros Hi. unfold Login. apply wp_bind_ok, (wp_GetByUsername _ _ _ w0); [done|].
  intros r w1 Hi1 Hr. destruct r as [[u|]|e]; [|by apply login_post_err..].
  destruct (Hr u eq_refl) as [Hread _]. destruct (negb _); [by apply login_post_err|].
  destruct (negb _); [by apply login_post_err|].
  apply (wp_rbac_read w0 u); [done|intros; by apply login_post_err|]. intros rp w2 H2. cbv zeta.
  apply wp_bind, wp_auth_now. assert (H3 : read_inv w0 (auth_handle ANow w2).2 u) by by apply read_inv_quiet.
  assert (Hn : (aw_step w0 <= aw_step w2)%nat) by apply H2.
  destruct (mustChangePassword cfg u).
  - apply wp_bind_ok, wp_ret. eapply (wp_respond (session_inv w0)); [apply session_inv_quiet|apply H3|].
    intros r w4 H4 Hresp. split; [done|]. intros id Hs. destruct r as [resp|]; [|done]. simpl in Hs.
    by rewrite (Hresp resp eq_refl) in Hs.
  - cbn [negb]. unfold bind_ok at 1. apply wp_bind.
    pose proof (wp_session ErrInternal (aenv_now env (aw_step w2)) (aw_step w2) u
      (set_LastLoginAt (nextSessionTime (aenv_now env (aw_step w2)) (u_LastLoginAt u)) u) rp.1 rp.2 false
      (nextSessionTime (aenv_now env (aw_step w2)) (u_LastLoginAt u)) w0 _ H3 eq_refl Hn eq_refl) as Hs.
    unfold bind_ok in Hs |- *. unfold wp in Hs |- *. rewrite run_bind in Hs. rewrite run_bind.
    by destruct (run auth_handle _ _) as [[x|e] w5].
Qed.

Lemma wp_Refresh w0 w t : session_inv w0 w -> wp auth_handle (Refresh cfg t) (login_post w0) w.
Proof.
  intros Hi. unfold Refresh. apply wp_bind_ok.
  eapply (wp_quiet (session_inv w0)); [apply session_inv_quiet|apply parseTokenWithUse_quiet|done|].
  intros [claims|e] w1 Hi1; [|by apply login_post_err]. destruct (tc_MustChangePassword claims); [by apply login_post_err|].
  apply wp_bind_ok. eapply (wp_quiet (session_inv w0)); [apply session_inv_quiet|apply ValidateSession_quiet|done|].
  intros [[]|e] w2 Hi2; [|by apply login_post_err].
  apply wp_bind_ok, (wp_GetByID _ _ _ w0); [done|]. intros r w3 Hi3 Hr.
  destruct r as [[u|]|e]; [|by apply login_post_err..]. destruct (Hr u eq_refl) as (Hread & Hid & _).
  destruct (negb _); [by apply login_post_err|].
  apply (wp_rbac_read w0 u); [done|intros; by apply login_post_err|]. intros rp w4 H4. cbv zeta.
  apply wp_bind, wp_auth_now. eapply wp_session; [by apply read_inv_quiet|done|apply H4|done].
Qed.

Lemma wp_ChangePassword w0 w id req : session_inv w0 w ->
  wp auth_handle (ChangePassword cfg id req) (login_post w0) w.
Proof.
  intros Hi. unfold ChangePassword. apply wp_bind_ok, (wp_GetByID _ _ _ w0); [done|]. intros r w1 Hi1 Hr.
  destruct r as [[u|]|e]; [|by apply login_post_err..]. destruct (Hr u eq_refl) as (Hread & Hid & _).
  destruct (negb _); [by apply login_post_err|]. cbv zeta. destruct (negb _); [by apply login_post_err|].
  destruct (_ =? _)%string; [by apply login_post_err|]. apply wp_bind_ok, wp_or_else.
  eapply (wp_quiet (fun w => read_inv w0 w u)); [intros o w'; apply read_inv_quiet|done|done|].
  intros [hash|e] w2 H2; cbn [map_err]; [|apply login_post_err, H2]. apply wp_bind_ok.
  eapply (wp_quiet (fun w => read_inv w0 w u)); [intros o w'; apply read_inv_quiet|by repeat split|done|].
  intros [[]|e] w3 H3; [|apply login_post_err, H3]. apply wp_bind, wp_auth_now.
  assert (H4 : read_inv w0 (auth_handle ANow w3).2 u) by by apply read_inv_quiet.
  apply wp_bind_ok. eapply wp_start; [exact H4|done|apply H3|]. intros [[]|e] w5 Hi5 Hf5; [|by apply login_post_err].
  assert (H5 : started_inv w0 (u_ID u) w5) by (split; auto). apply wp_bind_ok, wp_or_else.
  eapply (wp_quiet (started_inv w0 (u_ID u))); [apply started_inv_quiet|apply resolveUserRBAC_quiet|done|].
  intros [rp|e] w6 H6; cbn [map_err]; [|apply login_post_err, H6].
  eapply (wp_respond (started_inv w0 (u_ID u))); [apply started_inv_quiet|done|].
  intros r w7 [Hi7 Hf7] Hresp. split; [done|]. intros i Hs. destruct r as [resp|]; [|done]. simpl in Hs.
  rewrite (Hresp resp eq_refl) in Hs. simpl in Hs. by injection Hs as <-.
Qed.

(** [RevokeSession] starts a new session unless the user must change the
    password. *)
Lemma wp_RevokeSession w0 w id : session_inv w0 w ->
  wp auth_handle (RevokeSession cfg id) (fun r w' => session_inv w0 w' /\
    ((forall u, user_of (aw_db w) id = Some u -> mustChangePassword cfg u = false) ->
     is_ok r = true -> fresh w0 id w')) w.
Proof.
  intros Hi. unfold RevokeSession. apply wp_bind_ok, (wp_GetByID _ _ _ w0); [done|]. intros r w1 Hi1 Hr.
  destruct r as [[u|]|e]; [|by split..]. destruct (Hr u eq_refl) as (Hread & Hid & Hu).
  destruct (mustChangePassword cfg u) eqn:Em; [split; [done|]; intros Hm; by rewrite (Hm u Hu) in Em|].
  apply wp_bind, wp_auth_now. apply wp_bind_ok.
  eapply wp_start; [by apply read_inv_quiet|done|apply Hi1|]. intros [[]|e] w2 Hi2 Hf2; [|by split].
  apply wp_ret. split; [done|]. intros _ _. rewrite <- Hid. by apply Hf2.
Qed.

(** What every call leaves. *)
Lemma wp_auth_call w0 w c : session_inv w0 w ->
  wp auth_handle (call_prog c) (fun r w' => session_inv w0 w' /\
    forall id, r = Some id ->
      (c = CRevokeSession id -> forall u, user_of (aw_db w) id = Some u -> mustChangePassword cfg u = false) ->
      fresh w0 id w') w.
Proof.
  intros Hi. destruct c; unfold call_prog; apply wp_bind;
    try (unfold ParseToken; eapply (wp_quiet (session_inv w0)); [apply session_inv_quiet|auto with quiet|done|];
         intros x w' Hw'; apply wp_ret; split; [exact Hw'|intros ? ?; discriminate]).
  - eapply wp_mono; [by apply (wp_Login w0)|]. intros r w1 [H1 H2]. apply wp_ret. split; auto.
  - eapply wp_mono; [by apply (wp_Refresh w0)|]. intros r w1 [H1 H2]. apply wp_ret. split; auto.
  - eapply wp_mono; [by apply (wp_RevokeSession w0)|]. intros r w1 [H1 H2]. apply wp_ret. split; [done|].
    intros id Hr Hm. destruct r as [[]|]; [|done]. injection Hr as <-. by apply H2; auto.
  - eapply wp_mono; [by apply (wp_ChangePassword w0)|]. intros r w1 [H1 H2]. apply wp_ret. split; auto.
Qed.

Lemma run_calls_inv w0 cs : forall w, session_inv w0 w -> session_inv w0 (run_calls cs w).
Proof.
  induction cs as [|c cs IH]; intros w Hi; [done|]. simpl. apply IH.
  pose proof (wp_auth_call w0 w c Hi) as Hc. unfold wp in Hc. destruct (run auth_handle (call_prog c) w). apply Hc.
Qed.

Lemma session_inv_refl w : user_db_ok (aw_db w) -> session_inv w w.
Proof. intros Hok. constructor; [done|apply later_refl|lia]. Qed.

Lemma wp_run {A} (p : auth A) (P : A -> Prop) w : wp auth_handle p (fun r _ => P r) w -> P (run auth_handle p w).1.
Proof. unfold wp. by destruct (run auth_handle p w). Qed.

(** A session from before the last login is refused. *)
Lemma wp_ValidateSession_stale w claims t : user_db_ok (aw_db w) ->
  last_of (aw_db w) (tc_UserID claims) = Some t -> tc_SessionIssuedAt claims < t ->
  wp auth_handle (ValidateSession claims) (fun r _ => r <> Ok tt) w.
Proof.
  intros Hok Hl Ht. unfold ValidateSession. apply wp_bind_ok, (wp_GetByID _ _ _ w); [by apply session_inv_refl|].
  intros r w1 _ Hr. destruct r as [[u|]|e]; [|done..]. destruct (Hr u eq_refl) as (_ & _ & Hu).
  unfold last_of in Hl. rewrite Hu in Hl. destruct (negb _); [done|]. destruct (_ <=? _); [done|].
  rewrite Hl. by destruct (Z.ltb_spec (tc_SessionIssuedAt claims) t); [|lia].
Qed.

End AuthSystem.
