(* ===== verification/AuthProps.v ===== *)
(** * Properties of the authentication service

    The checksum of a user's rights, the tokens, and what the calls of the
    service answer and store when no statement of the database fails. *)

From Stdlib Require Import ZArith Lia Ascii.
From stdpp Require Import sets.
From S2P Require Import Prelude GoString GoTime GoError Effects Table Schema Dto Crypto UserRepo AuthService AuthSystem.
Import Dto.dto UserRepo.user_repository.

(** ** The checksum of the rights *)

Definition no_char (c : ascii) (s : string) : bool :=
  forallb (fun a => negb (Ascii.eqb a c)) (String.list_ascii_of_string s).

Lemma no_char_app c s t : no_char c (s +:+ String c t)%string = false.
Proof.
  unfold no_char. induction s as [|a s IH]; simpl; [by rewrite Ascii.eqb_refl|].
  change (String.append s (String c t)) with (s +:+ String c t)%string. by rewrite IH, andb_false_r.
Qed.

(** The first separator splits a text in one way. *)
Lemma split_sep c s1 s2 t1 t2 : no_char c s1 = true -> no_char c s2 = true ->
  (s1 +:+ String c t1)%string = (s2 +:+ String c t2)%string -> s1 = s2 /\ t1 = t2.
Proof.
  unfold no_char. revert s2. induction s1 as [|a s1 IH]; intros [|b s2] H1 H2 E; simpl in H1, H2.
  - by injection E.
  - injection E as <- _. by rewrite Ascii.eqb_refl in H2.
  - injection E as -> _. by rewrite Ascii.eqb_refl in H1.
  - apply andb_prop in H1 as [_ H1], H2 as [_ H2]. injection E as -> E.
    destruct (IH s2 H1 H2 E) as [-> ->]. done.
Qed.

(** A role or permission name as the tables hold them: not empty, without the
    separators. *)
Definition rights_name (s : string) : bool :=
  negb (s =? "")%string && no_char "," s && no_char "|" s.

Lemma Join_cons x y l : Join (x :: y :: l) "," = (x +:+ String "," (Join (y :: l) ","))%string.
Proof. done. Qed.

Lemma Join_nonempty x l : x <> "" -> Join (x :: l) "," <> "".
Proof. intros Hx. destruct l as [|y l]; [done|]. rewrite Join_cons. by destruct x. Qed.

Lemma Join_inj l k : Forall (fun s => rights_name s = true) l -> Forall (fun s => rights_name s = true) k ->
  Join l "," = Join k "," -> l = k.
Proof.
  revert k. induction l as [|x l IH]; intros [|y k] Hl Hk E; [done|..].
  - inversion Hk as [|? ? Hy _]; subst. unfold rights_name in Hy. breflect. symmetry in E.
    by apply Join_nonempty in E.
  - inversion Hl as [|? ? Hx _]; subst. unfold rights_name in Hx. breflect. by apply Join_nonempty in E.
  - inversion Hl as [|? ? Hx Hl']; inversion Hk as [|? ? Hy Hk']; subst. unfold rights_name in Hx, Hy. breflect.
    destruct l as [|x2 l], k as [|y2 k].
    + simpl in E. by subst.
    + exfalso. rewrite Join_cons in E. change (Join [x] ",") with x in E. subst x.
      by rewrite no_char_app in *.
    + exfalso. rewrite Join_cons in E. change (Join [y] ",") with y in E. subst y.
      by rewrite no_char_app in *.
    + rewrite !Join_cons in E. apply split_sep in E as [-> E]; [|done..]. f_equal. by apply IH.
Qed.

Lemma no_char_Join l : Forall (fun s => rights_name s = true) l -> no_char "|" (Join l ",") = true.
Proof.
  assert (Ha : forall s t, no_char "|" s = true -> no_char "|" t = true -> no_char "|" (s +:+ t)%string = true).
  { intros s t Hs Ht. unfold no_char in *. induction s as [|a s IH]; [done|]. simpl in Hs |- *.
    apply andb_prop in Hs as [-> Hs]. by apply IH. }
  induction 1 as [|x l Hx Hl IH]; [done|]. unfold rights_name in Hx. breflect.
  destruct l as [|y l]; [done|]. rewrite Join_cons. apply Ha; [done|].
  exact (Ha "," _ eq_refl IH).
Qed.

Lemma payload_inj r p r' p' : Forall (fun s => rights_name s = true) (r ++ p ++ r' ++ p') ->
  checksum_payload r p = checksum_payload r' p' -> r ≡ₚ r' /\ p ≡ₚ p'.
Proof.
  rewrite !Forall_app. intros (Hr & Hp & Hr' & Hp') E.
  assert (Hs : forall l, Forall (fun s => rights_name s = true) l -> Forall (fun s => rights_name s = true) (SortStrings l)).
  { intros l Hl. by rewrite SortStrings_Permutation. }
  unfold checksum_payload in E. apply split_sep in E as [E1 E2]; [|by apply no_char_Join, Hs..].
  split; apply SortStrings_eq, Join_inj; auto.
Qed.

Lemma hex_char_inj a b : 0 <= a < 16 -> 0 <= b < 16 -> hex_char a = hex_char b -> a = b.
Proof.
  intros Ha Hb E. unfold hex_char in E. apply (f_equal byte) in E.
  destruct (Z.ltb_spec a 10), (Z.ltb_spec b 10); rewrite !byte_chr in E by lia; lia.
Qed.

Lemma hex_inj l k : bytes l -> bytes k -> hex_EncodeToString l = hex_EncodeToString k -> l = k.
Proof.
  intros Hl. revert k. induction Hl as [|a l Ha Hl IH]; intros k Hk E; destruct Hk as [|b k Hb Hk]; try done.
  simpl in E. injection E as E1 E2 E3.
  apply hex_char_inj in E1, E2; try (Z.to_euclidean_division_equations; lia).
  f_equal; [|by apply IH]. rewrite (Z.div_mod a 16), (Z.div_mod b 16) by lia. by rewrite E1, E2.
Qed.

Lemma checksum_separates (r p r' p' : list string) :
  Forall (fun s => rights_name s = true) (r ++ p ++ r' ++ p') ->
  (r ≡ₚ r' -> p ≡ₚ p' -> computeRBACChecksum r p = computeRBACChecksum r' p') /\
  (computeRBACChecksum r p = computeRBACChecksum r' p' ->
     (r ≡ₚ r' /\ p ≡ₚ p') \/
     (checksum_payload r p <> checksum_payload r' p' /\
      sha256.Sum256 (bytes_of (checksum_payload r p)) = sha256.Sum256 (bytes_of (checksum_payload r' p')))).
Proof.
  intros Hn. split.
  - intros Hr Hp. unfold computeRBACChecksum, checksum_payload.
    by rewrite (proj2 (SortStrings_eq r r') Hr), (proj2 (SortStrings_eq p p') Hp).
  - intros E. apply hex_inj in E; [|apply Sum256_range..].
    destruct (decide (checksum_payload r p = checksum_payload r' p')) as [Ep|Ep]; [left|by right].
    by apply payload_inj.
Qed.

(** The checksum in a token stands for the user's rights: it ignores their
    order, and two different sets of rights have different checksums unless
    their texts collide under SHA-256. *)
Theorem computeRBACChecksum_spec (r p r' p' : list string) :
  Forall (fun s => rights_name s = true) (r ++ p ++ r' ++ p') ->
  (r ≡ₚ r' -> p ≡ₚ p' -> computeRBACChecksum r p = computeRBACChecksum r' p') /\
  (computeRBACChecksum r p = computeRBACChecksum r' p' ->
     (r ≡ₚ r' /\ p ≡ₚ p') \/
     (checksum_payload r p <> checksum_payload r' p' /\
      sha256.Sum256 (bytes_of (checksum_payload r p)) = sha256.Sum256 (bytes_of (checksum_payload r' p')))).
Proof. apply checksum_separates. Qed.

Lemma computeRBACChecksum_spec_witness :
  Forall (fun s => rights_name s = true) (["operator"] ++ ["files.read"; "dashboard.read"] ++ ["operator"] ++ ["dashboard.read"; "files.read"]) /\
  computeRBACChecksum ["operator"] ["files.read"; "dashboard.read"]
  = computeRBACChecksum ["operator"] ["dashboard.read"; "files.read"].
Proof.
  assert (Hn : Forall (fun s => rights_name s = true)
    (["operator"] ++ ["files.read"; "dashboard.read"] ++ ["operator"] ++ ["dashboard.read"; "files.read"]))
    by (repeat constructor).
  split; [exact Hn|]. apply (computeRBACChecksum_spec _ _ _ _ Hn); [reflexivity|apply Permutation_swap].
Defined.

(** ** Strong passwords *)

Lemma strong_scan l : forall u lo d s,
  fold_left (fun '(u, l, d, s) ch =>
      if is_upper ch then (true, l, d, s) else if is_lower ch then (u, true, d, s)
      else if is_digit ch then (u, l, true, s) else (u, l, d, true)) l (u, lo, d, s)
  = (u || existsb is_upper l, lo || existsb is_lower l, d || existsb is_digit l,
     s || existsb (fun ch => negb (is_upper ch || is_lower ch || is_digit ch)) l).
Proof.
  induction l as [|ch l IH]; intros u lo d s; simpl; [by rewrite !orb_false_r|].
  assert (Hx : (is_upper ch = true -> is_lower ch = false /\ is_digit ch = false) /\
               (is_lower ch = true -> is_digit ch = false)) by (unfold is_upper, is_lower, is_digit; lia).
  destruct Hx as [H1 H2]. destruct (is_upper ch); [destruct (H1 eq_refl) as [-> ->]|].
  - rewrite IH. simpl. by rewrite orb_true_r.
  - destruct (is_lower ch); [rewrite (H2 eq_refl), IH; simpl; by rewrite orb_true_r|].
    destruct (is_digit ch); rewrite IH; simpl; by rewrite orb_true_r.
Qed.

(** A password is strong when, trimmed, it has 14 bytes and a rune of each of
    the four kinds. *)
Lemma isStrongPassword_iff raw : let r := runes (TrimSpace raw) in
  isStrongPassword raw = true <->
  14 <= len (TrimSpace raw) /\ existsb is_upper r = true /\ existsb is_lower r = true /\
  existsb is_digit r = true /\ existsb (fun ch => negb (is_upper ch || is_lower ch || is_digit ch)) r = true.
Proof.
  cbv zeta. unfold isStrongPassword. cbv zeta. rewrite strong_scan. simpl.
  destruct (Z.ltb_spec (len (TrimSpace raw)) 14); [split; [done|lia]|]. rewrite !andb_true_iff. intuition.
Qed.

(** ** Without database faults *)
Section NoFault.
Context `{JWT} `{Bcrypt} (env : AuthEnv) (cfg : AuthConfig).
Hypothesis no_faults : forall n, aenv_db env n = NoFault.
#[local] Abbreviation handle := (auth_handle env).
#[local] Abbreviation wpa := (wp (auth_handle env)).

(** The world after an operation that left the tables [d]. *)
Definition next (d : UserDB) (w : AuthWorld) : AuthWorld :=
  {| aw_step := S (aw_step w); aw_db := d; aw_log := aw_log w |}.

Definition answer (w : AuthWorld) (o : user_op) : user_ans o * UserDB :=
  user_exec (aenv_now env (aw_step w)) o (aw_db w).

Lemma handle_user o w : handle (Users o) w = ((answer w o).1, next (answer w o).2 w).
Proof.
  unfold auth_handle. cbn [auth_exec]. unfold exec_user, answer. rewrite no_faults.
  by destruct (user_exec _ o (aw_db w)).
Qed.

Lemma wp_trigger o (Q : user_ans o -> AuthWorld -> Prop) w :
  Q (answer w o).1 (next (answer w o).2 w) -> wpa (trigger o) Q w.
Proof. intros HQ. unfold wp, trigger. cbn [run inj proj users_in_auth]. by rewrite handle_user. Qed.

Lemma wp_repo_ok s o (Q : res (user_val o) -> AuthWorld -> Prop) w :
  Q (map_err (wrap_as s) (answer w o).1) (next (answer w o).2 w) -> wpa (repo s o) Q w.
Proof. intros HQ. apply wp_auth_repo. by rewrite handle_user. Qed.

Lemma wp_user s id (Q : res (option User) -> AuthWorld -> Prop) w : user_db_ok (aw_db w) ->
  Q (Ok (user_of (aw_db w) id)) (next (aw_db w) w) -> wpa (repo s (UGetByID id)) Q w.
Proof.
  intros Hok HQ. apply wp_repo_ok. pose proof (GetByID_user_of id (aw_db w) Hok) as E.
  unfold answer. cbn [user_exec]. destruct (GetByID id (aw_db w)) as [r d] eqn:Eg. injection Eg as <- <-.
  cbn [fst snd] in E |- *. by rewrite E.
Qed.

(** The rights of a user who has a role are read and nothing is written. *)
Definition has_rights (db : UserDB) (id : Z) (roles permissions : list string) : Prop :=
  SelectRoles id db = (Ok roles, db) /\ SelectPermissions id db = (Ok permissions, db) /\ roles <> [].

Lemma wp_resolve u roles permissions (Q : res (list string * list string) -> AuthWorld -> Prop) w :
  has_rights (aw_db w) (u_ID u) roles permissions ->
  Q (Ok (roles, permissions)) (next (aw_db w) (next (aw_db w) w)) -> wpa (resolveUserRBAC u) Q w.
Proof.
  intros (Hr & Hp & Hne) HQ. unfold resolveUserRBAC. apply wp_bind_ok. unfold GetRolesAndPermissions at 1.
  apply wp_bind_ok, (wp_trigger (USelectRoles (u_ID u))). unfold answer. cbn [user_exec]. rewrite Hr. cbn [fst snd].
  apply wp_bind_ok, (wp_trigger (USelectPermissions (u_ID u))). unfold answer. cbn [user_exec aw_db next]. rewrite Hp. cbn [fst snd].
  apply wp_ret. destruct roles as [|r roles]; [done|]. cbn [fst]. by apply wp_ret.
Qed.

Lemma wp_outcome {A} (p : auth A) (Q : A -> AuthWorld -> Prop) w :
  wpa p Q w -> Q (run handle p w).1 (run handle p w).2.
Proof. unfold wp. by destruct (run handle p w). Qed.

(** *** Sessions *)

(** The checksum a token's claims stand for. *)
Definition claim_checksum (claims : TokenClaims) : string :=
  let c := TrimSpace (tc_RBACChecksum claims) in
  if (c =? "")%string then computeRBACChecksum (tc_Roles claims) (tc_Permissions claims) else c.

Definition session_valid (db : UserDB) (claims : TokenClaims) (roles permissions : list string) : bool :=
  match user_of db (tc_UserID claims) with
  | Some u => (u_Status u =? 1) && (0 <? tc_SessionIssuedAt claims)
      && match u_LastLoginAt u with Some t => t <=? tc_SessionIssuedAt claims | None => true end
      && (claim_checksum claims =? computeRBACChecksum roles permissions)%string
  | None => false
  end.

Definition session_outcome (w : AuthWorld) (claims : TokenClaims) (roles permissions : list string)
    (r : res unit) (w' : AuthWorld) : Prop :=
  (r = Ok tt <-> session_valid (aw_db w) claims roles permissions = true) /\
  (forall e, r = Err e -> http_status e = 401) /\ aw_db w' = aw_db w.

Lemma validate_decides (w : AuthWorld) (claims : TokenClaims) (roles permissions : list string) :
  user_db_ok (aw_db w) ->
  (forall u, user_of (aw_db w) (tc_UserID claims) = Some u -> has_rights (aw_db w) (tc_UserID claims) roles permissions) ->
  session_outcome w claims roles permissions
    (run handle (ValidateSession claims) w).1 (run handle (ValidateSession claims) w).2.
Proof.
  intros Hok Hr. apply wp_outcome. unfold session_outcome.
  unfold ValidateSession. apply wp_bind_ok, wp_user; [done|]. unfold session_valid.
  destruct (user_of (aw_db w) (tc_UserID claims)) as [u|] eqn:Eu; [|by repeat split; intros; simplify_eq].
  destruct (u_Status u =? 1); cbn [negb andb]; [|by repeat split; intros; simplify_eq].
  destruct (Z.leb_spec (tc_SessionIssuedAt claims) 0), (Z.ltb_spec 0 (tc_SessionIssuedAt claims)); try lia;
    [by repeat split; intros; simplify_eq|]. cbn [andb].
  assert (Hs : match u_LastLoginAt u with Some t => tc_SessionIssuedAt claims <? t | None => false end
             = negb match u_LastLoginAt u with Some t => t <=? tc_SessionIssuedAt claims | None => true end).
  { destruct (u_LastLoginAt u); [|done]. lia. }
  rewrite Hs. destruct (match u_LastLoginAt u with Some _ => _ | None => true end); cbn [negb andb];
    [|by repeat split; intros; simplify_eq].
  apply wp_bind_ok, wp_or_else, (wp_resolve u roles permissions).
  { rewrite (user_of_id _ _ _ Eu). by eapply Hr. }
  cbn [map_err]. cbv zeta. fold (claim_checksum claims). cbn [fst snd].
  destruct (_ =? _)%string; cbn [negb]; by repeat split; intros; simplify_eq.
Qed.


(** *** Logging in *)

(** An error of [Login] that the throttle counts. *)
Definition credential (e : goerr) : bool := (app_code e =? 2001) || (app_code e =? 2011).

Definition not_credential (r : res LoginResponse) : Prop :=
  match r with Ok _ => True | Err e => credential e = false end.

(** What the user row and the password decide. *)
Definition verdict (u : option User) (password : string) : option goerr :=
  match u with
  | None => Some ErrInvalidCredential
  | Some u => if negb (bcrypt_compare (u_PasswordHash u) password) then Some ErrInvalidCredential
              else if negb (u_Status u =? 1) then Some ErrUserDisabled else None
  end.

Definition login_outcome (w : AuthWorld) (u : option User) (req : LoginRequest)
    (r : res LoginResponse) (w' : AuthWorld) : Prop :=
  match verdict u (lr_Password req) with
  | Some e => r = Err e /\ credential e = true /\ aw_db w' = aw_db w
  | None => not_credential r
  end.

Lemma wp_internal {A} (p : auth (res A)) (f : A -> auth (res LoginResponse)) s w :
  credential (wrap_as s (ErrNew "")) = false -> (forall e, app_code (wrap_as s e) = app_code (wrap_as s (ErrNew ""))) ->
  (forall x w, wpa (f x) (fun r _ => not_credential r) w) ->
  wpa (bind_ok (or_else p (wrap_as s)) f) (fun r _ => not_credential r) w.
Proof.
  intros Hs He Hf. apply wp_bind_ok, wp_or_else. unfold wp at 1. destruct (run handle p w) as [[x|e] w1]; cbn [map_err].
  - apply Hf.
  - unfold not_credential, credential in *. by rewrite He.
Qed.

(** C28 A login is decided by the user's row: an unknown name and a wrong
    password have the same answer (401), a disabled account is told only to
    who knows its password (403), and in these cases nothing is written; an
    enabled user with the right password never gets one of these errors, so
    the throttle counts refused credentials and nothing else. *)
Theorem Login_verdict (w : AuthWorld) (req : LoginRequest) (u : option User) :
  user_db_ok (aw_db w) -> (GetByUsername (lr_Username req) (aw_db w)).1 = Ok u ->
  login_outcome w u req (run handle (Login cfg req) w).1 (run handle (Login cfg req) w).2.
Proof.
  intros Hok Hu. apply wp_outcome. unfold login_outcome.
  unfold Login. apply wp_bind_ok, wp_repo_ok. unfold answer. cbn [user_exec].
  destruct (GetByUsername (lr_Username req) (aw_db w)) as [r d] eqn:Eg.
  assert (d = aw_db w) as -> by (unfold GetByUsername in Eg; by injection Eg).
  cbn [fst snd] in Hu |- *. subst r. cbn [map_err]. destruct u as [u|]; [|done]. cbn [verdict].
  destruct (bcrypt_compare _ _); cbn [negb]; [|done]. destruct (u_Status u =? 1); cbn [negb]; [|done].
  apply wp_internal; [done|done|]. intros rp w2. cbv zeta. apply wp_bind, wp_auth_now.
  assert (Hresp : forall v w3, wpa (respond cfg v rp.1 rp.2 (mustChangePassword cfg u)
      (nextSessionTime (aenv_now env (aw_step w2)) (u_LastLoginAt u))) (fun r _ => not_credential r) w3).
  { intros v w3. unfold respond. by apply wp_internal. }
  destruct (mustChangePassword cfg u); cbn [negb]; apply wp_bind_ok; [by apply wp_ret, Hresp|].
  apply wp_bind_ok, wp_or_else. unfold wp at 1. destruct (run _ _ _) as [[x|e] w3]; cbn [map_err]; [|done].
  apply wp_ret, Hresp.
Qed.

(** *** Changing the password *)

(** Operations that leave the table [users] alone. *)
Definition keeps_users (o : auth_op) : Prop :=
  match o with
  | Users (UCreate _) | Users (UUpdateLastLoginAt _ _) | Users (UUpdatePasswordHash _ _) => False
  | _ => True
  end.

Lemma handle_keeps_users o w : keeps_users o -> db_users (aw_db (handle o w).2) = db_users (aw_db w).
Proof.
  intros Hk. destruct (auth_step_db env o w) as [->|(uo & -> & ->)]; [done|]. destruct uo; try done; cbn [user_exec].
  - unfold EnsureRBACDefaults. destruct (insert_nothing same_slug _ _ _); [|done].
    destruct (insert_nothing same_perm_name _ _ _); [|done]. by destruct (insert_nothing same_grant _ _ _).
  - unfold InsertUserRole. cbv zeta. destruct (existsb _ _); [done|]. by destruct (negb _).
Qed.

Lemma resolveUserRBAC_keeps u : all_ops keeps_users (resolveUserRBAC u).
Proof. unfold resolveUserRBAC, GetRolesAndPermissions, EnsureUserRoleBySlug. quiet. Qed.

Lemma respond_keeps u rs ps m si : all_ops keeps_users (respond cfg u rs ps m si).
Proof. unfold respond, generateTokenPair, generateToken, generateTokenID. quiet. Qed.

Lemma wp_keeps {A} (p : auth A) l (Q : A -> AuthWorld -> Prop) w : all_ops keeps_users p ->
  db_users (aw_db w) = l -> (forall x w', db_users (aw_db w') = l -> Q x w') -> wpa p Q w.
Proof.
  intros Hp Hl HQ. eapply wp_mono; [apply (wp_inv handle (fun w => db_users (aw_db w) = l) keeps_users)|]; auto.
  intros o w' Ho <-. by apply handle_keeps_users.
Qed.

Definition may_change (u : User) (req : ChangePasswordRequest) : bool :=
  let new := TrimSpace (cp_NewPassword req) in
  bcrypt_compare (u_PasswordHash u) (cp_CurrentPassword req) && isStrongPassword new
  && negb (cp_CurrentPassword req =? new)%string.

(** The new row: a hash of the new password and a last login. *)
Definition password_changed (u u' : User) (new : string) : Prop :=
  u_ID u' = u_ID u /\ u_Username u' = u_Username u /\ u_Status u' = u_Status u /\
  bcrypt_compare (u_PasswordHash u') new = true /\ mustChangePassword cfg u' = false.

Lemma changed_user u h salt new now1 now2 t : bcrypt_generate salt new = Some h ->
  password_changed u (set_last_login now2 t (set_password now1 h u)) new.
Proof.
  intros Eh. repeat split; [by eapply bcrypt_compare_ok|]. unfold mustChangePassword. by destruct (negb _).
Qed.

(** The two updates touch the one row of the user. *)
Lemma changed_rows db id u h now1 now2 t : user_db_ok db -> user_of db id = Some u ->
  update_where (has_user_id id) (set_last_login now2 t)
    (update_where (has_user_id id) (set_password now1 h) (db_users db))
  = map (fun v => if has_user_id id v then set_last_login now2 t (set_password now1 h u) else v) (db_users db).
Proof.
  intros Hok Eu. unfold update_where. rewrite map_map. apply map_ext_in. intros v Hv. apply list_elem_of_In in Hv.
  destruct (has_user_id id v) eqn:E; [|by rewrite E].
  assert (v = u) as ->.
  { apply Z.eqb_eq in E. subst id. pose proof (user_of_elem _ _ Hok Hv) as Hv'. congruence. }
  change (has_user_id id (set_password now1 h u)) with (has_user_id id u). by rewrite E.
Qed.

Definition change_outcome (w : AuthWorld) (id : Z) (req : ChangePasswordRequest)
    (r : res LoginResponse) (w' : AuthWorld) : Prop :=
  match user_of (aw_db w) id with
  | None => r = Err ErrUserNotFound /\ aw_db w' = aw_db w
  | Some u =>
    if may_change u req then
      (exists u', password_changed u u' (TrimSpace (cp_NewPassword req)) /\
         db_users (aw_db w') = map (fun v => if has_user_id id v then u' else v) (db_users (aw_db w))) \/
      (is_ok r = false /\ aw_db w' = aw_db w)
    else exists e, r = Err e /\ http_status e = 400 /\ aw_db w' = aw_db w
  end.


(** *** Roles given without asking *)

Lemma FindRole_Some slug db r : r ∈ db_roles db -> role_Slug r = slug ->
  exists r', (FindRole slug db) = (Ok (Some r'), db) /\ r' ∈ db_roles db /\ role_Slug r' = slug.
Proof.
  intros Hr Hs. unfold FindRole. destruct (order_by role_ID _) as [|r' l] eqn:E.
  - apply order_by_nil in E. exfalso.
    assert (Hin : r ∈ select_where (fun x => (role_Slug x =? slug)%string) (db_roles db)).
    { apply elem_of_select. split; [done|]. by apply String.eqb_eq. }
    rewrite E in Hin. by apply elem_of_nil in Hin.
  - exists r'. split; [done|]. apply order_by_head in E as [Hin _]. apply elem_of_select in Hin as [Hin Hn].
    split; [done|]. by apply String.eqb_eq.
Qed.

Lemma wp_EnsureUserRole id slug (Q : res unit -> AuthWorld -> Prop) w :
  (exists u, u ∈ db_users (aw_db w) /\ u_ID u = id) ->
  (exists r, r ∈ db_roles (aw_db w) /\ role_Slug r = slug) ->
  (forall w', db_users (aw_db w') = db_users (aw_db w) -> member (aw_db w') id slug -> Q (Ok tt) w') ->
  wpa (EnsureUserRoleBySlug id slug) Q w.
Proof.
  intros (u & Hu & Hid) (r & Hr & Hs) HQ. unfold EnsureUserRoleBySlug.
  apply wp_bind_ok, (wp_trigger (UFindRole slug)). unfold answer. cbn [user_exec].
  destruct (FindRole_Some slug (aw_db w) r Hr Hs) as (r' & Ef & Hr' & Hs'). rewrite Ef. cbn [fst snd].
  apply (wp_trigger (UInsertUserRole id (role_ID r'))). unfold answer. cbn [user_exec aw_db next].
  unfold InsertUserRole. cbv zeta. destruct (existsb (same_user_role _) _) eqn:Ex.
  - cbn [fst snd]. apply HQ; [done|]. apply existsb_exists in Ex as (m & Hm & Em). apply list_elem_of_In in Hm.
    unfold same_user_role in Em. cbn in Em. breflect. exists m, r'. auto.
  - destruct (negb _) eqn:En.
    + exfalso. apply negb_true_iff, andb_false_iff in En as [En|En];
        [assert (E : has_user_id id u = true) by (by apply Z.eqb_eq);
         rewrite (existsb_false_elem _ _ u En) in E; [done|by apply list_elem_of_In]
        |pose proof (existsb_false_elem _ _ r' En (proj1 (list_elem_of_In _ _) Hr')) as E;
         cbn in E; by rewrite Z.eqb_refl in E].
    + cbn [fst snd]. apply HQ; [done|]. eexists _, r'. split; [apply elem_of_app; right; constructor|]. auto.
Qed.

Definition roleless (db : UserDB) (id : Z) : Prop := (SelectRoles id db).1 = Ok [].

(** Taking every role from a user does not keep the user out: the next call
    that reads the rights of an existing user without roles makes the user an
    operator. *)
Theorem roleless_becomes_operator (w : AuthWorld) (u : User) :
  user_db_ok (aw_db w) -> u ∈ db_users (aw_db w) ->
  roleless (aw_db w) (u_ID u) ->
  (exists r, r ∈ db_roles (aw_db w) /\ role_Slug r = roleOperator) ->
  member (aw_db (run handle (Me cfg (u_ID u)) w).2) (u_ID u) roleOperator /\
  (forall p, (run handle (Me cfg (u_ID u)) w).1 = Ok p -> roleOperator ∈ up_Roles p).
Proof.
  intros Hok Hu Hr Hrole.
  apply (wp_outcome (Me cfg (u_ID u)) (fun r w' => member (aw_db w') (u_ID u) roleOperator /\
    (forall p, r = Ok p -> roleOperator ∈ up_Roles p))).
  unfold Me. apply wp_bind_ok, wp_user; [done|]. rewrite (user_of_elem _ _ Hok Hu).
  apply wp_bind_ok, wp_or_else. unfold resolveUserRBAC. apply wp_bind_ok. unfold GetRolesAndPermissions at 1.
  apply wp_bind_ok, (wp_trigger (USelectRoles (u_ID u))). unfold answer. cbn [user_exec].
  destruct (SelectRoles (u_ID u) (aw_db (next (aw_db w) w))) as [rr d] eqn:Es. cbn [aw_db next] in Es.
  assert (Hd : rr = Ok [] /\ d = aw_db w) by (unfold roleless in Hr; rewrite Es in Hr; split; [exact Hr|unfold SelectRoles in Es; by injection Es]).
  destruct Hd as [-> ->]. cbn [fst snd].
  apply wp_bind_ok, (wp_trigger (USelectPermissions (u_ID u))). unfold answer. cbn [user_exec aw_db next].
  destruct (SelectPermissions (u_ID u) (aw_db w)) as [pp d] eqn:Ep.
  assert (d = aw_db w /\ exists ps, pp = Ok ps) as [-> [ps ->]]
    by (unfold SelectPermissions in Ep; cbv zeta in Ep; injection Ep as <- <-; eauto).
  cbn [fst snd]. apply wp_ret. cbn [fst]. apply wp_bind_ok, wp_EnsureUserRole; [eauto|done|].
  intros w1 Hu1 Hm1. unfold GetRolesAndPermissions. apply wp_bind_ok, (wp_trigger (USelectRoles (u_ID u))).
  unfold answer. cbn [user_exec]. unfold SelectRoles. cbn [fst snd].
  apply wp_bind_ok, (wp_trigger (USelectPermissions (u_ID u))). unfold answer. cbn [user_exec aw_db next].
  unfold SelectPermissions. cbv zeta. cbn [fst snd]. apply wp_ret. cbn [map_err]. apply wp_ret.
  split; [exact Hm1|]. intros p [= <-]. cbn [fst up_Roles toProfile].
  destruct Hm1 as (m & r & Hm & Em & Hin & E & Es'). apply elem_of_sorted_distinct, elem_of_map. exists r.
  split; [|done]. apply elem_of_select. split; [done|]. apply bool_decide_eq_true, elem_of_role_ids_of. eauto.
Qed.

(** *** The first administrator *)

Definition is_default_admin (u : User) : Prop := u_Username u = DefaultAdminUsername cfg.

(** What the bootstrap leaves. *)
Definition bootstrapped (db db' : UserDB) : Prop :=
  match db_users db with
  | [] => exists u, db_users db' = [u] /\ is_default_admin u /\ u_Status u = 1 /\
      mustChangePassword cfg u = true /\ member db' (u_ID u) roleSuperAdmin /\
      (isProductionEnv (AppEnv cfg) = true ->
       isStrongPassword (TrimSpace (DefaultAdminPassword cfg)) = true /\
       bcrypt_compare (u_PasswordHash u) (TrimSpace (DefaultAdminPassword cfg)) = true)
  | _ => db_users db' = db_users db /\
      forall u, u ∈ db_users db -> is_default_admin u -> member db' (u_ID u) roleSuperAdmin
  end.

Lemma wp_bootstrap_password (Q : res string -> AuthWorld -> Prop) w :
  (forall e w', Q (Err e) w') ->
  (forall pw w', aw_db w' = aw_db w ->
     (isProductionEnv (AppEnv cfg) = true ->
      pw = TrimSpace (DefaultAdminPassword cfg) /\ isStrongPassword pw = true) -> Q (Ok pw) w') ->
  wpa (resolveBootstrapPassword cfg) Q w.
Proof.
  intros He HQ. unfold resolveBootstrapPassword. cbv zeta.
  destruct (_ =? _)%string; [by apply He|]. destruct (_ =? _)%string; [by apply He|].
  destruct (_ =? _)%string.
  - destruct (isProductionEnv _) eqn:Ep; [by apply He|]. unfold generateBootstrapPassword.
    apply wp_bind_ok, wp_or_else, wp_bind_ok. unfold wp at 1, call. cbn [run auth_handle auth_exec].
    destruct (aenv_rand _ _ _); cbn [map_err]; [|by apply He]. apply wp_ret. cbn [map_err].
    apply wp_bind. unfold wp at 1, call. cbn [run auth_handle auth_exec]. apply wp_ret. by apply HQ.
  - destruct (isProductionEnv _ && _) eqn:Ep; [by apply He|]. apply wp_bind.
    destruct (isStrongPassword _) eqn:Es; cbn [negb].
    + apply wp_ret, wp_ret. by apply HQ.
    + unfold wp at 1, call. cbn [run auth_handle auth_exec]. apply wp_ret. apply HQ; [done|].
      intros Hp. by rewrite Hp in Ep.
Qed.

Lemma Create_bootstrap now hash db : db_users db = [] ->
  match Create now (bootstrap_user cfg hash) db with
  | (Ok u, db') => db_users db' = [u] /\ is_default_admin u /\ u_Status u = 1 /\
      mustChangePassword cfg u = true /\ u_PasswordHash u = hash /\ db_roles db' = db_roles db
  | (Err _, _) => True
  end.
Proof.
  intros Hn. unfold Create, bootstrap_user. cbn. rewrite Hn. destruct (negb _); [done|]. cbn.
  repeat split. unfold mustChangePassword, EqualFold. cbn. by rewrite bool_decide_eq_true_2.
Qed.

(** [EnsureDefaultAdmin]: on empty tables it creates one user, the configured
    administrator, enabled, in the role [super_admin], who has to change the
    password; in production only with a strong configured password.  On tables
    with users it creates nobody and changes no user, but a user with the
    administrator's name gets the role. *)
Theorem EnsureDefaultAdmin_spec (w : AuthWorld) :
  user_db_ok (aw_db w) -> BootstrapAdmin cfg = true ->
  (run handle (EnsureDefaultAdmin cfg) w).1 = Ok tt ->
  bootstrapped (aw_db w) (aw_db (run handle (EnsureDefaultAdmin cfg) w).2).
Proof.
  intros Hok Hb. apply (wp_outcome (EnsureDefaultAdmin cfg) (fun r w' => r = Ok tt -> bootstrapped (aw_db w) (aw_db w'))).
  unfold EnsureDefaultAdmin. apply wp_bind_ok, wp_repo_ok. unfold answer. cbn [user_exec].
  destruct (EnsureRBACDefaults _ (aw_db w)) as [[[]|e] db1] eqn:Ed; cbn [fst snd map_err]; [|done].
  pose proof (EnsureRBACDefaults_ok (aenv_now env (aw_step w)) _ Hok) as Hok1. rewrite Ed in Hok1. cbn [snd] in Hok1.
  destruct (defaults_present _ _ _ Ed) as [Hroles _].
  destruct (Hroles roleSuperAdmin) as (r & Hr & Hs); [left|]. apply EnsureRBACDefaults_Ok in Ed as (_ & _ & _ & Hu1 & _).
  rewrite Hb. cbn [negb]. apply wp_bind_ok, wp_repo_ok. unfold answer. cbn [user_exec Count fst snd map_err aw_db next].
  apply wp_bind_ok. unfold bootstrapped. rewrite Hu1. destruct (db_users (aw_db w)) as [|u0 us] eqn:Eus.
  - cbn [length Z.of_nat Z.eqb]. apply wp_bind_ok, wp_or_else, wp_bootstrap_password; [done|].
    intros pw w2 Hdb Hpw. cbn [map_err]. cbn [aw_db next] in Hdb. apply wp_bind_ok, wp_or_else.
    unfold wp at 1, call. cbn [run auth_handle auth_exec].
    destruct (bcrypt_generate _ pw) as [h|] eqn:Eh; cbn [map_err]; [|done].
    apply wp_bind_ok, wp_repo_ok. unfold answer. cbn [user_exec aw_db aw_step next]. rewrite Hdb.
    pose proof (Create_bootstrap (aenv_now env (S (aw_step w2))) h db1 ltac:(by rewrite Hu1)) as Hc.
    destruct (Create _ _ db1) as [[u|e] db2]; cbn [fst snd map_err]; [|done].
    destruct Hc as (Hu & Hname & Hst & Hm & Hh & Hr2). apply wp_ret, wp_or_else, wp_EnsureUserRole.
    + cbn [aw_db next]. rewrite Hu. exists u. split; [constructor|done].
    + cbn [aw_db next]. rewrite Hr2. eauto.
    + cbn [aw_db next]. intros w3 Hu3 Hmem _. exists u. rewrite Hu3. do 5 (split; [done|]).
      intros Hp. destruct (Hpw Hp) as [-> Hstrong]. split; [done|]. rewrite Hh. by eapply bcrypt_compare_ok.
  - cbn [length]. destruct (Z.eqb_spec (Z.of_nat (S (length us))) 0); [lia|].
    apply (wp_repo_ok _ (UGetByUsername (DefaultAdminUsername cfg))). unfold answer. cbn [user_exec aw_db next].
    destruct (GetByUsername (DefaultAdminUsername cfg) db1) as [r1 d] eqn:Eg.
    assert (d = db1 /\ exists o, r1 = Ok o) as [-> [o ->]] by (unfold GetByUsername in Eg; injection Eg as <- <-; eauto).
    assert (Ho : forall u, u ∈ db_users db1 /\ u_Username u = DefaultAdminUsername cfg <-> o = Some u).
    { intros u. rewrite <- (GetByUsername_elem _ _ u Hok1), Eg. cbn [fst]. split; [by intros [= ->]|by intros ->]. }
    cbn [fst snd map_err]. destruct o as [u|].
    + destruct (proj2 (Ho u) eq_refl) as [Hin Hname]. apply wp_or_else, wp_EnsureUserRole; cbn [aw_db next]; [eauto..|].
      intros w3 Hu3 Hmem _. split; [congruence|]. intros v Hv Hvn. rewrite <- Hu1 in Hv.
      assert (Some u = Some v) as [= <-] by by apply Ho. done.
    + apply wp_ret. intros _. cbn [aw_db next]. split; [done|]. intros v Hv Hvn. rewrite <- Hu1 in Hv.
      by assert (None = Some v) by by apply Ho.
Qed.
End NoFault.

(** ** Tokens *)
Section Tokens.
Context `{JWT} `{Bcrypt} (env : AuthEnv) (cfg : AuthConfig).
Hypothesis random_bytes : forall n k l, aenv_rand env n k = Ok l -> bytes l.

(** The claims [ParseToken] reads back. *)
Definition issued (u : User) (roles permissions : list string) (must : bool) (session : Z) (use : string) : TokenClaims :=
  {| tc_UserID := u_ID u; tc_Username := u_Username u; tc_Roles := roles; tc_Permissions := permissions;
     tc_MustChangePassword := must; tc_SessionIssuedAt := session; tc_TokenUse := use;
     tc_RBACChecksum := computeRBACChecksum roles permissions |}.

Lemma checksum_visible roles permissions : visible_text (computeRBACChecksum roles permissions) = true.
Proof. apply hex_visible, Sum256_range. Qed.

(** A token generated at [t] for the use [use], read for the use [expected]. *)
Definition reads_as (token use : string) (expire t : Z) (claims : TokenClaims) : Prop :=
  forall expected w, expected <> "" ->
  (run (auth_handle env) (parseTokenWithUse cfg token expected) w).1
  = if (use =? expected)%string && (aenv_now env (aw_step w) <? Unix (t + expire) * Second)
    then Ok claims else Err ErrTokenParse.

Lemma generateToken_reads u roles permissions must use expire session w token exp :
  forallb ValidString (u_Username u :: JWTIssuer cfg :: roles ++ permissions) = true ->
  use = tokenUseAccess \/ use = tokenUseRefresh ->
  (run (auth_handle env) (generateToken cfg u roles permissions must use
     (computeRBACChecksum roles permissions) expire session) w).1 = Ok (token, exp) ->
  reads_as token use expire (aenv_now env (aw_step w)) (issued u roles permissions must session use).
Proof.
  intros Htext Huse. unfold generateToken, generateTokenID. cbn [run bind bind_ok call auth_handle auth_exec].
  cbn [aw_step]. destruct (aenv_rand env _ _) as [buf|e] eqn:Er; [|done]. cbn [bind run res_map fst].
  destruct (SignedString _ _) as [tok|e] eqn:Es; [|done]. intros [= <- _] expected w2 Hne.
  unfold parseTokenWithUse. cbn [run bind call auth_handle auth_exec].
  assert (Hv : forall s, s = tokenUseAccess \/ s = tokenUseRefresh -> TrimSpace (ToLower s) = s /\ ValidString s = true)
    by (intros s [->| ->]; split; vm_compute; reflexivity).
  match type of Es with SignedString ?c _ = _ => assert (Ht : claims_text c = true) end.
  { cbn [forallb] in Htext. apply andb_prop in Htext as [Hn Htext]. apply andb_prop in Htext as [Hi Hrs].
    unfold claims_text. cbn [jc_Username jc_TokenUse jc_RBACChecksum jc_Issuer jc_Subject jc_ID jc_Roles jc_Permissions].
    cbn [app forallb]. rewrite Hn, Hi, Hrs, (proj2 (Hv use Huse)), (visible_valid _ (checksum_visible _ _)).
    by rewrite (visible_valid _ (base64_visible (length buf) buf (le_n _) (random_bytes _ _ _ Er))). }
  rewrite (jwt_parse_signed _ _ _ _ Ht Es).
  cbn [jc_ExpiresAt]. destruct (_ <? _); [|by rewrite andb_false_r].
  cbn [jc_TokenUse jc_UserID jc_Username jc_Roles jc_Permissions jc_MustChangePassword jc_SessionIssuedAt jc_RBACChecksum].
  rewrite (proj1 (Hv use Huse)), (visible_TrimSpace _ (checksum_visible _ _)), andb_true_r. cbv zeta.
  assert (Hu : (use =? "")%string = false) by by destruct Huse as [-> | ->].
  rewrite Hu. rewrite (proj2 (String.eqb_neq expected "") Hne). cbn [negb andb].
  by destruct (use =? expected)%string.
Qed.

Lemma generateToken_step u roles permissions must use checksum expire session w token exp w' :
  run (auth_handle env) (generateToken cfg u roles permissions must use checksum expire session) w
    = (Ok (token, exp), w') ->
  exp = Z.quot expire Second /\ aw_step w' = S (S (aw_step w)) /\ aw_db w' = aw_db w.
Proof.
  unfold generateToken, generateTokenID. cbn [run bind bind_ok call auth_handle auth_exec].
  cbn [aw_step]. destruct (aenv_rand env _ _) as [buf|e]; [|done]. cbn [bind run res_map fst].
  destruct (SignedString _ _) as [tok|e]; [|done]. by intros [= <- <- <-].
Qed.

(** C37 The two tokens of a session are read back with the user, the rights, the
    flag and the session they were made for, each until its own expiry (in
    whole seconds) and each for its own use only: an access token is no refresh
    token and the reverse. *)
Theorem generateTokenPair_spec (u : User) (roles permissions : list string) (must : bool) (session : Z)
    (w w' : AuthWorld) (access refresh : string) (ea er : Z) :
  forallb ValidString (u_Username u :: JWTIssuer cfg :: roles ++ permissions) = true -> 0 < session ->
  run (auth_handle env) (generateTokenPair cfg u roles permissions must session) w
    = (Ok ((access, ea), (refresh, er)), w') ->
  reads_as access tokenUseAccess (JWTExpire cfg) (aenv_now env (aw_step w))
    (issued u roles permissions must session tokenUseAccess) /\
  reads_as refresh tokenUseRefresh (JWTRefreshExpire cfg) (aenv_now env (2 + aw_step w))
    (issued u roles permissions must session tokenUseRefresh) /\
  ea = Z.quot (JWTExpire cfg) Second /\ er = Z.quot (JWTRefreshExpire cfg) Second /\ aw_db w' = aw_db w.
Proof.
  intros Htext Hs. unfold generateTokenPair. rewrite run_bind.
  destruct (Z.leb_spec session 0); [lia|]. cbn [run]. cbv zeta. unfold bind_ok. rewrite run_bind.
  destruct (run (auth_handle env) (generateToken cfg u roles permissions must tokenUseAccess _ _ _) w)
    as [[[a1 e1]|e] w1] eqn:E1; [|done].
  destruct (generateToken_step _ _ _ _ _ _ _ _ _ _ _ _ E1) as (He1 & Hw1 & Hd1).
  rewrite run_bind. destruct (run (auth_handle env) (generateToken cfg u roles permissions must tokenUseRefresh _ _ _) w1)
    as [[[a2 e2]|e] w2] eqn:E2; [|done].
  destruct (generateToken_step _ _ _ _ _ _ _ _ _ _ _ _ E2) as (He2 & Hw2 & Hd2).
  cbn [run]. intros [= <- <- <- <- <-]. split; [|split].
  - eapply generateToken_reads; [done|by left|by rewrite E1].
  - replace (2 + aw_step w)%nat with (aw_step w1) by lia.
    eapply generateToken_reads; [done|by right|by rewrite E2].
  - split; [done|]. split; [done|congruence].
Qed.
End Tokens.
