(* ===== verification/AuthExamples.v ===== *)
(** * The authentication service on concrete inputs

    A bcrypt and a token format that meet the laws, a bootstrapped world, the
    instances of the theorems there, and two executions that show where the
    promise of one session per user ends. *)

From Stdlib Require Import ZArith Lia Ascii.
From stdpp Require Import countable sets.
From S2P Require Import Prelude GoString GoTime GoError Effects Table Schema Dto Crypto UserRepo AuthService AuthSystem AuthProps.
Import Dto.dto UserRepo.user_repository.

(** ** Instances of the interfaces *)

#[export, program] Instance plain_bcrypt : Bcrypt := {
  bcrypt_generate _ pw := if len pw <=? 72 then Some ("$" +:+ pw)%string else None;
  bcrypt_compare h pw := (h =? "$" +:+ pw)%string
}.
Next Obligation. intros salt pw h E. simpl in E. by destruct (Z.leb_spec (len pw) 72). Qed.
Next Obligation.
  intros salt pw h E. simpl in E. destruct (len pw <=? 72); [|done]. injection E as <-. apply String.eqb_refl.
Qed.

(** A token is the secret and the bits of the claims. *)
Fixpoint bits_of (p : positive) : string :=
  match p with xH => "" | xO p => String "0"%char (bits_of p) | xI p => String "1"%char (bits_of p) end.

Fixpoint of_bits (s : string) : positive :=
  match s with
  | EmptyString => xH
  | String "0"%char s => xO (of_bits s)
  | String _ s => xI (of_bits s)
  end.

Lemma of_bits_of p : of_bits (bits_of p) = p.
Proof. induction p as [p IH|p IH|]; simpl; congruence. Qed.

Definition claims_tuple (c : jwtClaims) :=
  (jc_UserID c, jc_Username c, jc_Roles c, jc_Permissions c, jc_MustChangePassword c, jc_SessionIssuedAt c,
   jc_TokenUse c, jc_RBACChecksum c, (jc_ExpiresAt c, jc_IssuedAt c, jc_Issuer c, jc_Subject c, jc_ID c)).

Definition tuple_claims (t : Z * string * list string * list string * bool * Z * string * string *
                             (Z * Z * string * string * string)) : jwtClaims :=
  let '(a, b, c, d, e, f, g, h, (i, j, k, l, m)) := t in
  {| jc_UserID := a; jc_Username := b; jc_Roles := c; jc_Permissions := d; jc_MustChangePassword := e;
     jc_SessionIssuedAt := f; jc_TokenUse := g; jc_RBACChecksum := h; jc_ExpiresAt := i; jc_IssuedAt := j;
     jc_Issuer := k; jc_Subject := l; jc_ID := m |}.

#[export, program] Instance plain_jwt : JWT := {
  SignedString c k := Ok (k +:+ bits_of (encode (claims_tuple c)))%string;
  ParseWithClaims t k now :=
    if (take_bytes (String.length k) t =? k)%string then
      match decode (of_bits (skip_bytes (String.length k) t)) with
      | Some x => let c := tuple_claims x in if now <? jc_ExpiresAt c * Second then Some c else None
      | None => None
      end
    else None
}.
Next Obligation.
  intros c k t now _ E. injection E as <-. cbv beta.
  rewrite take_bytes_app, skip_bytes_app, of_bits_of, countable.decode_encode, String.eqb_refl.
  by destruct c.
Qed.

(** ** A bootstrapped world *)

Definition clock0 : Z := 1700000000 * Second.

Definition env0 : AuthEnv := {|
  aenv_now n := clock0 + Z.of_nat n * Second;
  aenv_db _ := NoFault;
  aenv_rand _ n := Ok (replicate (Z.to_nat n) 7);
  aenv_salt _ := 0
|}.

Definition cfg0 : AuthConfig := NewAuthService {|
  AppEnv := " Production"; JWTSecret := "k"; JWTIssuer := "snowpanel"; JWTExpire := 0; JWTRefreshExpire := 0;
  LoginAttemptStore := "memory"; LoginAttemptPrefix := ""; LoginMaxFailures := 5; LoginFailureWindow := 15 * Minute; LoginLockDuration := 15 * Minute;
  BootstrapAdmin := true; DefaultAdminUsername := "admin"; DefaultAdminEmail := "admin@example.com";
  DefaultAdminPassword := "Correct-Horse-9" |}.

Definition world0 : AuthWorld := {| aw_step := 0; aw_db := empty_UserDB; aw_log := [] |}.

Definition login0 (pw : string) : LoginRequest := {| lr_Username := "admin"; lr_Password := pw |}.
Definition change0 : ChangePasswordRequest :=
  {| cp_CurrentPassword := "Correct-Horse-9"; cp_NewPassword := " Battery-Staple-7 " |}.

(** After the bootstrap, and after the first password change. *)
Definition world1 : AuthWorld := run_calls env0 cfg0 [CEnsureDefaultAdmin] world0.
Definition world2 : AuthWorld := run_calls env0 cfg0 [CLogin (login0 "Correct-Horse-9"); CChangePassword 1 change0] world1.

Lemma run_calls_app cs cs' w : run_calls env0 cfg0 (cs ++ cs') w = run_calls env0 cfg0 cs' (run_calls env0 cfg0 cs w).
Proof. revert w. induction cs as [|c cs IH]; intros w; [done|]. apply IH. Qed.

Lemma reached_ok cs : user_db_ok (aw_db (run_calls env0 cfg0 cs world0)).
Proof. apply (si_ok world0), run_calls_inv, session_inv_refl, empty_UserDB_ok. Qed.

Lemma world1_ok : user_db_ok (aw_db world1).
Proof. apply reached_ok. Qed.

Lemma world2_ok : user_db_ok (aw_db world2).
Proof. unfold world2, world1. rewrite <- run_calls_app. apply reached_ok. Qed.

Lemma no_faults0 n : aenv_db env0 n = NoFault.
Proof. done. Qed.

Definition admin_permissions : list string := Eval vm_compute in
  match (SelectPermissions 1 (aw_db world1)).1 with Ok l => l | Err _ => [] end.

Lemma admin_rights w : (SelectRoles 1 (aw_db w)).1 = Ok ["super_admin"] ->
  (SelectPermissions 1 (aw_db w)).1 = Ok admin_permissions -> has_rights (aw_db w) 1 ["super_admin"] admin_permissions.
Proof.
  intros Hr Hp. split; [|split; [|done]]; apply injective_projections; simpl; try done.
Qed.

Lemma EnsureDefaultAdmin_spec_witness :
  bootstrapped cfg0 (aw_db world0) (aw_db (run (auth_handle env0) (EnsureDefaultAdmin cfg0) world0).2).
Proof.
  apply (EnsureDefaultAdmin_spec env0 cfg0 no_faults0 world0 empty_UserDB_ok eq_refl).
  vm_compute. reflexivity.
Defined.

Lemma Login_verdict_witness :
  let u := user_of (aw_db world1) 1 in
  login_outcome world1 u (login0 "guess") (run (auth_handle env0) (Login cfg0 (login0 "guess")) world1).1
    (run (auth_handle env0) (Login cfg0 (login0 "guess")) world1).2 /\
  verdict u "guess" = Some ErrInvalidCredential /\ verdict u "Correct-Horse-9" = None.
Proof.
  cbv zeta. split; [|split; vm_compute; reflexivity].
  apply (Login_verdict env0 cfg0 no_faults0 world1 (login0 "guess") (user_of (aw_db world1) 1) world1_ok).
  vm_compute. reflexivity.
Defined.


(** A new password with spaces around it: typed as it was given it does not log
    in, typed without them it does. *)
Lemma padded_password_trimmed :
  let login pw := is_ok (run (auth_handle env0) (Login cfg0 (login0 pw)) world2).1 in
  login (cp_NewPassword change0) = false /\ login "Battery-Staple-7" = true.
Proof. vm_compute. done. Qed.

(** The claims of the session [world2] ends with. *)
Definition session2 : Z := match last_of (aw_db world2) 1 with Some t => t | None => 0 end.
Definition claims2 : TokenClaims := {|
  tc_UserID := 1; tc_Username := "admin"; tc_Roles := ["super_admin"]; tc_Permissions := admin_permissions;
  tc_MustChangePassword := false; tc_SessionIssuedAt := session2; tc_TokenUse := tokenUseAccess;
  tc_RBACChecksum := "" |}.


Lemma env0_clock n m s : (n <= m)%nat -> s + 1000 <= aenv_now env0 n -> s + 1000 <= aenv_now env0 m.
Proof. unfold env0. cbn [aenv_now]. unfold Second. lia. Qed.


(** A user without roles. *)
Definition world_bob : AuthWorld := {|
  aw_step := 9;
  aw_db := (user_exec 5 (UCreate (MkUser 0 "bob" "b@x" "$pw" 1 None zero_time zero_time None)) (aw_db world1)).2;
  aw_log := [] |}.

Definition bob : User := MkUser 2 "bob" "b@x" "$pw" 1 None 5 5 None.

Lemma roleless_becomes_operator_witness :
  (member (aw_db (run (auth_handle env0) (Me cfg0 (u_ID bob)) world_bob).2) (u_ID bob) roleOperator /\
   (forall p, (run (auth_handle env0) (Me cfg0 (u_ID bob)) world_bob).1 = Ok p -> roleOperator ∈ up_Roles p)) /\
  res_map up_Permissions (run (auth_handle env0) (Me cfg0 (u_ID bob)) world_bob).1 = Ok operatorPermissions.
Proof.
  split; [|vm_compute; reflexivity].
  apply (roleless_becomes_operator env0 cfg0 no_faults0 world_bob bob).
  - unfold world_bob. cbn [aw_db]. apply user_exec_ok, world1_ok.
  - assert (E : user_of (aw_db world_bob) 2 = Some bob) by (vm_compute; reflexivity).
    by apply first_where_Some in E as [? _].
  - vm_compute. reflexivity.
  - exists (MkRole 2 "Operator" "operator" "Limited operations access" clock0 clock0). split; [|reflexivity].
    vm_compute. right. left.
Defined.

Lemma random_bytes0 n k l : aenv_rand env0 n k = Ok l -> bytes l.
Proof. intros E. injection E as <-. apply Forall_replicate. lia. Qed.

(** The pair a session starts with, and what follows it. *)
Definition pair0 : res ((string * Z) * (string * Z)) * AuthWorld :=
  run (auth_handle env0) (generateTokenPair cfg0 bob ["operator"] operatorPermissions false clock0) world_bob.

Definition tokens_of (r : res ((string * Z) * (string * Z))) : (string * Z) * (string * Z) :=
  match r with Ok p => p | Err _ => (("", 0), ("", 0)) end.

Lemma tokens_shape (x : res ((string * Z) * (string * Z)) * AuthWorld) : is_ok x.1 = true ->
  x = (Ok (((tokens_of x.1).1.1, (tokens_of x.1).1.2), ((tokens_of x.1).2.1, (tokens_of x.1).2.2)), x.2).
Proof. by destruct x as [[[[a ea] [r er]]|e] w]. Qed.

Lemma generateTokenPair_spec_witness :
  reads_as env0 cfg0 (tokens_of pair0.1).1.1 tokenUseAccess (JWTExpire cfg0) (aenv_now env0 (aw_step world_bob))
    (issued bob ["operator"] operatorPermissions false clock0 tokenUseAccess) /\
  reads_as env0 cfg0 (tokens_of pair0.1).2.1 tokenUseRefresh (JWTRefreshExpire cfg0)
    (aenv_now env0 (2 + aw_step world_bob))
    (issued bob ["operator"] operatorPermissions false clock0 tokenUseRefresh) /\
  (tokens_of pair0.1).1.2 = Z.quot (JWTExpire cfg0) Second /\
  (tokens_of pair0.1).2.2 = Z.quot (JWTRefreshExpire cfg0) Second /\ aw_db pair0.2 = aw_db world_bob.
Proof.
  apply (generateTokenPair_spec env0 cfg0 random_bytes0 bob ["operator"] operatorPermissions false clock0 world_bob).
  - vm_compute. reflexivity.
  - vm_compute. reflexivity.
  - exact (tokens_shape pair0 eq_refl).
Defined.

(** ** Where one session per user ends *)

Definition report {A} (p : auth (res A)) : auth unit :=
  bind p (fun r => if is_ok r then call (Printf "ok" : auth_op) else Ret tt).

(** A world after bob's login and the refresh token of that session. *)
Definition login_bob : res LoginResponse * AuthWorld :=
  run (auth_handle env0) (Login cfg0 {| lr_Username := "bob"; lr_Password := "pw" |}) world_bob.

Definition refresh_bob : string := match login_bob.1 with Ok r => lres_RefreshToken r | Err _ => "" end.

(** Both goroutines read the last login before either writes its own. *)
Definition race : list (option nat) :=
  replicate 8 (Some 0%nat) ++ replicate 8 (Some 1%nat) ++ replicate 8 (Some 0%nat) ++ replicate 8 (Some 1%nat).

(** A clock that steps back one second at operation [n]. *)
Definition env_back (n : nat) : AuthEnv := {|
  aenv_now m := if (m <? n)%nat then clock0 + 100 * Second else clock0 + 99 * Second;
  aenv_db _ := NoFault; aenv_rand := aenv_rand env0; aenv_salt _ := 0 |}.

Definition login_back : res LoginResponse * AuthWorld :=
  run (auth_handle (env_back 40)) (Login cfg0 {| lr_Username := "bob"; lr_Password := "pw" |}) world_bob.

Definition logout_back : res unit * AuthWorld :=
  run (auth_handle (env_back (aw_step login_back.2))) (RevokeSession cfg0 2) login_back.2.

Definition claims_back : TokenClaims := issued bob ["operator"] operatorPermissions false (clock0 + 100 * Second) tokenUseAccess.

(** Where the promise of one session ends.  Two refreshes with one token at
    the same time can both succeed, because the last login is read and written
    in two statements.  And a logout after the clock has stepped back leaves
    the session alive: its time is one nanosecond after the stored one, which
    the column, with its microseconds, stores as the same time. *)
Theorem one_session_limits :
  (exists ts w, psteps (auth_handle env0) (fun _ => None)
     ([report (Refresh cfg0 refresh_bob); report (Refresh cfg0 refresh_bob)], login_bob.2) (ts, w) /\
     aw_log w = ["ok"; "ok"]) /\
  is_ok login_back.1 = true /\ logout_back.1 = Ok tt /\
  (run (auth_handle (env_back (aw_step login_back.2))) (ValidateSession claims_back) logout_back.2).1 = Ok tt.
Proof.
  split; [|split; [|split]; vm_compute; reflexivity].
  set (c := run_sched (auth_handle env0) (fun _ => None) race
              ([report (Refresh cfg0 refresh_bob); report (Refresh cfg0 refresh_bob)], login_bob.2)).
  exists c.1, c.2. split; [|vm_compute; reflexivity].
  replace (c.1, c.2) with c by (by destruct c). apply run_sched_psteps.
Qed.
