(* ===== verification/GoDuration.v ===== *)
(** * Durations

    [time.ParseDuration]: a sign and a sequence of decimal numbers with units,
    in 64-bit arithmetic; the fraction is scaled in floating point. *)

From Stdlib Require Import ZArith Lia SpecFloat Ascii.
From S2P Require Import Prelude GoString GoTime GoTimeParse Metrics.

(** [uint64(x)] of a float64 in range. *)
Definition truncate (x : spec_float) : Z :=
  match x with
  | S754_finite s m e =>
    let v := if 0 <=? e then Z.pos m * 2 ^ e else Z.pos m / 2 ^ (- e) in
    if s then - v else v
  | _ => 0
  end.

(** [None] on overflow. *)
Fixpoint leadingInt (x : Z) (s : string) : option (Z * string) :=
  match s with
  | EmptyString => Some (x, s)
  | String a s' =>
    match digit_of a with
    | None => Some (x, s)
    | Some d =>
      if 2 ^ 63 / 10 <? x then None
      else let x := x * 10 + d in if 2 ^ 63 <? x then None else leadingInt x s'
    end
  end.

Fixpoint leadingFraction (x : Z) (scale : spec_float) (overflow : bool) (s : string) : Z * spec_float * string :=
  match s with
  | EmptyString => (x, scale, s)
  | String a s' =>
    match digit_of a with
    | None => (x, scale, s)
    | Some d =>
      if overflow then leadingFraction x scale true s'
      else if (2 ^ 63 - 1) / 10 <? x then leadingFraction x scale true s'
      else
        let y := x * 10 + d in
        if 2 ^ 63 <? y then leadingFraction x scale true s'
        else leadingFraction y (SFmul 53 1024 scale (float64_of_Z 10)) false s'
    end
  end.

(** The text up to the next number. *)
Fixpoint split_unit (s : string) : string * string :=
  match s with
  | EmptyString => (s, s)
  | String a s' =>
    match digit_of a with
    | Some _ => (EmptyString, s)
    | None => if Ascii.eqb a "."%char then (EmptyString, s) else let '(u, rest) := split_unit s' in (String a u, rest)
    end
  end.

Definition unitMap (u : string) : option Z :=
  if (u =? "ns")%string then Some 1
  else if (u =? "us")%string then Some 1000
  else if (u =? "µs")%string then Some 1000      (* U+00B5, micro *)
  else if (u =? "μs")%string then Some 1000      (* U+03BC, mu *)
  else if (u =? "ms")%string then Some 1000000
  else if (u =? "s")%string then Some Second
  else if (u =? "m")%string then Some Minute
  else if (u =? "h")%string then Some Hour
  else None.

Definition is_dot (s : string) : bool := match s with String a _ => Ascii.eqb a "."%char | EmptyString => false end.
Definition starts_number (s : string) : bool :=
  match s with String a _ => Ascii.eqb a "."%char || match digit_of a with Some _ => true | None => false end | EmptyString => false end.

Definition tail1 (s : string) : string := match s with String _ s' => s' | EmptyString => s end.

(** One number with its unit, and the rest. *)
Definition element (s : string) : option (Z * string) :=
  if negb (starts_number s) then None
  else
    match leadingInt 0 s with
    | None => None
    | Some (v, s1) =>
      let pre := negb (len s =? len s1) in
      let '(f, scale, post, s2) :=
        if is_dot s1 then
          let s1 := tail1 s1 in
          let '(f, scale, s2) := leadingFraction 0 (float64_of_Z 1) false s1 in (f, scale, negb (len s1 =? len s2), s2)
        else (0, float64_of_Z 1, false, s1) in
      if negb pre && negb post then None
      else
        let '(u, rest) := split_unit s2 in
        if (u =? "")%string then None
        else
          match unitMap u with
          | None => None
          | Some unit =>
            if 2 ^ 63 / unit <? v then None
            else
              let v := v * unit in
              if 0 <? f then
                let v := v + truncate (SFmul 53 1024 (float64_of_Z f) (float_div (float64_of_Z unit) scale)) in
                if 2 ^ 63 <? v then None else Some (v, rest)
              else Some (v, rest)
          end
    end.

(** The sum of the elements as an [uint64]; [None] is the error. *)
Fixpoint duration_loop (fuel : nat) (d : Z) (s : string) : option Z :=
  if (s =? "")%string then Some d
  else
    match fuel with
    | O => None
    | S fuel =>
      match element s with
      | None => None
      | Some (v, rest) =>
        let d := (d + v) mod 2 ^ 64 in
        if 2 ^ 63 <? d then None else duration_loop fuel d rest
      end
    end.

Definition ParseDuration (s : string) : option Z :=
  let '(neg, s) :=
    match s with
    | String a s' => if Ascii.eqb a "-"%char then (true, s') else if Ascii.eqb a "+"%char then (false, s') else (false, s)
    | EmptyString => (false, s)
    end in
  if (s =? "0")%string then Some 0
  else if (s =? "")%string then None
  else
    match duration_loop (String.length s) 0 s with
    | None => None
    | Some d =>
      if neg then Some (- d)
      else if 2 ^ 63 - 1 <? d then None
      else Some d
    end.

(** ** The loop ends *)

Lemma leadingInt_rest s : forall x v rest, leadingInt x s = Some (v, rest) -> (String.length rest <= String.length s)%nat.
Proof.
  induction s as [|a s IH]; intros x v rest; cbn [leadingInt].
  - by intros [= <- <-].
  - destruct (digit_of a); [|by intros [= <- <-]]. destruct (_ <? _); [done|]. destruct (_ <? _); [done|].
    intros H%IH. cbn [String.length]. lia.
Qed.

Lemma leadingFraction_rest s : forall x scale o, (String.length (leadingFraction x scale o s).2 <= String.length s)%nat.
Proof.
  induction s as [|a s IH]; intros x scale o; cbn [leadingFraction]; [done|].
  destruct (digit_of a); [|done]. cbn [String.length].
  destruct o; [|destruct (_ <? _); [|cbv zeta; destruct (_ <? _)]]; (etransitivity; [apply IH|lia]).
Qed.

Lemma split_unit_rest s : (split_unit s).1 <> "" -> (String.length (split_unit s).2 < String.length s)%nat.
Proof.
  assert (Hle : forall s, (String.length (split_unit s).2 <= String.length s)%nat).
  { clear s. induction s as [|a s IH]; cbn [split_unit]; [done|]. destruct (digit_of a); [done|].
    destruct (Ascii.eqb _ _); [done|]. destruct (split_unit s). cbn in *. lia. }
  destruct s as [|a s]; cbn [split_unit]; [done|]. destruct (digit_of a); [done|]. destruct (Ascii.eqb _ _); [done|].
  specialize (Hle s). destruct (split_unit s). cbn in *. lia.
Qed.

Lemma tail1_rest s : (String.length (tail1 s) <= String.length s)%nat.
Proof. destruct s; cbn; lia. Qed.

Lemma element_rest s v rest : element s = Some (v, rest) -> (String.length rest < String.length s)%nat.
Proof.
  unfold element. destruct (negb _); [done|]. destruct (leadingInt 0 s) as [[x s1]|] eqn:E1; [|done].
  apply leadingInt_rest in E1.
  set (q := if is_dot s1 then _ else _). assert (Hq : (String.length q.2 <= String.length s1)%nat).
  { unfold q. destruct (is_dot s1); [|done]. pose proof (tail1_rest s1).
    pose proof (leadingFraction_rest (tail1 s1) 0 (float64_of_Z 1) false) as Hf.
    destruct (leadingFraction _ _ _ _) as [[f scale] s2]. cbn in *. lia. }
  destruct q as [[[f scale] post] s2]. cbn [snd] in Hq. destruct (negb _ && negb _); [done|].
  pose proof (split_unit_rest s2) as Hu. destruct (split_unit s2) as [u r]. cbn [fst snd] in Hu.
  destruct (String.eqb_spec u "") as [|Hne]; [done|]. specialize (Hu Hne).
  assert (Hr : r = rest -> (String.length rest < String.length s)%nat) by (intros ->; lia).
  destruct (unitMap u); [|done]. destruct (_ <? _); [done|]. destruct (0 <? f); [|intros [= _ ?]; auto].
  cbv zeta. destruct (_ <? _); [done|]. intros [= _ ?]; auto.
Qed.

(** As many rounds as there are bytes are enough: the loop of the code, which
    has no bound, gives the same. *)
Lemma duration_fuel n : forall m d s, (String.length s <= n)%nat -> (String.length s <= m)%nat ->
  duration_loop n d s = duration_loop m d s.
Proof.
  induction n as [|n IH]; intros m d s Hn Hm.
  - destruct s; [|cbn in Hn; lia]. by destruct m.
  - destruct m as [|m]; [destruct s; [done|cbn in Hm; lia]|]. cbn [duration_loop].
    destruct (s =? "")%string; [done|]. destruct (element s) as [[v rest]|] eqn:E; [|done].
    apply element_rest in E. cbv zeta. destruct (_ <? _); [done|]. apply IH; lia.
Qed.

(** An accepted duration is an [int64]. *)
Lemma ParseDuration_range s d : ParseDuration s = Some d -> - 2 ^ 63 <= d <= 2 ^ 63 - 1.
Proof.
  assert (Hloop : forall n x s d, 0 <= x <= 2 ^ 63 -> duration_loop n x s = Some d -> 0 <= d <= 2 ^ 63).
  { clear s d. induction n as [|n IH]; intros x s d Hx; cbn [duration_loop].
    - destruct (s =? "")%string; [by intros [= <-]|done].
    - destruct (s =? "")%string; [by intros [= <-]|]. destruct (element s) as [[v rest]|]; [|done]. cbv zeta.
      destruct (Z.ltb_spec (2 ^ 63) ((x + v) mod 2 ^ 64)); [done|]. apply IH.
      pose proof (Z.mod_pos_bound (x + v) (2 ^ 64)). lia. }
  unfold ParseDuration. destruct (match s with EmptyString => _ | _ => _ end) as [neg t].
  destruct (t =? "0")%string; [intros [= <-]; lia|]. destruct (t =? "")%string; [done|].
  destruct (duration_loop _ 0 t) as [x|] eqn:E; [|done]. apply Hloop in E; [|lia].
  destruct neg; [intros [= <-]; lia|]. destruct (Z.ltb_spec (2 ^ 63 - 1) x); [done|]. intros [= <-]. lia.
Qed.

Example durations : map ParseDuration
  ["5s"; "15m"; "168h"; "1h15m30.918273645s"; "1.5h"; "-2h45m"; "0"; "+0.5us"; "1µs"; "1μs"; ".5s"; "9223372036854775807ns"]
  = map Some [5 * Second; 15 * Minute; 168 * Hour; 4530918273645; 90 * Minute; - (165 * Minute); 0; 500; 1000; 1000; 500000000;
              9223372036854775807].
Proof. by vm_compute. Qed.

Example not_durations : forallb (fun s => match ParseDuration s with None => true | Some _ => false end)
  [""; "3"; "-"; "s"; "."; "-."; ".s"; "1d"; "1 s"; "5S"; "9223372036854775808ns"; "3000000h"; "1s "] = true.
Proof. by vm_compute. Qed.
