(* ===== verification/Config.v ===== *)
(** * Configuration

    [internal/config/config.go]: what is read from the environment, and what is
    refused at the start.  The reading itself is viper's and is the class
    [Viper]; the default values are the code's. *)

From Stdlib Require Import ZArith Lia SpecFloat.
From S2P Require Import Prelude GoString GoTime GoError Effects Metrics GoDuration Crypto Base64 Aes Encryption AuthService.

Open Scope prog_scope.

Record ServerConfig := { sc_Host : string; sc_Port : string; sc_ReadTimeout : Z; sc_WriteTimeout : Z }.

Record DatabaseConfig := {
  dbc_Host : string;
  dbc_Port : Z;
  dbc_User : string;
  dbc_Password : string;
  dbc_Name : string;
  dbc_SSLMode : string;
  dbc_Timezone : string;
  dbc_MaxOpenConns : Z;
  dbc_MaxIdleConns : Z;
  dbc_MaxLifetime : Z
}.

Record RedisConfig := { rdc_Host : string; rdc_Port : Z; rdc_Password : string; rdc_DB : Z }.

Record SecurityConfig := { EncryptionKey : string; EncryptionKeyID : string }.

Record TracingConfig := {
  trc_Enabled : bool;
  trc_ServiceName : string;
  trc_ServiceVersion : string;
  trc_OTLPEndpoint : string;
  trc_Insecure : bool;
  trc_SampleRatio : spec_float
}.

Record AgentAuthConfig := {
  aac_Mode : string;
  aac_SharedToken : string;
  aac_TLSCAFile : string;
  aac_TLSCertFile : string;
  aac_TLSKeyFile : string
}.

Record TaskWorkerConfig := {
  twc_Enabled : bool;
  twc_WorkerID : string;
  twc_Concurrency : Z;
  twc_LeaseDuration : Z;
  twc_PollInterval : Z;
  twc_MaxAttempts : Z
}.

Record AuditConfig := { adc_RetentionDays : Z; adc_ExportMaxRows : Z }.
Record BackupConfig := { bkc_RetentionDays : Z; bkc_LocalDir : string }.

Record Config := {
  cfg_AppEnv : string;
  cfg_Server : ServerConfig;
  cfg_Database : DatabaseConfig;
  cfg_Redis : RedisConfig;
  cfg_Auth : AuthConfig;
  cfg_Security : SecurityConfig;
  cfg_Tracing : TracingConfig;
  cfg_AgentAuth : AgentAuthConfig;
  cfg_TaskWorker : TaskWorkerConfig;
  cfg_Audit : AuditConfig;
  cfg_Backup : BackupConfig;
  cfg_AgentTarget : string;
  cfg_AgentTimeout : Z
}.

(** ** viper *)

Inductive setting_default := DStr (s : string) | DInt (z : Z) | DBool (b : bool) | DFloat (x : spec_float).

(** The value set for a key, as far as the environment and the file [.env] say. *)
Class Viper := {
  is_set : string -> bool;
  GetString : list (string * setting_default) -> string -> string;
  GetInt : list (string * setting_default) -> string -> Z;
  GetBool : list (string * setting_default) -> string -> bool;
  GetFloat64 : list (string * setting_default) -> string -> spec_float
}.

(** A key that is not set has its default. *)
Class ViperLaws (v : Viper) : Prop := {
  default_string ds k s : is_set k = false -> List.find (fun d => d.1 =? k)%string ds = Some (k, DStr s) -> GetString ds k = s;
  default_int ds k z : is_set k = false -> List.find (fun d => d.1 =? k)%string ds = Some (k, DInt z) -> GetInt ds k = z;
  default_bool ds k b : is_set k = false -> List.find (fun d => d.1 =? k)%string ds = Some (k, DBool b) -> GetBool ds k = b;
  default_float ds k x : is_set k = false -> List.find (fun d => d.1 =? k)%string ds = Some (k, DFloat x) -> GetFloat64 ds k = x
}.

Module config.

(** The calls of [SetDefault]. *)
Definition defaults : list (string * setting_default) := [
  ("APP_ENV", DStr "development");
  ("BACKEND_HOST", DStr "0.0.0.0");
  ("BACKEND_PORT", DStr "8080");
  ("BACKEND_READ_TIMEOUT", DStr "5s");
  ("BACKEND_WRITE_TIMEOUT", DStr "10s");
  ("AGENT_TARGET", DStr "127.0.0.1:50051");
  ("AGENT_TIMEOUT", DStr "3s");
  ("BACKEND_AGENT_AUTH_MODE", DStr "none");
  ("BACKEND_AGENT_SHARED_TOKEN", DStr "");
  ("BACKEND_AGENT_TLS_CA_FILE", DStr "");
  ("BACKEND_AGENT_TLS_CERT_FILE", DStr "");
  ("BACKEND_AGENT_TLS_KEY_FILE", DStr "");
  ("JWT_SECRET", DStr "");
  ("JWT_ISSUER", DStr "snowpanel-backend");
  ("JWT_EXPIRE", DStr "24h");
  ("JWT_REFRESH_EXPIRE", DStr "168h");
  ("LOGIN_ATTEMPT_STORE", DStr "memory");
  ("LOGIN_ATTEMPT_REDIS_PREFIX", DStr "snowpanel:auth:attempt");
  ("LOGIN_MAX_FAILURES", DInt 5);
  ("LOGIN_FAILURE_WINDOW", DStr "15m");
  ("LOGIN_LOCK_DURATION", DStr "15m");
  ("BOOTSTRAP_ADMIN", DBool true);
  ("DEFAULT_ADMIN_USERNAME", DStr "admin");
  ("DEFAULT_ADMIN_EMAIL", DStr "admin@snowpanel.local");
  ("DEFAULT_ADMIN_PASSWORD", DStr "");
  ("SNOWPANEL_ENCRYPTION_KEY", DStr "");
  ("SNOWPANEL_ENCRYPTION_KEY_ID", DStr "");
  ("TASK_WORKER_ENABLED", DBool true);
  ("TASK_WORKER_ID", DStr "");
  ("TASK_WORKER_CONCURRENCY", DInt 2);
  ("TASK_WORKER_LEASE_DURATION", DStr "30s");
  ("TASK_WORKER_POLL_INTERVAL", DStr "2s");
  ("TASK_WORKER_MAX_ATTEMPTS", DInt 3);
  ("AUDIT_RETENTION_DAYS", DInt 180);
  ("AUDIT_EXPORT_MAX_ROWS", DInt 100000);
  ("BACKUP_RETENTION_DAYS", DInt 30);
  ("BACKUP_LOCAL_DIR", DStr "var/backups");
  ("OTEL_TRACING_ENABLED", DBool false);
  ("OTEL_SERVICE_NAME", DStr "snowpanel-backend");
  ("OTEL_SERVICE_VERSION", DStr "");
  ("OTEL_EXPORTER_OTLP_ENDPOINT", DStr "");
  ("OTEL_EXPORTER_OTLP_INSECURE", DBool true);
  ("OTEL_TRACES_SAMPLER_ARG", DFloat (float64_of_Z 1));
  ("POSTGRES_HOST", DStr "127.0.0.1");
  ("POSTGRES_PORT", DInt 5432);
  ("POSTGRES_USER", DStr "snowpanel");
  ("POSTGRES_PASSWORD", DStr "snowpanel");
  ("POSTGRES_DB", DStr "snowpanel");
  ("POSTGRES_SSLMODE", DStr "disable");
  ("POSTGRES_TIMEZONE", DStr "UTC");
  ("POSTGRES_MAX_OPEN_CONNS", DInt 20);
  ("POSTGRES_MAX_IDLE_CONNS", DInt 5);
  ("POSTGRES_CONN_MAX_LIFETIME", DStr "30m");
  ("REDIS_HOST", DStr "127.0.0.1");
  ("REDIS_PORT", DInt 6379);
  ("REDIS_PASSWORD", DStr "");
  ("REDIS_DB", DInt 0)
].

Definition mustDuration (raw : string) (fallback : Z) : Z :=
  if (raw =? "")%string then fallback
  else match ParseDuration raw with None => fallback | Some value => value end.

Definition normalizeEnv (raw : string) : string :=
  let normalized := TrimSpace (ToLower raw) in
  if (normalized =? "")%string then "development" else normalized.

Definition normalizeLoginAttemptStore (raw : string) : string :=
  let normalized := TrimSpace (ToLower raw) in
  if (normalized =? "redis")%string then "redis" else "memory".

Definition normalizeAgentAuthMode (raw : string) : string :=
  let normalized := TrimSpace (ToLower raw) in
  if (normalized =? "")%string then "none" else normalized.

Definition isProductionEnv (raw : string) : bool := (normalizeEnv raw =? "production")%string.

Definition weakValues : list string := ["change-me-in-production"; "changeme"; "password"; "admin123456"; "snowpanel"].

Definition isWeakJWTSecret (secret : string) : bool :=
  let trimmed := TrimSpace secret in
  if len trimmed <? 32 then true
  else existsb (Contains (ToLower trimmed)) weakValues.

(** The same loop as in the authentication service. *)
Definition isStrongPassword (raw : string) : bool :=
  let password := TrimSpace raw in
  if len password <? 14 then false
  else
    let '(hasUpper, hasLower, hasDigit, hasSymbol) :=
      fold_left (fun '(hasUpper, hasLower, hasDigit, hasSymbol) ch =>
        if is_upper ch then (true, hasLower, hasDigit, hasSymbol)
        else if is_lower ch then (hasUpper, true, hasDigit, hasSymbol)
        else if is_digit ch then (hasUpper, hasLower, true, hasSymbol)
        else (hasUpper, hasLower, hasDigit, true)) (runes password) (false, false, false, false) in
    hasUpper && hasLower && hasDigit && hasSymbol.

Definition generateDevJWTSecret (byteLen : Z) : prog rand_ans (res string) :=
  buffer <-! ReadFull byteLen ;; Ret (Ok (EncodeToString RawURLEncoding buffer)).

Definition clampSampleRatio (raw : spec_float) : spec_float :=
  if SFltb raw (float64_of_Z 0) then float64_of_Z 0
  else if SFltb (float64_of_Z 1) raw then float64_of_Z 1
  else raw.

Definition Address_server (c : ServerConfig) : string := (sc_Host c +:+ ":" +:+ sc_Port c)%string.
Definition Address_redis (c : RedisConfig) : string := (rdc_Host c +:+ ":" +:+ fmt_d (rdc_Port c))%string.

Definition DSN (c : DatabaseConfig) : string :=
  ("host=" +:+ dbc_Host c +:+ " port=" +:+ fmt_d (dbc_Port c) +:+ " user=" +:+ dbc_User c +:+ " password=" +:+ dbc_Password c
   +:+ " dbname=" +:+ dbc_Name c +:+ " sslmode=" +:+ dbc_SSLMode c +:+ " TimeZone=" +:+ dbc_Timezone c)%string.

Section Load.
Context `{Viper}.

#[local] Abbreviation v_GetString := (GetString defaults).
#[local] Abbreviation v_GetInt := (GetInt defaults).
#[local] Abbreviation v_GetBool := (GetBool defaults).

Definition with_secret (appEnv jwtSecret : string) : Config := {|
  cfg_AppEnv := appEnv;
  cfg_AgentTarget := v_GetString "AGENT_TARGET";
  cfg_AgentTimeout := mustDuration (v_GetString "AGENT_TIMEOUT") (3 * Second);
  cfg_Server := {|
    sc_Host := v_GetString "BACKEND_HOST";
    sc_Port := v_GetString "BACKEND_PORT";
    sc_ReadTimeout := mustDuration (v_GetString "BACKEND_READ_TIMEOUT") (5 * Second);
    sc_WriteTimeout := mustDuration (v_GetString "BACKEND_WRITE_TIMEOUT") (10 * Second) |};
  cfg_Database := {|
    dbc_Host := v_GetString "POSTGRES_HOST";
    dbc_Port := v_GetInt "POSTGRES_PORT";
    dbc_User := v_GetString "POSTGRES_USER";
    dbc_Password := v_GetString "POSTGRES_PASSWORD";
    dbc_Name := v_GetString "POSTGRES_DB";
    dbc_SSLMode := v_GetString "POSTGRES_SSLMODE";
    dbc_Timezone := v_GetString "POSTGRES_TIMEZONE";
    dbc_MaxOpenConns := v_GetInt "POSTGRES_MAX_OPEN_CONNS";
    dbc_MaxIdleConns := v_GetInt "POSTGRES_MAX_IDLE_CONNS";
    dbc_MaxLifetime := mustDuration (v_GetString "POSTGRES_CONN_MAX_LIFETIME") (30 * Minute) |};
  cfg_Redis := {|
    rdc_Host := v_GetString "REDIS_HOST";
    rdc_Port := v_GetInt "REDIS_PORT";
    rdc_Password := v_GetString "REDIS_PASSWORD";
    rdc_DB := v_GetInt "REDIS_DB" |};
  cfg_Auth := {|
    AppEnv := appEnv;
    JWTSecret := jwtSecret;
    JWTIssuer := v_GetString "JWT_ISSUER";
    JWTExpire := mustDuration (v_GetString "JWT_EXPIRE") (24 * Hour);
    JWTRefreshExpire := mustDuration (v_GetString "JWT_REFRESH_EXPIRE") (7 * 24 * Hour);
    LoginAttemptStore := normalizeLoginAttemptStore (v_GetString "LOGIN_ATTEMPT_STORE");
    LoginAttemptPrefix := TrimSpace (v_GetString "LOGIN_ATTEMPT_REDIS_PREFIX");
    LoginMaxFailures := v_GetInt "LOGIN_MAX_FAILURES";
    LoginFailureWindow := mustDuration (v_GetString "LOGIN_FAILURE_WINDOW") (15 * Minute);
    LoginLockDuration := mustDuration (v_GetString "LOGIN_LOCK_DURATION") (15 * Minute);
    BootstrapAdmin := v_GetBool "BOOTSTRAP_ADMIN";
    DefaultAdminUsername := v_GetString "DEFAULT_ADMIN_USERNAME";
    DefaultAdminEmail := v_GetString "DEFAULT_ADMIN_EMAIL";
    DefaultAdminPassword := v_GetString "DEFAULT_ADMIN_PASSWORD" |};
  cfg_Security := {|
    EncryptionKey := TrimSpace (v_GetString "SNOWPANEL_ENCRYPTION_KEY");
    EncryptionKeyID := TrimSpace (v_GetString "SNOWPANEL_ENCRYPTION_KEY_ID") |};
  cfg_Tracing := {|
    trc_Enabled := v_GetBool "OTEL_TRACING_ENABLED";
    trc_ServiceName := TrimSpace (v_GetString "OTEL_SERVICE_NAME");
    trc_ServiceVersion := TrimSpace (v_GetString "OTEL_SERVICE_VERSION");
    trc_OTLPEndpoint := TrimSpace (v_GetString "OTEL_EXPORTER_OTLP_ENDPOINT");
    trc_Insecure := v_GetBool "OTEL_EXPORTER_OTLP_INSECURE";
    trc_SampleRatio := clampSampleRatio (GetFloat64 defaults "OTEL_TRACES_SAMPLER_ARG") |};
  cfg_AgentAuth := {|
    aac_Mode := normalizeAgentAuthMode (v_GetString "BACKEND_AGENT_AUTH_MODE");
    aac_SharedToken := TrimSpace (v_GetString "BACKEND_AGENT_SHARED_TOKEN");
    aac_TLSCAFile := TrimSpace (v_GetString "BACKEND_AGENT_TLS_CA_FILE");
    aac_TLSCertFile := TrimSpace (v_GetString "BACKEND_AGENT_TLS_CERT_FILE");
    aac_TLSKeyFile := TrimSpace (v_GetString "BACKEND_AGENT_TLS_KEY_FILE") |};
  cfg_TaskWorker := {|
    twc_Enabled := v_GetBool "TASK_WORKER_ENABLED";
    twc_WorkerID := TrimSpace (v_GetString "TASK_WORKER_ID");
    twc_Concurrency := v_GetInt "TASK_WORKER_CONCURRENCY";
    twc_LeaseDuration := mustDuration (v_GetString "TASK_WORKER_LEASE_DURATION") (30 * Second);
    twc_PollInterval := mustDuration (v_GetString "TASK_WORKER_POLL_INTERVAL") (2 * Second);
    twc_MaxAttempts := v_GetInt "TASK_WORKER_MAX_ATTEMPTS" |};
  cfg_Audit := {|
    adc_RetentionDays := v_GetInt "AUDIT_RETENTION_DAYS";
    adc_ExportMaxRows := v_GetInt "AUDIT_EXPORT_MAX_ROWS" |};
  cfg_Backup := {|
    bkc_RetentionDays := v_GetInt "BACKUP_RETENTION_DAYS";
    bkc_LocalDir := TrimSpace (v_GetString "BACKUP_LOCAL_DIR") |}
|}.

Definition Load : prog rand_ans Config :=
  let appEnv := normalizeEnv (v_GetString "APP_ENV") in
  let jwtSecret := TrimSpace (v_GetString "JWT_SECRET") in
  if negb (isProductionEnv appEnv) && isWeakJWTSecret jwtSecret then
    generated <- generateDevJWTSecret 48 ;;
    Ret (with_secret appEnv (match generated with Ok generated => generated | Err _ => jwtSecret end))
  else Ret (with_secret appEnv jwtSecret).

End Load.

(** The checks in their order; [None] is accepted. *)
Fixpoint first_error (checks : list (bool * string)) : option goerr :=
  match checks with
  | [] => None
  | (refused, message) :: checks => if refused then Some (ErrNew message) else first_error checks
  end.

Definition early_checks (c : Config) : list (bool * string) :=
  let production := isProductionEnv (cfg_AppEnv c) in
  let auth := cfg_Auth c in
  let rawStore := TrimSpace (ToLower (LoginAttemptStore auth)) in
  [(production && isWeakJWTSecret (JWTSecret auth), "JWT_SECRET must be explicitly set to a strong value in production");
   (BootstrapAdmin auth && (TrimSpace (DefaultAdminUsername auth) =? "")%string,
    "DEFAULT_ADMIN_USERNAME cannot be empty when BOOTSTRAP_ADMIN=true");
   (BootstrapAdmin auth && (TrimSpace (DefaultAdminEmail auth) =? "")%string,
    "DEFAULT_ADMIN_EMAIL cannot be empty when BOOTSTRAP_ADMIN=true");
   (BootstrapAdmin auth && (production && negb (isStrongPassword (DefaultAdminPassword auth))),
    "DEFAULT_ADMIN_PASSWORD must be strong in production when BOOTSTRAP_ADMIN=true");
   (negb ((rawStore =? "") || (rawStore =? "memory") || (rawStore =? "redis"))%string,
    "LOGIN_ATTEMPT_STORE must be one of: memory, redis")].

(** A mode that is [token] is none of the later cases of the [switch]. *)
Definition late_checks (c : Config) : list (bool * string) :=
  let worker := cfg_TaskWorker c in
  let mode := aac_Mode (cfg_AgentAuth c) in
  [(twc_Concurrency worker <? 1, "TASK_WORKER_CONCURRENCY must be greater than 0");
   (twc_LeaseDuration worker <=? 0, "TASK_WORKER_LEASE_DURATION must be greater than 0");
   (twc_PollInterval worker <=? 0, "TASK_WORKER_POLL_INTERVAL must be greater than 0");
   (twc_MaxAttempts worker <? 1, "TASK_WORKER_MAX_ATTEMPTS must be greater than 0");
   (adc_RetentionDays (cfg_Audit c) <? 1, "AUDIT_RETENTION_DAYS must be greater than 0");
   (adc_ExportMaxRows (cfg_Audit c) <? 1, "AUDIT_EXPORT_MAX_ROWS must be greater than 0");
   (bkc_RetentionDays (cfg_Backup c) <? 1, "BACKUP_RETENTION_DAYS must be greater than 0");
   ((TrimSpace (bkc_LocalDir (cfg_Backup c)) =? "")%string, "BACKUP_LOCAL_DIR cannot be empty");
   ((mode =? "token")%string && (TrimSpace (aac_SharedToken (cfg_AgentAuth c)) =? "")%string,
    "BACKEND_AGENT_SHARED_TOKEN cannot be empty when BACKEND_AGENT_AUTH_MODE=token");
   ((mode =? "mtls")%string, "BACKEND_AGENT_AUTH_MODE=mtls is reserved but not implemented yet");
   (negb ((mode =? "") || (mode =? "none") || (mode =? "token"))%string,
    "BACKEND_AGENT_AUTH_MODE must be one of: none, token, mtls")].

Definition Validate (c : Config) : option goerr :=
  let key := EncryptionKey (cfg_Security c) in
  match first_error (early_checks c) with
  | Some err => Some err
  | None =>
    match (if negb (TrimSpace key =? "")%string then DecodeEncryptionKey key else Ok []) with
    | Err err => Some err
    | Ok _ => first_error (late_checks c)
    end
  end.

End config.
