(* ===== verification/ConfigProps.v ===== *)
(** * What an accepted configuration gives

    The checks of [Validate] and their consequences for the components that are
    built from the configuration. *)

From Stdlib Require Import ZArith Lia SpecFloat.
From S2P Require Import Prelude GoString GoTime GoError Effects Metrics GoDuration Crypto Base64 Aes Encryption AuthService.
From S2P Require Import Agent AgentClient TaskPayload TaskService BackupService AuditService SettingProps Config.

(** ** The checks *)

Record accepted (c : Config) : Prop := {
  acc_secret : config.isProductionEnv (cfg_AppEnv c) = true -> config.isWeakJWTSecret (JWTSecret (cfg_Auth c)) = false;
  acc_admin : BootstrapAdmin (cfg_Auth c) = true ->
    TrimSpace (DefaultAdminUsername (cfg_Auth c)) <> "" /\ TrimSpace (DefaultAdminEmail (cfg_Auth c)) <> "" /\
    (config.isProductionEnv (cfg_AppEnv c) = true -> isStrongPassword (DefaultAdminPassword (cfg_Auth c)) = true);
  acc_store : TrimSpace (ToLower (LoginAttemptStore (cfg_Auth c))) ∈ [""; "memory"; "redis"];
  acc_key : TrimSpace (EncryptionKey (cfg_Security c)) <> "" -> is_ok (DecodeEncryptionKey (EncryptionKey (cfg_Security c))) = true;
  acc_worker : 1 <= twc_Concurrency (cfg_TaskWorker c) /\ 0 < twc_LeaseDuration (cfg_TaskWorker c) /\
    0 < twc_PollInterval (cfg_TaskWorker c) /\ 1 <= twc_MaxAttempts (cfg_TaskWorker c);
  acc_audit : 1 <= adc_RetentionDays (cfg_Audit c) /\ 1 <= adc_ExportMaxRows (cfg_Audit c);
  acc_backup : 1 <= bkc_RetentionDays (cfg_Backup c) /\ TrimSpace (bkc_LocalDir (cfg_Backup c)) <> "";
  acc_mode : aac_Mode (cfg_AgentAuth c) ∈ [""; "none"; "token"];
  acc_token : aac_Mode (cfg_AgentAuth c) = "token" -> TrimSpace (aac_SharedToken (cfg_AgentAuth c)) <> ""
}.

Lemma first_error_None checks : config.first_error checks = None <-> Forall (fun check => check.1 = false) checks.
Proof.
  induction checks as [|[[] message] checks IH]; cbn [config.first_error].
  - by split.
  - split; [done|]. by intros [? _]%Forall_cons.
  - rewrite IH. split; [by constructor|]. by intros [_ ?]%Forall_cons.
Qed.

(** A refusal of a list of checks is its first. *)
Lemma first_error_Some checks err : config.first_error checks = Some err ->
  exists before message after, checks = before ++ (true, message) :: after /\ err = ErrNew message /\ Forall (fun check => check.1 = false) before.
Proof.
  induction checks as [|[[] message] checks IH]; cbn [config.first_error]; [done| |].
  - intros [= <-]. by exists [], message, checks.
  - intros (before & m & after & -> & -> & Hb)%IH. exists ((false, message) :: before), m, after. split; [done|]. split; [done|]. by constructor.
Qed.

Lemma andb_false_impl a b : a && b = false <-> (a = true -> b = false).
Proof. destruct a, b; cbn; split; auto; intros H; by specialize (H eq_refl). Qed.

(** [Validate] accepts a configuration exactly when all its conditions hold. *)
Lemma Validate_spec c : config.Validate c = None <-> accepted c.
Proof.
  transitivity (config.first_error (config.early_checks c) = None /\
    (TrimSpace (EncryptionKey (cfg_Security c)) <> "" -> is_ok (DecodeEncryptionKey (EncryptionKey (cfg_Security c))) = true) /\
    config.first_error (config.late_checks c) = None).
  { unfold config.Validate. cbv zeta. destruct (config.first_error (config.early_checks c)); [by split; [|intros [? _]]|].
    destruct (String.eqb_spec (TrimSpace (EncryptionKey (cfg_Security c))) "") as [Ek|Ek]; cbn [negb].
    - split; [intros Hl; split; [done|]; by split|by intros (_ & _ & Hl)].
    - destruct (DecodeEncryptionKey _); cbn [is_ok]; (split; [intros Hl; split; [done|]; by split|intros (_ & Hk & Hl)]); [done|].
      by specialize (Hk Ek). }
  rewrite !first_error_None. unfold config.early_checks, config.late_checks. cbv zeta. rewrite !Forall_cons. cbn [fst].
  rewrite !andb_false_impl, !negb_false_iff, !Z.ltb_ge, !Z.leb_gt, !String.eqb_neq.
  rewrite !orb_true_iff, !String.eqb_eq. split.
  - intros ((H1 & H2 & H3 & H4 & H5 & _) & H6 & H7 & H8 & H9 & H10 & H11 & H12 & H13 & H14 & H15 & _ & H17 & _).
    split; try done; [by auto|rewrite !elem_of_cons; tauto|rewrite !elem_of_cons; tauto].
  - intros [H1 H2 H3 H4 (W1 & W2 & W3 & W4) (A1 & A2) (B1 & B2) H8 H9]. rewrite !elem_of_cons, elem_of_nil in H3, H8.
    repeat split; try done; try (intros Hb; by destruct (H2 Hb) as (? & ? & ?)); [tauto| |tauto].
    intros Hm. rewrite Hm in H8. destruct H8 as [?|[?|[?|?]]]; done.
Qed.

(** ** The components built from it *)

(** [newSettingsEncryptor] of [cmd/server/main.go]. *)
Definition newSettingsEncryptor (cfg : SecurityConfig) : res (option Encryptor) :=
  if (EncryptionKey cfg =? "")%string then Ok None
  else res_map Some (NewEncryptor (EncryptionKey cfg) (EncryptionKeyID cfg)).

Definition task_options (c : Config) : TaskServiceOptions :=
  {| AsyncExecution := negb (twc_Enabled (cfg_TaskWorker c)); MaxAttempts := twc_MaxAttempts (cfg_TaskWorker c);
     HasMetrics := true; HasDocker := true; HasServices := true; HasBackup := true |}.

Definition worker_options (c : Config) : TaskWorkerOptions :=
  {| WorkerID := twc_WorkerID (cfg_TaskWorker c); Concurrency := twc_Concurrency (cfg_TaskWorker c);
     LeaseDuration := twc_LeaseDuration (cfg_TaskWorker c); PollInterval := twc_PollInterval (cfg_TaskWorker c) |}.

Definition agent_auth (c : Config) : ClientAuth :=
  {| Mode := aac_Mode (cfg_AgentAuth c); SharedToken := aac_SharedToken (cfg_AgentAuth c) |}.

(** No constructor puts a value of its own in the place of a configured one. *)
Record as_written (c : Config) : Prop := {
  aw_audit : NewAuditServiceWithOptions (adc_RetentionDays (cfg_Audit c)) (adc_ExportMaxRows (cfg_Audit c))
    = {| AuditService.retentionDays := adc_RetentionDays (cfg_Audit c); exportMaxRows := adc_ExportMaxRows (cfg_Audit c) |};
  aw_backup : NewBackupServiceWithOptions (bkc_RetentionDays (cfg_Backup c)) (bkc_LocalDir (cfg_Backup c))
    = {| BackupService.retentionDays := bkc_RetentionDays (cfg_Backup c); localDir := bkc_LocalDir (cfg_Backup c) |};
  aw_tasks : NewTaskServiceWithOptions (task_options c) = task_options c;
  aw_worker hostname pid : let options := normalizeTaskWorkerOptions hostname pid (worker_options c) in
    Concurrency options = twc_Concurrency (cfg_TaskWorker c) /\ LeaseDuration options = twc_LeaseDuration (cfg_TaskWorker c) /\
    PollInterval options = twc_PollInterval (cfg_TaskWorker c) /\
    (twc_WorkerID (cfg_TaskWorker c) <> "" -> WorkerID options = twc_WorkerID (cfg_TaskWorker c));
  aw_encryptor : exists s, newSettingsEncryptor (cfg_Security c) = Ok s /\ from_option (fun e => key_ok (aead_key e)) True s /\
    (s = None <-> EncryptionKey (cfg_Security c) = "");
  aw_agent : normalizeAuthConfig (agent_auth c) = agent_auth c /\
    (aac_Mode (cfg_AgentAuth c) = "none" \/ aac_Mode (cfg_AgentAuth c) = "token" /\ aac_SharedToken (cfg_AgentAuth c) <> "");
  aw_store : LoginAttemptStore (cfg_Auth c) = "memory" \/ LoginAttemptStore (cfg_Auth c) = "redis";
  aw_sample : SFltb (trc_SampleRatio (cfg_Tracing c)) (float64_of_Z 0) = false /\
    SFltb (float64_of_Z 1) (trc_SampleRatio (cfg_Tracing c)) = false;
  aw_production : config.isProductionEnv (cfg_AppEnv c) = true ->
    config.isWeakJWTSecret (JWTSecret (cfg_Auth c)) = false /\
    (BootstrapAdmin (cfg_Auth c) = true -> resolveBootstrapPassword (cfg_Auth c) = Ret (Ok (TrimSpace (DefaultAdminPassword (cfg_Auth c)))))
}.

Lemma NewEncryptor_made key id : is_ok (DecodeEncryptionKey key) = true ->
  exists e, NewEncryptor key id = Ok e /\ key_ok (aead_key e).
Proof.
  intros Hk. unfold NewEncryptor. destruct (DecodeEncryptionKey key) as [k|] eqn:E; [|done].
  eexists. split; [done|]. by eapply DecodeEncryptionKey_ok.
Qed.

Lemma isStrongPassword_trim raw : isStrongPassword (TrimSpace raw) = isStrongPassword raw.
Proof. unfold isStrongPassword. by rewrite TrimSpace_idem. Qed.

Lemma clampSampleRatio_range x : SFltb (config.clampSampleRatio x) (float64_of_Z 0) = false /\
  SFltb (float64_of_Z 1) (config.clampSampleRatio x) = false.
Proof.
  unfold config.clampSampleRatio. destruct (SFltb x (float64_of_Z 0)) eqn:E1; [by split|].
  destruct (SFltb (float64_of_Z 1) x) eqn:E2; [by split|]. by split.
Qed.

(** A password that is strong leaves nothing to generate or to warn of. *)
Lemma resolve_strong cfg : TrimSpace (DefaultAdminUsername cfg) <> "" -> TrimSpace (DefaultAdminEmail cfg) <> "" ->
  isStrongPassword (DefaultAdminPassword cfg) = true ->
  resolveBootstrapPassword cfg = Ret (Ok (TrimSpace (DefaultAdminPassword cfg))).
Proof.
  intros Hu He Hs. unfold resolveBootstrapPassword. apply String.eqb_neq in Hu, He. rewrite Hu, He, isStrongPassword_trim, Hs.
  destruct (String.eqb_spec (TrimSpace (DefaultAdminPassword cfg)) "") as [E|_].
  - unfold isStrongPassword in Hs. rewrite E in Hs. done.
  - cbn [negb andb bind]. by rewrite andb_false_r.
Qed.

Lemma with_secret_as_written `{Viper} appEnv secret (c := config.with_secret appEnv secret) : accepted c -> as_written c.
Proof.
  intros [Hsecret Hadmin _ Hkey (W1 & W2 & W3 & W4) (A1 & A2) (B1 & B2) Hmode Htoken].
  assert (Ekey : TrimSpace (EncryptionKey (cfg_Security c)) = EncryptionKey (cfg_Security c)) by apply TrimSpace_idem.
  assert (Edir : TrimSpace (bkc_LocalDir (cfg_Backup c)) = bkc_LocalDir (cfg_Backup c)) by apply TrimSpace_idem.
  assert (Etoken : TrimSpace (aac_SharedToken (cfg_AgentAuth c)) = aac_SharedToken (cfg_AgentAuth c)) by apply TrimSpace_idem.
  assert (Eworker : TrimSpace (twc_WorkerID (cfg_TaskWorker c)) = twc_WorkerID (cfg_TaskWorker c)) by apply TrimSpace_idem.
  assert (Hnot : aac_Mode (cfg_AgentAuth c) <> "").
  { cbn [c config.with_secret cfg_AgentAuth aac_Mode]. unfold config.normalizeAgentAuthMode. cbv zeta.
    by destruct (String.eqb_spec (TrimSpace (ToLower (GetString config.defaults "BACKEND_AGENT_AUTH_MODE"))) ""). }
  assert (Hstore : LoginAttemptStore (cfg_Auth c) = "memory" \/ LoginAttemptStore (cfg_Auth c) = "redis").
  { cbn [c config.with_secret cfg_Auth LoginAttemptStore]. unfold config.normalizeLoginAttemptStore. cbv zeta.
    destruct (_ =? "redis")%string; auto. }
  pose proof (clampSampleRatio_range (GetFloat64 config.defaults "OTEL_TRACES_SAMPLER_ARG")) as Hsample.
  change (config.clampSampleRatio _) with (trc_SampleRatio (cfg_Tracing c)) in Hsample.
  clearbody c. rewrite Ekey in Hkey. rewrite Edir in B2. rewrite Etoken in Htoken.
  assert (Hpos : forall z, 1 <= z -> (z <=? 0) = false) by (intros; apply Z.leb_gt; lia).
  split; try done.
  - unfold NewAuditServiceWithOptions. by rewrite !Hpos.
  - unfold NewBackupServiceWithOptions. apply String.eqb_neq in B2. cbv zeta. by rewrite Edir, B2, Hpos.
  - unfold NewTaskServiceWithOptions, task_options. cbn [MaxAttempts]. by rewrite Hpos.
  - intros hostname pid. unfold normalizeTaskWorkerOptions, worker_options. cbn [WorkerID Concurrency LeaseDuration PollInterval].
    rewrite Hpos, !(proj2 (Z.leb_gt _ _)) by done. repeat (split; [done|]). intros Hne. cbv zeta.
    apply String.eqb_neq in Hne. by rewrite Eworker, Hne.
  - unfold newSettingsEncryptor. destruct (String.eqb_spec (EncryptionKey (cfg_Security c)) "") as [E|E].
    + exists None. by repeat split.
    + destruct (NewEncryptor_made _ (EncryptionKeyID (cfg_Security c)) (Hkey E)) as (e & Ee & He).
      exists (Some e). rewrite Ee. split; [done|]. split; [done|]. by split.
  - unfold normalizeAuthConfig, agent_auth. cbn [Mode SharedToken]. rewrite Etoken, !elem_of_cons, elem_of_nil in *.
    destruct Hmode as [E|[E|[E|[]]]]; [done|rewrite E; by auto|]. rewrite E. split; [done|]. right. auto.
  - intros Hp. split; [by apply Hsecret|]. intros Hb. destruct (Hadmin Hb) as (H1 & H2 & H3). apply resolve_strong; auto.
Qed.

Lemma results_mono {op} {ans : op -> Type} {A} (Q Q' : A -> Prop) (p : prog ans A) :
  (forall x, Q x -> Q' x) -> results Q p -> results Q' p.
Proof. intros HQ. induction p as [x|o k IH]; cbn [results]; auto. Qed.

Lemma Load_read `{Viper} : results (fun c => exists appEnv secret, c = config.with_secret appEnv secret) config.Load.
Proof.
  unfold config.Load. cbv zeta. destruct (_ && _); [|by do 2 eexists]. intros [bytes|err]; by do 2 eexists.
Qed.


(** ** Nothing is set *)

Definition default_auth (secret : string) : AuthConfig :=
  {| AppEnv := "development"; JWTSecret := secret; JWTIssuer := "snowpanel-backend"; JWTExpire := 24 * Hour;
     JWTRefreshExpire := 168 * Hour; LoginAttemptStore := "memory"; LoginAttemptPrefix := "snowpanel:auth:attempt";
     LoginMaxFailures := 5; LoginFailureWindow := 15 * Minute; LoginLockDuration := 15 * Minute; BootstrapAdmin := true;
     DefaultAdminUsername := "admin"; DefaultAdminEmail := "admin@snowpanel.local"; DefaultAdminPassword := "" |}.

Section Defaults.
Context (v : Viper) (Hlaws : ViperLaws v) (Hset : forall k, is_set k = false).

Lemma unset_string k s : List.find (fun d => d.1 =? k)%string config.defaults = Some (k, DStr s) -> GetString config.defaults k = s.
Proof. by apply default_string. Qed.
Lemma unset_int k z : List.find (fun d => d.1 =? k)%string config.defaults = Some (k, DInt z) -> GetInt config.defaults k = z.
Proof. by apply default_int. Qed.
Lemma unset_bool k b : List.find (fun d => d.1 =? k)%string config.defaults = Some (k, DBool b) -> GetBool config.defaults k = b.
Proof. by apply default_bool. Qed.

(** Every value that [Validate] reads. *)
Lemma with_secret_default appEnv secret : let c := config.with_secret appEnv secret in
  cfg_Auth c = {| AppEnv := appEnv; JWTSecret := secret; JWTIssuer := "snowpanel-backend"; JWTExpire := 24 * Hour;
     JWTRefreshExpire := 168 * Hour; LoginAttemptStore := "memory"; LoginAttemptPrefix := "snowpanel:auth:attempt";
     LoginMaxFailures := 5; LoginFailureWindow := 15 * Minute; LoginLockDuration := 15 * Minute; BootstrapAdmin := true;
     DefaultAdminUsername := "admin"; DefaultAdminEmail := "admin@snowpanel.local"; DefaultAdminPassword := "" |} /\
  cfg_Security c = {| EncryptionKey := ""; EncryptionKeyID := "" |} /\
  cfg_TaskWorker c = {| twc_Enabled := true; twc_WorkerID := ""; twc_Concurrency := 2; twc_LeaseDuration := 30 * Second;
     twc_PollInterval := 2 * Second; twc_MaxAttempts := 3 |} /\
  cfg_Audit c = {| adc_RetentionDays := 180; adc_ExportMaxRows := 100000 |} /\
  cfg_Backup c = {| bkc_RetentionDays := 30; bkc_LocalDir := "var/backups" |} /\
  aac_Mode (cfg_AgentAuth c) = "none".
Proof.
  cbv zeta. unfold config.with_secret. cbn [cfg_Auth cfg_Security cfg_TaskWorker cfg_Audit cfg_Backup cfg_AgentAuth aac_Mode].
  repeat (erewrite unset_string by reflexivity). repeat (erewrite unset_int by reflexivity). repeat (erewrite unset_bool by reflexivity).
  repeat split.
Qed.

End Defaults.

(** A server of which nothing is configured starts: with an empty environment
    the configuration that is read is accepted, whatever the random source gives
    for the signing secret; it is a development configuration with the documented
    defaults, the agent is not authenticated and nothing can be encrypted. *)
Theorem Load_defaults (v : Viper) : ViperLaws v -> (forall k, is_set k = false) ->
  results (fun c => config.Validate c = None /\ cfg_AppEnv c = "development" /\
    (exists secret, cfg_Auth c = default_auth secret /\ (secret = "" \/ exists bytes, secret = EncodeToString RawURLEncoding bytes)) /\
    newSettingsEncryptor (cfg_Security c) = Ok None /\ agent_auth c = {| Mode := "none"; SharedToken := aac_SharedToken (cfg_AgentAuth c) |})
  config.Load.
Proof.
  intros Hlaws Hset. unfold config.Load. rewrite (unset_string v Hlaws Hset "APP_ENV" "development") by reflexivity.
  rewrite (unset_string v Hlaws Hset "JWT_SECRET" "") by reflexivity.
  change (negb _ && _) with true. cbv iota. change (config.normalizeEnv "development") with "development". change (TrimSpace "") with "".
  assert (Hall : forall secret, (secret = "" \/ exists bytes, secret = EncodeToString RawURLEncoding bytes) ->
    let c := config.with_secret "development" secret in
    config.Validate c = None /\ cfg_AppEnv c = "development" /\
    (exists secret, cfg_Auth c = default_auth secret /\ (secret = "" \/ exists bytes, secret = EncodeToString RawURLEncoding bytes)) /\
    newSettingsEncryptor (cfg_Security c) = Ok None /\ agent_auth c = {| Mode := "none"; SharedToken := aac_SharedToken (cfg_AgentAuth c) |}).
  { intros secret Hs. pose proof (with_secret_default v Hlaws Hset "development" secret) as (E1 & E2 & E3 & E4 & E5 & E6).
    set (c := config.with_secret _ _) in *. assert (E0 : cfg_AppEnv c = "development") by done. clearbody c. cbv zeta.
    split; [|split; [done|split; [by exists secret|split; [by rewrite E2|unfold agent_auth; by rewrite E6]]]].
    unfold config.Validate, config.early_checks, config.late_checks. by rewrite E0, E1, E2, E3, E4, E5, E6. }
  intros [bytes|err]; apply Hall; eauto.
Qed.

(** Nothing is set. *)
Definition unset : Viper := {|
  is_set _ := false;
  GetString ds k := match List.find (fun d => d.1 =? k)%string ds with Some (_, DStr s) => s | _ => "" end;
  GetInt ds k := match List.find (fun d => d.1 =? k)%string ds with Some (_, DInt z) => z | _ => 0 end;
  GetBool ds k := match List.find (fun d => d.1 =? k)%string ds with Some (_, DBool b) => b | _ => false end;
  GetFloat64 ds k := match List.find (fun d => d.1 =? k)%string ds with Some (_, DFloat x) => x | _ => float64_of_Z 0 end
|}.

Lemma unset_laws : ViperLaws unset.
Proof. split; intros ds k x _ E; cbn; by rewrite E. Qed.

Definition no_random (o : rand_op) (w : unit) : rand_ans o * unit := match o with ReadRandom _ => (Err ErrEOF, w) end.

Lemma Load_defaults_witness : let c := (run no_random (@config.Load unset) tt).1 in
  config.Validate c = None /\ JWTSecret (cfg_Auth c) = "".
Proof.
  pose proof (results_run no_random _ (@config.Load unset) tt (Load_defaults unset unset_laws (fun _ => eq_refl))) as (H & _).
  split; [exact H|reflexivity].
Defined.

(** ** A production environment *)

Definition production_values : list (string * setting_default) :=
  [("APP_ENV", DStr " Production "); ("JWT_SECRET", DStr "VeryStrongJWTSecret_For_Production_Use_1234567890!");
   ("DEFAULT_ADMIN_PASSWORD", DStr "Str0ng!BootstrapP@ssword"); ("BACKEND_AGENT_AUTH_MODE", DStr " Token");
   ("BACKEND_AGENT_SHARED_TOKEN", DStr "t0ken"); ("TASK_WORKER_LEASE_DURATION", DStr "1m30s");
   ("SNOWPANEL_ENCRYPTION_KEY", DStr "AAECAwQFBgcICQoLDA0ODxAREhMUFRYXGBkaGxwdHh8="); ("SNOWPANEL_ENCRYPTION_KEY_ID", DStr "k1")].

Definition with_values (l : list (string * setting_default)) : Viper := {|
  is_set k := existsb (fun d => d.1 =? k)%string l;
  GetString ds k := @GetString unset (l ++ ds) k; GetInt ds k := @GetInt unset (l ++ ds) k;
  GetBool ds k := @GetBool unset (l ++ ds) k; GetFloat64 ds k := @GetFloat64 unset (l ++ ds) k
|}.

Definition production : Config := (run no_random (@config.Load (with_values production_values)) tt).1.


Example production_lease : twc_LeaseDuration (cfg_TaskWorker production) = 90 * Second.
Proof. by vm_compute. Qed.

(** The values of the connection string are not quoted: a password
    with a space names another database, and one string stands for two
    configurations. *)
Example DSN_not_injective :
  let db password name := {| dbc_Host := "db"; dbc_Port := 5432; dbc_User := "u"; dbc_Password := password; dbc_Name := name;
    dbc_SSLMode := "disable"; dbc_Timezone := "UTC"; dbc_MaxOpenConns := 1; dbc_MaxIdleConns := 1; dbc_MaxLifetime := 0 |} in
  config.DSN (db "p dbname=other" "panel") = config.DSN (db "p" "other dbname=panel") /\
  config.DSN (db "p w" "panel") = "host=db port=5432 user=u password=p w dbname=panel sslmode=disable TimeZone=UTC".
Proof. by vm_compute. Qed.
