(* ===== verification/Startup.v ===== *)
(** * Start and stop

    [cmd/server/main.go], [internal/database/postgres.go] and
    [internal/observability/tracing.go]: what the process does from its start to
    its end.  [os.Exit] ends it without the deferred calls; otherwise they run
    in the reverse order.  The lines of the log are left out. *)

From Stdlib Require Import ZArith Lia SpecFloat.
From S2P Require Import Prelude GoString GoTime GoError Effects Table Schema Metrics GoDuration Crypto Base64 Aes Encryption Agent AgentClient.
From S2P Require Import TaskPayload TaskService BackupService AuditService SettingRepo SettingService LoginLimiter RedisLimiter.
From S2P Require Import UserRepo AuthService AuthSystem Config ConfigProps.

Import LoginLimiter.memory.

Open Scope prog_scope.

(** ** The server *)

Section Startup.
Context {R : Type} `{JWT} `{Bcrypt} `{Viper}.

Inductive login_guard :=
| MemoryGuard (l : LoginAttemptLimiter)
| RedisGuard (l : @RedisLoginAttemptLimiter R).

(** [http.Server] with the services of [api.RouterDeps]. *)
Record Server := {
  sv_Addr : string;
  sv_ReadTimeout : Z;
  sv_WriteTimeout : Z;
  sv_TracingEnabled : bool;
  sv_TracingSvcName : string;
  sv_AgentClient : Client;
  sv_AuthService : AuthConfig;
  sv_AuditService : auditService;
  sv_TaskService : TaskServiceOptions;
  sv_BackupService : backupService;
  sv_LoginAttempts : login_guard
}.

(** What the [select] of [main] waits for. *)
Inductive waited :=
| ServerReturned             (* the server's error is nil *)
| ServerClosed               (* or http.ErrServerClosed *)
| ServerFailed (err : goerr)
| RootDone.

Inductive start_op :=
| StRand (o : rand_op)
| StLogger (appEnv : string)                                            (* logger.New *)
| StExporter (endpoint : string) (insecure : bool)                      (* otlptracegrpc.New *)
| StProvider (ratio : spec_float) (attributes : list (string * string)) (* otel.SetTracerProvider *)
| StGormOpen (dsn : string)
| StDB                                                                  (* db.DB() *)
| StPool (maxOpen maxIdle maxLifetime : Z)
| StSettings (o : setting_repo_op)
| StAuth (o : auth_op)
| StRunWorker (options : TaskWorkerOptions)                             (* go taskService.RunWorker *)
| StRedisClient (addr password : string) (db : Z)
| StPing (c : R)
| StRedisClose (c : R)
| StListen (s : Server)                                                 (* go server.ListenAndServe *)
| StWait
| StShutdown                                                            (* server.Shutdown *)
| StSQLClose
| StTracingShutdown
| StSync.                                                               (* zapLogger.Sync *)

Definition start_ans (o : start_op) : Type :=
  match o with
  | StRand o => rand_ans o
  | StLogger _ | StExporter _ _ | StGormOpen _ | StDB | StPing _ | StShutdown | StSQLClose | StTracingShutdown => res unit
  | StProvider _ _ | StPool _ _ _ | StRunWorker _ | StRedisClose _ | StListen _ | StSync => unit
  | StSettings o => setting_repo_ans o
  | StAuth o => auth_ans o
  | StRedisClient _ _ _ => R
  | StWait => waited
  end.

#[export] Instance rand_in_start : SubOp rand_ans start_ans := {| inj := StRand; proj o (a : start_ans (StRand o)) := a |}.
#[export] Instance auth_in_start : SubOp auth_ans start_ans := {| inj := StAuth; proj o (a : start_ans (StAuth o)) := a |}.

#[local] Abbreviation start A := (prog start_ans A).

(** ** [internal/database] *)

Definition NewPostgres (cfg : DatabaseConfig) : start (res unit) :=
  _ <-! (call (StGormOpen (config.DSN cfg)) : start (res unit)) ;;
  _ <-! (call StDB : start (res unit)) ;;
  (call (StPool (dbc_MaxOpenConns cfg) (dbc_MaxIdleConns cfg) (dbc_MaxLifetime cfg)) : start unit) ;;;
  Ret (Ok tt).

(** [database.Close]; the answer of the closing is the error of the pool or of
    the context, whichever comes first. *)
Definition Close_database : start (res unit) :=
  _ <-! (call StDB : start (res unit)) ;;
  call StSQLClose.

(** ** [internal/observability] *)

(** [true] when a provider was installed: the function returned then is its
    [Shutdown], otherwise one that does nothing. *)
Definition InitTracing (cfg : TracingConfig) (appEnv : string) : start (res bool) :=
  if negb (trc_Enabled cfg) then Ret (Ok false)
  else
    let endpoint := TrimSpace (trc_OTLPEndpoint cfg) in
    if (endpoint =? "")%string then
      Ret (Err (ErrNew "OTEL_EXPORTER_OTLP_ENDPOINT is required when OTEL_TRACING_ENABLED=true"))
    else
      exporter <- (call (StExporter endpoint (trc_Insecure cfg)) : start (res unit)) ;;
      match exporter with
      | Err err => Ret (Err (ErrWrapW "create otlp trace exporter" err))
      | Ok _ =>
        let serviceName := TrimSpace (trc_ServiceName cfg) in
        let serviceName := if (serviceName =? "")%string then "snowpanel-backend" else serviceName in
        let version := TrimSpace (trc_ServiceVersion cfg) in
        let resourceAttrs := [("service.name", serviceName); ("deployment.environment.name", TrimSpace appEnv)]
          ++ (if negb (version =? "")%string then [("service.version", version)] else []) in
        (call (StProvider (trc_SampleRatio cfg) resourceAttrs) : start unit) ;;;
        Ret (Ok true)
      end.

(** ** [main] *)

Definition validateEncryptedSettingsStartup (encryptor : option Encryptor) : start (option goerr) :=
  found <- (call (StSettings SHasEncrypted) : start (res bool)) ;;
  Ret match found with
      | Err err => Some (ErrWrapW "check encrypted settings" err)
      | Ok hasEncryptedSettings =>
        if hasEncryptedSettings && match encryptor with None => true | Some _ => false end
        then Some (ErrNew "SNOWPANEL_ENCRYPTION_KEY cannot be empty when encrypted settings exist")
        else None
      end.

(** How the process ends: [log.Fatalf] and [Logger.Fatal] exit with status 1. *)
Inductive exit := Fatal (message : string) (err : goerr) | Exited.

Definition memory_guard (c : Config) : LoginAttemptLimiter :=
  NewLoginAttemptLimiter (LoginMaxFailures (cfg_Auth c)) (LoginFailureWindow (cfg_Auth c)) (LoginLockDuration (cfg_Auth c)).

Definition redis_guard (c : Config) (redisClient : R) : @RedisLoginAttemptLimiter R :=
  NewRedisLoginAttemptLimiter (Some redisClient) (LoginMaxFailures (cfg_Auth c)) (LoginFailureWindow (cfg_Auth c))
    (LoginLockDuration (cfg_Auth c)) (LoginAttemptPrefix (cfg_Auth c)).

(** The limiter of the logins and the client that is to be closed. *)
Definition choose_guard (c : Config) : start (login_guard * option R) :=
  if (LoginAttemptStore (cfg_Auth c) =? "redis")%string then
    redisClient <- (call (StRedisClient (config.Address_redis (cfg_Redis c)) (rdc_Password (cfg_Redis c)) (rdc_DB (cfg_Redis c))) : start R) ;;
    pong <- (call (StPing redisClient) : start (res unit)) ;;
    match pong with
    | Err _ => (call (StRedisClose redisClient) : start unit) ;;; Ret (MemoryGuard (memory_guard c), None)
    | Ok _ => Ret (RedisGuard (redis_guard c redisClient), Some redisClient)
    end
  else Ret (MemoryGuard (memory_guard c), None).

Definition server_of (c : Config) (tracingEnabled : bool) (loginAttempts : login_guard) : Server := {|
  sv_Addr := config.Address_server (cfg_Server c);
  sv_ReadTimeout := sc_ReadTimeout (cfg_Server c);
  sv_WriteTimeout := sc_WriteTimeout (cfg_Server c);
  sv_TracingEnabled := tracingEnabled;
  sv_TracingSvcName := trc_ServiceName (cfg_Tracing c);
  sv_AgentClient := NewWithAuth (cfg_AgentTarget c) (cfg_AgentTimeout c) (agent_auth c);
  sv_AuthService := NewAuthService (cfg_Auth c);
  sv_AuditService := NewAuditServiceWithOptions (adc_RetentionDays (cfg_Audit c)) (adc_ExportMaxRows (cfg_Audit c));
  sv_TaskService := NewTaskServiceWithOptions (task_options c);
  sv_BackupService := NewBackupServiceWithOptions (bkc_RetentionDays (cfg_Backup c)) (bkc_LocalDir (cfg_Backup c));
  sv_LoginAttempts := loginAttempts
|}.

(** After the [select]: the end of [main] with its deferred calls. *)
Definition stop (redisClient : option R) (tracingProvider : bool) : start exit :=
  (call StShutdown : start (res unit)) ;;;
  Close_database ;;;
  match redisClient with Some redisClient => (call (StRedisClose redisClient) : start unit) | None => Ret tt end ;;;
  (if tracingProvider then (call StTracingShutdown : start (res unit)) else Ret (Ok tt)) ;;;
  (call StSync : start unit) ;;;
  Ret Exited.

(** From the choice of the limiter to the end. *)
Definition serve_until_stopped (c : Config) (tracingEnabled tracingProvider : bool) : start exit :=
  guard <- choose_guard c ;;
  let '(loginAttempts, redisClient) := (guard : login_guard * option R) in
  (call (StListen (server_of c tracingEnabled loginAttempts)) : start unit) ;;;
  w <- (call StWait : start waited) ;;
  match w with
  | ServerFailed err => Ret (Fatal "backend stopped unexpectedly" err)
  | ServerReturned | ServerClosed | RootDone => stop redisClient tracingProvider
  end.

Definition main : start exit :=
  cfg <- embed config.Load ;;
  match config.Validate cfg with
  | Some err => Ret (Fatal "invalid runtime config" err)
  | None =>
    logger <- (call (StLogger (cfg_AppEnv cfg)) : start (res unit)) ;;
    match logger with
    | Err err => Ret (Fatal "failed to initialize logger" err)
    | Ok _ =>
      tracing <- InitTracing (cfg_Tracing cfg) (cfg_AppEnv cfg) ;;
      let tracingEnabled := match tracing with Err _ => false | Ok _ => trc_Enabled (cfg_Tracing cfg) end in
      let tracingProvider := match tracing with Ok provider => provider | Err _ => false end in
      db <- NewPostgres (cfg_Database cfg) ;;
      match db with
      | Err err => Ret (Fatal "failed to connect postgres" err)
      | Ok _ =>
        match newSettingsEncryptor (cfg_Security cfg) with
        | Err err => Ret (Fatal "invalid settings encryption config" err)
        | Ok settingsEncryptor =>
          settings <- validateEncryptedSettingsStartup settingsEncryptor ;;
          match settings with
          | Some err => Ret (Fatal "invalid encrypted settings config" err)
          | None =>
            admin <- embed (EnsureDefaultAdmin (NewAuthService (cfg_Auth cfg))) ;;
            match admin with
            | Err err => Ret (Fatal "failed to ensure default admin" err)
            | Ok _ =>
              (if twc_Enabled (cfg_TaskWorker cfg) then (call (StRunWorker (worker_options cfg)) : start unit) else Ret tt) ;;;
              serve_until_stopped cfg tracingEnabled tracingProvider
            end
          end
        end
      end
    end
  end.

End Startup.
