(* ===== verification/StartupProps.v ===== *)
(** * A start that is refused, a stop that is clean *)

From Stdlib Require Import ZArith Lia SpecFloat.
From S2P Require Import Prelude GoString GoTime GoError Effects Table Schema Metrics GoDuration Crypto Base64 Aes Encryption Agent AgentClient.
From S2P Require Import TaskPayload TaskService BackupService AuditService SettingRepo SettingService LoginLimiter RedisLimiter.
From S2P Require Import UserRepo AuthService AuthSystem Config ConfigProps Startup.
Import LoginLimiter.memory.

Open Scope prog_scope.

(** ** Execution *)

Section Startup.
Context {R : Type} `{JWT} `{Bcrypt} `{Viper}.
#[local] Abbreviation start_op := (@start_op R).
#[local] Abbreviation start_ans := (@start_ans R).
Implicit Type o : start_op.

(** The users and the settings are tables; everything else answers by the step. *)
Record StartEnv := {
  ste_answer : nat -> forall o : start_op, start_ans o;
  ste_auth : AuthEnv;
  ste_settings : SettingEnv
}.

Record StartWorld := MkStart {
  stw_step : nat;
  stw_did : list start_op;
  stw_auth : AuthWorld;
  stw_settings : SettingWorld
}.

Context (env : StartEnv).

Definition start_handle (o : start_op) (w : StartWorld) : start_ans o * StartWorld :=
  let next x y := MkStart (S (stw_step w)) (stw_did w ++ [o]) x y in
  match o return (AuthWorld -> SettingWorld -> StartWorld) -> start_ans o * StartWorld with
  | StSettings o => fun next =>
    let '(a, x) := setting_handle (ste_settings env) (SRepo o) (stw_settings w) in (a, next (stw_auth w) x)
  | StAuth o => fun next => let '(a, x) := auth_handle (ste_auth env) o (stw_auth w) in (a, next x (stw_settings w))
  | o => fun next => (ste_answer env (stw_step w) o, next (stw_auth w) (stw_settings w))
  end next.

#[local] Abbreviation wps := (wp start_handle).

(** What a part of the run did, the settings being as before. *)
Definition adds (w : StartWorld) (did : list start_op) (w' : StartWorld) : Prop :=
  stw_did w' = stw_did w ++ did /\ sdb_rows (sw_db (stw_settings w')) = sdb_rows (sw_db (stw_settings w)).

Lemma adds_refl w : adds w [] w.
Proof. split; [by rewrite app_nil_r|done]. Qed.

Lemma adds_trans w1 w2 w3 l1 l2 : adds w1 l1 w2 -> adds w2 l2 w3 -> adds w1 (l1 ++ l2) w3.
Proof. intros [E1 E2] [E3 E4]. split; [by rewrite E3, E1, app_assoc|by rewrite E4]. Qed.

Definition reads (o : start_op) : Prop := match o with StSettings (SUpsert _) => False | _ => True end.

Lemma handle_adds o w : reads o -> adds w [o] (start_handle o w).2.
Proof.
  intros Hr. destruct o; try done.
  - cbn [start_handle]. destruct o; try done; cbn [setting_handle]; unfold exec_setting_repo; cbn [setting_repo_exec];
      by destruct (se_db _ _).
  - cbn [start_handle]. by destruct (auth_handle _ _ _).
Qed.

(** What a program does while the settings are [rows]: its answer and its
    operations. *)
Section Trace.
Context (rows : list SystemSetting).

Definition tr {A} (p : prog start_ans A) (Q : A -> list start_op -> Prop) : Prop :=
  forall w, sdb_rows (sw_db (stw_settings w)) = rows ->
    exists did, adds w did (run start_handle p w).2 /\ Q (run start_handle p w).1 did.

Lemma tr_ret {A} (x : A) (Q : A -> list start_op -> Prop) : Q x [] -> tr (Ret x) Q.
Proof. intros HQ w _. exists []. split; [apply adds_refl|done]. Qed.

Lemma tr_bind {A B} (p : prog start_ans A) (f : A -> prog start_ans B) Q Q' :
  tr p Q' -> (forall x did, Q' x did -> tr (f x) (fun y did' => Q y (did ++ did'))) -> tr (bind p f) Q.
Proof.
  intros Hp Hf w Hw. destruct (Hp w Hw) as (did & Hd & HQ'). rewrite run_bind. destruct (run start_handle p w) as [x w1].
  cbn [fst snd] in *. destruct (Hf x did HQ' w1) as (did' & Hd' & HQ); [by rewrite (proj2 Hd)|].
  exists (did ++ did'). split; [by eapply adds_trans|done].
Qed.

Lemma tr_mono {A} (p : prog start_ans A) (Q Q' : A -> list start_op -> Prop) : tr p Q' -> (forall x did, Q' x did -> Q x did) -> tr p Q.
Proof. intros Hp HQ w Hw. destruct (Hp w Hw) as (did & Hd & Hq). exists did. auto. Qed.

(** One operation, its answer being one the world gives. *)
Lemma tr_step_at {B} o (f : start_ans o -> prog start_ans B) (Q : B -> list start_op -> Prop) : reads o ->
  (forall w, sdb_rows (sw_db (stw_settings w)) = rows -> tr (f (start_handle o w).1) (fun y did => Q y (o :: did))) ->
  tr (bind (call o) f) Q.
Proof.
  intros Hr Hf w Hw. pose proof (handle_adds o w Hr) as Ho. specialize (Hf w Hw). unfold call. cbn [bind run].
  destruct (start_handle o w) as [a w1]. cbn [fst snd] in *. destruct (Hf w1) as (did & Hd & HQ); [by rewrite (proj2 Ho)|].
  exists (o :: did). split; [by apply (adds_trans _ _ _ [o] did Ho)|done].
Qed.

Lemma tr_step {B} o (f : start_ans o -> prog start_ans B) (Q : B -> list start_op -> Prop) : reads o ->
  (forall a, tr (f a) (fun y did => Q y (o :: did))) -> tr (bind (call o) f) Q.
Proof. intros Hr Hf. apply tr_step_at; auto. Qed.

(** A program all of whose operations are among [P]. *)
Lemma tr_all (P : start_op -> Prop) {A} (p : prog start_ans A) (T : A -> Prop) : (forall o, P o -> reads o) ->
  all_ops P p -> results T p -> tr p (fun x did => T x /\ Forall P did).
Proof.
  intros HP. induction p as [x|o k IH]; cbn [all_ops results].
  - intros _ HT. apply tr_ret. by split.
  - intros [Ho Hk] HT. apply (tr_step o k); [auto|].
    intros a. eapply tr_mono; [apply IH; [apply Hk|apply HT]|]. intros x did [Hx Hf]. split; [done|]. by constructor.
Qed.

End Trace.

(** ** What can be seen of a run *)

Definition is_listen (o : start_op) : bool := match o with StListen _ => true | _ => false end.
Definition is_worker (o : start_op) : bool := match o with StRunWorker _ => true | _ => false end.
Definition is_provider (o : start_op) : bool := match o with StProvider _ _ => true | _ => false end.
Definition is_tracing_stop (o : start_op) : bool := match o with StTracingShutdown => true | _ => false end.
Definition is_redis_client (o : start_op) : bool := match o with StRedisClient _ _ _ => true | _ => false end.
Definition is_redis_close (o : start_op) : bool := match o with StRedisClose _ => true | _ => false end.

Definition kinds : list (start_op -> bool) := [is_listen; is_worker; is_provider; is_tracing_stop; is_redis_client; is_redis_close].

(** How many of each kind. *)
Definition tallies (did : list start_op) : list nat := map (fun p => length (List.filter p did)) kinds.

Lemma tallies_app l1 l2 : tallies (l1 ++ l2) = zip_with Nat.add (tallies l1) (tallies l2).
Proof. unfold tallies. cbn [kinds map zip_with]. by rewrite !List.filter_app, !length_app. Qed.

(** An operation of none of these kinds. *)
Definition plain_op (o : start_op) : Prop := reads o /\ existsb (fun p => p o) kinds = false.

Lemma plain_access o : plain_op o -> reads o.
Proof. by intros [? _]. Qed.

Lemma plain_tallies did : Forall plain_op did -> tallies did = [0; 0; 0; 0; 0; 0]%nat.
Proof.
  induction 1 as [|o did [_ Ho] _ IH]; [done|]. change (o :: did) with ([o] ++ did). rewrite tallies_app, IH. clear IH.
  unfold tallies, kinds in *. cbn [map existsb List.filter] in *. rewrite !orb_false_iff in Ho.
  destruct Ho as (-> & -> & -> & -> & -> & -> & _). done.
Qed.

(** ** The stages *)

Lemma count_existsb {A} (p : A -> bool) l : (0 <? count_where p l) = existsb p l.
Proof.
  unfold count_where, select_where. induction l as [|x l IH]; cbn [List.filter existsb]; [done|].
  destruct (p x); [|exact IH]. cbn [length]. apply Z.ltb_lt. lia.
Qed.

#[local] Abbreviation none := [0; 0; 0; 0; 0; 0]%nat.

Lemma all_ops_embed {op1 ans1} `{SubOp op1 ans1 start_op start_ans} (P : start_op -> Prop) {A} (p : prog ans1 A) :
  (forall o : op1, P (inj (ans1 := ans1) (ans2 := start_ans) o)) -> all_ops P (embed p).
Proof. intros HP. induction p as [x|o k IH]; cbn [embed all_ops]; auto. Qed.

Lemma results_embed {op1 ans1} `{SubOp op1 ans1 start_op start_ans} {A} (Q : A -> Prop) (p : prog ans1 A) :
  results Q p -> results Q (embed p).
Proof. induction p as [x|o k IH]; cbn [embed results]; auto. Qed.

Section Stages.
Context (rows : list SystemSetting).
#[local] Abbreviation trs := (tr rows).

Lemma Load_tr : trs (embed config.Load) (fun c did => (config.Validate c = None -> as_written c) /\ tallies did = none).
Proof.
  eapply tr_mono; [eapply (tr_all rows plain_op); [apply plain_access|by apply all_ops_embed|apply results_embed, Load_read]|].
  cbn beta. intros c did [(appEnv & secret & ->) Hd].
  split; [intros Hv; by apply with_secret_as_written, Validate_spec|by apply plain_tallies].
Qed.

Lemma EnsureDefaultAdmin_tr cfg : trs (embed (EnsureDefaultAdmin cfg)) (fun _ did => tallies did = none).
Proof.
  eapply tr_mono; [eapply (tr_all rows plain_op); [apply plain_access|by apply all_ops_embed|apply results_any]|].
  intros r did [_ Hd]. by apply plain_tallies.
Qed.

Lemma NewPostgres_tr cfg : trs (NewPostgres cfg) (fun _ did => tallies did = none).
Proof.
  unfold NewPostgres, bind_ok. apply (tr_step rows (StGormOpen _)); [done|]. intros [[]|err]; [|by apply tr_ret].
  apply (tr_step rows StDB); [done|]. intros [[]|err]; [|by apply tr_ret].
  apply (tr_step rows (StPool _ _ _)); [done|]. intros _. by apply tr_ret.
Qed.

Lemma InitTracing_tr cfg appEnv : trs (InitTracing cfg appEnv)
  (fun r did => tallies did = [0; 0; match r with Ok true => 1 | _ => 0 end; 0; 0; 0]%nat).
Proof.
  unfold InitTracing. destruct (negb _); [by apply tr_ret|]. cbv zeta. destruct (_ =? "")%string; [by apply tr_ret|].
  apply (tr_step rows (StExporter _ _)); [done|]. intros [[]|err]; [|by apply tr_ret].
  apply (tr_step rows (StProvider _ _)); [done|]. intros _. by apply tr_ret.
Qed.

Lemma validate_tr encryptor : trs (validateEncryptedSettingsStartup encryptor)
  (fun r did => tallies did = none /\ (r = None -> existsb ss_IsEncrypted rows = true -> encryptor <> None)).
Proof.
  unfold validateEncryptedSettingsStartup.
  apply (tr_step_at rows (StSettings SHasEncrypted)); [done|]. intros w Hw. apply tr_ret. split; [done|].
  cbn [start_handle setting_handle]. unfold exec_setting_repo. cbn [setting_repo_exec].
  unfold setting_repository.HasEncryptedSettings. rewrite Hw. destruct (se_db _ _); cbn [fst setting_repo_err]; [|done..].
  rewrite count_existsb. destruct (existsb _ rows); [|done]. by destruct encryptor.
Qed.

(** The guard of the logins is the configured one. *)
Definition guard_as (c : Config) (g : @login_guard R) : Prop :=
  match g with
  | MemoryGuard l => l = memory_guard c
  | RedisGuard l => LoginAttemptStore (cfg_Auth c) = "redis" /\ exists redisClient, l = redis_guard c redisClient
  end.

(** What was started is what [c] says. *)
Definition started (c : Config) (did : list start_op) : Prop :=
  Forall (fun o => match o with
    | StListen s => exists tracing g, s = server_of c tracing g /\ guard_as c g
    | StRunWorker options => options = worker_options c
    | _ => True
    end) did.

Lemma tallies_started c did l : tallies did = (0 :: 0 :: l)%nat -> started c did.
Proof.
  unfold started. revert l. induction did as [|o did IH]; intros l Hd; [by constructor|].
  change (o :: did) with ([o] ++ did) in Hd. rewrite tallies_app in Hd. unfold tallies, kinds in Hd. cbn [map zip_with] in Hd.
  injection Hd as El Ew Hl. constructor; [by destruct o|].
  eapply (IH (map (fun p => length (List.filter p did)) [is_provider; is_tracing_stop; is_redis_client; is_redis_close])).
  unfold tallies, kinds. cbn [map]. repeat f_equal; lia.
Qed.

Lemma choose_tr c : trs (choose_guard c) (fun x did => guard_as c x.1 /\ exists closed,
  tallies did = [0; 0; 0; 0; closed + (if x.2 is Some _ then 1 else 0); closed]%nat).
Proof.
  unfold choose_guard. destruct (String.eqb_spec (LoginAttemptStore (cfg_Auth c)) "redis") as [E|_].
  - apply (tr_step rows (StRedisClient _ _ _)); [done|]. intros redisClient.
    apply (tr_step rows (StPing _)); [done|]. intros [[]|err].
    + apply tr_ret. split; [split; [done|by exists redisClient]|by exists 0%nat].
    + apply (tr_step rows (StRedisClose _)); [done|]. intros _. apply tr_ret. split; [done|by exists 1%nat].
  - apply tr_ret. split; [done|by exists 0%nat].
Qed.

Definition stopped (r : exit) (did : list start_op) (provider : bool) : Prop :=
  match r with
  | Fatal message _ => message = "backend stopped unexpectedly"
  | Exited => exists n, tallies did = [1; 0; 0; if provider then 1 else 0; n; n]%nat
  end.

Lemma Close_tr : trs Close_database (fun _ did => tallies did = none).
Proof.
  apply (tr_step rows StDB); [done|]. intros [[]|err]; [|by apply tr_ret].
  apply (tr_step rows StSQLClose (fun x => Ret x)); [done|]. intros x. by apply tr_ret.
Qed.

Lemma stop_tr redisClient provider : trs (stop redisClient provider) (fun r did => r = Exited /\
  tallies did = [0; 0; 0; if provider then 1 else 0; 0; if redisClient is Some _ then 1 else 0]%nat).
Proof.
  unfold stop. apply (tr_step rows StShutdown); [done|]. intros _. eapply tr_bind; [apply Close_tr|].
  cbn beta. intros _ did1 Hd1. eapply (tr_bind _ _ _ _ (fun _ did => tallies did = [0; 0; 0; 0; 0; if redisClient is Some _ then 1 else 0]%nat)).
  { destruct redisClient; [apply (tr_step rows (StRedisClose _) (fun x => Ret x)); [done|]; intros []|]; by apply tr_ret. }
  intros _ did2 Hd2. eapply (tr_bind _ _ _ _ (fun _ did => tallies did = [0; 0; 0; if provider then 1 else 0; 0; 0]%nat)).
  { destruct provider; [apply (tr_step rows StTracingShutdown (fun x => Ret x)); [done|]; intros x|]; by apply tr_ret. }
  intros _ did3 Hd3. apply (tr_step rows StSync); [done|]. intros _. apply tr_ret. split; [done|].
  change (StShutdown :: ?l) with ([StShutdown] ++ l). rewrite !tallies_app, Hd1, Hd2, Hd3. by destruct provider, redisClient.
Qed.

Lemma serve_tr c tracing provider : trs (serve_until_stopped c tracing provider) (fun r did =>
  started c did /\ stopped r did provider /\ exists l, tallies did = (1 :: 0 :: 0 :: l)%nat).
Proof.
  unfold serve_until_stopped. eapply tr_bind; [apply choose_tr|]. intros [g redisClient] did (Hg & closed & Hd).
  cbn [fst snd] in Hg, Hd. pose proof (tallies_started c did _ Hd) as Hs.
  apply (tr_step rows (StListen _)); [done|]. intros _.
  assert (Hall : forall l, started c l -> started c (did ++ StListen (server_of c tracing g) :: l)).
  { intros l Hl. apply Forall_app. split; [done|]. constructor; [|exact Hl]. by exists tracing, g. }
  apply (tr_step rows StWait); [done|]. intros waited.
  assert (Hstop : trs (stop redisClient provider) (fun r did => r = Exited /\
    tallies did = [0; 0; 0; if provider then 1 else 0; 0; if redisClient is Some _ then 1 else 0]%nat)) by apply stop_tr.
  assert (Hend : trs (stop redisClient provider) (fun r did' =>
    let all := did ++ StListen (server_of c tracing g) :: StWait :: did' in
    started c all /\ stopped r all provider /\ exists l, tallies all = (1 :: 0 :: 0 :: l)%nat)).
  { eapply tr_mono; [exact Hstop|]. cbn beta. intros r did' [-> Hd'].
    assert (Ht : tallies (did ++ [StListen (server_of c tracing g)] ++ [StWait] ++ did')
      = [1; 0; 0; if provider then 1 else 0; closed + (if redisClient is Some _ then 1 else 0); closed + (if redisClient is Some _ then 1 else 0)]%nat).
    { rewrite !tallies_app, Hd, Hd'. cbn. by rewrite ?Nat.add_0_r. }
    split; [apply Hall; constructor; [done|by eapply tallies_started]|]. split; [|by eexists].
    by eexists. }
  destruct waited as [| |err|]; [exact Hend..| |exact Hend].
  apply tr_ret. split; [apply Hall; by repeat constructor|]. split; [done|].
  eexists. change [StListen ?x; StWait] with ([StListen x] ++ [StWait]). rewrite !tallies_app, Hd. reflexivity.
Qed.

(** Everything is checked before anything is started. *)
Definition checked (c : Config) : Prop :=
  config.Validate c = None /\ as_written c /\
  (existsb ss_IsEncrypted rows = true -> exists e, newSettingsEncryptor (cfg_Security c) = Ok (Some e)).

Definition main_post (r : exit) (did : list start_op) : Prop :=
  (exists message err, r = Fatal message err) /\ (exists l, tallies did = (0 :: 0 :: l)%nat) \/
  exists c provider n, checked c /\ started c did /\
    (exists l, tallies did = (1 :: (if twc_Enabled (cfg_TaskWorker c) then 1 else 0) :: n :: l)%nat) /\
    n = (if provider : bool then 1%nat else 0%nat) /\
    match r with
    | Fatal message _ => message = "backend stopped unexpectedly"
    | Exited => exists closed, tallies did = [1; if twc_Enabled (cfg_TaskWorker c) then 1 else 0; n; n; closed; closed]%nat
    end.

Definition front (k : nat) (pre : list start_op) : Prop := tallies pre = [0; 0; k; 0; 0; 0]%nat.

(** A part that starts nothing, in front of the rest. *)
Lemma front_bind {A} (p : prog start_ans A) (f : A -> prog start_ans exit) pre k (T : A -> nat -> Prop) : front k pre ->
  trs p (fun x did => exists k', T x k' /\ front k' did) ->
  (forall x k' pre', T x k' -> front (k + k') pre' -> trs (f x) (fun r did => main_post r (pre' ++ did))) ->
  trs (bind p f) (fun r did => main_post r (pre ++ did)).
Proof.
  intros Hpre Hp Hf. eapply tr_bind; [exact Hp|]. cbn beta. intros x did (k' & HT & Hd).
  eapply tr_mono; [apply (Hf x k' (pre ++ did) HT); unfold front in *; by rewrite tallies_app, Hpre, Hd|].
  intros r did'. by rewrite app_assoc.
Qed.

Lemma front_fatal pre k message err : front k pre -> trs (Ret (Fatal message err)) (fun r did => main_post r (pre ++ did)).
Proof. intros Hpre. apply tr_ret. left. rewrite app_nil_r. split; [by do 2 eexists|by eexists]. Qed.

Lemma main_tr : trs main main_post.
Proof.
  unfold main.
  eapply (front_bind _ _ [] 0 (fun c k => k = 0%nat /\ (config.Validate c = None -> as_written c))); [done| |].
  { eapply tr_mono; [apply Load_tr|]. cbn beta. intros c did [Hc Hd]. exists 0%nat. done. }
  intros c k pre [-> Hc] Hpre. destruct (config.Validate c) as [err|] eqn:Ev; [by eapply front_fatal|]. specialize (Hc eq_refl).
  eapply (front_bind _ _ pre _ (fun _ k => k = 0%nat)); [exact Hpre| |].
  { apply (tr_step rows (StLogger _) (fun x => Ret x)); [done|]. intros x. apply tr_ret. by exists 0%nat. }
  clear pre Hpre. intros [[]|err] k pre -> Hpre; [|by eapply front_fatal].
  eapply (front_bind _ _ pre _ (fun r k => k = match r with Ok true => 1 | _ => 0 end)%nat); [exact Hpre| |].
  { eapply tr_mono; [apply InitTracing_tr|]. cbn beta. intros x did Hd. by eexists. }
  clear pre Hpre. intros tracing k pre Hk Hpre. cbv zeta.
  eapply (front_bind _ _ pre _ (fun _ k => k = 0%nat)); [exact Hpre| |].
  { eapply tr_mono; [apply NewPostgres_tr|]. cbn beta. intros x did Hd. by exists 0%nat. }
  clear pre Hpre. intros [[]|err] k' pre -> Hpre; [|by eapply front_fatal].
  destruct (newSettingsEncryptor (cfg_Security c)) as [s|err] eqn:Es; [|by eapply front_fatal].
  eapply (front_bind _ _ pre _ (fun r k => k = 0%nat /\ (r = None -> existsb ss_IsEncrypted rows = true -> s <> None))); [exact Hpre| |].
  { eapply tr_mono; [apply validate_tr|]. cbn beta. intros r did [Hd Hr]. by exists 0%nat. }
  clear pre Hpre. intros r k' pre [-> Hr] Hpre. destruct r as [err|]; [by eapply front_fatal|]. specialize (Hr eq_refl).
  assert (Hchecked : checked c).
  { split; [done|]. split; [done|]. intros He. specialize (Hr He). rewrite Es. destruct s as [e|]; [by exists e|done]. }
  eapply (front_bind _ _ pre _ (fun _ k => k = 0%nat)); [exact Hpre| |].
  { eapply tr_mono; [apply EnsureDefaultAdmin_tr|]. cbn beta. intros x did Hd. by exists 0%nat. }
  clear pre Hpre. intros [[]|err] k' pre -> Hpre; [|by eapply front_fatal].
  set (te := match tracing with Ok _ => _ | Err _ => _ end). set (tp := match tracing with Ok provider => provider | Err _ => false end).
  assert (Ek : k = if tp then 1%nat else 0%nat) by (by rewrite Hk; destruct tracing as [[]|]).
  eapply (tr_bind _ _ _ _ (fun _ did => started c did /\ tallies did = [0; if twc_Enabled (cfg_TaskWorker c) then 1 else 0; 0; 0; 0; 0]%nat)).
  { destruct (twc_Enabled _); [|by apply tr_ret; split; [constructor|]].
    apply (tr_step rows (StRunWorker _) (fun x => Ret x)); [done|]. intros []. apply tr_ret. split; [by repeat constructor|done]. }
  intros _ did1 [Hs1 Hd1]. eapply tr_mono; [apply serve_tr|]. cbn beta. intros x did2 (Hs2 & Hstop & l & Hd2). right.
  exists c, tp, k. split; [exact Hchecked|]. unfold front in Hpre. rewrite !Nat.add_0_r in Hpre. cbn [Nat.add] in Hpre.
  split; [apply Forall_app; split; [by eapply tallies_started|by apply Forall_app]|].
  assert (Ht : tallies (pre ++ did1 ++ did2) = zip_with Nat.add [0; if twc_Enabled (cfg_TaskWorker c) then 1 else 0; k; 0; 0; 0]%nat (tallies did2)).
  { rewrite !tallies_app, Hpre, Hd1. unfold tallies, kinds. cbn [map zip_with]. by rewrite ?Nat.add_0_r. }
  split; [rewrite Ht, Hd2; cbn [zip_with]; rewrite ?Nat.add_0_r; by eexists|]. split; [exact Ek|].
  unfold stopped in Hstop. destruct x as [message err|]; [exact Hstop|]. destruct Hstop as (n & Hn). exists n.
  rewrite Ht, Hn. cbn [zip_with]. by rewrite ?Nat.add_0_r, Ek.
Qed.

End Stages.


End Startup.
