(* ===== verification/StartupExamples.v ===== *)
(** * Three starts

    A production configuration with a database, the same with an encrypted
    setting and no key, and with a Redis server that does not answer. *)

From Stdlib Require Import ZArith Lia SpecFloat.
From S2P Require Import Prelude GoString GoTime GoError Effects Table Schema Metrics Encryption TaskPayload TaskService.
From S2P Require Import SettingRepo SettingService LoginLimiter RedisLimiter UserRepo AuthService AuthSystem AuthProps AuthExamples.
From S2P Require Import Config ConfigProps SettingProps Startup StartupProps.

Section Example_.
Context (values : list (string * setting_default)) (pong : res unit).
#[local] Instance viper : Viper := with_values values.

Definition answer (n : nat) (o : @start_op unit) : start_ans o :=
  match o with
  | StRand (ReadRandom k) => Ok (replicate (Z.to_nat k) 7)
  | StSettings o => setting_repo_err o ErrEOF
  | StAuth o =>
    match o with
    | Users o => Err ErrEOF
    | ANow => 0
    | RandRead n => Err ErrEOF
    | GenerateFromPassword pw => Err ErrEOF
    | Printf _ => tt
    end
  | StPing _ => pong
  | StWait => RootDone
  | StRedisClient _ _ _ | StProvider _ _ | StPool _ _ _ | StRunWorker _ | StRedisClose _ | StListen _ | StSync => tt
  | StLogger _ | StExporter _ _ | StGormOpen _ | StDB | StShutdown | StSQLClose | StTracingShutdown => Ok tt
  end.

Definition start_world (rows : list SystemSetting) : @StartWorld unit :=
  MkStart 0 [] {| aw_step := 0; aw_db := empty_UserDB; aw_log := [] |} (MkSettingWorld 0 {| sdb_rows := rows; sdb_next := 9 |}).

Definition start_env : @StartEnv unit :=
  {| ste_answer := answer; ste_auth := env0; ste_settings := Settings.env |}.

Definition start (rows : list SystemSetting) : exit * list (@start_op unit) :=
  let out := run (start_handle start_env) main (start_world rows) in (out.1, stw_did out.2).
End Example_.

(** The operations by their numbers. *)
Definition op_code (o : @start_op unit) : Z :=
  match o with
  | StRand _ => 1 | StLogger _ => 2 | StExporter _ _ => 3 | StProvider _ _ => 4 | StGormOpen _ => 5 | StDB => 6 | StPool _ _ _ => 7
  | StSettings _ => 8 | StAuth _ => 9 | StRunWorker _ => 10 | StRedisClient _ _ _ => 11 | StPing _ => 12 | StRedisClose _ => 13
  | StListen _ => 14 | StWait => 15 | StShutdown => 16 | StSQLClose => 17 | StTracingShutdown => 18 | StSync => 19
  end.

Definition without (k : string) (l : list (string * setting_default)) := List.filter (fun d => negb (d.1 =? k)%string) l.
Definition encrypted : list SystemSetting := [MkSystemSetting 1 "mail.password" "{}" "string" true "" None 0 0].
Definition not_auth (l : list (@start_op unit)) : list Z := List.filter (fun c => negb (c =? 9)) (map op_code l).

Example served : let out := start production_values (Ok tt) encrypted in
  out.1 = Exited /\ not_auth out.2 = [2; 5; 6; 7; 8; 10; 14; 15; 16; 6; 17; 19].
Proof. by vm_compute. Qed.

Example no_key : let out := start (without "SNOWPANEL_ENCRYPTION_KEY" production_values) (Ok tt) encrypted in
  out.1 = Fatal "invalid encrypted settings config"
    (ErrNew "SNOWPANEL_ENCRYPTION_KEY cannot be empty when encrypted settings exist") /\
  map op_code out.2 = [2; 5; 6; 7; 8].
Proof. by vm_compute. Qed.

(** The client of the server that does not answer is closed, logins are counted
    in memory. *)
Example redis_down : let out := start (("LOGIN_ATTEMPT_STORE", DStr "Redis") :: ("TASK_WORKER_ENABLED", DBool false) :: production_values) (Err ErrEOF) [] in
  out.1 = Exited /\ not_auth out.2 = [2; 5; 6; 7; 8; 11; 12; 13; 14; 15; 16; 6; 17; 19].
Proof. by vm_compute. Qed.

Example redis_up : let out := start (("LOGIN_ATTEMPT_STORE", DStr "Redis") :: ("TASK_WORKER_ENABLED", DBool false) :: production_values) (Ok tt) [] in
  out.1 = Exited /\ not_auth out.2 = [2; 5; 6; 7; 8; 11; 12; 14; 15; 16; 6; 17; 13; 19].
Proof. by vm_compute. Qed.
