(* ===== verification/Http.v ===== *)
(** * The HTTP layer

    Requests, responses and the chain of handlers in front of every route:
    [internal/api/router.go], [internal/api/response/response.go] and
    [internal/middleware].  A request is what the code reads of a [gin.Context];
    the matching of paths is gin's and is the class [Gin]. *)

From Stdlib Require Import ZArith.
From S2P Require Import Prelude GoString GoError Effects Json UserRepo AuthService.

(** ** Requests and responses *)

Record request := {
  rq_Method : string;
  rq_Path : string;
  rq_RawQuery : string;
  rq_Body : string;
  rq_Header : string -> string;
  rq_ClientIP : string
}.

Inductive body :=
| NoBody
| JsonBody (j : json)
| Streamed (headers : list (string * string)).   (* what the handler wrote to the writer *)

Record response := MkResponse { rs_Status : Z; rs_Body : body }.

(** [response.Envelope] as JSON, its members in the order of the struct. *)
Definition envelope (code : Z) (message : string) (data : json) : json :=
  JObj [("code", JInt code); ("message", JStr message); ("data", data)].

(** A [gin.H] of the middleware: the members of a map in sorted order. *)
Definition gin_H (code : Z) (message : string) (data : json) : json :=
  JObj [("code", JInt code); ("data", data); ("message", JStr message)].

Definition OK (data : json) : response := MkResponse 200 (JsonBody (envelope 0 "ok" data)).

Definition Fail (httpStatus code : Z) (message : string) : response :=
  MkResponse httpStatus (JsonBody (envelope code message (JObj []))).

Definition FromError (err : goerr) : response :=
  match As err with
  | None => Fail 500 (app_code ErrInternal) (Error ErrInternal)
  | Some appErr => Fail (ae_HTTPStatus appErr) (ae_Code appErr) (ae_Message appErr)
  end.

(** ** The values of a [gin.Context] *)

Record ginctx := {
  cx_UserID : option Z;
  cx_Username : option string;
  cx_Roles : option (list string);
  cx_Permissions : option (list string);
  cx_MustChangePassword : option bool;
  cx_RequestID : string;
  cx_TraceID : option string
}.

Definition with_claims (claims : TokenClaims) (c : ginctx) : ginctx :=
  {| cx_UserID := Some (tc_UserID claims); cx_Username := Some (tc_Username claims);
     cx_Roles := Some (tc_Roles claims); cx_Permissions := Some (tc_Permissions claims);
     cx_MustChangePassword := Some (tc_MustChangePassword claims);
     cx_RequestID := cx_RequestID c; cx_TraceID := cx_TraceID c |}.

(** ** Middleware *)

(** [RequestID]: the header, or a fresh identifier. *)
Definition RequestID (req : request) (uuid : string) : string :=
  let requestID := rq_Header req "X-Request-ID" in
  if (requestID =? "")%string then uuid else requestID.

Definition start_context (req : request) (uuid : string) (trace : option string) : ginctx :=
  {| cx_UserID := None; cx_Username := None; cx_Roles := None; cx_Permissions := None;
     cx_MustChangePassword := None; cx_RequestID := RequestID req uuid; cx_TraceID := trace |}.

(** What the context holds, a zero value and [false] without it being [None]. *)
Definition GetCurrentUserID (c : ginctx) : option Z := cx_UserID c.
Definition GetCurrentUsername (c : ginctx) : option string := cx_Username c.
Definition GetCurrentPermissions (c : ginctx) : option (list string) := cx_Permissions c.

(** [CORS]: the headers it sets, and whether it answers the request. *)
Definition CORS (req : request) : list (string * string) * bool :=
  let origin := TrimSpace (rq_Header req "Origin") in
  let requestHeaders := TrimSpace (rq_Header req "Access-Control-Request-Headers") in
  (if (origin =? "")%string then []
   else [("Access-Control-Allow-Origin", origin);
         ("Access-Control-Allow-Methods", "GET, POST, PUT, PATCH, DELETE, OPTIONS");
         ("Access-Control-Expose-Headers", "X-Request-Id"); ("Access-Control-Max-Age", "600");
         ("Access-Control-Allow-Headers",
           if (requestHeaders =? "")%string then "Authorization, Content-Type, X-Requested-With, X-Request-Id"
           else requestHeaders);
         ("Vary", if (requestHeaders =? "")%string then "Origin" else "Origin, Access-Control-Request-Headers")],
   (rq_Method req =? "OPTIONS")%string).

(** [c.AbortWithStatusJSON] with a sentinel of [apperror]. *)
Definition abort_with (status : Z) (sentinel : goerr) (data : json) : response :=
  MkResponse status (JsonBody (gin_H (app_code sentinel)
    (match As sentinel with Some a => ae_Message a | None => "" end) data)).

Definition isPasswordChangeAllowedPath (path : string) : bool :=
  ((path =? "/api/v1/auth/me") || (path =? "/api/v1/auth/change-password") || (path =? "/api/v1/auth/logout"))%string.

(** The end of a chain of handlers: an answer, or the next handler's context. *)
Definition chain : Type := (response + ginctx)%type.

Definition prefix : string := "Bearer ".

(** The token of the header. *)
Definition bearer (req : request) : option string :=
  let authHeader := rq_Header req "Authorization" in
  if (authHeader =? "")%string then None
  else if negb (HasPrefix authHeader prefix) then None
  else Some (TrimSpace (TrimPrefix authHeader prefix)).

Section JWTAuth.
Context `{JWT} (cfg : AuthConfig).
#[local] Open Scope prog_scope.

Definition JWTAuth (req : request) (c : ginctx) : auth chain :=
  match bearer req with
  | None => Ret (inl (abort_with 401 ErrUnauthorized (JObj [])))
  | Some token =>
    parsed <- ParseToken cfg token ;;
    match parsed with
    | Err _ => Ret (inl (abort_with 401 ErrTokenParse (JObj [])))
    | Ok claims =>
      valid <- ValidateSession claims ;;
      match valid with
      | Err err =>
        let appErr := match As err with Some _ => err | None => ErrTokenParse end in
        Ret (inl (abort_with (http_status appErr) appErr (JObj [])))
      | Ok _ =>
        if tc_MustChangePassword claims && negb (isPasswordChangeAllowedPath (rq_Path req))
        then Ret (inl (abort_with 403 ErrPasswordChangeNeed (JObj [])))
        else Ret (inr (with_claims claims c))
      end
    end
  end.
End JWTAuth.

Definition RequirePermission (permission : string) (c : ginctx) : chain :=
  let refused := abort_with 403 ErrPermissionDenied (JObj [("required_permission", JStr permission)]) in
  match GetCurrentPermissions c with
  | None => inl refused
  | Some permissions => if existsb (String.eqb permission) permissions then inr c else inl refused
  end.

(** ** Routes *)

(** The handlers, by the name of their method. *)
Inductive handler_id :=
| hHealth | hReadiness | hMetrics | hPing
| hLogin | hRefresh | hMe | hLogout | hChangePassword | hSummary
| hListFiles | hDownloadFile | hUploadFile | hReadTextFile | hWriteTextFile | hRenameFile | hCreateDirectory | hDeleteFile
| hListServices | hStartService | hStopService | hRestartService
| hListContainers | hStartContainer | hStopContainer | hRestartContainer | hListImages
| hCronList | hCronCreate | hCronUpdate | hCronDelete | hCronEnable | hCronDisable
| hListLogs | hExportLogs | hAuditCleanup
| hListTasks | hGetTaskDetail | hCreateDockerRestartTask | hCreateServiceRestartTask | hCancelTask | hRetryTask
| hListBackups | hCreateBackup | hCreateBackupTask | hBackupCleanup | hVerifyBackup | hVerifyBackupTask.

Record route := MkRoute {
  rt_Method : string;
  rt_Path : string;
  rt_Session : bool;
  rt_Permission : option string;
  rt_Handler : handler_id
}.

Definition open_route (method path : string) (h : handler_id) : route := MkRoute method path false None h.

(** The group [protected]. *)
Definition session_route (method path : string) (h : handler_id) : route :=
  MkRoute method ("/api/v1" +:+ path)%string true None h.

Definition guarded_route (method path permission : string) (h : handler_id) : route :=
  MkRoute method ("/api/v1" +:+ path)%string true (Some permission) h.

Definition routes : list route :=
  [open_route "GET" "/health" hHealth; open_route "GET" "/ready" hReadiness; open_route "GET" "/metrics" hMetrics;
   open_route "GET" "/api/v1/ping" hPing;
   open_route "POST" "/api/v1/auth/login" hLogin;
   open_route "POST" "/api/v1/auth/refresh" hRefresh;
   session_route "GET" "/auth/me" hMe;
   session_route "POST" "/auth/logout" hLogout;
   session_route "POST" "/auth/change-password" hChangePassword;
   session_route "GET" "/dashboard/summary" hSummary;
   guarded_route "GET" "/files/list" "files.read" hListFiles;
   guarded_route "GET" "/files/download" "files.read" hDownloadFile;
   guarded_route "POST" "/files/upload" "files.write" hUploadFile;
   guarded_route "POST" "/files/read" "files.read" hReadTextFile;
   guarded_route "POST" "/files/write" "files.write" hWriteTextFile;
   guarded_route "POST" "/files/rename" "files.write" hRenameFile;
   guarded_route "POST" "/files/mkdir" "files.write" hCreateDirectory;
   guarded_route "DELETE" "/files/delete" "files.write" hDeleteFile;
   guarded_route "GET" "/services" "services.read" hListServices;
   guarded_route "POST" "/services/:name/start" "services.manage" hStartService;
   guarded_route "POST" "/services/:name/stop" "services.manage" hStopService;
   guarded_route "POST" "/services/:name/restart" "services.manage" hRestartService;
   guarded_route "GET" "/docker/containers" "docker.read" hListContainers;
   guarded_route "POST" "/docker/containers/:id/start" "docker.manage" hStartContainer;
   guarded_route "POST" "/docker/containers/:id/stop" "docker.manage" hStopContainer;
   guarded_route "POST" "/docker/containers/:id/restart" "docker.manage" hRestartContainer;
   guarded_route "GET" "/docker/images" "docker.read" hListImages;
   guarded_route "GET" "/cron" "cron.read" hCronList;
   guarded_route "POST" "/cron" "cron.manage" hCronCreate;
   guarded_route "PUT" "/cron/:id" "cron.manage" hCronUpdate;
   guarded_route "DELETE" "/cron/:id" "cron.manage" hCronDelete;
   guarded_route "POST" "/cron/:id/enable" "cron.manage" hCronEnable;
   guarded_route "POST" "/cron/:id/disable" "cron.manage" hCronDisable;
   guarded_route "GET" "/audit/logs" "audit.read" hListLogs;
   guarded_route "GET" "/audit/logs/export" "audit.export" hExportLogs;
   guarded_route "POST" "/audit/retention/cleanup" "audit.manage" hAuditCleanup;
   guarded_route "GET" "/tasks" "tasks.read" hListTasks;
   guarded_route "GET" "/tasks/:id" "tasks.read" hGetTaskDetail;
   guarded_route "POST" "/tasks/docker/restart" "tasks.manage" hCreateDockerRestartTask;
   guarded_route "POST" "/tasks/services/restart" "tasks.manage" hCreateServiceRestartTask;
   guarded_route "POST" "/tasks/:id/cancel" "tasks.manage" hCancelTask;
   guarded_route "POST" "/tasks/:id/retry" "tasks.manage" hRetryTask;
   guarded_route "GET" "/backups" "backup.read" hListBackups;
   guarded_route "POST" "/backups" "backup.manage" hCreateBackup;
   guarded_route "POST" "/backups/tasks/create" "backup.manage" hCreateBackupTask;
   guarded_route "POST" "/backups/retention/cleanup" "backup.manage" hBackupCleanup;
   guarded_route "POST" "/backups/:id/verify" "backup.manage" hVerifyBackup;
   guarded_route "POST" "/backups/:id/verify-task" "backup.manage" hVerifyBackupTask].

(** What gin finds for a request: a route with the values of its parameters, a
    redirection for a slash too many or too few, or nothing. *)
Inductive matched :=
| Matched (r : route) (params : list (string * string))
| Redirected (status : Z)
| NoMatch.

(** gin finds only routes of the table, and those of the request's method. *)
Class Gin := {
  find_route : list route -> string -> string -> matched;
  find_route_sound : forall l method path r params,
    find_route l method path = Matched r params -> r ∈ l /\ rt_Method r = method
}.

(** ** Serving a request *)
Section Serve.
Context `{JWT} `{Gin} (cfg : AuthConfig).
#[local] Open Scope prog_scope.

(** The handlers in front of a route's own. *)
Definition gate (r : route) (req : request) (c : ginctx) : auth chain :=
  passed <- (if rt_Session r then JWTAuth cfg req c else Ret (inr c)) ;;
  match passed with
  | inl refused => Ret (inl refused)
  | inr c =>
    Ret (match rt_Permission r with
         | Some permission => RequirePermission permission c
         | None => inr c
         end)
  end.

Definition notFound : response := MkResponse 404 (JsonBody (gin_H 1004 "not found" (JObj []))).

(** A request; [run_handler] is the route's own handler, a program that can do
    more than the authentication. *)
Definition serve_http {op} {ans : op -> Type} `{SubOp auth_op auth_ans op ans}
  (run_handler : handler_id -> request -> list (string * string) -> ginctx -> prog ans response)
  (uuid : string) (trace : option string) (req : request) : prog ans response :=
  match find_route routes (rq_Method req) (rq_Path req) with
  | Redirected status => Ret (MkResponse status NoBody)
  | NoMatch => if (CORS req).2 then Ret (MkResponse 204 NoBody) else Ret notFound
  | Matched r params =>
    if (CORS req).2 then Ret (MkResponse 204 NoBody)
    else
      passed <- embed (gate r req (start_context req uuid trace)) ;;
      match passed with
      | inl refused => Ret refused
      | inr c => run_handler (rt_Handler r) req params c
      end
  end.
End Serve.
