(* ===== verification/Observed.v ===== *)
(** * Requests observed

    [internal/middleware/recover.go], [metrics.go], [access_log.go] and
    [tracing.go]: the handlers around the rest of the chain, which can panic.
    The spans themselves are those of otelgin. *)

From Stdlib Require Import ZArith Lia SpecFloat.
From stdpp Require Import gmap strings.
From S2P Require Import Prelude GoString GoError Effects Json Metrics UserRepo AuthService Http.

Open Scope prog_scope.

(** A handler returns or panics. *)
Inductive outcome (A : Type) := Returns (x : A) | Panics (rec : string).
Arguments Returns {A} x.
Arguments Panics {A} rec.

Record access := {
  al_RequestID : string;
  al_TraceID : string;
  al_SpanID : string;
  al_Status : Z;
  al_Method : string;
  al_Path : string;
  al_Query : string;
  al_IP : string;
  al_Latency : Z;
  al_UserAgent : string
}.

(** The operations of these handlers around those of the rest. *)
Inductive observed_op (op : Type) :=
| ORest (o : op)
| ONow
| OInFlight (n : Z)                                             (* Inc and Dec *)
| OObserveHTTP (method route : string) (status duration : Z)
| OAccess (line : access)
| OPanic (rec : string)
| OAttribute (key value : string).                                (* span.SetAttributes *)
Arguments ORest {op}.
Arguments ONow {op}.
Arguments OInFlight {op}.
Arguments OObserveHTTP {op}.
Arguments OAccess {op}.
Arguments OPanic {op}.
Arguments OAttribute {op}.

(** What the handlers leave behind, around the rest of the world. *)
Record ObservedWorld (W : Type) := MkObserved {
  ow_step : nat;
  ow_rest : W;
  ow_metrics : MetricsSet;
  ow_log : list access;
  ow_panics : list string;
  ow_attributes : list (string * string)
}.
Arguments MkObserved {W}.
Arguments ow_step {W}.
Arguments ow_rest {W}.
Arguments ow_metrics {W}.
Arguments ow_log {W}.
Arguments ow_panics {W}.
Arguments ow_attributes {W}.

Section Middleware.
Context {op : Type} (ans : op -> Type).

Definition observed_ans (o : observed_op op) : Type :=
  match o with ORest o => ans o | ONow => Z | _ => unit end.

#[local] Abbreviation chain := (prog observed_ans (outcome response)).
Implicit Type next : chain.

Definition Recover next : chain :=
  r <- next ;;
  match r with
  | Returns resp => Ret (Returns resp)
  | Panics rec =>
    (call (OPanic rec) : prog observed_ans unit) ;;;
    Ret (Returns (Fail 500 1000 "internal server error"))
  end.

(** [fullPath] is [c.FullPath()], the pattern of the route. *)
Definition Metrics (req : request) (fullPath : string) next : chain :=
  (call (OInFlight 1) : prog observed_ans unit) ;;;
  startedAt <- (call ONow : prog observed_ans Z) ;;
  r <- next ;;
  match r with
  | Panics rec => (call (OInFlight (-1)) : prog observed_ans unit) ;;; Ret (Panics rec)
  | Returns resp =>
    let route := if (fullPath =? "")%string then "unmatched" else fullPath in
    now <- (call ONow : prog observed_ans Z) ;;
    (call (OObserveHTTP (rq_Method req) route (rs_Status resp) (now - startedAt)) : prog observed_ans unit) ;;;
    (call (OInFlight (-1)) : prog observed_ans unit) ;;;
    Ret (Returns resp)
  end.

(** [requestID] is the value of the context under [RequestIDKey], if it is a
    string; the span's identifiers are empty without a valid span. *)
Definition AccessLog (req : request) (requestID : option string) (span : option (string * string)) next : chain :=
  start <- (call ONow : prog observed_ans Z) ;;
  r <- next ;;
  match r with
  | Panics rec => Ret (Panics rec)
  | Returns resp =>
    now <- (call ONow : prog observed_ans Z) ;;
    (call (OAccess
      {| al_RequestID := default "" requestID; al_TraceID := from_option fst "" span; al_SpanID := from_option snd "" span;
         al_Status := rs_Status resp; al_Method := rq_Method req; al_Path := rq_Path req; al_Query := rq_RawQuery req;
         al_IP := rq_ClientIP req; al_Latency := now - start; al_UserAgent := rq_Header req "User-Agent" |}) : prog observed_ans unit) ;;;
    Ret (Returns resp)
  end.

(** [trace.SpanFromContext] always gives a span. *)
Definition TraceRequestFields (requestID : option string) next : chain :=
  match requestID with
  | Some id => (call (OAttribute "snowpanel.request_id" id) : prog observed_ans unit) ;;; next
  | None => next
  end.

(** The rest of a chain does operations of its own. *)
Fixpoint rest {A} (p : prog ans A) : prog observed_ans A :=
  match p with Ret x => Ret x | Do o k => Do (ORest o) (fun a => rest (k a)) end.

(** As [NewRouter] installs them; [tracing] is [deps.TracingEnabled]. *)
Definition observed (tracing : bool) (req : request) (fullPath : string) (requestID : option string) (span : option (string * string))
    (handlers : prog ans (outcome response)) : chain :=
  let chain := Recover (Metrics req fullPath (AccessLog req requestID span (rest handlers))) in
  if tracing then TraceRequestFields requestID chain else chain.

(** ** Execution *)

Context {W : Type} (handle : forall o : op, W -> ans o * W) (clock : nat -> Z).

Definition observed_handle (o : observed_op op) (w : ObservedWorld W) : observed_ans o * ObservedWorld W :=
  let n := S (ow_step w) in
  match o return observed_ans o * ObservedWorld W with
  | ORest o => let '(a, x) := handle o (ow_rest w) in (a, MkObserved n x (ow_metrics w) (ow_log w) (ow_panics w) (ow_attributes w))
  | ONow => (clock (ow_step w), MkObserved n (ow_rest w) (ow_metrics w) (ow_log w) (ow_panics w) (ow_attributes w))
  | OInFlight d =>
    (tt, MkObserved n (ow_rest w) (set_in_flight (HTTPRequestsInFlight (ow_metrics w) + d) (ow_metrics w)) (ow_log w) (ow_panics w) (ow_attributes w))
  | OObserveHTTP method route status duration =>
    (tt, MkObserved n (ow_rest w) (default (ow_metrics w) (ObserveHTTPRequest method route status duration (Some (ow_metrics w))))
           (ow_log w) (ow_panics w) (ow_attributes w))
  | OAccess line => (tt, MkObserved n (ow_rest w) (ow_metrics w) (ow_log w ++ [line]) (ow_panics w) (ow_attributes w))
  | OPanic rec => (tt, MkObserved n (ow_rest w) (ow_metrics w) (ow_log w) (ow_panics w ++ [rec]) (ow_attributes w))
  | OAttribute key value =>
    (tt, MkObserved n (ow_rest w) (ow_metrics w) (ow_log w) (ow_panics w) (ow_attributes w ++ [(key, value)]))
  end.

Lemma run_rest {A} (p : prog ans A) w :
  exists n, run observed_handle (rest p) w =
    ((run handle p (ow_rest w)).1, MkObserved n (run handle p (ow_rest w)).2 (ow_metrics w) (ow_log w) (ow_panics w) (ow_attributes w)).
Proof.
  revert w. induction p as [x|o k IH]; intros w; cbn [rest run].
  - exists (ow_step w). by destruct w.
  - cbn [observed_handle]. destruct (handle o (ow_rest w)) as [a x]. destruct (IH a (MkObserved (S (ow_step w)) x (ow_metrics w) (ow_log w) (ow_panics w) (ow_attributes w))) as [n ->].
    by exists n.
Qed.

(** The attributes a request leaves on its span. *)
Definition attributes (tracing : bool) (requestID : option string) : list (string * string) :=
  if tracing then from_option (fun id => [("snowpanel.request_id", id)]) [] requestID else [].

Lemma run_traced (tracing : bool) requestID next w :
  exists n, run observed_handle (if tracing then TraceRequestFields requestID next else next) w =
    run observed_handle next
      (MkObserved n (ow_rest w) (ow_metrics w) (ow_log w) (ow_panics w) (ow_attributes w ++ attributes tracing requestID)).
Proof.
  destruct tracing; [destruct requestID as [id|]|]; [by eexists| |];
    exists (ow_step w); unfold attributes; rewrite app_nil_r; by destruct w.
Qed.

(** Every request is answered, and observed once unless it panics.  Around any
    handlers: the client gets their response, or the envelope of an internal
    error if they panic; the gauge of requests in flight is what it was before;
    a request that returns is counted once, under its method, the pattern of its
    route and the status of its response, its latency once, and has one line in
    the access log; a request that panics has a line of the panic and nothing
    else: it is counted nowhere and is not in the access log.  With tracing, its
    span carries the id of the request. *)
Theorem observed_request tracing req fullPath requestID span (handlers : prog ans (outcome response)) w :
  let inside := run handle handlers (ow_rest w) in
  let out := run observed_handle (observed tracing req fullPath requestID span handlers) w in
  let route := if (fullPath =? "")%string then "unmatched" else fullPath in
  let m := ow_metrics w in let m' := ow_metrics out.2 in
  ow_rest out.2 = inside.2 /\
  ow_attributes out.2 = ow_attributes w ++ attributes tracing requestID /\
  HTTPRequestsInFlight m' = HTTPRequestsInFlight m /\
  AgentRequestsTotal m' = AgentRequestsTotal m /\ TasksCompletedTotal m' = TasksCompletedTotal m /\
  match inside.1 with
  | Returns resp =>
    out.1 = Returns resp /\ ow_panics out.2 = ow_panics w /\
    (forall labels, counter labels (HTTPRequestsTotal m') = counter labels (HTTPRequestsTotal m)
      + (if decide ([rq_Method req; route; fmt_d (rs_Status resp)] = labels) then 1 else 0)) /\
    (exists d, forall labels, observations labels (HTTPRequestDuration m') = observations labels (HTTPRequestDuration m)
      ++ (if decide ([rq_Method req; route] = labels) then [Seconds d] else [])) /\
    exists line, ow_log out.2 = ow_log w ++ [line] /\ al_Status line = rs_Status resp /\ al_Path line = rq_Path req /\
      al_RequestID line = default "" requestID /\ al_Method line = rq_Method req /\ al_IP line = rq_ClientIP req /\
      al_TraceID line = from_option fst "" span
  | Panics rec =>
    out.1 = Returns (Fail 500 1000 "internal server error") /\ ow_panics out.2 = ow_panics w ++ [rec] /\
    HTTPRequestsTotal m' = HTTPRequestsTotal m /\ HTTPRequestDuration m' = HTTPRequestDuration m /\ ow_log out.2 = ow_log w
  end.
Proof.
  cbv zeta. unfold observed. cbv zeta.
  match goal with |- context [TraceRequestFields requestID ?next] => destruct (run_traced tracing requestID next w) as [n0 ->] end.
  unfold Recover. rewrite run_bind. unfold Metrics, call. cbn [bind run observed_handle].
  rewrite run_bind. unfold AccessLog, call. cbn [bind run observed_handle]. rewrite run_bind.
  match goal with |- context [run observed_handle (rest handlers) ?w3] => destruct (run_rest handlers w3) as [n ->] end.
  cbn [ow_rest ow_metrics ow_log ow_panics ow_attributes ow_step]. destruct (run handle handlers (ow_rest w)) as [[resp|rec] x];
    cbn [bind run observed_handle fst snd ow_rest ow_metrics ow_log ow_panics ow_attributes].
  - assert (E : forall z, z + 1 + -1 = z) by lia.
    unfold ObserveHTTPRequest. cbn [fmap option_fmap option_map default]. cbn [set_in_flight set_http HTTPRequestsInFlight
      AgentRequestsTotal TasksCompletedTotal HTTPRequestsTotal HTTPRequestDuration id]. unfold set_in_flight, set_http, id.
    cbn [HTTPRequestsInFlight AgentRequestsTotal TasksCompletedTotal HTTPRequestsTotal HTTPRequestDuration].
    rewrite E. repeat (split; [done|]). split; [intros labels; apply counter_Inc|]. split; [eexists; intros; apply observations_Observe|].
    eexists. split; [done|]. done.
  - assert (E : forall z, z + 1 + -1 = z) by lia. unfold set_in_flight.
    cbn [HTTPRequestsInFlight AgentRequestsTotal TasksCompletedTotal HTTPRequestsTotal HTTPRequestDuration].
    rewrite E. repeat (split; [done|]). done.
Qed.

End Middleware.
