(* ===== verification/Access.v ===== *)
(** * Access control

    Which requests reach a handler: the session and the rights behind them, as
    the user tables have them when the handler starts, whatever fails. *)

From Stdlib Require Import ZArith Lia.
From stdpp Require Import sets.
From S2P Require Import Prelude GoString GoTime GoError Effects Table Schema Json Crypto UserRepo.
From S2P Require Import AuthService AuthSystem AuthProps Http.
Import UserRepo.user_repository.

(** ** What the chain in front of a handler leaves of the tables *)

(** Only a membership can be new. *)
Definition same_tables (db db' : UserDB) : Prop :=
  db_users db' = db_users db /\ db_roles db' = db_roles db /\ db_permissions db' = db_permissions db /\
  db_role_permissions db' = db_role_permissions db.

Lemma same_tables_refl db : same_tables db db.
Proof. done. Qed.

Lemma same_tables_trans db1 db2 db3 : same_tables db1 db2 -> same_tables db2 db3 -> same_tables db1 db3.
Proof. intros (A1 & A2 & A3 & A4) (B1 & B2 & B3 & B4). split; [congruence|]. split; [congruence|]. split; congruence. Qed.

Lemma user_of_same db db' id : same_tables db db' -> user_of db' id = user_of db id.
Proof. intros (E & _). unfold user_of. by rewrite E. Qed.

Definition gate_op (o : auth_op) : Prop :=
  match o with
  | Users (UGetByID _ | USelectRoles _ | USelectPermissions _ | UFindRole _ | UInsertUserRole _ _) | ANow => True
  | _ => False
  end.

Lemma user_exec_tables now o db : gate_op (Users o) -> same_tables db (user_exec now o db).2.
Proof.
  destruct o; try done. intros _. cbn [user_exec]. unfold InsertUserRole. by repeat case_goal.
Qed.

(** The rights of a user. *)
Definition rights_in (db : UserDB) (id : Z) (roles permissions : list string) : Prop :=
  SelectRoles id db = (Ok roles, db) /\ SelectPermissions id db = (Ok permissions, db).

(** The names are such as the checksum can tell apart; the defaults are. *)
Definition names_ok (db : UserDB) : Prop :=
  Forall (fun r => rights_name (role_Slug r) = true) (db_roles db) /\
  Forall (fun p => rights_name (perm_Name p) = true) (db_permissions db).

Lemma names_same db db' : same_tables db db' -> names_ok db -> names_ok db'.
Proof. intros (_ & E1 & E2 & _) [H1 H2]. unfold names_ok. by rewrite E1, E2. Qed.

Lemma rights_named db id roles permissions : user_db_ok db -> names_ok db -> rights_in db id roles permissions ->
  Forall (fun s => rights_name s = true) (roles ++ permissions).
Proof.
  intros Hok [Hr Hp] [Er Ep]. destruct (rights_of id db Hok) as (roles' & permissions' & Er' & Ep' & _ & _ & Hroles & Hperms).
  rewrite Er in Er'. injection Er' as <-. rewrite Ep in Ep'. injection Ep' as <-.
  apply Forall_app_2; apply Forall_forall.
  - intros slug Hs. apply Hroles in Hs as (m & r & _ & _ & Hin & _ & <-). rewrite Forall_forall in Hr. by apply Hr.
  - intros name Hn. apply Hperms in Hn as (slug & _ & r & p & g & _ & _ & Hin & <- & _). rewrite Forall_forall in Hp. by apply Hp.
Qed.

(** A user holds a permission through a role. *)
Definition holds (db : UserDB) (id : Z) (permission : string) : Prop :=
  exists slug, member db id slug /\ grants db slug permission.

(** Two different sets of rights with the same SHA-256 sum. *)
Definition rights_collision (r p r' p' : list string) : Prop :=
  checksum_payload r p <> checksum_payload r' p' /\
  sha256.Sum256 (bytes_of (checksum_payload r p)) = sha256.Sum256 (bytes_of (checksum_payload r' p')).

(** A token of this service: its checksum is that of the rights it lists. *)
Definition honest (claims : TokenClaims) : Prop :=
  claim_checksum claims = computeRBACChecksum (tc_Roles claims) (tc_Permissions claims) /\
  Forall (fun s => rights_name s = true) (tc_Roles claims ++ tc_Permissions claims).

(** The session a request comes with, in the tables [db]. *)
Definition live_session (db : UserDB) (claims : TokenClaims) : Prop :=
  exists u roles permissions, user_of db (tc_UserID claims) = Some u /\ u_Status u = 1 /\
    0 < tc_SessionIssuedAt claims /\
    (forall t, u_LastLoginAt u = Some t -> t <= tc_SessionIssuedAt claims) /\
    rights_in db (tc_UserID claims) roles permissions /\ claim_checksum claims = computeRBACChecksum roles permissions.

Lemma honest_holds db claims permission : user_db_ok db -> names_ok db -> honest claims -> live_session db claims ->
  permission ∈ tc_Permissions claims ->
  holds db (tc_UserID claims) permission \/
  exists roles permissions, rights_in db (tc_UserID claims) roles permissions /\
    rights_collision (tc_Roles claims) (tc_Permissions claims) roles permissions.
Proof.
  intros Hok Hn [Ec Hc] (u & roles & permissions & _ & _ & _ & _ & Hr & E) Hin.
  pose proof (rights_named db _ _ _ Hok Hn Hr) as Hn2.
  destruct (checksum_separates (tc_Roles claims) (tc_Permissions claims) roles permissions) as [_ Hs].
  { rewrite app_assoc. by apply Forall_app_2. }
  destruct Hs as [[_ Hp]|Hcol]; [congruence| |by right; exists roles, permissions].
  left. rewrite Hp in Hin. destruct Hr as [Er Ep].
  destruct (rights_of (tc_UserID claims) db Hok) as (roles' & permissions' & Er' & Ep' & _ & _ & Hroles & Hperms).
  rewrite Er in Er'. injection Er' as <-. rewrite Ep in Ep'. injection Ep' as <-.
  apply Hperms in Hin as (slug & Hs & Hg). exists slug. split; [by apply Hroles|done].
Qed.

Section Gate.
Context `{JWT} `{Bcrypt} (env : AuthEnv) (cfg : AuthConfig).

#[local] Abbreviation handle := (auth_handle env).
#[local] Abbreviation wpa := (wp (auth_handle env)).

(** A statement of the gate: done or failed, the tables stay. *)
Lemma wp_gate_user o (Q : user_ans o -> AuthWorld -> Prop) w : gate_op (Users o) ->
  (forall w', aw_db w' = (user_exec (aenv_now env (aw_step w)) o (aw_db w)).2 ->
     Q (user_exec (aenv_now env (aw_step w)) o (aw_db w)).1 w') ->
  (forall e w', same_tables (aw_db w) (aw_db w') -> Q (Err e) w') -> wpa (trigger o) Q w.
Proof.
  intros Ho HOk HErr. pose proof (user_exec_tables (aenv_now env (aw_step w)) o (aw_db w) Ho) as Hs.
  unfold wp, trigger. cbn [run inj proj users_in_auth]. unfold auth_handle. cbn [auth_exec]. unfold exec_user.
  destruct (user_exec _ o (aw_db w)) as [r d]. cbn [fst snd] in *.
  destruct (aenv_db env (aw_step w)); [by apply HOk|by apply HErr|by apply HErr].
Qed.

Lemma wp_gate_repo s o (Q : res (user_val o) -> AuthWorld -> Prop) w : gate_op (Users o) ->
  (forall w', aw_db w' = (user_exec (aenv_now env (aw_step w)) o (aw_db w)).2 ->
     Q (map_err (wrap_as s) (user_exec (aenv_now env (aw_step w)) o (aw_db w)).1) w') ->
  (forall e w', same_tables (aw_db w) (aw_db w') -> Q (Err (wrap_as s e)) w') -> wpa (repo s o) Q w.
Proof. intros Ho HOk HErr. apply wp_or_else, (wp_gate_user o); [done|by intros w' E; apply HOk|by intros e w' E; apply HErr]. Qed.

Lemma wp_gate_rights id (Q : res (list string * list string) -> AuthWorld -> Prop) w :
  (forall rp w', same_tables (aw_db w) (aw_db w') -> rights_in (aw_db w') id rp.1 rp.2 -> Q (Ok rp) w') ->
  (forall e w', same_tables (aw_db w) (aw_db w') -> Q (Err e) w') -> wpa (GetRolesAndPermissions id) Q w.
Proof.
  intros HOk HErr. unfold GetRolesAndPermissions. apply wp_bind_ok, (wp_gate_user (USelectRoles id)); [done| |done].
  intros w1 E1. cbn [user_exec] in *. destruct (SelectRoles id (aw_db w)) as [r d] eqn:Er.
  pose proof Er as Er'. injection Er' as <- <-. cbn [fst snd] in *. apply wp_bind_ok, (wp_gate_user (USelectPermissions id)); [done| |].
  - intros w2 E2. cbn [user_exec] in *. rewrite E1 in E2 |- *. destruct (SelectPermissions id (aw_db w)) as [p d'] eqn:Ep.
    pose proof Ep as Ep'. injection Ep' as <- <-. cbn [fst snd] in *. apply wp_ret, HOk; rewrite E2; [done|]. by split.
  - intros e w2 E2. apply HErr. by rewrite E1 in E2.
Qed.

Lemma wp_gate_resolve u (Q : res (list string * list string) -> AuthWorld -> Prop) w :
  (forall rp w', same_tables (aw_db w) (aw_db w') -> rights_in (aw_db w') (u_ID u) rp.1 rp.2 -> Q (Ok rp) w') ->
  (forall e w', same_tables (aw_db w) (aw_db w') -> Q (Err e) w') -> wpa (resolveUserRBAC u) Q w.
Proof.
  intros HOk HErr. unfold resolveUserRBAC. apply wp_bind_ok, wp_gate_rights; [|done].
  intros rp w1 E1 H1. destruct rp.1 as [|r l] eqn:Er; [|apply wp_ret, HOk; [done|by rewrite ?Er]].
  assert (Hlast : forall w2, same_tables (aw_db w) (aw_db w2) -> wpa (GetRolesAndPermissions (u_ID u)) Q w2).
  { intros w2 E2. apply wp_gate_rights; [intros rp' w3 E3 H3; apply HOk|intros e w3 E3; apply HErr]; eauto 4 using same_tables_trans. }
  apply wp_bind_ok. unfold EnsureUserRoleBySlug. apply wp_bind_ok, (wp_gate_user (UFindRole roleOperator)); [done| |].
  2: { intros e w2 E2. apply HErr. by eauto 4 using same_tables_trans. }
  intros w2 E2. cbn [user_exec FindRole fst snd] in E2 |- *. destruct (head _) as [role|].
  - apply (wp_gate_user (UInsertUserRole (u_ID u) (role_ID role))); [done| |].
    + intros w3 E3. assert (E4 : same_tables (aw_db w) (aw_db w3)).
      { eapply same_tables_trans; [exact E1|]. rewrite E3, E2. by apply user_exec_tables. }
      destruct (user_exec _ _ _).1; [by apply Hlast|by apply HErr].
    + intros e w3 E3. apply HErr. rewrite E2 in E3. by eauto 4 using same_tables_trans.
  - apply wp_ret, Hlast. by rewrite E2.
Qed.

(** An accepted session is live; a refusal is a 401 or, when the database
    fails, a 500. *)
Lemma wp_gate_session claims (Q : res unit -> AuthWorld -> Prop) w : user_db_ok (aw_db w) ->
  (forall w', same_tables (aw_db w) (aw_db w') -> live_session (aw_db w') claims -> Q (Ok tt) w') ->
  (forall e w', same_tables (aw_db w) (aw_db w') -> As e <> None -> http_status e = 401 \/ http_status e = 500 -> Q (Err e) w') ->
  wpa (ValidateSession claims) Q w.
Proof.
  intros Hok HOk HErr. unfold ValidateSession. apply wp_bind_ok, (wp_gate_repo ErrInternal (UGetByID (tc_UserID claims))); [done| |by intros e w' E; apply HErr; auto].
  intros w1 E1. pose proof (GetByID_user_of (tc_UserID claims) (aw_db w) Hok) as Eu.
  cbn [user_exec] in E1 |- *. destruct (GetByID (tc_UserID claims) (aw_db w)) as [r d] eqn:Eg. cbn [fst snd] in *.
  injection Eg as _ <-. subst r. cbn [map_err].
  assert (E1s : same_tables (aw_db w) (aw_db w1)) by (by rewrite E1).
  destruct (user_of (aw_db w) (tc_UserID claims)) as [u|] eqn:Hu; [|apply wp_ret, HErr; auto].
  destruct (Z.eqb_spec (u_Status u) 1) as [Est|_]; cbn [negb]; [|apply wp_ret, HErr; auto].
  destruct (Z.leb_spec (tc_SessionIssuedAt claims) 0) as [_|Hpos]; [apply wp_ret, HErr; auto|].
  destruct (match u_LastLoginAt u with Some t => tc_SessionIssuedAt claims <? t | None => false end) eqn:El;
    [apply wp_ret, HErr; auto|].
  apply wp_bind_ok, wp_or_else, wp_gate_resolve.
  - intros rp w2 E2 Hr. cbn [map_err]. cbv zeta. fold (claim_checksum claims).
    assert (E2s : same_tables (aw_db w) (aw_db w2)) by (by eauto 4 using same_tables_trans).
    destruct (String.eqb_spec (claim_checksum claims) (computeRBACChecksum rp.1 rp.2)) as [Ec|_]; cbn [negb];
      [|apply wp_ret, HErr; auto].
    apply wp_ret, HOk; [done|]. exists u, rp.1, rp.2. rewrite (user_of_same _ _ _ E2s).
    split; [done|]. split; [done|]. split; [done|]. rewrite (user_of_id _ _ _ Hu) in Hr. split; [|done].
    intros t Ht. rewrite Ht in El. lia.
  - intros e w2 E2. cbn [map_err]. apply HErr; [by eauto 4 using same_tables_trans|done|by right].
Qed.

End Gate.

(** ** The policy

    What a caller needs for each handler, as [docs/api-design.md] lists it; the
    summary of the dashboard is the one exception, its route asks only for a
    session. *)
Inductive access := Anyone | Session | Needs (permission : string).

Definition policy (h : handler_id) : access :=
  match h with
  | hHealth | hReadiness | hMetrics | hPing | hLogin | hRefresh => Anyone
  | hMe | hLogout | hChangePassword | hSummary => Session
  | hListFiles | hDownloadFile | hReadTextFile => Needs "files.read"
  | hUploadFile | hWriteTextFile | hRenameFile | hCreateDirectory | hDeleteFile => Needs "files.write"
  | hListServices => Needs "services.read"
  | hStartService | hStopService | hRestartService => Needs "services.manage"
  | hListContainers | hListImages => Needs "docker.read"
  | hStartContainer | hStopContainer | hRestartContainer => Needs "docker.manage"
  | hCronList => Needs "cron.read"
  | hCronCreate | hCronUpdate | hCronDelete | hCronEnable | hCronDisable => Needs "cron.manage"
  | hListLogs => Needs "audit.read"
  | hExportLogs => Needs "audit.export"
  | hAuditCleanup => Needs "audit.manage"
  | hListTasks | hGetTaskDetail => Needs "tasks.read"
  | hCreateDockerRestartTask | hCreateServiceRestartTask | hCancelTask | hRetryTask => Needs "tasks.manage"
  | hListBackups => Needs "backup.read"
  | hCreateBackup | hCreateBackupTask | hBackupCleanup | hVerifyBackup | hVerifyBackupTask => Needs "backup.manage"
  end.

Definition guarded_by (a : access) : bool * option string :=
  match a with Anyone => (false, None) | Session => (true, None) | Needs p => (true, Some p) end.

#[global] Instance handler_id_eq_dec : EqDecision handler_id.
Proof. solve_decision. Defined.

Lemma routes_policy : Forall (fun r => (rt_Session r, rt_Permission r) = guarded_by (policy (rt_Handler r))) routes.
Proof. apply (bool_decide_unpack _). vm_compute. done. Qed.

Lemma policy_seeded : Forall (fun r => match policy (rt_Handler r) with Needs p => p ∈ permissionNames | _ => True end) routes.
Proof.
  assert (H : forallb (fun r => match policy (rt_Handler r) with Needs p => existsb (String.eqb p) permissionNames | _ => true end) routes = true)
    by (vm_compute; reflexivity).
  apply Forall_forall. intros r Hr. apply forallb_forall with (x := r) in H; [|by apply list_elem_of_In].
  destruct (policy _) as [| |p]; try done. apply existsb_exists in H as (x & Hx & E). apply String.eqb_eq in E as ->. by apply list_elem_of_In.
Qed.

Section Serving.
Context `{JWT} `{Bcrypt} `{Gin} (env : AuthEnv) (cfg : AuthConfig).

#[local] Abbreviation handle := (auth_handle env).
#[local] Abbreviation wpa := (wp (auth_handle env)).

(** The claims of the access token in the request's header. *)
Definition presented (req : request) (claims : TokenClaims) : Prop :=
  exists token now jc, bearer req = Some token /\ ParseWithClaims token (JWTSecret cfg) now = Some jc /\
    tc_UserID claims = jc_UserID jc /\ tc_Roles claims = jc_Roles jc /\ tc_Permissions claims = jc_Permissions jc /\
    tc_MustChangePassword claims = jc_MustChangePassword jc /\ tc_TokenUse claims = tokenUseAccess.

Lemma ParseToken_presented req token w (Q : res TokenClaims -> AuthWorld -> Prop) : bearer req = Some token ->
  (forall r w', aw_db w' = aw_db w -> (forall claims, r = Ok claims -> presented req claims) -> Q r w') ->
  wpa (ParseToken cfg token) Q w.
Proof.
  intros Hb HQ. unfold ParseToken, parseTokenWithUse. apply wp_bind, wp_auth_now.
  destruct (ParseWithClaims token (JWTSecret cfg) _) as [jc|] eqn:E; [|by apply wp_ret, HQ].
  cbv zeta. set (use := if (_ =? "")%string then _ else _). change (tokenUseAccess =? "")%string with false. cbn [negb andb].
  destruct (String.eqb_spec use tokenUseAccess) as [->|_]; cbn [negb]; apply wp_ret, HQ; try done.
  intros claims [= <-]. by exists token, (aenv_now env (aw_step w)), jc.
Qed.

(** A session that reaches the handler. *)
Definition admitted (req : request) (db : UserDB) (claims : TokenClaims) : Prop :=
  presented req claims /\ live_session db claims /\
  (tc_MustChangePassword claims = true -> isPasswordChangeAllowedPath (rq_Path req) = true).

Definition refusal (resp : response) : Prop := rs_Status resp ∈ [401; 403; 500].

Lemma wp_JWTAuth req c (Q : chain -> AuthWorld -> Prop) w : user_db_ok (aw_db w) ->
  (forall resp w', same_tables (aw_db w) (aw_db w') -> refusal resp -> Q (inl resp) w') ->
  (forall claims w', same_tables (aw_db w) (aw_db w') -> admitted req (aw_db w') claims -> Q (inr (with_claims claims c)) w') ->
  wpa (JWTAuth cfg req c) Q w.
Proof.
  intros Hok HL HR. assert (H401 : forall e d, refusal (abort_with 401 e d)) by (intros; unfold refusal; cbn; set_solver).
  unfold JWTAuth. destruct (bearer req) as [token|] eqn:Eb; [|by apply wp_ret, HL].
  apply wp_bind, (ParseToken_presented req token); [done|]. intros r w1 E1 Hp.
  destruct r as [claims|e]; [|apply wp_ret, HL; [by rewrite E1|done]]. specialize (Hp claims eq_refl).
  apply wp_bind, wp_gate_session; [by rewrite E1| |].
  - intros w2 E2 Hlive. rewrite E1 in E2.
    destruct (tc_MustChangePassword claims) eqn:Em; cbn [andb].
    + destruct (isPasswordChangeAllowedPath (rq_Path req)) eqn:Ep; cbn [negb]; apply wp_ret.
      * apply HR; [done|]. split; [done|]. by split.
      * apply HL; [done|]. unfold refusal. cbn. set_solver.
    + apply wp_ret, HR; [done|]. split; [done|]. split; [done|congruence].
  - intros e w2 E2 Hne Hs. rewrite E1 in E2. apply wp_ret, HL; [done|]. unfold refusal, abort_with. cbn [rs_Status].
    destruct (As e) as [a|] eqn:Ea; [|done]. destruct Hs as [-> | ->]; set_solver.
Qed.

Lemma RequirePermission_inr p c c' : RequirePermission p c = inr c' ->
  c' = c /\ exists permissions, cx_Permissions c = Some permissions /\ p ∈ permissions.
Proof.
  unfold RequirePermission, GetCurrentPermissions. destruct (cx_Permissions c) as [l|]; [|done]. destruct (existsb _ l) eqn:E; [|done].
  intros [= <-]. split; [done|]. exists l. split; [done|]. apply existsb_exists in E as (x & Hx & E).
  apply String.eqb_eq in E as ->. by apply list_elem_of_In.
Qed.

Lemma RequirePermission_inl p c resp : RequirePermission p c = inl resp -> refusal resp.
Proof.
  unfold RequirePermission, GetCurrentPermissions. destruct (cx_Permissions c); [case_goal; [done|]|]; intros [= <-]; unfold refusal; cbn; set_solver.
Qed.

(** What the policy asks of the caller of a handler, in the tables [db]. *)
Definition entitled (a : access) (req : request) (c : ginctx) (db : UserDB) : Prop :=
  a = Anyone \/
  exists claims, admitted req db claims /\ cx_UserID c = Some (tc_UserID claims) /\ cx_Username c = Some (tc_Username claims) /\
    forall p, a = Needs p -> p ∈ tc_Permissions claims /\
      (honest claims -> holds db (tc_UserID claims) p \/
         exists roles permissions, rights_in db (tc_UserID claims) roles permissions /\
           rights_collision (tc_Roles claims) (tc_Permissions claims) roles permissions).

Lemma wp_gate r req c (Q : chain -> AuthWorld -> Prop) w : user_db_ok (aw_db w) -> names_ok (aw_db w) -> r ∈ routes ->
  (forall resp w', same_tables (aw_db w) (aw_db w') -> refusal resp -> Q (inl resp) w') ->
  (forall c' w', same_tables (aw_db w) (aw_db w') -> user_db_ok (aw_db w') -> entitled (policy (rt_Handler r)) req c' (aw_db w') -> Q (inr c') w') ->
  wpa (gate cfg r req c) (fun x w' => user_db_ok (aw_db w') -> Q x w') w.
Proof.
  intros Hok Hn Hr HL HR. pose proof routes_policy as Hp. rewrite Forall_forall in Hp. specialize (Hp r Hr). cbv beta in Hp.
  unfold gate. destruct (policy (rt_Handler r)) as [| |p] eqn:Ea; cbn [guarded_by] in Hp; injection Hp as Es Ep; rewrite Es, Ep.
  - apply wp_bind, wp_ret, wp_ret. intros Hok'. apply HR; [done|done|by left].
  - apply wp_bind, wp_JWTAuth; [done| |].
    + intros resp w' E Hs. apply wp_ret. intros _. by apply HL.
    + intros claims w' E Ha. apply wp_ret. intros Hok'. apply HR; [done|done|]. right. exists claims.
      split; [done|]. split; [done|]. split; [done|]. intros p [=].
  - apply wp_bind, wp_JWTAuth; [done| |].
    + intros resp w' E Hs. apply wp_ret. intros _. by apply HL.
    + intros claims w' E Ha. apply wp_ret. intros Hok'. destruct (RequirePermission p _) as [resp|c'] eqn:Er.
      * apply HL; [done|]. by eapply RequirePermission_inl.
      * apply RequirePermission_inr in Er as [-> (perms & [= <-] & Hin)]. apply HR; [done|done|]. right. exists claims.
        split; [done|]. split; [done|]. split; [done|]. intros p' [= <-]. split; [done|]. intros Hh.
        apply honest_holds; try done; [by eapply names_same|]. apply Ha.
Qed.

Lemma run_gate r req c w : user_db_ok (aw_db w) -> names_ok (aw_db w) -> r ∈ routes ->
  let out := run handle (gate cfg r req c) w in
  same_tables (aw_db w) (aw_db out.2) /\
  match out.1 with
  | inl resp => refusal resp
  | inr c' => entitled (policy (rt_Handler r)) req c' (aw_db out.2)
  end.
Proof.
  intros Hok Hn Hr. cbv zeta. pose proof (run_inv handle (fun w => user_db_ok (aw_db w)) (auth_handle_ok env) _ (gate cfg r req c) w Hok) as Hok'.
  pose proof (wp_gate r req c (fun x w' => same_tables (aw_db w) (aw_db w') /\
    match x with inl resp => refusal resp | inr c' => entitled (policy (rt_Handler r)) req c' (aw_db w') end) w Hok Hn Hr) as Hg.
  unfold wp in Hg. destruct (run handle (gate cfg r req c) w) as [x w']. cbn [fst snd] in *.
  apply Hg; [by auto..|exact Hok'].
Qed.

(** ** A server

    Any program with the authentication inside: its world holds the one of the
    authentication service, and the operations of that service act there. *)
Context {op : Type} {ans : op -> Type} `{SubOp auth_op auth_ans op ans} {W : Type}
  (app : forall o : op, W -> ans o * W) (auth_of : W -> AuthWorld).
Hypothesis auth_inside : forall o w,
  proj o (app (inj o) w).1 = (handle o (auth_of w)).1 /\ auth_of (app (inj o) w).2 = (handle o (auth_of w)).2.

Implicit Type run_handler : handler_id -> request -> list (string * string) -> ginctx -> prog ans response.

(** The request is answered without any handler. *)
Definition turned_away uuid trace req w : Prop := exists resp w',
  (forall run_handler, run app (serve_http cfg run_handler uuid trace req) w = (resp, w')) /\
  same_tables (aw_db (auth_of w)) (aw_db (auth_of w')).

(** A handler runs, for a caller the policy admits. *)
Definition passed_on uuid trace req w : Prop := exists r params c w',
  find_route routes (rq_Method req) (rq_Path req) = Matched r params /\
  same_tables (aw_db (auth_of w)) (aw_db (auth_of w')) /\
  entitled (policy (rt_Handler r)) req c (aw_db (auth_of w')) /\
  forall run_handler, run app (serve_http cfg run_handler uuid trace req) w = run app (run_handler (rt_Handler r) req params c) w'.

(** C4 No handler runs for a caller who may not call it, whatever the handlers
    do and whatever fails before them: either the request is answered without
    any handler, or the handler of a route runs and its policy is met when it
    starts.  That is: for a session, the token in the header is an access token
    of this server, its user exists and is enabled, has not logged in or out
    since, has just the rights the token was issued for, and if the password
    must be changed the path is one of the three allowed; for a permission,
    the token lists it and, for a token of this service, the user holds it
    through a role in the tables at that moment (or two sets of rights collide
    under SHA-256).  The users, roles and grants are as before. *)
Theorem access_control uuid trace req w :
  user_db_ok (aw_db (auth_of w)) -> names_ok (aw_db (auth_of w)) ->
  turned_away uuid trace req w \/ passed_on uuid trace req w.
Proof.
  intros Hok Hn. unfold turned_away, passed_on, serve_http.
  destruct (find_route routes (rq_Method req) (rq_Path req)) as [r params|st|] eqn:Ef.
  - destruct (CORS req).2; [left; by eexists _, w|].
    apply find_route_sound in Ef as Hr. destruct Hr as [Hr _].
    pose proof (run_gate r req (start_context req uuid trace) (auth_of w) Hok Hn Hr) as [Hs Hg].
    pose proof (run_embed handle app auth_of auth_inside _ (gate cfg r req (start_context req uuid trace)) w) as [E1 E2].
    destruct (run app (embed (gate cfg r req (start_context req uuid trace))) w) as [x w'] eqn:E. cbn [fst snd] in *.
    rewrite <- E1, <- E2 in *. destruct x as [resp|c].
    + left. exists resp, w'. split; [|done]. intros rh. by rewrite run_bind, E.
    + right. exists r, params, c, w'. split; [done|]. split; [done|]. split; [done|]. intros rh. by rewrite run_bind, E.
  - left. by eexists _, w.
  - left. destruct (CORS req).2; by eexists _, w.
Qed.

End Serving.

(** ** The decision when the database works *)
Section Decision.
Context `{JWT} `{Bcrypt} (env : AuthEnv) (cfg : AuthConfig).
Hypothesis no_faults : forall n, aenv_db env n = NoFault.

#[local] Abbreviation handle := (auth_handle env).

(** The claims of an access token of this server that has not expired. *)
Definition access_claims (now : Z) (token : string) : option TokenClaims :=
  match ParseWithClaims token (JWTSecret cfg) now with
  | None => None
  | Some jc =>
    let use := TrimSpace (ToLower (jc_TokenUse jc)) in
    let use := if (use =? "")%string then tokenUseAccess else use in
    if (use =? tokenUseAccess)%string then
      Some {| tc_UserID := jc_UserID jc; tc_Username := jc_Username jc; tc_Roles := jc_Roles jc;
              tc_Permissions := jc_Permissions jc; tc_MustChangePassword := jc_MustChangePassword jc;
              tc_SessionIssuedAt := jc_SessionIssuedAt jc; tc_TokenUse := use;
              tc_RBACChecksum := TrimSpace (jc_RBACChecksum jc) |}
    else None
  end.

(** The status a request is refused with, if it is. *)
Definition decision (r : route) (req : request) (now : Z) (db : UserDB) (roles permissions : Z -> list string) : option Z :=
  if rt_Session r then
    match bearer req with
    | None => Some 401
    | Some token =>
      match access_claims now token with
      | None => Some 401
      | Some claims =>
        if negb (session_valid db claims (roles (tc_UserID claims)) (permissions (tc_UserID claims))) then Some 401
        else if tc_MustChangePassword claims && negb (isPasswordChangeAllowedPath (rq_Path req)) then Some 403
        else match rt_Permission r with
             | Some p => if existsb (String.eqb p) (tc_Permissions claims) then None else Some 403
             | None => None
             end
      end
    end
  else None.

Lemma ParseToken_claims token w : exists w', run handle (ParseToken cfg token) w =
  (match access_claims (aenv_now env (aw_step w)) token with Some claims => Ok claims | None => Err ErrTokenParse end, w')
  /\ aw_db w' = aw_db w.
Proof.
  unfold ParseToken, parseTokenWithUse, call. cbn [bind run]. unfold auth_handle. cbn [auth_exec]. unfold access_claims.
  destruct (ParseWithClaims token (JWTSecret cfg) _) as [jc|]; cbn [run]; [|by eexists].
  cbv zeta. set (use := if (_ =? "")%string then _ else _). change (tokenUseAccess =? "")%string with false. cbn [negb andb].
  destruct (use =? tokenUseAccess)%string; cbn [negb run]; by eexists.
Qed.

End Decision.
