(* ===== verification/AccessExamples.v ===== *)
(** * Access control at concrete requests

    A matcher of paths that meets the law of [Gin], and the requests of an
    operator: he may list files, he may not write them. *)

From Stdlib Require Import ZArith Lia Ascii.
From stdpp Require Import sets.
From S2P Require Import Prelude GoString GoTime GoError Effects Table Schema Json Crypto FilePath Dto UserRepo.
From S2P Require Import AuthService AuthSystem AuthProps AuthExamples Http Access.
Import Dto.dto UserRepo.user_repository.

(** ** Matching element by element *)

Fixpoint match_elements (pattern path : list string) : option (list (string * string)) :=
  match pattern, path with
  | [], [] => Some []
  | p :: pattern, e :: path =>
    match p with
    | String ":" name =>
      if (e =? "")%string then None
      else match match_elements pattern path with Some ps => Some ((name, e) :: ps) | None => None end
    | _ => if (p =? e)%string then match_elements pattern path else None
    end
  | _, _ => None
  end.

Fixpoint find_first (l : list route) (method : string) (path : list string) : matched :=
  match l with
  | [] => NoMatch
  | r :: l =>
    if (rt_Method r =? method)%string then
      match match_elements (elements (rt_Path r)) path with
      | Some params => Matched r params
      | None => find_first l method path
      end
    else find_first l method path
  end.

#[export, program] Instance plain_gin : Gin := {
  find_route l method path := find_first l method (elements path)
}.
Next Obligation.
  intros l method path r params. cbv beta. induction l as [|x l IH]; cbn [find_first]; [done|].
  destruct (String.eqb_spec (rt_Method x) method) as [E|_].
  - destruct (match_elements _ _); [|by intros H; apply IH in H as [H1 H2]; split; [right|]].
    intros [= <- _]. split; [left|done].
  - intros H. apply IH in H as [H1 H2]. by split; [right|].
Qed.

(** ** Requests of an operator *)

Definition bob_world : AuthWorld := login_bob.2.

Definition bob_token : string :=
  match login_bob.1 with Ok r => lres_AccessToken r | Err _ => "" end.

Definition from_bob (method path : string) : request :=
  {| rq_Method := method; rq_Path := path; rq_RawQuery := ""; rq_Body := ""; rq_ClientIP := "10.0.0.1";
     rq_Header h := if (h =? "Authorization")%string then ("Bearer " +:+ bob_token)%string else "" |}.

Definition say (h : handler_id) (req : request) (params : list (string * string)) (c : ginctx) : auth response :=
  Ret (OK (JStr "done")).

Definition answer_of (req : request) : response * AuthWorld :=
  run (auth_handle env0) (serve_http cfg0 say "id-1" None req) bob_world.

Lemma inside_itself o w : 
  proj (ans1 := auth_ans) (ans2 := auth_ans) o (auth_handle env0 (inj (ans1 := auth_ans) (ans2 := auth_ans) o) w).1 = (auth_handle env0 o w).1 /\
  (auth_handle env0 (inj (ans1 := auth_ans) (ans2 := auth_ans) o) w).2 = (auth_handle env0 o w).2.
Proof. done. Qed.

Lemma bob_world_ok : user_db_ok (aw_db bob_world).
Proof.
  unfold bob_world, login_bob. apply (run_inv (auth_handle env0) (fun w => user_db_ok (aw_db w)) (auth_handle_ok env0)).
  unfold world_bob. cbn [aw_db]. apply user_exec_ok, world1_ok.
Qed.

Lemma bob_names : names_ok (aw_db bob_world).
Proof.
  assert (H : forallb (fun r => rights_name (role_Slug r)) (db_roles (aw_db bob_world))
    && forallb (fun p => rights_name (perm_Name p)) (db_permissions (aw_db bob_world)) = true) by (vm_compute; reflexivity).
  apply andb_prop in H as [H1 H2]. split; by apply forallb_Forall.
Qed.

Lemma access_control_witness :
  (turned_away cfg0 (auth_handle env0) (fun w => w) "id-1" None (from_bob "GET" "/api/v1/files/list") bob_world \/
   passed_on cfg0 (auth_handle env0) (fun w => w) "id-1" None (from_bob "GET" "/api/v1/files/list") bob_world) /\
  (answer_of (from_bob "GET" "/api/v1/files/list")).1 = OK (JStr "done") /\
  rs_Status (answer_of (from_bob "POST" "/api/v1/files/write")).1 = 403.
Proof.
  split; [|split; vm_compute; reflexivity].
  apply (access_control env0 cfg0 (auth_handle env0) (fun w => w) inside_itself "id-1" None
    (from_bob "GET" "/api/v1/files/list") bob_world bob_world_ok bob_names).
Defined.

(** ** Every decision *)

Definition roles_of (id : Z) : list string := if id =? 1 then ["super_admin"] else ["operator"].
Definition permissions_of (id : Z) : list string := if id =? 1 then admin_permissions else operatorPermissions.

Lemma rights_by_reads db id roles permissions : (SelectRoles id db).1 = Ok roles -> (SelectPermissions id db).1 = Ok permissions ->
  roles <> [] -> has_rights db id roles permissions.
Proof. intros E1 E2 Hne. split; [|split; [|done]]; apply injective_projections; simpl; done. Qed.

Lemma bob_world_rights u : u ∈ db_users (aw_db bob_world) ->
  has_rights (aw_db bob_world) (u_ID u) (roles_of (u_ID u)) (permissions_of (u_ID u)).
Proof.
  intros Hu. assert (H : u_ID <$> db_users (aw_db bob_world) = [1; 2]) by (vm_compute; reflexivity).
  apply (list_elem_of_fmap_2 u_ID) in Hu as Hi. rewrite H in Hi. clear H Hu.
  assert (Hread : forall id, id = 1 \/ id = 2 -> (SelectRoles id (aw_db bob_world)).1 = Ok (roles_of id) /\
    (SelectPermissions id (aw_db bob_world)).1 = Ok (permissions_of id)).
  { intros id [-> | ->]; vm_compute; split; reflexivity. }
  destruct (Hread (u_ID u)) as [E1 E2].
  { rewrite !elem_of_cons in Hi. destruct Hi as [Hi|[Hi|Hi]]; [auto|auto|by apply elem_of_nil in Hi]. }
  apply (rights_by_reads _ _ _ _ E1 E2). unfold roles_of. by case_goal.
Qed.

Definition write_route : route := guarded_route "POST" "/files/write" "files.write" hWriteTextFile.

