(* ===== verification/Panel.v ===== *)
(** * The server as a whole

    The signature of the HTTP handlers: the operations of every component they
    call, and the few of their own.  Each component acts on its part of the
    world, in its own environment. *)

From Stdlib Require Import ZArith.
From S2P Require Import Prelude GoError Effects Agent BackupApi TaskService TaskSystem AuditRepo AuditService.
From S2P Require Import FileService LoginLimiter Crypto UserRepo AuthService AuthSystem.

Inductive panel_op :=
| PAuth (o : auth_op)
| PTask (o : task_op)
| PAudit (o : audit_op)
| PAllow (key : string)            (* h.loginAttempts *)
| PRecordFailure (key : string)
| PRecordSuccess (key : string)
| PRead (capacity : Z)             (* file.Read of an upload *)
| PPingContext                     (* sqlDB.PingContext *)
| PCheckHealth                     (* h.agentClient.CheckHealth *)
| PNow.

Definition panel_ans (o : panel_op) : Type :=
  match o with
  | PAuth o => auth_ans o
  | PTask o => task_ans o
  | PAudit o => audit_ans o
  | PAllow _ => option goerr
  | PRecordFailure _ | PRecordSuccess _ => unit
  | PRead _ => Z * option goerr * string
  | PPingContext => res unit
  | PCheckHealth => res string
  | PNow => Z
  end.

#[export] Instance auth_in_panel : SubOp auth_ans panel_ans := {| inj := PAuth; proj o (a : panel_ans (PAuth o)) := a |}.
#[export] Instance task_in_panel : SubOp task_ans panel_ans := {| inj := PTask; proj o (a : panel_ans (PTask o)) := a |}.
#[export] Instance audit_in_panel : SubOp audit_ans panel_ans := {| inj := PAudit; proj o (a : panel_ans (PAudit o)) := a |}.
#[export] Instance agent_in_panel : SubOp agent_ans panel_ans :=
  {| inj o := PTask (AgentCall o); proj o (a : panel_ans (PTask (AgentCall o))) := a |}.

Abbreviation panel A := (prog panel_ans A).

(** A file program of a handler: the chunks of a download are kept in
    [bufferedChunks], those of an upload come from the file of the form. *)
Fixpoint buffered {A} (p : prog file_ans A) (bufferedChunks : list string) : panel (A * list string) :=
  match p with
  | Ret x => Ret (x, bufferedChunks)
  | Do o k =>
    match o return (file_ans o -> prog file_ans A) -> (file_ans o -> list string -> panel (A * list string)) -> panel (A * list string) with
    | FileAgent o => fun _ next => Do (PTask (AgentCall o)) (fun a => next a bufferedChunks)
    | WriteChunk bytes => fun _ next => next None (bufferedChunks ++ [bytes])
    | ReadChunk capacity => fun _ next => Do (PRead capacity) (fun a => next a bufferedChunks)
    end k (fun a chunks => buffered (k a) chunks)
  end.

(** A file program without callbacks. *)
Definition files {A} (p : prog file_ans A) : panel A := bind (buffered p []) (fun r => Ret r.1).

(** ** Execution *)

Record PanelEnv (E : Type) := {
  pe_auth : AuthEnv;
  pe_tasks : Env;
  pe_audit : AuditEnv;
  pe_guard : nat -> E;
  pe_read : nat -> Z -> Z * option goerr * string;
  pe_ping : nat -> res unit;
  pe_health : nat -> res string;
  pe_now : nat -> Z
}.
Arguments pe_auth {E}.
Arguments pe_tasks {E}.
Arguments pe_audit {E}.
Arguments pe_guard {E}.
Arguments pe_read {E}.
Arguments pe_ping {E}.
Arguments pe_health {E}.
Arguments pe_now {E}.

Record PanelWorld (B G : Type) := MkPanel {
  pw_step : nat;
  pw_auth : AuthWorld;
  pw_tasks : World B;
  pw_audit : AuditWorld;
  pw_guard : G
}.
Arguments MkPanel {B G}.
Arguments pw_step {B G}.
Arguments pw_auth {B G}.
Arguments pw_tasks {B G}.
Arguments pw_audit {B G}.
Arguments pw_guard {B G}.

Section Panel.
Context {B E G : Type} `{BackupImpl B} `{LoginAttemptGuard E G} `{JWT} `{Bcrypt} `{Postgres} (env : PanelEnv E).
Implicit Type w : PanelWorld B G.

Definition set_auth (x : AuthWorld) w := MkPanel (S (pw_step w)) x (pw_tasks w) (pw_audit w) (pw_guard w).
Definition set_tasks (x : World B) w := MkPanel (S (pw_step w)) (pw_auth w) x (pw_audit w) (pw_guard w).
Definition set_audit (x : AuditWorld) w := MkPanel (S (pw_step w)) (pw_auth w) (pw_tasks w) x (pw_guard w).
Definition set_guard (x : G) w := MkPanel (S (pw_step w)) (pw_auth w) (pw_tasks w) (pw_audit w) x.

Definition panel_handle (o : panel_op) w : panel_ans o * PanelWorld B G :=
  let n := pw_step w in
  match o return panel_ans o * PanelWorld B G with
  | PAuth o => let '(a, x) := auth_handle (pe_auth env) o (pw_auth w) in (a, set_auth x w)
  | PTask o => let '(a, x) := TaskSystem.handle (pe_tasks env) o (pw_tasks w) in (a, set_tasks x w)
  | PAudit o => let '(a, x) := au_handle (pe_audit env) o (pw_audit w) in (a, set_audit x w)
  | PAllow key => let '(a, x) := Allow key (pe_guard env n) (pw_guard w) in (a, set_guard x w)
  | PRecordFailure key => (tt, set_guard (RecordFailure key (pe_guard env n) (pw_guard w)) w)
  | PRecordSuccess key => (tt, set_guard (RecordSuccess key (pe_guard env n) (pw_guard w)) w)
  | PRead capacity => (pe_read env n capacity, set_guard (pw_guard w) w)
  | PPingContext => (pe_ping env n, set_guard (pw_guard w) w)
  | PCheckHealth => (pe_health env n, set_guard (pw_guard w) w)
  | PNow => (pe_now env n, set_guard (pw_guard w) w)
  end.

(** Each component runs as it would alone. *)
Lemma auth_inside o w :
  proj (ans1 := auth_ans) (ans2 := panel_ans) o (panel_handle (inj (ans1 := auth_ans) (ans2 := panel_ans) o) w).1
    = (auth_handle (pe_auth env) o (pw_auth w)).1 /\
  pw_auth (panel_handle (inj (ans1 := auth_ans) (ans2 := panel_ans) o) w).2 = (auth_handle (pe_auth env) o (pw_auth w)).2.
Proof. cbn [inj proj auth_in_panel panel_handle]. by destruct (auth_handle _ _ _). Qed.

Lemma audit_inside o w :
  proj (ans1 := audit_ans) (ans2 := panel_ans) o (panel_handle (inj (ans1 := audit_ans) (ans2 := panel_ans) o) w).1
    = (au_handle (pe_audit env) o (pw_audit w)).1 /\
  pw_audit (panel_handle (inj (ans1 := audit_ans) (ans2 := panel_ans) o) w).2 = (au_handle (pe_audit env) o (pw_audit w)).2.
Proof. cbn [inj proj audit_in_panel panel_handle]. by destruct (au_handle _ _ _). Qed.

End Panel.
