(* ===== verification/Handlers.v ===== *)
(** * The HTTP handlers

    [internal/api/handler]: the handler of every route, a program over the
    services.  What gin's binding makes of a request is the class [Binding];
    the headers of a response are modelled for downloads only, without the
    sniffed content type. *)

From Stdlib Require Import ZArith Lia Ascii.
From S2P Require Import Prelude GoString GoTime GoError Effects Json Dto DtoJson Agent BackupApi AgentServices Dashboard.
From S2P Require Import TaskPayload TaskService AuditRepo AuditService FileService LoginLimiter Crypto UserRepo AuthService.
From S2P Require Import Http Panel.
From S2P Require BackupService.

Open Scope prog_scope.

(** ** Binding *)

(** The structs the handlers bind, by the call that binds them. *)
Inductive form :=
| BindLogin | BindRefresh | BindChangePassword
| BindListFiles | BindDownload | BindUpload | BindReadText | BindWriteText | BindMkdir | BindDelete | BindRename
| BindListServices
| BindCreateCron | BindUpdateCron | BindToggleCron
| BindListLogs | BindAuditCleanup
| BindListTasks | BindDockerRestart | BindServiceRestart
| BindListBackups | BindCreateBackup | BindCreateBackupTask | BindVerifyBackup | BindVerifyBackupTask | BindBackupCleanup.

Definition form_val (f : form) : Type :=
  match f with
  | BindLogin => dto.LoginRequest
  | BindRefresh => string
  | BindChangePassword => dto.ChangePasswordRequest
  | BindListFiles => string
  | BindDownload => dto.DownloadFileQuery
  | BindUpload => option string * Z   (* the path, if the form has one, and the offset *)
  | BindReadText => dto.ReadTextFileRequest
  | BindWriteText => dto.WriteTextFileRequest
  | BindMkdir => dto.CreateDirectoryRequest
  | BindDelete => dto.DeleteFileRequest
  | BindRename => dto.RenameFileRequest
  | BindListServices => string
  | BindCreateCron | BindUpdateCron => grpcclient.CreateCronTaskRequest
  | BindToggleCron => bool
  | BindListLogs => dto.ListAuditLogsQuery
  | BindAuditCleanup => dto.AuditRetentionCleanupRequest
  | BindListTasks => dto.ListTasksQuery
  | BindDockerRestart => dto.CreateDockerRestartTaskRequest
  | BindServiceRestart => dto.CreateServiceRestartTaskRequest
  | BindListBackups => dto.ListBackupsQuery
  | BindCreateBackup => dto.CreateBackupMetadataRequest
  | BindCreateBackupTask => dto.CreateBackupTaskRequest
  | BindVerifyBackup => dto.VerifyBackupRequest
  | BindVerifyBackupTask => dto.CreateBackupVerifyTaskRequest
  | BindBackupCleanup => dto.BackupRetentionCleanupRequest
  end.

Class Binding := {
  ShouldBind : forall f : form, request -> res (form_val f);
  PostForm : request -> string -> string;
  Query : request -> string -> string;
  FormFile : request -> res (string * res unit)   (* the name, and the outcome of opening it *)
}.

(** The values of the parameters in the path. *)
Definition Param (params : list (string * string)) (name : string) : string :=
  match List.find (fun p => (p.1 =? name)%string) params with Some p => p.2 | None => "" end.

(** [strconv.ParseInt(s, 10, 64)]: a sign and digits. *)
Fixpoint all_digits (s : string) (acc : Z) : option Z :=
  match s with
  | EmptyString => Some acc
  | String a rest => if (48 <=? byte a) && (byte a <=? 57) then all_digits rest (acc * 10 + (byte a - 48)) else None
  end.

Definition ParseInt (s : string) : option Z :=
  let '(sign, digits) :=
    match s with
    | String a rest => if byte a =? 43 then (1, rest) else if byte a =? 45 then (-1, rest) else (1, s)
    | EmptyString => (1, s)
    end in
  if (digits =? "")%string then None
  else match all_digits digits 0 with
       | Some n => let z := sign * n in if in_int64 z then Some z else None
       | None => None
       end.

(** [strconv.ParseUint(s, 10, 64)]. *)
Definition ParseUint (s : string) : option Z :=
  if (s =? "")%string then None
  else match all_digits s 0 with Some n => if n <? 2 ^ 64 then Some n else None | None => None end.

(** ** Auditing and answers *)

(** A handler gets the request, the parameters of the route and the values
    the middleware has set. *)
Abbreviation handler := (request -> list (string * string) -> ginctx -> panel response).

Definition default_text (value : string) (other : option string) : string :=
  if (value =? "")%string then default "" other else value.

(** [recordAudit] fills in what the caller left empty. *)
Definition fill_audit (req : request) (c : ginctx) (input : dto.RecordAuditInput) : dto.RecordAuditInput :=
  {| dto.ra_UserID := match dto.ra_UserID input with Some id => Some id | None => GetCurrentUserID c end;
     dto.ra_Username := default_text (dto.ra_Username input) (GetCurrentUsername c);
     dto.ra_IP := default_text (dto.ra_IP input) (Some (rq_ClientIP req));
     dto.ra_Module := dto.ra_Module input; dto.ra_Action := dto.ra_Action input;
     dto.ra_TargetType := dto.ra_TargetType input; dto.ra_TargetID := dto.ra_TargetID input;
     dto.ra_RequestSummary := dto.ra_RequestSummary input; dto.ra_Success := dto.ra_Success input;
     dto.ra_ResultCode := dto.ra_ResultCode input; dto.ra_ResultMessage := dto.ra_ResultMessage input;
     dto.ra_RequestID := default_text (dto.ra_RequestID input) (Some (cx_RequestID c));
     dto.ra_TraceID := default_text (dto.ra_TraceID input) (cx_TraceID c) |}.

Definition recordAudit (req : request) (c : ginctx) (input : dto.RecordAuditInput) : panel unit :=
  embed (Record_ (fill_audit req c input)).

(** What a handler says of a call: module, action, kind of target, summary. *)
Record subject := { sj_Module : string; sj_Action : string; sj_TargetType : string; sj_Summary : string }.

Definition outcome (s : subject) (TargetID : string) (Success : bool) (ResultCode ResultMessage : string) : dto.RecordAuditInput :=
  {| dto.ra_UserID := None; dto.ra_Username := ""; dto.ra_IP := ""; dto.ra_Module := sj_Module s; dto.ra_Action := sj_Action s;
     dto.ra_TargetType := sj_TargetType s; dto.ra_TargetID := TargetID; dto.ra_RequestSummary := sj_Summary s;
     dto.ra_Success := Success; dto.ra_ResultCode := ResultCode; dto.ra_ResultMessage := ResultMessage;
     dto.ra_RequestID := ""; dto.ra_TraceID := "" |}.

(** The entry of a caller the handler knows. *)
Definition by_user (UserID : option Z) (Username : string) (input : dto.RecordAuditInput) : dto.RecordAuditInput :=
  {| dto.ra_UserID := UserID; dto.ra_Username := Username; dto.ra_IP := dto.ra_IP input;
     dto.ra_Module := dto.ra_Module input; dto.ra_Action := dto.ra_Action input;
     dto.ra_TargetType := dto.ra_TargetType input; dto.ra_TargetID := dto.ra_TargetID input;
     dto.ra_RequestSummary := dto.ra_RequestSummary input; dto.ra_Success := dto.ra_Success input;
     dto.ra_ResultCode := dto.ra_ResultCode input; dto.ra_ResultMessage := dto.ra_ResultMessage input;
     dto.ra_RequestID := dto.ra_RequestID input; dto.ra_TraceID := dto.ra_TraceID input |}.

(** The common end of the handlers: the failed call is recorded and its error
    answered, or the successful one is recorded and its result answered. *)
Definition audited {A} (req : request) (c : ginctx) (s : subject) (failedTarget : string) (target : A -> string)
  (message : string) (data : A -> json) (call : panel (res A)) : panel response :=
  r <- call ;;
  match r with
  | Err err => recordAudit req c (outcome s failedTarget false "failed" (Error err)) ;;; Ret (FromError err)
  | Ok result => recordAudit req c (outcome s (target result) true "ok" message) ;;; Ret (OK (data result))
  end.

(** The end of the handlers that record nothing. *)
Definition answered {A} (data : A -> json) (call : panel (res A)) : panel response :=
  r <- call ;; Ret (match r with Err err => FromError err | Ok result => OK (data result) end).

Definition BadRequest (message : string) : response := Fail 400 (app_code ErrBadRequest) message.

Definition with_form `{Binding} (f : form) (req : request) (message : string) (next : form_val f -> panel response) : panel response :=
  match ShouldBind f req with
  | Err _ => Ret (BadRequest message)
  | Ok value => next value
  end.

(** [ShouldBindUri] into a struct whose only field is required. *)
Definition with_uri (params : list (string * string)) (name message : string) (next : string -> panel response) : panel response :=
  if (Param params name =? "")%string then Ret (BadRequest message) else next (Param params name).

(** A positive identifier in the path. *)
Definition with_id (params : list (string * string)) (message : string) (next : Z -> panel response) : panel response :=
  match ParseInt (Param params "id") with
  | Some id => if id <=? 0 then Ret (BadRequest message) else next id
  | None => Ret (BadRequest message)
  end.

Definition dq : string := String (chr 34) "".

(** [{"op":"..."}]. *)
Definition op_summary (op : string) : string := ("{" +:+ dq +:+ "op" +:+ dq +:+ ":" +:+ dq +:+ op +:+ dq +:+ "}")%string.

(** A member of a summary built with [Sprintf]: the name, and the printed value. *)
Definition raw_member (m : string * string) : string := (dq +:+ m.1 +:+ dq +:+ ":" +:+ m.2)%string.
Definition raw_object (l : list (string * string)) : string := ("{" +:+ Join (map raw_member l) "," +:+ "}")%string.

(** [%t]. *)
Definition fmt_t (b : bool) : string := if b then "true" else "false".

(** ** [system_handler.go] and [health_handler.go] *)
Module SystemHandler.

Definition Ping : handler := fun req params c =>
  now <- (call PNow : panel Z) ;;
  Ret (OK (JObj [("pong", JStr "snowpanel"); ("timestamp", JStr (FormatRFC3339 now))])).

End SystemHandler.

Module HealthHandler.

Record dependencyStatus := { Database : string; AgentStatus : string; Details : list (string * string) }.

(** Database and agent are configured. *)
Definition collectDependencyStatus : panel dependencyStatus :=
  ping <- (call PPingContext : panel (res unit)) ;;
  status <- (call PCheckHealth : panel (res string)) ;;
  let database := match ping with Ok _ => ("up", []) | Err err => ("down", [("database", Error err)]) end in
  let agent := match status with
               | Err err => ("down", [("agent", Error err)])
               | Ok status => if negb (EqualFold (TrimSpace status) "SERVING")
                              then ("down", [("agent", ("unexpected health status: " +:+ status)%string)])
                              else ("up", [])
               end in
  Ret {| Database := database.1; AgentStatus := agent.1; Details := agent.2 ++ database.2 |}.

(** The [gin.H] of both answers, its members in sorted order. *)
Definition report (checks : dependencyStatus) (status : string) : json :=
  JObj ([("checks", JObj [("agent", JStr (AgentStatus checks)); ("database", JStr (Database checks))])]
        ++ match Details checks with [] => [] | l => [("details", JObj (map (fun d => (d.1, JStr d.2)) l))] end
        ++ [("service", JStr "backend"); ("status", JStr status)]).

Definition is_down (s : string) : bool := (s =? "down")%string.

Definition Health : handler := fun req params c =>
  checks <- collectDependencyStatus ;;
  Ret (OK (report checks (if is_down (Database checks) || is_down (AgentStatus checks) then "degraded" else "up"))).

Definition Readiness : handler := fun req params c =>
  checks <- collectDependencyStatus ;;
  let data := report checks "ready" in
  Ret (if is_down (Database checks) || is_down (AgentStatus checks)
       then MkResponse 503 (JsonBody (envelope 1002 "service not ready" data))
       else OK data).

End HealthHandler.

(** ** [auth_handler.go] *)
Module AuthHandler.
Section Handlers.
Context `{Binding} `{JWT} `{Bcrypt} (cfg : AuthConfig).

Definition endpoint (action targetType path : string) : subject :=
  {| sj_Module := "auth"; sj_Action := action; sj_TargetType := targetType;
     sj_Summary := raw_object [("endpoint", (dq +:+ "/api/v1/auth/" +:+ path +:+ dq)%string)] |}.

Definition Unauthorized : response := Fail 401 (app_code ErrUnauthorized) (app_message ErrUnauthorized).

Definition Login : handler := fun req params c =>
  with_form BindLogin req "invalid login payload" (fun body =>
  let username := dto.lr_Username body in
  let record ok code message := recordAudit req c (by_user None username (outcome (endpoint "login" "user" "login") username ok code message)) in
  let attemptKey := BuildLoginAttemptKey username (rq_ClientIP req) in
  allowed <- (call (PAllow attemptKey) : panel (option goerr)) ;;
  match allowed with
  | Some err => record false "rate_limited" (Error err) ;;; Ret (FromError err)
  | None =>
    resp <- embed (AuthService.Login cfg body) ;;
    match resp with
    | Err err =>
      (match As err with
       | Some appErr =>
         if (ae_Code appErr =? app_code ErrInvalidCredential) || (ae_Code appErr =? app_code ErrUserDisabled)
         then (call (PRecordFailure attemptKey) : panel unit) else Ret tt
       | None => Ret tt
       end) ;;;
      record false "login_failed" (Error err) ;;; Ret (FromError err)
    | Ok resp =>
      (call (PRecordSuccess attemptKey) : panel unit) ;;;
      record true "ok" "login success" ;;; Ret (OK (LoginResponse_json resp))
    end
  end).

Definition Refresh : handler := fun req params c =>
  with_form BindRefresh req "invalid refresh payload" (fun refreshToken =>
  resp <- embed (AuthService.Refresh cfg refreshToken) ;;
  match resp with
  | Err err =>
    recordAudit req c (outcome (endpoint "refresh" "token" "refresh") "refresh" false "refresh_failed" (Error err)) ;;;
    Ret (FromError err)
  | Ok resp =>
    let user := dto.lres_User resp in
    recordAudit req c (by_user (Some (dto.up_ID user)) (dto.up_Username user)
      (outcome (endpoint "refresh" "user" "refresh") (dto.up_Username user) true "ok" "token refreshed")) ;;;
    Ret (OK (LoginResponse_json resp))
  end).

Definition Me : handler := fun req params c =>
  match GetCurrentUserID c with
  | None => Ret Unauthorized
  | Some userID => answered UserProfile_json (embed (AuthService.Me cfg userID))
  end.

Definition Logout : handler := fun req params c =>
  match GetCurrentUserID c with
  | None => Ret Unauthorized
  | Some userID =>
    let username := default "" (GetCurrentUsername c) in
    let record ok code message :=
      recordAudit req c (by_user (Some userID) username (outcome (endpoint "logout" "user" "logout") username ok code message)) in
    r <- embed (RevokeSession cfg userID) ;;
    match r with
    | Err err => record false "logout_failed" (Error err) ;;; Ret (FromError err)
    | Ok _ => record true "ok" "session revoked" ;;; Ret (OK (JObj [("revoked", JBool true)]))
    end
  end.

Definition ChangePassword : handler := fun req params c =>
  match GetCurrentUserID c with
  | None => Ret Unauthorized
  | Some userID =>
    let username := default "" (GetCurrentUsername c) in
    with_form BindChangePassword req "invalid change password payload" (fun body =>
    let record ok code message :=
      recordAudit req c (by_user (Some userID) username
        (outcome (endpoint "change_password" "user" "change-password") username ok code message)) in
    resp <- embed (AuthService.ChangePassword cfg userID body) ;;
    match resp with
    | Err err => record false "password_change_failed" (Error err) ;;; Ret (FromError err)
    | Ok resp => record true "ok" "password changed" ;;; Ret (OK (LoginResponse_json resp))
    end)
  end.

End Handlers.
End AuthHandler.

(** ** [file_handler.go] *)
Module FileHandler.
Section Handlers.
Context `{Binding}.

Definition on_path (action summary : string) : subject :=
  {| sj_Module := "files"; sj_Action := action; sj_TargetType := "path"; sj_Summary := summary |}.

Definition ListFiles : handler := fun req params c =>
  with_form BindListFiles req "invalid query params" (fun path =>
  audited req c (on_path "list" (op_summary "list")) path (fun _ => path) "list success" ListFilesResult_json
    (files (FileService.ListFiles path))).

(** [strings.CutSuffix(s, "-")]. *)
Fixpoint cut_dash (s : string) : option string :=
  match s with
  | EmptyString => None
  | String a EmptyString => if Ascii.eqb a (chr 45) then Some "" else None
  | String a rest => match cut_dash rest with Some r => Some (String a r) | None => None end
  end.

(** [bytes=N-] sets the offset when the query gives neither offset nor limit. *)
Definition with_range (req : request) (query : dto.DownloadFileQuery) : dto.DownloadFileQuery :=
  let rangeHeader := TrimSpace (rq_Header req "Range") in
  if negb (rangeHeader =? "")%string && (dto.dlq_Offset query =? 0) && (dto.dlq_Limit query =? 0)
     && HasPrefix rangeHeader "bytes=" then
    match cut_dash (TrimPrefix rangeHeader "bytes=") with
    | Some start =>
      match ParseUint (TrimSpace start) with
      | Some parsed => {| dto.dlq_Path := dto.dlq_Path query; dto.dlq_Offset := parsed; dto.dlq_Limit := dto.dlq_Limit query |}
      | None => query
      end
    | None => query
    end
  else query.

(** [path.Base]. *)
Definition is_slash (a : ascii) : bool := Ascii.eqb a (chr 47).

Fixpoint until_slash (l : list ascii) : list ascii :=
  match l with
  | [] => []
  | a :: l => if is_slash a then [] else a :: until_slash l
  end.

Definition path_Base (path : string) : string :=
  if (path =? "")%string then "."
  else match drop_while is_slash (rev (String.list_ascii_of_string path)) with
       | [] => "/"
       | l => String.string_of_list_ascii (rev (until_slash l))
       end.

Definition download_name (path : string) : string :=
  let fileName := path_Base (TrimSpace path) in
  if ((fileName =? "") || (fileName =? ".") || (fileName =? "/"))%string then "download.bin" else fileName.

Definition ranged (query : dto.DownloadFileQuery) : bool := (0 <? dto.dlq_Offset query) || (0 <? dto.dlq_Limit query).

Definition download_headers (query : dto.DownloadFileQuery) (result : dto.DownloadFileResult) : list (string * string) :=
  [("Content-Disposition", ("attachment; filename=" +:+ BackupService.Quote (download_name (dto.dlq_Path query)))%string);
   ("X-Content-Type-Options", "nosniff"); ("Accept-Ranges", "bytes"); ("Content-Length", fmt_d (dto.dl_DownloadedBytes result))]
  ++ if ranged query then
       [("Content-Range", ("bytes " +:+ fmt_d (dto.dl_StartOffset result) +:+ "-" +:+ fmt_d (dto.dl_EndOffset result) +:+ "/" +:+
                           fmt_d (dto.dl_TotalSize result))%string)]
     else [].

(** The loop over the buffered chunks; false when the client is gone. *)
Fixpoint write_body (chunks : list string) : panel bool :=
  match chunks with
  | [] => Ret true
  | chunk :: chunks =>
    r <- (call (PAudit (AWrite chunk)) : panel (res unit)) ;;
    match r with Err _ => Ret false | Ok _ => write_body chunks end
  end.

(** The answer of a transfer that the fuel does not see the end of. *)
Definition transferring : response := MkResponse 0 NoBody.

Definition DownloadFile (fuel : nat) : handler := fun req params c =>
  with_form BindDownload req "invalid query params" (fun query =>
  let query := with_range req query in
  let subject := on_path "download"
    (raw_object [("op", dq +:+ "download" +:+ dq)%string; ("offset", fmt_d (dto.dlq_Offset query)); ("limit", fmt_d (dto.dlq_Limit query))]) in
  downloaded <- buffered (FileService.DownloadFile fuel query true) [] ;;
  match downloaded.1 with
  | None => Ret transferring
  | Some (Err err) =>
    recordAudit req c (outcome subject (dto.dlq_Path query) false "failed" (Error err)) ;;; Ret (FromError err)
  | Some (Ok result) =>
    let sent := MkResponse (if ranged query then 206 else 200) (Streamed (download_headers query result)) in
    written <- write_body downloaded.2 ;;
    if written : bool
    then recordAudit req c (outcome subject (dto.dlq_Path query) true "ok" "download success") ;;; Ret sent
    else Ret sent
  end).

(** The upload once its target is known. *)
Definition upload_file (fuel : nat) (req : request) (c : ginctx) (targetPath : string) (up : dto.UploadFileRequest) : panel response :=
  match FormFile req with
  | Err _ => Ret (BadRequest "file is required")
  | Ok (_, Err _) => Ret (BadRequest "unable to open uploaded file")
  | Ok (Filename, Ok _) =>
    let subject := on_path "upload"
      (raw_object [("op", dq +:+ "upload" +:+ dq)%string; ("filename", BackupService.Quote Filename);
                   ("offset", fmt_d (dto.uplq_Offset up))]) in
    uploaded <- buffered (FileService.UploadFile fuel up true) [] ;;
    match uploaded.1 with
    | None => Ret transferring
    | Some result =>
      audited req c subject targetPath (fun _ => targetPath) "upload success" UploadFileResult_json (Ret result)
    end
  end.

(** The path of the form, else that of the query. *)
Definition upload_target (req : request) : string :=
  let targetPath := TrimSpace (PostForm req "path") in
  if (targetPath =? "")%string then TrimSpace (Query req "path") else targetPath.

Definition UploadFile (fuel : nat) : handler := fun req params c =>
  let targetPath := upload_target req in
  if (targetPath =? "")%string then Ret (BadRequest "path is required")
  else
    with_form BindUpload req "invalid upload params" (fun given =>
    (* the path of the form replaces the one set before, and is required *)
    match given.1 with
    | Some "" => Ret (BadRequest "invalid upload params")
    | path => upload_file fuel req c targetPath {| dto.uplq_Path := default targetPath path; dto.uplq_Offset := given.2 |}
    end).

Definition ReadTextFile : handler := fun req params c =>
  with_form BindReadText req "invalid request payload" (fun body =>
  audited req c (on_path "read" (op_summary "read")) (dto.rtfq_Path body) (fun _ => dto.rtfq_Path body) "read success"
    ReadTextFileResult_json (files (FileService.ReadTextFile body))).

Definition WriteTextFile : handler := fun req params c =>
  with_form BindWriteText req "invalid request payload" (fun body =>
  audited req c (on_path "write" (op_summary "write")) (dto.wtfq_Path body) (fun _ => dto.wtfq_Path body) "write success"
    WriteTextFileResult_json (files (FileService.WriteTextFile body))).

Definition CreateDirectory : handler := fun req params c =>
  with_form BindMkdir req "invalid request payload" (fun body =>
  audited req c (on_path "mkdir" (op_summary "mkdir")) (dto.mkq_Path body) (fun _ => dto.mkq_Path body) "mkdir success"
    CreateDirectoryResult_json (files (FileService.CreateDirectory body))).

Definition DeleteFile : handler := fun req params c =>
  with_form BindDelete req "invalid request payload" (fun body =>
  audited req c (on_path "delete" (op_summary "delete")) (dto.delq_Path body) (fun _ => dto.delq_Path body) "delete success"
    DeleteFileResult_json (files (FileService.DeleteFile body))).

Definition RenameFile : handler := fun req params c =>
  with_form BindRename req "invalid request payload" (fun body =>
  audited req c (on_path "rename" (op_summary "rename")) (dto.renq_SourcePath body) (fun _ => dto.renq_SourcePath body) "rename success"
    RenameFileResult_json (files (FileService.RenameFile body))).

End Handlers.
End FileHandler.

(** ** [service_handler.go], [docker_handler.go] *)
Module DashboardHandler.

(** [unrendered] is what gin answers when the body cannot be encoded. *)
Definition Summary (unrendered : response) : handler := fun req params c =>
  summary <- (GetSummary : panel (res dto.DashboardSummary)) ;;
  Ret match summary with
      | Err err => FromError err
      | Ok summary => from_option OK unrendered (DashboardSummary_json summary)
      end.

End DashboardHandler.

Module ServiceHandler.
Section Handlers.
Context `{Binding}.

Definition on_service (action op : string) : subject :=
  {| sj_Module := "services"; sj_Action := action; sj_TargetType := "service"; sj_Summary := op_summary op |}.

Definition ListServices : handler := fun req params c =>
  with_form BindListServices req "invalid query params" (fun keyword =>
  audited req c (on_service "list" "list_services") keyword (fun _ => keyword) "list success" ListServicesResult_json
    (AgentServices.ListServices keyword)).

Definition StartService : handler := fun req params c =>
  with_uri params "name" "invalid service name" (fun name =>
  audited req c (on_service "start" "start_service") name (fun _ => name) "start success" ServiceActionResult_json
    (AgentServices.StartService name)).

Definition StopService : handler := fun req params c =>
  with_uri params "name" "invalid service name" (fun name =>
  audited req c (on_service "stop" "stop_service") name (fun _ => name) "stop success" ServiceActionResult_json
    (AgentServices.StopService name)).

Definition RestartService : handler := fun req params c =>
  with_uri params "name" "invalid service name" (fun name =>
  audited req c (on_service "restart" "restart_service") name (fun _ => name) "restart success" ServiceActionResult_json
    (AgentServices.RestartService name)).

End Handlers.
End ServiceHandler.

Module DockerHandler.

Definition on_docker (action targetType : string) : subject :=
  {| sj_Module := "docker"; sj_Action := action; sj_TargetType := targetType; sj_Summary := op_summary action |}.

Definition ListContainers : handler := fun req params c =>
  audited req c (on_docker "list_containers" "docker_container") "" (fun _ => "") "list success" ListDockerContainersResult_json
    AgentServices.ListContainers.

Definition StartContainer : handler := fun req params c =>
  with_uri params "id" "invalid container id" (fun id =>
  audited req c (on_docker "start_container" "docker_container") id (fun _ => id) "start success" DockerContainerActionResult_json
    (AgentServices.StartContainer id)).

Definition StopContainer : handler := fun req params c =>
  with_uri params "id" "invalid container id" (fun id =>
  audited req c (on_docker "stop_container" "docker_container") id (fun _ => id) "stop success" DockerContainerActionResult_json
    (AgentServices.StopContainer id)).

Definition RestartContainer : handler := fun req params c =>
  with_uri params "id" "invalid container id" (fun id =>
  audited req c (on_docker "restart_container" "docker_container") id (fun _ => id) "restart success" DockerContainerActionResult_json
    (AgentServices.RestartContainer id)).

Definition ListImages : handler := fun req params c =>
  audited req c (on_docker "list_images" "docker_image") "" (fun _ => "") "list success" ListDockerImagesResult_json
    AgentServices.ListImages.

End DockerHandler.

(** ** [cron_handler.go] *)
Module CronHandler.
Section Handlers.
Context `{Binding}.

(** [cronAuditSummary]: the members of the map in sorted order. *)
Definition cronAuditSummary (fields : list (string * json)) : string := Marshal (JObj fields).

Definition on_task (action : string) (fields : list (string * json)) : subject :=
  {| sj_Module := "cron"; sj_Action := action; sj_TargetType := "task"; sj_Summary := cronAuditSummary fields |}.

Definition ListTasks : handler := fun req params c =>
  audited req c (on_task "list" [("op", JStr "list")]) "*" (fun _ => "*") "list success" ListCronTasksResult_json cron_ListTasks.

Definition CreateTask : handler := fun req params c =>
  with_form BindCreateCron req "invalid request payload" (fun body =>
  let command := grpcclient.ccq_Command body in
  audited req c
    (on_task "create" [("command", JStr command); ("enabled", JBool (grpcclient.ccq_Enabled body));
                       ("expression", JStr (grpcclient.ccq_Expression body)); ("op", JStr "create")])
    command dto.cron_ID "create success" CreateCronTaskResult_json (cron_CreateTask body)).

Definition UpdateTask : handler := fun req params c =>
  with_uri params "id" "invalid task id" (fun id =>
  with_form BindUpdateCron req "invalid request payload" (fun body =>
  audited req c
    (on_task "update" [("command", JStr (grpcclient.ccq_Command body)); ("enabled", JBool (grpcclient.ccq_Enabled body));
                       ("expression", JStr (grpcclient.ccq_Expression body)); ("id", JStr id); ("op", JStr "update")])
    id dto.cron_ID "update success" UpdateCronTaskResult_json (cron_UpdateTask id body))).

Definition DeleteTask : handler := fun req params c =>
  with_uri params "id" "invalid task id" (fun id =>
  audited req c (on_task "delete" [("id", JStr id); ("op", JStr "delete")]) id (fun deleted => deleted) "delete success"
    DeleteCronTaskResult_json (cron_DeleteTask id)).

(** No route leads here. *)
Definition SetEnabled : handler := fun req params c =>
  with_uri params "id" "invalid task id" (fun id =>
  with_form BindToggleCron req "invalid request payload" (fun enabled =>
  audited req c (on_task "set_enabled" [("enabled", JBool enabled); ("id", JStr id); ("op", JStr "set_enabled")])
    id dto.cron_ID "set enabled success" ToggleCronTaskResult_json (cron_SetEnabled id enabled))).

Definition toggle (enabled : bool) : handler := fun req params c =>
  with_uri params "id" "invalid task id" (fun id =>
  let action := if enabled then "enable" else "disable" in
  audited req c (on_task action [("enabled", JBool enabled); ("id", JStr id); ("op", JStr action)])
    id dto.cron_ID (action +:+ " success")%string ToggleCronTaskResult_json (cron_SetEnabled id enabled)).

Definition EnableTask : handler := toggle true.
Definition DisableTask : handler := toggle false.

End Handlers.
End CronHandler.

(** ** [audit_handler.go] *)
Module AuditHandler.
Section Handlers.
Context `{Binding} (service : auditService).

Definition ListLogs : handler := fun req params c =>
  with_form BindListLogs req "invalid query params" (fun query =>
  answered ListAuditLogsResult_json (embed (AuditService.List query))).

(** [t.Format("20060102T150405Z")] of a time in UTC. *)
Definition FormatCompact (t : Z) : string :=
  let s := Unix t in
  let '(y, m, d) := civil_from_days (s / 86400) in
  let r := s mod 86400 in
  (pad4 y +:+ pad2 m +:+ pad2 d +:+ "T" +:+ pad2 (r / 3600) +:+ pad2 (r / 60 mod 60) +:+ pad2 (r mod 60) +:+ "Z")%string.

Definition exportDisposition (now : Z) (format : string) : string :=
  ("attachment; filename=" +:+ dq +:+ "snowpanel-audit-" +:+ FormatCompact now +:+ "." +:+ format +:+ dq)%string.

(** What the service has written to the writer comes before an error. *)
Definition ExportLogs : handler := fun req params c =>
  with_form BindListLogs req "invalid query params" (fun query =>
  let format := export_format (Query req "format") in
  let export contentType :=
    now <- (call PNow : panel Z) ;;
    r <- embed (Export service query format) ;;
    Ret (match r with
         | Err err => FromError err
         | Ok _ => MkResponse 200 (Streamed [("Content-Type", contentType); ("Content-Disposition", exportDisposition now format)])
         end) in
  if (format =? "csv")%string then export "text/csv; charset=utf-8"
  else if (format =? "jsonl")%string then export "application/x-ndjson; charset=utf-8"
  else Ret (BadRequest "unsupported audit export format")).

Definition auditCleanupSummary (req : dto.AuditRetentionCleanupRequest) : string :=
  raw_object [("dry_run", fmt_t (dto.arq_DryRun req)); ("retention_days", fmt_d (dto.arq_RetentionDays req));
              ("archive_before_delete", fmt_t (dto.arq_ArchiveBeforeDelete req))].

Definition CleanupRetention : handler := fun req params c =>
  with_form BindAuditCleanup req "invalid request body" (fun body =>
  audited req c
    {| sj_Module := "audit"; sj_Action := "retention_cleanup"; sj_TargetType := "audit_logs"; sj_Summary := auditCleanupSummary body |}
    "" (fun _ => "") "audit retention cleanup completed" AuditRetentionCleanupResult_json
    (embed (AuditService.CleanupRetention service body))).

End Handlers.
End AuditHandler.

(** ** [task_handler.go] *)
Module TaskHandler.
Section Handlers.
Context `{Binding} (service : TaskServiceOptions).

Definition on_task (action summary : string) : subject :=
  {| sj_Module := "tasks"; sj_Action := action; sj_TargetType := "task"; sj_Summary := summary |}.

Definition current_username (c : ginctx) : string := default "" (GetCurrentUsername c).

Definition task_target (result : dto.CreateTaskResult) : string := fmt_d (dto.ctr_ID result).

(** The value of the second member goes into the text as it is. *)
Definition restart_summary (operation name value : string) : string :=
  raw_object [("operation", dq +:+ operation +:+ dq)%string; (name, dq +:+ value +:+ dq)%string].

Definition CreateDockerRestartTask : handler := fun req params c =>
  with_form BindDockerRestart req "invalid request body" (fun body =>
  let containerID := dto.drt_ContainerID body in
  audited req c (on_task "create_docker_restart" (restart_summary "docker.restart" "container_id" containerID))
    containerID task_target "task created" CreateTaskResult_json
    (embed (TaskService.CreateDockerRestartTask service body (GetCurrentUserID c) (current_username c)))).

Definition CreateServiceRestartTask : handler := fun req params c =>
  with_form BindServiceRestart req "invalid request body" (fun body =>
  let serviceName := dto.srt_ServiceName body in
  audited req c (on_task "create_service_restart" (restart_summary "service.restart" "service_name" serviceName))
    serviceName task_target "task created" CreateTaskResult_json
    (embed (TaskService.CreateServiceRestartTask service body (GetCurrentUserID c) (current_username c)))).

Definition ListTasks : handler := fun req params c =>
  with_form BindListTasks req "invalid query params" (fun query =>
  answered ListTasksResult_json (embed (TaskService.ListTasks query))).

Definition GetTaskDetail : handler := fun req params c =>
  with_id params "invalid task id" (fun id => answered TaskDetail_json (embed (TaskService.GetTaskDetail id))).

Definition operation (op : string) : string := raw_object [("operation", dq +:+ op +:+ dq)%string].

Definition CancelTask : handler := fun req params c =>
  with_id params "invalid task id" (fun id =>
  audited req c (on_task "cancel" (operation "cancel")) (fmt_d id) (fun _ => fmt_d id) "task canceled"
    (fun _ => JObj [("id", JInt id); ("status", JStr TaskStatusCanceled)])
    (embed (TaskService.CancelTask id (current_username c)))).

Definition RetryTask : handler := fun req params c =>
  with_id params "invalid task id" (fun id =>
  audited req c (on_task "retry" (operation "retry")) (fmt_d id) task_target "task retried" CreateTaskResult_json
    (embed (TaskService.RetryTask service id (GetCurrentUserID c) (current_username c)))).

End Handlers.
End TaskHandler.

(** ** [backup_handler.go] *)
Module BackupHandler.
Section Handlers.
Context `{Binding} (taskService : TaskServiceOptions).

Definition backups (o : backup_op) : panel (backup_ans o) := Do (PTask (BackupCall o)) Ret.

Definition on_backup (action summary : string) : subject :=
  {| sj_Module := "backups"; sj_Action := action; sj_TargetType := "backup"; sj_Summary := summary |}.

Definition backup_target (result : dto.BackupSummary) : string := fmt_d (dto.bs_ID result).

Definition resource_summary (ResourceType ResourceID StorageType : string) : string :=
  raw_object [("resource_type", BackupService.Quote ResourceType); ("resource_id", BackupService.Quote ResourceID);
              ("storage_type", BackupService.Quote StorageType)].

Definition backupCreateSummary (req : dto.CreateBackupMetadataRequest) : string :=
  resource_summary (dto.bm_ResourceType req) (dto.bm_ResourceID req) (dto.bm_StorageType req).

Definition backupTaskCreateSummary (req : dto.CreateBackupTaskRequest) : string :=
  resource_summary (dto.bt_ResourceType req) (dto.bt_ResourceID req) (dto.bt_StorageType req).

Definition backupVerifySummary (req : dto.VerifyBackupRequest) : string :=
  raw_object [("size_bytes", fmt_d (dto.vb_SizeBytes req)); ("checksum", BackupService.Quote (dto.vb_Checksum req))].

Definition backupVerifyTaskSummary (req : dto.CreateBackupVerifyTaskRequest) : string :=
  raw_object [("size_bytes", fmt_d (dto.vt_SizeBytes req)); ("checksum", BackupService.Quote (dto.vt_Checksum req))].

Definition backupCleanupSummary (req : dto.BackupRetentionCleanupRequest) : string :=
  raw_object [("dry_run", fmt_t (dto.brq_DryRun req)); ("retention_days", fmt_d (dto.brq_RetentionDays req));
              ("archive_before_delete", fmt_t (dto.brq_ArchiveBeforeDelete req))].

Definition ListBackups : handler := fun req params c =>
  with_form BindListBackups req "invalid query params" (fun query =>
  answered ListBackupsResult_json (backups (BList query))).

Definition CreateBackup : handler := fun req params c =>
  with_form BindCreateBackup req "invalid request body" (fun body =>
  audited req c (on_backup "create" (backupCreateSummary body)) (dto.bm_ResourceID body) backup_target
    "backup metadata created" BackupSummary_json (backups (BCreateMetadata body (GetCurrentUserID c)))).

Definition CreateBackupTask : handler := fun req params c =>
  with_form BindCreateBackupTask req "invalid request body" (fun body =>
  audited req c (on_backup "create_task" (backupTaskCreateSummary body)) (dto.bt_ResourceID body)
    (fun result => backup_target (dto.btr_Backup result)) "backup task created" CreateBackupTaskResult_json
    (embed (TaskService.CreateBackupTask taskService body (GetCurrentUserID c) (TaskHandler.current_username c)))).

Definition VerifyBackup : handler := fun req params c =>
  with_id params "invalid backup id" (fun id =>
  with_form BindVerifyBackup req "invalid request body" (fun body =>
  audited req c (on_backup "verify" (backupVerifySummary body)) (fmt_d id) backup_target "backup metadata verified"
    BackupSummary_json (backups (BVerify id body)))).

(** An empty body is a request without overrides. *)
Definition VerifyBackupTask : handler := fun req params c =>
  with_id params "invalid backup id" (fun id =>
  let verify body :=
    audited req c (on_backup "verify_task" (backupVerifyTaskSummary body)) (fmt_d id) (fun _ => fmt_d id)
      "backup verify task created" CreateBackupVerifyTaskResult_json
      (embed (TaskService.CreateBackupVerifyTask taskService id body (GetCurrentUserID c) (TaskHandler.current_username c))) in
  match ShouldBind BindVerifyBackupTask req with
  | Ok body => verify body
  | Err ErrEOF => verify {| dto.vt_SizeBytes := 0; dto.vt_Checksum := ""; dto.vt_FilePath := ""; dto.vt_IdempotencyKey := "" |}
  | Err _ => Ret (BadRequest "invalid request body")
  end).

Definition CleanupRetention : handler := fun req params c =>
  with_form BindBackupCleanup req "invalid request body" (fun body =>
  audited req c (on_backup "retention_cleanup" (backupCleanupSummary body)) "" (fun _ => "")
    "backup retention cleanup completed" BackupRetentionCleanupResult_json (backups (BCleanupRetention body))).

End Handlers.
End BackupHandler.

(** ** The handler of every route *)
Section Router.
Context `{Binding} `{JWT} `{Bcrypt}.

(** The services behind the handlers, the chunks a transfer may take, the
    handler of Prometheus, and gin's answer to a body that cannot be encoded. *)
Record deps := {
  dp_Auth : AuthConfig;
  dp_Tasks : TaskServiceOptions;
  dp_Audit : auditService;
  dp_Chunks : nat;
  dp_Metrics : response;
  dp_Unrendered : response
}.

Definition run_handler (d : deps) (h : handler_id) : handler :=
  match h with
  | hHealth => HealthHandler.Health
  | hReadiness => HealthHandler.Readiness
  | hMetrics => fun _ _ _ => Ret (dp_Metrics d)
  | hPing => SystemHandler.Ping
  | hLogin => AuthHandler.Login (dp_Auth d)
  | hRefresh => AuthHandler.Refresh (dp_Auth d)
  | hMe => AuthHandler.Me (dp_Auth d)
  | hLogout => AuthHandler.Logout (dp_Auth d)
  | hChangePassword => AuthHandler.ChangePassword (dp_Auth d)
  | hSummary => DashboardHandler.Summary (dp_Unrendered d)
  | hListFiles => FileHandler.ListFiles
  | hDownloadFile => FileHandler.DownloadFile (dp_Chunks d)
  | hUploadFile => FileHandler.UploadFile (dp_Chunks d)
  | hReadTextFile => FileHandler.ReadTextFile
  | hWriteTextFile => FileHandler.WriteTextFile
  | hRenameFile => FileHandler.RenameFile
  | hCreateDirectory => FileHandler.CreateDirectory
  | hDeleteFile => FileHandler.DeleteFile
  | hListServices => ServiceHandler.ListServices
  | hStartService => ServiceHandler.StartService
  | hStopService => ServiceHandler.StopService
  | hRestartService => ServiceHandler.RestartService
  | hListContainers => DockerHandler.ListContainers
  | hStartContainer => DockerHandler.StartContainer
  | hStopContainer => DockerHandler.StopContainer
  | hRestartContainer => DockerHandler.RestartContainer
  | hListImages => DockerHandler.ListImages
  | hCronList => CronHandler.ListTasks
  | hCronCreate => CronHandler.CreateTask
  | hCronUpdate => CronHandler.UpdateTask
  | hCronDelete => CronHandler.DeleteTask
  | hCronEnable => CronHandler.EnableTask
  | hCronDisable => CronHandler.DisableTask
  | hListLogs => AuditHandler.ListLogs
  | hExportLogs => AuditHandler.ExportLogs (dp_Audit d)
  | hAuditCleanup => AuditHandler.CleanupRetention (dp_Audit d)
  | hListTasks => TaskHandler.ListTasks
  | hGetTaskDetail => TaskHandler.GetTaskDetail
  | hCreateDockerRestartTask => TaskHandler.CreateDockerRestartTask (dp_Tasks d)
  | hCreateServiceRestartTask => TaskHandler.CreateServiceRestartTask (dp_Tasks d)
  | hCancelTask => TaskHandler.CancelTask
  | hRetryTask => TaskHandler.RetryTask (dp_Tasks d)
  | hListBackups => BackupHandler.ListBackups
  | hCreateBackup => BackupHandler.CreateBackup
  | hCreateBackupTask => BackupHandler.CreateBackupTask (dp_Tasks d)
  | hBackupCleanup => BackupHandler.CleanupRetention
  | hVerifyBackup => BackupHandler.VerifyBackup
  | hVerifyBackupTask => BackupHandler.VerifyBackupTask (dp_Tasks d)
  end.

End Router.
