(* ===== verification/HandlerProps.v ===== *)
(** * What the handlers record

    Every call of a service that is to be audited ends with exactly one entry,
    written after the call and before the answer, that tells who asked, for
    what, and whether it succeeded as the client was told. *)

From Stdlib Require Import ZArith Lia.
From stdpp Require Import sets.
From S2P Require Import Prelude GoString GoTime GoError Effects Table Schema Json Redaction Dto Agent BackupApi AgentServices.
From S2P Require Import TaskPayload TaskService TaskSystem AuditRepo AuditService AuditProps FileService LoginLimiter.
From S2P Require Import Crypto UserRepo AuthService AuthSystem AuthProps Http Access Panel Handlers.

(** ** The entries *)

(** Module and action of the entry a handler writes. *)
Definition audit_subject (h : handler_id) : option (string * string) :=
  match h with
  | hLogin => Some ("auth", "login") | hRefresh => Some ("auth", "refresh") | hLogout => Some ("auth", "logout")
  | hChangePassword => Some ("auth", "change_password")
  | hListFiles => Some ("files", "list") | hDownloadFile => Some ("files", "download") | hUploadFile => Some ("files", "upload")
  | hReadTextFile => Some ("files", "read") | hWriteTextFile => Some ("files", "write") | hRenameFile => Some ("files", "rename")
  | hCreateDirectory => Some ("files", "mkdir") | hDeleteFile => Some ("files", "delete")
  | hListServices => Some ("services", "list") | hStartService => Some ("services", "start")
  | hStopService => Some ("services", "stop") | hRestartService => Some ("services", "restart")
  | hListContainers => Some ("docker", "list_containers") | hStartContainer => Some ("docker", "start_container")
  | hStopContainer => Some ("docker", "stop_container") | hRestartContainer => Some ("docker", "restart_container")
  | hListImages => Some ("docker", "list_images")
  | hCronList => Some ("cron", "list") | hCronCreate => Some ("cron", "create") | hCronUpdate => Some ("cron", "update")
  | hCronDelete => Some ("cron", "delete") | hCronEnable => Some ("cron", "enable") | hCronDisable => Some ("cron", "disable")
  | hAuditCleanup => Some ("audit", "retention_cleanup")
  | hCreateDockerRestartTask => Some ("tasks", "create_docker_restart")
  | hCreateServiceRestartTask => Some ("tasks", "create_service_restart")
  | hCancelTask => Some ("tasks", "cancel") | hRetryTask => Some ("tasks", "retry")
  | hCreateBackup => Some ("backups", "create") | hCreateBackupTask => Some ("backups", "create_task")
  | hVerifyBackup => Some ("backups", "verify") | hVerifyBackupTask => Some ("backups", "verify_task")
  | hBackupCleanup => Some ("backups", "retention_cleanup")
  | hHealth | hReadiness | hMetrics | hPing | hMe | hSummary | hListLogs | hExportLogs | hListTasks | hGetTaskDetail
  | hListBackups => None
  end.

(** What the client is told of a call that succeeded. *)
Definition succeeded (resp : response) : Prop :=
  (exists data, resp = OK data) \/ exists st headers, resp = MkResponse st (Streamed headers) /\ (st = 200 \/ st = 206).

(** The entry says what the answer says. *)
Definition reported (input : dto.RecordAuditInput) (resp : response) : Prop :=
  if dto.ra_Success input then succeeded resp
  else exists err, resp = FromError err /\ dto.ra_ResultMessage input = Error err.

(** An entry about a request.  A refresh names the user of the new session. *)
Definition entry_of (h : handler_id) (subject : string * string) (req : request) (c : ginctx)
  (input : dto.RecordAuditInput) (resp : response) : Prop :=
  (dto.ra_Module input, dto.ra_Action input) = subject /\ dto.ra_IP input = rq_ClientIP req /\
  dto.ra_RequestID input = cx_RequestID c /\ reported input resp /\
  (h <> hRefresh -> forall id, cx_UserID c = Some id -> dto.ra_UserID input = Some id).

(** ** Programs that end with an entry *)

(** The operations that leave the entries alone; a clean-up may delete some. *)
Definition quiet (cleans : bool) (o : panel_op) : Prop :=
  match o with
  | PAudit (ARepo (ARCreate _)) => False
  | PAudit (ARepo (ARDeleteBefore _)) => cleans = true
  | _ => True
  end.

(** An answer of the world when the client reads on. *)
Definition client_reads (o : panel_op) : panel_ans o -> Prop :=
  match o return panel_ans o -> Prop with
  | PAudit (AWrite _) => fun r => r = Ok tt
  | _ => fun _ => True
  end.

(** Quiet operations, then one entry, then the answer. *)
Fixpoint records (cleans : bool) (P : dto.RecordAuditInput -> response -> Prop) (p : panel response) : Prop :=
  match p with
  | Ret resp => resp = FileHandler.transferring
  | Do o k =>
    (quiet cleans o /\ forall a, client_reads o a -> records cleans P (k a)) \/
    exists input resp, o = PAudit (ARepo (ARCreate (audit_row input))) /\ (forall a, k a = Ret resp) /\ P input resp
  end.

(** Refused before anything is done, or done and recorded. *)
Definition handled (cleans : bool) (P : dto.RecordAuditInput -> response -> Prop) (p : panel response) : Prop :=
  (exists resp, p = Ret resp /\ (rs_Status resp = 400 \/ rs_Status resp = 401)) \/ records cleans P p.

Section Records.
Context (cleans : bool) (P : dto.RecordAuditInput -> response -> Prop).

Lemma records_bind {A} (p : panel A) (f : A -> panel response) :
  all_ops (quiet cleans) p -> (forall x, records cleans P (f x)) -> records cleans P (bind p f).
Proof.
  intros Hp Hf. induction p as [x|o k IH]; cbn [bind]; [apply Hf|]. destruct Hp as [Ho Hk]. left. split; [done|].
  intros a _. by apply IH.
Qed.

Lemma records_embed {A} (p : prog auth_ans A) (f : A -> panel response) :
  (forall x, records cleans P (f x)) -> records cleans P (bind (embed p) f).
Proof. intros Hf. induction p as [x|o k IH]; cbn [embed bind]; [apply Hf|]. left. by split. Qed.

Lemma records_task {A} (p : prog task_ans A) (f : A -> panel response) :
  (forall x, records cleans P (f x)) -> records cleans P (bind (embed p) f).
Proof. intros Hf. induction p as [x|o k IH]; cbn [embed bind]; [apply Hf|]. left. by split. Qed.

Lemma records_buffered {A} (p : prog file_ans A) (f : A * list string -> panel response) : forall chunks,
  (forall x, records cleans P (f x)) -> records cleans P (bind (buffered p chunks) f).
Proof.
  intros chunks Hf. revert chunks. induction p as [x|o k IH]; intros chunks; cbn [buffered bind]; [apply Hf|].
  destruct o as [o|bytes|capacity]; cbn [buffered bind]; [left; by split|apply IH|left; by split].
Qed.

(** The record itself. *)
Lemma records_recordAudit req c input resp : P (fill_audit req c input) resp ->
  records cleans P (bind (recordAudit req c input) (fun _ => Ret resp)).
Proof. intros HP. right. by exists (fill_audit req c input), resp. Qed.

Lemma records_write_body chunks (f : bool -> panel response) :
  records cleans P (f true) -> records cleans P (bind (FileHandler.write_body chunks) f).
Proof.
  intros Hf. induction chunks as [|x chunks IH]; cbn [FileHandler.write_body bind]; [done|].
  left. split; [done|]. intros a ->. exact IH.
Qed.

Lemma records_audited {A} req c s failedTarget target message data (call : panel (res A)) :
  (forall f, (forall x, records cleans P (f x)) -> records cleans P (bind call f)) ->
  (forall err, P (fill_audit req c (outcome s failedTarget false "failed" (Error err))) (FromError err)) ->
  (forall result, P (fill_audit req c (outcome s (target result) true "ok" message)) (OK (data result))) ->
  records cleans P (audited req c s failedTarget target message data call).
Proof. intros Hc He Hok. apply Hc. intros [result|err]; by apply records_recordAudit. Qed.

Lemma handled_form `{Binding} f req message next :
  (forall value, handled cleans P (next value)) -> handled cleans P (with_form f req message next).
Proof. intros Hn. unfold with_form. destruct (ShouldBind f req); [done|left; eexists; split; [done|by left]]. Qed.

Lemma handled_uri params name message next :
  (forall value, handled cleans P (next value)) -> handled cleans P (with_uri params name message next).
Proof. intros Hn. unfold with_uri. destruct (_ =? _)%string; [left; eexists; split; [done|by left]|done]. Qed.

Lemma handled_id params message next :
  (forall id, handled cleans P (next id)) -> handled cleans P (with_id params message next).
Proof.
  intros Hn. unfold with_id. destruct (ParseInt _) as [id|]; [|left; eexists; split; [done|by left]].
  destruct (id <=? 0); [left; eexists; split; [done|by left]|done].
Qed.

Lemma handled_refused resp : rs_Status resp = 400 \/ rs_Status resp = 401 -> handled cleans P (Ret resp).
Proof. intros Hs. left. by exists resp. Qed.

End Records.

Lemma entry_outcome h subject req c s target ok code message resp :
  (sj_Module s, sj_Action s) = subject ->
  (if ok : bool then succeeded resp else exists err, resp = FromError err /\ message = Error err) ->
  entry_of h subject req c (fill_audit req c (outcome s target ok code message)) resp.
Proof.
  intros Hs Hr. split; [done|]. split; [done|]. split; [done|]. split; [done|]. intros _ id E. cbn. unfold GetCurrentUserID. by rewrite E.
Qed.

Lemma entry_by_user h subject req c user name s target ok code message resp :
  (sj_Module s, sj_Action s) = subject -> (h = hRefresh \/ user = None \/ user = cx_UserID c) ->
  (if ok : bool then succeeded resp else exists err, resp = FromError err /\ message = Error err) ->
  entry_of h subject req c (fill_audit req c (by_user user name (outcome s target ok code message))) resp.
Proof.
  intros Hs Hu Hr. split; [done|]. split; [done|]. split; [done|]. split; [done|]. intros Hh id E. cbn.
  destruct Hu as [?|[-> | ->]]; [done| |]; rewrite ?E; done.
Qed.

Lemma succeeded_OK data : succeeded (OK data).
Proof. left. by exists data. Qed.

(** ** Every handler *)
Section Handlers.
Context `{Binding} `{JWT} `{Bcrypt} (d : deps).

Lemma ops_buffered cleans {A} (p : prog file_ans A) : forall chunks, all_ops (quiet cleans) (buffered p chunks).
Proof.
  induction p as [x|o k IH]; intros chunks; cbn [buffered all_ops]; [done|].
  destruct o as [o|bytes|capacity]; cbn [buffered all_ops]; [by split|apply IH|by split].
Qed.

Lemma ops_files cleans {A} (p : prog file_ans A) : all_ops (quiet cleans) (files p).
Proof. apply all_ops_bind; [apply ops_buffered|done]. Qed.

Lemma ops_mapped cleans {A B} (f : A -> B) (p : panel (res A)) : all_ops (quiet cleans) p -> all_ops (quiet cleans) (mapped f p).
Proof. intros Hp. apply all_ops_bind; [done|]. by intros [x|e]. Qed.

Lemma ops_agent cleans o : all_ops (quiet cleans) (agent (ans := panel_ans) o).
Proof. by split. Qed.

Lemma ops_audit_cleanup s req : all_ops (quiet true) (embed (AuditService.CleanupRetention s req)).
Proof.
  unfold AuditService.CleanupRetention. cbv zeta. cbn. split; [done|]. intros now. split; [done|]. intros [n|e]; cbn; [|done].
  destruct (dto.arq_DryRun req); cbn; [done|]. split; [done|]. by intros [m|e].
Qed.

Lemma ops_cron_create cleans req : all_ops (quiet cleans) (cron_CreateTask (ans := panel_ans) req).
Proof. unfold cron_CreateTask. destruct (validateCronCommand _); [done|]. apply ops_mapped, ops_agent. Qed.

Lemma ops_cron_update cleans id req : all_ops (quiet cleans) (cron_UpdateTask (ans := panel_ans) id req).
Proof. unfold cron_UpdateTask. destruct (validateCronCommand _); [done|]. apply ops_mapped, ops_agent. Qed.

(** Steps through a handler: its definition, the binding of the request, the
    call, which is quiet, and the two entries. *)
Ltac head_of t := lazymatch t with ?f _ => head_of f | _ => t end.

Ltac open_handler :=
  repeat (cbv beta zeta; first
    [ apply handled_form; intros | apply handled_uri; intros | apply handled_id; intros
    | lazymatch goal with |- handled _ _ ?t => let f := head_of t in unfold f end ]).

Ltac quiet_call :=
  let f := fresh "f" in let Hf := fresh "Hf" in intros f Hf;
  first [ apply records_embed, Hf | apply records_task, Hf
        | apply records_bind; [|exact Hf]; first
          [ apply ops_files | apply ops_audit_cleanup | apply ops_cron_create | apply ops_cron_update | apply ops_mapped, ops_agent | by split ] ].

Ltac entries :=
  let x := fresh in intros x; apply entry_outcome; [reflexivity | first [by exists x | apply succeeded_OK]].

Ltac audited_handler := open_handler; right; apply records_audited; [quiet_call | entries | entries].

(** An entry by a user the handler knows. *)
Ltac user_entry :=
  apply records_recordAudit, entry_by_user; [reflexivity | auto | first [apply succeeded_OK | by eexists]].

Ltac session_entry :=
  open_handler; right; apply records_embed; intros [result|err]; user_entry.

Lemma Login_handled req params c : handled false (entry_of hLogin ("auth", "login") req c) (AuthHandler.Login (dp_Auth d) req params c).
Proof.
  unfold AuthHandler.Login. apply handled_form. intros body. cbv zeta. right. apply records_bind; [by split|].
  intros [err|]; [user_entry|]. apply records_embed. intros [result|err].
  - apply records_bind; [by split|]. intros _. user_entry.
  - apply records_bind; [|intros _; user_entry]. destruct (As err) as [a|]; [|done]. by destruct (_ || _).
Qed.

Lemma Refresh_handled req params c : handled false (entry_of hRefresh ("auth", "refresh") req c) (AuthHandler.Refresh (dp_Auth d) req params c).
Proof.
  unfold AuthHandler.Refresh. apply handled_form. intros token. right. apply records_embed. intros [result|err]; [user_entry|].
  apply records_recordAudit, entry_outcome; [reflexivity|by exists err].
Qed.

Lemma Logout_handled req params c : handled false (entry_of hLogout ("auth", "logout") req c) (AuthHandler.Logout (dp_Auth d) req params c).
Proof.
  unfold AuthHandler.Logout, GetCurrentUserID. destruct (cx_UserID c) as [id|] eqn:E; [|apply handled_refused; right; done].
  rewrite <- E. session_entry.
Qed.

Lemma ChangePassword_handled req params c :
  handled false (entry_of hChangePassword ("auth", "change_password") req c) (AuthHandler.ChangePassword (dp_Auth d) req params c).
Proof.
  unfold AuthHandler.ChangePassword, GetCurrentUserID. destruct (cx_UserID c) as [id|] eqn:E; [|apply handled_refused; right; done].
  rewrite <- E. session_entry.
Qed.

Lemma DownloadFile_handled fuel req params c :
  handled false (entry_of hDownloadFile ("files", "download") req c) (FileHandler.DownloadFile fuel req params c).
Proof.
  unfold FileHandler.DownloadFile. apply handled_form. intros query. cbv zeta. right. apply records_buffered. intros [[[result|err]|] chunks]; cbn [fst snd].
  - apply records_write_body. apply records_recordAudit, entry_outcome; [reflexivity|]. right. do 2 eexists. split; [done|].
    destruct (FileHandler.ranged _); auto.
  - apply records_recordAudit, entry_outcome; [reflexivity|by exists err].
  - done.
Qed.

Lemma upload_file_handled fuel req c target up :
  handled false (entry_of hUploadFile ("files", "upload") req c) (FileHandler.upload_file fuel req c target up).
Proof.
  unfold FileHandler.upload_file. destruct (FormFile req) as [[name [[]|e]]|e]; [|apply handled_refused; left; done|apply handled_refused; left; done].
  cbv zeta. right. apply records_buffered. intros [[result|] chunks]; cbn [fst]; [|done].
  apply records_audited; [intros f Hf; by apply records_bind | entries | entries].
Qed.

Lemma UploadFile_handled fuel req params c :
  handled false (entry_of hUploadFile ("files", "upload") req c) (FileHandler.UploadFile fuel req params c).
Proof.
  unfold FileHandler.UploadFile. cbv zeta. destruct (_ =? "")%string; [apply handled_refused; left; done|].
  apply handled_form. intros [[[|a path]|] offset]; [apply handled_refused; left; done|apply upload_file_handled|apply upload_file_handled].
Qed.

Lemma VerifyBackupTask_handled s req params c :
  handled false (entry_of hVerifyBackupTask ("backups", "verify_task") req c) (BackupHandler.VerifyBackupTask s req params c).
Proof.
  unfold BackupHandler.VerifyBackupTask. apply handled_id. intros id. cbv zeta.
  destruct (ShouldBind BindVerifyBackupTask req) as [body|[| | | | |]];
    first [apply handled_refused; left; done | right; apply records_audited; [quiet_call | entries | entries]].
Qed.

Lemma run_handler_handled h subject req params c : audit_subject h = Some subject ->
  handled (bool_decide (h = hAuditCleanup)) (entry_of h subject req c) (run_handler d h req params c).
Proof.
  intros Hs. destruct h; try discriminate; injection Hs as <-; cbn [run_handler].
  all: try (solve [audited_handler]).
  all: eauto using Login_handled, Refresh_handled, Logout_handled, ChangePassword_handled, DownloadFile_handled, UploadFile_handled,
    VerifyBackupTask_handled.
Qed.

End Handlers.

(** ** Serving a request *)
Section Serving.
Context {B E G : Type} `{BackupImpl B} `{LoginAttemptGuard E G} `{Binding} `{JWT} `{Bcrypt} `{Postgres} `{Gin}.
Context (env : PanelEnv E) (d : deps).
Implicit Type w : PanelWorld B G.

#[local] Abbreviation handle := (panel_handle env).

Definition entries w : list AuditLog := adb_rows (auw_db (pw_audit w)).

Definition record_op (input : dto.RecordAuditInput) : panel_op := PAudit (ARepo (ARCreate (audit_row input))).

Lemma quiet_entries o w : quiet false o -> entries (handle o w).2 = entries w.
Proof.
  unfold entries. destruct o as [o|o|o|k|k|k|n| | |]; cbn [quiet panel_handle].
  - by destruct (auth_handle _ _ _).
  - by destruct (TaskSystem.handle _ _ _).
  - intros Hq. destruct o as [o| |data|data|]; cbn [au_handle]; try (by destruct (exec_sink _ _ _ _)); [|done].
    destruct o; try done; unfold exec_audit_repo; cbn [audit_repo_exec]; by destruct (ae_db _ _).
  - by destruct (Allow _ _ _).
  - done.
  - done.
  - done.
  - done.
  - done.
  - done.
Qed.

Lemma client_reads_on o w : (forall n, ae_out (pe_audit env) n = NoFault) -> client_reads o (handle o w).1.
Proof.
  intros Hf. destruct o as [o|o|o|k|k|k|n| | |]; try done. destruct o as [o| |data|data|]; try done.
  cbn [panel_handle au_handle exec_sink]. by rewrite Hf.
Qed.

(** How a program that records ends. *)
Lemma run_records cleans P (p : panel response) : (forall n, ae_out (pe_audit env) n = NoFault) -> forall w, records cleans P p ->
  let out := run handle p w in
  (out.1 = FileHandler.transferring /\ (cleans = false -> entries out.2 = entries w)) \/
  exists input w1, P input out.1 /\ (cleans = false -> entries w1 = entries w) /\ out.2 = (handle (record_op input) w1).2.
Proof.
  intros Hf. induction p as [x|o k IH]; intros w; cbn [records run]; [by left|]. intros [[Hq Hk]|(input & resp & -> & Hk & HP)].
  - pose proof (client_reads_on o w Hf) as Hr. destruct (handle o w) as [a w1] eqn:Eo. cbn [fst] in Hr.
    assert (Hw : cleans = false -> entries w1 = entries w).
    { intros ->. pose proof (quiet_entries o w Hq) as He. by rewrite Eo in He. }
    destruct (IH a w1 (Hk a Hr)) as [[Ht He]|(input & w2 & HP & He & Eout)].
    + left. split; [done|]. intros Hc. by rewrite He, Hw.
    + right. exists input, w2. split; [done|]. split; [|done]. intros Hc. by rewrite He, Hw.
  - right. exists input, w. fold (record_op input). destruct (handle (record_op input) w) as [a w1]. rewrite Hk.
    cbn [run fst snd]. done.
Qed.

(** The entry that is written, if the table takes it. *)
Lemma record_entries input w : (forall n, ae_db (pe_audit env) n = NoFault) ->
  exists id now, entries (handle (record_op input) w).2 =
    entries w ++ match stored_row id now input with Some row => [row] | None => [] end.
Proof.
  intros Hf. set (a := pw_audit w). exists (adb_next (auw_db a)), (ae_now (pe_audit env) (auw_step a)).
  pose proof (Create_stored (ae_now (pe_audit env) (auw_step a)) input (auw_db a)) as Es.
  unfold entries, record_op. cbn [panel_handle au_handle]. unfold exec_audit_repo. cbn [audit_repo_exec]. fold a. rewrite Hf.
  by destruct (audit_repository.Create _ _ _).
Qed.

(** Nothing has happened but the check of a session. *)
Definition untouched w w' : Prop :=
  pw_tasks w' = pw_tasks w /\ pw_guard w' = pw_guard w /\ pw_audit w' = pw_audit w /\
  same_tables (aw_db (pw_auth w)) (aw_db (pw_auth w')).

Lemma run_embed_auth {A} (p : prog auth_ans A) : forall w, let w' := (run handle (embed p) w).2 in
  pw_tasks w' = pw_tasks w /\ pw_guard w' = pw_guard w /\ pw_audit w' = pw_audit w.
Proof.
  induction p as [x|o k IH]; intros w; cbn [embed run]; [done|]. cbn [inj auth_in_panel panel_handle].
  destruct (auth_handle _ _ _) as [a x]. apply (IH _ (set_auth x w)).
Qed.

(** The chain in front of a handler keeps the identifier of the request. *)
Definition keeps_request (c : ginctx) (x : chain) : Prop :=
  match x with inr c' => cx_RequestID c' = cx_RequestID c | inl _ => True end.

Lemma JWTAuth_request cfg req c : results (keeps_request c) (JWTAuth cfg req c).
Proof.
  unfold JWTAuth. destruct (bearer req); [|done]. apply (results_bind (fun _ => True)); [apply results_any|].
  intros [claims|e] _; [|done]. apply (results_bind (fun _ => True)); [apply results_any|]. intros [[]|e] _; [|done].
  by destruct (_ && _).
Qed.

Lemma gate_request cfg r req c : results (keeps_request c) (gate cfg r req c).
Proof.
  unfold gate. apply (results_bind (keeps_request c)).
  - destruct (rt_Session r); [apply JWTAuth_request|done].
  - intros [resp|c1] Hc; [done|]. cbn [results]. destruct (rt_Permission r) as [p|]; [|done].
    unfold RequirePermission, GetCurrentPermissions. destruct (cx_Permissions c1); [|done]. by destruct (existsb _ _).
Qed.

Lemma refusal_status resp : refusal resp -> rs_Status resp ∈ [204; 400; 401; 403; 500].
Proof. unfold refusal. rewrite !elem_of_cons. tauto. Qed.

(** Nothing is done unrecorded: what a request to a handler that is to be audited
    has come to.  Either it is refused and nothing has happened but the check of
    its session: no task, backup, agent call or audit entry, and the users and
    their rights are as before.  Or the caller meets the policy of the handler,
    and the handler ends with one entry, in the row of the table if it fits
    there: it has the handler's module and action, the caller's identity,
    address and request identifier, and says success just when the client is
    told so, or else the error the client gets.  (Or a transfer is longer than
    the chunks it may take.) *)
Definition accounted uuid req (r : route) subject w (resp : response) w' : Prop :=
  (untouched w w' /\ rs_Status resp ∈ [204; 400; 401; 403; 500]) \/
  exists c db, entitled (dp_Auth d) (policy (rt_Handler r)) req c db /\ same_tables (aw_db (pw_auth w)) db /\
    ((resp = FileHandler.transferring /\ (rt_Handler r <> hAuditCleanup -> entries w' = entries w)) \/
     exists input old id now, entry_of (rt_Handler r) subject req c input resp /\ cx_RequestID c = RequestID req uuid /\
       (rt_Handler r <> hAuditCleanup -> old = entries w) /\
       entries w' = old ++ match stored_row id now input with Some row => [row] | None => [] end).

(** The client reads its answer and the statements of the audit table do not fail. *)
Definition audit_works : Prop := (forall n, ae_db (pe_audit env) n = NoFault) /\ (forall n, ae_out (pe_audit env) n = NoFault).

Lemma serve_accounted uuid trace req r params subject w :
  user_db_ok (aw_db (pw_auth w)) -> names_ok (aw_db (pw_auth w)) ->
  find_route routes (rq_Method req) (rq_Path req) = Matched r params -> audit_subject (rt_Handler r) = Some subject ->
  audit_works ->
  let out := run handle (serve_http (dp_Auth d) (run_handler d) uuid trace req) w in
  accounted uuid req r subject w out.1 out.2.
Proof.
  intros Hok Hn Hroute Hs [Hdb Hout]. cbv zeta. unfold accounted, serve_http. rewrite Hroute.
  destruct (CORS req).2; [left; split; [done|rewrite elem_of_cons; by left]|].
  pose proof (find_route_sound _ _ _ _ _ Hroute) as [Hr _]. set (c0 := start_context req uuid trace).
  pose proof (run_gate (pe_auth env) (dp_Auth d) r req c0 (pw_auth w) Hok Hn Hr) as [Hsame Hgate].
  pose proof (run_embed (auth_handle (pe_auth env)) handle pw_auth (auth_inside env) _ (gate (dp_Auth d) r req c0) w) as [E1 E2].
  pose proof (run_embed_auth (gate (dp_Auth d) r req c0) w) as Hrest.
  pose proof (results_run (auth_handle (pe_auth env)) _ _ (pw_auth w) (gate_request (dp_Auth d) r req c0)) as Hreq.
  rewrite run_bind. destruct (run handle (embed (gate (dp_Auth d) r req c0)) w) as [x w1]. cbn [fst snd] in *.
  rewrite <- E1 in *. rewrite <- E2 in *. assert (Hw1 : untouched w w1) by (destruct Hrest as (? & ? & ?); done).
  destruct x as [resp|c]; [left; split; [done|]; by apply refusal_status|].
  destruct (run_handler_handled d (rt_Handler r) subject req params c Hs) as [(resp & Ep & Est)|Hrec].
  { left. rewrite Ep. split; [done|]. cbn [run fst]. rewrite !elem_of_cons. tauto. }
  right. exists c, (aw_db (pw_auth w1)). split; [exact Hgate|]. split; [apply Hw1|].
  assert (He1 : entries w1 = entries w) by (unfold entries; destruct Hw1 as (_ & _ & -> & _); done).
  destruct (run_records _ _ _ Hout w1 Hrec) as [[Ht He]|(input & w2 & HP & He & Eout)].
  - left. split; [done|]. intros Hne. rewrite <- He1. apply He, bool_decide_eq_false. exact Hne.
  - right. destruct (record_entries input w2 Hdb) as (id & now & Hrow). exists input, (entries w2), id, now.
    split; [exact HP|]. split; [exact Hreq|]. rewrite Eout. split; [|exact Hrow].
    intros Hne. rewrite <- He1. apply He, bool_decide_eq_false. exact Hne.
Qed.

(** ** The login and its throttling *)

Lemma guard_embed {A} (p : prog auth_ans A) w : pw_guard (run handle (embed p) w).2 = pw_guard w.
Proof. by destruct (run_embed_auth p w) as (_ & ? & _). Qed.

Lemma recordAudit_guard req c input w : pw_guard (run handle (recordAudit req c input) w).2 = pw_guard w.
Proof.
  unfold recordAudit, Record_, call. cbn [bind embed run inj audit_in_panel panel_handle proj].
  by destruct (au_handle _ _ _).
Qed.

#[local] Abbreviation wpp := (wp (panel_handle env)).

(** A handler's last words do not touch the limiter. *)
Lemma wp_record_reply req c input (resp : response) (Q : response -> PanelWorld B G -> Prop) w :
  (forall w', pw_guard w' = pw_guard w -> Q resp w') -> wpp (bind (recordAudit req c input) (fun _ => Ret resp)) Q w.
Proof.
  intros HQ. apply wp_bind. unfold wp. pose proof (recordAudit_guard req c input w) as Hg.
  destruct (run handle (recordAudit req c input) w) as [u w1]. by apply HQ.
Qed.

(** The service behind the handler. *)
Lemma wp_embed_auth {A} (p : prog auth_ans A) (Q : A -> PanelWorld B G -> Prop) w :
  (forall w', pw_guard w' = pw_guard w -> Q (run (auth_handle (pe_auth env)) p (pw_auth w)).1 w') -> wpp (embed p) Q w.
Proof.
  intros HQ. pose proof (run_embed (auth_handle (pe_auth env)) handle pw_auth (auth_inside env) _ p w) as [E1 _].
  pose proof (guard_embed p w) as Hg. unfold wp. destruct (run handle (embed p) w) as [r w1]. cbn [fst snd] in *.
  rewrite E1. by apply HQ.
Qed.

Definition login_reply (r : res dto.LoginResponse) : response :=
  match r with Ok resp => OK (DtoJson.LoginResponse_json resp) | Err err => FromError err end.

(** C20 The login handler of the server is the one the throttling theorems are
    about: with the answer the authentication service gives to this login in
    this world, and the clock or network as the limiter sees them, the handler
    answers and changes the limiter just as [handler_Login] does. *)
Theorem Login_refines req params c body w : ShouldBind BindLogin req = Ok body ->
  let out := run handle (AuthHandler.Login (dp_Auth d) req params c) w in
  exists finish,
    let service _ := (run (auth_handle (pe_auth env)) (AuthService.Login (dp_Auth d) body) (pw_auth w)).1 in
    let spec := handler_Login (dto.lr_Username body) (rq_ClientIP req) (pe_guard env (pw_step w)) finish service (pw_guard w) in
    out.1 = login_reply spec.1 /\ pw_guard out.2 = spec.2.
Proof.
  intros Hb. cbv zeta. set (key := BuildLoginAttemptKey (dto.lr_Username body) (rq_ClientIP req)).
  pose (Q := fun (x : response) (w' : PanelWorld B G) => exists finish,
    let spec := handler_Login (dto.lr_Username body) (rq_ClientIP req) (pe_guard env (pw_step w)) finish
      (fun _ => (run (auth_handle (pe_auth env)) (AuthService.Login (dp_Auth d) body) (pw_auth w)).1) (pw_guard w) in
    x = login_reply spec.1 /\ pw_guard w' = spec.2).
  enough (Hw : wpp (AuthHandler.Login (dp_Auth d) req params c) Q w).
  { unfold wp in Hw. by destruct (run handle (AuthHandler.Login _ _ _ _) w). }
  unfold AuthHandler.Login, with_form. rewrite Hb. cbv zeta. fold key. apply wp_bind. unfold wp at 1, call at 1.
  cbn [run panel_handle]. destruct (Allow key (pe_guard env (pw_step w)) (pw_guard w)) as [[err|] g] eqn:Ea.
  { apply wp_record_reply. intros w' Hg. exists (pe_guard env 0). unfold handler_Login. fold key. by rewrite Ea. }
  apply wp_bind, wp_embed_auth. intros w2 Hg2. cbn [set_guard pw_auth pw_guard] in *.
  destruct (run _ (AuthService.Login _ _) (pw_auth w)).1 as [resp|err] eqn:El.
  - apply wp_bind. unfold wp at 1, call at 1. cbn [run panel_handle]. apply wp_record_reply. intros w' Hg.
    exists (pe_guard env (pw_step w2)). unfold handler_Login. fold key. rewrite Ea, ?El. cbn [fst snd].
    split; [done|]. rewrite Hg. cbn [set_guard pw_guard]. by rewrite Hg2.
  - pose (fails := match As err with
                   | Some a => (ae_Code a =? app_code ErrInvalidCredential) || (ae_Code a =? app_code ErrUserDisabled)
                   | None => false end).
    apply wp_bind, (wp_mono _ _ (fun _ w' => pw_guard w' = if fails then RecordFailure key (pe_guard env (pw_step w2)) g else g)).
    { unfold fails. destruct (As err) as [a|]; [|exact Hg2]. destruct (_ || _); [|exact Hg2].
      unfold wp, call. cbn [run panel_handle set_guard pw_guard]. by rewrite Hg2. }
    intros _ w3 Hg3. apply wp_record_reply. intros w' Hg. exists (pe_guard env (pw_step w2)).
    unfold handler_Login. fold key. rewrite Ea, ?El, Hg, Hg3. unfold fails. destruct (As err) as [a|]; [|done].
    by destruct (_ || _).
Qed.

End Serving.
