(* ===== verification/Server.v ===== *)
(** * The whole server

    [internal/api/router.go]: the chain of a request from the first handler to
    the last - preflight, request identifier, span, recovery, metrics and access
    log around the session, the permission and the route's own handler. *)

From Stdlib Require Import ZArith Lia.
From stdpp Require Import gmap strings.
From S2P Require Import Prelude GoString GoTime GoError Effects Table Schema Json Dto Agent BackupApi TaskSystem Metrics.
From S2P Require Import AuditRepo AuditService AuditProps LoginLimiter Crypto UserRepo AuthService AuthSystem AuthProps.
From S2P Require Import Http Observed Access Panel Handlers HandlerProps.

Open Scope prog_scope.

Section Server.
Context {B E G : Type} `{BackupImpl B} `{LoginAttemptGuard E G} `{Binding} `{JWT} `{Bcrypt} `{Postgres} `{Gin}.
Context (d : deps) (tracing : bool).

(** [c.FullPath()]. *)
Definition fullPath (req : request) : string :=
  match find_route routes (rq_Method req) (rq_Path req) with Matched r _ => rt_Path r | _ => "" end.

(** gin redirects before any handler; [CORS] answers before the chain goes on. *)
Definition answered_first (req : request) : option response :=
  match find_route routes (rq_Method req) (rq_Path req) with
  | Redirected status => Some (MkResponse status NoBody)
  | _ => if (CORS req).2 then Some (MkResponse 204 NoBody) else None
  end.

(** [uuid] is the fresh identifier, [span] the identifiers of the span that
    otelgin starts when it is installed. *)
Definition NewRouter (uuid : string) (span : option (string * string)) (req : request)
    : prog (observed_ans panel_ans) (Observed.outcome response) :=
  match answered_first req with
  | Some resp => Ret (Returns resp)
  | None =>
    let span := if tracing then span else None in
    observed panel_ans tracing req (fullPath req) (Some (RequestID req uuid)) span
      (resp <- serve_http (dp_Auth d) (run_handler d) uuid (fst <$> span) req ;; Ret (Returns resp))
  end.

(** ** The audit and the access log agree *)
Context (env : PanelEnv E) (clock : nat -> Z).
Implicit Type w : ObservedWorld (PanelWorld B G).

#[local] Abbreviation handle := (observed_handle panel_ans (panel_handle env) clock).

(** A request that was answered before the chain leaves no trace. *)
Definition unseen w w' : Prop :=
  ow_rest w' = ow_rest w /\ ow_log w' = ow_log w /\ ow_metrics w' = ow_metrics w /\ ow_attributes w' = ow_attributes w.

(** One line, one count, one duration. *)
Record seen (uuid : string) (span : option (string * string)) (req : request) (resp : response) w w' : Prop := {
  seen_line : exists line, ow_log w' = ow_log w ++ [line] /\ al_RequestID line = RequestID req uuid /\
    al_Status line = rs_Status resp /\ al_Method line = rq_Method req /\ al_Path line = rq_Path req /\
    al_IP line = rq_ClientIP req /\ al_TraceID line = from_option fst "" span;
  seen_count : forall labels, counter labels (HTTPRequestsTotal (ow_metrics w')) = counter labels (HTTPRequestsTotal (ow_metrics w))
    + (if decide ([rq_Method req; (if (fullPath req =? "")%string then "unmatched" else fullPath req); fmt_d (rs_Status resp)] = labels)
       then 1 else 0);
  seen_duration : exists t, forall labels, observations labels (HTTPRequestDuration (ow_metrics w'))
    = observations labels (HTTPRequestDuration (ow_metrics w))
      ++ (if decide ([rq_Method req; (if (fullPath req =? "")%string then "unmatched" else fullPath req)] = labels) then [Seconds t] else []);
  seen_in_flight : HTTPRequestsInFlight (ow_metrics w') = HTTPRequestsInFlight (ow_metrics w);
  seen_span : ow_attributes w' = ow_attributes w ++ (if tracing then [("snowpanel.request_id", RequestID req uuid)] else [])
}.

Lemma NewRouter_run uuid span req w : let span' := if tracing then span else None in
  let served := run (panel_handle env) (serve_http (dp_Auth d) (run_handler d) uuid (fst <$> span') req) (ow_rest w) in
  let out := run handle (NewRouter uuid span req) w in
  out.1 = Returns served.1 /\ ow_rest out.2 = served.2 /\ ow_panics out.2 = ow_panics w /\
  match answered_first req with Some _ => unseen w out.2 | None => seen uuid span' req served.1 w out.2 end.
Proof.
  cbv zeta. set (span' := if tracing then span else None). unfold NewRouter. destruct (answered_first req) as [resp|] eqn:Ef.
  - assert (Es : serve_http (dp_Auth d) (run_handler d) uuid (fst <$> span') req = Ret resp).
    { unfold answered_first in Ef. unfold serve_http. destruct (find_route _ _ _) as [r params|status|].
      - destruct (CORS req).2; [by injection Ef as <-|done].
      - by injection Ef as <-.
      - destruct (CORS req).2; [by injection Ef as <-|done]. }
    rewrite Es. done.
  - cbv zeta. fold span'.
    pose proof (observed_request panel_ans (panel_handle env) clock tracing req (fullPath req) (Some (RequestID req uuid)) span'
      (resp <- serve_http (dp_Auth d) (run_handler d) uuid (fst <$> span') req ;; Ret (Returns resp)) w) as Ho.
    cbv zeta in Ho. rewrite run_bind in Ho. destruct (run (panel_handle env) (serve_http _ _ _ _ _) (ow_rest w)) as [resp w1].
    cbn [run fst snd] in Ho |- *. destruct Ho as (H1' & Hatt & Hfl & _ & _ & Hret & Hpan & Hcount & Hdur & line & Hlog & Hst & Hpath & Hid & Hm & Hip & Htr).
    split; [done|]. split; [done|]. split; [done|]. split; [|done|done|done|].
    + exists line. by repeat split.
    + rewrite Hatt. unfold attributes. by destruct tracing.
Qed.

End Server.
