(* ===== verification/HandlerExamples.v ===== *)
(** * Requests to the whole server

    A small panel: users in memory, an agent that lists and reads files and
    restarts containers, no backups.  An operator lists a directory, and the
    listing is in the audit; two requests that leave no entry or a forged one. *)

From Stdlib Require Import ZArith Lia Ascii SpecFloat.
From stdpp Require Import sets.
From S2P Require Import Prelude GoString GoTime GoError Effects Table Schema Json Dto DtoJson Agent BackupApi AgentServices.
From S2P Require Import TaskPayload TaskService TaskSystem AuditRepo AuditService AuditProps FileService LoginLimiter.
From S2P Require Import Crypto UserRepo AuthService AuthSystem AuthProps AuthExamples Http Access AccessExamples Panel Handlers HandlerProps.
From S2P Require Import Metrics.
From S2P Require TaskExamples.
From S2P Require Observed Server.

(** ** The parts *)

(** JSON written with apostrophes. *)
Fixpoint unquote (s : string) : string :=
  match s with
  | EmptyString => EmptyString
  | String a s => String (if Ascii.eqb a "'"%char then Ascii.ascii_of_nat 34 else a) (unquote s)
  end.

(** Requests whose query or body is the bare value. *)
#[export] Instance plain_binding : Binding := {
  ShouldBind f req :=
    match f return res (form_val f) with
    | BindLogin => Ok {| dto.lr_Username := "bob"; dto.lr_Password := rq_Body req |}
    | BindListFiles => Ok (rq_RawQuery req)
    | BindReadText => Ok {| dto.rtfq_Path := rq_Body req; dto.rtfq_MaxBytes := 0; dto.rtfq_Encoding := "" |}
    | BindDockerRestart => Ok {| dto.drt_ContainerID := rq_Body req; dto.drt_IdempotencyKey := "" |}
    | _ => Err (ErrNew "not bound")
    end;
  PostForm _ _ := "";
  Query _ _ := "";
  FormFile _ := Err (ErrNew "no file")
}.

(** A database that takes only well-formed JSON for a summary. *)
#[export] Instance strict_pg : Postgres := {
  inet s := if (s =? "")%string then None else Some s;
  jsonb s := match Parse s with Some _ => Some s | None => None end
}.

Definition file_agent (o : agent_op) : agent_ans o :=
  match o return agent_ans o with
  | AListFiles path => Ok {| grpcclient.lf_CurrentPath := path; grpcclient.lf_Entries := [] |}
  | AGetSystemOverview => Ok
    {| grpcclient.so_Hostname := "host"; grpcclient.so_OS := "Linux"; grpcclient.so_Kernel := "6.1"; grpcclient.so_Uptime := "3h";
       grpcclient.so_CPUUsagePercent := float_lit 375 1; grpcclient.so_MemoryUsagePercent := float_lit 81 1;
       grpcclient.so_DiskUsagePercent := float_lit 70 0 |}
  | AGetRealtimeResource => Ok
    {| grpcclient.rr_CPUUsagePercent := float_div (float64_of_Z 100) (float64_of_Z 3); grpcclient.rr_MemoryUsagePercent := S754_zero false;
       grpcclient.rr_DiskUsagePercent := S754_nan; grpcclient.rr_LoadAverage1m := S754_zero false;
       grpcclient.rr_LoadAverage5m := S754_zero false; grpcclient.rr_LoadAverage15m := S754_zero false |}
  | o => TaskExamples.docker_agent o
  end.

Definition penv : PanelEnv Z := {|
  pe_auth := AuthExamples.env0;
  pe_tasks := {| env_now n := clock0 + Z.of_nat n * Second; env_db _ := NoFault; env_agent _ := file_agent;
                 env_done _ := false; env_pick _ := false |};
  pe_audit := {| ae_now n := clock0 + Z.of_nat n * Second; ae_db _ := NoFault; ae_out _ := NoFault; ae_cut _ := 0%nat |};
  pe_guard n := clock0;
  pe_read _ _ := (0, Some ErrEOF, "");
  pe_ping _ := Ok tt;
  pe_health _ := Ok "SERVING";
  pe_now _ := clock0
|}.

Definition limiter0 : memory.LoginAttemptLimiter := memory.NewLoginAttemptLimiter 2 0 0.

Definition panel0 : PanelWorld unit memory.LoginAttemptLimiter :=
  MkPanel 0 bob_world TaskExamples.world0 (MkAuditWorld 0 {| adb_rows := []; adb_next := 1 |} empty_sink) limiter0.

Definition deps0 : deps := {|
  dp_Auth := cfg0;
  dp_Tasks := TaskExamples.options0 true;
  dp_Audit := NewAuditServiceWithOptions 0 0;
  dp_Chunks := 8;
  dp_Metrics := OK JNull;
  dp_Unrendered := MkResponse 200 NoBody
|}.

Definition ask (req : request) : response * PanelWorld unit memory.LoginAttemptLimiter :=
  run (panel_handle penv) (serve_http (dp_Auth deps0) (run_handler deps0) "id-1" None req) panel0.

Definition bob_sends (method path query body : string) (headers : string -> string) : request :=
  {| rq_Method := method; rq_Path := path; rq_RawQuery := query; rq_Body := body; rq_ClientIP := "10.0.0.1";
     rq_Header h := if (h =? "Authorization")%string then ("Bearer " +:+ bob_token)%string else headers h |}.

Definition no_headers (h : string) : string := "".

(** ** A recorded request *)

Definition list_logs : request := bob_sends "GET" "/api/v1/files/list" "/var/log" "" no_headers.

Definition list_route : route :=
  match find_route routes (rq_Method list_logs) (rq_Path list_logs) with
  | Matched r _ => r
  | _ => write_route
  end.

(** The whole server around the panel. *)
Definition server0 : Observed.ObservedWorld (PanelWorld unit memory.LoginAttemptLimiter) := Observed.MkObserved 0 panel0 Metrics.New [] [] [].

Definition span0 : option (string * string) := Some ("trace-1", "span-1").

Definition served : Observed.outcome response * Observed.ObservedWorld (PanelWorld unit memory.LoginAttemptLimiter) :=
  run (Observed.observed_handle panel_ans (panel_handle penv) (fun n => Z.of_nat n * Second)) (Server.NewRouter deps0 true "id-1" span0 list_logs) server0.


(** ** The dashboard

    A measurement that is not a number leaves the client without a body; and what
    a summary without one prints. *)
Example summary_not_a_number : (ask (bob_sends "GET" "/api/v1/dashboard/summary" "" "" no_headers)).1 = MkResponse 200 NoBody.
Proof. vm_compute. reflexivity. Qed.

Example summary_printed :
  Marshal <$> DashboardSummary_json
    {| dto.ds_Hostname := "host"; dto.ds_SystemVersion := "Linux"; dto.ds_KernelVersion := "6.1";
       dto.ds_CPUUsage := float_div (float64_of_Z 100) (float64_of_Z 3); dto.ds_MemoryUsage := float_lit 81 1;
       dto.ds_DiskUsage := float_lit 70 0; dto.ds_Uptime := "3h" |}
  = Some (unquote "{'hostname':'host','system_version':'Linux','kernel_version':'6.1','cpu_usage':33.333333333333336,'memory_usage':8.1,'disk_usage':70,'uptime':'3h'}").
Proof. vm_compute. reflexivity. Qed.

(** ** A throttled login *)

Definition wrong_login : request := bob_sends "POST" "/api/v1/auth/login" "" "guess" no_headers.

Definition ctx0 : ginctx := start_context wrong_login "id-2" None.

(** Two failures lock the key out; the third attempt is refused. *)
Fixpoint attempts (n : nat) (w : PanelWorld unit memory.LoginAttemptLimiter) : list response * PanelWorld unit memory.LoginAttemptLimiter :=
  match n with
  | O => ([], w)
  | S n =>
    let '(resp, w) := run (panel_handle penv) (AuthHandler.Login cfg0 wrong_login [] ctx0) w in
    let '(resps, w) := attempts n w in (resp :: resps, w)
  end.

Lemma Login_refines_witness :
  (let out := run (panel_handle penv) (AuthHandler.Login cfg0 wrong_login [] ctx0) panel0 in
   exists finish,
     let service _ := (run (auth_handle (pe_auth penv))
       (AuthService.Login cfg0 {| dto.lr_Username := "bob"; dto.lr_Password := "guess" |}) (pw_auth panel0)).1 in
     let spec := handler_Login "bob" "10.0.0.1" (pe_guard penv (pw_step panel0)) finish service (pw_guard panel0) in
     out.1 = login_reply spec.1 /\ pw_guard out.2 = spec.2) /\
  map rs_Status (attempts 3 panel0).1 = [401; 401; 429] /\
  map al_ResultCode (entries (attempts 3 panel0).2) = ["login_failed"; "login_failed"; "rate_limited"].
Proof.
  split; [|split; vm_compute; reflexivity].
  apply (Login_refines penv deps0 wrong_login [] ctx0 {| dto.lr_Username := "bob"; dto.lr_Password := "guess" |} panel0).
  reflexivity.
Defined.

(** ** Entries that are lost or forged *)

Definition long_id (h : string) : string :=
  if (h =? "X-Request-ID")%string then String.string_of_list_ascii (repeat "x"%char 129) else "".

(** A request identifier of the client that is longer than its column: the
    listing succeeds and the table keeps no entry. *)
Lemma long_request_id_unrecorded :
  let out := ask (bob_sends "GET" "/api/v1/files/list" "/var/log" "" long_id) in
  rs_Status out.1 = 200 /\ entries out.2 = [].
Proof. vm_compute. done. Qed.

(** What the creation of a restart task for a container leaves. *)
Definition restart_task (container : string) : response * PanelWorld unit memory.LoginAttemptLimiter :=
  run (panel_handle penv)
    (TaskHandler.CreateDockerRestartTask (dp_Tasks deps0) (bob_sends "POST" "" "" container no_headers) [] ctx0) panel0.

Definition forged_container : string :=
  ("web" +:+ dq +:+ "," +:+ dq +:+ "operation" +:+ dq +:+ ":" +:+ dq +:+ "none")%string.

(** The name of the container goes into the summary as it is: one that brings
    members of its own replaces the operation that is recorded. *)
Lemma forged_operation :
  let out := restart_task forged_container in
  rs_Status out.1 = 200 /\
  map (fun e => Parse (al_RequestSummary e)) (entries out.2) = [Some (JObj [("container_id", JStr "web"); ("operation", JStr "none")])].
Proof. vm_compute. done. Qed.

(** A single quote mark makes the summary no JSON: the task is created and the
    table keeps no entry. *)
Lemma broken_summary :
  let out := restart_task ("web" +:+ dq)%string in rs_Status out.1 = 200 /\ entries out.2 = [].
Proof. vm_compute. done. Qed.
